(* ===== verification/_CoqProject ===== *)
-Q . S2P
Prelude.v
Machine.v
Bitstream.v
Wire.v
Fields.v
BitstreamSpec.v
Net.v
Protocol.v
TransactionProtocol.v
TransactionProtocolSpec.v
Queue.v
LinkedList.v
Hashtable.v
Pool.v
Memory.v
NetSocket.v
NetSocketSpec.v
NetSocketLife.v
StunProtocol.v
StunProtocolSpec.v
Floats.v
FloatStream.v
StreamFlow.v
StreamReliability.v
StreamReliabilitySpec.v
StreamExchange.v
Stream.v
StreamSpec.v
StreamRun.v
StreamPeers.v
StreamTime.v
Timeout.v
Transaction.v
TransactionSpec.v
TransactionStep.v
TransactionRun.v
TransactionAnswer.v
TransactionWatch.v
TransactionLoss.v
Teardown.v
Stun.v
StunSpec.v
StunRun.v
StunReplies.v
StunNat.v
StunForward.v
Logs.v
