(* ===== verification/Prelude.v ===== *)
(** * universal-network-c: verification library

    universal-network-c is a C library for peer-to-peer applications: streams
    of small objects over UDP with their own acknowledgements, transactions
    (requests that are answered or fail), and a STUN client that finds out
    how the host is seen through a NAT.  This library models the code under
    src/src/ and proves what makes it correct, and where it is not.

    ** The program

    A socket (net_socket.c) owns a pool of 64 packets (pool.c), each with 256
    bytes and a bit stream over them (bitstream.c, net_packet.c), and a queue
    of packets to send (queue.c).  Grand Central Dispatch calls its event
    handlers; they hand packets to a receive callback or to a receive block.
    On a socket lives one of three clients: the streams (stream.c, with a
    linked list of streams from list.c, and for each of them
    stream_reliability.c and stream_flow.c), the transactions (transaction.c,
    with a table of pending transactions from hashtable.c and a timer for each
    of them from timeout.c), or the STUN client (stun.c and stun_tests.c, with
    a receive block and a timer of its own), which takes the place of another
    client while it resolves and forwards what is not STUN to it.  Their
    messages are packed and unpacked by stream_protocol.c,
    transaction_protocol.c and stun_protocol.c after a header from protocol.c.

    ** Conventions

    - Integers are Z; [u8] ... [u64] and [s32] are written where the C type
      wraps around.  Floats are IEEE binary32 and binary64 values (Floats).
    - A program is a function from a state to [Done] with a result and a new
      state, or to a [Fault]: an access outside an object or to freed memory,
      a null dereference, a failed assertion, a conversion of a float to an
      integer that cannot hold it, or [OutOfFuel].  A theorem that
      says that a run is [Done] thus also says that the memory is safe, that
      no assertion fails and that every loop ends.
    - Pointers are Z, zero is NULL.  A heap is a [gmap] from addresses to
      records; freed objects are not in it.
    - A dispatch queue is a list of tasks.  Each task, each event handler of a
      socket, each call of the application is one atomic step, because every
      component runs its tasks on one serial queue; what is shared between
      queues (the handler of a timer and the task it dispatches, the receive
      block of a socket and the packet that is on its way to it) is split into
      several steps, so that their interleavings are visible.
    - The two byte orders are instances of the class [Host]; everything is
      proved for both unless it says otherwise.

    ** The files

    - Prelude: this text; integers, bytes, the monad, lists, automation.
    - Machine: abstract machines, the clients that call them, and the class
      [Implements] of the components that behave as a machine for any client.
    - Bitstream (bitstream.[ch]); Wire, Fields: what it means to emit and to
      parse a sequence of bytes ([emits], [parses], [codec]) and that fields
      and their sequences do so; BitstreamSpec: round trips, bounds, byte
      orders, strings.
    - Net (net_addr.[ch], net_error.[ch], net_packet.[ch]).
    - Protocol (protocol.[ch], stream_protocol.[ch]); TransactionProtocol and
      TransactionProtocolSpec (transaction_protocol.[ch]); StunProtocol and
      StunProtocolSpec (stun_protocol.[ch]).
    - Queue (queue.[ch]), LinkedList (list.[ch]), Hashtable (hashtable.[ch]),
      Pool (pool.[ch]): each model with its refinement of a list, a list, a
      map, and a map to reference counts, which are machines that it
      [Implements], as a timeout does.  Memory: the blocks that the
      containers and a stream allocate, grow and destroy.
    - NetSocket (net_socket.[ch], net_socket_internal.h); NetSocketSpec: the
      owners of packets.  [socket_holds s owners pending] says that the pool
      counts for each packet exactly the references that the users [owners],
      the dispatched blocks and the queue [pending] have.  It is the
      interface of the socket: the clients are proved against it.
      NetSocketLife: creation and destruction of a socket, its dispatch
      sources and their cancel handlers, which race.
    - Floats; FloatStream (the fixed-point floats of bitstream.[ch]);
      StreamFlow (stream_flow.[ch]), StreamReliability and
      StreamReliabilitySpec (stream_reliability.[ch]).
    - Stream (stream.[ch], stream_internal.h), StreamSpec: the invariant and
      the operations; StreamRun: sequences of steps and delivery between two
      peers; StreamTime: the timer, ticks after each of which the dispatch
      queue runs.  StreamExchange: the acknowledgements of two peers over a
      network that loses, repeats and reorders messages; StreamPeers: two ends
      of the code, with their timers, queues, sockets and packets, run as such
      peers.
    - Timeout (timeout.[ch]): one-shot timers, their dispatch sources, and
      their handlers in two halves.
    - Transaction (transaction.[ch], transaction_internal.h); TransactionSpec:
      owners of packets, the ledger of transactions and the timers;
      TransactionStep: each step keeps the invariant [flight_holds flight],
      where [flight] tells the transactions whose timer's handler has run its
      block and not ended, and [trans_holds] is the case of none;
      TransactionRun: requests that are never answered; TransactionAnswer:
      requests between two agents, and the faults; TransactionWatch: agents
      that do everything in any order, the halves of the timers' handlers
      included; TransactionLoss: requests between two agents over a network
      that loses datagrams.
    - Teardown: [streamTeardown] and [transactionTeardown], on the invariants
      of their components and the life of their sockets.
    - Stun (stun.[ch], stun_tests.[ch], stun_utils.[ch], stun_internal.h);
      StunSpec: the life of one test; StunRun: the five tests in a row;
      StunReplies: the bytes of a server's responses; StunNat: the whole
      exchange and what it says of a NAT; StunForward: the client in front of
      the transactions, when a peer asks during the exchange.
    - Logs: what is logged of the STUN client, of streams, addresses and
      errors.

    ** The theorems

    - Messages: every field and every message that is packed is unpacked to
      the same value ([int_roundtrip], [float_roundtrip],
      [stream_packet_roundtrip], [request_roundtrip],
      [stun_header_roundtrip]); receivers stay inside
      the 256 bytes of a packet whatever they hold, as long as the lengths
      that the code does not check are small enough
      ([stream_receive_safe], [transaction_receive_safe],
      [stun_receive_safe]), and leave them otherwise ([peer_list_overflow]).
    - Containers refine their abstract specification under any sequence of
      operations ([queue_refines_fifo], [list_refines_sequence],
      [hashtable_refines_map], [pool_refines_counts],
      [timeout_refines_slot]).
      A timeout does so unless it is used while its handler runs.
    - Sockets conserve packets, but for those that empty datagrams and
      datagrams without a receiver take, and send in order
      ([socket_conserves_packets], [socket_receives],
      [socket_sends_in_order]).
    - Streams: any run is free of faults ([stream_safe]), an object that is
      sent to a stream that the receiver knows is delivered unchanged
      ([stream_delivery]), ack bits say what has arrived ([ack_bits_track],
      [ack_marks]), a silent peer is reported again and again
      ([stream_times_out]).  Two peers on a network that loses, repeats and
      reorders never take a packet for acknowledged that the other has not
      heard ([acks_exact]), as long as every step is [timely]
      ([late_ack_unsound] is what happens otherwise); two ends of the code run
      as those peers until a step is not timely ([streams_refine_exchange]).
    - Lifetimes: the containers leak nothing ([lifetime_balanced]) unless an
      allocation fails while one grows ([failed_growth_leaks]); the write
      source of a socket is resumed and suspended in turn
      ([write_source_balanced]), and a socket that is destroyed never closes
      properly ([close_never_clean]); what teardown gives back, and what it
      leaves ([stream_teardown], [transaction_teardown]).
    - Transactions: any run is free of faults ([transaction_safe]) and every
      transaction in the table has a timer or a retry ([transaction_watched]),
      up to a request that cannot be answered or a task that overtakes the
      handler of a timer ([unserviceable], [overtaken]); a response that
      overtakes the handler makes it write to freed memory
      ([late_timer_faults]), a retry loses its timer
      ([overtaken_retry_forgets]).  Requests are answered or expire
      ([request_answered], [request_expires]); on a network that loses
      datagrams a request is answered after at most two losses, and what the
      other end makes of its copies ([request_despite_losses]).
    - STUN: when each test gets a well-formed response of its own in time, or
      none, the exchange refines the rules of the five tests
      ([stun_resolves]); what those rules make of each kind
      of NAT ([stun_classifies_nat]); a request that is forwarded to the
      transactions loses its packet to the next datagram
      ([forwarded_request_overwritten]); the report that is logged says what
      was found, and no more ([report_faithful]).
    - Theorems of kind error state, exactly, what the code does where it goes
      wrong.

    ** Loops and fuel

    [for] loops over arrays are structural.  A [while] loop takes a bound from
    the state it runs on: the number of nodes of a list's block plus one, the
    keys of a table, the objects of a pool plus one, the length of the queue of
    a socket, the 35 slots of the ring of packets, the length field of a STUN
    message (each attribute takes at least four bytes).  That the bound is
    enough follows from the same theorems that say that the operation is
    [Done], since running out is a [Fault].  [stunRunNextTest] and the retries
    of timers are not loops: every turn is a task of the queue, and the
    theorems run the queue to its end.

    ** Parameters and hypotheses

    What is not in the repository is an argument: [malloc], [calloc],
    [realloc], [Block_copy] and [dispatch_source_create] (fresh non-zero
    addresses, the class [fresh_address]; where the code can go on without memory, also NULL), the
    answers of the socket calls, of [getaddrinfo] and of [getifaddrs], the
    clock, the random device and [rand], [inet_ntoa], the text that [printf]
    writes for a float, and the callbacks of the application.
    Contents of memory that [malloc] returns are arguments too.

    ** Not modelled

    The messages that components log in passing, which have no effect but
    their output; the assignments of an error to an out-parameter ([netErrorSet],
    [netErrorSetPosix]), which are a value of the result where they are used;
    the umbrella header net.h, the build files and the unit tests.  A file that
    sees one aspect of the state (Memory, NetSocketLife) says what it leaves to
    the others. *)
From stdpp Require Export base list list_numbers numbers option gmap fin_maps.
From Stdlib Require Export ZArith Lia.

#[global] Open Scope Z_scope.

(** ** Machine integers

    The integers of the program are kept at their C width: [u8], [u16],
    [u32] and [u64] are the conversions to the unsigned types, [s32] is the
    (two's complement) conversion to [int]. *)

Definition u8 (x : Z) : Z := x mod 2 ^ 8.
Definition u16 (x : Z) : Z := x mod 2 ^ 16.
Definition u32 (x : Z) : Z := x mod 2 ^ 32.
Definition u64 (x : Z) : Z := x mod 2 ^ 64.
Definition s32 (x : Z) : Z := (x + 2 ^ 31) mod 2 ^ 32 - 2 ^ 31.

Lemma u8_small x : 0 <= x < 2 ^ 8 -> u8 x = x.
Proof. apply Z.mod_small. Qed.
Lemma u16_small x : 0 <= x < 2 ^ 16 -> u16 x = x.
Proof. apply Z.mod_small. Qed.
Lemma u32_small x : 0 <= x < 2 ^ 32 -> u32 x = x.
Proof. apply Z.mod_small. Qed.
Lemma u64_small x : 0 <= x < 2 ^ 64 -> u64 x = x.
Proof. apply Z.mod_small. Qed.
Lemma s32_small x : - 2 ^ 31 <= x < 2 ^ 31 -> s32 x = x.
Proof. intros H. unfold s32. rewrite Z.mod_small; lia. Qed.

Lemma u8_range x : 0 <= u8 x < 2 ^ 8.
Proof. apply Z.mod_pos_bound. lia. Qed.
Lemma u16_range x : 0 <= u16 x < 2 ^ 16.
Proof. apply Z.mod_pos_bound. lia. Qed.
Lemma u32_range x : 0 <= u32 x < 2 ^ 32.
Proof. apply Z.mod_pos_bound. lia. Qed.
Lemma u64_range x : 0 <= u64 x < 2 ^ 64.
Proof. apply Z.mod_pos_bound. lia. Qed.

(** [zify] learns division and remainder by constants. *)
Ltac Zify.zify_post_hook ::= Z.div_mod_to_equations.

(** Clear the conversions of values that are already in range. *)
Ltac small_int :=
  repeat first
    [ rewrite u8_small by lia | rewrite u16_small by lia
    | rewrite u32_small by lia | rewrite u64_small by lia
    | rewrite s32_small by lia ].

(** *** Bit operations as arithmetic *)

Lemma lor_shiftl_add a b k :
  0 <= k -> 0 <= b < 2 ^ k -> Z.lor (Z.shiftl a k) b = a * 2 ^ k + b.
Proof.
  intros Hk Hb. rewrite <- Z.shiftl_mul_pow2 by lia.
  assert (Hl : Z.land (Z.shiftl a k) b = 0).
  { apply Z.bits_inj'. intros n Hn. rewrite Z.land_spec, Z.bits_0.
    destruct (decide (n < k)) as [Hlt|Hge].
    - rewrite Z.shiftl_spec_low by lia. reflexivity.
    - rewrite <- (Z.mod_small b (2 ^ k)) by lia.
      rewrite Z.mod_pow2_bits_high by lia. apply andb_false_r. }
  rewrite Z.add_nocarry_lxor by done. by rewrite Z.lxor_lor.
Qed.

Lemma lor_add a b k :
  0 <= k -> a mod 2 ^ k = 0 -> 0 <= b < 2 ^ k -> Z.lor a b = a + b.
Proof.
  intros Hk Ha Hb. pose proof (Z.div_mod a (2 ^ k) ltac:(lia)) as E.
  rewrite Ha, Z.add_0_r, Z.mul_comm in E. rewrite E at 1.
  rewrite <- Z.shiftl_mul_pow2, lor_shiftl_add by lia. lia.
Qed.

Lemma shiftr_div a k : 0 <= k -> Z.shiftr a k = a / 2 ^ k.
Proof. apply Z.shiftr_div_pow2. Qed.

Lemma land_ones_mod a k : 0 <= k -> Z.land a (Z.ones k) = a mod 2 ^ k.
Proof. apply Z.land_ones. Qed.

Lemma land_ff a : Z.land a 255 = a mod 256.
Proof. apply (Z.land_ones a 8). lia. Qed.

Lemma land_ffff a : Z.land a 65535 = a mod 65536.
Proof. apply (Z.land_ones a 16). lia. Qed.

(** ** Faults and the state monad of the C functions

    A C function that reads or writes the state [S] is a [prog S A].  A
    [Fault] is a behaviour the C program must never have: an access outside
    an object, a null dereference, a failed [assert].  [OutOfFuel] is the
    result of a loop of the model that did not end within its fuel. *)

Inductive fault := OutOfBounds | NullPointer | AssertionFailed | BadConversion | OutOfFuel.

Inductive outcome (A : Type) :=
| Done (a : A)
| Fault (f : fault).
Arguments Done {A} a.
Arguments Fault {A} f.

#[export] Instance fault_eq_dec : EqDecision fault.
Proof. solve_decision. Defined.

Definition prog (S A : Type) : Type := S -> outcome (A * S).

Definition obind {A B} (m : outcome A) (k : A -> outcome B) : outcome B :=
  match m with Done a => k a | Fault f => Fault f end.

Definition ret {S A} (a : A) : prog S A := fun s => Done (a, s).
Definition fail {S A} (f : fault) : prog S A := fun _ => Fault f.
Definition bind {S A B} (m : prog S A) (k : A -> prog S B) : prog S B :=
  fun s => match m s with Done (a, s') => k a s' | Fault f => Fault f end.
Definition get {S} : prog S S := fun s => Done (s, s).
Definition gets {S A} (f : S -> A) : prog S A := fun s => Done (f s, s).
Definition modify {S} (f : S -> S) : prog S unit := fun s => Done (tt, f s).
Definition lift {S A} (m : outcome A) : prog S A :=
  fun s => match m with Done a => Done (a, s) | Fault f => Fault f end.
Definition when {S} (b : bool) (m : prog S unit) : prog S unit :=
  if b then m else ret tt.

Declare Scope c_scope.
Delimit Scope c_scope with c.
Notation "x <- m ;; k" := (bind m (fun x => k))
  (at level 100, m at next level, right associativity) : c_scope.
Notation "'let*' ' p := m 'in' k" := (bind m (fun x => match x with p => k end))
  (at level 100, p pattern, m at level 200, right associativity) : c_scope.
Notation "m ;; k" := (bind m (fun _ => k))
  (at level 100, right associativity) : c_scope.
Notation "x <-! m ;; k" := (obind m (fun x => k))
  (at level 100, m at next level, right associativity) : c_scope.
#[global] Open Scope c_scope.

Lemma bind_done {S A B} (m : prog S A) (k : A -> prog S B) s a s' :
  m s = Done (a, s') -> bind m k s = k a s'.
Proof. intros H. unfold bind. by rewrite H. Qed.

Lemma bind_fault {S A B} (m : prog S A) (k : A -> prog S B) s f :
  m s = Fault f -> bind m k s = Fault f.
Proof. intros H. unfold bind. by rewrite H. Qed.

Lemma bind_ret_l {S A B} (a : A) (k : A -> prog S B) s :
  bind (ret a) k s = k a s.
Proof. reflexivity. Qed.

Lemma bind_get {S A} (k : S -> prog S A) s : bind get k s = k s s.
Proof. reflexivity. Qed.

Lemma bind_modify {S A} (f : S -> S) (k : unit -> prog S A) s :
  bind (modify f) k s = k tt (f s).
Proof. reflexivity. Qed.

Lemma bind_assoc {S A B C} (m : prog S A) (k : A -> prog S B)
    (h : B -> prog S C) s :
  bind (bind m k) h s = bind m (fun x => bind (k x) h) s.
Proof. unfold bind. destruct (m s) as [[a s']|f]; reflexivity. Qed.

(** ** Arrays

    A C array is a list; an index is a [Z].  Loads and stores outside the
    array are faults. *)

Definition zlen {A} (l : list A) : Z := Z.of_nat (length l).

Definition load {A} (l : list A) (i : Z) : outcome A :=
  if decide (0 <= i) then
    match l !! Z.to_nat i with Some x => Done x | None => Fault OutOfBounds end
  else Fault OutOfBounds.

Definition store {A} (l : list A) (i : Z) (x : A) : outcome (list A) :=
  if decide (0 <= i < zlen l) then Done (<[Z.to_nat i := x]> l)
  else Fault OutOfBounds.

Lemma zlen_nonneg {A} (l : list A) : 0 <= zlen l.
Proof. unfold zlen. lia. Qed.
Lemma zlen_app {A} (l k : list A) : zlen (l ++ k) = zlen l + zlen k.
Proof. unfold zlen. rewrite length_app. lia. Qed.
Lemma zlen_cons {A} (x : A) l : zlen (x :: l) = zlen l + 1.
Proof. unfold zlen. simpl length. lia. Qed.
Lemma zlen_nil {A} : zlen (@nil A) = 0.
Proof. reflexivity. Qed.
Lemma zlen_insert {A} (l : list A) i x : zlen (<[i := x]> l) = zlen l.
Proof. unfold zlen. by rewrite length_insert. Qed.
Lemma zlen_rev {A} (l : list A) : zlen (reverse l) = zlen l.
Proof. unfold zlen. by rewrite length_reverse. Qed.
Lemma zlen_take {A} (l : list A) n :
  0 <= n <= zlen l -> zlen (take (Z.to_nat n) l) = n.
Proof. unfold zlen. rewrite length_take. lia. Qed.
Lemma zlen_drop {A} (l : list A) n :
  0 <= n <= zlen l -> zlen (drop (Z.to_nat n) l) = zlen l - n.
Proof. unfold zlen. rewrite length_drop. lia. Qed.

Lemma load_done {A} (l : list A) i x :
  0 <= i -> l !! Z.to_nat i = Some x -> load l i = Done x.
Proof. intros Hi Hx. unfold load. rewrite decide_True by done. by rewrite Hx. Qed.

Lemma load_in {A} (l : list A) i :
  0 <= i < zlen l -> exists x, l !! Z.to_nat i = Some x /\ load l i = Done x.
Proof.
  intros Hi. destruct (lookup_lt_is_Some_2 l (Z.to_nat i)) as [x Hx].
  { unfold zlen in Hi. lia. }
  exists x. split; [done|]. apply load_done; [lia|done].
Qed.

Lemma load_out {A} (l : list A) i : zlen l <= i -> load l i = Fault OutOfBounds.
Proof.
  intros Hi. unfold load, zlen in *. rewrite decide_True by lia.
  by rewrite lookup_ge_None_2 by lia.
Qed.

Lemma store_done {A} (l : list A) i x :
  0 <= i < zlen l -> store l i x = Done (<[Z.to_nat i := x]> l).
Proof. intros Hi. unfold store. by rewrite decide_True. Qed.

Lemma store_out {A} (l : list A) i x :
  ~ 0 <= i < zlen l -> store l i x = Fault OutOfBounds.
Proof. intros Hi. unfold store. by rewrite decide_False. Qed.

(** [splice l i xs] overwrites the cells of [l] from [i] on with [xs]. *)
Definition splice {A} (l : list A) (i : nat) (xs : list A) : list A :=
  take i l ++ xs ++ drop (i + length xs) l.

Lemma length_splice {A} (l : list A) i xs :
  (i + length xs <= length l)%nat -> length (splice l i xs) = length l.
Proof.
  intros H. unfold splice. rewrite !length_app, length_take, length_drop. lia.
Qed.

Lemma splice_nil {A} (l : list A) i : splice l i [] = l.
Proof. unfold splice. simpl. rewrite Nat.add_0_r. apply take_drop. Qed.

Lemma splice_splice {A} (l : list A) i xs ys :
  (i + length xs <= length l)%nat ->
  splice (splice l i xs) (i + length xs) ys = splice l i (xs ++ ys).
Proof.
  intros H. unfold splice.
  assert (Ht : length (take i l ++ xs) = (i + length xs)%nat)
    by (rewrite length_app, length_take; lia).
  rewrite (app_assoc (take i l)), take_app_length' by done.
  rewrite drop_app_ge by lia.
  rewrite drop_drop, Ht, length_app, <- !app_assoc.
  by replace (i + length xs + (i + length xs + length ys - (i + length xs)))%nat
    with (i + (length xs + length ys))%nat by lia.
Qed.

Lemma splice_insert {A} (l : list A) i x :
  (i < length l)%nat -> <[i := x]> l = splice l i [x].
Proof.
  intros H. unfold splice. simpl. rewrite Nat.add_1_r.
  by apply insert_take_drop.
Qed.

Lemma splice_insert_end {A} (l : list A) i xs x :
  (i + length xs < length l)%nat ->
  splice (<[(i + length xs)%nat := x]> l) i xs = splice l i (xs ++ [x]).
Proof.
  intros H. unfold splice.
  rewrite take_insert_ge, drop_insert_ge, Nat.sub_diag by lia.
  destruct (lookup_lt_is_Some_2 l (i + length xs)) as [y Hy]; [lia|].
  rewrite (drop_S l y _ Hy), length_app, <- !app_assoc. simpl.
  by rewrite Nat.add_assoc, Nat.add_1_r.
Qed.

Lemma splice_insert_start {A} (l : list A) i x xs :
  (i + S (length xs) <= length l)%nat ->
  splice (<[i := x]> l) (S i) xs = splice l i (x :: xs).
Proof.
  intros H. rewrite splice_insert by lia.
  replace (S i) with (i + length [x])%nat by (simpl; lia).
  rewrite splice_splice by (simpl; lia). done.
Qed.

Lemma drop_splice {A} (l : list A) i xs :
  (i <= length l)%nat ->
  drop i (splice l i xs) = xs ++ drop (i + length xs) l.
Proof. intros H. unfold splice. rewrite drop_app_length'; [done|]. rewrite length_take. lia. Qed.

Lemma take_splice {A} (l : list A) i xs :
  (i <= length l)%nat -> take i (splice l i xs) = take i l.
Proof. intros H. unfold splice. rewrite take_app_length'; [done|]. rewrite length_take. lia. Qed.

Lemma Forall_splice {A} (P : A -> Prop) l i xs :
  Forall P l -> Forall P xs -> Forall P (splice l i xs).
Proof.
  intros Hl Hx. unfold splice. apply Forall_app. split; [by apply Forall_take|].
  apply Forall_app. split; [done|]. by apply Forall_drop.
Qed.

(** ** Bytes *)

Definition byte (b : Z) : Prop := 0 <= b < 256.

#[export] Instance byte_dec b : Decision (byte b).
Proof. unfold byte. solve_decision. Defined.

Lemma u8_byte x : byte (u8 x).
Proof. unfold byte. pose proof (u8_range x). lia. Qed.

(** Most significant byte first, and its inverse. *)
Fixpoint be_bytes (n : nat) (x : Z) : list Z :=
  match n with
  | O => []
  | S n' => be_bytes n' (x / 256) ++ [x mod 256]
  end.

Definition be_value (bs : list Z) : Z := fold_left (fun acc b => acc * 256 + b) bs 0.

Lemma length_be_bytes n x : length (be_bytes n x) = n.
Proof. revert x. induction n; intros x; [done|]. simpl. rewrite length_app, IHn. simpl. lia. Qed.

Lemma be_bytes_byte n x : Forall byte (be_bytes n x).
Proof.
  revert x. induction n; intros x; [constructor|]. simpl. apply Forall_app. split; [done|].
  constructor; [|constructor]. unfold byte. lia.
Qed.

Lemma be_value_bytes n x : 0 <= x < 256 ^ Z.of_nat n -> be_value (be_bytes n x) = x.
Proof.
  revert x. induction n as [|n IH]; intros x Hx; [cbn in *; lia|].
  unfold be_value. simpl be_bytes. rewrite fold_left_app. simpl fold_left.
  fold (be_value (be_bytes n (x / 256))). rewrite IH; [lia|].
  rewrite Nat2Z.inj_succ, Z.pow_succ_r in Hx by lia.
  split; [apply Z.div_pos; lia|]. apply Z.div_lt_upper_bound; lia.
Qed.

Lemma be_value_snoc bs b : be_value (bs ++ [b]) = be_value bs * 256 + b.
Proof. unfold be_value. by rewrite fold_left_app. Qed.

Lemma be_value_range bs : Forall byte bs -> 0 <= be_value bs < 256 ^ zlen bs.
Proof.
  induction bs as [|b bs IH] using rev_ind; intros Hb; [by vm_compute|].
  apply Forall_app in Hb as [Hbs Hb]. rewrite Forall_singleton in Hb. unfold byte in Hb.
  specialize (IH Hbs). pose proof (zlen_nonneg bs).
  rewrite be_value_snoc, zlen_app. change (zlen [b]) with 1.
  rewrite Z.pow_add_r by lia. change (256 ^ 1) with 256.
  generalize dependent (256 ^ zlen bs). intros P ?. lia.
Qed.

Lemma be_bytes_value bs : Forall byte bs -> be_bytes (length bs) (be_value bs) = bs.
Proof.
  induction bs as [|b bs IH] using rev_ind; intros Hb; [done|].
  apply Forall_app in Hb as [Hbs Hb]. rewrite Forall_singleton in Hb. unfold byte in Hb.
  rewrite length_app, Nat.add_comm, be_value_snoc. simpl.
  replace ((be_value bs * 256 + b) / 256) with (be_value bs) by lia.
  replace ((be_value bs * 256 + b) mod 256) with b by lia.
  by rewrite IH.
Qed.

(** ** Linked nodes

    Nodes in a heap indexed by address (or by the index in a block), linked by
    their field [next]; zero is the null pointer. *)

Section Linked.
Context {N : Type} (next : N -> Z).

Fixpoint linked (h : gmap Z N) (p : Z) (l : list Z) : Prop :=
  match l with
  | [] => p = 0
  | a :: l' => p = a /\ a <> 0 /\ exists n, h !! a = Some n /\ linked h (next n) l'
  end.

Lemma linked_lookup h p l a : linked h p l -> a ∈ l -> is_Some (h !! a) /\ a <> 0.
Proof.
  revert p. induction l as [|b l IH]; intros p Hc Ha; [by apply not_elem_of_nil in Ha|].
  destruct Hc as (-> & Hb & n & Hn & Hc). apply elem_of_cons in Ha as [->|Ha]; eauto.
Qed.

Lemma linked_insert h p l a n : a ∉ l -> linked h p l -> linked (<[a := n]> h) p l.
Proof.
  revert p. induction l as [|b l IH]; intros p Ha Hc; [done|].
  apply not_elem_of_cons in Ha as [Hab Ha]. destruct Hc as (-> & Hb & n' & Hn & Hc).
  split; [done|]. split; [done|]. exists n'. rewrite lookup_insert_ne by done. auto.
Qed.

(** Hanging the node [a] behind the last node [t]. *)
Lemma linked_snoc h p l t a n n' :
  linked h p (l ++ [t]) -> NoDup (l ++ [t]) -> a ∉ l ++ [t] -> a <> 0 ->
  h !! a = Some n -> next n = 0 -> next n' = a ->
  linked (<[t := n']> h) p (l ++ [t; a]).
Proof.
  revert p. induction l as [|b l IH]; intros p Hc Hd Ha Ha0 Hn E E'.
  - destruct Hc as (-> & Ht & x & Hx & _). cbn in Ha. rewrite list_elem_of_singleton in Ha.
    split; [done|]. split; [done|]. exists n'. rewrite lookup_insert_eq. split; [done|].
    split; [done|]. split; [done|]. exists n. by rewrite lookup_insert_ne by congruence.
  - destruct Hc as (-> & Hb & x & Hx & Hc). cbn in Hd, Ha.
    apply NoDup_cons in Hd as [Hbl Hd]. apply not_elem_of_cons in Ha as [Hab Ha].
    split; [done|]. split; [done|]. exists x. rewrite lookup_insert_ne.
    + split; [done|]. by apply IH.
    + intros ->. apply Hbl. apply elem_of_app. right. by apply list_elem_of_singleton.
Qed.

End Linked.

(** ** Allocators

    What the library relies on of a function that chooses an address for a new
    object: it is not NULL and nothing is there. *)

Class fresh_address {V} (alloc : gmap Z V -> Z) : Prop :=
  fresh_address_of : forall h, alloc h <> 0 /\ h !! alloc h = None.

(** One there is. *)
Definition free_address {V} (h : gmap Z V) : Z := fresh ({[0]} ∪ dom h : gset Z).

#[export] Instance free_address_fresh {V} : fresh_address (V := V) free_address.
Proof.
  intros h. pose proof (is_fresh ({[0]} ∪ dom h : gset Z)) as F.
  rewrite not_elem_of_union, not_elem_of_singleton in F. destruct F as [F1 F2].
  split; [exact F1|]. by apply not_elem_of_dom.
Defined.

(** ** Automation shared by the component files *)

Create HintDb unc.
Create Rewrite HintDb zlen.
#[export] Hint Resolve u8_byte u8_range u16_range u32_range u64_range
  be_bytes_byte zlen_nonneg : unc.
#[export] Hint Rewrite @zlen_app @zlen_cons @zlen_nil @zlen_insert @zlen_rev : zlen.

Ltac simpl_len := autorewrite with zlen in *.

(** Run one monadic step whose result is known. *)
Ltac step H := rewrite (bind_done _ _ _ _ _ H).
