(* ===== verification/Machine.v ===== *)
(** * Components as implementations of abstract machines

    A component is a set of operations on a concrete state.  What it promises
    its clients is a [machine]: which operations they may call in an abstract
    state, and what each answers and leaves.  A component that [Implements] a
    machine behaves as the machine does for any client, also one that chooses
    its next call by the answers to the former ones. *)
From S2P Require Import Prelude.

(** A machine with states [A], calls [Op] and answers [Out]. *)
Record machine (A Op Out : Type) := mkMachine {
  may : Op -> A -> Prop;
  does : Op -> A -> Out -> A -> Prop;
}.
Arguments mkMachine {A Op Out} may does.
Arguments may {A Op Out} m.
Arguments does {A Op Out} m.

(** The machine of a function, which says by [None] what may not be called. *)
Definition functional {A Op Out} (f : Op -> A -> option (Out * A)) : machine A Op Out :=
  mkMachine (fun op a => is_Some (f op a)) (fun op a out a' => f op a = Some (out, a')).

Class Implements {C A Op Out} (step : Op -> prog C Out) (M : machine A Op Out) (holds : C -> A -> Prop) : Prop :=
  implements : forall op c a, holds c a -> may M op a ->
    exists out c' a', step op c = Done (out, c') /\ does M op a out a' /\ holds c' a'.

(** ** Clients *)

(** What a client calls after the answers it has got; it may stop. *)
Definition client (Op Out : Type) : Type := list Out -> option Op.

Fixpoint serve {C Op Out} (step : Op -> prog C Out) (k : client Op Out) (n : nat) (answers : list Out) :
    prog C (list Out) :=
  match n, k answers with
  | S n, Some op => out <- step op ;; serve step k n (answers ++ [out])
  | _, _ => ret answers
  end.

(** The same client and the machine. *)
Inductive session {A Op Out} (M : machine A Op Out) (k : client Op Out) : nat -> list Out -> A -> list Out -> A -> Prop :=
| session_over answers a : session M k 0 answers a answers a
| session_stop n answers a : k answers = None -> session M k n answers a answers a
| session_call n answers op a out a' answers' a'' : k answers = Some op -> does M op a out a' ->
    session M k n (answers ++ [out]) a' answers' a'' -> session M k (S n) answers a answers' a''.

(** The client calls only what it may, whatever the machine answers. *)
Fixpoint polite {A Op Out} (M : machine A Op Out) (k : client Op Out) (n : nat) (answers : list Out) (a : A) : Prop :=
  match n, k answers with
  | S n, Some op => may M op a /\ forall out a', does M op a out a' -> polite M k n (answers ++ [out]) a'
  | _, _ => True
  end.

Lemma serve_session `{I : Implements C A Op Out step M holds} k n : forall answers c a,
  holds c a -> polite M k n answers a ->
  exists answers' c' a', serve step k n answers c = Done (answers', c') /\ session M k n answers a answers' a' /\ holds c' a'.
Proof.
  induction n as [|n IH]; intros answers c a H P; cbn [serve polite] in *.
  { exists answers, c, a. split; [done|]. by split; [constructor|]. }
  destruct (k answers) as [op|] eqn:Ek.
  - destruct P as [Hm P]. destruct (I op c a H Hm) as (out & c1 & a1 & E & D & H1).
    rewrite (bind_done _ _ _ _ _ E). destruct (IH _ _ _ H1 (P _ _ D)) as (answers' & c' & a' & E' & S & H').
    exists answers', c', a'. split; [done|]. split; [by eapply session_call|done].
  - exists answers, c, a. split; [done|]. by split; [by apply session_stop|].
Qed.

(** ** Scripts: clients that have made up their mind *)

Fixpoint run {C Op Out} (step : Op -> prog C Out) (ops : list Op) : prog C (list Out) :=
  match ops with
  | [] => ret []
  | op :: ops => out <- step op ;; outs <- run step ops ;; ret (out :: outs)
  end.

Fixpoint run_spec {A Op Out} (f : Op -> A -> option (Out * A)) (ops : list Op) (a : A) : option (list Out * A) :=
  match ops with
  | [] => Some ([], a)
  | op :: ops =>
      '(out, a1) ← f op a;
      '(outs, a2) ← run_spec f ops a1;
      Some (out :: outs, a2)
  end.

Lemma run_script {C A Op Out} {step : Op -> prog C Out} {f : Op -> A -> option (Out * A)} {holds : C -> A -> Prop}
    `{I : !Implements step (functional f) holds} ops : forall c a outs a',
  holds c a -> run_spec f ops a = Some (outs, a') -> exists c', run step ops c = Done (outs, c') /\ holds c' a'.
Proof.
  induction ops as [|op ops IH]; intros c a outs a' H E; cbn [run run_spec] in *.
  { injection E as <- <-. by exists c. }
  destruct (f op a) as [[out a1]|] eqn:Ef; cbn in E; [|done].
  destruct (run_spec f ops a1) as [[outs1 a2]|] eqn:Er; cbn in E; [|done]. injection E as <- <-.
  destruct (I op c a H ltac:(by eexists)) as (out' & c1 & a1' & E1 & D & H1). cbn in D. rewrite Ef in D. injection D as <- <-.
  destruct (IH _ _ _ _ H1 Er) as (c' & E' & H'). exists c'. split; [|done].
  by rewrite (bind_done _ _ _ _ _ E1), (bind_done _ _ _ _ _ E').
Qed.

Lemma run_total {A Op Out} (f : Op -> A -> option (Out * A)) ops : (forall op a, is_Some (f op a)) ->
  forall a, is_Some (run_spec f ops a).
Proof.
  intros T. induction ops as [|op ops IH]; intros a; cbn [run_spec]; [by eexists|].
  destruct (T op a) as [[out a1] ->]. cbn. destruct (IH a1) as [[outs a2] ->]. by eexists.
Qed.

(** A machine on which everything may be called. *)
Lemma run_anything {C A Op Out} {step : Op -> prog C Out} {f : Op -> A -> option (Out * A)} {holds : C -> A -> Prop}
    `{I : !Implements step (functional f) holds} ops c a : (forall op a, is_Some (f op a)) -> holds c a ->
  exists outs c' a', run_spec f ops a = Some (outs, a') /\ run step ops c = Done (outs, c') /\ holds c' a'.
Proof.
  intros T H. destruct (run_total f ops T a) as [[outs a'] E]. destruct (run_script ops c a outs a' H E) as (c' & E' & H').
  by exists outs, c', a'.
Qed.

(** What a block that collects its arguments has seen. *)
Lemma fold_snoc {X} (l acc : list X) : fold_left (fun acc x => acc ++ [x]) l acc = acc ++ l.
Proof. revert acc. induction l as [|x l IH]; intros acc; cbn; [by rewrite app_nil_r|]. by rewrite IH, <- app_assoc. Qed.
