(* ===== verification/Bitstream.v ===== *)
(** * Bit streams (src/bitstream.h, src/bitstream.c)

    A [bitstream_t] is a byte array with a cursor and a declared bound.  The
    operations are programs on that state; the byte order of the host, which
    the source selects with [__LITTLE_ENDIAN__], is the instance argument
    [Host] and both branches of every [#ifdef] are modelled. *)
From S2P Require Import Prelude.

Inductive endianness := LittleEndian | BigEndian.
Class Host := host : endianness.

#[export] Instance endianness_eq_dec : EqDecision endianness.
Proof. solve_decision. Defined.

Record bitstream_t := mkBitstream {
  bs_data : list Z;   (* the memory block [data] points to *)
  bs_offset : Z;
  bs_bound : Z;
}.

(** [bitstream] is only ever tested against NULL: the flag says it is set. *)
Record bitstream_snapshot_t := mkSnapshot {
  rollback_offset : Z;
  rollover_offset : Z;
  snap_bitstream : bool;
}.

Definition set_offset (s : bitstream_t) (o : Z) : bitstream_t :=
  mkBitstream (bs_data s) o (bs_bound s).

Section Operations.
Context `{Host}.

Abbreviation io := (prog bitstream_t).

Definition mBitstreamBytesDoFit (s : bitstream_t) (bytes : Z) : bool :=
  bytes <=? u64 (bs_bound s - bs_offset s).

Definition mBitstreamHasEnoughBytes (s : bitstream_t) (bytes : Z) : bool :=
  bytes <=? u64 (bs_bound s - bs_offset s).

Definition bitstream_create (data : list Z) (bound : Z) : bitstream_t :=
  mkBitstream data 0 bound.

Definition bitstream_reset : io unit := modify (fun s => set_offset s 0).

Definition bitstream_skip_bytes (length : Z) : io unit :=
  s <- get ;;
  if negb (mBitstreamHasEnoughBytes s length) then ret tt
  else
    modify (fun s =>
      let o := u64 (bs_offset s + length) in
      set_offset s (if bs_bound s <? o then bs_bound s else o)).

Definition bitstream_snapshot (s : bitstream_t) : bitstream_snapshot_t :=
  mkSnapshot (bs_offset s) (bs_offset s) true.

Definition bitstream_rollback (snapshot : bitstream_snapshot_t) :
    io bitstream_snapshot_t :=
  s <- get ;;
  if snap_bitstream snapshot then
    modify (fun s => set_offset s (rollback_offset snapshot)) ;;
    ret (mkSnapshot (rollback_offset snapshot) (bs_offset s) true)
  else ret snapshot.

Definition bitstream_rollover (snapshot : bitstream_snapshot_t) :
    io bitstream_snapshot_t :=
  s <- get ;;
  if snap_bitstream snapshot then
    modify (fun s => set_offset s (rollover_offset snapshot)) ;;
    ret (mkSnapshot (bs_offset s) (rollover_offset snapshot) true)
  else ret snapshot.

(** [stream->data[stream->offset++] = v] *)
Definition put_byte (v : Z) : io unit := fun s =>
  d <-! store (bs_data s) (bs_offset s) v ;;
  Done (tt, mkBitstream d (u64 (bs_offset s + 1)) (bs_bound s)).

(** [stream->data[stream->offset++]] *)
Definition next_byte : io Z := fun s =>
  b <-! load (bs_data s) (bs_offset s) ;;
  Done (b, set_offset s (u64 (bs_offset s + 1))).

(** [for(int b=0; b<length; ++b) dst[base+length-b-1] = src[b]], from the
    iteration [b] on; [n] iterations are left. *)
Fixpoint swap_copy_out (n : nat) (b : Z) (base length : Z) (src dst : list Z) :
    outcome (list Z) :=
  match n with
  | O => Done dst
  | S n' =>
      v <-! load src b ;;
      dst' <-! store dst (base + length - b - 1) v ;;
      swap_copy_out n' (b + 1) base length src dst'
  end.

(** [for(int b=0; b<length; ++b) dst[b] = src[base+length-b-1]] *)
Fixpoint swap_copy_in (n : nat) (b : Z) (base length : Z) (src dst : list Z) :
    outcome (list Z) :=
  match n with
  | O => Done dst
  | S n' =>
      v <-! load src (base + length - b - 1) ;;
      dst' <-! store dst b v ;;
      swap_copy_in n' (b + 1) base length src dst'
  end.

(** [memcpy(&dst[i], &src[j], n)] *)
Definition memcpy (dst : list Z) (i : Z) (src : list Z) (j n : Z) :
    outcome (list Z) :=
  if decide (0 <= i /\ i + n <= zlen dst /\ 0 <= j /\ j + n <= zlen src /\ 0 <= n)
  then Done (splice dst (Z.to_nat i) (take (Z.to_nat n) (drop (Z.to_nat j) src)))
  else Fault OutOfBounds.

Definition bitstream_write_bytes (src : list Z) (length : Z) : io Z := fun s =>
  if negb (mBitstreamBytesDoFit s length) then Done (0, s)
  else
    d <-! match host with
          | LittleEndian =>
              swap_copy_out (Z.to_nat length) 0 (bs_offset s) length src (bs_data s)
          | BigEndian => memcpy (bs_data s) (bs_offset s) src 0 length
          end ;;
    Done (s32 length,
      mkBitstream d (u64 (bs_offset s + length)) (bs_bound s)).

(** The result is the updated destination and the returned count. *)
Definition bitstream_read_bytes (dest : list Z) (length : Z) :
    io (list Z * Z) := fun s =>
  if negb (mBitstreamHasEnoughBytes s length) then Done ((dest, 0), s)
  else
    d <-! match host with
          | LittleEndian =>
              swap_copy_in (Z.to_nat length) 0 (bs_offset s) length (bs_data s) dest
          | BigEndian => memcpy dest 0 (bs_data s) (bs_offset s) length
          end ;;
    Done ((d, s32 length), set_offset s (u64 (bs_offset s + length))).

Definition bitstream_write_uint8 (src : Z) : io unit :=
  s <- get ;;
  if negb (mBitstreamBytesDoFit s 1) then ret tt
  else put_byte (u8 (Z.land src 0xFF)).

Definition bitstream_read_uint8 : io Z := next_byte.

Definition bitstream_write_uint16 (src : Z) : io unit :=
  s <- get ;;
  if negb (mBitstreamBytesDoFit s 2) then ret tt
  else match host with
  | LittleEndian =>
      put_byte (u8 (Z.land (Z.shiftr src 8) 0xFF)) ;;
      put_byte (u8 (Z.land src 0xFF))
  | BigEndian =>
      put_byte (u8 (Z.land src 0xFF)) ;;
      put_byte (u8 (Z.land (Z.shiftr src 8) 0xFF))
  end.

(** The operands of [|] are evaluated from left to right. *)
Definition bitstream_read_uint16 : io Z :=
  match host with
  | LittleEndian =>
      b0 <- next_byte ;; b1 <- next_byte ;;
      ret (Z.lor (u32 (Z.shiftl b0 8)) b1)
  | BigEndian =>
      b0 <- next_byte ;; b1 <- next_byte ;;
      ret (Z.lor b0 (u32 (Z.shiftl b1 8)))
  end.

Definition bitstream_write_uint16_endian (src : Z) : io unit :=
  s <- get ;;
  if negb (mBitstreamBytesDoFit s 2) then ret tt
  else
    put_byte (u8 (Z.land src 0xFF)) ;;
    put_byte (u8 (Z.land (Z.shiftr src 8) 0xFF)).

Definition bitstream_read_uint16_endian : io Z :=
  b0 <- next_byte ;; b1 <- next_byte ;;
  ret (Z.lor b0 (u32 (Z.shiftl b1 8))).

Definition bitstream_write_uint32 (src : Z) : io unit :=
  s <- get ;;
  if negb (mBitstreamBytesDoFit s 4) then ret tt
  else match host with
  | LittleEndian =>
      put_byte (u8 (Z.shiftr src 24)) ;;
      put_byte (u8 (Z.land (Z.shiftr src 16) 0xFF)) ;;
      put_byte (u8 (Z.land (Z.shiftr src 8) 0xFF)) ;;
      put_byte (u8 (Z.land src 0xFF))
  | BigEndian =>
      put_byte (u8 (Z.land src 0xFF)) ;;
      put_byte (u8 (Z.land (Z.shiftr src 8) 0xFF)) ;;
      put_byte (u8 (Z.land (Z.shiftr src 16) 0xFF)) ;;
      put_byte (u8 (Z.shiftr src 24))
  end.

Definition bitstream_read_uint32 : io Z :=
  match host with
  | LittleEndian =>
      b0 <- next_byte ;; b1 <- next_byte ;; b2 <- next_byte ;; b3 <- next_byte ;;
      ret (Z.lor (Z.lor (Z.lor (u32 (Z.shiftl b0 24)) (u32 (Z.shiftl b1 16)))
                        (u32 (Z.shiftl b2 8))) b3)
  | BigEndian =>
      b0 <- next_byte ;; b1 <- next_byte ;; b2 <- next_byte ;; b3 <- next_byte ;;
      ret (Z.lor (Z.lor (Z.lor b0 (u32 (Z.shiftl b1 8)))
                        (u32 (Z.shiftl b2 16))) (u32 (Z.shiftl b3 24)))
  end.

Definition bitstream_write_uint32_endian (src : Z) : io unit :=
  s <- get ;;
  if negb (mBitstreamBytesDoFit s 4) then ret tt
  else
    put_byte (u8 (Z.land src 0xFF)) ;;
    put_byte (u8 (Z.land (Z.shiftr src 8) 0xFF)) ;;
    put_byte (u8 (Z.land (Z.shiftr src 16) 0xFF)) ;;
    put_byte (u8 (Z.shiftr src 24)).

Definition bitstream_read_uint32_endian : io Z :=
  b0 <- next_byte ;; b1 <- next_byte ;; b2 <- next_byte ;; b3 <- next_byte ;;
  ret (Z.lor (Z.lor (Z.lor b0 (u32 (Z.shiftl b1 8)))
                    (u32 (Z.shiftl b2 16))) (u32 (Z.shiftl b3 24))).

Definition bitstream_write_uint64 (src : Z) : io unit :=
  s <- get ;;
  if negb (mBitstreamBytesDoFit s 8) then ret tt
  else match host with
  | LittleEndian =>
      put_byte (u8 (Z.shiftr src 56)) ;;
      put_byte (u8 (Z.shiftr src 48)) ;;
      put_byte (u8 (Z.shiftr src 40)) ;;
      put_byte (u8 (Z.shiftr src 32)) ;;
      put_byte (u8 (Z.shiftr src 24)) ;;
      put_byte (u8 (Z.land (Z.shiftr src 16) 0xFF)) ;;
      put_byte (u8 (Z.land (Z.shiftr src 8) 0xFF)) ;;
      put_byte (u8 (Z.land src 0xFF))
  | BigEndian =>
      put_byte (u8 (Z.land src 0xFF)) ;;
      put_byte (u8 (Z.land (Z.shiftr src 8) 0xFF)) ;;
      put_byte (u8 (Z.land (Z.shiftr src 16) 0xFF)) ;;
      put_byte (u8 (Z.shiftr src 24)) ;;
      put_byte (u8 (Z.shiftr src 32)) ;;
      put_byte (u8 (Z.shiftr src 40)) ;;
      put_byte (u8 (Z.shiftr src 48)) ;;
      put_byte (u8 (Z.shiftr src 56))
  end.

Definition bitstream_read_uint64 : io Z :=
  match host with
  | LittleEndian =>
      b0 <- next_byte ;; b1 <- next_byte ;; b2 <- next_byte ;; b3 <- next_byte ;;
      b4 <- next_byte ;; b5 <- next_byte ;; b6 <- next_byte ;; b7 <- next_byte ;;
      ret (Z.lor (Z.lor (Z.lor (Z.lor (Z.lor (Z.lor (Z.lor
            (u64 (Z.shiftl b0 56)) (u64 (Z.shiftl b1 48)))
            (u64 (Z.shiftl b2 40))) (u64 (Z.shiftl b3 32)))
            (u64 (Z.shiftl b4 24))) (u64 (Z.shiftl b5 16)))
            (u64 (Z.shiftl b6 8))) b7)
  | BigEndian =>
      b0 <- next_byte ;; b1 <- next_byte ;; b2 <- next_byte ;; b3 <- next_byte ;;
      b4 <- next_byte ;; b5 <- next_byte ;; b6 <- next_byte ;; b7 <- next_byte ;;
      ret (Z.lor (Z.lor (Z.lor (Z.lor (Z.lor (Z.lor (Z.lor
            b0 (u64 (Z.shiftl b1 8)))
            (u64 (Z.shiftl b2 16))) (u64 (Z.shiftl b3 24)))
            (u64 (Z.shiftl b4 32))) (u64 (Z.shiftl b5 40)))
            (u64 (Z.shiftl b6 48))) (u64 (Z.shiftl b7 56)))
  end.

(** [strlen]: the index of the first zero byte of the array. *)
Fixpoint strlen (src : list Z) : outcome Z :=
  match src with
  | [] => Fault OutOfBounds
  | c :: src' => if c =? 0 then Done 0 else n <-! strlen src' ;; Done (n + 1)
  end.

Definition bitstream_write_str (src : list Z) : io Z :=
  strlength <- lift (strlen src) ;;
  s <- get ;;
  if negb (mBitstreamBytesDoFit s (u64 (strlength + 1))) then ret 0
  else
    bitstream_write_uint8 (u32 strlength) ;;
    bitstream_write_bytes src strlength ;;
    ret (s32 strlength).

(** The length byte is read through a pointer to [strlength] cast to [unsigned int]: the low
    half of the 8-byte [strlength] on a little-endian host, the high half on
    a big-endian one. *)
Definition as_size_t (v : Z) : Z :=
  match host with LittleEndian => v | BigEndian => Z.shiftl v 32 end.

Definition bitstream_read_str (dest : list Z) (maxlength : Z) :
    io (list Z * Z) :=
  v <- bitstream_read_uint8 ;;
  let strlength := as_size_t v in
  if maxlength <? u64 (strlength + 1) then ret (dest, 0)
  else
    let* '(dest', _) := bitstream_read_bytes dest strlength in
    dest'' <- lift (store dest' strlength 0) ;;
    ret (dest'', s32 strlength).

End Operations.

Abbreviation io := (prog bitstream_t).
