(* ===== verification/Wire.v ===== *)
(** * Wire logic for bit streams

    What the protocol files need to know of a writer or a reader, as two
    relations that compose along [bind]: [emits w bs r] (the writer appends
    the bytes [bs] and returns [r] wherever they fit) and [parses r bs v]
    (the reader turns the bytes [bs] at the cursor into [v]).  The class
    [Codec] pairs a writer with its reader.  [writer_safe] is the safety of a
    writer on every stream, [reads] that of a reader of a known length. *)
From S2P Require Import Prelude Bitstream.

(** The state the program keeps a stream in: the cursor is inside the bound,
    the bound inside the memory block, and lengths fit in an [int]. *)
Record bs_wf (s : bitstream_t) : Prop := {
  wf_offset : 0 <= bs_offset s <= bs_bound s;
  wf_bound : bs_bound s <= zlen (bs_data s);
  wf_int : bs_bound s < 2 ^ 31;
  wf_bytes : Forall byte (bs_data s);
}.

Definition room (s : bitstream_t) : Z := bs_bound s - bs_offset s.

(** The cursor as an index. *)
Definition cursor (s : bitstream_t) : nat := Z.to_nat (bs_offset s).

Definition append (s : bitstream_t) (bs : list Z) : bitstream_t :=
  mkBitstream (splice (bs_data s) (cursor s) bs)
              (bs_offset s + zlen bs) (bs_bound s).

Definition skip (s : bitstream_t) (n : Z) : bitstream_t :=
  set_offset s (bs_offset s + n).

(** The bytes at the cursor start with [bs]. *)
Definition ahead (s : bitstream_t) (bs : list Z) : Prop :=
  exists rest, drop (cursor s) (bs_data s) = bs ++ rest.

Definition emits {A} (w : prog bitstream_t A) (bs : list Z) (r : A) : Prop :=
  Forall byte bs /\
  forall s, bs_wf s -> zlen bs <= room s -> w s = Done (r, append s bs).

Definition parses {A} (rd : prog bitstream_t A) (bs : list Z) (v : A) : Prop :=
  forall s, bs_wf s -> zlen bs <= room s -> ahead s bs ->
    rd s = Done (v, skip s (zlen bs)).

(** On the bytes [bs] the reader goes wrong. *)
Definition faults {A} (rd : prog bitstream_t A) (bs : list Z) (f : fault) : Prop :=
  forall s, bs_wf s -> zlen bs <= room s -> ahead s bs -> rd s = Fault f.

(** All or nothing: [w] appends [bs], or leaves a stream in which they do not
    fit as it is (and returns [r0]). *)
Definition field {A} (w : prog bitstream_t A) (bs : list Z) (r r0 : A) : Prop :=
  emits w bs r /\
  forall s, bs_wf s -> room s < zlen bs -> w s = Done (r0, s).

(** What a writer may change: bytes between the old and the new cursor. *)
Record extends (s s' : bitstream_t) : Prop := {
  ext_wf : bs_wf s';
  ext_bound : bs_bound s' = bs_bound s;
  ext_length : zlen (bs_data s') = zlen (bs_data s);
  ext_offset : bs_offset s <= bs_offset s';
  ext_before : take (cursor s) (bs_data s') = take (cursor s) (bs_data s);
  ext_after : drop (cursor s') (bs_data s') = drop (cursor s') (bs_data s);
}.

Definition writer_safe {A} (w : prog bitstream_t A) : Prop :=
  forall s, bs_wf s -> exists r s', w s = Done (r, s') /\ extends s s'.

(** [rd] consumes exactly [n] bytes and its value satisfies [P]. *)
Definition reads {A} (n : Z) (rd : prog bitstream_t A) (P : A -> Prop) : Prop :=
  0 <= n /\
  forall s, bs_wf s -> n <= room s ->
    exists v, rd s = Done (v, skip s n) /\ P v.

(** [rd] consumes at most [n] bytes, if the bound leaves that many. *)
Definition reads_upto {A} (n : Z) (rd : prog bitstream_t A) (P : A -> Prop) : Prop :=
  0 <= n /\
  forall s, bs_wf s -> n <= room s ->
    exists v m, rd s = Done (v, skip s m) /\ 0 <= m <= n /\ P v.

(** [rd] needs [n] bytes and never leaves the bound, whatever they hold. *)
Definition reader_needs {A} (n : Z) (rd : prog bitstream_t A) (P : A -> Prop) : Prop :=
  0 <= n /\
  forall s, bs_wf s -> n <= room s ->
    exists v m, rd s = Done (v, skip s m) /\ 0 <= m <= room s /\ P v.

(** A writer and a reader that agree on an encoding [enc] of the values in
    [ok]. *)
Class Codec {A} (ok : A -> Prop) (enc : A -> list Z)
    (wr : A -> prog bitstream_t unit) (rd : prog bitstream_t A) : Prop := {
  codec_emits : forall a, ok a -> emits (wr a) (enc a) tt;
  codec_parses : forall a, ok a -> parses rd (enc a) a;
}.

(** The integer operations of the stream. *)
Inductive int_kind := U8 | U16 | U16endian | U32 | U32endian | U64.

Definition int_bytes (k : int_kind) : nat :=
  match k with
  | U8 => 1 | U16 | U16endian => 2 | U32 | U32endian => 4 | U64 => 8
  end.

Definition uint_ok (n : nat) (x : Z) : Prop := 0 <= x < 256 ^ Z.of_nat n.

Section WireOrder.
Context `{Host}.

(** The order in which a buffer or an integer goes on the wire. *)
Definition enc_uint (n : nat) (x : Z) : list Z :=
  match host with
  | LittleEndian => be_bytes n x
  | BigEndian => reverse (be_bytes n x)
  end.

Definition wire_order (bs : list Z) : list Z :=
  match host with LittleEndian => reverse bs | BigEndian => bs end.

Definition write_int (k : int_kind) : Z -> prog bitstream_t unit :=
  match k with
  | U8 => bitstream_write_uint8
  | U16 => bitstream_write_uint16
  | U16endian => bitstream_write_uint16_endian
  | U32 => bitstream_write_uint32
  | U32endian => bitstream_write_uint32_endian
  | U64 => bitstream_write_uint64
  end.

Definition read_int (k : int_kind) : prog bitstream_t Z :=
  match k with
  | U8 => bitstream_read_uint8
  | U16 => bitstream_read_uint16
  | U16endian => bitstream_read_uint16_endian
  | U32 => bitstream_read_uint32
  | U32endian => bitstream_read_uint32_endian
  | U64 => bitstream_read_uint64
  end.

(** The [_endian] variants put the least significant byte first on every
    host. *)
Definition enc_int (k : int_kind) (x : Z) : list Z :=
  match k with
  | U16endian | U32endian => reverse (be_bytes (int_bytes k) x)
  | _ => enc_uint (int_bytes k) x
  end.

End WireOrder.

(** ** Streams *)

Lemma wf_fit s n : bs_wf s -> mBitstreamBytesDoFit s n = (n <=? room s).
Proof.
  intros [Ho Hb Hi _]. unfold mBitstreamBytesDoFit, room. by rewrite u64_small by lia.
Qed.

Lemma wf_enough s n : bs_wf s -> mBitstreamHasEnoughBytes s n = (n <=? room s).
Proof. apply wf_fit. Qed.

Lemma wf_u64 s n : bs_wf s -> 0 <= n <= room s ->
  u64 (bs_offset s + n) = bs_offset s + n.
Proof. intros [Ho Hb Hi _] Hn. unfold room in Hn. by apply u64_small; lia. Qed.

Lemma wf_cursor s (bs : list Z) : bs_wf s -> zlen bs <= room s ->
  (cursor s + length bs <= length (bs_data s))%nat.
Proof. intros [Ho Hb Hi _]. unfold room, cursor, zlen in *. lia. Qed.

Lemma room_nonneg s : bs_wf s -> 0 <= room s.
Proof. intros [Ho Hb Hi _]. unfold room. lia. Qed.

Lemma append_wf s bs : bs_wf s -> zlen bs <= room s -> Forall byte bs ->
  bs_wf (append s bs).
Proof.
  intros W Hr Hb. pose proof (wf_cursor s bs W Hr). destruct W as [Ho Hbd Hi Hby].
  pose proof (zlen_nonneg bs). unfold room in *.
  split; unfold append; simpl; [lia| |done|].
  - unfold zlen in *. rewrite length_splice; lia.
  - by apply Forall_splice.
Qed.

Lemma append_append s b1 b2 : bs_wf s -> zlen b1 + zlen b2 <= room s ->
  append (append s b1) b2 = append s (b1 ++ b2).
Proof.
  intros W Hr. pose proof (zlen_nonneg b2).
  pose proof (wf_cursor s b1 W ltac:(lia)). destruct W as [Ho _ _ _].
  unfold append, cursor in *. simpl. rewrite zlen_app, Z.add_assoc. f_equal.
  rewrite <- splice_splice by lia. f_equal. unfold zlen. lia.
Qed.

Lemma append_nil s : append s [] = s.
Proof. destruct s. unfold append, cursor. simpl. rewrite splice_nil, zlen_nil. f_equal. lia. Qed.

Lemma room_append s bs : room (append s bs) = room s - zlen bs.
Proof. unfold room, append. simpl. lia. Qed.

Lemma append_extends s bs : bs_wf s -> zlen bs <= room s -> Forall byte bs ->
  extends s (append s bs).
Proof.
  intros W Hr Hb. pose proof (wf_cursor s bs W Hr) as Hc.
  pose proof (zlen_nonneg bs). pose proof (append_wf s bs W Hr Hb) as W'.
  destruct W as [Ho _ _ _].
  split; [done|done| |simpl; lia| |]; unfold append, cursor in *; simpl.
  - unfold zlen. by rewrite length_splice.
  - apply take_splice. lia.
  - replace (Z.to_nat (bs_offset s + zlen bs))
      with (Z.to_nat (bs_offset s) + length bs)%nat by (unfold zlen; lia).
    rewrite <- drop_drop, drop_splice by lia. by rewrite drop_app_length.
Qed.

Lemma extends_refl s : bs_wf s -> extends s s.
Proof. intros W. by split. Qed.

Lemma extends_trans s1 s2 s3 : bs_wf s1 -> extends s1 s2 -> extends s2 s3 -> extends s1 s3.
Proof.
  intros W1 [W2 B2 L2 O2 T2 D2] [W3 B3 L3 O3 T3 D3].
  destruct W1 as [Ho1 _ _ _], W2 as [Ho2 _ _ _].
  assert (Hle12 : (cursor s1 <= cursor s2)%nat) by (unfold cursor; lia).
  assert (Hle23 : (cursor s2 <= cursor s3)%nat) by (unfold cursor; lia).
  split; [done|congruence|congruence|lia| |].
  - apply (f_equal (take (cursor s1))) in T3. rewrite !take_take in T3.
    rewrite !Nat.min_l in T3 by done. congruence.
  - apply (f_equal (drop (cursor s3 - cursor s2))) in D2. rewrite !drop_drop in D2.
    replace (cursor s2 + (cursor s3 - cursor s2))%nat with (cursor s3) in D2 by lia.
    congruence.
Qed.

Lemma skip_wf s n : bs_wf s -> 0 <= n <= room s -> bs_wf (skip s n).
Proof.
  intros [Ho Hb Hi Hby] Hn. unfold room in Hn. split; simpl; [lia|done|done|done].
Qed.

Lemma skip_skip s n m : skip (skip s n) m = skip s (n + m).
Proof. unfold skip, set_offset. simpl. f_equal. lia. Qed.

Lemma skip_0 s : skip s 0 = s.
Proof. destruct s. unfold skip, set_offset. simpl. f_equal. lia. Qed.

Lemma room_skip s n : room (skip s n) = room s - n.
Proof. unfold room, skip, set_offset. simpl. lia. Qed.

Lemma ahead_split s b1 b2 : bs_wf s -> ahead s (b1 ++ b2) ->
  ahead s b1 /\ ahead (skip s (zlen b1)) b2.
Proof.
  intros [Ho _ _ _] [rest E]. rewrite <- app_assoc in E. split; [by eexists|].
  exists rest. unfold skip, cursor in *. simpl.
  replace (Z.to_nat (bs_offset s + zlen b1))
    with (Z.to_nat (bs_offset s) + length b1)%nat by (unfold zlen; lia).
  by rewrite <- drop_drop, E, drop_app_length.
Qed.

Lemma ahead_append s bs o : bs_wf s -> zlen bs <= room s -> o = bs_offset s ->
  ahead (set_offset (append s bs) o) bs.
Proof.
  intros W Hr ->. pose proof (wf_cursor s bs W Hr).
  eexists. unfold append, cursor in *. simpl. rewrite drop_splice by lia. done.
Qed.

Lemma append_after s bs : bs_wf s -> zlen bs <= room s -> Forall byte bs ->
  bs_wf (set_offset (append s bs) (bs_offset s)) /\
  ahead (set_offset (append s bs) (bs_offset s)) bs /\
  room (set_offset (append s bs) (bs_offset s)) = room s.
Proof.
  intros W Hr By. pose proof (append_wf s bs W Hr By) as [Ho' Hb' Hi' Hby'].
  split; [|split; [by apply ahead_append|done]].
  destruct W as [Ho _ _ _]. split; auto.
Qed.
#[export] Hint Resolve append_wf skip_wf room_nonneg extends_refl append_extends : unc.

(** ** Composition of writers *)

Lemma emits_ret {A} (r : A) : emits (ret r) [] r.
Proof. split; [constructor|]. intros s _ _. by rewrite append_nil. Qed.

Lemma emits_bind {A B} (w : prog bitstream_t A) (k : A -> prog bitstream_t B) b1 b2 r1 r2 :
  emits w b1 r1 -> emits (k r1) b2 r2 -> emits (bind w k) (b1 ++ b2) r2.
Proof.
  intros [By1 E1] [By2 E2]. split; [by apply Forall_app|]. intros s W Hr.
  rewrite zlen_app in Hr. pose proof (zlen_nonneg b2). pose proof (zlen_nonneg b1).
  rewrite (bind_done _ _ _ _ _ (E1 s W ltac:(lia))).
  rewrite E2; [by rewrite append_append|apply append_wf; auto; lia|].
  rewrite room_append. lia.
Qed.

Lemma emits_eq {A} (w : prog bitstream_t A) b1 b2 r : b1 = b2 -> emits w b1 r -> emits w b2 r.
Proof. by intros ->. Qed.

Lemma writer_safe_bind {A B} (w : prog bitstream_t A) (k : A -> prog bitstream_t B) :
  writer_safe w -> (forall r, writer_safe (k r)) -> writer_safe (bind w k).
Proof.
  intros H1 H2 s W. destruct (H1 s W) as (r1 & s1 & E1 & X1).
  destruct (H2 r1 s1 (ext_wf _ _ X1)) as (r2 & s2 & E2 & X2).
  exists r2, s2. split; [by rewrite (bind_done _ _ _ _ _ E1)|].
  by apply (extends_trans s s1 s2).
Qed.

Lemma writer_safe_ret {A} (r : A) : writer_safe (ret r).
Proof. intros s W. exists r, s. by auto using extends_refl. Qed.

Lemma field_safe {A} (w : prog bitstream_t A) bs r r0 : field w bs r r0 -> writer_safe w.
Proof.
  intros [[By E] N] s W. destruct (Z_le_gt_dec (zlen bs) (room s)) as [Hf|Hf].
  - exists r, (append s bs). split; [by apply E|]. by apply append_extends.
  - exists r0, s. split; [apply N; [done|lia]|]. by apply extends_refl.
Qed.

Lemma field_emits {A} (w : prog bitstream_t A) bs r r0 : field w bs r r0 -> emits w bs r.
Proof. by intros []. Qed.

(** ** Composition of readers *)

Lemma parses_ret {A} (v : A) : parses (ret v) [] v.
Proof. intros s _ _ _. by rewrite skip_0. Qed.

Lemma parses_bind {A B} (rd : prog bitstream_t A) (k : A -> prog bitstream_t B) b1 b2 v1 v2 :
  parses rd b1 v1 -> parses (k v1) b2 v2 -> parses (bind rd k) (b1 ++ b2) v2.
Proof.
  intros E1 E2 s W Hr Ha. destruct (ahead_split s b1 b2 W Ha) as [Ha1 Ha2].
  rewrite zlen_app in *. pose proof (zlen_nonneg b2). pose proof (zlen_nonneg b1).
  rewrite (bind_done _ _ _ _ _ (E1 s W ltac:(lia) Ha1)).
  rewrite E2; [by rewrite skip_skip|apply skip_wf; [done|lia]| |done].
  rewrite room_skip. lia.
Qed.

Lemma parses_faults {A B} (rd : prog bitstream_t A) (k : A -> prog bitstream_t B) b1 b2 v f :
  parses rd b1 v -> faults (k v) b2 f -> faults (bind rd k) (b1 ++ b2) f.
Proof.
  intros E1 E2 s W Hr Ha. destruct (ahead_split s b1 b2 W Ha) as [Ha1 Ha2].
  rewrite zlen_app in *. pose proof (zlen_nonneg b2). pose proof (zlen_nonneg b1).
  rewrite (bind_done _ _ _ _ _ (E1 s W ltac:(lia) Ha1)).
  apply E2; [apply skip_wf; [done|lia]| |done]. rewrite room_skip. lia.
Qed.

Lemma faults_bind {A B} (rd : prog bitstream_t A) (k : A -> prog bitstream_t B) bs f :
  faults rd bs f -> faults (bind rd k) bs f.
Proof. intros E s W Hr Ha. apply bind_fault. by apply E. Qed.

Lemma parses_eq {A} (rd : prog bitstream_t A) b1 b2 v : b1 = b2 -> parses rd b1 v -> parses rd b2 v.
Proof. by intros ->. Qed.

Lemma reads_ret {A} (v : A) (P : A -> Prop) : P v -> reads 0 (ret v) P.
Proof. split; [lia|]. intros s _ _. exists v. by rewrite skip_0. Qed.

Lemma reads_bind {A B} n m (rd : prog bitstream_t A) (k : A -> prog bitstream_t B) P Q :
  reads n rd P -> (forall v, P v -> reads m (k v) Q) -> 0 <= m -> reads (n + m) (bind rd k) Q.
Proof.
  intros [Hn H1] H2 Hm. split; [lia|]. intros s W Hr.
  destruct (H1 s W ltac:(lia)) as (v & E & HP). destruct (H2 v HP) as [_ H2'].
  destruct (H2' (skip s n)) as (v' & E' & HQ).
  - apply skip_wf; [done|lia].
  - rewrite room_skip. lia.
  - exists v'. split; [|done]. by rewrite (bind_done _ _ _ _ _ E), E', skip_skip.
Qed.

Lemma reads_reads_upto {A} n (rd : prog bitstream_t A) P : reads n rd P -> reads_upto n rd P.
Proof.
  intros [Hn R]. split; [done|]. intros s W Hr. destruct (R s W Hr) as (v & E & HP).
  exists v, n. eauto with lia.
Qed.

Lemma reads_upto_needs {A} n (rd : prog bitstream_t A) P : reads_upto n rd P -> reader_needs n rd P.
Proof.
  intros [Hn R]. split; [done|]. intros s W Hr. destruct (R s W Hr) as (v & m & E & Hm & HP).
  exists v, m. split; [done|]. split; [lia|done].
Qed.

Lemma reads_upto_ret {A} (v : A) (P : A -> Prop) : P v -> reads_upto 0 (ret v) P.
Proof. intros. by apply reads_reads_upto, reads_ret. Qed.

Lemma reads_upto_weaken {A} n m (rd : prog bitstream_t A) (P Q : A -> Prop) :
  reads_upto n rd P -> n <= m -> (forall v, P v -> Q v) -> reads_upto m rd Q.
Proof.
  intros [Hn R] Hm HQ. split; [lia|]. intros s W Hr.
  destruct (R s W ltac:(lia)) as (v & k & E & Hk & HP). exists v, k. eauto with lia.
Qed.

Lemma reads_upto_bind {A B} n m (rd : prog bitstream_t A) (k : A -> prog bitstream_t B) P Q :
  reads_upto n rd P -> (forall v, P v -> reads_upto m (k v) Q) -> 0 <= m ->
  reads_upto (n + m) (bind rd k) Q.
Proof.
  intros [Hn H1] H2 Hm. split; [lia|]. intros s W Hr.
  destruct (H1 s W ltac:(lia)) as (v & i & E & Hi & HP). destruct (H2 v HP) as [_ H2'].
  destruct (H2' (skip s i)) as (v' & j & E' & Hj & HQ).
  - apply skip_wf; [done|lia].
  - rewrite room_skip. lia.
  - exists v', (i + j). split; [|split; [lia|done]].
    by rewrite (bind_done _ _ _ _ _ E), E', skip_skip.
Qed.

Lemma reader_needs_bind {A B} n m (rd : prog bitstream_t A) (k : A -> prog bitstream_t B) P Q :
  reads_upto n rd P -> (forall v, P v -> reader_needs m (k v) Q) -> 0 <= m ->
  reader_needs (n + m) (bind rd k) Q.
Proof.
  intros [Hn H1] H2 Hm. split; [lia|]. intros s W Hr.
  destruct (H1 s W ltac:(lia)) as (v & i & E & Hi & HP). destruct (H2 v HP) as [_ H2'].
  destruct (H2' (skip s i)) as (v' & j & E' & Hj & HQ).
  - apply skip_wf; [done|lia].
  - rewrite room_skip. lia.
  - rewrite room_skip in Hj. exists v', (i + j). split; [|split; [lia|done]].
    by rewrite (bind_done _ _ _ _ _ E), E', skip_skip.
Qed.

(** A decision for concrete streams. *)
Definition bs_wfb (s : bitstream_t) : bool :=
  (0 <=? bs_offset s) && (bs_offset s <=? bs_bound s) && (bs_bound s <=? zlen (bs_data s)) &&
  (bs_bound s <? 2 ^ 31) && forallb (fun b => (0 <=? b) && (b <? 256)) (bs_data s).

Lemma forallb_bytes l : forallb (fun b => (0 <=? b) && (b <? 256)) l = true -> Forall byte l.
Proof.
  intros H. apply Forall_forall. intros b Hb%list_elem_of_In.
  apply (proj1 (forallb_forall _ _) H) in Hb. apply andb_true_iff in Hb as [H1 H2].
  apply Z.leb_le in H1. apply Z.ltb_lt in H2. done.
Qed.

Lemma bs_wfb_wf s : bs_wfb s = true -> bs_wf s.
Proof.
  unfold bs_wfb. rewrite !andb_true_iff, !Z.leb_le, Z.ltb_lt.
  intros ((((H1 & H2) & H3) & H4) & H5). split; [lia|done|done|by apply forallb_bytes].
Qed.

(** Whatever was written by [w] is read back by [rd]. *)
Lemma emits_parses {A} (w : prog bitstream_t unit) (rd : prog bitstream_t A) bs v s :
  emits w bs tt -> parses rd bs v -> bs_wf s -> zlen bs <= room s ->
  exists s', w s = Done (tt, s') /\ extends s s' /\
    rd (set_offset s' (bs_offset s)) = Done (v, s').
Proof.
  intros [By E] R W Hr. exists (append s bs). split; [by apply E|].
  split; [by apply append_extends|].
  pose proof (append_wf s bs W Hr By) as W'.
  rewrite R; [done| | |by apply ahead_append].
  - destruct W as [Ho _ _ _], W' as [Ho' Hb' Hi' Hby']. split; simpl in *; auto; lia.
  - unfold room in *. simpl in *. lia.
Qed.

Lemma codec_roundtrip {A} ok enc (wr : A -> prog bitstream_t unit) rd
    `{C : Codec A ok enc wr rd} a s :
  ok a -> bs_wf s -> zlen (enc a) <= room s ->
  exists s', wr a s = Done (tt, s') /\ extends s s' /\
    rd (set_offset s' (bs_offset s)) = Done (a, s').
Proof.
  intros Ha. apply emits_parses; [by apply codec_emits|by apply codec_parses].
Qed.
