(* ===== verification/Fields.v ===== *)
(** * The fields of a message

    The bit stream operations of src/bitstream.c proved against the wire
    logic: every integer width is a [Codec], buffers are written whole and in
    wire order, strings carry a length byte; reads of integers need the bytes
    to be there, while buffer reads check. *)
From S2P Require Import Prelude Bitstream Wire.
From Stdlib Require Import Btauto.

Section Fields.
Context `{Host}.

(** ** Bytes *)

Lemma put_byte_emits v : byte v -> emits (put_byte v) [v] tt.
Proof.
  intros Hv. split; [by apply Forall_singleton|]. intros s W Hr.
  pose proof (wf_cursor s [v] W Hr) as Hc. simpl in Hc. change (zlen [v]) with 1 in Hr.
  unfold put_byte. rewrite store_done.
  - simpl. rewrite wf_u64 by (done || lia). unfold append. repeat f_equal.
    apply splice_insert. unfold cursor in *. lia.
  - destruct W. unfold room, cursor, zlen in *. lia.
Qed.

Lemma next_byte_parses v : parses next_byte [v] v.
Proof.
  intros s W Hr [rest E]. change (zlen [v]) with 1 in *. unfold next_byte.
  assert (L : bs_data s !! cursor s = Some v).
  { rewrite <- (Nat.add_0_r (cursor s)), <- lookup_drop, E. done. }
  rewrite (load_done _ _ v); [|destruct W; lia|done].
  simpl. rewrite wf_u64 by (done || lia). done.
Qed.

Lemma next_byte_reads : reads 1 next_byte byte.
Proof.
  split; [lia|]. intros s W Hr.
  destruct (load_in (bs_data s) (bs_offset s)) as (v & L & E).
  { destruct W. unfold room in *. lia. }
  exists v. unfold next_byte. rewrite E. simpl. rewrite wf_u64 by (done || lia).
  split; [done|]. destruct W as [_ _ _ Hby]. by apply (proj1 (Forall_lookup _ _) Hby _ _ L).
Qed.

(** A guarded write: all of [bs] or nothing. *)
Lemma guarded_field {A} (w : prog bitstream_t A) bs r r0 n :
  zlen bs = n -> emits w bs r ->
  field (bind get (fun s => if negb (mBitstreamBytesDoFit s n) then ret r0 else w)) bs r r0.
Proof.
  intros <- [By E]. split; [split; [done|]|]; intros s W Hr; unfold bind, get;
    rewrite (wf_fit s _ W).
  - rewrite (proj2 (Z.leb_le _ _)) by lia. simpl. by apply E.
  - rewrite (proj2 (Z.leb_gt _ _)) by lia. done.
Qed.

(** ** Integers *)

(** The byte of weight [256^k], as the source selects it. *)
Lemma mask_byte x : u8 (Z.land x 255) = x mod 256.
Proof. rewrite land_ff. apply u8_small. lia. Qed.

Lemma u8_mod x : u8 x = x mod 256.
Proof. reflexivity. Qed.

Lemma byte_mod x : byte (x mod 256).
Proof. unfold byte. lia. Qed.

Ltac emit_bytes :=
  repeat first
    [ apply put_byte_emits; solve [apply u8_byte]
    | eapply emits_bind; [apply put_byte_emits; apply u8_byte|] ].

(** The bytes of the source, rewritten to those of [be_bytes]. *)
Ltac byte_list :=
  cbn [be_bytes app reverse rev_append]; rewrite ?mask_byte, ?u8_mod, ?shiftr_div by lia;
  cbn [Z.pow Z.pow_pos Pos.iter Z.mul Pos.mul];
  rewrite ?Z.div_div by lia; reflexivity.

Lemma write_uint8_field x : field (bitstream_write_uint8 x) (enc_uint 1 x) tt tt.
Proof.
  apply guarded_field; [unfold enc_uint; by destruct host|].
  eapply emits_eq; [|apply put_byte_emits, u8_byte].
  unfold enc_uint. destruct host; cbn; rewrite mask_byte; done.
Qed.

Lemma write_uint16_field x : field (bitstream_write_uint16 x) (enc_uint 2 x) tt tt.
Proof.
  apply guarded_field; [unfold enc_uint; by destruct host|].
  unfold enc_uint. destruct host; (eapply emits_eq; [|emit_bytes]); byte_list.
Qed.

Lemma write_uint16_endian_field x :
  field (bitstream_write_uint16_endian x) (reverse (be_bytes 2 x)) tt tt.
Proof.
  apply guarded_field; [done|]. eapply emits_eq; [|emit_bytes]. byte_list.
Qed.

Lemma write_uint32_field x : field (bitstream_write_uint32 x) (enc_uint 4 x) tt tt.
Proof.
  apply guarded_field; [unfold enc_uint; by destruct host|].
  unfold enc_uint. destruct host; (eapply emits_eq; [|emit_bytes]); byte_list.
Qed.

Lemma write_uint32_endian_field x :
  field (bitstream_write_uint32_endian x) (reverse (be_bytes 4 x)) tt tt.
Proof.
  apply guarded_field; [done|]. eapply emits_eq; [|emit_bytes]. byte_list.
Qed.

Lemma write_uint64_field x : field (bitstream_write_uint64 x) (enc_uint 8 x) tt tt.
Proof.
  apply guarded_field; [unfold enc_uint; by destruct host|].
  unfold enc_uint. destruct host; (eapply emits_eq; [|emit_bytes]); byte_list.
Qed.

Lemma write_int_field k x : field (write_int k x) (enc_int k x) tt tt.
Proof.
  destruct k; unfold enc_int; cbn [int_bytes write_int];
    auto using write_uint8_field, write_uint16_field, write_uint16_endian_field,
      write_uint32_field, write_uint32_endian_field, write_uint64_field.
Qed.

Lemma next_bind_parses {A} (k : Z -> prog bitstream_t A) v bs r :
  parses (k v) bs r -> parses (bind next_byte k) (v :: bs) r.
Proof. intros P. apply (parses_bind _ _ [v] bs v r); [apply next_byte_parses|done]. Qed.

Lemma ret_parses_eq {A} (v r : A) : v = r -> parses (ret v) [] r.
Proof. intros ->. apply parses_ret. Qed.

Lemma next_byte_parses_eq v r : v = r -> parses next_byte [v] r.
Proof. intros ->. apply next_byte_parses. Qed.

(** The [|] of shifted bytes, most significant byte first. *)
Lemma join2 b0 b1 : byte b0 -> byte b1 ->
  Z.lor (u32 (Z.shiftl b0 8)) b1 = be_value [b0; b1].
Proof.
  unfold byte. intros. rewrite Z.shiftl_mul_pow2 by lia. rewrite u32_small by lia.
  rewrite (lor_add _ _ 8) by lia. cbn [be_value fold_left]. lia.
Qed.

Lemma join4 b0 b1 b2 b3 : byte b0 -> byte b1 -> byte b2 -> byte b3 ->
  Z.lor (Z.lor (Z.lor (u32 (Z.shiftl b0 24)) (u32 (Z.shiftl b1 16)))
               (u32 (Z.shiftl b2 8))) b3 = be_value [b0; b1; b2; b3].
Proof.
  unfold byte. intros. rewrite !Z.shiftl_mul_pow2 by lia. rewrite !u32_small by lia.
  rewrite (lor_add _ (b1 * _) 24), (lor_add _ (b2 * _) 16), (lor_add _ b3 8) by lia.
  cbn [be_value fold_left]. lia.
Qed.

Lemma join8 b0 b1 b2 b3 b4 b5 b6 b7 :
  byte b0 -> byte b1 -> byte b2 -> byte b3 -> byte b4 -> byte b5 -> byte b6 -> byte b7 ->
  Z.lor (Z.lor (Z.lor (Z.lor (Z.lor (Z.lor (Z.lor
    (u64 (Z.shiftl b0 56)) (u64 (Z.shiftl b1 48))) (u64 (Z.shiftl b2 40)))
    (u64 (Z.shiftl b3 32))) (u64 (Z.shiftl b4 24))) (u64 (Z.shiftl b5 16)))
    (u64 (Z.shiftl b6 8))) b7 = be_value [b0; b1; b2; b3; b4; b5; b6; b7].
Proof.
  unfold byte. intros. rewrite !Z.shiftl_mul_pow2 by lia. rewrite !u64_small by lia.
  rewrite (lor_add _ (b1 * _) 56), (lor_add _ (b2 * _) 48), (lor_add _ (b3 * _) 40),
    (lor_add _ (b4 * _) 32), (lor_add _ (b5 * _) 24), (lor_add _ (b6 * _) 16),
    (lor_add _ b7 8) by lia.
  cbn [be_value fold_left]. lia.
Qed.

(** The same with the least significant byte first. *)
Lemma join2_rev b0 b1 : byte b0 -> byte b1 ->
  Z.lor b1 (u32 (Z.shiftl b0 8)) = be_value [b0; b1].
Proof. intros. rewrite Z.lor_comm. by apply join2. Qed.

Lemma join4_rev b0 b1 b2 b3 : byte b0 -> byte b1 -> byte b2 -> byte b3 ->
  Z.lor (Z.lor (Z.lor b3 (u32 (Z.shiftl b2 8))) (u32 (Z.shiftl b1 16)))
        (u32 (Z.shiftl b0 24)) = be_value [b0; b1; b2; b3].
Proof.
  intros. rewrite <- join4 by done. apply Z.bits_inj'. intros n _.
  rewrite !Z.lor_spec. btauto.
Qed.

Lemma join8_rev b0 b1 b2 b3 b4 b5 b6 b7 :
  byte b0 -> byte b1 -> byte b2 -> byte b3 -> byte b4 -> byte b5 -> byte b6 -> byte b7 ->
  Z.lor (Z.lor (Z.lor (Z.lor (Z.lor (Z.lor (Z.lor
    b7 (u64 (Z.shiftl b6 8))) (u64 (Z.shiftl b5 16))) (u64 (Z.shiftl b4 24)))
    (u64 (Z.shiftl b3 32))) (u64 (Z.shiftl b2 40))) (u64 (Z.shiftl b1 48)))
    (u64 (Z.shiftl b0 56)) = be_value [b0; b1; b2; b3; b4; b5; b6; b7].
Proof.
  intros. rewrite <- join8 by done. apply Z.bits_inj'. intros n _.
  rewrite !Z.lor_spec. btauto.
Qed.

Lemma read_int_parses k x :
  uint_ok (int_bytes k) x -> parses (read_int k) (enc_int k x) x.
Proof.
  intros Hx. pose proof (be_value_bytes (int_bytes k) x Hx) as V.
  pose proof (be_bytes_byte (int_bytes k) x) as By.
  destruct k; unfold enc_int, enc_uint in *; cbn [int_bytes read_int] in *;
  unfold bitstream_read_uint8, bitstream_read_uint16, bitstream_read_uint16_endian,
    bitstream_read_uint32, bitstream_read_uint32_endian, bitstream_read_uint64;
  destruct host; cbn [be_bytes app reverse rev_append] in *;
  rewrite ?Forall_cons in By; destruct_and?;
  first [ apply next_byte_parses_eq; exact V
        | repeat apply next_bind_parses; apply ret_parses_eq; etransitivity; [|exact V] ];
  auto using join2, join4, join8, join2_rev, join4_rev, join8_rev.
Qed.

Lemma int_codec_emits k x : emits (write_int k x) (enc_int k x) tt.
Proof. apply (field_emits _ _ _ tt), write_int_field. Qed.

#[export] Instance int_codec k :
  Codec (uint_ok (int_bytes k)) (enc_int k) (write_int k) (read_int k).
Proof. split; [intros x _; apply int_codec_emits|apply read_int_parses]. Qed.

Lemma length_enc_int k x : zlen (enc_int k x) = Z.of_nat (int_bytes k).
Proof.
  unfold enc_int, enc_uint, zlen.
  destruct k, host; rewrite ?length_reverse, ?length_be_bytes; done.
Qed.

(** *** Reads of integers take the bytes on trust *)

(** Any [int_bytes k] bytes are the encoding of some integer. *)
Lemma enc_int_onto k bs :
  Forall byte bs -> length bs = int_bytes k ->
  exists x, uint_ok (int_bytes k) x /\ enc_int k x = bs.
Proof.
  intros Hb Hl.
  assert (R : forall l, Forall byte l -> length l = int_bytes k ->
    uint_ok (int_bytes k) (be_value l) /\ be_bytes (int_bytes k) (be_value l) = l).
  { intros l Hbl Hll. split; [|rewrite <- Hll; by apply be_bytes_value].
    unfold uint_ok. rewrite <- Hll. by apply be_value_range. }
  assert (Hbr : Forall byte (reverse bs)) by (by apply Forall_reverse).
  assert (Hlr : length (reverse bs) = int_bytes k) by (by rewrite length_reverse).
  destruct (R bs Hb Hl) as [O E], (R _ Hbr Hlr) as [Or Er].
  unfold enc_int, enc_uint.
  destruct k, host; cbn [int_bytes] in *;
    solve [ by exists (be_value bs)
          | exists (be_value (reverse bs)); by rewrite Er, reverse_involutive ].
Qed.

Lemma bytes_ahead s n : bs_wf s -> 0 <= n <= room s ->
  exists bs, Forall byte bs /\ zlen bs = n /\ ahead s bs.
Proof.
  intros W Hn. destruct W as [Ho Hb Hi Hby]. unfold room in Hn.
  exists (take (Z.to_nat n) (drop (cursor s) (bs_data s))). split; [|split].
  - by apply Forall_take, Forall_drop.
  - unfold zlen, cursor in *. rewrite length_take, length_drop. lia.
  - eexists. symmetry. apply take_drop.
Qed.

Lemma read_int_reads k :
  reads (Z.of_nat (int_bytes k)) (read_int k) (uint_ok (int_bytes k)).
Proof.
  split; [lia|]. intros s W Hr.
  destruct (bytes_ahead s (Z.of_nat (int_bytes k)) W ltac:(lia)) as (bs & Hb & Hl & Ha).
  destruct (enc_int_onto k bs Hb ltac:(unfold zlen in Hl; lia)) as (x & Hx & <-).
  exists x. split; [|done]. rewrite <- Hl. apply read_int_parses; auto. lia.
Qed.

(** ** Buffers *)

Lemma swap_copy_out_spec n b base len src dst :
  len = b + Z.of_nat n -> 0 <= b -> 0 <= base -> b + Z.of_nat n <= zlen src -> base + Z.of_nat n <= zlen dst ->
  swap_copy_out n b base len src dst =
    Done (splice dst (Z.to_nat base) (reverse (take n (drop (Z.to_nat b) src)))).
Proof.
  revert b dst. induction n as [|n IH]; intros b dst -> Hb Hbase Hs Hd.
  { cbn [swap_copy_out swap_copy_in]. by rewrite take_0, reverse_nil, splice_nil. }
  cbn [swap_copy_out]. destruct (load_in src b ltac:(lia)) as (v & L & ->). cbn [obind].
  rewrite store_done by lia. cbn [obind].
  rewrite (IH (b + 1)) by (rewrite ?zlen_insert; lia). f_equal.
  rewrite (drop_S src v (Z.to_nat b) L). cbn [take]. rewrite reverse_cons.
  replace (Z.to_nat (b + 1)) with (S (Z.to_nat b)) by lia.
  set (xs := reverse (take n (drop (S (Z.to_nat b)) src))).
  assert (Hxs : length xs = n).
  { subst xs. rewrite length_reverse, length_take, length_drop. unfold zlen in Hs. lia. }
  rewrite <- splice_insert_end by (unfold zlen in Hd; lia). do 3 f_equal. lia.
Qed.

Lemma swap_copy_in_spec n b base len src dst :
  len = b + Z.of_nat n -> 0 <= b -> 0 <= base -> base + Z.of_nat n <= zlen src -> b + Z.of_nat n <= zlen dst ->
  swap_copy_in n b base len src dst =
    Done (splice dst (Z.to_nat b) (reverse (take n (drop (Z.to_nat base) src)))).
Proof.
  revert b dst. induction n as [|n IH]; intros b dst -> Hb Hbase Hs Hd.
  { cbn [swap_copy_out swap_copy_in]. by rewrite take_0, reverse_nil, splice_nil. }
  cbn [swap_copy_in]. destruct (load_in src (base + Z.of_nat n)) as (v & L & E); [lia|].
  replace (base + (b + Z.of_nat (S n)) - b - 1) with (base + Z.of_nat n) by lia.
  rewrite E. cbn [obind]. rewrite store_done by lia. cbn [obind].
  rewrite (IH (b + 1)) by (rewrite ?zlen_insert; lia). f_equal.
  rewrite (take_S_r (drop (Z.to_nat base) src) n v).
  - rewrite reverse_app. cbn [reverse rev_append app].
    replace (Z.to_nat (b + 1)) with (S (Z.to_nat b)) by lia.
    apply splice_insert_start.
    rewrite length_reverse, length_take, length_drop. unfold zlen in *. lia.
  - rewrite lookup_drop. rewrite <- L. f_equal. lia.
Qed.

(** Past the end of the destination the copy leaves the object. *)
Lemma swap_copy_in_overflow n b base len src dst :
  len = b + Z.of_nat n ->
  0 <= b <= zlen dst -> 0 <= base -> base + Z.of_nat n <= zlen src ->
  zlen dst < b + Z.of_nat n ->
  swap_copy_in n b base len src dst = Fault OutOfBounds.
Proof.
  revert b dst. induction n as [|n IH]; intros b dst -> Hb Hbase Hs Hd; [lia|].
  cbn [swap_copy_in]. destruct (load_in src (base + Z.of_nat n)) as (v & L & E); [lia|].
  replace (base + (b + Z.of_nat (S n)) - b - 1) with (base + Z.of_nat n) by lia.
  rewrite E. cbn [obind].
  destruct (decide (b < zlen dst)) as [Hlt|].
  - rewrite store_done by lia. cbn [obind].
      apply (IH (b + 1)); rewrite ?zlen_insert; lia.
  - rewrite store_out by lia. done.
Qed.

Lemma wire_order_bytes bs : Forall byte bs -> Forall byte (wire_order bs).
Proof. unfold wire_order. destruct host; [apply Forall_reverse|done]. Qed.

Lemma zlen_wire_order bs : zlen (wire_order bs) = zlen bs.
Proof. unfold wire_order. destruct host; [apply zlen_rev|done]. Qed.

Lemma wire_order_involutive bs : wire_order (wire_order bs) = bs.
Proof. unfold wire_order. destruct host; [apply reverse_involutive|done]. Qed.

Lemma write_bytes_field src n :
  0 <= n <= zlen src -> Forall byte src ->
  field (bitstream_write_bytes src n) (wire_order (take (Z.to_nat n) src)) n 0.
Proof.
  intros Hn Hb. pose proof (zlen_take src n Hn) as Ht.
  split; [split; [by apply wire_order_bytes, Forall_take|]|]; intros s W Hr;
    rewrite zlen_wire_order, Ht in Hr; unfold bitstream_write_bytes; rewrite wf_fit by done.
  - rewrite (proj2 (Z.leb_le _ _)) by lia. cbn [negb].
    rewrite wf_u64 by (done || lia). unfold append. rewrite zlen_wire_order, Ht.
    pose proof W as [Ho Hbd Hi _]. unfold room in Hr.
    assert (R : match host with
      | LittleEndian => swap_copy_out (Z.to_nat n) 0 (bs_offset s) n src (bs_data s)
      | BigEndian => memcpy (bs_data s) (bs_offset s) src 0 n end =
      Done (splice (bs_data s) (cursor s) (wire_order (take (Z.to_nat n) src)))).
    { unfold wire_order. destruct host.
      - apply (swap_copy_out_spec _ 0); lia.
      - unfold memcpy. rewrite decide_True by lia. done. }
    rewrite R. cbn [obind]. rewrite s32_small by lia. done.
  - rewrite (proj2 (Z.leb_gt _ _)) by lia. done.
Qed.

Lemma read_bytes_parses dest bs :
  zlen bs <= zlen dest ->
  parses (bitstream_read_bytes dest (zlen bs)) bs
    (splice dest 0 (wire_order bs), zlen bs).
Proof.
  intros Hd s W Hr [rest E]. unfold bitstream_read_bytes. rewrite wf_enough by done.
  rewrite (proj2 (Z.leb_le _ _)) by lia. cbn [negb].
  pose proof (zlen_nonneg bs). rewrite wf_u64 by (done || lia).
  pose proof W as [Ho Hbd Hi _]. unfold room in Hr.
  assert (T : take (Z.to_nat (zlen bs)) (drop (cursor s) (bs_data s)) = bs).
  { rewrite E. apply take_app_length'. unfold zlen. lia. }
  assert (R : match host with
    | LittleEndian => swap_copy_in (Z.to_nat (zlen bs)) 0 (bs_offset s) (zlen bs) (bs_data s) dest
    | BigEndian => memcpy dest 0 (bs_data s) (bs_offset s) (zlen bs) end =
    Done (splice dest 0 (wire_order bs))).
  { unfold wire_order. destruct host.
    - rewrite (swap_copy_in_spec _ 0) by lia. unfold cursor in T. by rewrite T.
    - unfold memcpy. rewrite decide_True by lia. unfold cursor in T. by rewrite T. }
  rewrite R. cbn [obind]. rewrite s32_small by lia. done.
Qed.

(** A buffer read stays inside the stream; it stays inside the destination
    only if the caller has checked the length. *)
Lemma read_bytes_needs dest n :
  0 <= n <= zlen dest -> Forall byte dest ->
  reader_needs 0 (bitstream_read_bytes dest n)
    (fun '(d, m) => zlen d = zlen dest /\ Forall byte d /\ (m = n \/ m = 0)).
Proof.
  intros Hn Hb. split; [lia|]. intros s W _. destruct (decide (n <= room s)) as [Hr|Hr].
  - destruct (bytes_ahead s n W ltac:(lia)) as (bs & Hby & <- & Ha).
    exists (splice dest 0 (wire_order bs), zlen bs), (zlen bs).
    split; [apply read_bytes_parses; auto; lia|]. split; [lia|].
    split; [|split; [apply Forall_splice; auto using wire_order_bytes|auto]].
    unfold zlen. rewrite length_splice; [done|].
    pose proof (zlen_wire_order bs). unfold zlen in *. lia.
  - exists (dest, 0), 0. split; [|split; [pose proof (room_nonneg s W); lia|auto]].
    unfold bitstream_read_bytes. rewrite wf_enough by done.
    rewrite (proj2 (Z.leb_gt _ _)) by lia. cbn [negb]. by rewrite skip_0.
Qed.

Lemma read_bytes_overflow dest n s :
  bs_wf s -> zlen dest < n <= room s ->
  bitstream_read_bytes dest n s = Fault OutOfBounds.
Proof.
  intros W Hn. unfold bitstream_read_bytes. rewrite wf_enough by done.
  rewrite (proj2 (Z.leb_le _ _)) by lia. cbn [negb].
  pose proof W as [Ho Hbd Hi _]. unfold room in Hn. pose proof (zlen_nonneg dest).
  destruct host.
  - rewrite (swap_copy_in_overflow _ 0) by lia. done.
  - unfold memcpy. rewrite decide_False by lia. done.
Qed.

(** ** Strings *)

(** The array [src] holds the C string [str]. *)
Definition c_string (src str : list Z) : Prop :=
  Forall (fun c => c <> 0) str /\ exists tail, src = str ++ 0 :: tail.

Lemma strlen_spec src str : c_string src str -> strlen src = Done (zlen str).
Proof.
  intros [Hn [tail ->]]. induction Hn as [|c str Hc Hn IH]; [done|].
  simpl. rewrite (proj2 (Z.eqb_neq _ _)) by done. rewrite IH. simpl.
  by rewrite zlen_cons.
Qed.

(** The length byte keeps only the low eight bits of the length. *)
Definition enc_str (str : list Z) : list Z := [zlen str mod 256] ++ wire_order str.

Lemma zlen_enc_str str : zlen (enc_str str) = 1 + zlen str.
Proof. unfold enc_str. rewrite zlen_app, zlen_wire_order. done. Qed.

Lemma write_str_field src str :
  c_string src str -> Forall byte src -> zlen str < 2 ^ 31 ->
  field (bitstream_write_str src) (enc_str str) (zlen str) 0.
Proof.
  intros Hs Hb Hl. pose proof (zlen_nonneg str). pose proof (strlen_spec src str Hs) as Hst.
  destruct Hs as [_ [tail Ht]].
  assert (F : field (bind get (fun s => if negb (mBitstreamBytesDoFit s (zlen str + 1)) then ret 0
    else bind (bitstream_write_uint8 (zlen str)) (fun _ =>
         bind (bitstream_write_bytes src (zlen str)) (fun _ => ret (zlen str)))))
    (enc_str str) (zlen str) 0).
  { apply guarded_field; [rewrite zlen_enc_str; lia|]. unfold enc_str.
    eapply emits_bind.
    - eapply emits_eq; [|apply (int_codec_emits U8)].
      unfold enc_int, enc_uint. cbn. by destruct host.
    - rewrite <- (app_nil_r (wire_order str)). eapply emits_bind; [|apply emits_ret].
      eapply emits_eq; [|eapply field_emits, write_bytes_field; auto].
      + subst src. rewrite take_app_length'; [done|]. unfold zlen. lia.
      + subst src. rewrite zlen_app, zlen_cons. pose proof (zlen_nonneg tail). lia. }
  destruct F as [[By E] N].
  assert (Eq : forall s, bitstream_write_str src s =
    bind get (fun s => if negb (mBitstreamBytesDoFit s (zlen str + 1)) then ret 0
    else bind (bitstream_write_uint8 (zlen str)) (fun _ =>
         bind (bitstream_write_bytes src (zlen str)) (fun _ => ret (zlen str)))) s).
  { intros s. unfold bitstream_write_str, bind, lift. rewrite Hst. small_int. done. }
  split; [split; [done|]|]; intros s W Hr; rewrite Eq; auto.
Qed.

(** A string is read back by a little-endian host. *)
Lemma read_str_parses dest str maxlength :
  host = LittleEndian -> zlen str < 256 -> zlen str + 1 <= maxlength ->
  maxlength <= zlen dest ->
  parses (bitstream_read_str dest maxlength) (enc_str str)
    (splice dest 0 (str ++ [0]), zlen str).
Proof.
  intros HL Hs Hm Hd. unfold bitstream_read_str, enc_str.
  pose proof (zlen_nonneg str). rewrite Z.mod_small by lia.
  eapply parses_bind; [apply next_byte_parses|].
  unfold as_size_t. rewrite HL. cbn beta zeta.
  rewrite (proj2 (Z.ltb_ge _ _)) by (small_int; lia).
  rewrite <- (app_nil_r (wire_order str)).
  rewrite <- (zlen_wire_order str). eapply parses_bind.
  - apply read_bytes_parses. rewrite zlen_wire_order. lia.
  - rewrite wire_order_involutive, zlen_wire_order.
    intros s W Hr _. unfold bind, lift. rewrite skip_0.
    assert (Hlen : (length str < length dest)%nat) by (unfold zlen in *; lia).
    assert (Hsp : length (splice dest 0 str) = length dest) by (apply length_splice; lia).
    rewrite store_done by (unfold zlen in *; lia). simpl. unfold ret. small_int.
    do 3 f_equal. unfold zlen. rewrite Nat2Z.id, splice_insert by lia.
    rewrite <- (splice_splice dest 0 str [0]) by lia. done.
Qed.

(** On every host a string read touches at most [maxlength] bytes of the
    stream and of the destination. *)
Lemma read_str_reads dest maxlength :
  1 <= maxlength <= zlen dest -> maxlength < 2 ^ 31 -> Forall byte dest ->
  reads_upto maxlength (bitstream_read_str dest maxlength)
    (fun '(d, n) => zlen d = zlen dest /\ Forall byte d /\ 0 <= n < maxlength).
Proof.
  intros Hm Hi Hb. split; [lia|]. intros s W Hr. unfold bitstream_read_str.
  destruct (proj2 next_byte_reads s W ltac:(lia)) as (v & E & Hv).
  rewrite (bind_done _ _ _ _ _ E). cbn zeta. unfold byte in Hv.
  assert (Hsz : 0 <= as_size_t v < 2 ^ 63).
  { unfold as_size_t. destruct host; [lia|]. rewrite Z.shiftl_mul_pow2; lia. }
  rewrite u64_small by lia. destruct (Z.ltb_spec maxlength (as_size_t v + 1)).
  - exists (dest, 0), 1. split; [done|]. split; [lia|]. split; [done|]. split; [done|lia].
  - assert (W1 : bs_wf (skip s 1)) by (apply skip_wf; [done|lia]).
    destruct (bytes_ahead (skip s 1) (as_size_t v)) as (bs & Hby & Hl & Ha);
      [done|rewrite room_skip; lia|].
    assert (R : bitstream_read_bytes dest (as_size_t v) (skip s 1) =
      Done (splice dest 0 (wire_order bs), as_size_t v, skip (skip s 1) (as_size_t v))).
    { rewrite <- Hl. apply read_bytes_parses; [lia|done|rewrite room_skip; lia|done]. }
    rewrite (bind_done _ _ _ _ _ R). unfold bind, lift.
    assert (Hsp : zlen (splice dest 0 (wire_order bs)) = zlen dest).
    { unfold zlen. rewrite length_splice; [done|].
      pose proof (zlen_wire_order bs). unfold zlen in *. lia. }
    rewrite store_done by lia. unfold ret. rewrite s32_small by lia. rewrite skip_skip.
    eexists _, _. split; [done|]. split; [lia|].
    split; [by rewrite zlen_insert|]. split; [|lia].
    apply Forall_insert; [|done]. apply Forall_splice; auto using wire_order_bytes.
Qed.

End Fields.
