(* ===== verification/BitstreamSpec.v ===== *)
(** * What the bit stream promises

    The properties of src/bitstream.c that its clients rely on, for every
    state [bs_wf] and for both byte orders unless a theorem names one. *)
From S2P Require Import Prelude Bitstream Wire Fields.

(** A reader that runs off a block faults as soon as fewer than [n] bytes are
    left. *)
Definition short {A} (n : Z) (rd : io A) : Prop :=
  forall s, bs_wf s -> bs_bound s = zlen (bs_data s) -> room s < n ->
    rd s = Fault OutOfBounds.

Section Short.
Context `{Host}.

Lemma next_byte_at_end s : bs_wf s -> bs_bound s = zlen (bs_data s) -> room s < 1 ->
  next_byte s = Fault OutOfBounds.
Proof.
  intros W E Hr. pose proof (room_nonneg s W). unfold next_byte, room in *.
  by rewrite load_out by lia.
Qed.

Lemma short_bind {A} n (k : Z -> io A) :
  (forall v, short n (k v)) -> short (1 + n) (bind next_byte k).
Proof.
  intros Hk s W E Hr. destruct (Z.lt_ge_cases (room s) 1) as [Hlt|Hge].
  - apply bind_fault. by apply next_byte_at_end.
  - destruct (proj2 next_byte_reads s W Hge) as (v & R & _).
    rewrite (bind_done _ _ _ _ _ R).
    apply Hk; [apply skip_wf; [done|lia]|done|]. rewrite room_skip. lia.
Qed.

Lemma short_ret {A} (v : A) : short 0 (ret v).
Proof. intros s W _ Hr. pose proof (room_nonneg s W). lia. Qed.

Lemma short_eq {A} n m (rd : io A) : n = m -> short n rd -> short m rd.
Proof. by intros ->. Qed.

Lemma read_int_short k : short (Z.of_nat (int_bytes k)) (read_int k).
Proof.
  destruct k; cbn [read_int int_bytes]; unfold bitstream_read_uint8, bitstream_read_uint16,
    bitstream_read_uint16_endian, bitstream_read_uint32, bitstream_read_uint32_endian,
    bitstream_read_uint64; try destruct host;
    first [ exact next_byte_at_end
          | eapply short_eq;
            [|repeat (apply short_bind; intros ?); apply short_ret]; reflexivity ].
Qed.

(** A writer of a field, as a function of the stream. *)
Lemma field_result {A} (w : io A) bs r r0 s : field w bs r r0 -> bs_wf s ->
  w s = Done (if zlen bs <=? room s then (r, append s bs) else (r0, s)).
Proof.
  intros [[_ E] N] W. destruct (Z.leb_spec (zlen bs) (room s)); [by apply E|by apply N].
Qed.
End Short.

(** The value of an integer whose bytes are taken in the other order. *)
Definition byteswap (k : int_kind) (x : Z) : Z :=
  match k with
  | U16endian | U32endian => x
  | _ => be_value (reverse (be_bytes (int_bytes k) x))
  end.

Definition other (h : endianness) : endianness :=
  match h with LittleEndian => BigEndian | BigEndian => LittleEndian end.

Lemma byteswap_ok k x : uint_ok (int_bytes k) x -> uint_ok (int_bytes k) (byteswap k x).
Proof.
  intros Hx. assert (R : uint_ok (int_bytes k) (be_value (reverse (be_bytes (int_bytes k) x)))).
  { pose proof (be_value_range (reverse (be_bytes (int_bytes k) x))) as V.
    unfold zlen, uint_ok in *. rewrite length_reverse, length_be_bytes in V.
    apply V, Forall_reverse, be_bytes_byte. }
  by destruct k.
Qed.

Lemma enc_int_other h k x : uint_ok (int_bytes k) x ->
  enc_int (H := h) k x = enc_int (H := other h) k (byteswap k x).
Proof.
  intros Hx. assert (R : forall n, be_bytes n (be_value (reverse (be_bytes n x))) =
                                   reverse (be_bytes n x)).
  { intros n. rewrite <- (length_be_bytes n x) at 1. rewrite <- length_reverse.
    apply be_bytes_value, Forall_reverse, be_bytes_byte. }
  destruct k, h; unfold enc_int, enc_uint, byteswap; cbn [other int_bytes]; unfold host;
    rewrite ?R, ?reverse_involutive; done.
Qed.

Definition demo : bitstream_t := bitstream_create (replicate 16 0) 16.

Lemma demo_wf : bs_wf demo.
Proof. apply bs_wfb_wf. reflexivity. Defined.

Section Properties.
Context `{Host}.

(** C8: integers of every width survive a write and a read at the same place,
    on the same host; the write touches nothing else. *)
Theorem int_roundtrip k x s :
  bs_wf s -> uint_ok (int_bytes k) x -> Z.of_nat (int_bytes k) <= room s ->
  exists s', write_int k x s = Done (tt, s') /\ extends s s' /\
    read_int k (set_offset s' (bs_offset s)) = Done (x, s').
Proof. intros W Hx Hr. apply (codec_roundtrip _ _ _ _ (C := int_codec k)); [done|done|].
  by rewrite length_enc_int. Qed.

(** an integer write is all or nothing: it appends the whole encoding when
    the bound leaves room and otherwise leaves the stream as it was. *)
Theorem int_write_atomic k x s :
  bs_wf s ->
  write_int k x s =
    Done (tt, if Z.of_nat (int_bytes k) <=? room s then append s (enc_int k x) else s) /\
  exists s', write_int k x s = Done (tt, s') /\ extends s s'.
Proof.
  intros W. split.
  - rewrite (field_result _ _ _ _ s (write_int_field k x) W), length_enc_int.
    by destruct (Z.of_nat (int_bytes k) <=? room s).
  - destruct (field_safe _ _ _ _ (write_int_field k x) s W) as ([] & s' & E & X).
    by exists s'.
Qed.

(** integer reads do not look at the bound: when the bound is the end of
    the block and fewer bytes than the integer's width are left, the read
    leaves the block. *)
Theorem int_read_unchecked k s :
  bs_wf s -> bs_bound s = zlen (bs_data s) -> room s < Z.of_nat (int_bytes k) ->
  read_int k s = Fault OutOfBounds.
Proof. apply read_int_short. Qed.

(** a buffer survives a write and a read on the same host; the read
    changes only the first [n] bytes of the destination and both return the
    number of bytes. *)
Theorem buffer_roundtrip src dest n s :
  bs_wf s -> Forall byte src -> 0 <= n <= zlen src -> n <= zlen dest -> n <= room s ->
  exists s', bitstream_write_bytes src n s = Done (n, s') /\ extends s s' /\
    bitstream_read_bytes dest n (set_offset s' (bs_offset s)) =
      Done (splice dest 0 (take (Z.to_nat n) src), n, s').
Proof.
  intros W Hb Hn Hd Hr. set (bs := wire_order (take (Z.to_nat n) src)).
  assert (Hl : zlen bs = n) by (unfold bs; rewrite zlen_wire_order; by apply zlen_take).
  pose proof (field_emits _ _ _ _ (write_bytes_field src n Hn Hb)) as [By E].
  fold bs in By, E. exists (append s bs).
  destruct (append_after s bs W ltac:(lia) By) as (W' & A' & R').
  split; [apply E; auto; lia|]. split; [apply append_extends; auto; lia|].
  pose proof (read_bytes_parses dest bs ltac:(lia) _ W' ltac:(lia) A') as P.
  rewrite Hl in P. rewrite P. subst bs. rewrite wire_order_involutive.
  repeat f_equal. unfold skip, append, set_offset. simpl. do 2 f_equal. lia.
Qed.

(** a buffer read is bounded by the stream, not by its destination: a
    length that the stream can serve and the destination cannot hold writes
    past the destination. *)
Theorem buffer_read_overflow dest n s :
  bs_wf s -> zlen dest < n <= room s ->
  bitstream_read_bytes dest n s = Fault OutOfBounds.
Proof. apply read_bytes_overflow. Qed.

(** C39: no write of an integer, a buffer or a string leaves the bound or
    touches a byte outside the old and the new cursor. *)
Theorem writers_stay_inside k x src n str s :
  bs_wf s -> Forall byte src -> 0 <= n <= zlen src -> c_string src str ->
  zlen str < 2 ^ 31 ->
  (exists s', write_int k x s = Done (tt, s') /\ extends s s') /\
  (exists r s', bitstream_write_bytes src n s = Done (r, s') /\ extends s s') /\
  (exists r s', bitstream_write_str src s = Done (r, s') /\ extends s s').
Proof.
  intros W Hb Hn Hs Hl. repeat split.
  - destruct (field_safe _ _ _ _ (write_int_field k x) s W) as ([] & s' & E & X). by exists s'.
  - by apply (field_safe _ _ _ _ (write_bytes_field src n Hn Hb)).
  - by apply (field_safe _ _ _ _ (write_str_field src str Hs Hb Hl)).
Qed.

(** on a little-endian host a string shorter than 256 bytes is read back
    with its terminating zero. *)
Theorem string_roundtrip src str dest maxlength s :
  host = LittleEndian -> bs_wf s -> Forall byte src -> c_string src str ->
  zlen str < 256 -> zlen str + 1 <= maxlength -> maxlength <= zlen dest ->
  zlen str + 1 <= room s ->
  exists s', bitstream_write_str src s = Done (zlen str, s') /\ extends s s' /\
    bitstream_read_str dest maxlength (set_offset s' (bs_offset s)) =
      Done (splice dest 0 (str ++ [0]), zlen str, s').
Proof.
  intros HL W Hb Hs Hl Hm Hd Hr.
  pose proof (field_emits _ _ _ _ (write_str_field src str Hs Hb ltac:(lia))) as [By E].
  pose proof (zlen_enc_str str) as Hz. exists (append s (enc_str str)).
  assert (Hf : zlen (enc_str str) <= room s) by lia.
  destruct (append_after s _ W Hf By) as (W' & A' & R').
  split; [apply E; auto; lia|]. split; [apply append_extends; auto; lia|].
  by apply (read_str_parses dest str maxlength HL Hl Hm Hd).
Qed.

(** reading a string is safe on every host and for every byte of the
    stream, as long as [maxlength] bytes are left in the stream and in the
    destination. *)
Theorem string_read_safe dest maxlength s :
  bs_wf s -> 1 <= maxlength <= zlen dest -> maxlength < 2 ^ 31 -> Forall byte dest ->
  maxlength <= room s ->
  exists d n m, bitstream_read_str dest maxlength s = Done (d, n, skip s m) /\
    0 <= m <= maxlength /\ zlen d = zlen dest /\ 0 <= n < maxlength.
Proof.
  intros W Hm Hi Hb Hr.
  destruct (proj2 (read_str_reads dest maxlength Hm Hi Hb) s W Hr) as ([d n] & m & E & Hk & P).
  exists d, n, m. intuition.
Qed.

(** [bitstream_rollback] returns to the offset of the snapshot and
    [bitstream_rollover] back to the offset at which the rollback was done,
    whatever was written in between. *)
Theorem rollback_rollover s0 s1 :
  exists sn, bitstream_rollback (bitstream_snapshot s0) s1 =
      Done (sn, set_offset s1 (bs_offset s0)) /\
    forall s2, bitstream_rollover sn s2 =
      Done (mkSnapshot (bs_offset s2) (bs_offset s1) true, set_offset s2 (bs_offset s1)).
Proof. eexists. split; [reflexivity|]. reflexivity. Qed.

End Properties.

(** the two builds do not interoperate: what one host writes, the host of
    the other byte order reads with the bytes reversed, except through the
    [_endian] operations. *)
Theorem hosts_disagree h k x s :
  bs_wf s -> uint_ok (int_bytes k) x -> Z.of_nat (int_bytes k) <= room s ->
  exists s', write_int (H := h) k x s = Done (tt, s') /\
    read_int (H := other h) k (set_offset s' (bs_offset s)) = Done (byteswap k x, s').
Proof.
  intros W Hx Hr. pose proof (length_enc_int (H := h) k x) as Hl.
  destruct (int_codec_emits (H := h) k x) as [By E].
  exists (append s (enc_int (H := h) k x)). split; [apply E; auto; lia|].
  destruct (append_after s _ W ltac:(rewrite Hl; exact Hr) By) as (W' & A' & R').
  rewrite (enc_int_other h k x Hx) in *.
  rewrite (read_int_parses (H := other h) k _ (byteswap_ok k x Hx) _ W') by (done || lia).
  rewrite Hl. unfold skip, append, set_offset. simpl. by rewrite Hl.
Qed.

(** ** Concrete instances *)

Definition demo_src : list Z := [104; 105; 0; 7].

Lemma demo_src_bytes : Forall byte demo_src.
Proof. apply forallb_bytes. reflexivity. Defined.

Lemma demo_src_string : c_string demo_src [104; 105].
Proof. split; [repeat constructor; discriminate|]. by exists [7]. Defined.

Lemma int_roundtrip_witness :
  exists s', write_int (H := BigEndian) U32 0xdeadbeef demo = Done (tt, s') /\
    extends demo s' /\
    read_int (H := BigEndian) U32 (set_offset s' 0) = Done (0xdeadbeef, s').
Proof.
  apply (int_roundtrip (H := BigEndian) U32 0xdeadbeef demo);
    [exact demo_wf|by split|discriminate].
Defined.

Lemma int_write_atomic_witness :
  let s := set_offset demo 13 in
  write_int (H := LittleEndian) U32 0xdeadbeef s = Done (tt, s) /\
  exists s', write_int (H := LittleEndian) U32 0xdeadbeef s = Done (tt, s') /\ extends s s'.
Proof.
  apply (int_write_atomic (H := LittleEndian) U32 0xdeadbeef (set_offset demo 13)).
  apply bs_wfb_wf. reflexivity.
Defined.

Lemma int_read_unchecked_witness :
  read_int (H := LittleEndian) U32 (set_offset demo 13) = Fault OutOfBounds.
Proof.
  apply (int_read_unchecked (H := LittleEndian) U32);
    [apply bs_wfb_wf; reflexivity|reflexivity|reflexivity].
Defined.

Lemma buffer_roundtrip_witness :
  exists s', bitstream_write_bytes (H := LittleEndian) demo_src 3 demo = Done (3, s') /\
    extends demo s' /\
    bitstream_read_bytes (H := LittleEndian) [1; 1; 1; 1] 3 (set_offset s' 0) =
      Done ([104; 105; 0; 1], 3, s').
Proof.
  apply (buffer_roundtrip (H := LittleEndian) demo_src [1; 1; 1; 1] 3 demo);
    [exact demo_wf|exact demo_src_bytes|by split|discriminate|discriminate].
Defined.

Lemma buffer_read_overflow_witness :
  bitstream_read_bytes (H := LittleEndian) [0; 0] 3 demo = Fault OutOfBounds.
Proof.
  apply (buffer_read_overflow (H := LittleEndian)); [exact demo_wf|by split].
Defined.

Lemma writers_stay_inside_witness :
  (exists s', write_int (H := LittleEndian) U64 9 demo = Done (tt, s') /\ extends demo s') /\
  (exists r s', bitstream_write_bytes (H := LittleEndian) demo_src 4 demo = Done (r, s') /\
    extends demo s') /\
  (exists r s', bitstream_write_str (H := LittleEndian) demo_src demo = Done (r, s') /\
    extends demo s').
Proof.
  apply (writers_stay_inside (H := LittleEndian) U64 9 demo_src 4 [104; 105] demo);
    [exact demo_wf|exact demo_src_bytes|by split|exact demo_src_string|reflexivity].
Defined.

Lemma string_roundtrip_witness :
  exists s', bitstream_write_str (H := LittleEndian) demo_src demo = Done (2, s') /\
    extends demo s' /\
    bitstream_read_str (H := LittleEndian) [1; 1; 1; 1] 4 (set_offset s' 0) =
      Done ([104; 105; 0; 1], 2, s').
Proof.
  apply (string_roundtrip (H := LittleEndian) demo_src [104; 105] [1; 1; 1; 1] 4 demo);
    [reflexivity|exact demo_wf|exact demo_src_bytes|exact demo_src_string|reflexivity
    |discriminate..].
Defined.

Lemma string_read_safe_witness :
  exists d n m, bitstream_read_str (H := BigEndian) [1; 1; 1; 1] 4 demo =
      Done (d, n, skip demo m) /\
    0 <= m <= 4 /\ zlen d = 4 /\ 0 <= n < 4.
Proof.
  apply (string_read_safe (H := BigEndian) [1; 1; 1; 1] 4 demo);
    [exact demo_wf|by split|reflexivity|apply forallb_bytes; reflexivity|discriminate].
Defined.

Lemma hosts_disagree_witness :
  exists s', write_int (H := LittleEndian) U16 0x0102 demo = Done (tt, s') /\
    read_int (H := BigEndian) U16 (set_offset s' 0) = Done (0x0201, s').
Proof.
  apply (hosts_disagree LittleEndian U16 0x0102 demo); [exact demo_wf|by split|discriminate].
Defined.
