(* ===== verification/Net.v ===== *)
(** * Addresses, errors and packets

    src/net_error.[ch], src/net_addr.[ch], src/net_packet.[ch].  What the
    operating system returns (the [getaddrinfo], [getnameinfo], [getifaddrs]
    and [inet_aton] results) is an argument of the functions that call it. *)
From S2P Require Import Prelude Bitstream Wire Fields.

(** ** Errors *)

Inductive NetError :=
| NetNoError | NetUnreachableError | NetNotKnownError | NetCouldNotResolveError
| NetBindError | NetSockError | NetInvalidError | NetOtherError.

#[export] Instance NetError_eq_dec : EqDecision NetError.
Proof. solve_decision. Defined.

(** The values of <errno.h> and <netdb.h> on Linux. *)
Definition ENETDOWN : Z := 100.
Definition ENETUNREACH : Z := 101.
Definition EAI_NONAME : Z := -2.
Definition EAI_AGAIN : Z := -3.
Definition EAI_FAIL : Z := -4.
Definition EAI_SYSTEM : Z := -11.
Definition EMSGSIZE : Z := 90.
Definition EADDRINUSE : Z := 98.
Definition EADDRNOTAVAIL : Z := 99.
Definition EAFNOSUPPORT : Z := 97.
Definition EIO : Z := 5.
Definition EAGAIN : Z := 11.
Definition EBADF : Z := 9.
Definition ENOTSOCK : Z := 88.
Definition EINVAL : Z := 22.

(** The [switch]; the group of [EINVAL] assigns and falls through. *)
Definition netErrorPosix (e : Z) : NetError :=
  if bool_decide (e = ENETDOWN \/ e = ENETUNREACH) then NetUnreachableError
  else if bool_decide (e = EAI_NONAME) then NetNotKnownError
  else if bool_decide (e = EAI_AGAIN \/ e = EAI_FAIL) then NetCouldNotResolveError
  else if bool_decide (e = EMSGSIZE) then NetInvalidError
  else if bool_decide (e = EADDRINUSE \/ e = EADDRNOTAVAIL \/ e = EAFNOSUPPORT) then NetBindError
  else if bool_decide (e = EIO \/ e = EAGAIN) then NetSockError
  else
    let error := NetInvalidError in
    let error := NetOtherError in
    error.

(** ** Addresses *)

Definition AF_INET : Z := 2.

(** [struct sockaddr_in]; [sin_port] and [s_addr] hold the value the host
    reads from the network-order bytes. *)
Record net_addr_t := mkAddr {
  sin_family : Z;
  sin_port : Z;
  s_addr : Z;
}.

#[export] Instance net_addr_eq_dec : EqDecision net_addr_t.
Proof. solve_decision. Defined.

Definition zeroAddr : net_addr_t := mkAddr 0 0 0.

Section Addr.
Context `{Host}.

Definition byteswap (n : nat) (x : Z) : Z := be_value (reverse (be_bytes n x)).

Definition htons (x : Z) : Z :=
  match host with LittleEndian => byteswap 2 (u16 x) | BigEndian => u16 x end.
Definition htonl (x : Z) : Z :=
  match host with LittleEndian => byteswap 4 (u32 x) | BigEndian => u32 x end.
Definition ntohs : Z -> Z := htons.
Definition ntohl : Z -> Z := htonl.

Definition net_addr_set (hostaddr port : Z) (doHostToNetwork : bool) : net_addr_t :=
  mkAddr AF_INET
    (if doHostToNetwork then htons (u16 port) else u16 port)
    (if doHostToNetwork then htonl (u32 hostaddr) else u32 hostaddr).

Definition net_addr_zero : net_addr_t := net_addr_set 0 0 true.

Definition net_addr_copy (src : net_addr_t) : net_addr_t := src.

Definition net_addr_get_host (addr : net_addr_t) : Z := ntohl (s_addr addr).
Definition net_addr_get_port (addr : net_addr_t) : Z := ntohs (sin_port addr).

Definition net_addr_is_equal (a b : net_addr_t) : bool :=
  (sin_family a =? sin_family b) && (sin_port a =? sin_port b) && (s_addr a =? s_addr b).

Definition net_addr_is_valid (a : net_addr_t) : bool :=
  negb (net_addr_is_equal a zeroAddr).

(** One entry of the [getaddrinfo] list with what [getnameinfo] says of it:
    its error, or whether the host name is non-empty. *)
Record addrinfo := mkAddrinfo {
  ai_addr : net_addr_t;
  ai_name : Z + bool;
}.

Fixpoint resolve_loop (results : list addrinfo) (addr : net_addr_t) :
    NetError + net_addr_t :=
  match results with
  | [] => inr addr
  | r :: results' =>
      match ai_name r with
      | inl posixError => inl (netErrorPosix posixError)
      | inr true => inr (net_addr_copy (ai_addr r))
      | inr false => resolve_loop results' addr
      end
  end.

(** [gai] is the [getaddrinfo] error (when not zero) or its list. *)
Definition net_addr_resolve (gai : Z + list addrinfo) (addr : net_addr_t) (port : Z) :
    NetError * net_addr_t :=
  match gai with
  | inl posixError => (netErrorPosix posixError, addr)
  | inr results =>
      match resolve_loop results addr with
      | inl e => (e, addr)
      | inr a => (NetNoError, mkAddr (sin_family a) (htons port) (s_addr a))
      end
  end.

(** One entry of the [getifaddrs] list. *)
Record ifaddr := mkIfaddr {
  ifa_addr : option net_addr_t;
  ifa_up : bool;
  ifa_loopback : bool;
}.

(** The [break] leaves the [switch], not the loop. *)
Fixpoint local_loop (ifs : list ifaddr) (addr : net_addr_t) : net_addr_t :=
  match ifs with
  | [] => addr
  | i :: ifs' =>
      match ifa_addr i with
      | None => local_loop ifs' addr
      | Some a =>
          if negb (ifa_up i) || ifa_loopback i then local_loop ifs' addr
          else if sin_family a =? AF_INET then local_loop ifs' (net_addr_copy a)
          else local_loop ifs' addr
      end
  end.

Definition net_addr_local (ifs : Z + list ifaddr) (addr : net_addr_t) :
    NetError * net_addr_t :=
  match ifs with
  | inl posixError => (netErrorPosix posixError, addr)
  | inr l => (NetNoError, local_loop l addr)
  end.

End Addr.

(** ** Packets *)

Definition kNetPacketMaxLen : Z := 256.

(** [bitstream.data] points to the [data] of the same packet, so the packet
    keeps one copy of the bytes, that of its stream. *)
Record net_packet_s := mkPacket {
  pk_addr : net_addr_t;
  pk_length : Z;
  pk_bitstream : bitstream_t;
}.

Definition pk_data (p : net_packet_s) : list Z := bs_data (pk_bitstream p).

Definition net_packet_init (p : net_packet_s) : net_packet_s :=
  mkPacket (pk_addr p) (pk_length p) (bitstream_create (pk_data p) kNetPacketMaxLen).

Definition net_packet_len (p : net_packet_s) : Z := pk_length p.

Definition net_packet_set_data (p : net_packet_s) (data : list Z) (length : Z) :
    outcome net_packet_s :=
  if length <=? kNetPacketMaxLen then
    d <-! memcpy (pk_data p) 0 data 0 length ;;
    Done (mkPacket (pk_addr p) length
            (mkBitstream d length (bs_bound (pk_bitstream p))))
  else Done p.

(** [aton] is the address [inet_aton] parses [host] to, if it does. *)
Definition net_packet_set `{Host} (p : net_packet_s) (aton : option Z) (port : Z) :
    net_packet_s :=
  mkPacket
    (mkAddr AF_INET (htons port)
       (match aton with Some a => a | None => htonl 0 end))
    (pk_length p) (pk_bitstream p).

Definition net_packet_addr (p : net_packet_s) (addr : net_addr_t) : net_packet_s :=
  mkPacket addr (pk_length p) (pk_bitstream p).

(** What the pool hands out: a packet whose data is 256 bytes. *)
Record packet_wf (p : net_packet_s) : Prop := {
  pk_wf_data : zlen (pk_data p) = kNetPacketMaxLen;
  pk_wf_bytes : Forall byte (pk_data p);
}.

(** An address as [recvfrom] and the setters make it. *)
Record addr_wf (a : net_addr_t) : Prop := {
  addr_family : sin_family a = AF_INET;
  addr_port : uint_ok 2 (sin_port a);
  addr_host : uint_ok 4 (s_addr a);
}.

Section NetFacts.
Context `{Host}.

Lemma net_addr_is_equal_spec a b : net_addr_is_equal a b = true <-> a = b.
Proof.
  unfold net_addr_is_equal. destruct a, b. simpl.
  rewrite !andb_true_iff, !Z.eqb_eq.
  split; [intros [[-> ->] ->]; done|intros [= -> -> ->]; auto].
Qed.

#[export] Instance net_addr_is_equal_refl : Reflexive (fun a b => net_addr_is_equal a b = true).
Proof. intros a. by apply net_addr_is_equal_spec. Qed.

Lemma byteswap_range n x : 0 <= byteswap n x < 256 ^ Z.of_nat n.
Proof.
  unfold byteswap. rewrite <- (length_be_bytes n x) at 3.
  rewrite <- (length_reverse (be_bytes n x)). apply be_value_range, Forall_reverse, be_bytes_byte.
Qed.

Lemma byteswap_involutive n x : 0 <= x < 256 ^ Z.of_nat n -> byteswap n (byteswap n x) = x.
Proof.
  intros Hx. unfold byteswap.
  rewrite <- (length_be_bytes n x) at 1. rewrite <- (length_reverse (be_bytes n x)).
  rewrite be_bytes_value by (apply Forall_reverse, be_bytes_byte).
  rewrite reverse_involutive. by apply be_value_bytes.
Qed.

Lemma ntohs_htons x : uint_ok 2 x -> ntohs (htons x) = x.
Proof.
  unfold uint_ok, ntohs, htons. change (256 ^ Z.of_nat 2) with (2 ^ 16). intros Hx.
  destruct host; rewrite !u16_small; rewrite ?u16_small by lia; auto.
  - apply (byteswap_involutive 2), Hx.
  - apply (byteswap_range 2).
Qed.

Lemma ntohl_htonl x : uint_ok 4 x -> ntohl (htonl x) = x.
Proof.
  unfold uint_ok, ntohl, htonl. change (256 ^ Z.of_nat 4) with (2 ^ 32). intros Hx.
  destruct host; rewrite !u32_small; rewrite ?u32_small by lia; auto.
  - apply (byteswap_involutive 4), Hx.
  - apply (byteswap_range 4).
Qed.

Lemma htons_range x : uint_ok 2 (htons x).
Proof.
  unfold htons. destruct host; [apply byteswap_range|apply u16_range].
Qed.

Lemma htonl_range x : uint_ok 4 (htonl x).
Proof.
  unfold htonl. destruct host; [apply byteswap_range|apply u32_range].
Qed.

Lemma net_addr_set_wf h p b : addr_wf (net_addr_set h p b).
Proof.
  split; [done| |]; destruct b; cbn [net_addr_set sin_port s_addr];
    auto using htons_range, htonl_range.
  - apply u16_range.
  - apply u32_range.
Qed.

Lemma packet_init_wf p : packet_wf p -> bs_wf (pk_bitstream (net_packet_init p)).
Proof.
  intros [Hl Hb]. unfold kNetPacketMaxLen in *.
  split; cbn [net_packet_init pk_bitstream bitstream_create bs_offset bs_bound bs_data];
    unfold kNetPacketMaxLen; [lia|lia|lia|done].
Qed.

Lemma packet_init_room p : room (pk_bitstream (net_packet_init p)) = 256.
Proof. done. Qed.

End NetFacts.
