(* ===== verification/Protocol.v ===== *)
(** * The packet header and the stream messages

    src/protocol.[ch] and src/stream_protocol.[ch].  A stream packet is the
    three byte protocol header, sequence, ack and ack bits, then the tag, the
    length and the bytes of the application's object. *)
From S2P Require Import Prelude Bitstream Wire Fields Net.

Definition kProtocolMaxLength : Z := kNetPacketMaxLen - 3.

Inductive UnpackResult := UnpackValid | UnpackUnexpected | UnpackInvalid.

#[export] Instance UnpackResult_eq_dec : EqDecision UnpackResult.
Proof. solve_decision. Defined.

Definition kProtocolDefaultId : Z := 0xa2.
Definition kProtocolDefaultVersion : Z := 0x01.
Definition ProtocolTypeTransaction : Z := 0x01.
Definition ProtocolTypeStream : Z := 0x05.

Definition kStreamObjectDataMaxLength : Z := kProtocolMaxLength - 22.

Record StreamObject := mkStreamObject {
  so_data : list Z;
  so_length : Z;
  so_tag : Z;
}.

Section Operations.
Context `{Host}.

Definition protocolPackHeader (protocolId protocolVersion protocolType : Z) : io unit :=
  bitstream_write_uint8 protocolId ;;
  bitstream_write_uint8 protocolVersion ;;
  bitstream_write_uint8 protocolType.

Definition protocolUnpackHeader (protocolId protocolVersion protocolType : Z) :
    io UnpackResult :=
  readProtocolId <- bitstream_read_uint8 ;;
  if negb (protocolId =? readProtocolId) then ret UnpackInvalid
  else
  readProtocolVersion <- bitstream_read_uint8 ;;
  if negb (protocolVersion =? readProtocolVersion) then ret UnpackInvalid
  else
  readProtocolType <- bitstream_read_uint8 ;;
  if negb (protocolType =? readProtocolType) then ret UnpackInvalid
  else ret UnpackValid.

Definition streamProtocolPackHeader (sequence ack ackBitField : Z) : io unit :=
  protocolPackHeader kProtocolDefaultId kProtocolDefaultVersion ProtocolTypeStream ;;
  bitstream_write_uint32 sequence ;;
  bitstream_write_uint32 ack ;;
  bitstream_write_uint32 ackBitField.

(** On [UnpackInvalid] the three out-parameters are not written. *)
Definition streamProtocolUnpackHeader (out : Z * Z * Z) :
    io (UnpackResult * (Z * Z * Z)) :=
  r <- protocolUnpackHeader kProtocolDefaultId kProtocolDefaultVersion ProtocolTypeStream ;;
  if decide (r <> UnpackValid) then ret (UnpackInvalid, out)
  else
  sequence <- bitstream_read_uint32 ;;
  ack <- bitstream_read_uint32 ;;
  ackBitField <- bitstream_read_uint32 ;;
  ret (UnpackValid, (sequence, ack, ackBitField)).

Definition streamObjectSetup (object : StreamObject) : StreamObject :=
  mkStreamObject (so_data object) 0 0.

Definition streamObjectCopyData (object : StreamObject) (data : list Z) (length : Z) :
    outcome StreamObject :=
  if u32 (so_length object + length) <=? kStreamObjectDataMaxLength then
    d <-! memcpy (so_data object) (so_length object) data 0 length ;;
    Done (mkStreamObject d (u32 (so_length object + length)) (so_tag object))
  else Done object.

Definition streamProtocolPackData (object : StreamObject) : io unit :=
  bitstream_write_uint64 (so_tag object) ;;
  bitstream_write_uint16 (so_length object) ;;
  bitstream_write_bytes (so_data object) (so_length object) ;;
  ret tt.

Definition streamProtocolUnpackData (object : StreamObject) :
    io (UnpackResult * StreamObject) :=
  tag <- bitstream_read_uint64 ;;
  length <- bitstream_read_uint16 ;;
  let* '(data, _) := bitstream_read_bytes (so_data object) length in
  ret (UnpackValid, mkStreamObject data length tag).

(** The bytes of the two messages. *)
Definition enc_header (protocolId protocolVersion protocolType : Z) : list Z :=
  enc_int U8 protocolId ++ enc_int U8 protocolVersion ++ enc_int U8 protocolType.

Definition enc_stream_header (sequence ack ackBitField : Z) : list Z :=
  enc_header kProtocolDefaultId kProtocolDefaultVersion ProtocolTypeStream ++
  enc_int U32 sequence ++ enc_int U32 ack ++ enc_int U32 ackBitField.

Definition enc_stream_data (object : StreamObject) : list Z :=
  enc_int U64 (so_tag object) ++ enc_int U16 (so_length object) ++
  wire_order (take (Z.to_nat (so_length object)) (so_data object)) ++ [].

(** An object the application may send. *)
Record stream_object_ok (o : StreamObject) : Prop := {
  so_ok_data : zlen (so_data o) = kStreamObjectDataMaxLength;
  so_ok_bytes : Forall byte (so_data o);
  so_ok_length : 0 <= so_length o <= kStreamObjectDataMaxLength;
  so_ok_tag : uint_ok 8 (so_tag o);
}.

(** The whole packet, as [streamSend] and [streamSocketReceiveCallback]
    compose the two halves. *)
Definition stream_pack (sequence ack ackBitField : Z) (object : StreamObject) : io unit :=
  streamProtocolPackHeader sequence ack ackBitField ;;
  streamProtocolPackData object.

Definition stream_unpack (out : Z * Z * Z) (object : StreamObject) :
    io (option (Z * Z * Z * StreamObject)) :=
  let* '(r, hdr) := streamProtocolUnpackHeader out in
  if decide (r = UnpackValid) then
    let* '(_, o) := streamProtocolUnpackData object in
    ret (Some (hdr, o))
  else ret None.

End Operations.

(** ** Lemmas *)

Create HintDb wire.
#[export] Hint Resolve int_codec_emits emits_ret parses_ret writer_safe_ret : wire.

Section Facts.
Context `{Host}.

Lemma u8_emits x : emits (bitstream_write_uint8 x) (enc_int U8 x) tt.
Proof. apply (int_codec_emits U8). Qed.
Lemma u16_emits x : emits (bitstream_write_uint16 x) (enc_int U16 x) tt.
Proof. apply (int_codec_emits U16). Qed.
Lemma u16e_emits x : emits (bitstream_write_uint16_endian x) (enc_int U16endian x) tt.
Proof. apply (int_codec_emits U16endian). Qed.
Lemma u32_emits x : emits (bitstream_write_uint32 x) (enc_int U32 x) tt.
Proof. apply (int_codec_emits U32). Qed.
Lemma u32e_emits x : emits (bitstream_write_uint32_endian x) (enc_int U32endian x) tt.
Proof. apply (int_codec_emits U32endian). Qed.
Lemma u64_emits x : emits (bitstream_write_uint64 x) (enc_int U64 x) tt.
Proof. apply (int_codec_emits U64). Qed.

Lemma u8_parses x : uint_ok 1 x -> parses bitstream_read_uint8 (enc_int U8 x) x.
Proof. apply (read_int_parses U8). Qed.
Lemma u16_parses x : uint_ok 2 x -> parses bitstream_read_uint16 (enc_int U16 x) x.
Proof. apply (read_int_parses U16). Qed.
Lemma u16e_parses x : uint_ok 2 x -> parses bitstream_read_uint16_endian (enc_int U16endian x) x.
Proof. apply (read_int_parses U16endian). Qed.
Lemma u32_parses x : uint_ok 4 x -> parses bitstream_read_uint32 (enc_int U32 x) x.
Proof. apply (read_int_parses U32). Qed.
Lemma u32e_parses x : uint_ok 4 x -> parses bitstream_read_uint32_endian (enc_int U32endian x) x.
Proof. apply (read_int_parses U32endian). Qed.
Lemma u64_parses x : uint_ok 8 x -> parses bitstream_read_uint64 (enc_int U64 x) x.
Proof. apply (read_int_parses U64). Qed.

Lemma u8_reads : reads 1 bitstream_read_uint8 (uint_ok 1).
Proof. apply (read_int_reads U8). Qed.
Lemma u16_reads : reads 2 bitstream_read_uint16 (uint_ok 2).
Proof. apply (read_int_reads U16). Qed.
Lemma u16e_reads : reads 2 bitstream_read_uint16_endian (uint_ok 2).
Proof. apply (read_int_reads U16endian). Qed.
Lemma u32_reads : reads 4 bitstream_read_uint32 (uint_ok 4).
Proof. apply (read_int_reads U32). Qed.
Lemma u32e_reads : reads 4 bitstream_read_uint32_endian (uint_ok 4).
Proof. apply (read_int_reads U32endian). Qed.
Lemma u64_reads : reads 8 bitstream_read_uint64 (uint_ok 8).
Proof. apply (read_int_reads U64). Qed.

Lemma u8_safe x : writer_safe (bitstream_write_uint8 x).
Proof. apply (field_safe _ _ _ _ (write_int_field U8 x)). Qed.
Lemma u16_safe x : writer_safe (bitstream_write_uint16 x).
Proof. apply (field_safe _ _ _ _ (write_int_field U16 x)). Qed.
Lemma u16e_safe x : writer_safe (bitstream_write_uint16_endian x).
Proof. apply (field_safe _ _ _ _ (write_int_field U16endian x)). Qed.
Lemma u32_safe x : writer_safe (bitstream_write_uint32 x).
Proof. apply (field_safe _ _ _ _ (write_int_field U32 x)). Qed.
Lemma u32e_safe x : writer_safe (bitstream_write_uint32_endian x).
Proof. apply (field_safe _ _ _ _ (write_int_field U32endian x)). Qed.
Lemma u64_safe x : writer_safe (bitstream_write_uint64 x).
Proof. apply (field_safe _ _ _ _ (write_int_field U64 x)). Qed.
End Facts.

#[export] Hint Resolve u8_emits u16_emits u16e_emits u32_emits u32e_emits u64_emits
  u8_parses u16_parses u16e_parses u32_parses u32e_parses u64_parses
  u8_reads u16_reads u16e_reads u32_reads u32e_reads u64_reads
  u8_safe u16_safe u16e_safe u32_safe u32e_safe u64_safe : wire.

(** Follow the binds of a writer or of a reader, closing the fields with the
    [wire] hints. *)
Ltac emit := repeat first [solve [eauto with wire] | eapply emits_bind; [solve [eauto with wire]|]].
Ltac parse := repeat first [solve [eauto with wire] | eapply parses_bind; [solve [eauto with wire]|]].
Ltac safe := repeat first [solve [eauto with wire] | apply writer_safe_bind; [|intros ?]].

Section StreamFacts.
Context `{Host}.

Lemma zlen_enc_int k x : zlen (enc_int k x) = Z.of_nat (int_bytes k).
Proof. apply length_enc_int. Qed.

Lemma zlen_enc_header i v t : zlen (enc_header i v t) = 3.
Proof. unfold enc_header. rewrite !zlen_app, !zlen_enc_int. done. Qed.

Lemma zlen_enc_stream_header q a b : zlen (enc_stream_header q a b) = 15.
Proof. unfold enc_stream_header. rewrite !zlen_app, zlen_enc_header, !zlen_enc_int. done. Qed.

Lemma zlen_enc_stream_data o : stream_object_ok o -> zlen (enc_stream_data o) = 10 + so_length o.
Proof.
  intros [Hd _ Hl _]. unfold enc_stream_data.
  rewrite !zlen_app, !zlen_enc_int, zlen_wire_order, zlen_nil, zlen_take by lia. cbn. lia.
Qed.

Lemma pack_header_emits i v t : emits (protocolPackHeader i v t) (enc_header i v t) tt.
Proof. unfold protocolPackHeader, enc_header. emit. Qed.

Lemma pack_header_safe i v t : writer_safe (protocolPackHeader i v t).
Proof. unfold protocolPackHeader. safe. Qed.

(** A header is accepted exactly when its three bytes are the expected ones. *)
Lemma unpack_header_parses i v t i' v' t' :
  uint_ok 1 i' -> uint_ok 1 v' -> uint_ok 1 t' -> (i, v, t) = (i', v', t') ->
  parses (protocolUnpackHeader i v t) (enc_header i' v' t') UnpackValid.
Proof.
  intros Hi Hv Ht [= -> -> ->]. unfold protocolUnpackHeader, enc_header.
  eapply parses_bind; [eauto with wire|]. rewrite Z.eqb_refl. cbn [negb].
  eapply parses_bind; [eauto with wire|]. rewrite Z.eqb_refl. cbn [negb].
  rewrite <- (app_nil_r (enc_int U8 t')).
  eapply parses_bind; [eauto with wire|]. rewrite Z.eqb_refl. cbn [negb]. apply parses_ret.
Qed.

Lemma unpack_header_reads i v t :
  reads_upto 3 (protocolUnpackHeader i v t) (fun r => r = UnpackValid \/ r = UnpackInvalid).
Proof.
  unfold protocolUnpackHeader.
  eapply (reads_upto_bind 1 2); [apply reads_reads_upto, u8_reads| |lia].
  intros x _. destruct (negb (i =? x)).
  { eapply reads_upto_weaken; [by apply (reads_upto_ret _ (fun r => r = UnpackInvalid))|lia|auto]. }
  eapply (reads_upto_bind 1 1); [apply reads_reads_upto, u8_reads| |lia].
  intros y _. destruct (negb (v =? y)).
  { eapply reads_upto_weaken; [by apply (reads_upto_ret _ (fun r => r = UnpackInvalid))|lia|auto]. }
  eapply (reads_upto_bind 1 0); [apply reads_reads_upto, u8_reads| |lia].
  intros z _. destruct (negb (t =? z)); apply reads_upto_ret; auto.
Qed.
End StreamFacts.
#[export] Hint Resolve pack_header_emits pack_header_safe : wire.

Section StreamMessages.
Context `{Host}.

Lemma pack_stream_header_emits q a b :
  emits (streamProtocolPackHeader q a b) (enc_stream_header q a b) tt.
Proof. unfold streamProtocolPackHeader, enc_stream_header. emit. Qed.

Lemma pack_stream_header_safe q a b : writer_safe (streamProtocolPackHeader q a b).
Proof. unfold streamProtocolPackHeader. safe. Qed.

Lemma unpack_stream_header_parses out q a b :
  uint_ok 4 q -> uint_ok 4 a -> uint_ok 4 b ->
  parses (streamProtocolUnpackHeader out) (enc_stream_header q a b) (UnpackValid, (q, a, b)).
Proof.
  intros Hq Ha Hb. unfold streamProtocolUnpackHeader, enc_stream_header.
  eapply parses_bind.
  { apply unpack_header_parses; done. }
  rewrite decide_False by auto. eapply parses_bind; [auto with wire|].
  eapply parses_bind; [auto with wire|].
  rewrite <- (app_nil_r (enc_int U32 b)). eapply parses_bind; auto with wire.
Qed.

Lemma pack_stream_data_emits o :
  stream_object_ok o -> emits (streamProtocolPackData o) (enc_stream_data o) tt.
Proof.
  intros [Hd Hb Hl _]. unfold streamProtocolPackData, enc_stream_data.
  eapply emits_bind; [auto with wire|]. eapply emits_bind; [auto with wire|].
  eapply emits_bind; [|apply emits_ret].
  eapply field_emits, write_bytes_field; [lia|done].
Qed.

Lemma pack_stream_data_safe o : stream_object_ok o -> writer_safe (streamProtocolPackData o).
Proof.
  intros [Hd Hb Hl _]. unfold streamProtocolPackData. safe.
  eapply field_safe, write_bytes_field; [lia|done].
Qed.

(** The received object: the sender's bytes over the receiver's buffer. *)
Definition received (dest o : StreamObject) : StreamObject :=
  mkStreamObject
    (splice (so_data dest) 0 (take (Z.to_nat (so_length o)) (so_data o)))
    (so_length o) (so_tag o).

Lemma unpack_stream_data_parses dest o :
  stream_object_ok o -> zlen (so_data dest) = kStreamObjectDataMaxLength ->
  parses (streamProtocolUnpackData dest) (enc_stream_data o) (UnpackValid, received dest o).
Proof.
  intros [Hd Hb Hl Ht] Hdest. unfold streamProtocolUnpackData, enc_stream_data.
  eapply parses_bind; [auto with wire|].
  eapply parses_bind.
  { apply u16_parses. unfold uint_ok. unfold kStreamObjectDataMaxLength, kProtocolMaxLength, kNetPacketMaxLen in Hl. lia. }
  set (bs := wire_order (take (Z.to_nat (so_length o)) (so_data o))).
  assert (Hbs : zlen bs = so_length o) by (subst bs; rewrite zlen_wire_order; apply zlen_take; lia).
  rewrite <- Hbs at 1. eapply parses_bind; [apply read_bytes_parses; lia|].
  cbn beta iota. subst bs. rewrite wire_order_involutive. apply parses_ret.
Qed.

(** Whatever the fifteen header bytes are, reading them is safe ... *)
Lemma unpack_stream_header_reads out :
  reads_upto 15 (streamProtocolUnpackHeader out) (fun _ => True).
Proof.
  unfold streamProtocolUnpackHeader.
  eapply (reads_upto_bind 3 12); [apply unpack_header_reads| |lia].
  intros r _. case_decide.
  { eapply reads_upto_weaken; [by apply (reads_upto_ret _ (fun _ => True))|lia|auto]. }
  eapply (reads_upto_bind 4 8); [apply reads_reads_upto, u32_reads| |lia]. intros q _.
  eapply (reads_upto_bind 4 4); [apply reads_reads_upto, u32_reads| |lia]. intros a _.
  eapply (reads_upto_bind 4 0); [apply reads_reads_upto, u32_reads| |lia]. intros b _.
  by apply reads_upto_ret.
Qed.

(** ... and the object is read into its buffer or not at all, because a
    length above the buffer's is above the bytes the packet has left. *)
Lemma unpack_stream_data_needs dest s :
  bs_wf s -> zlen (so_data dest) = kStreamObjectDataMaxLength -> Forall byte (so_data dest) ->
  10 <= room s <= kStreamObjectDataMaxLength + 10 ->
  exists o m, streamProtocolUnpackData dest s = Done ((UnpackValid, o), skip s m) /\
    0 <= m <= room s /\ zlen (so_data o) = kStreamObjectDataMaxLength /\ uint_ok 2 (so_length o).
Proof.
  intros W Hd Hb Hr. unfold streamProtocolUnpackData.
  destruct (proj2 u64_reads s W ltac:(lia)) as (tag & E1 & Htag).
  rewrite (bind_done _ _ _ _ _ E1).
  assert (W1 : bs_wf (skip s 8)) by (apply skip_wf; [done|lia]).
  destruct (proj2 u16_reads _ W1) as (len & E2 & Hlen); [rewrite room_skip; lia|].
  rewrite (bind_done _ _ _ _ _ E2). rewrite skip_skip.
  assert (W2 : bs_wf (skip s (8 + 2))) by (apply skip_wf; [done|lia]).
  unfold uint_ok in Hlen.
  destruct (decide (len <= kStreamObjectDataMaxLength)) as [Hle|Hgt].
  - destruct (proj2 (read_bytes_needs (so_data dest) len ltac:(lia) Hb) _ W2)
      as ([d m] & k & E3 & Hk & Hdd & _ & _); [by apply room_nonneg|].
    rewrite (bind_done _ _ _ _ _ E3). eexists _, _. split; [rewrite skip_skip; reflexivity|].
    rewrite room_skip in Hk. split; [lia|]. split; [simpl; lia|done].
  - exists (mkStreamObject (so_data dest) len tag), (8 + 2).
    split; [|split; [lia|done]]. unfold bind, bitstream_read_bytes. rewrite wf_enough by done.
    rewrite (proj2 (Z.leb_gt _ _)); [done|]. rewrite room_skip. lia.
Qed.

End StreamMessages.

(** ** Properties of the stream messages *)

(** The datagram of [n] bytes that [p] holds has arrived in [q]. *)
Definition delivered (n : Z) (data : list Z) (q : net_packet_s) : Prop :=
  packet_wf q /\ take (Z.to_nat n) (pk_data q) = take (Z.to_nat n) data.

Lemma delivered_ahead p bs q : packet_wf p -> zlen bs <= 256 ->
  delivered (zlen bs) (bs_data (append (pk_bitstream (net_packet_init p)) bs)) q ->
  ahead (pk_bitstream (net_packet_init q)) bs.
Proof.
  intros _ _ [_ E]. unfold ahead, zlen in *.
  change (bs_data (append _ bs)) with (bs ++ drop (length bs) (pk_data p)) in E.
  rewrite Nat2Z.id, take_app_length in E.
  change (drop _ _) with (pk_data q). exists (drop (length bs) (pk_data q)).
  rewrite <- E at 1. symmetry. apply take_drop.
Qed.

Definition blankPacket : net_packet_s :=
  mkPacket zeroAddr 0 (bitstream_create (replicate 256 0) 256).

Lemma blankPacket_wf : packet_wf blankPacket.
Proof. split; [reflexivity|apply forallb_bytes; reflexivity]. Defined.

Section StreamProperties.
Context `{Host}.

Lemma unpack_header_accepts i v t s : bs_wf s -> 3 <= room s ->
  exists r m, protocolUnpackHeader i v t s = Done (r, skip s m) /\ 0 <= m <= 3 /\
    (r = UnpackValid -> m = 3).
Proof.
  intros W Hr. unfold protocolUnpackHeader.
  destruct (proj2 u8_reads s W ltac:(lia)) as (x & E1 & _). rewrite (bind_done _ _ _ _ _ E1).
  destruct (negb _); [eexists _, 1; split; [reflexivity|]; split; [lia|discriminate]|].
  assert (W1 : bs_wf (skip s 1)) by (apply skip_wf; [done|lia]).
  destruct (proj2 u8_reads _ W1) as (y & E2 & _); [rewrite room_skip; lia|].
  rewrite (bind_done _ _ _ _ _ E2), skip_skip.
  destruct (negb _); [eexists _, 2; split; [reflexivity|]; split; [lia|discriminate]|].
  assert (W2 : bs_wf (skip s (1 + 1))) by (apply skip_wf; [done|lia]).
  destruct (proj2 u8_reads _ W2) as (z & E3 & _); [rewrite room_skip; lia|].
  rewrite (bind_done _ _ _ _ _ E3), skip_skip.
  destruct (negb _); eexists _, 3; (split; [reflexivity|]; split; [lia|done]).
Qed.

Lemma unpack_stream_header_accepts out s : bs_wf s -> 15 <= room s ->
  exists r hdr m, streamProtocolUnpackHeader out s = Done ((r, hdr), skip s m) /\
    0 <= m <= 15 /\
    (r = UnpackValid -> m = 15 /\ uint_ok 4 hdr.1.1 /\ uint_ok 4 hdr.1.2 /\ uint_ok 4 hdr.2).
Proof.
  intros W Hr. unfold streamProtocolUnpackHeader.
  destruct (unpack_header_accepts kProtocolDefaultId kProtocolDefaultVersion ProtocolTypeStream
    s W ltac:(lia)) as (r & m & E & Hm & Hv). rewrite (bind_done _ _ _ _ _ E).
  case_decide as D; [eexists _, _, m; split; [reflexivity|]; split; [lia|done]|].
  assert (Er : r = UnpackValid) by (by destruct (decide (r = UnpackValid))). rewrite (Hv Er).
  assert (R : reads 12 (sequence <- bitstream_read_uint32 ;; ack <- bitstream_read_uint32 ;;
    ackBitField <- bitstream_read_uint32 ;; ret (UnpackValid, (sequence, ack, ackBitField)))
    (fun p => uint_ok 4 p.2.1.1 /\ uint_ok 4 p.2.1.2 /\ uint_ok 4 p.2.2)).
  { apply (reads_bind 4 8 _ _ (uint_ok 4)); [apply u32_reads|intros q Hq|lia].
    apply (reads_bind 4 4 _ _ (uint_ok 4)); [apply u32_reads|intros a Ha|lia].
    apply (reads_bind 4 0 _ _ (uint_ok 4)); [apply u32_reads|intros b Hb|lia].
    by apply reads_ret. }
  destruct (proj2 R (skip s 3)) as ([r' hdr] & E' & H');
    [apply skip_wf; [done|lia]|rewrite room_skip; lia|].
  rewrite E', skip_skip. eexists _, _, 15. split; [reflexivity|]. split; [lia|done].
Qed.

(** C10: a stream packet survives the network.  The sender's packet holds the
    header and the object in 25 bytes more than the object has, and the
    receiver, whatever its packet and its object held before, gets the same
    sequence, ack, ack bits, tag, length and data. *)
Theorem stream_packet_roundtrip p q out dest sequence ack bits o :
  packet_wf p -> stream_object_ok o -> zlen (so_data dest) = kStreamObjectDataMaxLength ->
  uint_ok 4 sequence -> uint_ok 4 ack -> uint_ok 4 bits ->
  exists s, stream_pack sequence ack bits o (pk_bitstream (net_packet_init p)) = Done (tt, s) /\
    bs_offset s = 25 + so_length o /\ bs_offset s <= kNetPacketMaxLen /\
    (delivered (bs_offset s) (bs_data s) q ->
     exists s', stream_unpack out dest (pk_bitstream (net_packet_init q)) =
       Done (Some ((sequence, ack, bits), received dest o), s')).
Proof.
  intros Hp Ho Hd Hq Ha Hb.
  set (bs := enc_stream_header sequence ack bits ++ enc_stream_data o).
  assert (Hz : zlen bs = 25 + so_length o).
  { unfold bs. rewrite zlen_app, zlen_enc_stream_header, zlen_enc_stream_data by done. lia. }
  assert (Hlen : 25 + so_length o <= 256).
  { destruct Ho as [_ _ Hl _].
    unfold kStreamObjectDataMaxLength, kProtocolMaxLength, kNetPacketMaxLen in Hl. lia. }
  assert (E : emits (stream_pack sequence ack bits o) bs tt).
  { unfold stream_pack, bs. eapply emits_bind; [apply pack_stream_header_emits|].
    by apply pack_stream_data_emits. }
  assert (P : parses (stream_unpack out dest) bs (Some ((sequence, ack, bits), received dest o))).
  { unfold stream_unpack, bs. eapply parses_bind; [by apply unpack_stream_header_parses|].
    cbn beta iota. rewrite decide_True by done. rewrite <- (app_nil_r (enc_stream_data o)).
    eapply parses_bind; [by apply unpack_stream_data_parses|]. apply parses_ret. }
  eexists. split; [apply E; [by apply packet_init_wf|rewrite packet_init_room; lia]|].
  split; [simpl; lia|]. split; [simpl; unfold kNetPacketMaxLen; lia|].
  intros D. eexists. apply P; [apply packet_init_wf, D|rewrite packet_init_room; lia|].
  apply (delivered_ahead p); [done|lia|exact D].
Qed.

(** C37: whatever 256 bytes arrive, receiving a stream packet reads inside the
    packet and writes inside the object: the result is a rejection or an
    object of the right size. *)
Theorem stream_receive_safe p out dest :
  packet_wf p -> zlen (so_data dest) = kStreamObjectDataMaxLength -> Forall byte (so_data dest) ->
  exists r s, stream_unpack out dest (pk_bitstream (net_packet_init p)) = Done (r, s) /\
    match r with
    | None => True
    | Some (_, o) => zlen (so_data o) = kStreamObjectDataMaxLength /\ uint_ok 2 (so_length o)
    end.
Proof.
  intros Hp Hd Hb. unfold stream_unpack. set (s := pk_bitstream (net_packet_init p)).
  assert (W : bs_wf s) by (by apply packet_init_wf).
  assert (R : room s = 256) by apply packet_init_room.
  destruct (unpack_stream_header_accepts out s W ltac:(lia)) as (r & hdr & m & E & Hm & Hv).
  rewrite (bind_done _ _ _ _ _ E). cbn beta iota. case_decide as Hr; [|by eexists _, _].
  assert (W' : bs_wf (skip s m)) by (apply skip_wf; [done|lia]).
  destruct (unpack_stream_data_needs dest (skip s m) W' Hd Hb) as (o & s' & E' & _ & Ho & Hlo).
  { rewrite room_skip, (proj1 (Hv Hr)), R. unfold kStreamObjectDataMaxLength, kProtocolMaxLength, kNetPacketMaxLen. lia. }
  rewrite (bind_done _ _ _ _ _ E'). by eexists _, _.
Qed.

(** [protocolUnpackHeader] accepts a packet exactly when its first three
    bytes are the identifier, the version and the type asked for; it rejects
    every other one as invalid. *)
Theorem header_accepted_iff i v t s :
  bs_wf s -> 3 <= room s ->
  exists r s', protocolUnpackHeader i v t s = Done (r, s') /\
    (r = UnpackValid <-> ahead s [i; v; t]) /\ (r = UnpackValid \/ r = UnpackInvalid).
Proof.
  intros W Hr. destruct (bytes_ahead s 3 W ltac:(lia)) as (bs & Hby & Hl & Ha).
  destruct bs as [|x [|y [|z [|? ?]]]]; unfold zlen in Hl; simpl length in Hl; try lia.
  rewrite !Forall_cons in Hby. destruct Hby as (Hx & Hy & Hz & _).
  assert (Hiff : ahead s [i; v; t] <-> x = i /\ y = v /\ z = t).
  { split; [|by intros (-> & -> & ->)]. intros [rest' E']. destruct Ha as [rest E].
    rewrite E in E'. by simplify_eq. }
  destruct (ahead_split s [x] [y; z] W Ha) as [A1 A23].
  assert (W1 : bs_wf (skip s 1)) by (apply skip_wf; [done|lia]).
  destruct (ahead_split _ [y] [z] W1 A23) as [A2 A3]. change (zlen [?a]) with 1 in *.
  assert (W2 : bs_wf (skip (skip s 1) 1)) by (apply skip_wf; [done|rewrite room_skip; lia]).
  pose proof (next_byte_parses x s W ltac:(change (zlen [x]) with 1; lia) A1) as E1.
  pose proof (next_byte_parses y _ W1 ltac:(change (zlen [y]) with 1; rewrite room_skip; lia) A2) as E2.
  pose proof (next_byte_parses z _ W2 ltac:(change (zlen [z]) with 1; rewrite !room_skip; lia) A3) as E3.
  unfold protocolUnpackHeader, bitstream_read_uint8.
  rewrite (bind_done _ _ _ _ _ E1). setoid_rewrite Hiff. clear Hiff.
  destruct (Z.eqb_spec i x); cbn [negb]; [|eexists _, _; split; [reflexivity|]; intuition congruence].
  rewrite (bind_done _ _ _ _ _ E2).
  destruct (Z.eqb_spec v y); cbn [negb]; [|eexists _, _; split; [reflexivity|]; intuition congruence].
  rewrite (bind_done _ _ _ _ _ E3).
  destruct (Z.eqb_spec t z); cbn [negb]; eexists _, _; (split; [reflexivity|]; intuition congruence).
Qed.

(** the length field of a stream message is not checked against the bytes
    that follow: a length above what the packet holds is accepted with the
    object's old data. *)
Theorem stream_length_unchecked dest tag length s :
  uint_ok 8 tag -> uint_ok 2 length -> bs_wf s ->
  ahead s (enc_int U64 tag ++ enc_int U16 length) -> 10 <= room s < 10 + length ->
  streamProtocolUnpackData dest s =
    Done (UnpackValid, mkStreamObject (so_data dest) length tag, skip s 10).
Proof.
  intros Ht Hl W Ha Hr. unfold streamProtocolUnpackData.
  destruct (ahead_split _ _ _ W Ha) as [A1 A2]. rewrite zlen_enc_int in A2.
  rewrite (bind_done _ _ _ _ _ (u64_parses tag Ht s W ltac:(rewrite zlen_enc_int; cbn; lia) A1)).
  rewrite zlen_enc_int.
  assert (W1 : bs_wf (skip s 8)) by (apply skip_wf; [done|lia]).
  rewrite (bind_done _ _ _ _ _ (u16_parses length Hl _ W1
    ltac:(rewrite zlen_enc_int, room_skip; cbn; lia) A2)), zlen_enc_int, skip_skip.
  assert (W2 : bs_wf (skip s 10)) by (apply skip_wf; [done|lia]).
  unfold bind, bitstream_read_bytes. change (skip s _) with (skip s 10).
  rewrite wf_enough by done. rewrite (proj2 (Z.leb_gt _ _)); [done|]. rewrite room_skip. lia.
Qed.

End StreamProperties.

Definition demo_object : StreamObject :=
  mkStreamObject (replicate 231 7) 5 77.
Definition demo_dest : StreamObject :=
  mkStreamObject (replicate 231 1) 0 0.

Lemma demo_object_ok : stream_object_ok demo_object.
Proof. split; [reflexivity|apply forallb_bytes; reflexivity|by split|by split]. Defined.

(** What the sender's packet holds once it is packed, in a larger buffer whose
    other bytes, address and offset are those of an earlier datagram. *)
Definition demo_packed : bitstream_t :=
  match stream_pack (H := LittleEndian) 1 2 3 demo_object (pk_bitstream (net_packet_init blankPacket)) with
  | Done (_, s) => s
  | Fault _ => pk_bitstream blankPacket
  end.

Definition demo_arrived : net_packet_s :=
  mkPacket (mkAddr AF_INET 8080 16777343) 30
    (set_offset (bitstream_create (take 30 (bs_data demo_packed) ++ replicate 226 9) 256) 12).

(** The datagram really arrives in the receiver's packet, and is unpacked. *)
Lemma stream_packet_roundtrip_witness :
  delivered 30 (bs_data demo_packed) demo_arrived /\
  exists s, stream_pack (H := LittleEndian) 1 2 3 demo_object
      (pk_bitstream (net_packet_init blankPacket)) = Done (tt, s) /\
    bs_offset s = 30 /\
    exists s', stream_unpack (H := LittleEndian) (0, 0, 0) demo_dest
         (pk_bitstream (net_packet_init demo_arrived)) =
       Done (Some ((1, 2, 3), received demo_dest demo_object), s').
Proof.
  assert (D : delivered 30 (bs_data demo_packed) demo_arrived).
  { split; [split; [reflexivity|apply forallb_bytes; reflexivity]|reflexivity]. }
  split; [exact D|].
  destruct (stream_packet_roundtrip (H := LittleEndian) blankPacket demo_arrived (0, 0, 0) demo_dest
    1 2 3 demo_object blankPacket_wf demo_object_ok eq_refl ltac:(by split) ltac:(by split) ltac:(by split))
    as (s & E & L & _ & R).
  exists s. split; [exact E|]. split; [exact L|]. apply R. rewrite L.
  assert (Es : bs_data demo_packed = bs_data s) by (unfold demo_packed; rewrite E; reflexivity).
  rewrite <- Es. exact D.
Defined.

Lemma stream_receive_safe_witness :
  exists r s, stream_unpack (H := BigEndian) (0, 0, 0) demo_dest
      (pk_bitstream (net_packet_init blankPacket)) = Done (r, s) /\
    match r with
    | None => True
    | Some (_, o) => zlen (so_data o) = kStreamObjectDataMaxLength /\ uint_ok 2 (so_length o)
    end.
Proof.
  apply (stream_receive_safe (H := BigEndian));
    [exact blankPacket_wf|reflexivity|apply forallb_bytes; reflexivity].
Defined.

Lemma header_accepted_iff_witness :
  exists r s', protocolUnpackHeader 0 0 0
      (pk_bitstream blankPacket) = Done (r, s') /\
    (r = UnpackValid <-> ahead (pk_bitstream blankPacket) [0; 0; 0]) /\
    (r = UnpackValid \/ r = UnpackInvalid).
Proof.
  apply (header_accepted_iff); [apply bs_wfb_wf; reflexivity|discriminate].
Defined.

Lemma stream_length_unchecked_witness :
  let s := bitstream_create ([0; 0; 0; 0; 0; 0; 0; 9; 255; 255] ++ replicate 20 0) 30 in
  streamProtocolUnpackData (H := LittleEndian) demo_dest s =
    Done (UnpackValid, mkStreamObject (replicate 231 1) 65535 9, skip s 10).
Proof.
  apply (stream_length_unchecked (H := LittleEndian) demo_dest 9 65535);
    [by split|by split|apply bs_wfb_wf; reflexivity|by exists (replicate 20 0)|by split].
Defined.
