(* ===== verification/TransactionProtocol.v ===== *)
(** * The transaction messages (src/transaction_protocol.[ch])

    Headers, responses, the four TLV attributes and the request objects.  A
    [TransactionObject] of the source is a block of memory that each packing
    function casts to the struct of its request type; here it is the sum of
    those structs.  The block [transactionDidReceiveRequest] unpacks into is
    smaller than the largest of them, so the unpacking of a peer list takes
    the size of the block. *)
From S2P Require Import Prelude Bitstream Wire Fields Net Protocol.

(** ** Data *)

Definition TransactionTypeRequest : Z := 0x01.
Definition TransactionTypeResponse : Z := 0x02.

Definition TransactionResponseTypeProvisional : Z := 0x01.
Definition TransactionResponseTypeSuccess : Z := 0x02.
Definition TransactionResponseTypeClientError : Z := 0x04.
Definition TransactionResponseTypeServerError : Z := 0x05.
Definition TransactionResponseTypeGlobalFailure : Z := 0x06.

Definition TransactionAttributeTypeString : Z := 0x01.
Definition TransactionAttributeTypeAddress : Z := 0x02.
Definition TransactionAttributeTypeSeconds : Z := 0x03.
Definition TransactionAttributeTypeCount : Z := 0x04.

Definition kTransactionAttributeLengthAddress : Z := 8.
Definition kTransactionAttributeLengthSeconds : Z := 4.
Definition kTransactionAttributeLengthCount : Z := 2.

(** The request types that carry a body. *)
Definition TransactionUserCreate : Z := 0x50.
Definition TransactionResourceCreate : Z := 0x70.
Definition TransactionOnline : Z := 0x91.
Definition TransactionOffline : Z := 0x92.
Definition TransactionPeerList : Z := 0x93.
Definition TransactionConnect : Z := 0xc0.
Definition TransactionConnectAccept : Z := 0xc1.
Definition TransactionConnectRefuse : Z := 0xc2.
Definition TransactionDisconnect : Z := 0xc3.
Definition TransactionEmpty : Z := 0x01.

Definition kTransactionProtocolObjectMaxSize : Z := kProtocolMaxLength - 4.
Definition kUniversalUserNameMaxLength : Z := 40.
Definition kUniversalUserEmailMaxLength : Z := 40.
Definition kUniversalPeerIdMaxLength : Z := 32.
Definition kUniversalResourceDataMaxLength : Z := 128.

Record TransactionObjectUserCreate := mkUserCreate {
  uc_uid : Z; uc_name : list Z; uc_email : list Z }.
Record TransactionObjectResourceCreate := mkResourceCreate {
  rc_rid : Z; rc_data : list Z; rc_length : Z; rc_uid : Z }.
Record TransactionObjectOnline := mkOnline {
  on_uid : Z; on_localAddress : net_addr_t; on_mappedAddress : net_addr_t;
  on_expireSeconds : Z }.
Record TransactionObjectPeer := mkPeer {
  peer_peerId : list Z; peer_localAddress : net_addr_t; peer_mappedAddress : net_addr_t }.
Record TransactionObjectPeerList := mkPeerList {
  pl_count : Z; pl_list : list TransactionObjectPeer }.
(** [TransactionObjectConnect] and [TransactionObjectConnectAccept]. *)
Record TransactionObjectConnect := mkConnect {
  co_peerId : list Z; co_streamAddress : net_addr_t }.

Inductive TransactionObject :=
| ObjUserCreate (o : TransactionObjectUserCreate)
| ObjResourceCreate (o : TransactionObjectResourceCreate)
| ObjOnline (o : TransactionObjectOnline)
| ObjOffline (peerId : list Z)
| ObjPeerList (o : TransactionObjectPeerList)
| ObjConnect (o : TransactionObjectConnect)
| ObjConnectAccept (o : TransactionObjectConnect)
| ObjConnectRefuse (peerId : list Z)
| ObjDisconnect (peerId : list Z)
| ObjOther (type : Z).

(** The [type] member. *)
Definition object_type (o : TransactionObject) : Z :=
  match o with
  | ObjUserCreate _ => TransactionUserCreate
  | ObjResourceCreate _ => TransactionResourceCreate
  | ObjOnline _ => TransactionOnline
  | ObjOffline _ => TransactionOffline
  | ObjPeerList _ => TransactionPeerList
  | ObjConnect _ => TransactionConnect
  | ObjConnectAccept _ => TransactionConnectAccept
  | ObjConnectRefuse _ => TransactionConnectRefuse
  | ObjDisconnect _ => TransactionDisconnect
  | ObjOther t => t
  end.

(** *** Memory layout

    Sizes on an LP64 host ([int] and [enum] 4 bytes, [uint64_t] 8, a
    [sockaddr_in] 16). *)
Definition round_up (n align : Z) : Z := (n + align - 1) / align * align.

Definition sizeof_TransactionObject : Z :=
  round_up (4 + kTransactionProtocolObjectMaxSize) 4.
Definition sizeof_TransactionObjectPeer : Z :=
  kUniversalPeerIdMaxLength + 16 + 16.
Definition offsetof_PeerList_list : Z := 4 + 4.
Definition sizeof_TransactionObjectPeerList : Z :=
  offsetof_PeerList_list + 10 * sizeof_TransactionObjectPeer.

(** Is the write of the first [n] bytes of peer [i] inside a block of [size]
    bytes that holds a peer list? *)
Definition peer_within (size i n : Z) : bool :=
  offsetof_PeerList_list + i * sizeof_TransactionObjectPeer + n <=? size.

(** [calloc]ed memory. *)
Definition zeros (n : Z) : list Z := replicate (Z.to_nat n) 0.
Definition blankPeer : TransactionObjectPeer :=
  mkPeer (zeros kUniversalPeerIdMaxLength) zeroAddr zeroAddr.
Definition blankPeerList : TransactionObjectPeerList :=
  mkPeerList 0 (replicate 10 blankPeer).

(** ** Operations *)

Section Operations.
Context `{Host}.

Definition transactionProtocolPackHeader (transactionId transactionType : Z) : io unit :=
  protocolPackHeader kProtocolDefaultId kProtocolDefaultVersion ProtocolTypeTransaction ;;
  bitstream_write_uint8 transactionId ;;
  bitstream_write_uint8 transactionType.

Definition transactionProtocolUnpackHeader (out : Z * Z) : io (UnpackResult * (Z * Z)) :=
  r <- protocolUnpackHeader kProtocolDefaultId kProtocolDefaultVersion ProtocolTypeTransaction ;;
  if decide (r <> UnpackValid) then ret (UnpackInvalid, out)
  else
  transactionId <- bitstream_read_uint8 ;;
  transactionType <- bitstream_read_uint8 ;;
  ret (UnpackValid, (transactionId, transactionType)).

Definition transactionProtocolPackResponse (responseType : Z) : io unit :=
  bitstream_write_uint8 responseType.

Definition transactionProtocolUnpackResponse : io (UnpackResult * Z) :=
  responseType <- bitstream_read_uint8 ;;
  ret (UnpackValid, responseType).

(** *** Attributes *)

Definition transactionProtocolPackAttributeString (string : list Z) : io unit :=
  bitstream_write_uint8 TransactionAttributeTypeString ;;
  n <- lift (strlen string) ;;
  bitstream_write_uint8 (u32 (2 + n)) ;;
  bitstream_write_str string ;;
  ret tt.

Definition transactionProtocolUnpackAttributeString (string : list Z) (max : Z) :
    io (UnpackResult * list Z) :=
  attributeType <- bitstream_read_uint8 ;;
  if negb (attributeType =? TransactionAttributeTypeString) then ret (UnpackInvalid, string)
  else
  attributeLength <- bitstream_read_uint8 ;;
  let* '(string', _) := bitstream_read_str string max in
  ret (UnpackValid, string').

Definition transactionProtocolPackAttributeAddress (address : net_addr_t) : io unit :=
  bitstream_write_uint8 TransactionAttributeTypeAddress ;;
  bitstream_write_uint8 kTransactionAttributeLengthAddress ;;
  bitstream_write_uint16_endian (sin_port address) ;;
  bitstream_write_uint32_endian (s_addr address).

Definition transactionProtocolUnpackAttributeAddress (address : net_addr_t) :
    io (UnpackResult * net_addr_t) :=
  attributeType <- bitstream_read_uint8 ;;
  if negb (attributeType =? TransactionAttributeTypeAddress) then ret (UnpackInvalid, address)
  else
  attributeLength <- bitstream_read_uint8 ;;
  if negb (attributeLength =? kTransactionAttributeLengthAddress)
  then ret (UnpackInvalid, address)
  else
  port <- bitstream_read_uint16_endian ;;
  hostaddr <- bitstream_read_uint32_endian ;;
  ret (UnpackValid, net_addr_set hostaddr port false).

Definition transactionProtocolPackAttributeSeconds (seconds : Z) : io unit :=
  bitstream_write_uint8 TransactionAttributeTypeSeconds ;;
  bitstream_write_uint8 kTransactionAttributeLengthSeconds ;;
  bitstream_write_uint32 (u32 seconds).

Definition transactionProtocolUnpackAttributeSeconds (seconds : Z) : io (UnpackResult * Z) :=
  attributeType <- bitstream_read_uint8 ;;
  if negb (attributeType =? TransactionAttributeTypeSeconds) then ret (UnpackInvalid, seconds)
  else
  attributeLength <- bitstream_read_uint8 ;;
  if negb (attributeLength =? kTransactionAttributeLengthSeconds)
  then ret (UnpackInvalid, seconds)
  else
  value <- bitstream_read_uint32 ;;
  ret (UnpackValid, value).

Definition transactionProtocolPackAttributeCount (count : Z) : io unit :=
  bitstream_write_uint8 TransactionAttributeTypeCount ;;
  bitstream_write_uint8 kTransactionAttributeLengthCount ;;
  bitstream_write_uint16 count.

Definition transactionProtocolUnpackAttributeCount (count : Z) : io (UnpackResult * Z) :=
  attributeType <- bitstream_read_uint8 ;;
  if negb (attributeType =? TransactionAttributeTypeCount) then ret (UnpackInvalid, count)
  else
  attributeLength <- bitstream_read_uint8 ;;
  if negb (attributeLength =? kTransactionAttributeLengthCount)
  then ret (UnpackInvalid, count)
  else
  value <- bitstream_read_uint16 ;;
  ret (UnpackValid, value).

(** *** Request objects.  Each unpacking function keeps the result of its
    last attribute only. *)

Definition transactionProtocolPackObjectUserCreate (o : TransactionObjectUserCreate) : io unit :=
  bitstream_write_uint64 (uc_uid o) ;;
  transactionProtocolPackAttributeString (uc_name o) ;;
  transactionProtocolPackAttributeString (uc_email o).

Definition transactionProtocolUnpackObjectUserCreate (o : TransactionObjectUserCreate) :
    io (UnpackResult * TransactionObjectUserCreate) :=
  uid <- bitstream_read_uint64 ;;
  let* '(_, name) :=
    transactionProtocolUnpackAttributeString (uc_name o) kUniversalUserNameMaxLength in
  let* '(unpackResult, email) :=
    transactionProtocolUnpackAttributeString (uc_email o) kUniversalUserEmailMaxLength in
  ret (unpackResult, mkUserCreate uid name email).

Definition transactionProtocolPackObjectResourceCreate
    (o : TransactionObjectResourceCreate) : io unit :=
  bitstream_write_uint64 (rc_rid o) ;;
  bitstream_write_uint64 (rc_uid o) ;;
  bitstream_write_uint8 (rc_length o) ;;
  bitstream_write_bytes (rc_data o) (rc_length o) ;;
  ret tt.

(** [length] follows [data] in the struct; the comparison of [read_length]
    with it is between [unsigned int]s. *)
Definition transactionProtocolUnpackObjectResourceCreate
    (o : TransactionObjectResourceCreate) :
    io (UnpackResult * TransactionObjectResourceCreate) :=
  rid <- bitstream_read_uint64 ;;
  uid <- bitstream_read_uint64 ;;
  length <- bitstream_read_uint8 ;;
  let* '(data, read_length) := bitstream_read_bytes (rc_data o) length in
  let unpackResult :=
    if negb (u32 read_length =? length) then UnpackInvalid else UnpackValid in
  ret (unpackResult, mkResourceCreate rid data length uid).

Definition transactionProtocolPackObjectOnline (o : TransactionObjectOnline) : io unit :=
  bitstream_write_uint64 (on_uid o) ;;
  transactionProtocolPackAttributeAddress (on_localAddress o) ;;
  transactionProtocolPackAttributeAddress (on_mappedAddress o) ;;
  transactionProtocolPackAttributeSeconds (on_expireSeconds o).

Definition transactionProtocolUnpackObjectOnline (o : TransactionObjectOnline) :
    io (UnpackResult * TransactionObjectOnline) :=
  uid <- bitstream_read_uint64 ;;
  let* '(_, l) := transactionProtocolUnpackAttributeAddress (on_localAddress o) in
  let* '(_, m) := transactionProtocolUnpackAttributeAddress (on_mappedAddress o) in
  let* '(unpackResult, secs) :=
    transactionProtocolUnpackAttributeSeconds (on_expireSeconds o) in
  ret (unpackResult, mkOnline uid l m secs).

Definition transactionProtocolPackObjectOffline (peerId : list Z) : io unit :=
  transactionProtocolPackAttributeString peerId.

Definition transactionProtocolUnpackObjectOffline (peerId : list Z) :
    io (UnpackResult * list Z) :=
  transactionProtocolUnpackAttributeString peerId kUniversalPeerIdMaxLength.

Definition transactionProtocolInitializeObjectPeerList (o : TransactionObjectPeerList) :
    TransactionObjectPeerList := mkPeerList 0 (pl_list o).

Definition transactionProtocolAddPeerToObjectPeerList (o : TransactionObjectPeerList)
    (peer : TransactionObjectPeer) : outcome TransactionObjectPeerList :=
  l <-! store (pl_list o) (pl_count o) peer ;;
  Done (mkPeerList (u32 (pl_count o + 1)) l).

(** [for(int i=0; i<count; ++i)]: [n] iterations are left, the next is [i]. *)
Fixpoint pack_peers (n : nat) (i : Z) (l : list TransactionObjectPeer) : io unit :=
  match n with
  | O => ret tt
  | S n' =>
      peer <- lift (load l i) ;;
      transactionProtocolPackAttributeString (peer_peerId peer) ;;
      transactionProtocolPackAttributeAddress (peer_localAddress peer) ;;
      transactionProtocolPackAttributeAddress (peer_mappedAddress peer) ;;
      pack_peers n' (i + 1) l
  end.

Definition transactionProtocolPackObjectPeerList (o : TransactionObjectPeerList) : io unit :=
  transactionProtocolPackAttributeCount (pl_count o) ;;
  pack_peers (Z.to_nat (pl_count o)) 0 (pl_list o).

(** A pointer to a member outside the block is fine until it is written
    through: an array there has no cells, an address there faults when the
    attribute is valid. *)
Definition peer_addr_written (size i n : Z) (r : UnpackResult) : outcome unit :=
  if decide (r = UnpackValid) then
    if peer_within size i n then Done tt else Fault OutOfBounds
  else Done tt.

(** The body of the loop, for peer [i]. *)
Definition unpack_peer (size i : Z) (peer : TransactionObjectPeer) :
    io (UnpackResult * TransactionObjectPeer) :=
  let* '(_, peerId) :=
    transactionProtocolUnpackAttributeString
      (if peer_within size i kUniversalPeerIdMaxLength then peer_peerId peer else [])
      kUniversalPeerIdMaxLength in
  let* '(r1, la) := transactionProtocolUnpackAttributeAddress (peer_localAddress peer) in
  lift (peer_addr_written size i (kUniversalPeerIdMaxLength + 16) r1) ;;
  let* '(r2, ma) := transactionProtocolUnpackAttributeAddress (peer_mappedAddress peer) in
  lift (peer_addr_written size i (kUniversalPeerIdMaxLength + 16 + 16) r2) ;;
  ret (r2, mkPeer peerId la ma).

Fixpoint unpack_peers (n : nat) (size i : Z) (r : UnpackResult)
    (l : list TransactionObjectPeer) : io (UnpackResult * list TransactionObjectPeer) :=
  match n with
  | O => ret (r, l)
  | S n' =>
      let* '(r', peer) := unpack_peer size i (default blankPeer (l !! Z.to_nat i)) in
      unpack_peers n' size (i + 1) r' (<[Z.to_nat i := peer]> l)
  end.

(** [size] is that of the memory block [o] is stored in. *)
Definition transactionProtocolUnpackObjectPeerList (size : Z) (o : TransactionObjectPeerList) :
    io (UnpackResult * TransactionObjectPeerList) :=
  let* '(r, count) := transactionProtocolUnpackAttributeCount (pl_count o) in
  let* '(unpackResult, l) := unpack_peers (Z.to_nat count) size 0 r (pl_list o) in
  ret (unpackResult, mkPeerList count l).

Definition transactionProtocolPackObjectConnect (o : TransactionObjectConnect) : io unit :=
  transactionProtocolPackAttributeString (co_peerId o) ;;
  transactionProtocolPackAttributeAddress (co_streamAddress o).

Definition transactionProtocolUnpackObjectConnect (o : TransactionObjectConnect) :
    io (UnpackResult * TransactionObjectConnect) :=
  let* '(_, peerId) :=
    transactionProtocolUnpackAttributeString (co_peerId o) kUniversalPeerIdMaxLength in
  let* '(unpackResult, a) := transactionProtocolUnpackAttributeAddress (co_streamAddress o) in
  ret (unpackResult, mkConnect peerId a).

Definition transactionProtocolPackObjectConnectAccept : TransactionObjectConnect -> io unit :=
  transactionProtocolPackObjectConnect.
Definition transactionProtocolUnpackObjectConnectAccept :=
  transactionProtocolUnpackObjectConnect.
Definition transactionProtocolPackObjectConnectRefuse : list Z -> io unit :=
  transactionProtocolPackAttributeString.
Definition transactionProtocolUnpackObjectConnectRefuse (peerId : list Z) :=
  transactionProtocolUnpackAttributeString peerId kUniversalPeerIdMaxLength.
Definition transactionProtocolPackObjectDisconnect : list Z -> io unit :=
  transactionProtocolPackAttributeString.
Definition transactionProtocolUnpackObjectDisconnect (peerId : list Z) :=
  transactionProtocolUnpackAttributeString peerId kUniversalPeerIdMaxLength.

Definition transactionProtocolPackRequest (o : TransactionObject) : io unit :=
  bitstream_write_uint8 (object_type o) ;;
  match o with
  | ObjUserCreate o => transactionProtocolPackObjectUserCreate o
  | ObjResourceCreate o => transactionProtocolPackObjectResourceCreate o
  | ObjOnline o => transactionProtocolPackObjectOnline o
  | ObjOffline p => transactionProtocolPackObjectOffline p
  | ObjPeerList o => transactionProtocolPackObjectPeerList o
  | ObjConnect o => transactionProtocolPackObjectConnect o
  | ObjConnectAccept o => transactionProtocolPackObjectConnectAccept o
  | ObjConnectRefuse p => transactionProtocolPackObjectConnectRefuse p
  | ObjDisconnect p => transactionProtocolPackObjectDisconnect p
  | ObjOther _ => ret tt
  end.

(** [m] with its object injected in the sum. *)
Definition inj_object {O} (f : O -> TransactionObject) (m : io (UnpackResult * O)) :
    io (UnpackResult * TransactionObject) :=
  let* '(r, o) := m in ret (r, f o).

(** Unpacking into a [TransactionObject] fresh from [calloc]. *)
Definition transactionProtocolUnpackRequest : io (UnpackResult * TransactionObject) :=
  type <- bitstream_read_uint8 ;;
  let name := zeros kUniversalUserNameMaxLength in
  let email := zeros kUniversalUserEmailMaxLength in
  let peerId := zeros kUniversalPeerIdMaxLength in
  if type =? TransactionUserCreate then
    inj_object ObjUserCreate
      (transactionProtocolUnpackObjectUserCreate (mkUserCreate 0 name email))
  else if type =? TransactionResourceCreate then
    inj_object ObjResourceCreate
      (transactionProtocolUnpackObjectResourceCreate
         (mkResourceCreate 0 (zeros kUniversalResourceDataMaxLength) 0 0))
  else if type =? TransactionOnline then
    inj_object ObjOnline
      (transactionProtocolUnpackObjectOnline (mkOnline 0 zeroAddr zeroAddr 0))
  else if type =? TransactionOffline then
    inj_object ObjOffline (transactionProtocolUnpackObjectOffline peerId)
  else if type =? TransactionPeerList then
    inj_object ObjPeerList
      (transactionProtocolUnpackObjectPeerList sizeof_TransactionObject blankPeerList)
  else if type =? TransactionConnect then
    inj_object ObjConnect (transactionProtocolUnpackObjectConnect (mkConnect peerId zeroAddr))
  else if type =? TransactionConnectAccept then
    inj_object ObjConnectAccept
      (transactionProtocolUnpackObjectConnectAccept (mkConnect peerId zeroAddr))
  else if type =? TransactionConnectRefuse then
    inj_object ObjConnectRefuse (transactionProtocolUnpackObjectConnectRefuse peerId)
  else if type =? TransactionDisconnect then
    inj_object ObjDisconnect (transactionProtocolUnpackObjectDisconnect peerId)
  else if type =? TransactionEmpty then ret (UnpackValid, ObjOther type)
  else ret (UnpackUnexpected, ObjOther type).

End Operations.

(** ** Encodings *)

(** The characters of a [char] array, up to its terminator. *)
Fixpoint c_chars (a : list Z) : list Z :=
  match a with
  | [] => []
  | c :: a' => if c =? 0 then [] else c :: c_chars a'
  end.

(** A [char[n]] member that holds a string and is zero after it. *)
Definition string_ok (n : Z) (a : list Z) : Prop :=
  Forall (fun c => byte c /\ c <> 0) (c_chars a) /\ zlen (c_chars a) < n /\
  a = c_chars a ++ zeros (n - zlen (c_chars a)).

Definition peer_ok (p : TransactionObjectPeer) : Prop :=
  string_ok kUniversalPeerIdMaxLength (peer_peerId p) /\
  addr_wf (peer_localAddress p) /\ addr_wf (peer_mappedAddress p).

(** Objects as the application builds them: strings terminated, unused bytes
    zero, at most the ten peers of the array. *)
Definition object_ok (o : TransactionObject) : Prop :=
  match o with
  | ObjUserCreate o =>
      uint_ok 8 (uc_uid o) /\ string_ok kUniversalUserNameMaxLength (uc_name o) /\
      string_ok kUniversalUserEmailMaxLength (uc_email o)
  | ObjResourceCreate o =>
      uint_ok 8 (rc_rid o) /\ uint_ok 8 (rc_uid o) /\
      0 <= rc_length o <= kUniversalResourceDataMaxLength /\
      zlen (rc_data o) = kUniversalResourceDataMaxLength /\ Forall byte (rc_data o) /\
      drop (Z.to_nat (rc_length o)) (rc_data o) =
        zeros (kUniversalResourceDataMaxLength - rc_length o)
  | ObjOnline o =>
      uint_ok 8 (on_uid o) /\ addr_wf (on_localAddress o) /\
      addr_wf (on_mappedAddress o) /\ uint_ok 4 (on_expireSeconds o)
  | ObjOffline p | ObjConnectRefuse p | ObjDisconnect p =>
      string_ok kUniversalPeerIdMaxLength p
  | ObjPeerList o =>
      exists ps, Forall peer_ok ps /\ (length ps <= 10)%nat /\ pl_count o = zlen ps /\
        pl_list o = ps ++ replicate (10 - length ps) blankPeer
  | ObjConnect o | ObjConnectAccept o =>
      string_ok kUniversalPeerIdMaxLength (co_peerId o) /\ addr_wf (co_streamAddress o)
  | ObjOther t => t = TransactionEmpty
  end.

(** The three peers that fit the block the receiver unpacks into. *)
Definition receivable (o : TransactionObject) : Prop :=
  match o with ObjPeerList o => pl_count o <= 3 | _ => True end.

Section Encodings.
Context `{Host}.

Definition enc_transaction_header (transactionId transactionType : Z) : list Z :=
  enc_header kProtocolDefaultId kProtocolDefaultVersion ProtocolTypeTransaction ++
  enc_int U8 transactionId ++ enc_int U8 transactionType.

Definition enc_attr_string (a : list Z) : list Z :=
  enc_int U8 TransactionAttributeTypeString ++
  enc_int U8 (2 + zlen (c_chars a)) ++ enc_str (c_chars a).

Definition enc_attr_address (a : net_addr_t) : list Z :=
  enc_int U8 TransactionAttributeTypeAddress ++
  enc_int U8 kTransactionAttributeLengthAddress ++
  enc_int U16endian (sin_port a) ++ enc_int U32endian (s_addr a).

Definition enc_attr_seconds (x : Z) : list Z :=
  enc_int U8 TransactionAttributeTypeSeconds ++
  enc_int U8 kTransactionAttributeLengthSeconds ++ enc_int U32 x.

Definition enc_attr_count (x : Z) : list Z :=
  enc_int U8 TransactionAttributeTypeCount ++
  enc_int U8 kTransactionAttributeLengthCount ++ enc_int U16 x.

Definition enc_peer (p : TransactionObjectPeer) : list Z :=
  enc_attr_string (peer_peerId p) ++
  enc_attr_address (peer_localAddress p) ++ enc_attr_address (peer_mappedAddress p).

Definition enc_body (o : TransactionObject) : list Z :=
  match o with
  | ObjUserCreate o =>
      enc_int U64 (uc_uid o) ++ enc_attr_string (uc_name o) ++ enc_attr_string (uc_email o)
  | ObjResourceCreate o =>
      enc_int U64 (rc_rid o) ++ enc_int U64 (rc_uid o) ++ enc_int U8 (rc_length o) ++
      wire_order (take (Z.to_nat (rc_length o)) (rc_data o))
  | ObjOnline o =>
      enc_int U64 (on_uid o) ++ enc_attr_address (on_localAddress o) ++
      enc_attr_address (on_mappedAddress o) ++ enc_attr_seconds (on_expireSeconds o)
  | ObjOffline p | ObjConnectRefuse p | ObjDisconnect p => enc_attr_string p
  | ObjPeerList o =>
      enc_attr_count (pl_count o) ++
      concat (enc_peer <$> take (Z.to_nat (pl_count o)) (pl_list o))
  | ObjConnect o | ObjConnectAccept o =>
      enc_attr_string (co_peerId o) ++ enc_attr_address (co_streamAddress o)
  | ObjOther _ => []
  end.

Definition enc_request (o : TransactionObject) : list Z :=
  enc_int U8 (object_type o) ++ enc_body o.

End Encodings.

(** ** Lemmas *)

Lemma zlen_zeros n : 0 <= n -> zlen (zeros n) = n.
Proof. intros. unfold zlen, zeros. rewrite length_replicate. lia. Qed.

Lemma zeros_byte n : Forall byte (zeros n).
Proof. apply Forall_replicate. unfold byte. lia. Qed.

Lemma string_ok_zlen n a : string_ok n a -> zlen a = n.
Proof.
  intros (_ & Hl & E). rewrite E, zlen_app, zlen_zeros by lia. lia.
Qed.

Lemma string_ok_byte n a : string_ok n a -> Forall byte a.
Proof.
  intros (Hc & _ & E). rewrite E. apply Forall_app. split; [|apply zeros_byte].
  eapply Forall_impl; [exact Hc|]. by intros ? [].
Qed.

Lemma string_ok_c_string n a : string_ok n a -> c_string a (c_chars a).
Proof.
  intros (Hc & Hl & E). split.
  - eapply Forall_impl; [exact Hc|]. by intros ? [].
  - exists (zeros (n - zlen (c_chars a) - 1)). rewrite E at 1. f_equal. unfold zeros.
    replace (Z.to_nat (n - zlen (c_chars a)))
      with (S (Z.to_nat (n - zlen (c_chars a) - 1))) by lia. done.
Qed.

(** Reading a string over a zeroed array gives back the array. *)
Lemma string_ok_splice n a :
  string_ok n a -> splice (zeros n) 0 (c_chars a ++ [0]) = a.
Proof.
  intros (Hc & Hl & E). rewrite E at 2. unfold splice. simpl.
  rewrite <- app_assoc. f_equal. unfold zeros. rewrite drop_replicate, length_app.
  pose proof (zlen_nonneg (c_chars a)). unfold zlen in *. simpl.
  replace (Z.to_nat (n - Z.of_nat (length (c_chars a))))
    with (S (Z.to_nat n - (length (c_chars a) + 1))) by lia. done.
Qed.

Section Messages.
Context `{Host}.

Lemma lift_emits {A} (m : outcome A) (a : A) : m = Done a -> emits (lift m) [] a.
Proof.
  intros ->. split; [constructor|]. intros s _ _. by rewrite append_nil.
Qed.

Lemma pack_transaction_header_emits i t :
  emits (transactionProtocolPackHeader i t) (enc_transaction_header i t) tt.
Proof. unfold transactionProtocolPackHeader, enc_transaction_header. emit. Qed.

Lemma pack_transaction_header_safe i t : writer_safe (transactionProtocolPackHeader i t).
Proof. unfold transactionProtocolPackHeader. safe. Qed.

Lemma unpack_transaction_header_parses out i t :
  uint_ok 1 i -> uint_ok 1 t ->
  parses (transactionProtocolUnpackHeader out) (enc_transaction_header i t) (UnpackValid, (i, t)).
Proof.
  intros Hi Ht. unfold transactionProtocolUnpackHeader, enc_transaction_header.
  eapply parses_bind; [by apply unpack_header_parses|].
  rewrite decide_False by auto. eapply parses_bind; [auto with wire|].
  rewrite <- (app_nil_r (enc_int U8 t)). eapply parses_bind; auto with wire.
Qed.

Lemma pack_attr_string_emits n a :
  string_ok n a -> n <= 250 ->
  emits (transactionProtocolPackAttributeString a) (enc_attr_string a) tt.
Proof.
  intros Ha Hn. pose proof (string_ok_c_string n a Ha) as Hc.
  pose proof (string_ok_byte n a Ha). destruct Ha as (_ & Hl & _).
  pose proof (zlen_nonneg (c_chars a)).
  unfold transactionProtocolPackAttributeString, enc_attr_string.
  eapply emits_bind; [auto with wire|].
  rewrite <- (app_nil_l (enc_int U8 (2 + _) ++ _)).
  eapply emits_bind; [apply lift_emits, (strlen_spec a _ Hc)|].
  rewrite u32_small by lia. eapply emits_bind; [auto with wire|].
  rewrite <- (app_nil_r (enc_str (c_chars a))).
  eapply emits_bind; [|apply emits_ret].
  eapply field_emits, write_str_field; auto. lia.
Qed.

Lemma attr_string_parses n a :
  host = LittleEndian -> string_ok n a -> n <= 250 ->
  parses (transactionProtocolUnpackAttributeString (zeros n) n) (enc_attr_string a)
    (UnpackValid, a).
Proof.
  intros HL Ha Hn. pose proof (string_ok_splice n a Ha) as Hsp.
  destruct Ha as (_ & Hl & _). pose proof (zlen_nonneg (c_chars a)).
  unfold transactionProtocolUnpackAttributeString, enc_attr_string.
  eapply parses_bind; [by apply u8_parses|]. rewrite Z.eqb_refl. cbn [negb].
  eapply parses_bind; [apply u8_parses; unfold uint_ok; lia|].
  rewrite <- (app_nil_r (enc_str (c_chars a))). eapply parses_bind.
  - apply read_str_parses; rewrite ?zlen_zeros; lia || done.
  - cbn beta iota. rewrite Hsp. apply parses_ret.
Qed.

Lemma pack_attr_address_emits a :
  emits (transactionProtocolPackAttributeAddress a) (enc_attr_address a) tt.
Proof. unfold transactionProtocolPackAttributeAddress, enc_attr_address. emit. Qed.

Lemma attr_address_parses a0 a :
  addr_wf a ->
  parses (transactionProtocolUnpackAttributeAddress a0) (enc_attr_address a) (UnpackValid, a).
Proof.
  intros [Hf Hp Hh]. unfold transactionProtocolUnpackAttributeAddress, enc_attr_address.
  eapply parses_bind; [by apply u8_parses|]. rewrite Z.eqb_refl. cbn [negb].
  eapply parses_bind; [by apply u8_parses|]. rewrite Z.eqb_refl. cbn [negb].
  eapply parses_bind; [auto with wire|].
  rewrite <- (app_nil_r (enc_int U32endian _)). eapply parses_bind; [auto with wire|].
  unfold net_addr_set. unfold uint_ok in *. rewrite u16_small, u32_small by lia.
  rewrite <- Hf. destruct a. apply parses_ret.
Qed.

Lemma pack_attr_seconds_emits x :
  uint_ok 4 x -> emits (transactionProtocolPackAttributeSeconds x) (enc_attr_seconds x) tt.
Proof.
  intros Hx. unfold transactionProtocolPackAttributeSeconds, enc_attr_seconds.
  rewrite u32_small by (unfold uint_ok in Hx; lia). emit.
Qed.

Lemma attr_seconds_parses x0 x :
  uint_ok 4 x ->
  parses (transactionProtocolUnpackAttributeSeconds x0) (enc_attr_seconds x) (UnpackValid, x).
Proof.
  intros Hx. unfold transactionProtocolUnpackAttributeSeconds, enc_attr_seconds.
  eapply parses_bind; [by apply u8_parses|]. rewrite Z.eqb_refl. cbn [negb].
  eapply parses_bind; [by apply u8_parses|]. rewrite Z.eqb_refl. cbn [negb].
  rewrite <- (app_nil_r (enc_int U32 _)). eapply parses_bind; [auto with wire|].
  apply parses_ret.
Qed.

Lemma pack_attr_count_emits x :
  emits (transactionProtocolPackAttributeCount x) (enc_attr_count x) tt.
Proof. unfold transactionProtocolPackAttributeCount, enc_attr_count. emit. Qed.

Lemma attr_count_parses x0 x :
  uint_ok 2 x ->
  parses (transactionProtocolUnpackAttributeCount x0) (enc_attr_count x) (UnpackValid, x).
Proof.
  intros Hx. unfold transactionProtocolUnpackAttributeCount, enc_attr_count.
  eapply parses_bind; [by apply u8_parses|]. rewrite Z.eqb_refl. cbn [negb].
  eapply parses_bind; [by apply u8_parses|]. rewrite Z.eqb_refl. cbn [negb].
  rewrite <- (app_nil_r (enc_int U16 _)). eapply parses_bind; [auto with wire|].
  apply parses_ret.
Qed.

End Messages.

#[export] Hint Resolve pack_transaction_header_emits pack_transaction_header_safe
  pack_attr_string_emits pack_attr_address_emits pack_attr_seconds_emits
  pack_attr_count_emits attr_address_parses attr_seconds_parses attr_count_parses : wire.

Section Objects.
Context `{Host}.

Lemma pack_peers_emits n i l ps :
  (forall j p, ps !! j = Some p -> l !! (Z.to_nat i + j)%nat = Some p) ->
  length ps = n -> 0 <= i -> Forall peer_ok ps ->
  emits (pack_peers n i l) (concat (enc_peer <$> ps)) tt.
Proof.
  revert i ps. induction n as [|n IH]; intros i ps Hl Hn Hi Hok.
  { destruct ps; [|done]. apply emits_ret. }
  destruct ps as [|p ps]; [done|]. apply Forall_cons in Hok as [(Hs & Hla & Hma) Hok].
  cbn [pack_peers fmap list_fmap concat]. rewrite <- (app_nil_l (enc_peer p ++ _)).
  eapply emits_bind.
  { apply lift_emits, load_done; [done|].
    specialize (Hl 0%nat p eq_refl). by rewrite Nat.add_0_r in Hl. }
  unfold enc_peer. rewrite <- !app_assoc.
  eapply emits_bind; [apply (pack_attr_string_emits _ _ Hs); done|].
  do 2 (eapply emits_bind; [auto with wire|]).
  apply IH; [|injection Hn as <-; done|lia|done].
  intros j p' Hj. specialize (Hl (S j) p' Hj).
  replace (Z.to_nat (i + 1) + j)%nat with (Z.to_nat i + S j)%nat by lia. done.
Qed.

Lemma pack_body_emits o :
  object_ok o -> emits (transactionProtocolPackRequest o) (enc_request o) tt.
Proof.
  intros Ho. unfold transactionProtocolPackRequest, enc_request.
  eapply emits_bind; [auto with wire|].
  destruct o; cbn [object_ok enc_body] in *.
  - destruct Ho as (_ & Hn & He). unfold transactionProtocolPackObjectUserCreate.
    eapply emits_bind; [auto with wire|].
    eapply emits_bind; eapply pack_attr_string_emits; eauto; done.
  - destruct Ho as (_ & _ & Hl & Hd & Hb & _).
    unfold transactionProtocolPackObjectResourceCreate.
    do 3 (eapply emits_bind; [auto with wire|]).
    rewrite <- (app_nil_r (wire_order _)). eapply emits_bind; [|apply emits_ret].
    eapply field_emits, write_bytes_field; [lia|done].
  - destruct Ho as (_ & _ & _ & Hs). unfold transactionProtocolPackObjectOnline. emit.
  - eapply pack_attr_string_emits; eauto; done.
  - destruct Ho as (ps & Hok & Hl & Hc & E). unfold transactionProtocolPackObjectPeerList.
    eapply emits_bind; [auto with wire|].
    replace (Z.to_nat (pl_count o)) with (length ps) by (unfold zlen in Hc; lia).
    rewrite E, take_app_length. apply pack_peers_emits; auto; [|lia].
    intros j p Hj. by apply lookup_app_l_Some.
  - destruct Ho as (Hs & Ha). unfold transactionProtocolPackObjectConnect.
    eapply emits_bind; [eapply pack_attr_string_emits; eauto; done|auto with wire].
  - destruct Ho as (Hs & Ha). unfold transactionProtocolPackObjectConnectAccept,
      transactionProtocolPackObjectConnect.
    eapply emits_bind; [eapply pack_attr_string_emits; eauto; done|auto with wire].
  - eapply pack_attr_string_emits; eauto; done.
  - eapply pack_attr_string_emits; eauto; done.
  - apply emits_ret.
Qed.

(** *** Reading back, on a little-endian host *)

Context (HL : host = LittleEndian).

Lemma peer_within_block i n : 0 <= i -> 0 <= n <= 64 ->
  peer_within sizeof_TransactionObject i n = (8 + 64 * i + n <=? 256).
Proof.
  intros Hi Hn. unfold peer_within.
  change sizeof_TransactionObject with 256. change offsetof_PeerList_list with 8.
  change sizeof_TransactionObjectPeer with 64. f_equal. lia.
Qed.

Lemma unpack_peer_parses i p :
  0 <= i <= 2 -> peer_ok p ->
  parses (unpack_peer sizeof_TransactionObject i blankPeer) (enc_peer p) (UnpackValid, p).
Proof.
  intros Hi (Hs & Hla & Hma). unfold unpack_peer, enc_peer, peer_addr_written.
  rewrite !peer_within_block by (change kUniversalPeerIdMaxLength with 32; lia).
  rewrite !(proj2 (Z.leb_le _ _)) by (change kUniversalPeerIdMaxLength with 32; lia).
  eapply parses_bind; [by apply attr_string_parses|].
  eapply parses_bind; [by apply attr_address_parses|].
  rewrite <- (app_nil_l (enc_attr_address (peer_mappedAddress p))).
  eapply parses_bind; [apply (parses_ret tt)|].
  rewrite <- (app_nil_r (enc_attr_address (peer_mappedAddress p))).
  eapply parses_bind; [by apply attr_address_parses|].
  rewrite <- (app_nil_l []). eapply parses_bind; [apply (parses_ret tt)|].
  destruct p. apply parses_ret.
Qed.

(** The mapped address of the fourth peer crosses the end of the block. *)
Lemma unpack_peer_faults p bs :
  peer_ok p ->
  faults (unpack_peer sizeof_TransactionObject 3 blankPeer) (enc_peer p ++ bs) OutOfBounds.
Proof.
  intros (Hs & Hla & Hma). unfold unpack_peer, enc_peer, peer_addr_written.
  rewrite !peer_within_block by (change kUniversalPeerIdMaxLength with 32; lia).
  rewrite <- !app_assoc.
  eapply parses_faults; [by apply attr_string_parses|].
  eapply parses_faults; [by apply attr_address_parses|].
  rewrite <- (app_nil_l (_ ++ bs)). eapply parses_faults; [apply (parses_ret tt)|].
  eapply parses_faults; [by apply attr_address_parses|].
  intros s _ _ _. done.
Qed.

Lemma peers_slot pre k :
  default blankPeer ((pre ++ replicate k blankPeer) !! Z.to_nat (zlen pre)) = blankPeer.
Proof.
  unfold zlen. rewrite Nat2Z.id, lookup_app_r, Nat.sub_diag by lia.
  by destruct k.
Qed.

Lemma peers_insert (pre : list TransactionObjectPeer) k p :
  <[Z.to_nat (zlen pre) := p]> (pre ++ replicate (S k) blankPeer) =
  (pre ++ [p]) ++ replicate k blankPeer.
Proof.
  unfold zlen. rewrite Nat2Z.id, insert_app_r_alt, Nat.sub_diag by lia.
  by rewrite <- app_assoc.
Qed.

Lemma unpack_peers_parses ps pre k r :
  Forall peer_ok ps -> (length pre + length ps <= 3)%nat -> (length ps <= k)%nat ->
  parses (unpack_peers (length ps) sizeof_TransactionObject (zlen pre) r
            (pre ++ replicate k blankPeer))
    (concat (enc_peer <$> ps))
    (match ps with [] => r | _ => UnpackValid end,
     pre ++ ps ++ replicate (k - length ps) blankPeer).
Proof.
  revert pre k r. induction ps as [|p ps IH]; intros pre k r Hok H3 Hk.
  { cbn. rewrite Nat.sub_0_r. apply parses_ret. }
  apply Forall_cons in Hok as [Hp Hok].
  destruct k as [|k]; [simpl in Hk; lia|]. simpl length in *.
  cbn [unpack_peers fmap list_fmap concat]. rewrite peers_slot.
  eapply parses_bind; [apply unpack_peer_parses; [unfold zlen; lia|done]|].
  cbn beta iota. rewrite peers_insert.
  specialize (IH (pre ++ [p]) k UnpackValid Hok).
  rewrite length_app, zlen_app, <- !(app_assoc pre) in IH. cbn [length app] in IH.
  replace (match ps with [] => UnpackValid | _ => UnpackValid end) with UnpackValid in IH
    by (by destruct ps).
  rewrite <- app_assoc. apply IH; lia.
Qed.

Lemma unpack_peers_faults ps pre k r :
  Forall peer_ok ps -> (length pre <= 3)%nat -> (3 < length pre + length ps)%nat ->
  (length ps <= k)%nat ->
  faults (unpack_peers (length ps) sizeof_TransactionObject (zlen pre) r
            (pre ++ replicate k blankPeer))
    (concat (enc_peer <$> ps)) OutOfBounds.
Proof.
  revert pre k r. induction ps as [|p ps IH]; intros pre k r Hok H3 H4 Hk; [simpl in *; lia|].
  apply Forall_cons in Hok as [Hp Hok].
  destruct k as [|k]; [simpl in Hk; lia|]. simpl length in *.
  cbn [unpack_peers fmap list_fmap concat]. rewrite peers_slot.
  destruct (decide (length pre = 3%nat)) as [E|N].
  - replace (zlen pre) with 3 by (unfold zlen; lia).
    apply faults_bind. by apply unpack_peer_faults.
  - eapply parses_faults; [apply unpack_peer_parses; [unfold zlen; lia|done]|].
    cbn beta iota. rewrite peers_insert.
    replace (zlen pre + 1) with (zlen (pre ++ [p])) by (rewrite zlen_app; done).
    apply IH; rewrite ?length_app; simpl; [done|lia|lia|lia].
Qed.

Lemma inj_parses {O} (f : O -> TransactionObject) (m : io (UnpackResult * O)) bs r o :
  parses m bs (r, o) -> parses (inj_object f m) bs (r, f o).
Proof.
  intros Hm. rewrite <- (app_nil_r bs). unfold inj_object.
  eapply parses_bind; [exact Hm|]. apply parses_ret.
Qed.

Lemma unpack_resource_parses o :
  object_ok (ObjResourceCreate o) ->
  parses (transactionProtocolUnpackObjectResourceCreate
    (mkResourceCreate 0 (zeros kUniversalResourceDataMaxLength) 0 0))
    (enc_body (ObjResourceCreate o)) (UnpackValid, o).
Proof.
  intros (Hr & Hu & Hl & Hd & Hb & Hz). cbn [enc_body rc_data].
  change kUniversalResourceDataMaxLength with 128 in *.
  unfold transactionProtocolUnpackObjectResourceCreate. cbn [rc_data].
  do 2 (eapply parses_bind; [auto with wire|]).
  eapply parses_bind; [apply u8_parses; unfold uint_ok; lia|].
  set (bs := wire_order (take (Z.to_nat (rc_length o)) (rc_data o))).
  assert (Hbs : zlen bs = rc_length o) by (subst bs; rewrite zlen_wire_order; apply zlen_take; lia).
  rewrite <- Hbs at 1. rewrite <- (app_nil_r bs).
  eapply parses_bind; [rewrite app_nil_r; apply read_bytes_parses; rewrite zlen_zeros; lia|].
  rewrite ?app_nil_r. cbn beta iota. rewrite Hbs, u32_small, Z.eqb_refl by lia.
  cbn [negb]. subst bs. rewrite wire_order_involutive.
  replace (splice (zeros 128) 0 (take (Z.to_nat (rc_length o)) (rc_data o))) with (rc_data o).
  { destruct o. apply parses_ret. }
  rewrite <- (take_drop (Z.to_nat (rc_length o)) (rc_data o)) at 1.
  unfold splice. simpl. f_equal. rewrite Hz. unfold zeros. rewrite drop_replicate.
  f_equal. rewrite length_take. unfold zlen in Hd. lia.
Qed.

Lemma inj_faults {O} (f : O -> TransactionObject) (m : io (UnpackResult * O)) bs e :
  faults m bs e -> faults (inj_object f m) bs e.
Proof. apply faults_bind. Qed.

(** A list of more than three peers overruns the receiver's block. *)
Lemma unpack_request_faults o :
  object_ok o -> ~ receivable o ->
  faults transactionProtocolUnpackRequest (enc_request o) OutOfBounds.
Proof.
  intros Ho Hr. destruct o; cbn [receivable] in Hr; try (by destruct Hr).
  cbn [object_ok] in Ho. destruct Ho as (ps & Hok & Hl & Hc & E).
  unfold transactionProtocolUnpackRequest, enc_request.
  eapply parses_faults; [by apply u8_parses|]. cbv zeta. cbn [object_type].
  repeat (rewrite (proj2 (Z.eqb_neq _ _)) by done). rewrite Z.eqb_refl.
  apply inj_faults. cbn [enc_body]. unfold transactionProtocolUnpackObjectPeerList.
  eapply parses_faults.
  { apply attr_count_parses. unfold uint_ok, zlen in *. lia. }
  cbn beta iota. replace (Z.to_nat (pl_count o)) with (length ps) by (unfold zlen in Hc; lia).
  rewrite E at 1. rewrite take_app_length. apply faults_bind.
  unfold zlen in Hc. apply (unpack_peers_faults ps [] 10); [done|simpl; lia|simpl; lia|lia].
Qed.

Lemma unpack_request_parses o :
  object_ok o -> receivable o -> parses transactionProtocolUnpackRequest (enc_request o) (UnpackValid, o).
Proof.
  intros Ho Hrec. unfold transactionProtocolUnpackRequest, enc_request.
  eapply parses_bind.
  { apply u8_parses. destruct o; cbn [object_type object_ok] in *; subst; done. }
  cbv zeta. destruct o; cbn [object_type];
    repeat (rewrite (proj2 (Z.eqb_neq _ _)) by done); rewrite ?Z.eqb_refl;
    try apply inj_parses; cbn [object_ok enc_body receivable] in *.
  - destruct Ho as (Hu & Hn & He). unfold transactionProtocolUnpackObjectUserCreate.
    eapply parses_bind; [auto with wire|].
    eapply parses_bind; [by apply attr_string_parses|].
    rewrite <- (app_nil_r (enc_attr_string (uc_email o))).
    eapply parses_bind; [by apply attr_string_parses|]. destruct o. apply parses_ret.
  - by apply unpack_resource_parses.
  - destruct Ho as (Hu & Hl & Hm & Hs). unfold transactionProtocolUnpackObjectOnline.
    do 3 (eapply parses_bind; [auto with wire|]).
    rewrite <- (app_nil_r (enc_attr_seconds _)).
    eapply parses_bind; [auto with wire|]. destruct o. apply parses_ret.
  - by apply attr_string_parses.
  - destruct Ho as (ps & Hok & Hl & Hc & E).
    assert (Hcr : uint_ok 2 (pl_count o)) by (unfold uint_ok, zlen in *; lia).
    unfold transactionProtocolUnpackObjectPeerList.
    eapply parses_bind; [auto with wire|]. cbn beta iota.
    replace (Z.to_nat (pl_count o)) with (length ps) by (unfold zlen in Hc; lia).
    rewrite E at 1. rewrite take_app_length, <- (app_nil_r (concat _)).
    eapply parses_bind; [apply (unpack_peers_parses ps [] 10); auto; unfold zlen in Hc; simpl; lia|].
    cbn [app]. rewrite <- E.
    replace (match ps with [] => UnpackValid | _ => UnpackValid end) with UnpackValid by (by destruct ps).
    destruct o. apply parses_ret.
  - destruct Ho as (Hs & Ha). unfold transactionProtocolUnpackObjectConnect.
    eapply parses_bind; [by apply attr_string_parses|].
    rewrite <- (app_nil_r (enc_attr_address _)).
    eapply parses_bind; [auto with wire|]. destruct o. apply parses_ret.
  - destruct Ho as (Hs & Ha). unfold transactionProtocolUnpackObjectConnectAccept,
      transactionProtocolUnpackObjectConnect.
    eapply parses_bind; [by apply attr_string_parses|].
    rewrite <- (app_nil_r (enc_attr_address _)).
    eapply parses_bind; [auto with wire|]. destruct o. apply parses_ret.
  - by apply attr_string_parses.
  - by apply attr_string_parses.
  - subst. apply parses_ret.
Qed.

End Objects.

(** ** Safety of the receiver *)

(** The two limits the unpacking does not check: the length of a resource's
    data and the number of peers. *)
Definition request_limits `{Host} (s : bitstream_t) : bool :=
  match bitstream_read_uint8 s with
  | Done (type, s1) =>
      if type =? TransactionResourceCreate then
        match bitstream_read_uint8 (skip s 17) with
        | Done (length, _) => length <=? kUniversalResourceDataMaxLength
        | Fault _ => false
        end
      else if type =? TransactionPeerList then
        match transactionProtocolUnpackAttributeCount 0 s1 with
        | Done ((_, count), _) => count <=? 3
        | Fault _ => false
        end
      else true
  | Fault _ => false
  end.

(** What the C types say of the members of an object. *)
Definition typed_string (n : Z) (d : list Z) : Prop := zlen d = n /\ Forall byte d.

Definition typed_addr (a : net_addr_t) : Prop :=
  uint_ok 2 (sin_family a) /\ uint_ok 2 (sin_port a) /\ uint_ok 4 (s_addr a).

Definition typed_peer (p : TransactionObjectPeer) : Prop :=
  typed_string kUniversalPeerIdMaxLength (peer_peerId p) /\ typed_addr (peer_localAddress p) /\ typed_addr (peer_mappedAddress p).

Definition typed_connect (o : TransactionObjectConnect) : Prop :=
  typed_string kUniversalPeerIdMaxLength (co_peerId o) /\ typed_addr (co_streamAddress o).

Definition typed_object (o : TransactionObject) : Prop :=
  match o with
  | ObjUserCreate o =>
      uint_ok 8 (uc_uid o) /\ typed_string kUniversalUserNameMaxLength (uc_name o) /\
      typed_string kUniversalUserEmailMaxLength (uc_email o)
  | ObjResourceCreate o =>
      uint_ok 8 (rc_rid o) /\ uint_ok 8 (rc_uid o) /\ 0 <= rc_length o <= kUniversalResourceDataMaxLength /\
      typed_string kUniversalResourceDataMaxLength (rc_data o)
  | ObjOnline o =>
      uint_ok 8 (on_uid o) /\ typed_addr (on_localAddress o) /\ typed_addr (on_mappedAddress o) /\
      uint_ok 4 (on_expireSeconds o)
  | ObjOffline p | ObjConnectRefuse p | ObjDisconnect p => typed_string kUniversalPeerIdMaxLength p
  | ObjPeerList o => 0 <= pl_count o <= 3 /\ length (pl_list o) = 10%nat /\ Forall typed_peer (pl_list o)
  | ObjConnect o | ObjConnectAccept o => typed_connect o
  | ObjOther t => uint_ok 1 t
  end.

Lemma typed_zeros n : 0 <= n -> typed_string n (zeros n).
Proof. intros Hn. split; [by apply zlen_zeros|apply zeros_byte]. Qed.

Lemma typed_blank : typed_addr zeroAddr /\ typed_peer blankPeer.
Proof.
  assert (A : typed_addr zeroAddr) by (by repeat split). split; [done|].
  split; [by apply typed_zeros|done].
Qed.

Section Safety.
Context `{Host}.

(** The attribute is refused: what was there before stays. *)
Ltac early :=
  match goal with |- reads_upto _ _ ?Q =>
    apply (reads_upto_weaken 0 _ _ Q Q); [by apply reads_upto_ret|lia|done]
  end.

Lemma attr_string_reads n dest :
  1 <= n <= zlen dest -> n < 2 ^ 31 -> Forall byte dest ->
  reads_upto (2 + n) (transactionProtocolUnpackAttributeString dest n)
    (fun '(_, d) => zlen d = zlen dest /\ Forall byte d).
Proof.
  intros Hn Hi Hb. unfold transactionProtocolUnpackAttributeString.
  replace (2 + n) with (1 + (1 + (n + 0))) by lia.
  eapply reads_upto_bind; [apply reads_reads_upto, u8_reads| |lia]. intros t _.
  destruct (negb (t =? _)); [early|].
  eapply reads_upto_bind; [apply reads_reads_upto, u8_reads| |lia]. intros l _.
  eapply reads_upto_bind; [by apply read_str_reads| |lia]. intros [d m] (Hd & Hbd & _).
  by apply reads_upto_ret.
Qed.

Lemma attr_address_reads a : typed_addr a ->
  reads_upto 8 (transactionProtocolUnpackAttributeAddress a) (fun '(_, a') => typed_addr a').
Proof.
  intros Ha. unfold transactionProtocolUnpackAttributeAddress.
  eapply (reads_upto_bind 1 7); [apply reads_reads_upto, u8_reads| |lia]. intros t _.
  destruct (negb (t =? _)); [early|].
  eapply (reads_upto_bind 1 6); [apply reads_reads_upto, u8_reads| |lia]. intros l _.
  destruct (negb (l =? _)); [early|].
  eapply (reads_upto_bind 2 4); [apply reads_reads_upto, u16e_reads| |lia]. intros p Hp.
  eapply (reads_upto_bind 4 0); [apply reads_reads_upto, u32e_reads| |lia]. intros h Hh.
  apply reads_upto_ret. destruct (net_addr_set_wf h p false) as [F P O]. split; [by rewrite F|done].
Qed.

Lemma attr_seconds_reads x : uint_ok 4 x ->
  reads_upto 6 (transactionProtocolUnpackAttributeSeconds x) (fun '(_, y) => uint_ok 4 y).
Proof.
  intros Hx. unfold transactionProtocolUnpackAttributeSeconds.
  eapply (reads_upto_bind 1 5); [apply reads_reads_upto, u8_reads| |lia]. intros t _.
  destruct (negb (t =? _)); [early|].
  eapply (reads_upto_bind 1 4); [apply reads_reads_upto, u8_reads| |lia]. intros l _.
  destruct (negb (l =? _)); [early|].
  eapply (reads_upto_bind 4 0); [apply reads_reads_upto, u32_reads| |lia]. intros p Hp.
  by apply reads_upto_ret.
Qed.

Lemma attr_count_reads x : uint_ok 2 x ->
  reads_upto 4 (transactionProtocolUnpackAttributeCount x) (fun '(_, y) => uint_ok 2 y).
Proof.
  intros Hx. unfold transactionProtocolUnpackAttributeCount.
  eapply (reads_upto_bind 1 3); [apply reads_reads_upto, u8_reads| |lia]. intros t _.
  destruct (negb (t =? _)); [early|].
  eapply (reads_upto_bind 1 2); [apply reads_reads_upto, u8_reads| |lia]. intros l _.
  destruct (negb (l =? _)); [early|].
  eapply (reads_upto_bind 2 0); [apply reads_reads_upto, u16_reads| |lia]. intros p Hp.
  by apply reads_upto_ret.
Qed.

Lemma zeros_string_reads n :
  1 <= n < 2 ^ 31 ->
  reads_upto (2 + n) (transactionProtocolUnpackAttributeString (zeros n) n) (fun '(_, d) => typed_string n d).
Proof.
  intros Hn. destruct (typed_zeros n ltac:(lia)) as [Z B].
  eapply reads_upto_weaken; [by apply attr_string_reads; [lia|lia|]|lia|].
  intros [r d]. unfold typed_string. by rewrite Z.
Qed.

Lemma connect_reads :
  reads_upto 42 (transactionProtocolUnpackObjectConnect
    (mkConnect (zeros kUniversalPeerIdMaxLength) zeroAddr)) (fun '(_, o) => typed_connect o).
Proof.
  unfold transactionProtocolUnpackObjectConnect.
  eapply (reads_upto_bind 34 8); [by apply (zeros_string_reads 32)| |lia]. intros [r p] Hp.
  eapply (reads_upto_bind 8 0); [apply attr_address_reads, typed_blank| |lia]. intros [r' a] Ha.
  by apply reads_upto_ret.
Qed.

Lemma user_create_reads :
  reads_upto 92 (transactionProtocolUnpackObjectUserCreate
    (mkUserCreate 0 (zeros kUniversalUserNameMaxLength) (zeros kUniversalUserEmailMaxLength)))
    (fun '(_, o) => typed_object (ObjUserCreate o)).
Proof.
  unfold transactionProtocolUnpackObjectUserCreate.
  eapply (reads_upto_bind 8 84); [apply reads_reads_upto, u64_reads| |lia]. intros u Hu.
  eapply (reads_upto_bind 42 42); [by apply (zeros_string_reads 40)| |lia]. intros [r n] Hn.
  eapply (reads_upto_bind 42 0); [by apply (zeros_string_reads 40)| |lia]. intros [r' e] He.
  by apply reads_upto_ret.
Qed.

Lemma online_reads :
  reads_upto 30 (transactionProtocolUnpackObjectOnline (mkOnline 0 zeroAddr zeroAddr 0))
    (fun '(_, o) => typed_object (ObjOnline o)).
Proof.
  unfold transactionProtocolUnpackObjectOnline.
  eapply (reads_upto_bind 8 22); [apply reads_reads_upto, u64_reads| |lia]. intros u Hu.
  eapply (reads_upto_bind 8 14); [apply attr_address_reads, typed_blank| |lia]. intros [r l] Hl.
  eapply (reads_upto_bind 8 6); [apply attr_address_reads, typed_blank| |lia]. intros [r' m] Hm.
  eapply (reads_upto_bind 6 0); [by apply attr_seconds_reads| |lia]. intros [r'' s] Hs.
  by apply reads_upto_ret.
Qed.

Lemma peer_reads i p :
  0 <= i <= 2 -> typed_peer p ->
  reads_upto 50 (unpack_peer sizeof_TransactionObject i p) (fun '(_, p') => typed_peer p').
Proof.
  intros Hi ([H32 Hb] & Hl & Hm). change kUniversalPeerIdMaxLength with 32 in H32. unfold unpack_peer, peer_addr_written.
  rewrite !peer_within_block by (change kUniversalPeerIdMaxLength with 32; lia).
  rewrite !(proj2 (Z.leb_le _ _)) by (change kUniversalPeerIdMaxLength with 32; lia).
  eapply (reads_upto_bind 34 16); [apply (attr_string_reads 32); [lia|lia|done]| |lia].
  intros [r0 d] (Hd & Hbd).
  eapply (reads_upto_bind 8 8); [by apply attr_address_reads| |lia]. intros [r1 la] Hla.
  eapply (reads_upto_bind 0 8 _ _ (fun _ => True)); [|intros [] _|lia].
  { destruct (decide (r1 = UnpackValid)); by apply (reads_upto_ret tt). }
  eapply (reads_upto_bind 8 0); [by apply attr_address_reads| |lia]. intros [r2 ma] Hma.
  eapply (reads_upto_bind 0 0 _ _ (fun _ => True)); [|intros [] _|lia].
  { destruct (decide (r2 = UnpackValid)); by apply (reads_upto_ret tt). }
  apply reads_upto_ret. split; [|done]. split; [change kUniversalPeerIdMaxLength with 32; cbn; lia|done].
Qed.

Lemma peers_reads n i r l :
  0 <= i -> i + Z.of_nat n <= 3 -> Forall typed_peer l ->
  reads_upto (50 * Z.of_nat n) (unpack_peers n sizeof_TransactionObject i r l)
    (fun '(_, l') => length l' = length l /\ Forall typed_peer l').
Proof.
  revert i r l. induction n as [|n IH]; intros i r l Hi Hn Hl; [by apply reads_upto_ret|].
  replace (50 * Z.of_nat (S n)) with (50 + 50 * Z.of_nat n) by lia. cbn [unpack_peers].
  eapply reads_upto_bind; [apply peer_reads; [lia|]| |lia].
  { destruct (l !! Z.to_nat i) as [p|] eqn:E; [by apply (Forall_lookup_1 _ _ _ _ Hl E)|apply typed_blank]. }
  intros [r' p] Hp. eapply reads_upto_weaken; [apply IH; [lia|lia|]|lia|].
  - by apply Forall_insert.
  - intros [r2 l2]. by rewrite length_insert.
Qed.

(** A reader that ends inside the stream with a result in [P]. *)
Definition ends_with {A} (rd : io A) (s : bitstream_t) (P : A -> Prop) : Prop :=
  exists v m, rd s = Done (v, skip s m) /\ 0 <= m <= room s /\ P v.

Lemma resource_create_needs s :
  bs_wf s -> 17 <= room s ->
  (forall l s', bitstream_read_uint8 (skip s 16) = Done (l, s') ->
     l <= kUniversalResourceDataMaxLength) ->
  ends_with (transactionProtocolUnpackObjectResourceCreate
    (mkResourceCreate 0 (zeros kUniversalResourceDataMaxLength) 0 0)) s (fun '(_, o) => typed_object (ObjResourceCreate o)).
Proof.
  intros W Hr Hl. unfold ends_with, transactionProtocolUnpackObjectResourceCreate. cbn [rc_data].
  destruct (proj2 u64_reads s W ltac:(lia)) as (rid & E1 & Hrid).
  assert (W1 : bs_wf (skip s 8)) by (apply skip_wf; [done|lia]).
  destruct (proj2 u64_reads _ W1) as (uid & E2 & Huid); [rewrite room_skip; lia|].
  rewrite skip_skip in E2. change (8 + 8) with 16 in E2.
  assert (W2 : bs_wf (skip s 16)) by (apply skip_wf; [done|lia]).
  destruct (proj2 u8_reads _ W2) as (l & E3 & Hlr); [rewrite room_skip; lia|].
  specialize (Hl _ _ E3). rewrite skip_skip in E3. change (16 + 1) with 17 in E3.
  assert (W3 : bs_wf (skip s 17)) by (apply skip_wf; [done|lia]).
  rewrite (bind_done _ _ _ _ _ E1), (bind_done _ _ _ _ _ E2), (bind_done _ _ _ _ _ E3).
  unfold uint_ok in Hlr. change kUniversalResourceDataMaxLength with 128 in *.
  destruct (proj2 (read_bytes_needs (zeros 128) l ltac:(rewrite zlen_zeros; lia) (zeros_byte _)) _ W3)
    as ([d n] & m & E4 & Hm & Hd & Hbd & _); [by apply room_nonneg|].
  rewrite (bind_done _ _ _ _ _ E4), skip_skip. rewrite room_skip in Hm.
  eexists _, (17 + m). split; [reflexivity|]. split; [lia|]. split; [done|]. split; [done|]. split; [cbn; change kUniversalResourceDataMaxLength with 128; lia|done].
Qed.

Lemma peer_list_needs s :
  bs_wf s -> 154 <= room s ->
  (forall r c s', transactionProtocolUnpackAttributeCount 0 s = Done ((r, c), s') -> c <= 3) ->
  ends_with (transactionProtocolUnpackObjectPeerList sizeof_TransactionObject blankPeerList) s
    (fun '(_, o) => typed_object (ObjPeerList o)).
Proof.
  intros W Hr Hc. unfold ends_with, transactionProtocolUnpackObjectPeerList. cbn [pl_count pl_list blankPeerList].
  destruct (proj2 (attr_count_reads 0 ltac:(done)) s W ltac:(lia)) as ([r c] & m & E & Hm & Hc2).
  specialize (Hc _ _ _ E). rewrite (bind_done _ _ _ _ _ E). unfold uint_ok in Hc2.
  assert (W1 : bs_wf (skip s m)) by (apply skip_wf; [done|lia]).
  destruct (proj2 (peers_reads (Z.to_nat c) 0 r (replicate 10 blankPeer) ltac:(lia) ltac:(lia)
    ltac:(apply Forall_replicate, typed_blank)) _ W1)
    as ([r' l] & m' & E' & Hm' & Hl & Ht); [rewrite room_skip; lia|].
  rewrite (bind_done _ _ _ _ _ E'), skip_skip.
  eexists _, (m + m'). split; [reflexivity|]. split; [lia|]. split; [cbn; lia|done].
Qed.

Lemma needs_ends {A} n (rd : io A) P s : bs_wf s -> n <= room s -> reads_upto n rd P -> ends_with rd s P.
Proof.
  intros W Hr [_ R]. destruct (R s W Hr) as (v & m & E & Hm & Hv). exists v, m. split; [done|]. split; [lia|done].
Qed.

Lemma inj_ends {O} (f : O -> TransactionObject) (m : io (UnpackResult * O)) s :
  ends_with m s (fun '(_, o) => typed_object (f o)) -> ends_with (inj_object f m) s (fun v => typed_object v.2).
Proof.
  intros ([r o] & n & E & Hn & Ho). exists (r, f o), n. split; [|done].
  unfold inj_object. by rewrite (bind_done _ _ _ _ _ E).
Qed.

Lemma unpack_request_ends s :
  bs_wf s -> 155 <= room s -> request_limits s = true ->
  ends_with transactionProtocolUnpackRequest s (fun v => typed_object v.2).
Proof.
  intros W Hr Hlim. unfold request_limits, transactionProtocolUnpackRequest in *.
  destruct (proj2 u8_reads s W ltac:(lia)) as (t & E & Ht).
  rewrite E in Hlim.
  assert (W1 : bs_wf (skip s 1)) by (apply skip_wf; [done|lia]).
  pose proof (room_skip s 1) as R1.
  match goal with |- ends_with (bind _ ?k) _ _ => cut (ends_with (k t) (skip s 1) (fun v => typed_object v.2)) end.
  { intros (v & m & E' & Hm & Hv). exists v, (1 + m). rewrite (bind_done _ _ _ _ _ E), <- skip_skip. split; [done|]. split; [lia|done]. }
  cbv beta zeta.
  repeat (match goal with |- context [if (t =? ?k) then _ else _] =>
    destruct (Z.eqb_spec t k) as [Et|?] end;
    [ try apply inj_ends | ]).
  - eapply needs_ends; [done| |apply user_create_reads]; lia.
  - apply resource_create_needs; [done|lia|].
    intros l s' El. rewrite skip_skip in El. change (1 + 16) with 17 in El.
    rewrite El in Hlim. by apply Z.leb_le.
  - eapply needs_ends; [done| |apply online_reads]; lia.
  - eapply needs_ends; [done| |by apply (zeros_string_reads 32)]; lia.
  - apply peer_list_needs; [done|lia|].
    intros r c s' Ec. rewrite Ec in Hlim. by apply Z.leb_le.
  - eapply needs_ends; [done| |apply connect_reads]; lia.
  - eapply needs_ends; [done| |apply connect_reads]; lia.
  - eapply needs_ends; [done| |by apply (zeros_string_reads 32)]; lia.
  - eapply needs_ends; [done| |by apply (zeros_string_reads 32)]; lia.
  - eexists _, 0. rewrite skip_0. split; [reflexivity|]. split; [lia|done].
  - eexists _, 0. rewrite skip_0. split; [reflexivity|]. split; [lia|done].
Qed.

Lemma unpack_request_needs s :
  bs_wf s -> 155 <= room s -> request_limits s = true ->
  exists v m, transactionProtocolUnpackRequest s = Done (v, skip s m) /\ 0 <= m <= room s.
Proof. intros W Hr Hl. destruct (unpack_request_ends s W Hr Hl) as (v & m & E & Hm & _). by exists v, m. Qed.

End Safety.
