(* ===== verification/TransactionProtocolSpec.v ===== *)
(** * What the transaction messages promise

    The properties of src/transaction_protocol.c: round trips, the safety of
    the receiver on every packet that respects two limits, and what happens
    beyond these limits. *)
From S2P Require Import Prelude Bitstream Wire Fields Net Protocol TransactionProtocol.

Section Properties.
Context `{Host}.

(** The packet of a response, as [transactionResponse] builds it and
    [transactionDidReceiveResponse] takes it apart. *)
Definition response_pack (transactionId responseType : Z) : io unit :=
  transactionProtocolPackHeader transactionId TransactionTypeResponse ;;
  transactionProtocolPackResponse responseType.

Definition response_unpack (out : Z * Z) : io (UnpackResult * (Z * Z) * Z) :=
  let* '(r, hdr) := transactionProtocolUnpackHeader out in
  let* '(_, responseType) := transactionProtocolUnpackResponse in
  ret (r, hdr, responseType).

Lemma unpack_transaction_header_accepts out s : bs_wf s -> 5 <= room s ->
  exists r hdr m, transactionProtocolUnpackHeader out s = Done ((r, hdr), skip s m) /\
    0 <= m <= 5 /\ (r = UnpackValid -> m = 5 /\ uint_ok 1 hdr.1 /\ uint_ok 1 hdr.2).
Proof.
  intros W Hr. unfold transactionProtocolUnpackHeader.
  destruct (unpack_header_accepts kProtocolDefaultId kProtocolDefaultVersion
    ProtocolTypeTransaction s W ltac:(lia)) as (r & m & E & Hm & Hv).
  rewrite (bind_done _ _ _ _ _ E).
  case_decide as D; [eexists _, _, m; split; [reflexivity|]; split; [lia|done]|].
  assert (Er : r = UnpackValid) by (by destruct (decide (r = UnpackValid))). rewrite (Hv Er).
  assert (R : reads 2 (i <- bitstream_read_uint8 ;; t <- bitstream_read_uint8 ;;
    ret (UnpackValid, (i, t))) (fun p => uint_ok 1 p.2.1 /\ uint_ok 1 p.2.2)).
  { apply (reads_bind 1 1 _ _ (uint_ok 1)); [apply u8_reads|intros i Hi|lia].
    apply (reads_bind 1 0 _ _ (uint_ok 1)); [apply u8_reads|intros t Ht|lia].
    by apply reads_ret. }
  destruct (proj2 R (skip s 3)) as ([r' hdr] & E' & Hh);
    [apply skip_wf; [done|lia]|rewrite room_skip; lia|].
  rewrite E', skip_skip. eexists _, _, 5. split; [reflexivity|]. split; [lia|done].
Qed.

(** C11: a request object is read back exactly as it was packed by a
    little-endian host, into the zeroed block the receiver allocates, when it
    is [object_ok] - strings terminated within their array and zero after the
    terminator, resource data zero after its length, addresses of the family
    AF_INET, an expiry of 32 bits, no object other than TransactionEmpty
    without members - and has at most three peers in a peer list. *)
Theorem request_roundtrip o s :
  host = LittleEndian -> object_ok o -> receivable o ->
  bs_wf s -> zlen (enc_request o) <= room s ->
  exists s', transactionProtocolPackRequest o s = Done (tt, s') /\ extends s s' /\
    transactionProtocolUnpackRequest (set_offset s' (bs_offset s)) =
      Done ((UnpackValid, o), s').
Proof.
  intros HL Ho Hrec. apply emits_parses; [by apply pack_body_emits|].
  by apply unpack_request_parses.
Qed.

(** C40: a peer list of more than three peers, which the sender packs without
    complaint, makes the receiver write past the end of its block. *)
Theorem peer_list_overflow o s :
  host = LittleEndian -> object_ok (ObjPeerList o) -> 3 < pl_count o ->
  bs_wf s -> zlen (enc_request (ObjPeerList o)) <= room s ->
  exists s', transactionProtocolPackRequest (ObjPeerList o) s = Done (tt, s') /\
    transactionProtocolUnpackRequest (set_offset s' (bs_offset s)) = Fault OutOfBounds.
Proof.
  intros HL Ho Hc W Hr. destruct (pack_body_emits _ Ho) as [By E].
  eexists. split; [by apply E|].
  destruct (append_after s _ W Hr By) as (W' & A' & R').
  apply (unpack_request_faults HL _ Ho); [cbn; lia|done|by rewrite R'|done].
Qed.

(** a resource of more than 128 bytes, which the length byte allows,
    makes the receiver write past the end of the resource's data. *)
Theorem resource_overflow rid uid length s :
  uint_ok 8 rid -> uint_ok 8 uid -> 128 < length < 256 -> bs_wf s ->
  ahead s (enc_int U8 TransactionResourceCreate ++ enc_int U64 rid ++ enc_int U64 uid ++
           enc_int U8 length) ->
  18 + length <= room s ->
  transactionProtocolUnpackRequest s = Fault OutOfBounds.
Proof.
  intros Hr Hu Hl W Ha Hroom.
  set (hdr := enc_int U8 TransactionResourceCreate ++ enc_int U64 rid ++ enc_int U64 uid ++
              enc_int U8 length) in *.
  assert (Hz : zlen hdr = 18) by (unfold hdr; rewrite !zlen_app, !zlen_enc_int; done).
  assert (P : parses (bitstream_read_uint8 ;; bitstream_read_uint64 ;;
    bitstream_read_uint64 ;; bitstream_read_uint8) hdr length).
  { unfold hdr. eapply parses_bind; [by apply u8_parses|].
    do 2 (eapply parses_bind; [auto with wire|]). apply u8_parses. unfold uint_ok. lia. }
  destruct (ahead_split _ _ _ W Ha) as [A1 A2].
  pose proof (u8_parses TransactionResourceCreate ltac:(by split) s W
    ltac:(rewrite zlen_enc_int; cbn; lia) A1) as E1.
  unfold transactionProtocolUnpackRequest. rewrite (bind_done _ _ _ _ _ E1). cbv zeta.
  repeat (rewrite (proj2 (Z.eqb_neq _ _)) by done). rewrite Z.eqb_refl.
  specialize (P s W ltac:(lia) Ha). rewrite (bind_done _ _ _ _ _ E1) in P.
  apply bind_fault. unfold transactionProtocolUnpackObjectResourceCreate.
  unfold bind in P |- *.
  destruct (bitstream_read_uint64 _) as [[rid' s1]|f]; [|discriminate P].
  destruct (bitstream_read_uint64 s1) as [[uid' s2]|f]; [|discriminate P].
  rewrite P, Hz. cbn [rc_data].
  rewrite read_bytes_overflow; [done|apply skip_wf; [done|lia]|].
  rewrite room_skip. change kUniversalResourceDataMaxLength with 128.
  rewrite zlen_zeros by lia. lia.
Qed.

(** C38: whatever 256 bytes arrive, the receiver of a request reads inside the
    packet and writes inside its block, provided the packet respects
    [request_limits], the two limits the code does not check; and what the
    application gets has the types of the members: every integer is in the
    range of its width, every array has its length and holds bytes, a length
    or a count is within its array. *)
Theorem transaction_receive_safe p out :
  packet_wf p ->
  exists r hdr s, transactionProtocolUnpackHeader out (pk_bitstream (net_packet_init p)) =
      Done ((r, hdr), s) /\
    (r = UnpackValid -> request_limits s = true ->
     exists v s', transactionProtocolUnpackRequest s = Done (v, s') /\
       bs_offset s' <= kNetPacketMaxLen /\ typed_object (snd v)).
Proof.
  intros Hp. set (s := pk_bitstream (net_packet_init p)).
  assert (W : bs_wf s) by (by apply packet_init_wf).
  assert (R : room s = 256) by apply packet_init_room.
  destruct (unpack_transaction_header_accepts out s W ltac:(lia)) as (r & hdr & m & E & Hm & Hv).
  exists r, hdr, (skip s m). split; [done|]. intros Hr Hlim.
  assert (W' : bs_wf (skip s m)) by (apply skip_wf; [done|lia]).
  destruct (unpack_request_ends (skip s m) W') as (v & n & E' & Hn & Ht);
    [rewrite room_skip; specialize (Hv Hr); lia|done|].
  exists v, (skip (skip s m) n). split; [done|]. split; [|done]. rewrite room_skip, R in Hn.
  unfold skip, set_offset, kNetPacketMaxLen. cbn [bs_offset].
  change (bs_offset s) with 0. lia.
Qed.

(** unpacking keeps the result of the last attribute only: a request whose
    first address has a bad attribute type is valid, with that address left
    as it was. *)
Theorem online_errors_discarded uid t m x o :
  uint_ok 8 uid -> uint_ok 1 t -> t <> TransactionAttributeTypeAddress -> addr_wf m ->
  uint_ok 4 x ->
  parses (transactionProtocolUnpackObjectOnline o)
    (enc_int U64 uid ++ enc_int U8 t ++ enc_attr_address m ++ enc_attr_seconds x)
    (UnpackValid, mkOnline uid (on_localAddress o) m x).
Proof.
  intros Hu Ht Hn Hm Hx. unfold transactionProtocolUnpackObjectOnline.
  eapply parses_bind; [auto with wire|]. eapply (parses_bind _ _ (enc_int U8 t)).
  { unfold transactionProtocolUnpackAttributeAddress. rewrite <- (app_nil_r (enc_int U8 t)).
    eapply parses_bind; [auto with wire|]. rewrite (proj2 (Z.eqb_neq _ _)) by done.
    apply parses_ret. }
  cbn beta iota. eapply parses_bind; [auto with wire|].
  rewrite <- (app_nil_r (enc_attr_seconds x)).
  eapply parses_bind; [auto with wire|]. apply parses_ret.
Qed.

(** a response reaches the other host, of either byte order, with its
    transaction and its type. *)
Theorem response_roundtrip out i t s :
  uint_ok 1 i -> uint_ok 1 t -> bs_wf s -> 6 <= room s ->
  exists s', response_pack i t s = Done (tt, s') /\ bs_offset s' = bs_offset s + 6 /\
    response_unpack out (set_offset s' (bs_offset s)) =
      Done (UnpackValid, (i, TransactionTypeResponse), t, s').
Proof.
  intros Hi Ht W Hr.
  set (bs := enc_transaction_header i TransactionTypeResponse ++ enc_int U8 t).
  assert (Hz : zlen bs = 6).
  { unfold bs, enc_transaction_header. rewrite !zlen_app, zlen_enc_header, !zlen_enc_int. done. }
  assert (E : emits (response_pack i t) bs tt).
  { unfold response_pack, transactionProtocolPackResponse, bs. emit. }
  assert (P : parses (response_unpack out) bs (UnpackValid, (i, TransactionTypeResponse), t)).
  { unfold response_unpack, bs. eapply parses_bind; [by apply unpack_transaction_header_parses|].
    cbn beta iota. rewrite <- (app_nil_r (enc_int U8 t)). eapply parses_bind.
    - unfold transactionProtocolUnpackResponse. rewrite <- (app_nil_r (enc_int U8 t)).
      eapply parses_bind; auto with wire.
    - apply parses_ret. }
  destruct E as [By E]. exists (append s bs).
  destruct (append_after s bs W ltac:(lia) By) as (W' & A' & R').
  split; [apply E; auto; lia|]. split; [simpl; lia|].
  rewrite P; [done|done|lia|done].
Qed.

End Properties.

(** ** Concrete instances *)

Definition blankStream : bitstream_t := bitstream_create (zeros 256) 256.

Lemma blankStream_wf : bs_wf blankStream.
Proof. apply bs_wfb_wf. reflexivity. Defined.

Definition demoAddr : net_addr_t := mkAddr AF_INET 8080 16777343.

Lemma demoAddr_wf : addr_wf demoAddr.
Proof. split; by split || done. Defined.

Definition demoPeer : TransactionObjectPeer := mkPeer (112 :: 49 :: zeros 30) demoAddr demoAddr.

Lemma demoPeer_ok : peer_ok demoPeer.
Proof.
  split; [|split; exact demoAddr_wf]. split; [|split; [reflexivity|reflexivity]].
  repeat constructor; discriminate || (cbn; lia).
Defined.

Definition demoPeers (n : nat) : TransactionObjectPeerList :=
  mkPeerList (Z.of_nat n) (replicate n demoPeer ++ replicate (10 - n) blankPeer).

Lemma demoPeers_ok n : (n <= 10)%nat -> object_ok (ObjPeerList (demoPeers n)).
Proof.
  intros Hn. exists (replicate n demoPeer). rewrite length_replicate.
  split; [apply Forall_replicate, demoPeer_ok|]. split; [done|].
  split; [|done]. unfold zlen. by rewrite length_replicate.
Defined.

Lemma request_roundtrip_witness :
  let o := ObjPeerList (demoPeers 3) in
  exists s', transactionProtocolPackRequest (H := LittleEndian) o blankStream = Done (tt, s') /\
    extends blankStream s' /\
    transactionProtocolUnpackRequest (H := LittleEndian) (set_offset s' 0) =
      Done ((UnpackValid, o), s').
Proof.
  apply (request_roundtrip (H := LittleEndian) (ObjPeerList (demoPeers 3)) blankStream);
    [reflexivity|apply demoPeers_ok; lia|discriminate|exact blankStream_wf|].
  vm_compute. discriminate.
Defined.

Lemma peer_list_overflow_witness :
  exists s', transactionProtocolPackRequest (H := LittleEndian)
      (ObjPeerList (demoPeers 4)) blankStream = Done (tt, s') /\
    transactionProtocolUnpackRequest (H := LittleEndian) (set_offset s' 0) = Fault OutOfBounds.
Proof.
  apply (peer_list_overflow (H := LittleEndian) (demoPeers 4) blankStream);
    [reflexivity|apply (demoPeers_ok 4); lia|reflexivity|exact blankStream_wf|].
  vm_compute. discriminate.
Defined.

Definition resourceStream : bitstream_t :=
  bitstream_create (0x70 :: zeros 16 ++ 200 :: zeros 220) 238.

Lemma resource_overflow_witness :
  transactionProtocolUnpackRequest (H := BigEndian) resourceStream = Fault OutOfBounds.
Proof.
  apply (resource_overflow (H := BigEndian) 0 0 200);
    [by split|by split|by split|apply bs_wfb_wf; reflexivity| |discriminate].
  exists (zeros 220). reflexivity.
Defined.

(** A packet that holds a request: its header, then a list of three peers. *)
Definition demoRequest : io unit :=
  transactionProtocolPackHeader 4 TransactionTypeRequest ;;
  transactionProtocolPackRequest (H := LittleEndian) (ObjPeerList (demoPeers 3)).

Definition requestPacket : net_packet_s :=
  match demoRequest (pk_bitstream (net_packet_init blankPacket)) with
  | Done (_, s) => mkPacket demoAddr (bs_offset s) s
  | Fault _ => blankPacket
  end.

(** Where the receiver stands once it has read the header. *)
Definition requestBody : bitstream_t :=
  skip (pk_bitstream (net_packet_init requestPacket)) 5.

(** The header of this packet is valid, the limits are respected, and the
    request that is unpacked is the list of three peers. *)
Lemma transaction_receive_safe_witness :
  transactionProtocolUnpackHeader (0, 0) (pk_bitstream (net_packet_init requestPacket)) =
    Done ((UnpackValid, (4, TransactionTypeRequest)), requestBody) /\
  request_limits (H := LittleEndian) requestBody = true /\
  exists s', transactionProtocolUnpackRequest (H := LittleEndian) requestBody =
      Done ((UnpackValid, ObjPeerList (demoPeers 3)), s') /\
    bs_offset s' <= kNetPacketMaxLen /\ typed_object (ObjPeerList (demoPeers 3)).
Proof.
  assert (W : packet_wf requestPacket) by (split; [reflexivity|apply forallb_bytes; reflexivity]).
  assert (Eh : transactionProtocolUnpackHeader (0, 0) (pk_bitstream (net_packet_init requestPacket)) =
    Done ((UnpackValid, (4, TransactionTypeRequest)), requestBody)) by (vm_compute; reflexivity).
  assert (L : request_limits (H := LittleEndian) requestBody = true) by (vm_compute; reflexivity).
  assert (U : match transactionProtocolUnpackRequest (H := LittleEndian) requestBody with
    | Done (v, _) => Some v | Fault _ => None end = Some (UnpackValid, ObjPeerList (demoPeers 3)))
    by (vm_compute; reflexivity).
  split; [exact Eh|]. split; [exact L|].
  destruct (transaction_receive_safe (H := LittleEndian) requestPacket (0, 0) W) as (r & hdr & s & E & F).
  rewrite Eh in E. injection E as <- _ <-. destruct (F eq_refl L) as (v & s' & E' & B & T).
  rewrite E' in U. injection U as ->. exists s'. split; [exact E'|]. split; [exact B|exact T].
Defined.

Lemma online_errors_discarded_witness :
  parses (transactionProtocolUnpackObjectOnline (H := LittleEndian)
      (mkOnline 0 zeroAddr zeroAddr 0))
    (enc_int (H := LittleEndian) U64 9 ++ enc_int (H := LittleEndian) U8 0 ++
     enc_attr_address (H := LittleEndian) demoAddr ++ enc_attr_seconds (H := LittleEndian) 60)
    (UnpackValid, mkOnline 9 zeroAddr demoAddr 60).
Proof.
  apply (online_errors_discarded (H := LittleEndian) 9 0 demoAddr 60);
    [by split|by split|discriminate|exact demoAddr_wf|by split].
Defined.

Lemma response_roundtrip_witness :
  exists s', response_pack 4 2 blankStream = Done (tt, s') /\
    bs_offset s' = 6 /\
    response_unpack (0, 0) (set_offset s' 0) =
      Done (UnpackValid, (4, TransactionTypeResponse), 2, s').
Proof.
  apply (response_roundtrip (H := LittleEndian) (0, 0) 4 2 blankStream);
    [by split|by split|exact blankStream_wf|discriminate].
Defined.
