(* ===== verification/Queue.v ===== *)
(** * The object queue (src/queue.[ch])

    A singly linked list of enqueued nodes and a free list of reserved ones,
    in a heap of nodes indexed by address.  Pointers are integers, NULL is
    zero; what [malloc] returns is a function of the heap.  The queue refines
    a list of objects, first in first out. *)
From S2P Require Import Prelude Machine.

Record queue_node_s := mkQueueNode {
  qn_object : Z;
  qn_next : Z;
}.

Record queue_s := mkQueue {
  q_heap : gmap Z queue_node_s;   (* the nodes that are allocated *)
  q_head : Z;
  q_tail : Z;
  q_reserved : Z;
}.

Definition NULL : Z := 0.

Definition set_head (p : Z) (q : queue_s) : queue_s :=
  mkQueue (q_heap q) p (q_tail q) (q_reserved q).
Definition set_tail (p : Z) (q : queue_s) : queue_s :=
  mkQueue (q_heap q) (q_head q) p (q_reserved q).
Definition set_reserved (p : Z) (q : queue_s) : queue_s :=
  mkQueue (q_heap q) (q_head q) (q_tail q) p.
Definition set_heap (h : gmap Z queue_node_s) (q : queue_s) : queue_s :=
  mkQueue h (q_head q) (q_tail q) (q_reserved q).

(** ** Memory *)

Definition node_at (h : gmap Z queue_node_s) (p : Z) : outcome queue_node_s :=
  if decide (p = NULL) then Fault NullPointer
  else match h !! p with Some n => Done n | None => Fault OutOfBounds end.

Definition read_node (p : Z) : prog queue_s queue_node_s := fun q =>
  n <-! node_at (q_heap q) p ;; Done (n, q).

Definition write_node (p : Z) (n : queue_node_s) : prog queue_s unit := fun q =>
  _ <-! node_at (q_heap q) p ;; Done (tt, set_heap (<[p := n]> (q_heap q)) q).

(** Freeing a block that is not allocated (any more) is a fault. *)
Definition free_node (p : Z) : prog queue_s unit := fun q =>
  _ <-! node_at (q_heap q) p ;; Done (tt, set_heap (delete p (q_heap q)) q).

Definition queue_create : queue_s := mkQueue ∅ NULL NULL NULL.

Section Operations.
(** The address of a new block and what it holds, or [None] without memory. *)
Context (malloc : gmap Z queue_node_s -> option (Z * queue_node_s)).

Definition malloc_node : prog queue_s Z := fun q =>
  match malloc (q_heap q) with
  | Some (p, junk) => Done (p, set_heap (<[p := junk]> (q_heap q)) q)
  | None => Done (NULL, q)
  end.

Definition queue_is_empty (q : queue_s) : bool :=
  (q_head q =? NULL) && (q_tail q =? NULL).

Definition queue_push (o : Z) : prog queue_s unit :=
  q <- get ;;
  push_queue_node <-
    (if negb (q_reserved q =? NULL) then
       n <- read_node (q_reserved q) ;;
       modify (set_reserved (qn_next n)) ;;
       ret (q_reserved q)
     else malloc_node) ;;
  if negb (push_queue_node =? NULL) then
    write_node push_queue_node (mkQueueNode o NULL) ;;
    q <- get ;;
    (if (q_head q =? NULL) && (q_tail q =? NULL) then modify (set_head push_queue_node)
     else
       t <- read_node (q_tail q) ;;
       write_node (q_tail q) (mkQueueNode (qn_object t) push_queue_node)) ;;
    modify (set_tail push_queue_node)
  else ret tt.

Definition queue_pop : prog queue_s Z :=
  q <- get ;;
  if negb ((q_head q =? NULL) && (q_tail q =? NULL)) then
    let pop_queue_node := q_head q in
    n <- read_node pop_queue_node ;;
    let pop_queue_object := qn_object n in
    (if q_head q =? q_tail q then
       modify (set_head NULL) ;; modify (set_tail NULL)
     else
       n' <- read_node (q_head q) ;;
       modify (set_head (qn_next n'))) ;;
    n'' <- read_node pop_queue_node ;;
    q' <- get ;;
    write_node pop_queue_node (mkQueueNode (qn_object n'') (q_reserved q')) ;;
    modify (set_reserved pop_queue_node) ;;
    ret pop_queue_object
  else ret NULL.

(** [while(iter != NULL) { iter = iter->next; ++count; }]; [n] bounds the
    iterations, [size] of the heap is enough. *)
Fixpoint count_from (n : nat) (h : gmap Z queue_node_s) (iter count : Z) : option Z :=
  if iter =? NULL then Some count
  else match n with
  | O => None
  | S n' =>
      match node_at h iter with
      | Done node => count_from n' h (qn_next node) (count + 1)
      | Fault _ => None
      end
  end.

Definition debug_queue_enqueued_count (q : queue_s) : option Z :=
  count_from (size (q_heap q)) (q_heap q) (q_head q) 0.
Definition debug_queue_reserved_count (q : queue_s) : option Z :=
  count_from (size (q_heap q)) (q_heap q) (q_reserved q) 0.

(** [while(iter != NULL) { tmp = iter; iter = iter->next; free(tmp); }]; the
    result says whether [n] iterations were enough. *)
Fixpoint free_from (n : nat) (iter : Z) : prog queue_s bool :=
  if iter =? NULL then ret true
  else match n with
  | O => ret false
  | S n' =>
      node <- read_node iter ;;
      free_node iter ;;
      free_from n' (qn_next node)
  end.

Definition queue_destroy : prog queue_s bool :=
  q <- get ;;
  a <- free_from (size (q_heap q)) (q_head q) ;;
  b <- free_from (size (q_heap q)) (q_reserved q) ;;
  ret (a && b).

End Operations.

(** ** The abstraction *)

(** From [p] the heap links the cells [l] (addresses and objects), to NULL. *)
Fixpoint chain (h : gmap Z queue_node_s) (p : Z) (l : list (Z * Z)) : Prop :=
  match l with
  | [] => p = NULL
  | (a, o) :: l' =>
      p = a /\ a <> NULL /\ exists next, h !! a = Some (mkQueueNode o next) /\ chain h next l'
  end.

Definition last_addr (l : list (Z * Z)) : Z := default NULL (last l.*1).

(** The cells of a queue: the enqueued ones, the reserved ones, and no
    other. *)
Record cells (q : queue_s) (enq res : list (Z * Z)) : Prop := {
  cells_head : chain (q_heap q) (q_head q) enq;
  cells_tail : q_tail q = last_addr enq;
  cells_reserved : chain (q_heap q) (q_reserved q) res;
  cells_nodup : NoDup (enq.*1 ++ res.*1);
  cells_dom : forall a, is_Some (q_heap q !! a) -> a ∈ enq.*1 ++ res.*1;
}.

Definition queue_holds (q : queue_s) (objects : list Z) : Prop :=
  exists enq res, cells q enq res /\ enq.*2 = objects.

(** What the C library promises of [malloc]: a new address. *)
Definition malloc_fresh (malloc : gmap Z queue_node_s -> option (Z * queue_node_s)) : Prop :=
  forall h p n, malloc h = Some (p, n) -> p <> NULL /\ h !! p = None.

(** ** Lemmas on chains *)

Lemma chain_lookup h p l a : chain h p l -> a ∈ l.*1 -> is_Some (h !! a) /\ a <> NULL.
Proof.
  revert p. induction l as [|[b o] l IH]; intros p Hc Ha; [by apply not_elem_of_nil in Ha|].
  destruct Hc as (-> & Hn & next & Hb & Hc). apply elem_of_cons in Ha as [->|Ha].
  - split; [by eexists|done].
  - by apply (IH next).
Qed.

Lemma chain_insert h p l a n : a ∉ l.*1 -> chain h p l -> chain (<[a := n]> h) p l.
Proof.
  revert p. induction l as [|[b o] l IH]; intros p Ha Hc; [done|].
  apply not_elem_of_cons in Ha as [Hab Ha]. destruct Hc as (-> & Hn & next & Hb & Hc).
  split; [done|]. split; [done|]. exists next. rewrite lookup_insert_ne by done. auto.
Qed.

Lemma chain_delete h p l a : a ∉ l.*1 -> chain h p l -> chain (delete a h) p l.
Proof.
  revert p. induction l as [|[b o] l IH]; intros p Ha Hc; [done|].
  apply not_elem_of_cons in Ha as [Hab Ha]. destruct Hc as (-> & Hn & next & Hb & Hc).
  split; [done|]. split; [done|]. exists next. rewrite lookup_delete_ne by done. auto.
Qed.

Lemma chain_head h p l : chain h p l -> p = default NULL (head l.*1).
Proof. destruct l as [|[a o] l]; [done|]. by intros (-> & _). Qed.

Lemma chain_null h p l : chain h p l -> p = NULL -> l = [].
Proof. destruct l as [|[a o] l]; [done|]. by intros (-> & Hn & _). Qed.

(** Hanging a new cell behind the last one. *)
Lemma chain_snoc h p l t ot a o :
  chain h p (l ++ [(t, ot)]) -> NoDup (l ++ [(t, ot)]).*1 -> a ∉ (l ++ [(t, ot)]).*1 ->
  a <> NULL -> h !! a = Some (mkQueueNode o NULL) ->
  chain (<[t := mkQueueNode ot a]> h) p (l ++ [(t, ot); (a, o)]).
Proof.
  revert p. induction l as [|[b ob] l IH]; intros p Hc Hd Ha Hn Hh.
  - destruct Hc as (-> & Ht & next & _ & _). simpl in Ha.
    rewrite list_elem_of_singleton in Ha. split; [done|]. split; [done|].
    exists a. rewrite lookup_insert_eq. split; [done|]. split; [done|]. split; [done|].
    exists NULL. by rewrite lookup_insert_ne by congruence.
  - destruct Hc as (-> & Hb & next & Hbh & Hc). simpl in Hd, Ha.
    apply NoDup_cons in Hd as [Hb' Hd]. apply not_elem_of_cons in Ha as [Hab Ha].
    split; [done|]. split; [done|]. exists next.
    rewrite lookup_insert_ne; [auto|]. intros <-. apply Hb'. rewrite fmap_app. set_solver.
Qed.

Lemma chain_last h p l t o : chain h p (l ++ [(t, o)]) ->
  t <> NULL /\ h !! t = Some (mkQueueNode o NULL).
Proof.
  revert p. induction l as [|[b ob] l IH]; intros p Hc.
  - by destruct Hc as (-> & Ht & next & E & ->).
  - destruct Hc as (_ & _ & next & _ & Hc). by apply (IH next).
Qed.

Lemma last_addr_snoc l a o : last_addr (l ++ [(a, o)]) = a.
Proof. unfold last_addr. rewrite fmap_app. cbn [fmap list_fmap fst]. by rewrite last_snoc. Qed.

Lemma node_at_done h p n : p <> NULL -> h !! p = Some n -> node_at h p = Done n.
Proof. intros Hp E. unfold node_at. rewrite decide_False by done. by rewrite E. Qed.

Lemma last_addr_null h p l : chain h p l -> last_addr l = NULL -> l = [].
Proof.
  intros Hc Hl. destruct l as [|[t o] l _] using rev_ind; [done|]. rewrite last_addr_snoc in Hl.
  destruct (chain_lookup h p (l ++ [(t, o)]) t Hc) as [_ Hn]; [|done].
  rewrite fmap_app. set_solver.
Qed.

(** [head == NULL && tail == NULL] is emptiness. *)
Lemma cells_empty q enq res : cells q enq res ->
  queue_is_empty q = bool_decide (enq = []).
Proof.
  intros [Hh Ht _ _ _]. unfold queue_is_empty. destruct enq as [|[a o] enq].
  - rewrite bool_decide_true by done. by rewrite (chain_head _ _ _ Hh), Ht.
  - rewrite bool_decide_false by done. destruct Hh as (-> & Hn & _).
    by rewrite (proj2 (Z.eqb_neq _ _)).
Qed.

Lemma read_node_done p n q : p <> NULL -> q_heap q !! p = Some n -> read_node p q = Done (n, q).
Proof. intros Hp E. unfold read_node. by rewrite (node_at_done _ _ n). Qed.

Lemma write_node_done p n m q : p <> NULL -> q_heap q !! p = Some m ->
  write_node p n q = Done (tt, set_heap (<[p := n]> (q_heap q)) q).
Proof. intros Hp E. unfold write_node. by rewrite (node_at_done _ _ m). Qed.

(** A node set aside for [o]: linking it appends it. *)
Definition link_node (p o : Z) : prog queue_s unit :=
  write_node p (mkQueueNode o NULL) ;;
  q <- get ;;
  (if (q_head q =? NULL) && (q_tail q =? NULL) then modify (set_head p)
   else
     t <- read_node (q_tail q) ;;
     write_node (q_tail q) (mkQueueNode (qn_object t) p)) ;;
  modify (set_tail p).

Lemma link_node_spec q enq res p o :
  cells (set_heap (delete p (q_heap q)) q) enq res ->
  is_Some (q_heap q !! p) -> p <> NULL -> p ∉ enq.*1 ++ res.*1 ->
  exists q', link_node p o q = Done (tt, q') /\ cells q' (enq ++ [(p, o)]) res /\
    dom (q_heap q') = dom (q_heap q).
Proof.
  intros [Hh Ht Hr Hd Hdom] [m Hm] Hp Hpn. cbn [set_heap q_heap q_head q_tail q_reserved] in *.
  set (h1 := <[p := mkQueueNode o NULL]> (q_heap q)).
  assert (Eh : h1 = <[p := mkQueueNode o NULL]> (delete p (q_heap q))).
  { unfold h1. by rewrite insert_delete_eq. }
  rewrite not_elem_of_app in Hpn. destruct Hpn as [Hpe Hpr].
  assert (Hh1 : chain h1 (q_head q) enq) by (rewrite Eh; by apply chain_insert).
  assert (Hr1 : chain h1 (q_reserved q) res) by (rewrite Eh; by apply chain_insert).
  assert (Hdom1 : forall a, is_Some (h1 !! a) -> a ∈ (enq ++ [(p, o)]).*1 ++ res.*1).
  { intros a Ha. rewrite Eh in Ha. destruct (decide (a = p)) as [->|Hn].
    - rewrite fmap_app. set_solver.
    - rewrite lookup_insert_ne in Ha by done. specialize (Hdom a Ha). rewrite fmap_app. set_solver. }
  assert (Hd1 : NoDup ((enq ++ [(p, o)]).*1 ++ res.*1)).
  { rewrite fmap_app, <- app_assoc, (Permutation_app_comm [(p, o)].*1), app_assoc.
    apply NoDup_app. split; [done|]. split; [|apply NoDup_singleton].
    intros x Hx. simpl. rewrite list_elem_of_singleton. intros ->. set_solver. }
  unfold link_node. rewrite (bind_done _ _ _ _ _ (write_node_done p _ m q Hp Hm)). fold h1.
  unfold bind at 1, get. cbn [set_heap q_head q_tail].
  destruct enq as [|[t ot] enq _] using rev_ind.
  - rewrite (chain_head _ _ _ Hh), Ht. cbn. eexists. split; [reflexivity|]. split; [|by apply dom_insert_lookup_L; eexists].
    split; cbn; [|done|done|done|done]. split; [done|]. split; [done|].
    exists NULL. by rewrite Eh, lookup_insert_eq.
  - rewrite last_addr_snoc in Ht.
    destruct (chain_last _ _ _ _ _ Hh1) as [Htn Hn].
    rewrite Ht, (proj2 (Z.eqb_neq t NULL)), andb_false_r by done.
    set (q1 := set_heap h1 q).
    unfold bind, read_node. cbn [q1 set_heap q_heap]. rewrite (node_at_done h1 t _ Htn Hn). cbn [obind].
    unfold write_node. cbn [q1 set_heap q_heap]. rewrite (node_at_done h1 t _ Htn Hn). cbn [obind].
    eexists. split; [reflexivity|].
    assert (Htp : t <> p) by (intros ->; apply Hpe; rewrite fmap_app; set_solver).
    split.
    + cbn. split; cbn.
      * rewrite <- app_assoc. apply chain_snoc; [done| |done|done|].
        -- by apply NoDup_app in Hd as [Hd _].
        -- unfold h1. by rewrite lookup_insert_eq.
      * by rewrite last_addr_snoc.
      * apply chain_insert; [|done]. apply NoDup_app in Hd as (_ & Hd & _).
        apply Hd. rewrite fmap_app. set_solver.
      * done.
      * intros a Ha. apply Hdom1. destruct (decide (a = t)) as [->|Hn']; [by eexists|].
        by rewrite lookup_insert_ne in Ha.
    + cbn. rewrite dom_insert_lookup_L by (by eexists). apply dom_insert_lookup_L. by eexists.
Qed.

Section Specs.
Context (malloc : gmap Z queue_node_s -> option (Z * queue_node_s)).
Context (Hmalloc : malloc_fresh malloc).

(** A push takes the first reserved node, else a new one; without memory the
    queue stays as it is. *)
Lemma queue_push_spec o q enq res : cells q enq res ->
  exists q', queue_push malloc o q = Done (tt, q') /\
    match res with
    | (r, _) :: res' => cells q' (enq ++ [(r, o)]) res'
    | [] =>
        match malloc (q_heap q) with
        | Some (p, _) => cells q' (enq ++ [(p, o)]) []
        | None => q' = q
        end
    end.
Proof.
  intros C. pose proof C as [Hh Ht Hr Hd Hdom]. unfold queue_push. rewrite bind_get.
  destruct res as [|[r ro] res].
  - rewrite (chain_head _ _ _ Hr). cbn [fmap list_fmap head default].
    rewrite Z.eqb_refl. cbn [negb]. unfold bind at 1, malloc_node.
    destruct (malloc (q_heap q)) as [[p junk]|] eqn:Em; [|by eexists].
    destruct (Hmalloc _ _ _ Em) as [Hp Hfresh].
    rewrite (proj2 (Z.eqb_neq p NULL)) by done. cbn [negb].
    destruct (link_node_spec (set_heap (<[p := junk]> (q_heap q)) q) enq [] p o)
      as (q' & E & C' & _).
    + cbn. rewrite delete_insert_id by done. by destruct q.
    + cbn. rewrite lookup_insert_eq. by eexists.
    + done.
    + intros Hin. rewrite app_nil_r in Hin.
      destruct (chain_lookup _ _ _ p Hh Hin) as [[? ?] _]. congruence.
    + exists q'. split; [exact E|done].
  - destruct Hr as (Er & Hr0 & next & Hrh & Hr).
    rewrite Er, (proj2 (Z.eqb_neq r NULL)) by done. cbn [negb].
    rewrite bind_assoc, (bind_done _ _ _ _ _ (read_node_done r _ q Hr0 Hrh)).
    rewrite bind_assoc, bind_modify, bind_ret_l. cbn [qn_next].
    rewrite (proj2 (Z.eqb_neq r NULL)) by done. cbn [negb].
    assert (Hrin : r ∉ enq.*1 ++ res.*1).
    { cbn in Hd. rewrite <- Permutation_middle in Hd. by apply NoDup_cons in Hd as []. }
    pose proof Hrin as Hrin'. rewrite not_elem_of_app in Hrin'. destruct Hrin' as [Hre Hrr].
    destruct (link_node_spec (set_reserved next q) enq res r o) as (q' & E & C' & _).
    + split; cbn; [by apply chain_delete|done|by apply chain_delete| |].
      * cbn in Hd. rewrite <- Permutation_middle in Hd. by apply NoDup_cons in Hd as [].
      * intros a [n Ha]. apply lookup_delete_Some in Ha as [Hra Ha].
        specialize (Hdom a ltac:(by eexists)). cbn in Hdom. set_solver.
    + by eexists.
    + done.
    + done.
    + exists q'. split; [exact E|done].
Qed.

End Specs.

(** A pop takes the oldest object and keeps its node in reserve. *)
Lemma queue_pop_spec q enq res : cells q enq res ->
  match enq with
  | [] => queue_pop q = Done (NULL, q)
  | (a, o) :: enq' =>
      exists q', queue_pop q = Done (o, q') /\ cells q' enq' ((a, o) :: res) /\
        dom (q_heap q') = dom (q_heap q)
  end.
Proof.
  intros C. pose proof C as [Hh Ht Hr Hd Hdom]. pose proof (cells_empty _ _ _ C) as He.
  unfold queue_is_empty in He. unfold queue_pop. rewrite bind_get, He.
  destruct enq as [|[a o] enq]; [done|]. rewrite bool_decide_false by done. cbn [negb].
  destruct Hh as (Ea & Ha & next & Hah & Hh). rewrite Ea.
  rewrite (bind_done _ _ _ _ _ (read_node_done a _ q Ha Hah)). cbn [qn_object].
  cbn in Hd. apply NoDup_cons in Hd as [Had Hd]. rewrite not_elem_of_app in Had.
  destruct Had as [Hae Har].
  set (q1 := set_tail (if a =? q_tail q then NULL else q_tail q) (set_head next q)).
  assert (E1 : (if a =? q_tail q then (modify (set_head NULL) ;; modify (set_tail NULL))
     else (n' <- read_node a ;; modify (set_head (qn_next n')))) q = Done (tt, q1)).
  { unfold q1. destruct (Z.eqb_spec a (q_tail q)) as [Et|Et].
    - assert (En : enq = []).
      { destruct enq as [|[b ob] l _] using rev_ind; [done|]. exfalso. apply Hae.
        rewrite Et, Ht, app_comm_cons, last_addr_snoc, fmap_app. set_solver. }
      subst enq. cbn in Hh. subst next. done.
    - rewrite (bind_done _ _ _ _ _ (read_node_done a _ q Ha Hah)). by destruct q. }
  rewrite (bind_done _ _ _ _ _ E1).
  rewrite (bind_done _ _ _ _ _ (read_node_done a (mkQueueNode o next) q1 Ha Hah)).
  rewrite bind_get. cbn [qn_object].
  rewrite (bind_done _ _ _ _ _ (write_node_done a _ _ q1 Ha Hah)).
  eexists. split; [reflexivity|]. split; [|cbn; apply dom_insert_lookup_L; by eexists].
  split; cbn.
  - by apply chain_insert.
  - destruct (Z.eqb_spec a (q_tail q)) as [Et|Et].
    + destruct enq as [|[b ob] l _] using rev_ind; [done|]. exfalso. apply Hae.
      rewrite Et, Ht, app_comm_cons, last_addr_snoc, fmap_app. set_solver.
    + destruct enq as [|[b ob] l _] using rev_ind; [by destruct Et|].
      by rewrite Ht, app_comm_cons, !last_addr_snoc.
  - split; [done|]. split; [done|]. exists (q_reserved q).
    rewrite lookup_insert_eq. split; [done|]. by apply chain_insert.
  - rewrite <- Permutation_middle. apply NoDup_cons. split; [|done].
    rewrite not_elem_of_app. done.
  - intros b Hb. rewrite <- Permutation_middle.
    destruct (decide (b = a)) as [->|Hn]; [set_solver|].
    rewrite lookup_insert_ne in Hb by done. by apply Hdom in Hb.
Qed.

Lemma chain_length h p l : chain h p l -> NoDup l.*1 -> (length l <= size h)%nat.
Proof.
  intros Hc Hd. rewrite <- (length_fmap fst), <- size_dom.
  rewrite <- (size_list_to_set (C := gset Z) l.*1) by done.
  apply subseteq_size. intros a Ha. apply elem_of_dom.
  apply (chain_lookup h p l a Hc). set_solver.
Qed.

Lemma count_from_spec n h p l c : chain h p l -> (length l <= n)%nat ->
  count_from n h p c = Some (c + Z.of_nat (length l)).
Proof.
  revert p l c. induction n as [|n IH]; intros p l c Hc Hn.
  - destruct l; [|simpl in Hn; lia]. cbn in Hc. subst p. cbn. f_equal. lia.
  - destruct l as [|[a o] l]; [cbn in Hc; subst p; cbn; f_equal; lia|].
    destruct Hc as (-> & Ha & next & Hah & Hc). cbn [count_from].
    rewrite (proj2 (Z.eqb_neq a NULL)) by done.
    rewrite (node_at_done h a _ Ha Hah). cbn [qn_next].
    rewrite (IH next l); [|done|simpl in Hn; lia]. cbn [length]. f_equal. lia.
Qed.

(** Freeing a chain removes exactly its cells. *)
Lemma free_from_spec n p l q : chain (q_heap q) p l -> NoDup l.*1 -> (length l <= n)%nat ->
  free_from n p q =
    Done (true, set_heap (filter (fun kv => kv.1 ∉ l.*1) (q_heap q)) q).
Proof.
  revert p l q. induction n as [|n IH]; intros p l q Hc Hd Hn.
  - destruct l; [|simpl in Hn; lia]. cbn in Hc. subst p. cbn. unfold ret.
    rewrite map_filter_id; [by destruct q|]. intros i x _. set_solver.
  - destruct l as [|[a o] l].
    { cbn in Hc. subst p. cbn. unfold ret.
      rewrite map_filter_id; [by destruct q|]. intros i x _. set_solver. }
    destruct Hc as (-> & Ha & next & Hah & Hc). cbn in Hd. apply NoDup_cons in Hd as [Had Hd].
    cbn [free_from]. rewrite (proj2 (Z.eqb_neq a NULL)) by done.
    rewrite (bind_done _ _ _ _ _ (read_node_done a _ q Ha Hah)).
    unfold bind, free_node. rewrite (node_at_done _ a _ Ha Hah). cbn [obind qn_next].
    rewrite (IH next l); [|cbn; by apply chain_delete|done|simpl in Hn; lia].
    do 2 f_equal. cbn. unfold set_heap; cbn. f_equal. apply map_eq. intros i. apply option_eq. intros x.
    rewrite !map_lookup_filter_Some, lookup_delete_Some. cbn. set_solver.
Qed.

(** ** Properties of the queue *)

Inductive queue_op := QPush (o : Z) | QPop.

(** The operations, with the object that is popped, ... *)
Definition queue_step (malloc : gmap Z queue_node_s -> option (Z * queue_node_s)) (op : queue_op) : prog queue_s (option Z) :=
  match op with
  | QPush o => queue_push malloc o ;; ret None
  | QPop => o <- queue_pop ;; ret (Some o)
  end.

(** ... and those of a list that is extended at its end and shortened at its
    front. *)
Definition fifo (op : queue_op) (l : list Z) : option (option Z * list Z) :=
  match op with
  | QPush o => Some (None, l ++ [o])
  | QPop => Some (Some (default NULL (head l)), tail l)
  end.

Lemma fifo_total op l : is_Some (fifo op l).
Proof. destruct op; by eexists. Qed.

Lemma queue_create_holds : queue_holds queue_create [].
Proof.
  exists [], []. split; [|done]. split; try done; [constructor|].
  intros a [x Hx]. cbn in Hx. by rewrite lookup_empty in Hx.
Qed.

Lemma queue_push_holds malloc o q l : malloc_fresh malloc -> (forall h, malloc h <> None) ->
  queue_holds q l -> exists q', queue_push malloc o q = Done (tt, q') /\ queue_holds q' (l ++ [o]).
Proof.
  intros Hf Hm (enq & res & C & <-).
  destruct (queue_push_spec malloc Hf o q enq res C) as (q1 & E & P). exists q1. split; [done|].
  destruct res as [|[r ro] res].
  - specialize (Hm (q_heap q)). destruct (malloc (q_heap q)) as [[p ?]|]; [|done].
    exists (enq ++ [(p, o)]), []. by rewrite fmap_app.
  - exists (enq ++ [(r, o)]), res. by rewrite fmap_app.
Qed.

Lemma queue_pop_holds q l : queue_holds q l ->
  exists q', queue_pop q = Done (default NULL (head l), q') /\ queue_holds q' (tail l) /\
    size (q_heap q') = size (q_heap q).
Proof.
  intros (enq & res & C & <-). pose proof (queue_pop_spec q enq res C) as P.
  destruct enq as [|[a o] enq].
  - exists q. split; [done|]. split; [by exists [], res|done].
  - destruct P as (q1 & P & C' & D). exists q1. split; [done|].
    split; [by exists enq, ((a, o) :: res)|]. by rewrite <- !size_dom, D.
Qed.

(** Every enqueued object has a node. *)
Lemma queue_holds_size q l : queue_holds q l -> (length l <= size (q_heap q))%nat.
Proof.
  intros (enq & res & [Hh _ _ Hd _] & <-). rewrite length_fmap, <- (length_fmap fst).
  apply NoDup_app in Hd as [Hd _]. rewrite <- size_dom, <- (size_list_to_set (C := gset Z) enq.*1) by done.
  apply subseteq_size. intros a Hin. apply elem_of_dom. apply elem_of_list_to_set in Hin.
  by apply (chain_lookup _ _ _ a Hh).
Qed.

Lemma queue_implements malloc : malloc_fresh malloc -> (forall h, malloc h <> None) ->
  Implements (queue_step malloc) (functional fifo) queue_holds.
Proof.
  intros Hf Hm [o|] q l H _; cbn [queue_step].
  - destruct (queue_push_holds malloc o q l Hf Hm H) as (q' & E & H'). rewrite (bind_done _ _ _ _ _ E). by eexists _, _, _.
  - destruct (queue_pop_holds q l H) as (q' & E & H' & _). rewrite (bind_done _ _ _ _ _ E). by eexists _, _, _.
Qed.

(** C20: a queue behaves as a list, first in first out: as long as there is
    memory, any sequence of pushes and pops runs without a fault, pops the
    objects in the order of their pushes (NULL when the queue is empty) and
    leaves the objects that were not popped. *)
Theorem queue_refines_fifo malloc ops q l :
  malloc_fresh malloc -> (forall h, malloc h <> None) -> queue_holds q l ->
  exists out q' l', run_spec fifo ops l = Some (out, l') /\
    run (queue_step malloc) ops q = Done (out, q') /\ queue_holds q' l'.
Proof.
  intros Hf Hm H. exact (run_anything (I := queue_implements malloc Hf Hm) ops q l fifo_total H).
Qed.

(** a push adds the object at the end or, when [malloc] fails and no node
    is in reserve, leaves the queue exactly as it was. *)
Theorem queue_push_atomic malloc o q l :
  malloc_fresh malloc -> queue_holds q l ->
  exists q', queue_push malloc o q = Done (tt, q') /\
    (queue_holds q' (l ++ [o]) \/
     malloc (q_heap q) = None /\ q_reserved q = NULL /\ q' = q).
Proof.
  intros Hf (enq & res & C & <-).
  destruct (queue_push_spec malloc Hf o q enq res C) as (q1 & E & P).
  exists q1. split; [done|]. destruct res as [|[r ro] res].
  - destruct (malloc (q_heap q)) as [[p ?]|] eqn:Em.
    + left. exists (enq ++ [(p, o)]), []. by rewrite fmap_app.
    + right. split; [done|]. split; [|done]. apply (chain_head _ _ _ (cells_reserved _ _ _ C)).
  - left. exists (enq ++ [(r, o)]), res. by rewrite fmap_app.
Qed.

(** [queue_destroy] terminates and frees every node that was ever
    allocated, each exactly once. *)
Theorem queue_destroy_frees_all q l :
  queue_holds q l -> exists q', queue_destroy q = Done (true, q') /\ q_heap q' = ∅.
Proof.
  intros (enq & res & [Hh Ht Hr Hd Hdom] & _). pose proof Hd as Hd'.
  apply NoDup_app in Hd' as (Hde & Hdis & Hdr).
  unfold queue_destroy. rewrite bind_get.
  rewrite (bind_done _ _ _ _ _ (free_from_spec _ _ _ q Hh Hde (chain_length _ _ _ Hh Hde))).
  set (q1 := set_heap _ q).
  assert (Hr1 : chain (q_heap q1) (q_reserved q) res).
  { cbn. clear -Hr Hdis. revert Hr. generalize (q_reserved q). induction res as [|[a o] res IH];
      intros p Hr; [done|].
    destruct Hr as (-> & Ha & next & Hah & Hr). split; [done|]. split; [done|]. exists next.
    split; [|apply IH; [|done]; intros x Hx Hx'; apply (Hdis x Hx); cbn; by apply elem_of_cons; right].
    apply map_lookup_filter_Some. split; [done|]. intros Hin. apply (Hdis a Hin). cbn.
    by apply elem_of_cons; left. }
  rewrite (bind_done _ _ _ _ _ (free_from_spec _ _ _ q1 Hr1 Hdr (chain_length _ _ _ Hr Hdr))).
  eexists. split; [reflexivity|]. apply map_empty. intros a.
  destruct (q_heap _ !! a) as [n|] eqn:E; [|done]. cbn in E.
  apply map_lookup_filter_Some in E as [E Har]. apply map_lookup_filter_Some in E as [E Hae].
  cbn in *. specialize (Hdom a ltac:(by eexists)). apply elem_of_app in Hdom. tauto.
Qed.

(** the two debug counters terminate, and count the objects and all the
    other nodes of the queue. *)
Theorem queue_counts q l :
  queue_holds q l ->
  debug_queue_enqueued_count q = Some (zlen l) /\
  debug_queue_reserved_count q = Some (Z.of_nat (size (q_heap q)) - zlen l).
Proof.
  intros (enq & res & [Hh Ht Hr Hd Hdom] & <-). pose proof Hd as Hd'.
  apply NoDup_app in Hd' as (Hde & Hdis & Hdr).
  unfold debug_queue_enqueued_count, debug_queue_reserved_count.
  rewrite (count_from_spec _ _ _ _ _ Hh) by (by eapply chain_length).
  rewrite (count_from_spec _ _ _ _ _ Hr) by (by eapply chain_length).
  unfold zlen. rewrite length_fmap, !Z.add_0_l. split; [done|]. f_equal.
  assert (E : dom (q_heap q) = list_to_set (C := gset Z) (enq.*1 ++ res.*1)).
  { apply set_eq. intros a. rewrite elem_of_dom, elem_of_list_to_set. split; [apply Hdom|].
    intros [Ha|Ha]%elem_of_app; [by apply (chain_lookup _ _ _ a Hh)|by apply (chain_lookup _ _ _ a Hr)]. }
  rewrite <- size_dom, E, size_list_to_set, length_app, !length_fmap by done. lia.
Qed.

(** *** Concrete instances *)

Definition next_free (h : gmap Z queue_node_s) : option (Z * queue_node_s) :=
  Some (fresh ({[NULL]} ∪ dom h : gset Z), mkQueueNode 13 13).

Lemma next_free_some h : next_free h <> None.
Proof. discriminate. Defined.

Lemma next_free_fresh : malloc_fresh next_free.
Proof.
  intros h p n [= <- <-]. pose proof (is_fresh ({[NULL]} ∪ dom h : gset Z)) as F.
  rewrite not_elem_of_union, not_elem_of_singleton in F. destruct F as [F1 F2].
  split; [exact F1|]. by apply not_elem_of_dom.
Defined.

Lemma queue_refines_fifo_witness :
  exists out q' l', run_spec fifo [QPush 5; QPush 6; QPop; QPush 7; QPop; QPop; QPop] [] = Some (out, l') /\
    run (queue_step next_free) [QPush 5; QPush 6; QPop; QPush 7; QPop; QPop; QPop] queue_create = Done (out, q') /\
    queue_holds q' l'.
Proof.
  apply (queue_refines_fifo next_free
    [QPush 5; QPush 6; QPop; QPush 7; QPop; QPop; QPop] queue_create []);
    [exact next_free_fresh|discriminate|exact queue_create_holds].
Defined.

Example fifo_order : run_spec fifo [QPush 5; QPush 6; QPop; QPush 7; QPop; QPop; QPop] [] =
  Some ([None; None; Some 5; None; Some 6; Some 7; Some NULL], []).
Proof. reflexivity. Qed.

Lemma queue_push_atomic_witness :
  exists q', queue_push (fun _ => None) 5 queue_create = Done (tt, q') /\
    (queue_holds q' [5] \/
     @None (Z * queue_node_s) = None /\ q_reserved queue_create = NULL /\ q' = queue_create).
Proof.
  apply (queue_push_atomic (fun _ => None) 5 queue_create []);
    [discriminate|exact queue_create_holds].
Defined.

(** A queue with one object, and a node in reserve. *)
Definition demo_queue : queue_s :=
  mkQueue {[1 := mkQueueNode 5 NULL; 2 := mkQueueNode 6 NULL]} 1 1 2.

Lemma demo_queue_holds : queue_holds demo_queue [5].
Proof.
  exists [(1, 5)], [(2, 6)]. split; [|reflexivity]. split; try done.
  - by split; [|split; [|exists NULL]].
  - by split; [|split; [|exists NULL]].
  - apply (bool_decide_unpack _). by vm_compute.
  - intros a [n Ha]. cbn in Ha. rewrite lookup_insert_Some, lookup_singleton_Some in Ha. cbn.
    set_solver.
Defined.

Lemma queue_destroy_frees_all_witness :
  exists q', queue_destroy demo_queue = Done (true, q') /\ q_heap q' = ∅.
Proof. apply (queue_destroy_frees_all demo_queue [5]). exact demo_queue_holds. Defined.

Lemma queue_counts_witness :
  debug_queue_enqueued_count demo_queue = Some 1 /\
  debug_queue_reserved_count demo_queue = Some 1.
Proof. apply (queue_counts demo_queue [5]). exact demo_queue_holds. Defined.
