(* ===== verification/LinkedList.v ===== *)
(** * The linked list (src/list.[ch])

    A doubly linked list of objects in one block of nodes.  The nodes are
    addressed by their index in the block, index 0 stands for NULL, and the
    unused nodes form a free list.  The block is a map from indices to nodes,
    and what [realloc] makes of it is a function of the old block and of the
    number of nodes asked for.  The list refines a list of objects. *)
From S2P Require Import Prelude Machine.

Definition kListDefaultCapacity : Z := 10.
Definition kListNullNode : Z := 0.

Record list_node_s := mkListNode {
  ln_object : Z;
  ln_next : Z;
  ln_previous : Z;
}.

Record list_s := mkListS {
  l_head : Z;
  l_tail : Z;
  l_reserved : Z;
  l_mem : gmap Z list_node_s;   (* [reserved_mem], empty when NULL *)
  l_capacity : Z;
}.

Definition with_next (x : Z) (n : list_node_s) : list_node_s :=
  mkListNode (ln_object n) x (ln_previous n).
Definition with_previous (x : Z) (n : list_node_s) : list_node_s :=
  mkListNode (ln_object n) (ln_next n) x.

Definition set_l_head (x : Z) (l : list_s) : list_s :=
  mkListS x (l_tail l) (l_reserved l) (l_mem l) (l_capacity l).
Definition set_l_tail (x : Z) (l : list_s) : list_s :=
  mkListS (l_head l) x (l_reserved l) (l_mem l) (l_capacity l).
Definition set_l_reserved (x : Z) (l : list_s) : list_s :=
  mkListS (l_head l) (l_tail l) x (l_mem l) (l_capacity l).
Definition set_l_mem (x : gmap Z list_node_s) (l : list_s) : list_s :=
  mkListS (l_head l) (l_tail l) (l_reserved l) x (l_capacity l).
Definition set_l_capacity (x : Z) (l : list_s) : list_s :=
  mkListS (l_head l) (l_tail l) (l_reserved l) (l_mem l) x.

(** The node of an index, an access outside the block is a fault. *)
Definition mListNode (mem : gmap Z list_node_s) (index : Z) : outcome list_node_s :=
  match mem !! index with Some n => Done n | None => Fault OutOfBounds end.

Definition get_node (index : Z) : prog list_s list_node_s := fun l =>
  n <-! mListNode (l_mem l) index ;; Done (n, l).

Definition update_node (index : Z) (f : list_node_s -> list_node_s) : prog list_s unit :=
  fun l =>
  n <-! mListNode (l_mem l) index ;;
  Done (tt, set_l_mem (<[index := f n]> (l_mem l)) l).

Section Operations.
(** The block of [n] nodes that [realloc] returns for an old one. *)
Context (realloc : gmap Z list_node_s -> Z -> option (gmap Z list_node_s)).

(** [for(int i=capacity; i>0; --i)], with [n] iterations left. *)
Fixpoint weave (n : nat) (next_weave_node_index : Z) : prog list_s Z :=
  match n with
  | O => ret next_weave_node_index
  | S n' =>
      l <- get ;;
      let weave_node_index := u32 (l_capacity l + Z.of_nat n) in
      update_node weave_node_index
        (fun _ => mkListNode 0 next_weave_node_index kListNullNode) ;;
      weave n' weave_node_index
  end.

Definition list_reserve (capacity : Z) : prog list_s Z :=
  l <- get ;;
  let newCapacity := u32 (l_capacity l + capacity) in
  match realloc (l_mem l) (u32 (1 + newCapacity)) with
  | Some mem =>
      modify (set_l_mem mem) ;;
      next_weave_node_index <- weave (Z.to_nat (s32 capacity)) kListNullNode ;;
      modify (set_l_reserved next_weave_node_index) ;;
      modify (set_l_capacity newCapacity) ;;
      ret newCapacity
  | None =>
      modify (set_l_mem ∅) ;;
      ret 0
  end.

(** When [malloc] returns a block for the [list_s]. *)
Definition list_create (initialCapacity : Z) : outcome list_s :=
  match list_reserve initialCapacity (mkListS kListNullNode kListNullNode kListNullNode ∅ 0) with
  | Done (_, l) => Done l
  | Fault f => Fault f
  end.

Definition list_is_empty (l : list_s) : bool :=
  (l_head l =? kListNullNode) && (l_tail l =? kListNullNode).

Definition list_add (o : Z) : prog list_s unit :=
  l <- get ;;
  ok <- (if l_reserved l =? kListNullNode then
           c <- list_reserve kListDefaultCapacity ;; ret (negb (c =? 0))
         else ret true) ;;
  if negb ok then ret tt
  else
  l <- get ;;
  let add_list_node_index := l_reserved l in
  add_list_node <- get_node add_list_node_index ;;
  modify (set_l_reserved (ln_next add_list_node)) ;;
  update_node add_list_node_index (fun _ => mkListNode o kListNullNode kListNullNode) ;;
  l <- get ;;
  if negb (l_tail l =? kListNullNode) then
    update_node (l_tail l) (with_next add_list_node_index) ;;
    update_node add_list_node_index (with_previous (l_tail l)) ;;
    modify (set_l_tail add_list_node_index)
  else
    modify (set_l_tail add_list_node_index) ;;
    modify (set_l_head add_list_node_index).

(** [while(index != kListNullNode)], with fuel; the block has no more nodes
    than its size, so that one more iteration than that suffices. *)
Fixpoint find_from (n : nat) (mem : gmap Z list_node_s) (test : Z -> outcome bool) (index : Z) :
    outcome (option (Z * Z)) :=
  if index =? kListNullNode then Done None
  else match n with
  | O => Fault OutOfFuel
  | S n' =>
      node <-! mListNode mem index ;;
      found <-! test (ln_object node) ;;
      if found : bool then Done (Some (index, ln_object node))
      else find_from n' mem test (ln_next node)
  end.

Definition list_find_node_index (l : list_s) (o : Z) : outcome Z :=
  r <-! find_from (S (size (l_mem l))) (l_mem l) (fun x => Done (x =? o)) (l_head l) ;;
  Done (match r with Some (index, _) => index | None => kListNullNode end).

Definition list_find (l : list_s) (compare_block : Z -> outcome bool) : outcome Z :=
  r <-! find_from (S (size (l_mem l))) (l_mem l) compare_block (l_head l) ;;
  Done (match r with Some (_, object) => object | None => 0 end).

(** The block runs on a state of its own. *)
Fixpoint iterate_from {B} (n : nat) (mem : gmap Z list_node_s) (iterate_block : B -> Z -> B)
    (index : Z) (b : B) : outcome B :=
  if index =? kListNullNode then Done b
  else match n with
  | O => Fault OutOfFuel
  | S n' =>
      node <-! mListNode mem index ;;
      iterate_from n' mem iterate_block (ln_next node) (iterate_block b (ln_object node))
  end.

Definition list_iterate {B} (l : list_s) (iterate_block : B -> Z -> B) (b : B) : outcome B :=
  iterate_from (S (size (l_mem l))) (l_mem l) iterate_block (l_head l) b.

Definition debug_list_added_count (l : list_s) : outcome Z :=
  iterate_from (S (size (l_mem l))) (l_mem l) (fun c _ => c + 1) (l_head l) 0.
Definition debug_list_reserved_count (l : list_s) : outcome Z :=
  iterate_from (S (size (l_mem l))) (l_mem l) (fun c _ => c + 1) (l_reserved l) 0.

Definition list_remove (o : Z) : prog list_s unit :=
  l <- get ;;
  remove_list_node_index <- lift (list_find_node_index l o) ;;
  node <- get_node remove_list_node_index ;;
  (if ln_previous node =? kListNullNode then
     if ln_next node =? kListNullNode then
       modify (set_l_tail kListNullNode) ;; modify (set_l_head kListNullNode)
     else
       update_node (ln_next node) (with_previous kListNullNode) ;;
       node' <- get_node remove_list_node_index ;;
       modify (set_l_head (ln_next node'))
   else if ln_next node =? kListNullNode then
     modify (set_l_tail (ln_previous node)) ;;
     update_node (ln_previous node) (with_next kListNullNode)
   else
     update_node (ln_previous node) (with_next (ln_next node)) ;;
     node' <- get_node remove_list_node_index ;;
     update_node (ln_next node') (with_previous (ln_previous node'))) ;;
  l <- get ;;
  update_node remove_list_node_index (with_next (l_reserved l)) ;;
  update_node remove_list_node_index (with_previous kListNullNode) ;;
  modify (set_l_reserved remove_list_node_index).

End Operations.

(** ** The abstraction *)

(** From [p] on, the cells [l] (indices and objects) are linked in both
    directions: the first one points back to [prev], the last one is [last]
    and points on to [q]. *)
Fixpoint dseg (mem : gmap Z list_node_s) (prev p : Z) (l : list (Z * Z)) (last q : Z) : Prop :=
  match l with
  | [] => p = q /\ last = prev
  | (i, o) :: l' =>
      p = i /\ i <> kListNullNode /\
      exists next, mem !! i = Some (mkListNode o next prev) /\ dseg mem i next l' last q
  end.

Record list_cells (l : list_s) (added : list (Z * Z)) (res : list Z) : Prop := {
  lc_added : dseg (l_mem l) kListNullNode (l_head l) added (l_tail l) kListNullNode;
  lc_reserved : linked ln_next (l_mem l) (l_reserved l) res;
  lc_nodup : NoDup (added.*1 ++ res);
  lc_capacity : 0 <= l_capacity l;
  lc_dom : forall i, is_Some (l_mem l !! i) <-> 0 <= i <= l_capacity l;
  lc_all : forall i, i ∈ added.*1 ++ res <-> 1 <= i <= l_capacity l;
}.

Definition list_holds (l : list_s) (objects : list Z) : Prop :=
  exists added res, list_cells l added res /\ added.*2 = objects.

(** What the C library promises of [realloc]. *)
Definition realloc_keeps
    (realloc : gmap Z list_node_s -> Z -> option (gmap Z list_node_s)) : Prop :=
  forall old n new, 0 < n -> realloc old n = Some new ->
    (forall i, is_Some (new !! i) <-> 0 <= i < n) /\
    (forall i x, 0 <= i < n -> old !! i = Some x -> new !! i = Some x).

(** [list_remove] on the objects. *)
Fixpoint remove_first (o : Z) (l : list Z) : list Z :=
  match l with
  | [] => []
  | x :: l' => if x =? o then l' else x :: remove_first o l'
  end.

(** ** Lemmas on segments *)

Lemma dseg_app mem prev p l1 l2 last q :
  dseg mem prev p (l1 ++ l2) last q <->
  exists m pm, dseg mem prev p l1 pm m /\ dseg mem pm m l2 last q.
Proof.
  revert prev p. induction l1 as [|[i o] l1 IH]; intros prev p; cbn.
  - split; [by exists p, prev|by intros (m & pm & [-> ->] & ?)].
  - split.
    + intros (-> & Hi & next & Hm & Hs). apply IH in Hs as (m & pm & H1 & H2).
      exists m, pm. eauto 10.
    + intros (m & pm & (-> & Hi & next & Hm & Hs) & H2). split; [done|]. split; [done|].
      exists next. split; [done|]. apply IH. eauto.
Qed.

Lemma dseg_lookup mem prev p l last q i : dseg mem prev p l last q -> i ∈ l.*1 ->
  is_Some (mem !! i) /\ i <> kListNullNode.
Proof.
  revert prev p. induction l as [|[j o] l IH]; intros prev p Hs Hi; [by apply not_elem_of_nil in Hi|].
  destruct Hs as (-> & Hj & next & Hm & Hs). apply elem_of_cons in Hi as [->|Hi]; eauto.
Qed.

Lemma dseg_insert mem prev p l last q i n : i ∉ l.*1 ->
  dseg mem prev p l last q -> dseg (<[i := n]> mem) prev p l last q.
Proof.
  revert prev p. induction l as [|[j o] l IH]; intros prev p Hi Hs; [done|].
  apply not_elem_of_cons in Hi as [Hij Hi]. destruct Hs as (-> & Hj & next & Hm & Hs).
  split; [done|]. split; [done|]. exists next. rewrite lookup_insert_ne by done. auto.
Qed.

(** Emptiness shows at either end. *)
Lemma dseg_null_last mem p l last q :
  dseg mem kListNullNode p l last q -> (last =? kListNullNode) = bool_decide (l = []).
Proof.
  intros Hs. destruct l as [|[i o] l _] using rev_ind; [destruct Hs as [_ ->]; done|].
  rewrite bool_decide_false by (by destruct l). apply dseg_app in Hs as (m & pm & _ & Hs).
  cbn in Hs. destruct Hs as (_ & Hi & next & _ & _ & ->). by apply Z.eqb_neq.
Qed.

Lemma dseg_null_first mem prev p l last :
  dseg mem prev p l last kListNullNode -> (p =? kListNullNode) = bool_decide (l = []).
Proof.
  destruct l as [|[i o] l].
  - intros [-> _]. by rewrite bool_decide_true.
  - intros (-> & Hi & _). rewrite bool_decide_false by done. by apply Z.eqb_neq.
Qed.

(** Redirecting the last cell. *)
Lemma dseg_set_next mem prev p l last q q' n : l <> [] -> NoDup l.*1 ->
  dseg mem prev p l last q -> mem !! last = Some n ->
  dseg (<[last := with_next q' n]> mem) prev p l last q'.
Proof.
  intros Hl Hd Hs Hn. destruct l as [|[t o] l _] using rev_ind; [done|].
  rewrite fmap_app in Hd. apply NoDup_app in Hd as (Hd & Hdis & _).
  apply dseg_app in Hs as (m & pm & H1 & H2). cbn in H2.
  destruct H2 as (-> & Ht & next & Hm & -> & ->). apply dseg_app. exists t, pm.
  split.
  - apply dseg_insert; [|done]. intros Hin. apply (Hdis t Hin). cbn. set_solver.
  - cbn. split; [done|]. split; [done|]. exists q'. rewrite lookup_insert_eq.
    by rewrite Hm in Hn; simplify_eq.
Qed.

(** Redirecting the first cell. *)
Lemma dseg_set_prev mem prev prev' p l last q n : l <> [] -> NoDup l.*1 ->
  dseg mem prev p l last q -> mem !! p = Some n ->
  dseg (<[p := with_previous prev' n]> mem) prev' p l last q.
Proof.
  intros Hl Hd Hs Hn. destruct l as [|[t o] l]; [done|].
  cbn in Hd. apply NoDup_cons in Hd as [Hnt Hd].
  destruct Hs as (-> & Ht & next & Hm & Hs). split; [done|]. split; [done|]. exists next.
  rewrite lookup_insert_eq. rewrite Hm in Hn. simplify_eq. split; [done|]. by apply dseg_insert.
Qed.

Lemma get_node_done i n l : l_mem l !! i = Some n -> get_node i l = Done (n, l).
Proof. intros E. unfold get_node, mListNode. by rewrite E. Qed.

Lemma update_node_done i f n l : l_mem l !! i = Some n ->
  update_node i f l = Done (tt, set_l_mem (<[i := f n]> (l_mem l)) l).
Proof. intros E. unfold update_node, mListNode. by rewrite E. Qed.

Lemma dom_insert_iff (mem : gmap Z list_node_s) i n j : is_Some (mem !! i) ->
  is_Some (<[i := n]> mem !! j) <-> is_Some (mem !! j).
Proof.
  intros Hi. destruct (decide (i = j)) as [->|Hn].
  - rewrite lookup_insert_eq. split; [done|by eexists].
  - by rewrite lookup_insert_ne.
Qed.

(** ** Specifications of the operations *)

Fixpoint find_cell (test : Z -> bool) (l : list (Z * Z)) : option (Z * Z) :=
  match l with
  | [] => None
  | (i, o) :: l' => if test o then Some (i, o) else find_cell test l'
  end.

Lemma find_from_spec n mem block test prev p l last :
  (forall o, o ∈ l.*2 -> block o = Done (test o)) ->
  dseg mem prev p l last kListNullNode -> (length l <= n)%nat ->
  find_from n mem block p = Done (find_cell test l).
Proof.
  revert prev p l. induction n as [|n IH]; intros prev p l Hb Hs Hn.
  - destruct l; [|simpl in Hn; lia]. by destruct Hs as [-> _].
  - destruct l as [|[i o] l]; [by destruct Hs as [-> _]|].
    destruct Hs as (-> & Hi & next & Hm & Hs). cbn [find_from find_cell].
    rewrite (proj2 (Z.eqb_neq i kListNullNode)) by done. unfold mListNode. rewrite Hm.
    cbn [obind ln_object ln_next]. rewrite (Hb o) by (cbn; by left). cbn [obind].
    destruct (test o); [done|].
    apply (IH i); [|done|simpl in Hn; lia]. intros x Hx. apply Hb. cbn. by right.
Qed.

Lemma iterate_from_spec {B} n mem (f : B -> Z -> B) prev p l last b :
  dseg mem prev p l last kListNullNode -> (length l <= n)%nat ->
  iterate_from n mem f p b = Done (fold_left f l.*2 b).
Proof.
  revert prev p l b. induction n as [|n IH]; intros prev p l b Hs Hn.
  - destruct l; [|simpl in Hn; lia]. by destruct Hs as [-> _].
  - destruct l as [|[i o] l]; [by destruct Hs as [-> _]|].
    destruct Hs as (-> & Hi & next & Hm & Hs). cbn [iterate_from].
    rewrite (proj2 (Z.eqb_neq i kListNullNode)) by done. unfold mListNode. rewrite Hm.
    cbn [obind ln_object ln_next]. rewrite (IH i next l); [done|done|simpl in Hn; lia].
Qed.

Lemma iterate_free_spec n mem p l c :
  linked ln_next mem p l -> (length l <= n)%nat ->
  iterate_from n mem (fun c _ => c + 1) p c = Done (c + zlen l).
Proof.
  revert p l c. induction n as [|n IH]; intros p l c Hs Hn.
  - destruct l; [|simpl in Hn; lia]. cbn in Hs. subst p. cbn. rewrite zlen_nil. f_equal. lia.
  - destruct l as [|i l]; [cbn in Hs; subst p; cbn; rewrite zlen_nil; f_equal; lia|].
    destruct Hs as (-> & Hi & x & Hm & Hs). cbn [iterate_from].
    rewrite (proj2 (Z.eqb_neq i kListNullNode)) by done. unfold mListNode. rewrite Hm.
    cbn [obind]. rewrite (IH _ l); [|done|simpl in Hn; lia]. rewrite zlen_cons. f_equal. lia.
Qed.

Lemma indices_size (mem : gmap Z list_node_s) (l : list Z) :
  NoDup l -> (forall i, i ∈ l -> is_Some (mem !! i)) -> (length l <= size mem)%nat.
Proof.
  intros Hd Hl. rewrite <- size_dom, <- (size_list_to_set (C := gset Z) l) by done.
  apply subseteq_size. intros i Hi. apply elem_of_dom, Hl. by apply elem_of_list_to_set in Hi.
Qed.

Lemma cells_added_size l added res : list_cells l added res ->
  (length added <= S (size (l_mem l)))%nat /\ (length res <= S (size (l_mem l)))%nat.
Proof.
  intros [Ha Hr Hd _ _ _]. apply NoDup_app in Hd as (Hda & _ & Hdr).
  split; apply Nat.le_le_succ_r.
  - rewrite <- (length_fmap fst). apply indices_size; [done|]. intros i Hi.
    by apply (dseg_lookup _ _ _ _ _ _ i Ha).
  - apply indices_size; [done|]. intros i Hi. by apply (linked_lookup _ _ _ _ i Hr).
Qed.

(** Weaving links the new nodes in front of the free list. *)
Lemma weave_spec n next rest l :
  0 <= l_capacity l -> l_capacity l + Z.of_nat n < 2 ^ 32 ->
  (forall j, l_capacity l < j <= l_capacity l + Z.of_nat n -> is_Some (l_mem l !! j)) ->
  linked ln_next (l_mem l) next rest -> (forall j, j ∈ rest -> l_capacity l + Z.of_nat n < j) ->
  exists mem p, weave n next l = Done (p, set_l_mem mem l) /\
    linked ln_next mem p (seqZ (l_capacity l + 1) (Z.of_nat n) ++ rest) /\
    (forall j, ~ l_capacity l < j <= l_capacity l + Z.of_nat n -> mem !! j = l_mem l !! j) /\
    (forall j, is_Some (mem !! j) <-> is_Some (l_mem l !! j)).
Proof.
  revert next rest l. induction n as [|n IH]; intros next rest l Hc Hn Hs Hf Hr.
  { exists (l_mem l), next. split; [by destruct l|]. split; [by rewrite seqZ_nil by lia|done]. }
  set (w := l_capacity l + Z.of_nat (S n)).
  destruct (Hs w) as [x Hx]; [unfold w; lia|].
  cbn [weave]. rewrite bind_get, u32_small by lia. fold w.
  rewrite (bind_done _ _ _ _ _ (update_node_done w _ x l Hx)).
  set (l1 := set_l_mem _ l).
  destruct (IH w (w :: rest) l1) as (mem & p & E & Hch & Hk & Hdom).
  - done.
  - cbn. lia.
  - intros j Hj. cbn in *. rewrite dom_insert_iff by (by eexists). apply Hs. lia.
  - split; [done|]. split; [unfold w, kListNullNode; lia|]. eexists. cbn.
    rewrite lookup_insert_eq. split; [reflexivity|]. cbn. apply linked_insert; [|done].
    intros Hin. specialize (Hr _ Hin). unfold w in Hr. lia.
  - intros j Hj. cbn. apply elem_of_cons in Hj as [->|Hj]; [unfold w; lia|].
    specialize (Hr _ Hj). lia.
  - exists mem, p. rewrite E. split; [done|]. cbn in Hch, Hk, Hdom. split; [|split].
    + replace (Z.of_nat (S n)) with (Z.of_nat n + 1) by lia.
      rewrite seqZ_app by lia. rewrite <- app_assoc. cbn.
      replace (l_capacity l + 1 + Z.of_nat n) with w by (unfold w; lia). done.
    + intros j Hj. rewrite Hk by lia. rewrite lookup_insert_ne; [done|unfold w; lia].
    + intros j. rewrite Hdom. by apply dom_insert_iff; eexists.
Qed.

Lemma dseg_agree mem mem' prev p l last q :
  (forall i x, i ∈ l.*1 -> mem !! i = Some x -> mem' !! i = Some x) ->
  dseg mem prev p l last q -> dseg mem' prev p l last q.
Proof.
  revert prev p. induction l as [|[i o] l IH]; intros prev p Ha Hs; [done|].
  destruct Hs as (-> & Hi & next & Hm & Hs). split; [done|]. split; [done|]. exists next.
  split; [apply Ha; [cbn; by apply elem_of_cons; left|done]|].
  apply IH; [|done]. intros j x Hj. apply Ha. cbn. by apply elem_of_cons; right.
Qed.

Section Specs.
Context (realloc : gmap Z list_node_s -> Z -> option (gmap Z list_node_s)).

(** Growing a list none of whose nodes is free. *)
Lemma list_reserve_spec c l added mem :
  realloc_keeps realloc -> 0 < c -> 0 <= l_capacity l -> l_capacity l + c < 2 ^ 31 ->
  dseg (l_mem l) kListNullNode (l_head l) added (l_tail l) kListNullNode ->
  NoDup added.*1 -> (forall i, i ∈ added.*1 <-> 1 <= i <= l_capacity l) ->
  realloc (l_mem l) (1 + (l_capacity l + c)) = Some mem ->
  exists l', list_reserve realloc c l = Done (l_capacity l + c, l') /\
    list_cells l' added (seqZ (l_capacity l + 1) c).
Proof.
  intros Hk Hc H0 Hcap Ha Hd Hall Er. unfold list_reserve. rewrite bind_get.
  cbv zeta. rewrite (u32_small (l_capacity l + c)) by lia.
  rewrite (u32_small (1 + _)) by lia. rewrite Er, bind_modify, s32_small by lia.
  destruct (Hk _ (1 + (l_capacity l + c)) _ ltac:(lia) Er) as [Hdom Hkeep].
  destruct (weave_spec (Z.to_nat c) kListNullNode [] (set_l_mem mem l)) as (mem' & p & E & Hf & Hs & Hd');
    [done|cbn; lia| |done|by intros j ?%not_elem_of_nil|].
  { intros j Hj. cbn in *. apply Hdom. lia. }
  rewrite (bind_done _ _ _ _ _ E), !bind_modify. eexists. split; [reflexivity|].
  cbn in Hf, Hs, Hd'. rewrite Z2Nat.id in * by lia. rewrite app_nil_r in Hf. split; cbn.
  - eapply dseg_agree; [|exact Ha]. intros i x Hi Hx. apply Hall in Hi.
    rewrite Hs by lia. apply Hkeep; [lia|done].
  - done.
  - apply NoDup_app. split; [done|]. split; [|apply NoDup_seqZ].
    intros i Hi. apply Hall in Hi. rewrite elem_of_seqZ. lia.
  - lia.
  - intros i. rewrite Hd', Hdom. lia.
  - intros i. rewrite elem_of_app, Hall, elem_of_seqZ. lia.
Qed.

Lemma list_create_spec c mem :
  realloc_keeps realloc -> 0 < c < 2 ^ 31 -> realloc ∅ (1 + c) = Some mem ->
  exists l, list_create realloc c = Done l /\ list_cells l [] (seqZ 1 c).
Proof.
  intros Hk Hc Er. unfold list_create.
  set (l0 := mkListS _ _ _ _ _).
  assert (P : exists l', list_reserve realloc c l0 = Done (0 + c, l') /\
    list_cells l' [] (seqZ (0 + 1) c)).
  { apply (list_reserve_spec c l0 [] mem); try done; cbn; try lia; [constructor|].
    intros i. split; [by intros ?%not_elem_of_nil|lia]. }
  destruct P as (l & E & C). rewrite E. by exists l.
Qed.

(** Without memory the old block is gone. *)
Lemma list_reserve_fails c l : realloc (l_mem l) (u32 (1 + u32 (l_capacity l + c))) = None ->
  list_reserve realloc c l = Done (0, set_l_mem ∅ l).
Proof. intros E. unfold list_reserve. rewrite bind_get, E. done. Qed.

End Specs.

(** Taking the first free node for [o] and hanging it behind the tail. *)
Definition add_node (o : Z) : prog list_s unit :=
  l <- get ;;
  let add_list_node_index := l_reserved l in
  add_list_node <- get_node add_list_node_index ;;
  modify (set_l_reserved (ln_next add_list_node)) ;;
  update_node add_list_node_index (fun _ => mkListNode o kListNullNode kListNullNode) ;;
  l <- get ;;
  if negb (l_tail l =? kListNullNode) then
    update_node (l_tail l) (with_next add_list_node_index) ;;
    update_node add_list_node_index (with_previous (l_tail l)) ;;
    modify (set_l_tail add_list_node_index)
  else
    modify (set_l_tail add_list_node_index) ;;
    modify (set_l_head add_list_node_index).

Lemma add_node_spec o l added r res : list_cells l added (r :: res) ->
  exists l', add_node o l = Done (tt, l') /\ list_cells l' (added ++ [(r, o)]) res /\
    l_capacity l' = l_capacity l.
Proof.
  intros [Ha Hr Hd Hc Hdom Hall]. destruct Hr as (Er & Hr0 & rn & Hrm & Hr).
  pose proof Hd as Hd'. rewrite <- Permutation_middle in Hd'. apply NoDup_cons in Hd' as [Hrn Hd'].
  rewrite not_elem_of_app in Hrn. destruct Hrn as [Hra Hrr].
  assert (Hdn : NoDup ((added ++ [(r, o)]).*1 ++ res)).
  { rewrite fmap_app, <- app_assoc. cbn. by rewrite <- Permutation_middle in Hd |- *. }
  assert (Hin : forall i, i ∈ (added ++ [(r, o)]).*1 ++ res <-> 1 <= i <= l_capacity l).
  { intros i. rewrite <- Hall, fmap_app, <- app_assoc. cbn. by rewrite <- !Permutation_middle. }
  unfold add_node. rewrite bind_get. cbn zeta. rewrite Er.
  rewrite (bind_done _ _ _ _ _ (get_node_done r rn l Hrm)), bind_modify.
  rewrite (bind_done _ _ _ _ _ (update_node_done r _ rn (set_l_reserved (ln_next rn) l) Hrm)).
  rewrite bind_get. set (mem1 := <[r := _]> (l_mem (set_l_reserved (ln_next rn) l))).
  assert (H1 : mem1 !! r = Some (mkListNode o kListNullNode kListNullNode)).
  { unfold mem1. by rewrite lookup_insert_eq. }
  assert (Ha1 : dseg mem1 kListNullNode (l_head l) added (l_tail l) kListNullNode).
  { by apply dseg_insert. }
  assert (Hr1 : linked ln_next mem1 (ln_next rn) res) by (by apply linked_insert).
  assert (Hdom1 : forall i, is_Some (mem1 !! i) <-> 0 <= i <= l_capacity l).
  { intros i. rewrite <- Hdom. apply dom_insert_iff. by eexists. }
  cbn [set_l_reserved set_l_mem l_tail l_mem].
  rewrite (dseg_null_last _ _ _ _ _ Ha). destruct (decide (added = [])) as [->|Hne].
  - rewrite bool_decide_true by done. cbn [negb]. rewrite bind_modify.
    eexists. split; [reflexivity|]. split; [|done]. split; cbn; try done.
    split; [done|]. split; [done|]. exists kListNullNode. by split.
  - rewrite bool_decide_false by done. cbn [negb].
    assert (Ht : is_Some (mem1 !! l_tail l) /\ l_tail l ∈ added.*1 /\ l_tail l <> kListNullNode).
    { destruct added as [|[t ot] added _] using rev_ind; [done|].
      pose proof Ha1 as Ha2. apply dseg_app in Ha2 as (m & pm & _ & Ht & Ht0 & next & Htm & _ & E).
      rewrite E. split; [by eexists|]. split; [rewrite fmap_app; cbn; set_solver|done]. }
    destruct Ht as ((t & Ht) & Hta & Ht0).
    rewrite (bind_done _ _ _ _ _ (update_node_done (l_tail l) (with_next r) t (set_l_mem mem1 (set_l_reserved (ln_next rn) l)) Ht)).
    assert (Htr : l_tail l <> r) by congruence.
    set (mem2 := <[l_tail l := with_next r t]> (l_mem (set_l_mem mem1 (set_l_reserved (ln_next rn) l)))).
    assert (H2 : mem2 !! r = Some (mkListNode o kListNullNode kListNullNode)).
    { unfold mem2. cbn. by rewrite lookup_insert_ne. }
    set (l2 := set_l_mem mem2 (set_l_mem mem1 (set_l_reserved (ln_next rn) l))).
    rewrite (bind_done _ _ _ _ _ (update_node_done r _ _ l2 H2)).
    eexists. split; [reflexivity|]. split; [|done]. cbn. split; cbn; try done.
    + apply dseg_app. exists r, (l_tail l). split.
      * apply dseg_insert; [done|]. apply dseg_set_next with kListNullNode; try done.
        by apply NoDup_app in Hd as (? & _).
      * cbn. split; [done|]. split; [done|]. exists kListNullNode. by rewrite lookup_insert_eq.
    + apply linked_insert; [done|]. apply linked_insert; [|done].
      intros Hin'. apply NoDup_app in Hd' as (_ & Hdis & _). by apply (Hdis (l_tail l)).
    + intros i. rewrite <- Hdom1. rewrite dom_insert_iff by (by eexists).
      unfold mem2. cbn. by apply dom_insert_iff; eexists.
Qed.

Lemma dseg_last_in mem prev p l last q : dseg mem prev p l last q -> l <> [] -> last ∈ l.*1.
Proof.
  intros Hs Hl. destruct l as [|[t o] l _] using rev_ind; [done|].
  apply dseg_app in Hs as (m & pm & _ & _ & _ & next & _ & _ & ->).
  rewrite fmap_app. apply elem_of_app. right. cbn. by apply list_elem_of_singleton.
Qed.

Lemma dseg_first_in mem prev p l last q : dseg mem prev p l last q -> l <> [] -> p ∈ l.*1.
Proof.
  intros Hs Hl. destruct l as [|[t o] l]; [done|]. destruct Hs as (-> & _). cbn.
  by apply elem_of_cons; left.
Qed.

(** Taking the node [index] out of the chain of the added nodes. *)
Definition unlink_node (index : Z) (node : list_node_s) : prog list_s unit :=
  if ln_previous node =? kListNullNode then
     if ln_next node =? kListNullNode then
       modify (set_l_tail kListNullNode) ;; modify (set_l_head kListNullNode)
     else
       update_node (ln_next node) (with_previous kListNullNode) ;;
       node' <- get_node index ;;
       modify (set_l_head (ln_next node'))
   else if ln_next node =? kListNullNode then
     modify (set_l_tail (ln_previous node)) ;;
     update_node (ln_previous node) (with_next kListNullNode)
   else
     update_node (ln_previous node) (with_next (ln_next node)) ;;
     node' <- get_node index ;;
     update_node (ln_next node') (with_previous (ln_previous node')).

(** What unlinking keeps. *)
Record unlinked (l l' : list_s) (i : Z) (added : list (Z * Z)) (res : list Z) : Prop := {
  ul_added : dseg (l_mem l') kListNullNode (l_head l') added (l_tail l') kListNullNode;
  ul_reserved : linked ln_next (l_mem l') (l_reserved l') res;
  ul_capacity : l_capacity l' = l_capacity l;
  ul_dom : forall j, is_Some (l_mem l' !! j) <-> is_Some (l_mem l !! j);
}.

(** The node [i] stands between the nodes of [l1] and those of [l2]; the four
    cases of [unlink_node] are whether these are empty. *)
Section Unlink.
Context (l : list_s) (l1 l2 : list (Z * Z)) (i o pm next : Z) (res : list Z).
Hypothesis before : dseg (l_mem l) kListNullNode (l_head l) l1 pm i.
Hypothesis after : dseg (l_mem l) i next l2 (l_tail l) kListNullNode.
Hypothesis spare : linked ln_next (l_mem l) (l_reserved l) res.
Hypothesis here : l_mem l !! i = Some (mkListNode o next pm).
Hypothesis not_before : i ∉ l1.*1.
Hypothesis not_after : i ∉ l2.*1.
Hypothesis distinct_before : NoDup l1.*1.
Hypothesis distinct_after : NoDup l2.*1.
Hypothesis apart : forall j, j ∈ l1.*1 -> j ∉ l2.*1.
Hypothesis not_spare : forall j, j ∈ l1.*1 \/ j ∈ l2.*1 -> j ∉ res.

Lemma unlink_first : l1 = [] -> l2 <> [] ->
  exists l', unlink_node i (mkListNode o next pm) l = Done (tt, l') /\ unlinked l l' i (l1 ++ l2) res.
Proof.
  intros -> Hl2. unfold unlink_node. cbn [ln_previous ln_next].
  rewrite (dseg_null_last _ _ _ _ _ before), (dseg_null_first _ _ _ _ _ after).
  rewrite bool_decide_true, bool_decide_false by done. destruct before as [_ ->].
  pose proof (dseg_first_in _ _ _ _ _ _ after Hl2) as Hn2.
  destruct (dseg_lookup _ _ _ _ _ _ next after Hn2) as [[n Hn] _].
  rewrite (bind_done _ _ _ _ _ (update_node_done next _ n l Hn)).
  assert (Hin : l_mem (set_l_mem (<[next := with_previous kListNullNode n]> (l_mem l)) l) !! i =
    Some (mkListNode o next kListNullNode)).
  { cbn. rewrite lookup_insert_ne; [done|]. by intros ->. }
  rewrite (bind_done _ _ _ _ _ (get_node_done i _ _ Hin)).
  eexists. split; [reflexivity|]. split; cbn; try done.
  - eapply dseg_set_prev; eauto.
  - apply linked_insert; [|done]. auto.
  - intros j. apply dom_insert_iff. by eexists.
Qed.

Lemma unlink_last : l1 <> [] -> l2 = [] ->
  exists l', unlink_node i (mkListNode o next pm) l = Done (tt, l') /\ unlinked l l' i (l1 ++ l2) res.
Proof.
  intros Hl1 ->. unfold unlink_node. cbn [ln_previous ln_next].
  rewrite (dseg_null_last _ _ _ _ _ before), (dseg_null_first _ _ _ _ _ after).
  rewrite bool_decide_false, bool_decide_true by done. destruct after as [-> _].
  pose proof (dseg_last_in _ _ _ _ _ _ before Hl1) as Hp1.
  destruct (dseg_lookup _ _ _ _ _ _ pm before Hp1) as [[n Hn] _].
  rewrite bind_modify. rewrite (update_node_done pm _ n); [|done].
  eexists. split; [reflexivity|]. split; cbn; try done.
  - rewrite app_nil_r. eapply dseg_set_next; eauto.
  - apply linked_insert; [|done]. auto.
  - intros j. apply dom_insert_iff. by eexists.
Qed.

Lemma unlink_between : l1 <> [] -> l2 <> [] ->
  exists l', unlink_node i (mkListNode o next pm) l = Done (tt, l') /\ unlinked l l' i (l1 ++ l2) res.
Proof.
  intros Hl1 Hl2. unfold unlink_node. cbn [ln_previous ln_next].
  rewrite (dseg_null_last _ _ _ _ _ before), (dseg_null_first _ _ _ _ _ after).
  rewrite !bool_decide_false by done.
  pose proof (dseg_last_in _ _ _ _ _ _ before Hl1) as Hp1.
  pose proof (dseg_first_in _ _ _ _ _ _ after Hl2) as Hn2.
  destruct (dseg_lookup _ _ _ _ _ _ pm before Hp1) as [[n1 Hm1] _].
  destruct (dseg_lookup _ _ _ _ _ _ next after Hn2) as [[n2 Hm2] _].
  rewrite (bind_done _ _ _ _ _ (update_node_done pm _ n1 l Hm1)).
  set (la := set_l_mem (<[pm := with_next next n1]> (l_mem l)) l).
  assert (Hin : l_mem la !! i = Some (mkListNode o next pm)).
  { cbn. rewrite lookup_insert_ne; [done|]. by intros ->. }
  rewrite (bind_done _ _ _ _ _ (get_node_done i _ _ Hin)). cbn [ln_next ln_previous].
  assert (Hpn : pm <> next) by (intros ->; by apply (apart next)).
  assert (Hn2' : l_mem la !! next = Some n2) by (cbn; by rewrite lookup_insert_ne).
  rewrite (update_node_done next _ n2 la Hn2').
  eexists. split; [reflexivity|]. split; cbn; try done.
  - apply dseg_app. exists next, pm. split.
    + apply dseg_insert; [intros Hx; by apply (apart next)|]. eapply dseg_set_next; eauto.
    + eapply dseg_set_prev; [done|done| |done].
      apply dseg_insert; [by apply apart|exact after].
  - apply linked_insert; [auto|]. apply linked_insert; [auto|done].
  - intros j. rewrite dom_insert_iff by (by eexists). apply dom_insert_iff. by eexists.
Qed.

End Unlink.

Lemma unlink_node_spec l l1 i o l2 res : list_cells l (l1 ++ (i, o) :: l2) res ->
  exists node l', l_mem l !! i = Some node /\ unlink_node i node l = Done (tt, l') /\
    unlinked l l' i (l1 ++ l2) res.
Proof.
  intros [Ha Hr Hd Hc Hdom Hall]. apply dseg_app in Ha as (m & pm & H1 & H2).
  destruct H2 as (-> & Hi & next & Him & H2). exists (mkListNode o next pm).
  apply NoDup_app in Hd as (Hd & Hdis & _). rewrite fmap_app in Hd, Hdis. cbn in Hd, Hdis.
  pose proof Hd as Hd'. rewrite <- Permutation_middle in Hd'.
  apply NoDup_cons in Hd' as [Hi12 Hd12]. rewrite not_elem_of_app in Hi12. destruct Hi12 as [Hi1 Hi2].
  apply NoDup_app in Hd12 as (Hd1 & Hd12 & Hd2).
  assert (Hres : forall j, j ∈ l1.*1 \/ j ∈ l2.*1 -> j ∉ res).
  { intros j Hj. apply Hdis. apply elem_of_app. rewrite elem_of_cons. tauto. }
  destruct (decide (l1 = [])) as [->|Hl1], (decide (l2 = [])) as [->|Hl2].
  - unfold unlink_node. cbn [ln_previous ln_next].
    rewrite (dseg_null_last _ _ _ _ _ H1), (dseg_null_first _ _ _ _ _ H2), !bool_decide_true by done.
    eexists. split; [done|]. split; [reflexivity|]. split; cbn; done.
  - destruct (unlink_first l [] l2 i o pm next res) as (l' & E & U); eauto.
  - destruct (unlink_last l l1 [] i o pm next res) as (l' & E & U); eauto.
  - destruct (unlink_between l l1 l2 i o pm next res) as (l' & E & U); eauto.
Qed.

Lemma split_first o (l : list (Z * Z)) : o ∈ l.*2 ->
  exists l1 i l2, l = l1 ++ (i, o) :: l2 /\ find_cell (fun x => x =? o) l = Some (i, o) /\
    remove_first o l.*2 = (l1 ++ l2).*2.
Proof.
  induction l as [|[j x] l IH]; intros Ho; [by apply not_elem_of_nil in Ho|]. cbn in Ho |- *.
  destruct (Z.eqb_spec x o) as [->|Hx]; [by exists [], j, l|].
  apply elem_of_cons in Ho as [->|Ho]; [done|].
  destruct (IH Ho) as (l1 & i & l2 & -> & E & R). exists ((j, x) :: l1), i, l2.
  split; [done|]. split; [done|]. cbn. by rewrite R.
Qed.

Lemma find_cell_absent o (l : list (Z * Z)) : o ∉ l.*2 -> find_cell (fun x => x =? o) l = None.
Proof.
  induction l as [|[j x] l IH]; intros Ho; [done|]. cbn in Ho |- *.
  apply not_elem_of_cons in Ho as [Hx Ho]. rewrite (proj2 (Z.eqb_neq x o)) by done. auto.
Qed.

Lemma list_remove_spec o l added res : list_cells l added res -> o ∈ added.*2 ->
  exists l' added' res', list_remove o l = Done (tt, l') /\ list_cells l' added' res' /\
    added'.*2 = remove_first o added.*2 /\ l_capacity l' = l_capacity l.
Proof.
  intros C Ho. destruct (split_first o added Ho) as (l1 & i & l2 & -> & Ef & Er).
  destruct (unlink_node_spec l l1 i o l2 res C) as (node & l' & Hi & Eu & [Ua Ur Uc Ud]).
  assert (Efi : list_find_node_index l o = Done i).
  { unfold list_find_node_index. destruct (cells_added_size _ _ _ C) as [Hs _].
    by rewrite (find_from_spec _ _ _ _ _ _ _ _ (fun _ _ => eq_refl) (lc_added _ _ _ C) Hs), Ef. }
  pose proof C as [_ _ Hd Hc Hdom Hall].
  assert (P : (l1 ++ (i, o) :: l2).*1 ++ res ≡ₚ (l1 ++ l2).*1 ++ i :: res).
  { rewrite !fmap_app. cbn. rewrite <- Permutation_middle. cbn. apply Permutation_middle. }
  unfold list_remove. rewrite bind_get. unfold bind at 1, lift. rewrite Efi.
  rewrite (bind_done _ _ _ _ _ (get_node_done i node l Hi)).
  fold (unlink_node i node). rewrite (bind_done _ _ _ _ _ Eu), bind_get.
  destruct (proj2 (Ud i) ltac:(by eexists)) as [n' Hi'].
  rewrite (bind_done _ _ _ _ _ (update_node_done i _ n' l' Hi')).
  set (lb := set_l_mem _ l').
  assert (Hib : l_mem lb !! i = Some (with_next (l_reserved l') n')).
  { cbn. by rewrite lookup_insert_eq. }
  rewrite (bind_done _ _ _ _ _ (update_node_done i _ _ lb Hib)).
  rewrite P in Hd. pose proof Hd as Hd'. rewrite <- Permutation_middle in Hd'.
  apply NoDup_cons in Hd' as [Hin _]. rewrite not_elem_of_app in Hin. destruct Hin as [Hi12 Hir].
  eexists _, (l1 ++ l2), (i :: res). split; [reflexivity|]. split; [|by rewrite Er].
  split; cbn.
  - apply dseg_insert; [done|]. by apply dseg_insert.
  - split; [done|]. split.
    + assert (Hx : i ∈ (l1 ++ (i, o) :: l2).*1).
      { rewrite fmap_app. cbn. apply elem_of_app. right. by apply elem_of_cons; left. }
      by apply (dseg_lookup _ _ _ _ _ _ i (lc_added _ _ _ C)).
    + eexists. rewrite lookup_insert_eq. split; [reflexivity|]. cbn.
      apply linked_insert; [done|]. by apply linked_insert.
  - done.
  - lia.
  - intros j. rewrite dom_insert_iff by (rewrite lookup_insert_eq; by eexists).
    rewrite dom_insert_iff by (by eexists). rewrite Ud, Uc. apply Hdom.
  - intros j. rewrite <- P, Uc. apply Hall.
Qed.

Lemma list_add_spec realloc o l added res :
  realloc_keeps realloc -> (forall old n, realloc old n <> None) ->
  l_capacity l + kListDefaultCapacity < 2 ^ 31 -> list_cells l added res ->
  exists l' added' res', list_add realloc o l = Done (tt, l') /\ list_cells l' added' res' /\
    added'.*2 = added.*2 ++ [o] /\ l_capacity l' <= l_capacity l + kListDefaultCapacity.
Proof.
  intros Hk Hm Hcap C. unfold list_add. rewrite bind_get. destruct res as [|r res].
  - pose proof C as [Ha Hr Hd Hc Hdom Hall]. cbn in Hr. rewrite app_nil_r in *. rewrite Hr.
    rewrite Z.eqb_refl. rewrite bind_assoc.
    unfold kListDefaultCapacity in *.
    destruct (realloc (l_mem l) (1 + (l_capacity l + 10))) as [mem|] eqn:Er; [|by apply Hm in Er].
    destruct (list_reserve_spec realloc 10 l added mem) as (l1 & E1 & C1); auto; [lia|].
    rewrite (bind_done _ _ _ _ _ E1), bind_ret_l.
    rewrite (proj2 (Z.eqb_neq (l_capacity l + 10) 0)) by lia. cbn [negb].
    rewrite seqZ_cons in C1 by lia.
    destruct (add_node_spec o l1 _ _ _ C1) as (l2 & E2 & C2 & Ec).
    eexists l2, _, _. split; [exact E2|]. split; [exact C2|].
    split; [by rewrite fmap_app|].
    assert (l_capacity l1 = l_capacity l + 10); [|lia].
    pose proof (lc_all _ _ _ C1) as H1. pose proof (lc_capacity _ _ _ C1) as H2.
    destruct (decide (l_capacity l1 = l_capacity l + 10)) as [|Hne]; [done|exfalso].
    rewrite <- seqZ_cons in H1 by lia.
    assert (Hx : forall i, 1 <= i <= l_capacity l + 10 <-> 1 <= i <= l_capacity l1).
    { intros i. rewrite <- H1, elem_of_app, elem_of_seqZ, Hall. lia. }
    pose proof (Hx (l_capacity l + 10)). pose proof (Hx (l_capacity l1)). lia.
  - pose proof (lc_reserved _ _ _ C) as (Er & Hr0 & _).
    rewrite Er, (proj2 (Z.eqb_neq r kListNullNode)) by done. rewrite bind_ret_l. cbn [negb].
    destruct (add_node_spec o l _ _ _ C) as (l2 & E2 & C2 & Ec).
    eexists l2, _, _. split; [exact E2|]. split; [exact C2|].
    split; [by rewrite fmap_app|]. unfold kListDefaultCapacity. lia.
Qed.

(** *** The operations on the list of objects *)

Lemma find_holds l objects block test : list_holds l objects ->
  (forall o, o ∈ objects -> block o = Done (test o)) ->
  list_find l block = Done (default 0 (head (filter (fun o => test o = true) objects))).
Proof.
  intros (added & res & C & <-) Hb. destruct (cells_added_size _ _ _ C) as [Hs _].
  unfold list_find. rewrite (find_from_spec _ _ _ _ _ _ _ _ Hb (lc_added _ _ _ C) Hs). cbn [obind].
  f_equal. clear. induction added as [|[i o] added IH]; [done|].
  cbn [find_cell fmap list_fmap snd]. rewrite filter_cons.
  destruct (test o) eqn:E; [by rewrite decide_True|]. by rewrite decide_False by congruence.
Qed.

Lemma iterate_holds {B} l objects (f : B -> Z -> B) b : list_holds l objects ->
  list_iterate l f b = Done (fold_left f objects b).
Proof.
  intros (added & res & C & <-). destruct (cells_added_size _ _ _ C) as [Hs _].
  apply (iterate_from_spec _ _ f _ _ _ _ _ (lc_added _ _ _ C) Hs).
Qed.

Lemma is_empty_holds l objects : list_holds l objects -> list_is_empty l = bool_decide (objects = []).
Proof.
  intros (added & res & C & <-). pose proof (lc_added _ _ _ C) as Ha. unfold list_is_empty.
  rewrite (dseg_null_last _ _ _ _ _ Ha), (dseg_null_first _ _ _ _ _ Ha).
  destruct added; [by rewrite !bool_decide_true|by rewrite !bool_decide_false].
Qed.

Lemma list_add_holds realloc o l objects :
  realloc_keeps realloc -> (forall old n, realloc old n <> None) ->
  l_capacity l + kListDefaultCapacity < 2 ^ 31 -> list_holds l objects ->
  exists l', list_add realloc o l = Done (tt, l') /\ list_holds l' (objects ++ [o]) /\
    l_capacity l' <= l_capacity l + kListDefaultCapacity.
Proof.
  intros Hk Hm Hc (added & res & C & <-).
  destruct (list_add_spec realloc o l added res Hk Hm Hc C) as (l' & a' & r' & E & C' & <- & Hc').
  exists l'. split; [done|]. split; [by exists a', r'|done].
Qed.

Lemma list_remove_holds o l objects : list_holds l objects -> o ∈ objects ->
  exists l', list_remove o l = Done (tt, l') /\ list_holds l' (remove_first o objects) /\
    l_capacity l' = l_capacity l.
Proof.
  intros (added & res & C & <-) Ho.
  destruct (list_remove_spec o l added res C Ho) as (l' & a' & r' & E & C' & <- & Hc').
  exists l'. split; [done|]. split; [by exists a', r'|done].
Qed.

Lemma list_create_holds realloc c :
  realloc_keeps realloc -> (forall old n, realloc old n <> None) -> 0 < c < 2 ^ 31 ->
  exists l, list_create realloc c = Done l /\ list_holds l [] /\ l_capacity l = c.
Proof.
  intros Hk Hm Hc. destruct (realloc ∅ (1 + c)) as [mem|] eqn:Er; [|by apply Hm in Er].
  destruct (list_create_spec realloc c mem Hk ltac:(lia) Er) as (l & El & C).
  exists l. split; [done|]. split; [by exists [], (seqZ 1 c)|].
  pose proof (lc_all _ _ _ C) as H1. cbn in H1.
  pose proof (proj1 (H1 c)) as Ha. pose proof (proj2 (H1 (l_capacity l))) as Hb.
  rewrite elem_of_seqZ in Ha, Hb. pose proof (lc_capacity _ _ _ C). lia.
Qed.

(** ** Properties of the list *)

Inductive list_op := LAdd (o : Z) | LRemove (o : Z) | LIsEmpty | LFind (test : Z -> bool) | LIterate.

Inductive list_answer := Nothing | IsEmpty (b : bool) | Found (o : Z) | Visited (objects : list Z).

Definition list_step (realloc : gmap Z list_node_s -> Z -> option (gmap Z list_node_s)) (op : list_op) :
    prog list_s list_answer :=
  match op with
  | LAdd o => list_add realloc o ;; ret Nothing
  | LRemove o => list_remove o ;; ret Nothing
  | LIsEmpty => l <- get ;; ret (IsEmpty (list_is_empty l))
  | LFind test => l <- get ;; o <- lift (list_find l (fun o => Done (test o))) ;; ret (Found o)
  | LIterate => l <- get ;; os <- lift (list_iterate l (fun os o => os ++ [o]) []) ;; ret (Visited os)
  end.

(** The same on a list of objects, for at most so many calls; an absent object
    cannot be removed. *)
Definition sequence (op : list_op) (s : list Z * nat) : option (list_answer * (list Z * nat)) :=
  let '(objects, calls) := s in
  match calls with
  | O => None
  | S calls =>
      match op with
      | LAdd o => Some (Nothing, (objects ++ [o], calls))
      | LRemove o => if decide (o ∈ objects) then Some (Nothing, (remove_first o objects, calls)) else None
      | LIsEmpty => Some (IsEmpty (bool_decide (objects = [])), (objects, calls))
      | LFind test => Some (Found (default 0 (head (filter (fun o => test o = true) objects))), (objects, calls))
      | LIterate => Some (Visited objects, (objects, calls))
      end
  end.

(** Its capacity cannot overflow in so many calls. *)
Definition roomy (l : list_s) (s : list Z * nat) : Prop :=
  list_holds l s.1 /\ l_capacity l + kListDefaultCapacity * Z.of_nat s.2 < 2 ^ 31.

Lemma list_implements realloc : realloc_keeps realloc -> (forall old n, realloc old n <> None) ->
  Implements (list_step realloc) (functional sequence) roomy.
Proof.
  intros Hk Hm op l [objects [|calls]] [H R] [r Er]; [done|]. unfold kListDefaultCapacity in R. cbn [fst snd] in *.
  assert (Same : roomy l (objects, calls)) by (split; unfold kListDefaultCapacity; cbn; [done|lia]).
  destruct op as [o|o| |test|]; cbn [list_step does functional sequence] in *.
  - destruct (list_add_holds realloc o l objects Hk Hm) as (l' & E & H' & Hc); [unfold kListDefaultCapacity; lia|done|].
    rewrite (bind_done _ _ _ _ _ E). eexists _, _, _. split; [done|]. split; [done|]. split; [done|].
    unfold kListDefaultCapacity in *. cbn. lia.
  - case_decide as Ho; [|done]. destruct (list_remove_holds o l objects H Ho) as (l' & E & H' & Hc).
    rewrite (bind_done _ _ _ _ _ E). eexists _, _, _. split; [done|]. split; [done|]. split; [done|].
    unfold kListDefaultCapacity. cbn. lia.
  - rewrite bind_get, (is_empty_holds l objects H). by eexists _, _, _.
  - rewrite bind_get. unfold bind at 1, lift. rewrite (find_holds l objects _ test H); [|done]. by eexists _, _, _.
  - rewrite bind_get. unfold bind at 1, lift. rewrite (iterate_holds l objects _ _ H), fold_snoc. by eexists _, _, _.
Qed.

(** C19: a list created by [list_create] behaves as a list of objects, added at
    its end and removed at their first occurrence, that can be searched and
    iterated over: with memory, and as long as only objects that are present
    are removed, any sequence of operations runs without a fault, through as
    many reallocations as it takes, and answers as the list of objects. *)
Theorem list_refines_sequence realloc c ops answers objects n :
  realloc_keeps realloc -> (forall old n, realloc old n <> None) -> 0 < c ->
  c + kListDefaultCapacity * Z.of_nat (length ops) < 2 ^ 31 ->
  run_spec sequence ops ([], length ops) = Some (answers, (objects, n)) ->
  exists l l', list_create realloc c = Done l /\ run (list_step realloc) ops l = Done (answers, l') /\
    list_holds l' objects.
Proof.
  intros Hk Hm Hc Hops Hrun. destruct (list_create_holds realloc c Hk Hm) as (l & El & H & Hcap).
  { unfold kListDefaultCapacity in Hops. lia. }
  destruct (run_script (I := list_implements realloc Hk Hm) ops l ([], length ops) answers (objects, n)) as (l' & E & H' & _).
  { split; [done|]. by rewrite Hcap. }
  { done. }
  exists l, l'. by rewrite El.
Qed.

(** the queries of a list terminate and agree with the list of its
    objects: finding with a block that does not fault returns the first match or NULL, iterating visits the
    objects in order, and the counters count them and the free nodes, which
    together are the capacity. *)
Theorem list_queries {B} l objects block test (f : B -> Z -> B) b :
  list_holds l objects -> (forall o, o ∈ objects -> block o = Done (test o)) ->
  list_find l block = Done (default 0 (head (filter (fun o => test o = true) objects))) /\
  list_iterate l f b = Done (fold_left f objects b) /\
  list_is_empty l = bool_decide (objects = []) /\
  debug_list_added_count l = Done (zlen objects) /\
  debug_list_reserved_count l = Done (l_capacity l - zlen objects).
Proof.
  intros H Hb. split; [by apply find_holds|]. split; [by apply iterate_holds|].
  split; [by apply is_empty_holds|]. destruct H as (added & res & C & <-).
  destruct (cells_added_size _ _ _ C) as [Hsa Hsr]. pose proof C as [Ha Hr Hd Hc Hdom Hall].
  assert (Hcount : forall (l : list (Z * Z)) c, fold_left (fun c _ => c + 1) l.*2 c = c + zlen l).
  { intros x. induction x as [|y x IH]; intros c; cbn; [rewrite zlen_nil; lia|].
    rewrite IH, zlen_cons. lia. }
  unfold debug_list_added_count, debug_list_reserved_count.
  rewrite (iterate_from_spec _ _ (fun c _ => c + 1) _ _ _ _ _ Ha Hsa).
  rewrite (iterate_free_spec _ _ _ _ _ Hr Hsr), Hcount, !Z.add_0_l. split.
  - unfold zlen. by rewrite length_fmap.
  - f_equal. assert (P : added.*1 ++ res ≡ₚ seqZ 1 (l_capacity l)).
    { apply NoDup_Permutation; [done|apply NoDup_seqZ|]. intros i. rewrite Hall, elem_of_seqZ. lia. }
    apply Permutation_length in P. rewrite length_app, length_seqZ, length_fmap in P.
    unfold zlen. rewrite length_fmap. lia.
Qed.

(** removing an object that is not in the list goes through node 0, which
    [malloc] left uninitialised: where that memory is zero, the whole list is
    lost. *)
Theorem list_remove_absent o l objects :
  list_holds l objects -> o ∉ objects ->
  l_mem l !! kListNullNode = Some (mkListNode 0 0 0) ->
  exists l', list_remove o l = Done (tt, l') /\ list_is_empty l' = true /\
    forall test, list_find l' test = Done 0.
Proof.
  intros (added & res & C & <-) Ho H0. destruct (cells_added_size _ _ _ C) as [Hsa _].
  assert (Ef : list_find_node_index l o = Done kListNullNode).
  { unfold list_find_node_index. rewrite (find_from_spec _ _ _ _ _ _ _ _ (fun _ _ => eq_refl) (lc_added _ _ _ C) Hsa).
    by rewrite find_cell_absent. }
  unfold list_remove. rewrite bind_get. unfold bind at 1, lift. rewrite Ef.
  rewrite (bind_done _ _ _ _ _ (get_node_done _ _ l H0)). cbn [ln_previous ln_next].
  unfold kListNullNode in *. rewrite Z.eqb_refl. rewrite bind_assoc, !bind_modify, bind_get.
  rewrite (bind_done _ _ _ _ _ (update_node_done 0 _ _ (set_l_head 0 (set_l_tail 0 l)) H0)).
  set (lb := set_l_mem _ _).
  assert (Hb : exists n, l_mem lb !! 0 = Some n) by (eexists; cbn; apply lookup_insert_eq).
  destruct Hb as [n Hb]. rewrite (bind_done _ _ _ _ _ (update_node_done 0 _ n lb Hb)).
  eexists. split; [reflexivity|]. split; [done|]. intros test. unfold list_find.
  rewrite (find_from_spec _ _ _ (fun _ => true) 0 _ [] 0); [done| |done|cbn; lia].
  intros x Hx. by apply not_elem_of_nil in Hx.
Qed.

(** when a full list cannot grow, [list_add] loses the block of nodes:
    the list still has its head, and every later search leaves its memory. *)
Theorem list_add_no_memory realloc o l objects :
  list_holds l objects -> l_reserved l = kListNullNode -> objects <> [] ->
  realloc (l_mem l) (u32 (1 + u32 (l_capacity l + kListDefaultCapacity))) = None ->
  exists l', list_add realloc o l = Done (tt, l') /\
    forall test, list_find l' test = Fault OutOfBounds.
Proof.
  intros (added & res & C & <-) Hr Hne Er. pose proof (lc_added _ _ _ C) as Ha.
  exists (set_l_mem ∅ l). split.
  - unfold list_add. rewrite bind_get, Hr, Z.eqb_refl.
    rewrite bind_assoc, (bind_done _ _ _ _ _ (list_reserve_fails realloc _ l Er)). done.
  - intros test. unfold list_find. cbn [set_l_mem l_mem l_head find_from].
    rewrite (dseg_null_first _ _ _ _ _ Ha), bool_decide_false by (by intros ->). done.
Qed.

(** *** Concrete instances *)

(** A [realloc] that keeps the old nodes and leaves the new ones as it
    likes. *)
Definition grow (old : gmap Z list_node_s) (n : Z) : option (gmap Z list_node_s) :=
  Some (list_to_map ((fun i => (i, default (mkListNode 99 99 99) (old !! i))) <$> seqZ 0 n)).

Lemma grow_some old n : grow old n <> None.
Proof. discriminate. Defined.

Lemma grow_keeps : realloc_keeps grow.
Proof.
  intros old n new Hn [= <-].
  assert (E : forall i, 0 <= i < n ->
    (list_to_map ((fun i => (i, default (mkListNode 99 99 99) (old !! i))) <$> seqZ 0 n)
      : gmap Z list_node_s) !! i = Some (default (mkListNode 99 99 99) (old !! i))).
  { intros i Hi. apply elem_of_list_to_map_1.
    - rewrite <- list_fmap_compose. cbn. rewrite list_fmap_id. apply NoDup_seqZ.
    - apply list_elem_of_fmap. exists i. split; [done|]. apply elem_of_seqZ. lia. }
  split.
  - intros i. split; [|intros Hi; rewrite E by done; by eexists].
    intros [x Hx]. apply elem_of_list_to_map_2, list_elem_of_fmap in Hx as (j & [= -> _] & Hj).
    apply elem_of_seqZ in Hj. lia.
  - intros i x Hi Hx. by rewrite E, Hx.
Defined.

Definition demo_calls : list list_op :=
  [LIsEmpty; LAdd 5; LAdd 6; LAdd 7; LRemove 6; LAdd 5; LIterate; LRemove 5; LFind (fun o => o <? 7); LFind (fun o => 9 <? o); LIsEmpty].

Lemma list_refines_sequence_witness :
  exists l l', list_create grow 1 = Done l /\
    run (list_step grow) demo_calls l =
      Done ([IsEmpty true; Nothing; Nothing; Nothing; Nothing; Nothing; Visited [5; 7; 5]; Nothing; Found 5; Found 0; IsEmpty false], l') /\
    list_holds l' [7; 5].
Proof.
  apply (list_refines_sequence grow 1 demo_calls _ [7; 5] 0);
    [exact grow_keeps|discriminate|reflexivity|reflexivity|reflexivity].
Defined.

(** A list of two objects, in a block of three nodes. *)
Definition demo_list : list_s :=
  mkListS 2 1 0
    (list_to_map [(0, mkListNode 0 0 0); (1, mkListNode 8 0 2); (2, mkListNode 9 1 0)]) 2.

Lemma demo_list_cells : list_cells demo_list [(2, 9); (1, 8)] [].
Proof.
  split.
  - split; [done|]. split; [done|]. exists 1. split; [done|].
    split; [done|]. split; [done|]. by exists 0.
  - done.
  - apply (bool_decide_unpack _). by vm_compute.
  - done.
  - intros i. cbn [demo_list l_mem l_capacity]. split.
    + intros [x Hx]. apply elem_of_list_to_map_2 in Hx.
      repeat (apply elem_of_cons in Hx as [[= -> _]|Hx]; [lia|]). by apply not_elem_of_nil in Hx.
    + intros Hi. assert (i = 0 \/ i = 1 \/ i = 2) as [->|[->| ->]] by lia; by eexists.
  - intros i. cbn. rewrite !elem_of_cons, elem_of_nil. lia.
Defined.

Lemma demo_list_holds : list_holds demo_list [9; 8].
Proof. exists [(2, 9); (1, 8)], []. split; [exact demo_list_cells|reflexivity]. Defined.

Lemma list_queries_witness :
  list_find demo_list (fun o => Done (o <? 9)) = Done 8 /\
  list_iterate demo_list (fun b o => b ++ [o]) [] = Done [9; 8] /\
  list_is_empty demo_list = false /\
  debug_list_added_count demo_list = Done 2 /\
  debug_list_reserved_count demo_list = Done 0.
Proof.
  apply (list_queries demo_list [9; 8] (fun o => Done (o <? 9)) (fun o => o <? 9) (fun b o => b ++ [o]) []);
    [exact demo_list_holds|reflexivity].
Defined.

Lemma list_remove_absent_witness :
  exists l', list_remove 7 demo_list = Done (tt, l') /\ list_is_empty l' = true /\
    forall test, list_find l' test = Done 0.
Proof.
  apply (list_remove_absent 7 demo_list [9; 8]); [exact demo_list_holds| |reflexivity].
  apply (bool_decide_unpack _). by vm_compute.
Defined.

Lemma list_add_no_memory_witness :
  exists l', list_add (fun _ _ => None) 7 demo_list = Done (tt, l') /\
    forall test, list_find l' test = Fault OutOfBounds.
Proof.
  apply (list_add_no_memory (fun _ _ => None) 7 demo_list [9; 8]);
    [exact demo_list_holds|reflexivity|discriminate|reflexivity].
Defined.
