(* ===== verification/Hashtable.v ===== *)
(** * The hash table (src/hashtable.[ch])

    An array of objects indexed by the key, NULL (zero) where there is none.
    It refines a finite map from the keys [0..max_key]. *)
From S2P Require Import Prelude Machine.

Record hashtable_s := mkHashtable {
  ht_max_key : Z;
  ht_objects : list Z;   (* empty when NULL *)
}.

Definition mKeyBelongsToHashtable (ht : hashtable_s) (key : Z) : bool :=
  (0 <=? key) && (key <=? ht_max_key ht).

(** The size asked of [calloc] is an [unsigned int]; whether there was memory
    is not looked at. *)
Definition hashtable_create (calloc_ok : bool) (max_key : Z) : hashtable_s :=
  mkHashtable max_key
    (if calloc_ok then replicate (Z.to_nat (u32 (max_key + 1))) 0 else []).

Definition hashtable_search (ht : hashtable_s) (key : Z) : outcome Z :=
  if negb (mKeyBelongsToHashtable ht key) then Done 0
  else load (ht_objects ht) key.

Definition hashtable_insert (key object : Z) : prog hashtable_s unit := fun ht =>
  if negb (mKeyBelongsToHashtable ht key) then Done (tt, ht)
  else
    l <-! store (ht_objects ht) key object ;;
    Done (tt, mkHashtable (ht_max_key ht) l).

Definition hashtable_delete (key : Z) : prog hashtable_s unit := fun ht =>
  if negb (mKeyBelongsToHashtable ht key) then Done (tt, ht)
  else
    l <-! store (ht_objects ht) key 0 ;;
    Done (tt, mkHashtable (ht_max_key ht) l).

(** [for(key = 0; key <= max_key; ++key)] on an [unsigned int]: [n] bounds the
    iterations.  The block runs on a state of its own. *)
Fixpoint iterate_keys {B} (n : nat) (ht : hashtable_s) (iterate_block : B -> Z -> Z -> B)
    (key : Z) (b : B) : outcome B :=
  if negb (key <=? ht_max_key ht) then Done b
  else match n with
  | O => Fault OutOfFuel
  | S n' =>
      object <-! load (ht_objects ht) key ;;
      iterate_keys n' ht iterate_block (u32 (key + 1))
        (if negb (object =? 0) then iterate_block b key object else b)
  end.

Definition hashtable_iterate {B} (ht : hashtable_s) (iterate_block : B -> Z -> Z -> B) (b : B) :
    outcome B :=
  iterate_keys (S (length (ht_objects ht))) ht iterate_block 0 b.

(** ** The abstraction *)

Record hashtable_holds (ht : hashtable_s) (m : gmap Z Z) : Prop := {
  hh_max : 0 <= ht_max_key ht < 2 ^ 32 - 1;
  hh_length : zlen (ht_objects ht) = ht_max_key ht + 1;
  hh_objects : forall k, 0 <= k <= ht_max_key ht ->
    ht_objects ht !! Z.to_nat k = Some (default 0 (m !! k));
  hh_keys : forall k v, m !! k = Some v -> 0 <= k <= ht_max_key ht /\ v <> 0;
}.

(** The entries of the map in the order of their keys. *)
Definition entries (m : gmap Z Z) (keys : list Z) : list (Z * Z) :=
  omap (fun k => v ← m !! k; Some (k, v)) keys.

(** Storing NULL is deleting. *)
Definition map_store (k v : Z) (m : gmap Z Z) : gmap Z Z :=
  if decide (v = 0) then delete k m else <[k := v]> m.

Lemma in_range ht k : mKeyBelongsToHashtable ht k = bool_decide (0 <= k <= ht_max_key ht).
Proof.
  unfold mKeyBelongsToHashtable. apply eq_true_iff_eq.
  rewrite andb_true_iff, !Z.leb_le, bool_decide_eq_true. tauto.
Qed.

Lemma hashtable_load ht m k : hashtable_holds ht m -> 0 <= k <= ht_max_key ht ->
  load (ht_objects ht) k = Done (default 0 (m !! k)).
Proof. intros [_ _ Ho _] Hk. apply load_done; [lia|by apply Ho]. Qed.

Lemma hashtable_store ht m k v : hashtable_holds ht m -> 0 <= k <= ht_max_key ht ->
  exists l, store (ht_objects ht) k v = Done l /\
    hashtable_holds (mkHashtable (ht_max_key ht) l) (map_store k v m).
Proof.
  intros [Hm Hl Ho Hk] Hkr. rewrite store_done by lia. eexists. split; [reflexivity|].
  split; cbn; [done|by rewrite zlen_insert| |].
  - intros j Hj. rewrite list_lookup_insert. unfold map_store.
    destruct (decide (k = j)) as [->|Hne].
    + rewrite decide_True by (unfold zlen in Hl; lia).
      destruct (decide (v = 0)) as [->|Hv]; [by rewrite lookup_delete_eq|by rewrite lookup_insert_eq].
    + rewrite decide_False by lia. rewrite Ho by done.
      destruct (decide (v = 0)); [by rewrite lookup_delete_ne|by rewrite lookup_insert_ne].
  - intros j w Hj. unfold map_store in Hj. destruct (decide (v = 0)) as [->|Hv].
    + apply lookup_delete_Some in Hj as [_ Hj]. by apply Hk in Hj.
    + apply lookup_insert_Some in Hj as [[<- <-]|[_ Hj]]; [done|by apply Hk in Hj].
Qed.

Lemma iterate_keys_spec {B} n ht m (f : B -> Z -> Z -> B) k b :
  hashtable_holds ht m -> 0 <= k <= ht_max_key ht + 1 -> ht_max_key ht + 1 - k < Z.of_nat n ->
  iterate_keys n ht f k b =
    Done (fold_left (fun b '(k, v) => f b k v) (entries m (seqZ k (ht_max_key ht + 1 - k))) b).
Proof.
  intros Hh. pose proof Hh as [Hm Hl Ho Hk]. revert k b. induction n as [|n IH]; intros k b Hkr Hn; [lia|].
  cbn [iterate_keys]. destruct (Z.leb_spec k (ht_max_key ht)) as [Hle|Hgt]; cbn [negb].
  - rewrite (hashtable_load ht m k Hh) by lia. cbn [obind].
    rewrite u32_small by lia. rewrite IH by lia.
    rewrite (seqZ_cons k) by lia. unfold entries. cbn [omap list_omap].
    replace (Z.succ k) with (k + 1) by lia.
    replace (Z.pred (ht_max_key ht + 1 - k)) with (ht_max_key ht + 1 - (k + 1)) by lia.
    destruct (m !! k) as [v|] eqn:E; cbn; [|done].
    destruct (Hk k v E) as [_ Hv]. by rewrite (proj2 (Z.eqb_neq v 0)).
  - rewrite seqZ_nil by lia. done.
Qed.

(** *** The operations against the map *)

Lemma hashtable_create_holds max_key : 0 <= max_key < 2 ^ 32 - 1 -> hashtable_holds (hashtable_create true max_key) ∅.
Proof.
  intros Hmax. split; cbn; [lia| | |intros k' v' E; by rewrite lookup_empty in E].
  - unfold zlen. rewrite length_replicate, u32_small by lia. lia.
  - intros j Hj. rewrite lookup_empty. apply lookup_replicate_2. rewrite u32_small by lia. lia.
Qed.

Lemma hashtable_search_holds ht m k : hashtable_holds ht m -> 0 <= k ->
  hashtable_search ht k = Done (default 0 (m !! k)).
Proof.
  intros Hh Hk. unfold hashtable_search. rewrite in_range. case_bool_decide as Hr; cbn [negb].
  - by apply (hashtable_load ht m k Hh).
  - destruct (m !! k) as [w|] eqn:E; [by destruct (hh_keys _ _ Hh _ _ E)|done].
Qed.

Lemma hashtable_insert_holds ht m k v : hashtable_holds ht m -> 0 <= k ->
  exists ht', hashtable_insert k v ht = Done (tt, ht') /\ ht_max_key ht' = ht_max_key ht /\
    if k <=? ht_max_key ht then hashtable_holds ht' (map_store k v m) else ht' = ht.
Proof.
  intros Hh Hk. unfold hashtable_insert. rewrite in_range. destruct (Z.leb_spec k (ht_max_key ht)).
  - rewrite bool_decide_true by lia. cbn [negb].
    destruct (hashtable_store ht m k v Hh ltac:(lia)) as (l & -> & H'). eexists. split; [reflexivity|]. by split.
  - rewrite bool_decide_false by lia. by exists ht.
Qed.

Lemma hashtable_delete_holds ht m k : hashtable_holds ht m -> 0 <= k ->
  exists ht', hashtable_delete k ht = Done (tt, ht') /\ ht_max_key ht' = ht_max_key ht /\
    hashtable_holds ht' (delete k m).
Proof.
  intros Hh Hk. unfold hashtable_delete. rewrite in_range. case_bool_decide as Hr; cbn [negb].
  - destruct (hashtable_store ht m k 0 Hh Hr) as (l & -> & H'). eexists. split; [reflexivity|]. split; [done|].
    unfold map_store in H'. by rewrite decide_True in H'.
  - exists ht. split; [done|]. split; [done|]. rewrite delete_id; [done|].
    destruct (m !! k) as [w|] eqn:E; [by destruct (hh_keys _ _ Hh _ _ E)|done].
Qed.

(** ** Properties *)

(** iterating terminates and calls the block once for every entry, in the
    order of the keys. *)
Theorem hashtable_iterate_entries {B} ht m (f : B -> Z -> Z -> B) b :
  hashtable_holds ht m ->
  hashtable_iterate ht f b =
    Done (fold_left (fun b '(k, v) => f b k v) (entries m (seqZ 0 (ht_max_key ht + 1))) b) /\
  forall k v, (k, v) ∈ entries m (seqZ 0 (ht_max_key ht + 1)) <-> m !! k = Some v.
Proof.
  intros Hh. pose proof Hh as [Hm Hl Ho Hk]. split.
  - unfold hashtable_iterate. rewrite (iterate_keys_spec _ ht m f 0 b Hh); [|lia|].
    + by rewrite Z.sub_0_r.
    + unfold zlen in Hl. lia.
  - intros k v. unfold entries. rewrite list_elem_of_omap. split.
    + intros (j & _ & Hj). destruct (m !! j) as [w|] eqn:E; cbn in Hj; [|done].
      by injection Hj as -> ->.
    + intros E. exists k. rewrite E. split; [|done]. apply elem_of_seqZ.
      destruct (Hk _ _ E). lia.
Qed.

Inductive hashtable_op := HSearch (k : Z) | HInsert (k v : Z) | HDelete (k : Z) | HIterate.

Inductive hashtable_answer := Stored | Value (v : Z) | Entries (l : list (Z * Z)).

Definition hashtable_step (op : hashtable_op) : prog hashtable_s hashtable_answer :=
  match op with
  | HSearch k => ht <- get ;; v <- lift (hashtable_search ht k) ;; ret (Value v)
  | HInsert k v => hashtable_insert k v ;; ret Stored
  | HDelete k => hashtable_delete k ;; ret Stored
  | HIterate => ht <- get ;; l <- lift (hashtable_iterate ht (fun l k v => l ++ [(k, v)]) []) ;; ret (Entries l)
  end.

(** A key is an [unsigned int]. *)
Definition key_of (op : hashtable_op) : Z :=
  match op with HSearch k | HInsert k _ | HDelete k => k | HIterate => 0 end.

(** The same on a map of the keys up to [max_key]. *)
Definition finite_map (max_key : Z) (op : hashtable_op) (m : gmap Z Z) : option (hashtable_answer * gmap Z Z) :=
  if decide (0 <= key_of op < 2 ^ 32) then
    match op with
    | HSearch k => Some (Value (default 0 (m !! k)), m)
    | HInsert k v => Some (Stored, if k <=? max_key then map_store k v m else m)
    | HDelete k => Some (Stored, delete k m)
    | HIterate => Some (Entries (entries m (seqZ 0 (max_key + 1))), m)
    end
  else None.

Definition table_of (max_key : Z) (ht : hashtable_s) (m : gmap Z Z) : Prop :=
  hashtable_holds ht m /\ ht_max_key ht = max_key.

#[export] Instance hashtable_implements max_key : Implements hashtable_step (functional (finite_map max_key)) (table_of max_key).
Proof.
  intros op ht m [H <-] [r Er]. unfold functional, does, finite_map in *. case_decide as Hk; [|done]. clear Er.
  destruct op as [k|k v|k|]; cbn [hashtable_step key_of] in *.
  - rewrite bind_get. unfold bind at 1, lift. rewrite (hashtable_search_holds ht m k H (proj1 Hk)). by eexists _, _, _.
  - destruct (hashtable_insert_holds ht m k v H (proj1 Hk)) as (ht' & E & Em & H'). rewrite (bind_done _ _ _ _ _ E).
    eexists _, _, _. split; [done|]. split; [done|]. split; [|done]. destruct (k <=? ht_max_key ht); [done|by subst].
  - destruct (hashtable_delete_holds ht m k H (proj1 Hk)) as (ht' & E & Em & H'). rewrite (bind_done _ _ _ _ _ E).
    by eexists _, _, _.
  - rewrite bind_get. unfold bind at 1, lift.
    rewrite (proj1 (hashtable_iterate_entries ht m (fun l k v => l ++ [(k, v)]) [] H)).
    assert (Ef : forall (l acc : list (Z * Z)), fold_left (fun b '(k, v) => b ++ [(k, v)]) l acc = acc ++ l).
    { intros l acc. rewrite <- (fold_snoc l acc). revert acc. induction l as [|[k v] l IH]; intros acc; [done|]. apply IH. }
    rewrite Ef. by eexists _, _, _.
Qed.

(** C22: a hash table is a finite map from the keys [0..max_key]: a new table
    is empty; under any sequence of calls searching looks up, inserting and
    deleting update, storing NULL deletes, iterating visits the entries in the
    order of their keys; a key outside the range is never found and changes
    nothing. *)
Theorem hashtable_refines_map max_key ops answers m :
  0 <= max_key < 2 ^ 32 - 1 -> run_spec (finite_map max_key) ops ∅ = Some (answers, m) ->
  exists ht, run hashtable_step ops (hashtable_create true max_key) = Done (answers, ht) /\ hashtable_holds ht m.
Proof.
  intros Hmax E. destruct (run_script (holds := table_of max_key) ops (hashtable_create true max_key) ∅ answers m)
    as (ht & R & H & _); [|done|by exists ht]. split; [by apply hashtable_create_holds|done].
Qed.

(** with the largest key, [max_key + 1] wraps around to zero: the table has
    no memory and its first access leaves it. *)
Theorem hashtable_key_overflow calloc_ok key :
  0 <= key < 2 ^ 32 ->
  hashtable_search (hashtable_create calloc_ok (2 ^ 32 - 1)) key = Fault OutOfBounds /\
  hashtable_insert key 1 (hashtable_create calloc_ok (2 ^ 32 - 1)) = Fault OutOfBounds.
Proof.
  intros Hk. assert (E : hashtable_create calloc_ok (2 ^ 32 - 1) = mkHashtable (2 ^ 32 - 1) [])
    by (by destruct calloc_ok).
  rewrite E. unfold hashtable_search, hashtable_insert. rewrite in_range.
  rewrite bool_decide_true by (cbn; lia). cbn [negb ht_objects].
  rewrite load_out by (unfold zlen; cbn; lia). by rewrite store_out by (unfold zlen; cbn; lia).
Qed.

Definition demo_table : hashtable_s := mkHashtable 2 [0; 7; 0].

Definition demo_map : gmap Z Z := {[1 := 7]}.

Lemma demo_table_holds : hashtable_holds demo_table demo_map.
Proof.
  split; cbn; [lia|reflexivity| |].
  - intros k Hk. assert (k = 0 \/ k = 1 \/ k = 2) as [->|[->| ->]] by lia; reflexivity.
  - intros k v Hv. unfold demo_map in Hv. apply lookup_singleton_Some in Hv as [<- <-]. lia.
Defined.

Definition demo_lookups : list hashtable_op :=
  [HInsert 2 9; HInsert 0 5; HInsert 700 3; HSearch 2; HSearch 700; HIterate; HInsert 2 0; HDelete 1; HIterate].

Lemma hashtable_refines_map_witness :
  exists ht, run hashtable_step demo_lookups (hashtable_create true 255) =
      Done ([Stored; Stored; Stored; Value 9; Value 0; Entries [(0, 5); (2, 9)]; Stored; Stored; Entries [(0, 5)]], ht) /\
    hashtable_holds ht {[0 := 5]}.
Proof.
  apply (hashtable_refines_map 255 demo_lookups _ {[0 := 5]}); [by split|by vm_compute].
Defined.

Lemma hashtable_iterate_entries_witness :
  hashtable_iterate demo_table (fun b k v => b ++ [(k, v)]) [] = Done [(1, 7)] /\
  forall k v, (k, v) ∈ entries demo_map (seqZ 0 3) <-> demo_map !! k = Some v.
Proof.
  apply (hashtable_iterate_entries demo_table demo_map (fun b k v => b ++ [(k, v)]) []).
  exact demo_table_holds.
Defined.

Lemma hashtable_key_overflow_witness :
  hashtable_search (hashtable_create true (2 ^ 32 - 1)) 0 = Fault OutOfBounds /\
  hashtable_insert 0 1 (hashtable_create true (2 ^ 32 - 1)) = Fault OutOfBounds.
Proof. apply (hashtable_key_overflow true 0). by split. Defined.
