(* ===== verification/Pool.v ===== *)
(** * The object pool (src/pool.[ch])

    One block of memory cut into [capacity] objects, each followed by a node
    with its retain count; the free nodes are linked.  The model keeps the
    nodes, indexed by their address; an access at an address that is not that
    of a node is a fault.  The pool refines a map from the allocated objects
    to their retain counts. *)
From S2P Require Import Prelude Machine.

Record pool_node_s := mkPoolNode {
  pn_object : Z;
  pn_retainCount : Z;
  pn_next : Z;
}.

(** On an LP64 host. *)
Definition sizeof_pool_node_s : Z := 24.

Record pool_s := mkPool {
  p_memblock : Z;
  p_membound : Z;
  p_sizeObject : Z;
  p_sizeObjectNode : Z;
  p_capacity : Z;
  p_freeList : Z;
  p_allocCount : Z;
  p_nodes : gmap Z pool_node_s;   (* the nodes written in the block *)
}.

Definition set_freeList (x : Z) (p : pool_s) : pool_s :=
  mkPool (p_memblock p) (p_membound p) (p_sizeObject p) (p_sizeObjectNode p) (p_capacity p)
    x (p_allocCount p) (p_nodes p).
Definition set_allocCount (x : Z) (p : pool_s) : pool_s :=
  mkPool (p_memblock p) (p_membound p) (p_sizeObject p) (p_sizeObjectNode p) (p_capacity p)
    (p_freeList p) x (p_nodes p).
Definition set_nodes (x : gmap Z pool_node_s) (p : pool_s) : pool_s :=
  mkPool (p_memblock p) (p_membound p) (p_sizeObject p) (p_sizeObjectNode p) (p_capacity p)
    (p_freeList p) (p_allocCount p) x.

Definition with_retainCount (x : Z) (n : pool_node_s) : pool_node_s :=
  mkPoolNode (pn_object n) x (pn_next n).
Definition with_next (x : Z) (n : pool_node_s) : pool_node_s :=
  mkPoolNode (pn_object n) (pn_retainCount n) x.

Definition mAddressDoesNotBelongsToPool (address : Z) (p : pool_s) : bool :=
  (address <? p_memblock p) || (p_membound p <=? address).

(** A first write of a node, anywhere in the block. *)
Definition init_node (a : Z) (n : pool_node_s) : prog pool_s unit := fun p =>
  if decide (p_memblock p <= a /\ a + sizeof_pool_node_s <= p_membound p)
  then Done (tt, set_nodes (<[a := n]> (p_nodes p)) p)
  else Fault OutOfBounds.

Definition pool_get_node (a : Z) : prog pool_s pool_node_s := fun p =>
  match p_nodes p !! a with
  | Some n => Done (n, p)
  | None => Fault (if decide (a = 0) then NullPointer else OutOfBounds)
  end.

Definition pool_update_node (a : Z) (f : pool_node_s -> pool_node_s) : prog pool_s unit :=
  n <- pool_get_node a ;;
  modify (fun p => set_nodes (<[a := f n]> (p_nodes p)) p).

(** [for(int i=0; i<p->capacity; ++i)] with [n] iterations left. *)
Fixpoint weave_nodes (n : nat) (prevNode addrNode : Z) : prog pool_s unit :=
  match n with
  | O => ret tt
  | S n' =>
      p <- get ;;
      init_node addrNode (mkPoolNode (addrNode - p_sizeObject p) 0 0) ;;
      (if p_freeList p =? 0 then modify (set_freeList addrNode)
       else pool_update_node prevNode (with_next addrNode)) ;;
      weave_nodes n' addrNode (u64 (addrNode + p_sizeObjectNode p))
  end.

Definition pool_weave_freelist : prog pool_s unit :=
  p <- get ;;
  weave_nodes (Z.to_nat (p_capacity p)) 0 (u64 (p_memblock p + p_sizeObject p)).

(** [memblock] is the address that [malloc] returns for [memsize] bytes, zero
    without memory. *)
Definition pool_create (sizeObject capacity memblock : Z) : outcome (option pool_s) :=
  let sizeObjectNode := u64 (sizeObject + sizeof_pool_node_s) in
  let memsize := u64 (capacity * sizeObjectNode) in
  if memblock =? 0 then Done None
  else
    match pool_weave_freelist
      (mkPool memblock (u64 (memblock + memsize)) sizeObject sizeObjectNode capacity 0 0 ∅) with
    | Done (_, p) => Done (Some p)
    | Fault f => Fault f
    end.

Definition pool_capacity (p : pool_s) : Z := p_capacity p.

Definition pool_alloc : prog pool_s Z :=
  p <- get ;;
  if p_freeList p =? 0 then ret 0
  else
  let allocNode := p_freeList p in
  n <- pool_get_node allocNode ;;
  modify (set_freeList (pn_next n)) ;;
  pool_update_node allocNode (with_next 0) ;;
  pool_update_node allocNode (with_retainCount 1) ;;
  modify (fun p => set_allocCount (u32 (p_allocCount p + 1)) p) ;;
  n <- pool_get_node allocNode ;;
  ret (pn_object n).

Definition pool_retain (object : Z) : prog pool_s unit :=
  p <- get ;;
  if p_allocCount p =? 0 then ret tt
  else if mAddressDoesNotBelongsToPool object p then ret tt
  else
  pool_update_node (u64 (object + p_sizeObject p))
    (fun n => with_retainCount (u32 (pn_retainCount n + 1)) n).

Definition pool_free_node (node : Z) : prog pool_s unit :=
  p <- get ;;
  pool_update_node node (with_next (p_freeList p)) ;;
  modify (set_freeList node) ;;
  pool_update_node node (with_retainCount 0) ;;
  modify (fun p => set_allocCount (u32 (p_allocCount p - 1)) p).

Definition pool_free (object : Z) : prog pool_s unit :=
  p <- get ;;
  if p_allocCount p =? 0 then ret tt
  else if mAddressDoesNotBelongsToPool object p then ret tt
  else pool_free_node (u64 (object + p_sizeObject p)).

Definition pool_release (object : Z) : prog pool_s unit :=
  p <- get ;;
  if p_allocCount p =? 0 then ret tt
  else if mAddressDoesNotBelongsToPool object p then ret tt
  else
  let releaseNode := u64 (object + p_sizeObject p) in
  pool_update_node releaseNode (fun n => with_retainCount (u32 (pn_retainCount n - 1)) n) ;;
  n <- pool_get_node releaseNode ;;
  if pn_retainCount n =? 0 then pool_free_node releaseNode else ret tt.

(** [while(iter != NULL)], with fuel. *)
Fixpoint count_nodes (n : nat) (nodes : gmap Z pool_node_s) (iter freeCount : Z) : outcome Z :=
  if iter =? 0 then Done freeCount
  else match n with
  | O => Fault OutOfFuel
  | S n' =>
      match nodes !! iter with
      | Some node => count_nodes n' nodes (pn_next node) (freeCount + 1)
      | None => Fault OutOfBounds
      end
  end.

Definition debug_pool_free_count (p : pool_s) : outcome Z :=
  count_nodes (size (p_nodes p)) (p_nodes p) (p_freeList p) 0.
Definition debug_pool_alloc_count (p : pool_s) : Z := p_allocCount p.

(** ** The abstraction *)

(** The addresses of the objects of a pool. *)
Definition is_object (p : pool_s) (o : Z) : Prop :=
  exists i, 0 <= i < p_capacity p /\ o = p_memblock p + i * p_sizeObjectNode p.

(** The shape of a pool: the block is neither at zero nor wrapped around. *)
Record pool_shape (p : pool_s) : Prop := {
  ps_block : 0 < p_memblock p;
  ps_object : 0 <= p_sizeObject p;
  ps_capacity : 0 <= p_capacity p < 2 ^ 31;
  ps_size : p_sizeObjectNode p = p_sizeObject p + sizeof_pool_node_s;
  ps_bound : p_membound p = p_memblock p + p_capacity p * p_sizeObjectNode p;
  ps_wrap : p_membound p < 2 ^ 64;
}.

(** The allocated objects with their counts, and the free nodes. *)
Record pool_cells (p : pool_s) (counts : gmap Z Z) (free : list Z) : Prop := {
  pc_shape : pool_shape p;
  pc_free : linked pn_next (p_nodes p) (p_freeList p) free;
  pc_nodup : NoDup free;
  pc_nodes : forall a, is_Some (p_nodes p !! a) <-> is_object p (a - p_sizeObject p);
  pc_content : forall a n, p_nodes p !! a = Some n ->
    pn_object n = a - p_sizeObject p /\
    if decide (a ∈ free) then counts !! pn_object n = None
    else counts !! pn_object n = Some (pn_retainCount n);
  pc_counts : forall o c, counts !! o = Some c -> 0 < c < 2 ^ 32 /\ is_object p o;
  pc_alloc : p_allocCount p = Z.of_nat (size counts);
  pc_total : Z.of_nat (size counts) + zlen free = p_capacity p;
}.

Definition pool_holds (p : pool_s) (counts : gmap Z Z) : Prop :=
  exists free, pool_cells p counts free.

(** ** Lemmas *)

Lemma is_object_bounds p o : pool_shape p -> is_object p o ->
  p_memblock p <= o /\ o + p_sizeObjectNode p <= p_membound p.
Proof.
  intros [H1 H2 H3 H4 H5 H6] (i & Hi & ->). unfold sizeof_pool_node_s in H4. rewrite H5.
  assert (0 < p_sizeObjectNode p) by lia. nia.
Qed.

Lemma is_object_belongs p o : pool_shape p -> is_object p o ->
  mAddressDoesNotBelongsToPool o p = false /\ u64 (o + p_sizeObject p) = o + p_sizeObject p.
Proof.
  intros S Ho. destruct (is_object_bounds p o S Ho) as [Hl Hu]. destruct S as [H1 H2 H3 H4 H5 H6].
  unfold mAddressDoesNotBelongsToPool, sizeof_pool_node_s in *. split.
  - apply orb_false_iff. rewrite Z.ltb_ge, Z.leb_gt. lia.
  - apply u64_small. lia.
Qed.

Lemma pool_get_done a n p : p_nodes p !! a = Some n -> pool_get_node a p = Done (n, p).
Proof. intros E. unfold pool_get_node. by rewrite E. Qed.

Lemma pool_update_done a f n p : p_nodes p !! a = Some n ->
  pool_update_node a f p = Done (tt, set_nodes (<[a := f n]> (p_nodes p)) p).
Proof. intros E. unfold pool_update_node. by rewrite (bind_done _ _ _ _ _ (pool_get_done a n p E)). Qed.

Lemma init_node_done a n p : p_memblock p <= a -> a + sizeof_pool_node_s <= p_membound p ->
  init_node a n p = Done (tt, set_nodes (<[a := n]> (p_nodes p)) p).
Proof. intros H1 H2. unfold init_node. by rewrite decide_True. Qed.

(** Replacing a node by one of the same object. *)
Lemma nodes_insert p (a : Z) n m : p_nodes p !! a = Some m ->
  (forall b, is_Some (<[a := n]> (p_nodes p) !! b) <-> is_Some (p_nodes p !! b)).
Proof.
  intros Ha b. destruct (decide (a = b)) as [->|Hn].
  - rewrite lookup_insert_eq, Ha. by split; eexists.
  - by rewrite lookup_insert_ne.
Qed.

Lemma pool_alloc_spec p counts free : pool_cells p counts free ->
  match free with
  | [] => pool_alloc p = Done (0, p)
  | a :: free' =>
      exists p', pool_alloc p = Done (a - p_sizeObject p, p') /\
        counts !! (a - p_sizeObject p) = None /\ is_object p (a - p_sizeObject p) /\
        pool_cells p' (<[a - p_sizeObject p := 1]> counts) free' /\
        p_sizeObject p' = p_sizeObject p /\ p_memblock p' = p_memblock p /\
        p_capacity p' = p_capacity p
  end.
Proof.
  intros [S Hf Hd Hn Hc Hk Ha Ht]. unfold pool_alloc. rewrite bind_get.
  destruct free as [|a free]; [cbn in Hf; by rewrite Hf|].
  destruct Hf as (E & Ha0 & n & Hna & Hf). rewrite E, (proj2 (Z.eqb_neq a 0)) by done.
  apply NoDup_cons in Hd as [Haf Hd].
  rewrite (bind_done _ _ _ _ _ (pool_get_done a n p Hna)), bind_modify.
  destruct (Hc a n Hna) as [Ho Hcn]. rewrite decide_True in Hcn by (by apply elem_of_cons; left).
  rewrite (bind_done _ _ _ _ _ (pool_update_done a _ n (set_freeList (pn_next n) p) Hna)).
  set (p2 := set_nodes _ (set_freeList _ p)).
  assert (H2 : p_nodes p2 !! a = Some (with_next 0 n)) by (cbn; by rewrite lookup_insert_eq).
  rewrite (bind_done _ _ _ _ _ (pool_update_done a _ _ p2 H2)), bind_modify.
  set (p3 := set_allocCount _ _).
  assert (H3 : p_nodes p3 !! a = Some (with_retainCount 1 (with_next 0 n))).
  { cbn. by rewrite lookup_insert_eq. }
  rewrite (bind_done _ _ _ _ _ (pool_get_done a _ p3 H3)).
  rewrite Ho in Hcn. cbn [with_retainCount with_next pn_object]. rewrite Ho.
  exists p3. split; [reflexivity|]. split; [done|].
  assert (Hobj : is_object p (a - p_sizeObject p)) by (apply Hn; by eexists).
  split; [done|]. split; [|done].
  assert (Hp3 : p_nodes p3 = <[a := with_retainCount 1 (with_next 0 n)]> (p_nodes p)).
  { cbn. by rewrite insert_insert_eq. }
  split.
  - destruct S. by split.
  - rewrite Hp3. cbn. by apply linked_insert.
  - done.
  - intros b. rewrite Hp3. rewrite (nodes_insert p a _ n Hna b). apply Hn.
  - intros b m Hb. rewrite Hp3 in Hb. destruct (decide (a = b)) as [<-|Hab].
    + rewrite lookup_insert_eq in Hb. injection Hb as <-. cbn. split; [done|].
      rewrite decide_False by done. by rewrite Ho, lookup_insert_eq.
    + rewrite lookup_insert_ne in Hb by done. destruct (Hc b m Hb) as [Hob Hcb].
      split; [done|]. rewrite Hob in *.
      rewrite lookup_insert_ne by lia. destruct (decide (b ∈ free)) as [Hbf|Hbf].
      * by rewrite decide_True in Hcb by (by apply elem_of_cons; right).
      * rewrite decide_False in Hcb; [done|]. by apply not_elem_of_cons; split; [congruence|].
  - intros o c Hoc. apply lookup_insert_Some in Hoc as [[<- <-]|[_ Hoc]]; [done|by apply Hk].
  - cbn. rewrite map_size_insert_None, Ha by done.
    destruct S. rewrite zlen_cons in Ht. pose proof (zlen_nonneg free). rewrite u32_small; lia.
  - cbn. rewrite map_size_insert_None by done. rewrite zlen_cons in Ht. lia.
Qed.

(** What every operation does first. *)
Lemma count_positive p counts free o c : pool_cells p counts free -> counts !! o = Some c ->
  (p_allocCount p =? 0) = false.
Proof.
  intros [_ _ _ _ _ _ Ha _] Ho. apply Z.eqb_neq. rewrite Ha.
  assert (size counts <> 0%nat); [|lia]. intros E. apply map_size_empty_inv in E. by subst.
Qed.

Lemma node_of p counts free o c : pool_cells p counts free -> counts !! o = Some c ->
  exists n, p_nodes p !! (o + p_sizeObject p) = Some n /\ pn_object n = o /\
        pn_retainCount n = c /\ o + p_sizeObject p ∉ free.
Proof.
  intros [S Hf Hd Hn Hc Hk Ha Ht] Ho. destruct (Hk o c Ho) as [_ Hobj].
  destruct (proj2 (Hn (o + p_sizeObject p))) as [n Hnn].
  { by rewrite Z.add_simpl_r. }
  exists n. split; [done|]. destruct (Hc _ _ Hnn) as [Hno Hcn].
  rewrite Z.add_simpl_r in Hno. rewrite Hno in Hcn. split; [done|].
  case_decide; [congruence|]. split; [congruence|done].
Qed.

Lemma set_count_cells p counts free o n c c' : pool_cells p counts free ->
  counts !! o = Some c -> p_nodes p !! (o + p_sizeObject p) = Some n -> 0 < c' < 2 ^ 32 ->
  pool_cells (set_nodes (<[o + p_sizeObject p := with_retainCount c' n]> (p_nodes p)) p)
    (<[o := c']> counts) free.
Proof.
  intros C Ho Hn Hc'. destruct (node_of p counts free o c C Ho) as (n' & Hn' & Hob & Hcn & Hnf).
  rewrite Hn in Hn'. injection Hn' as <-. destruct C as [S Hf Hd Hns Hc Hk Ha Ht]. split.
  - destruct S. by split.
  - cbn. by apply linked_insert.
  - done.
  - intros b. cbn. rewrite (nodes_insert p _ _ n Hn b). apply Hns.
  - intros b m Hb. cbn in *. destruct (decide (o + p_sizeObject p = b)) as [<-|Hab].
    + rewrite lookup_insert_eq in Hb. injection Hb as <-. cbn. split; [lia|].
      rewrite decide_False by done. by rewrite Hob, lookup_insert_eq.
    + rewrite lookup_insert_ne in Hb by done. destruct (Hc b m Hb) as [Hob' Hcb].
      split; [done|]. rewrite lookup_insert_ne by lia. done.
  - intros o' x Hx. apply lookup_insert_Some in Hx as [[<- <-]|[_ Hx]]; [|by apply Hk].
    split; [done|]. by apply Hk in Ho as [_ ?].
  - cbn. by rewrite map_size_insert_Some by (by eexists).
  - cbn. by rewrite map_size_insert_Some by (by eexists).
Qed.

(** Freeing a node whose retain count has been set to anything. *)
Lemma pool_free_node_spec p counts free o c n x : pool_cells p counts free ->
  counts !! o = Some c -> p_nodes p !! (o + p_sizeObject p) = Some n ->
  exists p', pool_free_node (o + p_sizeObject p)
      (set_nodes (<[o + p_sizeObject p := with_retainCount x n]> (p_nodes p)) p) = Done (tt, p') /\
    pool_cells p' (delete o counts) ((o + p_sizeObject p) :: free) /\
    p_sizeObject p' = p_sizeObject p /\ p_memblock p' = p_memblock p /\
    p_capacity p' = p_capacity p.
Proof.
  intros C Ho Hn. destruct (node_of p counts free o c C Ho) as (n' & Hn' & Hob & Hcn & Hnf).
  rewrite Hn in Hn'. injection Hn' as <-. pose proof C as [S Hf Hd Hns Hc Hk Ha Ht].
  set (a := o + p_sizeObject p) in *. set (p1 := set_nodes _ p).
  unfold pool_free_node. rewrite bind_get.
  assert (H1 : p_nodes p1 !! a = Some (with_retainCount x n)) by (cbn; by rewrite lookup_insert_eq).
  rewrite (bind_done _ _ _ _ _ (pool_update_done a _ _ p1 H1)), bind_modify.
  set (p2 := set_freeList a _).
  assert (H2 : p_nodes p2 !! a = Some (with_next (p_freeList p1) (with_retainCount x n)))
    by (cbn; by rewrite lookup_insert_eq).
  rewrite (bind_done _ _ _ _ _ (pool_update_done a _ _ p2 H2)).
  eexists. split; [reflexivity|]. split; [|done].
  set (m := with_retainCount 0 (with_next (p_freeList p1) (with_retainCount x n))).
  assert (Hsz : size counts = (1 + size (delete o counts))%nat).
  { rewrite map_size_delete, Ho. cbn. assert (size counts <> 0%nat); [|lia].
    intros E. apply map_size_empty_inv in E. by subst. }
  assert (Hobj : is_object p o) by (by apply Hk in Ho as [_ ?]).
  destruct (is_object_bounds p o S Hobj) as [Hlo _].
  split.
  - destruct S. by split.
  - cbn. rewrite !insert_insert_eq. split; [done|]. split; [destruct S; unfold a; lia|].
    exists m. rewrite lookup_insert_eq. split; [done|]. cbn. by apply linked_insert.
  - by apply NoDup_cons.
  - intros b. cbn. rewrite !insert_insert_eq. rewrite (nodes_insert p a m n Hn b). apply Hns.
  - intros b k Hb. cbn in Hb. rewrite !insert_insert_eq in Hb. cbn [set_allocCount set_nodes p_sizeObject].
    change (p_sizeObject p2) with (p_sizeObject p).
    destruct (decide (a = b)) as [<-|Hab].
    + rewrite lookup_insert_eq in Hb. injection Hb as <-. cbn. split; [unfold a; lia|].
      rewrite decide_True by (by apply elem_of_cons; left). by rewrite Hob, lookup_delete_eq.
    + rewrite lookup_insert_ne in Hb by done. destruct (Hc b k Hb) as [Hob' Hcb].
      split; [done|]. rewrite Hob' in *. rewrite lookup_delete_ne by (unfold a in Hab; lia).
      destruct (decide (b ∈ free)) as [Hbf|Hbf].
      * by rewrite decide_True by (by apply elem_of_cons; right).
      * rewrite decide_False; [done|]. by apply not_elem_of_cons.
  - intros o' y Hy. apply lookup_delete_Some in Hy as [_ Hy]. by apply Hk in Hy.
  - cbn. rewrite Ha, Hsz. destruct S. pose proof (zlen_nonneg free). rewrite u32_small; lia.
  - cbn. rewrite zlen_cons. lia.
Qed.

(** *** Weaving the free list *)

Definition node_addr (p : pool_s) (i : Z) : Z :=
  p_memblock p + i * p_sizeObjectNode p + p_sizeObject p.

(** After [i] nodes. *)
Record woven (p : pool_s) (i prevNode : Z) : Prop := {
  wv_linked : linked pn_next (p_nodes p) (p_freeList p) (node_addr p <$> seqZ 0 i);
  wv_prev : 0 < i -> prevNode = node_addr p (i - 1);
  wv_nodes : forall a, is_Some (p_nodes p !! a) <-> exists j, 0 <= j < i /\ a = node_addr p j;
  wv_object : forall a n, p_nodes p !! a = Some n -> pn_object n = a - p_sizeObject p;
}.

Lemma node_addr_inj p i j : pool_shape p -> node_addr p i = node_addr p j -> i = j.
Proof.
  intros [H1 H2 H3 H4 H5 H6] E. unfold node_addr, sizeof_pool_node_s in *.
  assert (0 < p_sizeObjectNode p) by lia. nia.
Qed.

Lemma node_addr_bounds p i : pool_shape p -> 0 <= i < p_capacity p ->
  0 < p_memblock p <= node_addr p i /\ node_addr p i + sizeof_pool_node_s <= p_membound p.
Proof.
  intros [H1 H2 H3 H4 H5 H6] Hi. unfold node_addr, sizeof_pool_node_s in *. rewrite H5.
  assert (0 < p_sizeObjectNode p) by lia. nia.
Qed.

(** The nodes are those of the objects that have been woven. *)
Lemma woven_more p i nd : (forall b, is_Some (p_nodes p !! b) <-> exists j, 0 <= j < i /\ b = node_addr p j) -> 0 <= i ->
  forall h : gmap Z pool_node_s, (forall b, is_Some (h !! b) <-> is_Some (<[node_addr p i := nd]> (p_nodes p) !! b)) ->
  forall b, is_Some (h !! b) <-> exists j, 0 <= j < i + 1 /\ b = node_addr p j.
Proof.
  intros Hn Hi h Hh b. rewrite Hh. destruct (decide (node_addr p i = b)) as [<-|Hab].
  - rewrite lookup_insert_eq. split; [intros _; exists i; split; [lia|done]|by eexists].
  - rewrite lookup_insert_ne, Hn by done. split; intros (j & Hj & ->); exists j; (split; [|done]); [lia|].
    destruct (decide (j = i)) as [->|]; [done|lia].
Qed.

Lemma seqZ_snoc (f : Z -> Z) i : 0 <= i -> f <$> seqZ 0 (i + 1) = (f <$> seqZ 0 i) ++ [f i].
Proof. intros Hi. by rewrite seqZ_app, fmap_app by lia. Qed.

Lemma weave_step p i prevNode : pool_shape p -> 0 <= i < p_capacity p -> woven p i prevNode ->
  exists p', (init_node (node_addr p i) (mkPoolNode (node_addr p i - p_sizeObject p) 0 0) ;;
      (if p_freeList p =? 0 then modify (set_freeList (node_addr p i))
       else pool_update_node prevNode (with_next (node_addr p i)))) p = Done (tt, p') /\
    woven p' (i + 1) (node_addr p i) /\ pool_shape p' /\ node_addr p' = node_addr p /\
    p_capacity p' = p_capacity p /\ p_sizeObject p' = p_sizeObject p /\
    p_sizeObjectNode p' = p_sizeObjectNode p /\ p_allocCount p' = p_allocCount p /\
    p_memblock p' = p_memblock p.
Proof.
  intros S Hi [Hl Hp Hn Ho]. destruct (node_addr_bounds p i S Hi) as [Hb1 Hb2].
  set (a := node_addr p i) in *. set (nd := mkPoolNode (a - p_sizeObject p) 0 0).
  rewrite (bind_done _ _ _ _ _ (init_node_done a nd p ltac:(lia) Hb2)).
  assert (Hfresh : a ∉ node_addr p <$> seqZ 0 i).
  { rewrite list_elem_of_fmap. intros (j & E & Hj%elem_of_seqZ). apply node_addr_inj in E; [lia|done]. }
  pose proof (seqZ_snoc (node_addr p) i (proj1 Hi)) as Hsnoc. fold a in Hsnoc.
  pose proof (woven_more p i nd Hn (proj1 Hi)) as Hnodes. fold a in Hnodes.
  destruct (decide (i = 0)) as [->|Hi0].
  - cbn in Hl. rewrite Hl, Z.eqb_refl. eexists. split; [reflexivity|].
    split; [|split; [destruct S; by split|done]]. split.
    + change (linked pn_next (<[a := nd]> (p_nodes p)) a (node_addr p <$> seqZ 0 (0 + 1))).
      rewrite Hsnoc. split; [done|]. split; [lia|]. exists nd. by rewrite lookup_insert_eq.
    + done.
    + by apply Hnodes.
    + intros b n Hb. cbn in Hb. apply lookup_insert_Some in Hb as [[<- <-]|[_ Hb]]; [done|by apply Ho].
  - specialize (Hp ltac:(lia)). subst prevNode.
    assert (Hne : p_freeList p <> 0).
    { rewrite (seqZ_cons 0) in Hl by lia. by destruct Hl as (-> & ? & _). }
    rewrite (proj2 (Z.eqb_neq _ _)) by done.
    assert (Hlast : exists l, node_addr p <$> seqZ 0 i = l ++ [node_addr p (i - 1)]).
    { exists (node_addr p <$> seqZ 0 (i - 1)). rewrite <- seqZ_snoc by lia. by replace (i - 1 + 1) with i by lia. }
    destruct Hlast as [l El]. set (t := node_addr p (i - 1)) in *.
    assert (Hta : t <> a).
    { intros E. apply Hfresh. rewrite El, <- E. apply elem_of_app. right. by apply list_elem_of_singleton. }
    destruct (proj2 (Hn t)) as [nt Hnt]; [exists (i - 1); split; [lia|done]|].
    set (p1 := set_nodes (<[a := nd]> (p_nodes p)) p).
    assert (Hnt1 : p_nodes p1 !! t = Some nt) by (cbn; by rewrite lookup_insert_ne).
    rewrite (pool_update_done t _ nt p1 Hnt1). eexists. split; [reflexivity|].
    split; [|split; [destruct S; by split|done]]. split.
    + change (linked pn_next (<[t := with_next a nt]> (<[a := nd]> (p_nodes p))) (p_freeList p)
        (node_addr p <$> seqZ 0 (i + 1))).
      rewrite El in Hl, Hfresh. rewrite Hsnoc, El, <- app_assoc.
      apply (linked_snoc pn_next _ _ _ t a nd); [by apply linked_insert| |done|lia|by rewrite lookup_insert_eq|done|done].
      rewrite <- El. apply NoDup_fmap_2_strong; [|apply NoDup_seqZ].
      intros x y _ _. by apply node_addr_inj.
    + intros _. by rewrite Z.add_simpl_r.
    + apply Hnodes. intros b. by apply (nodes_insert p1 t _ nt Hnt1).
    + intros b n Hb. cbn in Hb. apply lookup_insert_Some in Hb as [[<- <-]|[_ Hb]]; [by apply (Ho t nt)|].
      apply lookup_insert_Some in Hb as [[<- <-]|[_ Hb]]; [done|by apply Ho].
Qed.

Lemma weave_nodes_spec n i prevNode addrNode p :
  pool_shape p -> 0 <= i -> i + Z.of_nat n = p_capacity p -> woven p i prevNode ->
  ((0 < n)%nat -> addrNode = node_addr p i) ->
  exists p' prev, weave_nodes n prevNode addrNode p = Done (tt, p') /\
    woven p' (p_capacity p) prev /\ pool_shape p' /\ p_capacity p' = p_capacity p /\
    p_sizeObject p' = p_sizeObject p /\ p_sizeObjectNode p' = p_sizeObjectNode p /\
    p_allocCount p' = p_allocCount p /\ p_memblock p' = p_memblock p.
Proof.
  revert i prevNode addrNode p. induction n as [|n IH]; intros i prevNode addrNode p S Hi Hn W Ha.
  { exists p, prevNode. split; [done|]. replace (p_capacity p) with i by lia. done. }
  cbn [weave_nodes]. rewrite bind_get. rewrite Ha by lia.
  destruct (weave_step p i prevNode S ltac:(lia) W) as (p1 & E & W1 & S1 & Ea & Ec & Es & Esn & Eal & Em).
  rewrite <- bind_assoc, (bind_done _ _ _ _ _ E). rewrite <- Ec.
  destruct (IH (i + 1) (node_addr p i) (u64 (node_addr p i + p_sizeObjectNode p)) p1)
    as (p2 & prev & E2 & W2 & S2 & F1 & F2 & F3 & F4 & F5); [done|lia|lia|done| |].
  - intros Hn0. rewrite Ea. destruct (node_addr_bounds p (i + 1) S ltac:(lia)) as [Hb1 Hb2].
    assert (Enext : node_addr p i + p_sizeObjectNode p = node_addr p (i + 1)) by (unfold node_addr; lia).
    rewrite Enext. destruct S. unfold sizeof_pool_node_s in *. apply u64_small. lia.
  - exists p2, prev. rewrite E2. split; [done|]. split; [done|]. split; [done|].
    split; [done|]. split; [congruence|]. split; [congruence|]. split; congruence.
Qed.

Lemma node_addr_object p a i : a = node_addr p i -> a - p_sizeObject p = p_memblock p + i * p_sizeObjectNode p.
Proof. intros ->. unfold node_addr. lia. Qed.

Lemma woven_cells p prev : pool_shape p -> woven p (p_capacity p) prev -> p_allocCount p = 0 ->
  pool_cells p ∅ (node_addr p <$> seqZ 0 (p_capacity p)).
Proof.
  intros S [Hl Hp Hn Ho] Ha. split.
  - done.
  - done.
  - apply NoDup_fmap_2_strong; [|apply NoDup_seqZ]. intros x y _ _. by apply node_addr_inj.
  - intros a. rewrite Hn. unfold is_object. split.
    + intros (j & Hj & E). exists j. split; [done|by apply node_addr_object].
    + intros (j & Hj & E). exists j. split; [done|]. unfold node_addr. lia.
  - intros a n Han. split; [by apply Ho|]. rewrite decide_True; [by rewrite lookup_empty|].
    destruct (proj1 (Hn a) ltac:(by eexists)) as (j & Hj & ->). apply list_elem_of_fmap.
    exists j. split; [done|]. apply elem_of_seqZ. lia.
  - intros o c E. by rewrite lookup_empty in E.
  - by rewrite map_size_empty.
  - rewrite map_size_empty. unfold zlen. rewrite length_fmap, length_seqZ. destruct S. lia.
Qed.

Lemma count_nodes_spec n nodes p l c : linked pn_next nodes p l -> (length l <= n)%nat ->
  count_nodes n nodes p c = Done (c + zlen l).
Proof.
  revert p l c. induction n as [|n IH]; intros p l c Hl Hn.
  - destruct l; [|simpl in Hn; lia]. cbn in Hl. subst p. cbn. rewrite zlen_nil. f_equal. lia.
  - destruct l as [|a l]; [cbn in Hl; subst p; cbn; rewrite zlen_nil; f_equal; lia|].
    destruct Hl as (-> & Ha & x & Hx & Hl). cbn [count_nodes].
    rewrite (proj2 (Z.eqb_neq a 0)), Hx by done.
    rewrite (IH _ l); [|done|simpl in Hn; lia]. rewrite zlen_cons. f_equal. lia.
Qed.

(** *** Each operation on the map of counts *)

(** Where the objects of a pool are. *)
Record same_block (p p' : pool_s) : Prop := {
  sb_size : p_sizeObject p' = p_sizeObject p;
  sb_node : p_sizeObjectNode p' = p_sizeObjectNode p;
  sb_block : p_memblock p' = p_memblock p;
  sb_capacity : p_capacity p' = p_capacity p;
}.

Lemma same_block_object p p' o : same_block p p' -> is_object p' o <-> is_object p o.
Proof. intros [E1 E2 E3 E4]. unfold is_object. by rewrite E2, E3, E4. Qed.

Lemma cells_same_block p p' counts free counts' free' : pool_cells p counts free ->
  pool_cells p' counts' free' -> p_sizeObject p' = p_sizeObject p ->
  p_memblock p' = p_memblock p -> p_capacity p' = p_capacity p -> same_block p p'.
Proof. intros [[]] [[]] E1 E2 E3. split; congruence. Qed.

Lemma pool_alloc_holds p counts : pool_holds p counts ->
  exists o p', pool_alloc p = Done (o, p') /\ same_block p p' /\
    if Z.of_nat (size counts) =? p_capacity p then o = 0 /\ p' = p
    else counts !! o = None /\ is_object p o /\ o <> 0 /\ pool_holds p' (<[o := 1]> counts).
Proof.
  intros (free & C). pose proof C as [S Hf Hd Hn Hc Hk Ha Ht].
  pose proof (pool_alloc_spec p counts free C) as P. destruct free as [|a free].
  - rewrite zlen_nil in Ht. rewrite (proj2 (Z.eqb_eq _ _)) by lia. by eexists _, p.
  - rewrite zlen_cons in Ht. pose proof (zlen_nonneg free).
    rewrite (proj2 (Z.eqb_neq _ _)) by lia.
    destruct P as (p' & E & H1 & H2 & H3 & H4 & H5 & H6). eexists _, p'. split; [exact E|].
    split; [by apply (cells_same_block p p' _ _ _ _ C H3)|]. split; [done|]. split; [done|].
    split; [|by exists free]. apply (is_object_bounds p _ S) in H2. destruct S. lia.
Qed.

Lemma pool_retain_holds p counts o c : pool_holds p counts -> counts !! o = Some c -> c + 1 < 2 ^ 32 ->
  exists p', pool_retain o p = Done (tt, p') /\ same_block p p' /\ pool_holds p' (<[o := c + 1]> counts).
Proof.
  intros (free & C) Ho Hc1. pose proof C as [S Hf Hd Hn Hc Hk Ha Ht].
  destruct (node_of p counts free o c C Ho) as (n & Hno & Hob & Hcn & Hnf).
  destruct (Hk o c Ho) as [Hc0 Hobj]. destruct (is_object_belongs p o S Hobj) as [Hb Hu].
  unfold pool_retain. rewrite bind_get, (count_positive p counts free o c C Ho), Hb, Hu.
  rewrite (pool_update_done _ _ n p Hno). eexists. split; [reflexivity|]. split; [done|].
  exists free. rewrite Hcn, u32_small by lia. apply (set_count_cells p counts free o n c); auto. lia.
Qed.

(** The last reference: the object is free, and first in line. *)
Lemma pool_release_last p counts free o : pool_cells p counts free -> counts !! o = Some 1 ->
  exists p', pool_release o p = Done (tt, p') /\ same_block p p' /\
    pool_cells p' (delete o counts) ((o + p_sizeObject p) :: free).
Proof.
  intros C Ho. pose proof C as [S Hf Hd Hn Hc Hk Ha Ht].
  destruct (node_of p counts free o 1 C Ho) as (n & Hno & Hob & Hcn & Hnf).
  destruct (Hk o 1 Ho) as [_ Hobj]. destruct (is_object_belongs p o S Hobj) as [Hb Hu].
  destruct (pool_free_node_spec p counts free o 1 n 0 C Ho Hno) as (p' & E & C' & F1 & F2 & F3).
  exists p'. split; [|split; [by apply (cells_same_block p p' _ _ _ _ C C')|done]].
  unfold pool_release. rewrite bind_get, (count_positive p counts free o 1 C Ho), Hb, Hu.
  rewrite (bind_done _ _ _ _ _ (pool_update_done _ _ n p Hno)), Hcn, u32_small by lia.
  set (p1 := set_nodes _ p).
  assert (H1 : p_nodes p1 !! (o + p_sizeObject p) = Some (with_retainCount (1 - 1) n))
    by (cbn; by rewrite lookup_insert_eq).
  rewrite (bind_done _ _ _ _ _ (pool_get_done _ _ p1 H1)). exact E.
Qed.

Lemma pool_release_holds p counts o c : pool_holds p counts -> counts !! o = Some c ->
  exists p', pool_release o p = Done (tt, p') /\ same_block p p' /\
    pool_holds p' (if c =? 1 then delete o counts else <[o := c - 1]> counts).
Proof.
  intros (free & C) Ho. destruct (Z.eqb_spec c 1) as [->|Hc1].
  { destruct (pool_release_last p counts free o C Ho) as (p' & E & B & C'). exists p'. do 2 (split; [done|]). by eexists. }
  pose proof C as [S Hf Hd Hn Hc Hk Ha Ht].
  destruct (node_of p counts free o c C Ho) as (n & Hno & Hob & Hcn & Hnf).
  destruct (Hk o c Ho) as [Hc0 Hobj]. destruct (is_object_belongs p o S Hobj) as [Hb Hu].
  unfold pool_release. rewrite bind_get, (count_positive p counts free o c C Ho), Hb, Hu.
  rewrite (bind_done _ _ _ _ _ (pool_update_done _ _ n p Hno)), Hcn, u32_small by lia.
  set (p1 := set_nodes _ p).
  assert (H1 : p_nodes p1 !! (o + p_sizeObject p) = Some (with_retainCount (c - 1) n))
    by (cbn; by rewrite lookup_insert_eq).
  rewrite (bind_done _ _ _ _ _ (pool_get_done _ _ p1 H1)). cbn [with_retainCount pn_retainCount].
  rewrite (proj2 (Z.eqb_neq (c - 1) 0)) by lia. eexists. split; [reflexivity|]. split; [done|].
  exists free. apply (set_count_cells p counts free o n c); auto. lia.
Qed.

(** What was given back last is given out next. *)
Lemma pool_release_reuse p counts o : pool_holds p counts -> counts !! o = Some 1 ->
  exists p' p'', pool_release o p = Done (tt, p') /\ pool_alloc p' = Done (o, p'').
Proof.
  intros (free & C) Ho. destruct (pool_release_last p counts free o C Ho) as (p' & E & [B _ _ _] & C').
  destruct (pool_alloc_spec p' _ _ C') as (p'' & E' & _). exists p', p''. split; [done|].
  rewrite E'. do 2 f_equal. rewrite B. lia.
Qed.

Lemma pool_free_holds p counts o c : pool_holds p counts -> counts !! o = Some c ->
  exists p', pool_free o p = Done (tt, p') /\ same_block p p' /\ pool_holds p' (delete o counts).
Proof.
  intros (free & C) Ho. pose proof C as [S Hf Hd Hn Hc Hk Ha Ht].
  destruct (node_of p counts free o c C Ho) as (n & Hno & Hob & Hcn & Hnf).
  destruct (Hk o c Ho) as [Hc0 Hobj]. destruct (is_object_belongs p o S Hobj) as [Hb Hu].
  unfold pool_free. rewrite bind_get, (count_positive p counts free o c C Ho), Hb, Hu.
  destruct (pool_free_node_spec p counts free o c n c C Ho Hno) as (p' & E & C' & F1 & F2 & F3).
  exists p'. split; [|split; [by apply (cells_same_block p p' _ _ _ _ C C')|by eexists]].
  rewrite <- E. f_equal. rewrite insert_id; [by destruct p|].
  rewrite Hno. f_equal. destruct n. cbn in *. by subst.
Qed.

(** ** Properties *)

Lemma pool_create_spec sizeObject capacity memblock :
  0 <= sizeObject -> 0 <= capacity < 2 ^ 31 -> 0 < memblock ->
  memblock + capacity * (sizeObject + sizeof_pool_node_s) < 2 ^ 64 ->
  sizeObject + sizeof_pool_node_s < 2 ^ 64 ->
  exists p, pool_create sizeObject capacity memblock = Done (Some p) /\ pool_holds p ∅ /\
    pool_shape p /\ p_capacity p = capacity /\ p_sizeObject p = sizeObject /\
    p_memblock p = memblock.
Proof.
  intros Hs Hc Hm Hw Hs2. unfold pool_create, sizeof_pool_node_s in *.
  rewrite (proj2 (Z.eqb_neq memblock 0)) by lia.
  rewrite (u64_small (sizeObject + 24)) by lia.
  rewrite (u64_small (capacity * (sizeObject + 24))) by nia.
  rewrite (u64_small (memblock + _)) by nia.
  set (p0 := mkPool _ _ _ _ _ _ _ _).
  assert (S0 : pool_shape p0) by (split; cbn; unfold sizeof_pool_node_s; lia).
  unfold pool_weave_freelist. rewrite bind_get.
  destruct (weave_nodes_spec (Z.to_nat capacity) 0 0 (u64 (memblock + sizeObject)) p0)
    as (p & prev & E & W & S & F1 & F2 & F3 & F4 & F5); [done|lia|cbn; lia| | |].
  - split; cbn; [done|lia| |intros a n E; by rewrite lookup_empty in E].
    intros a. rewrite lookup_empty. split; [by intros [? ?]|intros (j & ? & _); lia].
  - intros H0. unfold node_addr. cbn. rewrite u64_small by nia. lia.
  - change (p_capacity p0) with capacity. change (p_memblock p0) with memblock.
    change (p_sizeObject p0) with sizeObject. rewrite E. exists p. split; [done|].
    split; [eexists; eapply woven_cells; [done| |done]; by rewrite F1|]. done.
Qed.

(** [pool_create] weaves [capacity] objects in the block, inside it and
    all of them free, or returns NULL without memory. *)
Theorem pool_create_holds sizeObject capacity memblock :
  0 <= sizeObject -> 0 <= capacity < 2 ^ 31 -> 0 < memblock ->
  memblock + capacity * (sizeObject + sizeof_pool_node_s) < 2 ^ 64 ->
  sizeObject + sizeof_pool_node_s < 2 ^ 64 ->
  pool_create sizeObject capacity 0 = Done None /\
  exists p, pool_create sizeObject capacity memblock = Done (Some p) /\
    pool_holds p ∅ /\ pool_capacity p = capacity /\
    forall o, is_object p o -> memblock <= o /\ o + sizeObject <= p_membound p.
Proof.
  intros Hs Hc Hm Hw Hs2. split; [done|].
  destruct (pool_create_spec sizeObject capacity memblock Hs Hc Hm Hw Hs2)
    as (p & E & Hp & S & F1 & F2 & F3).
  exists p. split; [done|]. split; [done|]. split; [done|]. intros o Ho.
  apply (is_object_bounds p o S) in Ho as [H1 H2]. destruct S. rewrite ps_size0, F2 in H2.
  unfold sizeof_pool_node_s in H2. lia.
Qed.

Lemma pool_counters p counts : pool_holds p counts ->
  debug_pool_alloc_count p = Z.of_nat (size counts) /\
  debug_pool_free_count p = Done (p_capacity p - Z.of_nat (size counts)).
Proof.
  intros (free & [S Hf Hd Hn Hc Hk Ha Ht]). split; [done|].
  unfold debug_pool_free_count. rewrite (count_nodes_spec _ _ _ free _ Hf); [f_equal; lia|].
  rewrite <- size_dom, <- (size_list_to_set (C := gset Z) free) by done.
  apply subseteq_size. intros a Hin. apply elem_of_dom. apply elem_of_list_to_set in Hin.
  by apply (linked_lookup _ _ _ _ a Hf).
Qed.

Inductive pool_op := PAlloc | PRetain (o : Z) | PRelease (o : Z) | PFree (o : Z) | PCounts.

(** The operations, with the object that is allocated or the two counters. *)
Definition pool_step (op : pool_op) : prog pool_s (list Z) :=
  match op with
  | PAlloc => o <- pool_alloc ;; ret [o]
  | PRetain o => pool_retain o ;; ret []
  | PRelease o => pool_release o ;; ret []
  | PFree o => pool_free o ;; ret []
  | PCounts => p <- get ;; n <- lift (debug_pool_free_count p) ;; ret [debug_pool_alloc_count p; n]
  end.

(** The machine of the pool [p]: a map from the allocated objects to their
    retain counts. Which object is allocated is up to the pool. *)
Definition may_pool (op : pool_op) (counts : gmap Z Z) : Prop :=
  match op with
  | PAlloc | PCounts => True
  | PRetain o => exists c, counts !! o = Some c /\ c + 1 < 2 ^ 32
  | PRelease o | PFree o => is_Some (counts !! o)
  end.

Definition does_pool (p : pool_s) (op : pool_op) (counts : gmap Z Z) (out : list Z) (counts' : gmap Z Z) : Prop :=
  match op with
  | PAlloc =>
      if Z.of_nat (size counts) =? p_capacity p then out = [0] /\ counts' = counts
      else exists o, out = [o] /\ counts !! o = None /\ is_object p o /\ o <> 0 /\ counts' = <[o := 1]> counts
  | PRetain o => out = [] /\ counts' = alter (Z.add 1) o counts
  | PRelease o => out = [] /\
      counts' = if decide (counts !! o = Some 1) then delete o counts else alter Z.pred o counts
  | PFree o => out = [] /\ counts' = delete o counts
  | PCounts => out = [Z.of_nat (size counts); p_capacity p - Z.of_nat (size counts)] /\ counts' = counts
  end.

Definition counts_machine (p : pool_s) : machine (gmap Z Z) pool_op (list Z) := mkMachine may_pool (does_pool p).

Definition pool_of (p0 p : pool_s) (counts : gmap Z Z) : Prop := pool_holds p counts /\ same_block p0 p.

Lemma same_block_trans p p' p'' : same_block p p' -> same_block p' p'' -> same_block p p''.
Proof. intros [] []. split; congruence. Qed.

Lemma alter_present (f : Z -> Z) o (counts : gmap Z Z) c : counts !! o = Some c -> alter f o counts = <[o := f c]> counts.
Proof.
  intros E. apply map_eq. intros i. destruct (decide (i = o)) as [->|Hi].
  - by rewrite lookup_alter_eq, lookup_insert_eq, E.
  - by rewrite lookup_alter_ne, lookup_insert_ne by done.
Qed.

#[export] Instance pool_implements p0 : Implements pool_step (counts_machine p0) (pool_of p0).
Proof.
  intros op p counts [H B] M. pose proof (sb_capacity _ _ B) as Ec. destruct op as [|o|o|o|]; cbn [pool_step may does counts_machine may_pool does_pool] in *.
  - destruct (pool_alloc_holds p counts H) as (o & p' & E & B' & A). rewrite (bind_done _ _ _ _ _ E). rewrite Ec in A.
    destruct (_ =? _).
    + destruct A as [-> ->]. by exists [0], p, counts.
    + destruct A as (A1 & A2 & A3 & A4). exists [o], p', (<[o := 1]> counts). split; [done|]. split; [exists o; split; [done|]; split; [done|]; split; [by apply (same_block_object p0 p o B)|done]|].
      split; [done|by eapply same_block_trans].
  - destruct M as (c & Ho & Hc). destruct (pool_retain_holds p counts o c H Ho Hc) as (p' & E & B' & H').
    rewrite (bind_done _ _ _ _ _ E). eexists _, _, _. split; [done|]. split; [done|].
    rewrite (alter_present _ _ _ _ Ho), Z.add_comm. split; [done|by eapply same_block_trans].
  - destruct M as (c & Ho). destruct (pool_release_holds p counts o c H Ho) as (p' & E & B' & H').
    rewrite (bind_done _ _ _ _ _ E). eexists _, _, _. split; [done|]. split; [done|]. split; [|by eapply same_block_trans].
    rewrite (alter_present _ _ _ _ Ho), Ho. destruct (Z.eqb_spec c 1) as [->|Hc]; [by rewrite decide_True|].
    rewrite decide_False by congruence. exact H'.
  - destruct M as (c & Ho). destruct (pool_free_holds p counts o c H Ho) as (p' & E & B' & H').
    rewrite (bind_done _ _ _ _ _ E). eexists _, _, _. split; [done|]. split; [done|]. split; [done|by eapply same_block_trans].
  - destruct (pool_counters p counts H) as [E1 E2]. rewrite bind_get. unfold bind, lift. rewrite E2, E1, Ec.
    by eexists _, _, _.
Qed.

(** C21: a pool is a map from the allocated objects to their retain counts: for
    any client that retains, releases and frees only what it holds, allocating
    returns a new object with count one, or NULL exactly when all are
    allocated; retaining and releasing count up and down, releasing the last
    reference and freeing give the object back; the counters agree. *)
Theorem pool_refines_counts p counts k n : pool_holds p counts -> polite (counts_machine p) k n [] counts ->
  exists answers p' counts', serve pool_step k n [] p = Done (answers, p') /\
    session (counts_machine p) k n [] counts answers counts' /\ pool_holds p' counts'.
Proof.
  intros H P. destruct (serve_session (holds := pool_of p) k n [] p counts) as (answers & p' & counts' & E & S & H' & _);
    [by split|done|by exists answers, p', counts'].
Qed.

(** an address outside the block is ignored by every operation. *)
Theorem pool_foreign_ignored p o :
  (o < p_memblock p \/ p_membound p <= o) ->
  pool_retain o p = Done (tt, p) /\ pool_release o p = Done (tt, p) /\
  pool_free o p = Done (tt, p).
Proof.
  intros Ho. assert (E : mAddressDoesNotBelongsToPool o p = true).
  { unfold mAddressDoesNotBelongsToPool. apply orb_true_iff. rewrite Z.ltb_lt, Z.leb_le. lia. }
  unfold pool_retain, pool_release, pool_free. rewrite !bind_get, E.
  by destruct (p_allocCount p =? 0).
Qed.

(** *** Freeing twice *)

Lemma pool_free_node_result a n p : p_nodes p !! a = Some n ->
  pool_free_node a p = Done (tt, set_allocCount (u32 (p_allocCount p - 1))
    (set_nodes (<[a := mkPoolNode (pn_object n) 0 (p_freeList p)]> (p_nodes p)) (set_freeList a p))).
Proof.
  intros Hn. unfold pool_free_node. rewrite bind_get.
  rewrite (bind_done _ _ _ _ _ (pool_update_done a _ n p Hn)), bind_modify.
  set (p1 := set_freeList a _).
  assert (H1 : p_nodes p1 !! a = Some (with_next (p_freeList p) n)) by (cbn; by rewrite lookup_insert_eq).
  rewrite (bind_done _ _ _ _ _ (pool_update_done a _ _ p1 H1)).
  unfold modify, p1, set_allocCount, set_nodes, set_freeList. cbn. by rewrite insert_insert_eq.
Qed.

Lemma pool_alloc_result a n p : p_freeList p = a -> a <> 0 -> p_nodes p !! a = Some n ->
  pool_alloc p = Done (pn_object n, set_allocCount (u32 (p_allocCount p + 1))
    (set_nodes (<[a := mkPoolNode (pn_object n) 1 0]> (p_nodes p)) (set_freeList (pn_next n) p))).
Proof.
  intros E Ha Hn. unfold pool_alloc. rewrite bind_get, E, (proj2 (Z.eqb_neq a 0)) by done.
  rewrite (bind_done _ _ _ _ _ (pool_get_done a n p Hn)), bind_modify.
  rewrite (bind_done _ _ _ _ _ (pool_update_done a _ n (set_freeList (pn_next n) p) Hn)).
  set (p1 := set_nodes _ _).
  assert (H1 : p_nodes p1 !! a = Some (with_next 0 n)) by (cbn; by rewrite lookup_insert_eq).
  rewrite (bind_done _ _ _ _ _ (pool_update_done a _ _ p1 H1)), bind_modify.
  set (p2 := set_allocCount _ _).
  assert (H2 : p_nodes p2 !! a = Some (mkPoolNode (pn_object n) 1 0)) by (cbn; by rewrite lookup_insert_eq).
  rewrite (bind_done _ _ _ _ _ (pool_get_done a _ p2 H2)).
  unfold ret, p2, p1, set_allocCount, set_nodes, set_freeList. cbn. by rewrite insert_insert_eq.
Qed.

Lemma pool_free_result o n p : (p_allocCount p =? 0) = false ->
  mAddressDoesNotBelongsToPool o p = false -> u64 (o + p_sizeObject p) = o + p_sizeObject p ->
  p_nodes p !! (o + p_sizeObject p) = Some n ->
  pool_free o p = Done (tt, set_allocCount (u32 (p_allocCount p - 1))
    (set_nodes (<[o + p_sizeObject p := mkPoolNode (pn_object n) 0 (p_freeList p)]> (p_nodes p))
      (set_freeList (o + p_sizeObject p) p))).
Proof.
  intros Ha Hb Hu Hn. unfold pool_free. rewrite bind_get, Ha, Hb, Hu. by apply pool_free_node_result.
Qed.

(** freeing an object twice while another one is allocated is not noticed:
    the next two allocations hand out the same object. *)
Theorem pool_double_free p counts o c :
  pool_holds p counts -> counts !! o = Some c -> 2 <= Z.of_nat (size counts) ->
  exists p1 p2 p3 p4, pool_free o p = Done (tt, p1) /\ pool_free o p1 = Done (tt, p2) /\
    pool_alloc p2 = Done (o, p3) /\ pool_alloc p3 = Done (o, p4).
Proof.
  intros (free & C) Ho H2. destruct (node_of p counts free o c C Ho) as (n & Hn & Hob & _).
  pose proof C as [S _ _ _ _ Hk Ha Ht]. pose proof (zlen_nonneg free) as Hz.
  destruct (is_object_belongs p o S ltac:(by apply Hk in Ho as [_ ?])) as [Hb Hu].
  assert (Hcap : Z.of_nat (size counts) < 2 ^ 31) by (destruct S; lia).
  assert (Ha0 : o + p_sizeObject p <> 0).
  { destruct (is_object_bounds p o S ltac:(by apply Hk in Ho as [_ ?])). destruct S. lia. }
  set (a := o + p_sizeObject p) in *.
  eexists _, _, _, _. split; [apply (pool_free_result o n); auto; apply Z.eqb_neq; lia|].
  fold a. rewrite Hob. set (p1 := set_allocCount _ _).
  assert (H1 : p_nodes p1 !! a = Some (mkPoolNode o 0 (p_freeList p)))
    by (cbn; by rewrite lookup_insert_eq).
  split; [apply (pool_free_result o (mkPoolNode o 0 (p_freeList p)) p1); [cbn; apply Z.eqb_neq; rewrite u32_small; lia|exact Hb|exact Hu|exact H1]|].
  change (o + p_sizeObject p1) with a. set (p2 := set_allocCount _ _).
  assert (H2' : p_nodes p2 !! a = Some (mkPoolNode o 0 a)) by (cbn; by rewrite lookup_insert_eq).
  split; [by apply (pool_alloc_result a (mkPoolNode o 0 a) p2 eq_refl Ha0 H2')|].
  set (p3 := set_allocCount _ _).
  assert (H3 : p_nodes p3 !! a = Some (mkPoolNode o 1 0)) by (cbn; by rewrite lookup_insert_eq).
  by apply (pool_alloc_result a (mkPoolNode o 1 0) p3 eq_refl Ha0 H3).
Qed.

(** *** Concrete instances *)

Definition demo_pool : pool_s :=
  mkPool 1000 (1000 + 3 * 32) 8 32 3 1072 2
    (list_to_map [(1008, mkPoolNode 1000 1 0); (1040, mkPoolNode 1032 5 0);
                  (1072, mkPoolNode 1064 0 0)]).

Definition demo_counts : gmap Z Z := list_to_map [(1000, 1); (1032, 5)].

Lemma demo_pool_holds : pool_holds demo_pool demo_counts.
Proof.
  exists [1072]. assert (Hnodes : forall a n, p_nodes demo_pool !! a = Some n ->
    (a, n) ∈ [(1008, mkPoolNode 1000 1 0); (1040, mkPoolNode 1032 5 0); (1072, mkPoolNode 1064 0 0)]).
  { intros a n. apply elem_of_list_to_map_2. }
  split.
  - split; done.
  - split; [done|]. split; [done|]. by eexists.
  - apply NoDup_singleton.
  - intros a. split.
    + intros [n Hn%Hnodes]. rewrite !elem_of_cons, elem_of_nil in Hn.
      destruct Hn as [[= -> ->]|[[= -> ->]|[[= -> ->]|[]]]];
        [exists 0|exists 1|exists 2]; by split.
    + intros (i & Hi & E). cbn in *.
      assert (a = 1008 \/ a = 1040 \/ a = 1072) as [->|[->| ->]] by lia; by eexists.
  - intros a n Hn%Hnodes. rewrite !elem_of_cons, elem_of_nil in Hn.
    destruct Hn as [[= -> ->]|[[= -> ->]|[[= -> ->]|[]]]]; (split; [reflexivity|]);
      [rewrite decide_False by (rewrite list_elem_of_singleton; lia)
      |rewrite decide_False by (rewrite list_elem_of_singleton; lia)
      |rewrite decide_True by (by apply list_elem_of_singleton)]; reflexivity.
  - intros o c Ho. unfold demo_counts in Ho. apply elem_of_list_to_map_2 in Ho.
    rewrite !elem_of_cons, elem_of_nil in Ho.
    destruct Ho as [[= -> ->]|[[= -> ->]|[]]]; (split; [lia|]); [exists 0|exists 1]; by split.
  - reflexivity.
  - reflexivity.
Defined.

Lemma pool_create_holds_witness :
  pool_create 8 32 0 = Done None /\
  exists p, pool_create 8 32 4096 = Done (Some p) /\ pool_holds p ∅ /\ pool_capacity p = 32 /\
    forall o, is_object p o -> 4096 <= o /\ o + 8 <= p_membound p.
Proof. apply (pool_create_holds 8 32 4096); by split || done. Defined.

(** A client that retains and releases what it has just got. *)
Definition demo_client : client pool_op (list Z) := fun answers =>
  match answers with
  | [] => Some PAlloc
  | [[o]] => Some (PRetain o)
  | [[o]; []] => Some (PRelease o)
  | [[o]; []; []] => Some (PRelease o)
  | [_; []; []; []] => Some (PFree 1032)
  | [_; []; []; []; []] => Some PCounts
  | _ => None
  end.

Lemma demo_client_polite : polite (counts_machine demo_pool) demo_client 9 [] demo_counts.
Proof.
  split; [done|]. intros out c1 D. cbn [does counts_machine does_pool] in D.
  change (Z.of_nat (size demo_counts) =? p_capacity demo_pool) with false in D. cbv iota in D.
  destruct D as (o & -> & Ho & _ & _ & ->). cbn. split.
  { exists 1. rewrite lookup_insert_eq. by split. }
  intros out c2 [-> ->]. cbn. rewrite (alter_present _ _ _ 1) by apply lookup_insert_eq.
  rewrite insert_insert_eq, !lookup_insert_eq. split; [by eexists|].
  intros out c3 [-> ->]. cbn. rewrite (alter_present _ _ _ 2) by apply lookup_insert_eq.
  rewrite decide_False by done. rewrite insert_insert_eq, lookup_insert_eq. split; [by eexists|].
  intros out c4 [-> ->]. cbn. rewrite decide_True, delete_insert_eq, delete_id by done. split; [by eexists|].
  intros out c5 [-> ->]. cbn. split; [done|]. by intros out c6 [-> ->].
Defined.

Lemma pool_refines_counts_witness :
  exists answers p' counts', serve pool_step demo_client 9 [] demo_pool = Done (answers, p') /\
    session (counts_machine demo_pool) demo_client 9 [] demo_counts answers counts' /\ pool_holds p' counts'.
Proof. exact (pool_refines_counts demo_pool demo_counts demo_client 9 demo_pool_holds demo_client_polite). Defined.

Example demo_client_served : fst <$> (match serve pool_step demo_client 9 [] demo_pool with Done r => Some r | Fault _ => None end) =
  Some [[1064]; []; []; []; []; [1; 2]].
Proof. reflexivity. Qed.

Lemma pool_foreign_ignored_witness :
  pool_retain 5 demo_pool = Done (tt, demo_pool) /\ pool_release 5 demo_pool = Done (tt, demo_pool) /\
  pool_free 5 demo_pool = Done (tt, demo_pool).
Proof. apply (pool_foreign_ignored demo_pool 5). by left. Defined.

Lemma pool_double_free_witness :
  exists p1 p2 p3 p4, pool_free 1000 demo_pool = Done (tt, p1) /\ pool_free 1000 p1 = Done (tt, p2) /\
    pool_alloc p2 = Done (1000, p3) /\ pool_alloc p3 = Done (1000, p4).
Proof.
  apply (pool_double_free demo_pool demo_counts 1000 1); [exact demo_pool_holds|reflexivity|discriminate].
Defined.
