(* ===== verification/Memory.v ===== *)
(** * Blocks of memory (src/list.c, src/hashtable.c, src/pool.c, src/stream.c)

    What the containers and a stream allocate and give back.  The other files
    model what is in the blocks; here a block is only its address, so that
    leaks and second releases can be seen.  An allocation may fail, whichever
    it is. *)
From S2P Require Import Prelude.
From stdpp Require Import sets gmap.

#[local] Open Scope Z_scope.
#[local] Open Scope c_scope.

(** The blocks that are allocated. *)
Abbreviation memory := (gset Z).

(** The block of a pointer that may be NULL. *)
Definition block_of (p : Z) : memory := if p =? 0 then ∅ else {[p]}.

Section Memory.
(** [malloc], which [calloc] is for this purpose, and [realloc], which may
    leave the block where it is. *)
Context (allocate : memory -> Z).
Context (reallocate : memory -> Z -> Z).

Definition malloc : prog memory Z := fun m =>
  let p := allocate m in Done (p, block_of p ∪ m).

Definition free (p : Z) : prog memory unit := fun m =>
  if p =? 0 then Done (tt, m)
  else if decide (p ∈ m) then Done (tt, m ∖ {[p]}) else Fault OutOfBounds.

(** When it fails the old block is still there. *)
Definition realloc (p : Z) : prog memory Z := fun m =>
  if negb (p =? 0) && negb (bool_decide (p ∈ m)) then Fault OutOfBounds
  else
  let p' := reallocate m p in
  Done (p', if p' =? 0 then m else {[p']} ∪ (m ∖ block_of p)).

(** ** The blocks of a list, a table, a pool and a stream *)

(** The [struct] and the block it points to. *)
Record blocks := mkBlocks { b_struct : Z; b_memory : Z }.

(** [list_reserve] assigns the result of [realloc] before it tests it. *)
Definition list_blocks_reserve (l : blocks) : prog memory blocks :=
  reserved_mem <- realloc (b_memory l) ;;
  ret (mkBlocks (b_struct l) reserved_mem).

Definition list_blocks_create : prog memory (option blocks) :=
  new_list <- malloc ;;
  if negb (new_list =? 0) then
    l <- list_blocks_reserve (mkBlocks new_list 0) ;; ret (Some l)
  else ret None.

Definition list_destroy (l : blocks) : prog memory unit :=
  free (b_memory l) ;;
  free (b_struct l).

Definition hashtable_blocks_create : prog memory (option blocks) :=
  new_hashtable <- malloc ;;
  if negb (new_hashtable =? 0) then
    objects <- malloc ;; ret (Some (mkBlocks new_hashtable objects))
  else ret None.

Definition hashtable_destroy (ht : blocks) : prog memory unit :=
  free (b_memory ht) ;;
  free (b_struct ht).

Definition pool_blocks_create : prog memory (option blocks) :=
  p <- malloc ;;
  if negb (p =? 0) then
    memblock <- malloc ;;
    if memblock =? 0 then free p ;; ret None
    else ret (Some (mkBlocks p memblock))
  else ret None.

Definition pool_destroy (p : option blocks) : prog memory unit :=
  match p with
  | Some p => free (b_memory p) ;; free (b_struct p)
  | None => ret tt
  end.

Definition stream_block_create : prog memory Z := malloc.

(** The pointer of the caller is set to NULL. *)
Definition streamDestroy (stream : Z) : prog memory Z :=
  if negb (stream =? 0) then free stream ;; ret 0 else ret stream.

(** ** Properties *)

Hypothesis allocate_fresh : forall m, allocate m = 0 \/ (allocate m ∉ m).
Hypothesis reallocate_fresh : forall m p, reallocate m p = 0 \/ reallocate m p = p \/ (reallocate m p ∉ m).

(** One container from its creation to its destruction; a list also grows. *)
Inductive container := List (growths : nat) | Table | Pool | StreamBlock.

Fixpoint grow (n : nat) (l : blocks) : prog memory blocks :=
  match n with
  | O => ret l
  | S n' => l <- list_blocks_reserve l ;; grow n' l
  end.

Definition lifetime (c : container) : prog memory unit :=
  match c with
  | List growths =>
      l <- list_blocks_create ;;
      match l with Some l => l <- grow growths l ;; list_destroy l | None => ret tt end
  | Table =>
      ht <- hashtable_blocks_create ;;
      match ht with Some ht => hashtable_destroy ht | None => ret tt end
  | Pool => p <- pool_blocks_create ;; pool_destroy p
  | StreamBlock => stream <- stream_block_create ;; stream <- streamDestroy stream ;; stream <- streamDestroy stream ;; ret tt
  end.

(** The container [l] on top of the blocks [m0]. *)
Record on_top (l : blocks) (m0 m : memory) : Prop := {
  ot_struct : b_struct l <> 0;
  ot_fresh : b_struct l ∉ block_of (b_memory l) ∪ m0;
  ot_memory : b_memory l <> 0 -> b_memory l ∉ m0;
  ot_blocks : m = {[b_struct l]} ∪ block_of (b_memory l) ∪ m0;
}.

Lemma malloc_result m : malloc m = Done (allocate m, block_of (allocate m) ∪ m) /\ (allocate m <> 0 -> allocate m ∉ m).
Proof.
  split; [done|]. by destruct (allocate_fresh m).
Qed.

Lemma free_result p m : p <> 0 -> p ∉ m -> free p ({[p]} ∪ m) = Done (tt, m).
Proof.
  intros Hp Hn. unfold free. rewrite (proj2 (Z.eqb_neq p 0)), decide_True by (done || set_solver). do 2 f_equal. set_solver.
Qed.

Lemma destroy_frees l m0 m : on_top l m0 m -> (free (b_memory l) ;; free (b_struct l)) m = Done (tt, m0).
Proof.
  intros [S1 S2 S3 ->]. unfold block_of in *. destruct (Z.eqb_spec (b_memory l) 0) as [E|E].
  - unfold free at 1, bind. rewrite (proj2 (Z.eqb_eq _ 0) E), union_empty_r_L. apply free_result; set_solver.
  - rewrite (union_comm_L {[b_struct l]}), <- union_assoc_L.
    rewrite (bind_done _ _ _ _ _ (free_result _ ({[b_struct l]} ∪ m0) E ltac:(set_solver))). apply free_result; set_solver.
Qed.

(** The growth of a list; the old block is lost when it fails. *)
Lemma reserve_result l m0 m : on_top l m0 m ->
  exists l' m1 m', list_blocks_reserve l m = Done (l', m') /\ on_top l' m1 m' /\ b_struct l' = b_struct l /\ m0 ⊆ m1 /\
    (b_memory l' <> 0 -> m1 = m0) /\ (b_memory l' = 0 -> m1 = block_of (b_memory l) ∪ m0).
Proof.
  intros [S1 S2 S3 Em]. unfold list_blocks_reserve, realloc, bind, ret.
  assert (G : negb (b_memory l =? 0) && negb (bool_decide (b_memory l ∈ m)) = false).
  { unfold block_of in *. destruct (b_memory l =? 0); [done|]. rewrite bool_decide_true by (subst m; set_solver). done. }
  rewrite G. destruct (Z.eqb_spec (reallocate m (b_memory l)) 0) as [E|E].
  - rewrite E. eexists _, (block_of (b_memory l) ∪ m0), m. split; [reflexivity|]. split; [|split; [done|split; [set_solver|done]]].
    split; cbn [b_struct b_memory]; [done| |done|].
    + change (block_of 0) with (∅ : memory). set_solver.
    + change (block_of 0) with (∅ : memory). rewrite Em. set_solver.
  - eexists _, m0, _. split; [reflexivity|]. split; [|split; [done|split; [done|split; [done|intros E'; by cbn in E']]]].
    set (p := reallocate m (b_memory l)) in *.
    assert (Bp : block_of p = {[p]}) by (unfold block_of; by rewrite (proj2 (Z.eqb_neq p 0))).
    assert (Hp : p = b_memory l \/ (p ∉ m)) by (destruct (reallocate_fresh m (b_memory l)) as [?|[?|?]]; auto; done).
    split; cbn [b_struct b_memory]; rewrite ?Bp; [done| | |].
    + destruct Hp as [Hp|Hp]; [|set_solver]. assert (Hl : b_memory l <> 0) by congruence. unfold block_of in S2.
      rewrite (proj2 (Z.eqb_neq _ 0)) in S2 by done. by rewrite Hp.
    + intros _. destruct Hp as [->|Hp]; [apply S3; congruence|set_solver].
    + rewrite Em. unfold block_of in *. destruct (Z.eqb_spec (b_memory l) 0) as [E0|E0].
      * set_solver.
      * specialize (S3 E0). set_solver.
Qed.

Lemma grow_result n : forall l m0 m, on_top l m0 m ->
  exists l' m1 m', grow n l m = Done (l', m') /\ on_top l' m1 m' /\ m0 ⊆ m1 /\ ((forall m p, reallocate m p <> 0) -> m1 = m0).
Proof.
  induction n as [|n IH]; intros l m0 m H; [by exists l, m0, m|]. cbn [grow].
  destruct (reserve_result l m0 m H) as (l1 & m1 & m2 & E & H1 & _ & Sub & F & _).
  destruct (IH l1 m1 m2 H1) as (l' & m3 & m' & E' & H' & Sub' & F'). exists l', m3, m'.
  rewrite (bind_done _ _ _ _ _ E). split; [done|]. split; [done|]. split; [set_solver|]. intros Nf. rewrite F' by done. apply F.
  unfold list_blocks_reserve, realloc, bind, ret in E. destruct (negb _ && negb _); [done|]. injection E as <- _. apply Nf.
Qed.

(** A new [struct] with its block. *)
Lemma create_on_top p q m : p <> 0 -> (p ∉ m) -> q = 0 \/ (q ∉ block_of p ∪ m) -> on_top (mkBlocks p q) m (block_of q ∪ (block_of p ∪ m)).
Proof.
  intros Hp Hn Hq. assert (Bp : block_of p = {[p]}) by (unfold block_of; by rewrite (proj2 (Z.eqb_neq p 0))). rewrite Bp in *.
  split; cbn [b_struct b_memory]; [done| | |set_solver].
  - destruct Hq as [->|Hq]; [change (block_of 0) with (∅ : memory); set_solver|].
    unfold block_of. destruct (q =? 0); set_solver.
  - intros Hq0. destruct Hq as [|Hq]; [done|set_solver].
Qed.

(** C23: what a container or a stream allocates it gives back, nothing else, and
    it releases nothing twice, whichever of its allocations fail; only the
    growth of a list whose [realloc] fails loses memory. A stream can be
    destroyed again. *)
Theorem lifetime_balanced c m :
  exists m', lifetime c m = Done (tt, m') /\ m ⊆ m' /\
    (match c with List _ => forall m p, reallocate m p <> 0 | _ => True end -> m' = m).
Proof.
  destruct (malloc_result m) as [E1 F1]. set (p := allocate m) in *.
  destruct (Z.eqb_spec p 0) as [Z1|N1].
  { exists m. assert (E : block_of p ∪ m = m) by (rewrite Z1; change (block_of 0) with (∅ : memory); set_solver). rewrite E in E1.
    split; [|done]. destruct c; cbn [lifetime]; unfold list_blocks_create, hashtable_blocks_create, pool_blocks_create, stream_block_create, bind;
      rewrite E1, Z1; done. }
  specialize (F1 N1). set (m1 := block_of p ∪ m) in *.
  destruct (malloc_result m1) as [E2 F2]. set (q := allocate m1) in *.
  assert (T : on_top (mkBlocks p q) m (block_of q ∪ m1)).
  { apply create_on_top; [done|done|]. destruct (Z.eqb_spec q 0); auto. }
  pose proof (destroy_frees _ _ _ T) as D. cbn [b_struct b_memory] in D.
  assert (Fp : free p m1 = Done (tt, m)).
  { unfold m1, block_of. rewrite (proj2 (Z.eqb_neq p 0)) by done. by apply free_result. }
  destruct c as [n| | |]; cbn [lifetime].
  - assert (T0 : on_top (mkBlocks p 0) m m1).
    { replace m1 with (block_of 0 ∪ m1) by (change (block_of 0) with (∅ : memory); set_solver). apply create_on_top; auto. }
    destruct (reserve_result _ _ _ T0) as (l & m2 & m3 & E3 & T3 & _ & S3 & G3 & F3').
    destruct (grow_result n l m2 m3 T3) as (l' & m4 & m5 & E4 & T4 & S4 & F4).
    exists m4. split.
    + unfold list_blocks_create. rewrite bind_assoc, (bind_done _ _ _ _ _ E1), (proj2 (Z.eqb_neq p 0)) by done. cbn [negb].
      rewrite bind_assoc, (bind_done _ _ _ _ _ E3), bind_ret_l, (bind_done _ _ _ _ _ E4). by apply (destroy_frees l' m4).
    + split; [set_solver|]. intros Nf. rewrite (F4 Nf). destruct (Z.eqb_spec (b_memory l) 0) as [E0|E0]; [|by apply G3].
      rewrite (F3' E0). cbn [b_memory]. change (block_of 0) with (∅ : memory). set_solver.
  - exists m. split; [|done]. unfold hashtable_blocks_create.
    rewrite bind_assoc, (bind_done _ _ _ _ _ E1), (proj2 (Z.eqb_neq p 0)) by done. cbn [negb].
    rewrite bind_assoc, (bind_done _ _ _ _ _ E2), bind_ret_l. exact D.
  - exists m. split; [|done]. unfold pool_blocks_create.
    rewrite bind_assoc, (bind_done _ _ _ _ _ E1), (proj2 (Z.eqb_neq p 0)) by done. cbn [negb].
    rewrite bind_assoc, (bind_done _ _ _ _ _ E2). destruct (Z.eqb_spec q 0) as [Z2|N2].
    + rewrite bind_assoc. assert (E : block_of q ∪ m1 = m1) by (rewrite Z2; change (block_of 0) with (∅ : memory); set_solver).
      rewrite E, (bind_done _ _ _ _ _ Fp). done.
    + exact D.
  - exists m. split; [|done]. unfold stream_block_create. rewrite (bind_done _ _ _ _ _ E1).
    unfold streamDestroy at 1. rewrite (proj2 (Z.eqb_neq p 0)) by done. cbn [negb].
    rewrite bind_assoc, (bind_done _ _ _ _ _ Fp). done.
Qed.

(** The block that a list had when [realloc] failed is never given back. *)
Lemma failed_growth_leaks l m0 m : on_top l m0 m -> b_memory l <> 0 -> reallocate m (b_memory l) = 0 ->
  (l <- list_blocks_reserve l ;; list_destroy l) m = Done (tt, {[b_memory l]} ∪ m0).
Proof.
  intros H Hl Er. destruct (reserve_result l m0 m H) as (l' & m1 & m' & E & H' & _ & _ & _ & F).
  rewrite (bind_done _ _ _ _ _ E). unfold list_destroy. rewrite (destroy_frees _ _ _ H'), F.
  - unfold block_of. by rewrite (proj2 (Z.eqb_neq _ 0)).
  - unfold list_blocks_reserve, realloc, bind, ret in E. destruct (negb _ && negb _); [done|]. by injection E as <- _.
Qed.

End Memory.

(** ** A concrete instance *)

(** [malloc] always finds a block, [realloc] moves. *)
Definition next_address (m : memory) : Z := fresh ({[0]} ∪ m : gset Z).

Lemma next_address_new m : next_address m <> 0 /\ (next_address m ∉ m).
Proof. unfold next_address. pose proof (is_fresh ({[0]} ∪ m : gset Z)). set_solver. Qed.

Lemma lifetime_balanced_witness : lifetime next_address (fun m _ => next_address m) (List 3) {[7]} = Done (tt, {[7]}).
Proof.
  destruct (lifetime_balanced next_address (fun m _ => next_address m) (fun m => or_intror (proj2 (next_address_new m)))
    (fun m _ => or_intror (or_intror (proj2 (next_address_new m)))) (List 3) {[7]}) as (m' & E & _ & F).
  rewrite F in E; [exact E|]. intros m _. apply next_address_new.
Defined.
