(* ===== verification/NetSocket.v ===== *)
(** * Sockets (src/net_socket.[ch])

    A socket owns a pool of 64 packets, a queue of packets to send and two
    event sources.  The event handlers and the blocks given to the dispatch
    queues are the steps of the model: each runs to its end before the next.
    What the operating system does (the system calls, what is received) is an
    argument.  The addresses of packets are those of the pool; their contents
    are kept beside it. *)
From S2P Require Import Prelude Bitstream Wire Fields Net Queue Pool.

Definition kNetPacketPoolCapacity : Z := 64.

(** 16 bytes of address, 256 of data, a length and a bit stream. *)
Definition sizeof_net_packet_s : Z := 16 + kNetPacketMaxLen + 8 + 24.

(** The receive callback with its context and the receive block, each a
    pointer; zero is NULL. *)
Record net_socket_info := mkInfo {
  receiveCallback : Z;
  receiveCallbackContext : Z;
  receiveBlock : Z;
}.

Definition no_receiver : net_socket_info := mkInfo 0 0 0.

Record net_socket_s := mkSocket {
  s_sockaddr : net_addr_t;
  s_isSending : Z;
  s_pending : queue_s;
  s_pool : option pool_s;             (* NULL when it could not be created *)
  s_packets : gmap Z net_packet_s;    (* the memory of the pool's objects *)
  s_receiver : net_socket_info;
  s_blocks : list Z;                  (* packets of the blocks [net_socket_send] dispatched *)
  s_delivered : list Z;               (* packets dispatched to the receiver *)
  s_wire : list (net_addr_t * list Z);  (* what [sendto] was given *)
}.

Definition set_isSending (x : Z) (s : net_socket_s) : net_socket_s :=
  mkSocket (s_sockaddr s) x (s_pending s) (s_pool s) (s_packets s) (s_receiver s)
    (s_blocks s) (s_delivered s) (s_wire s).
Definition set_pending (x : queue_s) (s : net_socket_s) : net_socket_s :=
  mkSocket (s_sockaddr s) (s_isSending s) x (s_pool s) (s_packets s) (s_receiver s)
    (s_blocks s) (s_delivered s) (s_wire s).
Definition set_pool (x : pool_s) (s : net_socket_s) : net_socket_s :=
  mkSocket (s_sockaddr s) (s_isSending s) (s_pending s) (Some x) (s_packets s) (s_receiver s)
    (s_blocks s) (s_delivered s) (s_wire s).
Definition set_packets (x : gmap Z net_packet_s) (s : net_socket_s) : net_socket_s :=
  mkSocket (s_sockaddr s) (s_isSending s) (s_pending s) (s_pool s) x (s_receiver s)
    (s_blocks s) (s_delivered s) (s_wire s).
Definition set_blocks (x : list Z) (s : net_socket_s) : net_socket_s :=
  mkSocket (s_sockaddr s) (s_isSending s) (s_pending s) (s_pool s) (s_packets s) (s_receiver s)
    x (s_delivered s) (s_wire s).
Definition set_delivered (x : list Z) (s : net_socket_s) : net_socket_s :=
  mkSocket (s_sockaddr s) (s_isSending s) (s_pending s) (s_pool s) (s_packets s) (s_receiver s)
    (s_blocks s) x (s_wire s).
Definition set_wire (x : list (net_addr_t * list Z)) (s : net_socket_s) : net_socket_s :=
  mkSocket (s_sockaddr s) (s_isSending s) (s_pending s) (s_pool s) (s_packets s) (s_receiver s)
    (s_blocks s) (s_delivered s) x.

Definition set_info (x : net_socket_info) (s : net_socket_s) : net_socket_s :=
  mkSocket (s_sockaddr s) (s_isSending s) (s_pending s) (s_pool s) (s_packets s) x
    (s_blocks s) (s_delivered s) (s_wire s).

(** ** The receiver *)

Definition net_socket_set_receive_callback (context receiveCallback : Z) : prog net_socket_s unit :=
  modify (fun s => set_info (mkInfo receiveCallback context (receiveBlock (s_receiver s))) s).

Definition net_socket_set_receive_block (block : Z) : prog net_socket_s unit :=
  modify (fun s => set_info (mkInfo (receiveCallback (s_receiver s))
                               (receiveCallbackContext (s_receiver s)) block) s).

Definition net_socket_copy_info : prog net_socket_s net_socket_info := gets s_receiver.

Definition net_socket_set_info (info : net_socket_info) : prog net_socket_s unit :=
  modify (set_info info).

(** A block goes before a callback. *)
Definition has_receiver (info : net_socket_info) : bool :=
  negb (receiveBlock info =? 0) || negb (receiveCallback info =? 0).

Definition net_socket_local_addr `{Host} (ifs : Z + list ifaddr) (addr : net_addr_t) (s : net_socket_s) :
    net_addr_t :=
  let '(_, addr) := net_addr_local ifs addr in
  mkAddr (sin_family addr) (sin_port (s_sockaddr s)) (s_addr addr).

(** ** The parts of a socket *)

Definition on_pool {A} (m : prog pool_s A) : prog net_socket_s A := fun s =>
  match s_pool s with
  | None => Fault NullPointer
  | Some p =>
      match m p with Done (a, p') => Done (a, set_pool p' s) | Fault f => Fault f end
  end.

Definition on_pending {A} (m : prog queue_s A) : prog net_socket_s A := fun s =>
  match m (s_pending s) with Done (a, q) => Done (a, set_pending q s) | Fault f => Fault f end.

Definition get_packet (packet : Z) : prog net_socket_s net_packet_s := fun s =>
  if packet =? 0 then Fault NullPointer
  else match s_packets s !! packet with
  | Some k => Done (k, s)
  | None => Fault OutOfBounds
  end.

Definition put_packet (packet : Z) (k : net_packet_s) : prog net_socket_s unit :=
  _ <- get_packet packet ;;
  modify (fun s => set_packets (<[packet := k]> (s_packets s)) s).

(** An operation of net_packet.c or bitstream.c on a packet. *)
Definition on_packet (packet : Z) (f : net_packet_s -> net_packet_s) : prog net_socket_s unit :=
  k <- get_packet packet ;; put_packet packet (f k).

Definition on_bitstream {A} (packet : Z) (m : prog bitstream_t A) : prog net_socket_s A :=
  k <- get_packet packet ;;
  fun s =>
    match m (pk_bitstream k) with
    | Fault f => Fault f
    | Done (a, b) =>
        (put_packet packet (mkPacket (pk_addr k) (pk_length k) b) ;; ret a) s
    end.

(** ** Packets *)

Definition net_packet_alloc : prog net_socket_s Z :=
  packet <- on_pool pool_alloc ;;
  (if packet =? 0 then ret tt else on_packet packet net_packet_init) ;;
  ret packet.

Definition net_packet_release (packet : Z) : prog net_socket_s unit := on_pool (pool_release packet).
Definition net_packet_retain (packet : Z) : prog net_socket_s unit := on_pool (pool_retain packet).
Definition net_packet_free (packet : Z) : prog net_socket_s unit := on_pool (pool_free packet).

(** ** Sending *)

Definition net_socket_suspend_write : prog net_socket_s unit :=
  modify (fun s => if negb (s_isSending s =? 0) then set_isSending 0 s else s).

Definition net_socket_resume_write : prog net_socket_s unit :=
  modify (fun s => if s_isSending s =? 0 then set_isSending 1 s else s).

Definition net_socket_send (packet : Z) : prog net_socket_s unit :=
  k <- get_packet packet ;;
  put_packet packet (mkPacket (pk_addr k) (bs_offset (pk_bitstream k)) (pk_bitstream k)) ;;
  k <- get_packet packet ;;
  if 0 <? pk_length k then
    net_packet_retain packet ;;
    modify (fun s => set_blocks (s_blocks s ++ [packet]) s)
  else ret tt.

Section Events.
Context (malloc : gmap Z queue_node_s -> option (Z * queue_node_s)).

(** The block [net_socket_send] dispatched first is run. *)
Definition run_send_block : prog net_socket_s unit :=
  s <- get ;;
  match s_blocks s with
  | [] => ret tt
  | packet :: blocks =>
      modify (set_blocks blocks) ;;
      on_pending (queue_push malloc packet) ;;
      net_socket_resume_write
  end.

(** [sendto] reads [length] bytes of [data]; its result is only logged. *)
Definition sendto (packet : Z) : prog net_socket_s unit :=
  k <- get_packet packet ;;
  if (0 <=? pk_length k) && (pk_length k <=? zlen (pk_data k)) then
    modify (fun s => set_wire (s_wire s ++ [(pk_addr k, take (Z.to_nat (pk_length k)) (pk_data k))]) s)
  else fail OutOfBounds.

(** [while ((packet = queue_pop(pendingPackets)))], with fuel. *)
Fixpoint send_pending (n : nat) : prog net_socket_s unit :=
  packet <- on_pending queue_pop ;;
  if packet =? NULL then ret tt
  else match n with
  | O => fail OutOfFuel
  | S n' =>
      sendto packet ;;
      on_pool (pool_release packet) ;;
      send_pending n'
  end.

(** The write event: the queue has no more objects than nodes. *)
Definition write_event : prog net_socket_s unit :=
  s <- get ;;
  send_pending (size (q_heap (s_pending s))) ;;
  net_socket_suspend_write.

End Events.

(** ** Receiving

    [datagram] is what [recvfrom] finds: nothing when it fails.  With
    [MSG_TRUNC] it returns the size of the datagram and stores what fits. *)
Definition read_event (datagram : option (net_addr_t * list Z)) : prog net_socket_s unit :=
  packet <- net_packet_alloc ;;
  if packet =? 0 then ret tt
  else match datagram with
  | None => net_packet_free packet
  | Some (addr, bytes) =>
      let read_bytes := zlen bytes in
      on_packet packet (fun k =>
        mkPacket addr (pk_length k)
          (mkBitstream (splice (pk_data k) 0 (take (Z.to_nat kNetPacketMaxLen) bytes))
             (bs_offset (pk_bitstream k)) (bs_bound (pk_bitstream k)))) ;;
      if 0 <? read_bytes then
        if read_bytes <=? kNetPacketMaxLen then
          on_packet packet (fun k => mkPacket (pk_addr k) read_bytes (pk_bitstream k)) ;;
          s <- get ;;
          if has_receiver (s_receiver s) then
            modify (fun s => set_delivered (s_delivered s ++ [packet]) s)
          else ret tt
        else net_packet_free packet
      else ret tt
  end.

(** ** Creation *)

(** What the operating system answers, in the order of the calls. *)
Record os_answers := mkOs {
  os_calloc : bool;
  os_memblock : Z;               (* the block of the pool, or NULL *)
  os_socket : option Z;          (* the [errno] of a failure *)
  os_setsockopt : option Z;
  os_aton : option (option Z);   (* no host; or whether [inet_aton] parses it *)
  os_bind : option Z;
  os_getsockname : Z + net_addr_t;
  os_fcntl : option Z;           (* of either call *)
  os_read_source : bool;
  os_write_source : bool;
}.

Definition net_socket_create `{Host} (domain port : Z) (os : os_answers)
    (memory : gmap Z net_packet_s) : outcome (NetError * option net_socket_s) :=
  if negb (os_calloc os) then Done (NetNoError, None)
  else
  pool <-! pool_create sizeof_net_packet_s kNetPacketPoolCapacity (os_memblock os) ;;
  match os_socket os with Some e => Done (netErrorPosix e, None) | None =>
  match os_setsockopt os with Some e => Done (netErrorPosix e, None) | None =>
  match os_aton os with Some None => Done (NetInvalidError, None) | aton =>
  let bindaddr := mkAddr domain (htons port)
    (match aton with Some (Some a) => a | _ => htonl 0 end) in
  match os_bind os with Some e => Done (netErrorPosix e, None) | None =>
  match os_getsockname os with inl e => Done (netErrorPosix e, None) | inr sockaddr =>
  if negb (sin_port sockaddr =? sin_port bindaddr) && negb (s_addr sockaddr =? s_addr bindaddr)
  then Done (NetInvalidError, None)
  else
  match os_fcntl os with Some e => Done (netErrorPosix e, None) | None =>
  if negb (os_read_source os && os_write_source os) then Done (NetSockError, None)
  else Done (NetNoError, Some (mkSocket sockaddr 0 queue_create pool memory no_receiver [] [] []))
  end end end end end end.
