(* ===== verification/NetSocketSpec.v ===== *)
(** * What a socket promises

    Every reference to a packet is owned: by its users, by a block that was
    dispatched or by the queue of packets to send.  The operations keep the
    retain counts of the pool equal to the number of owners; sent packets go
    out once and in order; only an empty datagram leaves a packet without an
    owner. *)
From S2P Require Import Prelude Bitstream Wire Fields Net Queue Pool NetSocket.

(** ** Counting references *)

Definition counts_of (l : list Z) : gmap Z Z :=
  foldr (fun o m => <[o := default 0 (m !! o) + 1]> m) ∅ l.

Lemma counts_cons o l : counts_of (o :: l) = <[o := default 0 (counts_of l !! o) + 1]> (counts_of l).
Proof. reflexivity. Qed.

Definition occurrences (o : Z) (l : list Z) : nat := length (filter (fun x => x = o) l).

Lemma occurrences_cons o x l :
  occurrences o (x :: l) = ((if decide (x = o) then 1 else 0) + occurrences o l)%nat.
Proof. unfold occurrences. rewrite filter_cons. by destruct (decide (x = o)). Qed.

Lemma occurrences_app o l k : occurrences o (l ++ k) = (occurrences o l + occurrences o k)%nat.
Proof. unfold occurrences. by rewrite filter_app, length_app. Qed.

Lemma occurrences_in o l : o ∈ l <-> (0 < occurrences o l)%nat.
Proof.
  induction l as [|x l IH]; [split; [intros H; by apply not_elem_of_nil in H|cbn; lia]|].
  rewrite elem_of_cons, occurrences_cons, IH. destruct (decide (x = o)) as [->|Hx]; [by split; [lia|left]|].
  split; [by intros [->|?]|by right].
Qed.

Lemma occurrences_perm o l k : l ≡ₚ k -> occurrences o l = occurrences o k.
Proof. intros P. unfold occurrences. by rewrite P. Qed.

Lemma occurrences_length o l : (occurrences o l <= length l)%nat.
Proof. apply length_filter. Qed.

Lemma counts_lookup l o :
  counts_of l !! o = if decide (o ∈ l) then Some (Z.of_nat (occurrences o l)) else None.
Proof.
  induction l as [|x l IH].
  - cbn. rewrite lookup_empty. rewrite decide_False; [done|apply not_elem_of_nil].
  - cbn [counts_of foldr]. fold (counts_of l). rewrite occurrences_cons.
    destruct (decide (x = o)) as [->|Hx].
    + rewrite lookup_insert_eq, IH, (decide_True (P := o ∈ o :: l)) by (by left).
      destruct (decide (o ∈ l)) as [Hin|Hin]; cbn [default];
        [by rewrite Nat2Z.inj_add, Z.add_comm|].
      destruct (occurrences o l) eqn:E; [done|]. exfalso. apply Hin, occurrences_in. rewrite E. lia.
    + rewrite lookup_insert_ne by done. rewrite IH. cbn [Nat.add].
      apply decide_ext. rewrite elem_of_cons. naive_solver.
Qed.

Lemma counts_perm l k : l ≡ₚ k -> counts_of l = counts_of k.
Proof.
  intros P. apply map_eq. intros o. rewrite !counts_lookup, (occurrences_perm o l k P).
  apply decide_ext. by rewrite P.
Qed.

#[export] Instance counts_proper : Proper ((≡ₚ) ==> (=)) counts_of.
Proof. intros l k P. by apply counts_perm. Qed.

Lemma counts_of_in l o : o ∈ l -> counts_of l !! o = Some (Z.of_nat (occurrences o l)).
Proof. intros H. by rewrite counts_lookup, decide_True. Qed.

Lemma counts_release l o c : counts_of (o :: l) !! o = Some c ->
  (if c =? 1 then delete o (counts_of (o :: l)) else <[o := c - 1]> (counts_of (o :: l))) = counts_of l.
Proof.
  intros Hc. rewrite counts_lookup, decide_True in Hc by (by left). injection Hc as <-.
  rewrite occurrences_cons, decide_True by done. apply map_eq. intros x.
  pose proof (occurrences_in o l) as Hin. rewrite (counts_lookup l x).
  destruct (Z.eqb_spec (Z.of_nat (1 + occurrences o l)) 1) as [E|E].
  - destruct (decide (x = o)) as [->|Hx].
    + rewrite lookup_delete_eq, decide_False; [done|]. rewrite Hin. lia.
    + rewrite lookup_delete_ne by done. rewrite counts_lookup, occurrences_cons, (decide_False (P := o = x)) by congruence.
      cbn [Nat.add]. apply decide_ext. rewrite elem_of_cons. naive_solver.
  - destruct (decide (x = o)) as [->|Hx].
    + rewrite lookup_insert_eq, decide_True; [f_equal; lia|]. apply Hin. lia.
    + rewrite lookup_insert_ne by done. rewrite counts_lookup, occurrences_cons, (decide_False (P := o = x)) by congruence.
      cbn [Nat.add]. apply decide_ext. rewrite elem_of_cons. naive_solver.
Qed.

Lemma counts_nil_iff l : counts_of l = ∅ <-> l = [].
Proof.
  split; [|by intros ->]. destruct l as [|o l]; [done|]. intros E. exfalso.
  assert (H : counts_of (o :: l) !! o = None) by (rewrite E; apply lookup_empty).
  rewrite counts_lookup, decide_True in H by (by left). done.
Qed.

(** ** The invariant *)

(** A packet that may be given to [sendto]. *)
Record sendable (k : net_packet_s) : Prop := {
  sd_wf : packet_wf k;
  sd_length : 0 <= pk_length k <= kNetPacketMaxLen;
}.

(** The references to packets: [owners] are those of the users. *)
Record socket_holds (s : net_socket_s) (owners pending : list Z) : Prop := {
  sh_pool : exists p, s_pool s = Some p /\
    pool_holds p (counts_of (owners ++ s_blocks s ++ pending)) /\ p_capacity p = kNetPacketPoolCapacity /\
    forall o, is_object p o -> exists k, s_packets s !! o = Some k /\ packet_wf k;
  sh_pending : queue_holds (s_pending s) pending;
  sh_nonzero : Forall (fun o => o <> 0) (owners ++ s_blocks s ++ pending);
  sh_queued : forall o, o ∈ s_blocks s ++ pending -> exists k, s_packets s !! o = Some k /\ sendable k;
}.

Definition references (s : net_socket_s) (owners pending : list Z) : list Z :=
  owners ++ s_blocks s ++ pending.

Lemma holds_object s owners pending o : socket_holds s owners pending ->
  o ∈ owners ++ s_blocks s ++ pending -> o <> 0 /\ exists k, s_packets s !! o = Some k /\ packet_wf k.
Proof.
  intros [(p & E & (free & C) & _ & Hk) _ Hz _] Hin. rewrite Forall_forall in Hz.
  split; [by apply Hz|]. apply Hk. pose proof (counts_of_in _ _ Hin) as Hc.
  by apply (pc_counts _ _ _ C) in Hc as [_ ?].
Qed.

Lemma get_packet_done s o k : o <> 0 -> s_packets s !! o = Some k -> get_packet o s = Done (k, s).
Proof. intros Ho E. unfold get_packet. by rewrite (proj2 (Z.eqb_neq o 0)), E. Qed.

Lemma put_packet_done s o k k' : o <> 0 -> s_packets s !! o = Some k ->
  put_packet o k' s = Done (tt, set_packets (<[o := k']> (s_packets s)) s).
Proof.
  intros Ho E. unfold put_packet. by rewrite (bind_done _ _ _ _ _ (get_packet_done s o k Ho E)).
Qed.

Lemma on_packet_done s o k f : o <> 0 -> s_packets s !! o = Some k ->
  on_packet o f s = Done (tt, set_packets (<[o := f k]> (s_packets s)) s).
Proof.
  intros Ho E. unfold on_packet. rewrite (bind_done _ _ _ _ _ (get_packet_done s o k Ho E)).
  by apply (put_packet_done s o k).
Qed.

Lemma on_bitstream_done {A} s o k (m : prog bitstream_t A) a b : o <> 0 ->
  s_packets s !! o = Some k -> m (pk_bitstream k) = Done (a, b) ->
  on_bitstream o m s =
    Done (a, set_packets (<[o := mkPacket (pk_addr k) (pk_length k) b]> (s_packets s)) s).
Proof.
  intros Ho E Em. unfold on_bitstream. rewrite (bind_done _ _ _ _ _ (get_packet_done s o k Ho E)).
  rewrite Em. by rewrite (bind_done _ _ _ _ _ (put_packet_done s o k _ Ho E)).
Qed.

Lemma packets_twice s o k k' :
  set_packets (<[o := k']> (s_packets (set_packets (<[o := k]> (s_packets s)) s)))
    (set_packets (<[o := k]> (s_packets s)) s) = set_packets (<[o := k']> (s_packets s)) s.
Proof. unfold set_packets. cbn. by rewrite insert_insert_eq. Qed.

Lemma on_pool_done {A} (m : prog pool_s A) s p a p' : s_pool s = Some p -> m p = Done (a, p') ->
  on_pool m s = Done (a, set_pool p' s).
Proof. intros E H. unfold on_pool. by rewrite E, H. Qed.

Lemma on_pending_done {A} (m : prog queue_s A) s a q' : m (s_pending s) = Done (a, q') ->
  on_pending m s = Done (a, set_pending q' s).
Proof. intros H. unfold on_pending. by rewrite H. Qed.

(** Changing the contents of a packet. *)
Lemma holds_write s owners pending o k k' : socket_holds s owners pending ->
  s_packets s !! o = Some k -> packet_wf k' ->
  (o ∈ s_blocks s ++ pending -> sendable k') ->
  socket_holds (set_packets (<[o := k']> (s_packets s)) s) owners pending.
Proof.
  intros [(p & E & Hp & Hc & Hk) Hq Hz Hs] Ho Hw Hl. split; cbn [s_pool s_pending s_blocks s_packets set_packets].
  - exists p. split; [done|]. split; [done|]. split; [done|]. intros x Hx.
    destruct (decide (o = x)) as [<-|Hne].
    + rewrite lookup_insert_eq. eauto.
    + rewrite lookup_insert_ne by done. by apply Hk.
  - done.
  - done.
  - intros x Hx. destruct (decide (o = x)) as [<-|Hne].
    + rewrite lookup_insert_eq. eauto.
    + rewrite lookup_insert_ne by done. by apply Hs.
Qed.

(** Changing the pool under the same block. *)
Lemma holds_pool s owners pending p p' owners' : socket_holds s owners pending ->
  s_pool s = Some p -> same_block p p' ->
  pool_holds p' (counts_of (owners' ++ s_blocks s ++ pending)) ->
  Forall (fun o => o <> 0) owners' -> socket_holds (set_pool p' s) owners' pending.
Proof.
  intros [(q & E & Hp & Hc & Hk) Hq Hz Hs] E' Hb Hp' Hz'. rewrite E in E'. injection E' as ->.
  split; cbn [s_pool s_pending s_blocks s_packets set_pool]; [|done| |done].
  - exists p'. split; [done|]. split; [done|]. split; [by rewrite (sb_capacity _ _ Hb)|].
    intros o Ho. apply Hk. by apply (same_block_object p p' o Hb).
  - apply Forall_app in Hz as [_ Hz]. by apply Forall_app.
Qed.

(** What the operations on packets leave alone. *)
Record same_queues (s s' : net_socket_s) : Prop := {
  sq_pending : s_pending s' = s_pending s;
  sq_blocks : s_blocks s' = s_blocks s;
  sq_delivered : s_delivered s' = s_delivered s;
  sq_wire : s_wire s' = s_wire s;
  sq_sending : s_isSending s' = s_isSending s;
  sq_receiver : s_receiver s' = s_receiver s;
}.

#[export] Instance same_queues_preorder : PreOrder same_queues.
Proof. split; [by split|]. intros x y z [] []. split; congruence. Qed.

Lemma count_new o l : o ∉ l -> size (counts_of (o :: l)) = S (size (counts_of l)).
Proof. intros Hn. rewrite counts_cons, map_size_insert_None; [done|]. by rewrite counts_lookup, decide_False. Qed.

Lemma dom_counts l : dom (counts_of l) = (list_to_set l : gset Z).
Proof. induction l as [|o l IH]; [done|]. rewrite counts_cons, dom_insert_L, IH. done. Qed.

Lemma count_subset l k : l ⊆ k -> (size (counts_of l) <= size (counts_of k))%nat.
Proof. intros Sub. rewrite <- !size_dom, !dom_counts. apply subseteq_size. set_solver. Qed.

Lemma count_cons_le o l : (size (counts_of (o :: l)) <= S (size (counts_of l)))%nat.
Proof. rewrite <- !size_dom, !dom_counts. cbn. rewrite size_union_alt, size_singleton. apply le_n_S, subseteq_size. set_solver. Qed.

(** ** Each operation *)

Lemma alloc_holds s owners pending : socket_holds s owners pending ->
  exists o s', net_packet_alloc s = Done (o, s') /\ same_queues s s' /\
    if Z.of_nat (size (counts_of (references s owners pending))) =? kNetPacketPoolCapacity
    then o = 0 /\ s' = s
    else o <> 0 /\ (o ∉ references s owners pending) /\ socket_holds s' (o :: owners) pending /\
      exists k, packet_wf k /\ s_packets s' = <[o := net_packet_init k]> (s_packets s).
Proof.
  intros H. pose proof H as [(p & E & Hp & Hc & Hk) Hq Hz Hs].
  destruct (pool_alloc_holds p _ Hp) as (o & p' & Ea & Hb & A). rewrite Hc in A.
  unfold net_packet_alloc. rewrite (bind_done _ _ _ _ _ (on_pool_done pool_alloc s p o p' E Ea)).
  unfold references. destruct (_ =? kNetPacketPoolCapacity).
  - destruct A as [-> ->]. exists 0, s. rewrite Z.eqb_refl, bind_ret_l.
    assert (Es : set_pool p s = s) by (destruct s; cbn in *; by subst).
    rewrite Es. by repeat split.
  - destruct A as (Hn & Ho & Ho0 & Hp'). rewrite (proj2 (Z.eqb_neq o 0)) by done.
    destruct (Hk o Ho) as (k & Ek & Hw).
    assert (Hni : o ∉ owners ++ s_blocks s ++ pending).
    { intros Hin. by rewrite (counts_of_in _ _ Hin) in Hn. }
    assert (H1 : socket_holds (set_pool p' s) (o :: owners) pending).
    { apply (holds_pool s owners pending p p' (o :: owners) H E Hb).
      - replace (counts_of _) with (insert (M := gmap Z Z) o 1 (counts_of (owners ++ s_blocks s ++ pending))); [done|].
        rewrite <- app_comm_cons, counts_cons. by rewrite Hn.
      - apply Forall_app in Hz as [Hz _]. by constructor. }
    rewrite (bind_done _ _ _ _ _ (on_packet_done (set_pool p' s) o k net_packet_init Ho0 Ek)).
    eexists o, _. split; [reflexivity|]. split; [by split|]. split; [done|]. split; [done|].
    split; [|by exists k]. apply (holds_write _ _ _ o k (net_packet_init k) H1 Ek).
    + destruct Hw. by split.
    + intros Hin. exfalso. apply Hni, elem_of_app. by right.
Qed.

Lemma release_holds s o owners pending : socket_holds s (o :: owners) pending ->
  exists s', net_packet_release o s = Done (tt, s') /\ same_queues s s' /\
    s_packets s' = s_packets s /\ socket_holds s' owners pending.
Proof.
  intros H. pose proof H as [(p & E & Hp & Hc & Hk) Hq Hz Hs].
  assert (Hin : o ∈ (o :: owners) ++ s_blocks s ++ pending) by (by left).
  pose proof (counts_of_in _ _ Hin) as Hl.
  destruct (pool_release_holds p _ o _ Hp Hl) as (p' & Er & Hb & Hp').
  exists (set_pool p' s). unfold net_packet_release. rewrite (on_pool_done _ s p tt p' E Er).
  split; [done|]. split; [by split|]. split; [done|].
  apply (holds_pool s (o :: owners) pending p p' owners H E Hb).
  - rewrite <- (counts_release (owners ++ s_blocks s ++ pending) o _ Hl). exact Hp'.
  - apply Forall_app in Hz as [Hz _]. by apply Forall_cons in Hz as [_ ?].
Qed.

(** The packet whose last reference is released is the next one. *)
Lemma release_reuse s o owners pending : socket_holds s (o :: owners) pending -> (o ∉ references s owners pending) ->
  exists s' s'', net_packet_release o s = Done (tt, s') /\ net_packet_alloc s' = Done (o, s'').
Proof.
  intros H Hn. pose proof H as [(p & E & Hp & Hc & Hk) Hq Hz Hs]. unfold references in Hn.
  assert (Hl : counts_of (references s (o :: owners) pending) !! o = Some 1).
  { unfold references. rewrite <- app_comm_cons, counts_cons, lookup_insert_eq. f_equal.
    by rewrite counts_lookup, decide_False. }
  destruct (pool_release_reuse p _ o Hp Hl) as (p' & p'' & Er & Ea).
  destruct (holds_object s (o :: owners) pending o H ltac:(by left)) as (Ho & k & Ek & _).
  exists (set_pool p' s). unfold net_packet_release. rewrite (on_pool_done _ s p tt p' E Er).
  unfold net_packet_alloc. rewrite (bind_done _ _ _ _ _ (on_pool_done pool_alloc (set_pool p' s) p' o p'' eq_refl Ea)).
  rewrite (proj2 (Z.eqb_neq o 0)) by done.
  rewrite (bind_done _ _ _ _ _ (on_packet_done (set_pool p'' (set_pool p' s)) o k net_packet_init Ho Ek)).
  eexists. by split.
Qed.

Lemma free_holds s o owners pending : socket_holds s (o :: owners) pending ->
  o ∉ owners ++ s_blocks s ++ pending ->
  exists s', net_packet_free o s = Done (tt, s') /\ same_queues s s' /\
    s_packets s' = s_packets s /\ socket_holds s' owners pending.
Proof.
  intros H Hni. pose proof H as [(p & E & Hp & Hc & Hk) Hq Hz Hs].
  assert (Hin : o ∈ (o :: owners) ++ s_blocks s ++ pending) by (by left).
  pose proof (counts_of_in _ _ Hin) as Hl.
  destruct (pool_free_holds p _ o _ Hp Hl) as (p' & Er & Hb & Hp').
  exists (set_pool p' s). unfold net_packet_free. rewrite (on_pool_done _ s p tt p' E Er).
  split; [done|]. split; [by split|]. split; [done|].
  apply (holds_pool s (o :: owners) pending p p' owners H E Hb).
  - change ((o :: owners) ++ s_blocks s ++ pending) with (o :: (owners ++ s_blocks s ++ pending)) in Hl, Hp'.
    rewrite occurrences_cons, decide_True in Hl by done.
    assert (O0 : occurrences o (owners ++ s_blocks s ++ pending) = 0%nat).
    { destruct (occurrences _ _) eqn:N; [done|]. exfalso. apply Hni, occurrences_in. rewrite N. lia. }
    rewrite O0 in Hl. rewrite <- (counts_release (owners ++ s_blocks s ++ pending) o 1 Hl). exact Hp'.
  - apply Forall_app in Hz as [Hz _]. by apply Forall_cons in Hz as [_ ?].
Qed.

(** Sending keeps the packet: a reference moves to the dispatched blocks. *)
Lemma send_holds s o owners pending k : socket_holds s owners pending -> o ∈ owners ->
  s_packets s !! o = Some k -> 0 <= bs_offset (pk_bitstream k) <= kNetPacketMaxLen ->
  Z.of_nat (length (references s owners pending)) + 1 < 2 ^ 32 ->
  let k' := mkPacket (pk_addr k) (bs_offset (pk_bitstream k)) (pk_bitstream k) in
  exists s', net_socket_send o s = Done (tt, s') /\ socket_holds s' owners pending /\
    s_packets s' = <[o := k']> (s_packets s) /\ s_pending s' = s_pending s /\
    s_blocks s' = s_blocks s ++ (if 0 <? bs_offset (pk_bitstream k) then [o] else []) /\
    s_wire s' = s_wire s /\ s_delivered s' = s_delivered s /\ s_isSending s' = s_isSending s /\
    s_receiver s' = s_receiver s.
Proof.
  intros H Hin Ek Ho Hlen k'. assert (Hin' : o ∈ owners ++ s_blocks s ++ pending) by (apply elem_of_app; by left).
  destruct (holds_object s owners pending o H Hin') as (Ho0 & kk & Ekk & Hw).
  rewrite Ek in Ekk. injection Ekk as <-.
  assert (Hk' : sendable k') by (split; [destruct Hw; by split|exact Ho]).
  unfold net_socket_send. rewrite (bind_done _ _ _ _ _ (get_packet_done s o k Ho0 Ek)).
  rewrite (bind_done _ _ _ _ _ (put_packet_done s o k k' Ho0 Ek)).
  set (s1 := set_packets _ s).
  assert (H1 : socket_holds s1 owners pending) by (apply (holds_write s owners pending o k k' H Ek); [apply Hk'|done]).
  assert (E1 : s_packets s1 !! o = Some k') by (cbn; apply lookup_insert_eq).
  rewrite (bind_done _ _ _ _ _ (get_packet_done s1 o k' Ho0 E1)). cbn [pk_length k'].
  destruct (Z.ltb_spec 0 (bs_offset (pk_bitstream k))) as [Hpos|Hpos];
    [|exists s1; rewrite app_nil_r; split; [done|]; split; [done|]; by repeat split].
  pose proof H1 as [(p & E & Hp & Hc & Hk) Hq Hz Hs].
  destruct (pool_retain_holds p _ o _ Hp (counts_of_in _ _ Hin')) as (p' & Er & Hb & Hp').
  { pose proof (occurrences_length o (owners ++ s_blocks s ++ pending)). unfold references in Hlen.
    change (s_blocks s1) with (s_blocks s). lia. }
  unfold net_packet_retain. rewrite (bind_done _ _ _ _ _ (on_pool_done _ s1 p tt p' E Er)).
  eexists. split; [reflexivity|]. split; [|by repeat split].
  assert (P : owners ++ (s_blocks s ++ [o]) ++ pending ≡ₚ o :: owners ++ s_blocks s ++ pending)
    by solve_Permutation.
  split; cbn [s_pool s_pending s_blocks s_packets set_blocks set_pool set_packets s1].
  - exists p'. split; [done|]. split; [|split].
    + rewrite P, counts_cons, (counts_of_in _ _ Hin'). exact Hp'.
    + by rewrite (sb_capacity _ _ Hb).
    + intros x Hx. apply Hk. by apply (same_block_object p p' x Hb).
  - done.
  - rewrite P. by constructor.
  - intros x Hx. rewrite <- app_assoc in Hx. apply elem_of_app in Hx as [Hx|Hx].
    + apply Hs. apply elem_of_app. by left.
    + apply elem_of_app in Hx as [Hx|Hx].
      * apply list_elem_of_singleton in Hx as ->. eauto.
      * apply Hs. apply elem_of_app. by right.
Qed.

(** A reference changes hands. *)
Lemma holds_move s s' owners pending owners' pending' : socket_holds s owners pending ->
  s_pool s' = s_pool s -> s_packets s' = s_packets s ->
  owners' ++ s_blocks s' ++ pending' ≡ₚ owners ++ s_blocks s ++ pending ->
  queue_holds (s_pending s') pending' ->
  (forall o, o ∈ s_blocks s' ++ pending' -> o ∈ s_blocks s ++ pending) ->
  socket_holds s' owners' pending'.
Proof.
  intros [(p & E & Hp & Hc & Hk) Hq Hz Hs] E1 E2 P Hq' Hi. split.
  - exists p. rewrite E1, E2. rewrite (counts_perm _ _ P). done.
  - done.
  - by rewrite P.
  - intros o Ho. rewrite E2. by apply Hs, Hi.
Qed.

Section Events.
Context (malloc : gmap Z queue_node_s -> option (Z * queue_node_s)).
Hypothesis malloc_new : malloc_fresh malloc.
Hypothesis malloc_ok : forall h, malloc h <> None.

Lemma block_holds s o blocks owners pending : socket_holds s owners pending ->
  s_blocks s = o :: blocks ->
  exists s', run_send_block malloc s = Done (tt, s') /\ socket_holds s' owners (pending ++ [o]) /\
    s_blocks s' = blocks /\ s_packets s' = s_packets s /\ s_wire s' = s_wire s /\
    s_delivered s' = s_delivered s /\ s_receiver s' = s_receiver s /\
    s_isSending s' = (if s_isSending s =? 0 then 1 else s_isSending s).
Proof.
  intros H Eb. pose proof (sh_pending _ _ _ H) as Hq.
  destruct (queue_push_holds malloc o _ _ malloc_new malloc_ok Hq) as (q' & Eq & Hq').
  unfold run_send_block. rewrite bind_get, Eb, bind_modify.
  set (s1 := set_blocks blocks s).
  rewrite (bind_done _ _ _ _ _ (on_pending_done (queue_push malloc o) s1 tt q' Eq)).
  unfold net_socket_resume_write, modify. eexists. split; [reflexivity|].
  cbn [set_pending s_isSending set_blocks s1]. split.
  - assert (G : socket_holds (set_pending q' s1) owners (pending ++ [o])).
    { apply (holds_move s _ owners pending); [done..| |done|].
      - cbn [s_blocks set_pending set_blocks s1]. rewrite Eb. solve_Permutation.
      - cbn [s_blocks set_pending set_blocks s1]. rewrite Eb. intros x. set_solver. }
    destruct (s_isSending s =? 0); [|exact G]. destruct G. by split.
  - destruct (s_isSending s =? 0); by repeat split.
Qed.

End Events.

(** What goes out for a packet. *)
Definition datagram (packets : gmap Z net_packet_s) (o : Z) : list (net_addr_t * list Z) :=
  match packets !! o with
  | Some k => [(pk_addr k, take (Z.to_nat (pk_length k)) (pk_data k))]
  | None => []
  end.

(** What an operation on the queue of packets leaves alone. *)
Record same_blocks (s s' : net_socket_s) : Prop := {
  sk_packets : s_packets s' = s_packets s;
  sk_blocks : s_blocks s' = s_blocks s;
  sk_delivered : s_delivered s' = s_delivered s;
  sk_receiver : s_receiver s' = s_receiver s;
}.

Lemma sendto_holds s o k owners pending : socket_holds s owners pending -> o <> 0 ->
  s_packets s !! o = Some k -> sendable k ->
  exists s', sendto o s = Done (tt, s') /\ socket_holds s' owners pending /\
    same_blocks s s' /\ s_pending s' = s_pending s /\
    s_wire s' = s_wire s ++ datagram (s_packets s) o.
Proof.
  intros H Ho Ek [[Hd _] Hl]. unfold sendto. rewrite (bind_done _ _ _ _ _ (get_packet_done s o k Ho Ek)).
  rewrite (proj2 (Z.leb_le 0 _)), (proj2 (Z.leb_le (pk_length k) _)) by lia.
  eexists. split; [reflexivity|]. split; [destruct H; by split|]. split; [by split|]. split; [done|].
  cbn. unfold datagram. by rewrite Ek.
Qed.

Lemma send_pending_holds n s owners pending : socket_holds s owners pending ->
  (length pending <= n)%nat ->
  exists s', send_pending n s = Done (tt, s') /\ socket_holds s' owners [] /\ same_blocks s s' /\
    s_wire s' = s_wire s ++ (pending ≫= datagram (s_packets s)).
Proof.
  revert s pending. induction n as [|n IH]; intros s pending H Hn;
    destruct (queue_pop_holds _ _ (sh_pending _ _ _ H)) as (q' & Eq & Hq' & _);
    cbn [send_pending]; rewrite (bind_done _ _ _ _ _ (on_pending_done queue_pop s _ q' Eq));
    (destruct pending as [|o pending];
     [eexists; split; [reflexivity|]; rewrite app_nil_r;
      split; [by apply (holds_move s _ owners []); try done|by repeat split]|]); [cbn in Hn; lia|].
  change (tail (o :: pending)) with pending in Hq'.
  change (default NULL (head (o :: pending))) with o in *.
  assert (Ho : o <> 0).
  { pose proof (sh_nonzero _ _ _ H) as Hz. rewrite Forall_forall in Hz. apply Hz. set_solver. }
  rewrite (proj2 (Z.eqb_neq o NULL)) by done. set (s1 := set_pending q' s).
  assert (H1 : socket_holds s1 (o :: owners) pending).
  { apply (holds_move s s1 owners (o :: pending)); try done.
    - cbn [s_blocks set_pending s1]. solve_Permutation.
    - cbn [s_blocks set_pending s1]. set_solver. }
  destruct (sh_queued _ _ _ H o ltac:(set_solver)) as (k & Ek & Hk).
  destruct (sendto_holds s1 o k _ _ H1 Ho Ek Hk) as (s2 & E2 & H2 & S2 & _ & W2).
  rewrite (bind_done _ _ _ _ _ E2).
  destruct (release_holds s2 o owners pending H2) as (s3 & E3 & S3 & P3 & H3).
  unfold net_packet_release in E3. rewrite (bind_done _ _ _ _ _ E3).
  destruct (IH s3 pending H3) as (s4 & E4 & H4 & S4 & W4); [cbn in Hn; lia|].
  exists s4. split; [done|]. split; [done|]. destruct S2 as [A1 A2 A3 A4], S3 as [_ B2 B3 B4 _ B6], S4 as [C1 C2 C3 C4].
  subst s1. cbn [s_packets s_blocks s_delivered s_receiver s_wire set_pending] in *.
  split; [split; congruence|]. rewrite W4, B4, W2, P3, A1, <- app_assoc. done.
Qed.

Lemma write_event_holds s owners pending : socket_holds s owners pending ->
  exists s', write_event s = Done (tt, s') /\ socket_holds s' owners [] /\ same_blocks s s' /\
    s_isSending s' = 0 /\ s_wire s' = s_wire s ++ (pending ≫= datagram (s_packets s)).
Proof.
  intros H. unfold write_event. rewrite bind_get.
  destruct (send_pending_holds (size (q_heap (s_pending s))) s owners pending H) as (s1 & E1 & H1 & S1 & W1).
  { apply queue_holds_size, (sh_pending _ _ _ H). }
  rewrite (bind_done _ _ _ _ _ E1). unfold net_socket_suspend_write, modify.
  eexists. split; [reflexivity|]. destruct (Z.eqb_spec (s_isSending s1) 0) as [Z0|Z0]; cbn [negb].
  - done.
  - split; [destruct H1; by split|]. split; [destruct S1; by split|]. split; done.
Qed.

(** ** Receiving *)

(** A packet as the receiver gets it: rewound to its start. *)
Record unread (k : net_packet_s) : Prop := {
  ur_wf : packet_wf k;
  ur_offset : bs_offset (pk_bitstream k) = 0;
  ur_bound : bs_bound (pk_bitstream k) = kNetPacketMaxLen;
}.

(** The packet that holds a datagram. *)
Definition holding (addr : net_addr_t) (bytes : list Z) (k : net_packet_s) : Prop :=
  pk_addr k = addr /\ take (length bytes) (pk_data k) = bytes /\
  unread k /\ (0 < zlen bytes -> pk_length k = zlen bytes).

Lemma unread_ahead k bytes : unread k -> take (length bytes) (pk_data k) = bytes ->
  ahead (pk_bitstream k) bytes.
Proof.
  intros U E. exists (drop (length bytes) (pk_data k)). unfold cursor. rewrite (ur_offset _ U).
  change (drop (Z.to_nat 0) (bs_data (pk_bitstream k))) with (pk_data k).
  transitivity (take (length bytes) (pk_data k) ++ drop (length bytes) (pk_data k)); [by rewrite take_drop|by rewrite E].
Qed.

Definition fits (d : option (net_addr_t * list Z)) : bool :=
  match d with Some (_, bytes) => zlen bytes <=? kNetPacketMaxLen | None => false end.

Definition empty (d : option (net_addr_t * list Z)) : bool :=
  match d with Some (_, bytes) => zlen bytes =? 0 | None => false end.

(** Is a packet free? *)
Definition exhausted (s : net_socket_s) (owners pending : list Z) : bool :=
  Z.of_nat (size (counts_of (references s owners pending))) =? kNetPacketPoolCapacity.

Lemma splice_start {A} (l xs : list A) : (length xs <= length l)%nat -> take (length xs) (splice l 0 xs) = xs.
Proof. intros H. unfold splice. rewrite take_0, app_nil_l. by rewrite take_app_length. Qed.

(** What [recvfrom] makes of a packet. *)
Definition recv_packet (addr : net_addr_t) (bytes : list Z) (k : net_packet_s) : net_packet_s :=
  mkPacket addr (pk_length k)
    (mkBitstream (splice (pk_data k) 0 (take (Z.to_nat kNetPacketMaxLen) bytes))
       (bs_offset (pk_bitstream k)) (bs_bound (pk_bitstream k))).

Lemma recv_packet_wf k addr bytes : packet_wf k -> Forall byte bytes -> packet_wf (recv_packet addr bytes k).
Proof.
  intros [Hd Hb] By. split; unfold pk_data; cbn [recv_packet pk_bitstream bs_data].
  - unfold zlen, kNetPacketMaxLen in *. rewrite length_splice; [exact Hd|]. rewrite length_take. lia.
  - apply Forall_splice; [exact Hb|]. by apply Forall_take.
Qed.

Lemma recv_packet_data k addr bytes : packet_wf k -> zlen bytes <= kNetPacketMaxLen ->
  take (length bytes) (pk_data (recv_packet addr bytes k)) = bytes.
Proof.
  intros [L _] Hl. unfold zlen, kNetPacketMaxLen in *. unfold pk_data at 1. cbn [recv_packet pk_bitstream bs_data].
  unfold kNetPacketMaxLen. rewrite (take_ge bytes) by lia. apply splice_start. lia.
Qed.

Lemma recv_packet_holding k addr bytes : packet_wf k -> Forall byte bytes -> zlen bytes <= kNetPacketMaxLen ->
  let k' := recv_packet addr bytes (net_packet_init k) in
  (0 < zlen bytes -> pk_length k = zlen bytes) -> holding addr bytes k'.
Proof.
  intros W By Hl k' Hlen. assert (W0 : packet_wf (net_packet_init k)) by (destruct W; by split).
  split; [done|]. split; [by apply recv_packet_data|]. split; [split; [by apply recv_packet_wf|done..]|done].
Qed.

(** The packet that a read event took, and what became of it. *)
Definition takes (s s' : net_socket_s) (owners pending : list Z) (d : option (net_addr_t * list Z)) (o : Z)
    (k : net_packet_s) : Prop :=
  (exists s0, net_packet_alloc s = Done (o, s0)) /\ o <> 0 /\ (o ∉ references s owners pending) /\
  s_packets s' = <[o := k]> (s_packets s) /\
  socket_holds s' (if fits d then o :: owners else owners) pending /\
  s_delivered s' = s_delivered s ++
    (if fits d && negb (empty d) && has_receiver (s_receiver s) then [o] else []) /\
  match d with
  | Some (addr, bytes) => fits d = true -> holding addr bytes k
  | None => True
  end.

(** A datagram that is not wanted: its packet is given back. *)
Lemma takes_unwanted s s' owners pending d o k : (exists s0, net_packet_alloc s = Done (o, s0)) -> o <> 0 ->
  (o ∉ references s owners pending) -> fits d = false -> s_packets s' = <[o := k]> (s_packets s) ->
  same_queues s s' -> socket_holds s' (o :: owners) pending ->
  exists s'', net_packet_free o s' = Done (tt, s'') /\ same_queues s s'' /\ takes s s'' owners pending d o k.
Proof.
  intros E Ho Hn F P Q H. destruct (free_holds s' o owners pending H) as (s2 & E2 & Q' & P2 & H2).
  { by rewrite (sq_blocks _ _ Q). }
  assert (Q2 : same_queues s s2) by (by etrans). exists s2. split; [done|]. split; [done|].
  do 3 (split; [done|]). split; [congruence|]. rewrite F. split; [done|].
  split; [cbn; rewrite app_nil_r; apply Q2|by destruct d as [[]|]].
Qed.

(** A datagram that fits: its packet stays, and is delivered when there is a
    receiver and a byte in it. *)
Lemma takes_wanted s s' owners pending addr bytes o k : (exists s0, net_packet_alloc s = Done (o, s0)) -> o <> 0 ->
  (o ∉ references s owners pending) -> zlen bytes <= kNetPacketMaxLen -> s_packets s' = <[o := k]> (s_packets s) ->
  socket_holds s' (o :: owners) pending -> holding addr bytes k ->
  s_delivered s' = s_delivered s ++ (if (0 <? zlen bytes) && has_receiver (s_receiver s) then [o] else []) ->
  takes s s' owners pending (Some (addr, bytes)) o k.
Proof.
  intros E Ho Hn Hl P H Hh Ed. unfold takes. cbn [fits empty]. rewrite (proj2 (Z.leb_le _ _) Hl). cbn [andb].
  do 5 (split; [done|]). split; [|done]. rewrite Ed. pose proof (zlen_nonneg bytes).
  destruct (Z.ltb_spec 0 (zlen bytes)), (Z.eqb_spec (zlen bytes) 0); done || lia.
Qed.

(** [recvfrom] fills the packet that was taken. *)
Lemma packet_stored s s1 owners pending o k addr bytes : same_queues s s1 -> socket_holds s1 (o :: owners) pending ->
  o <> 0 -> (o ∉ references s owners pending) -> packet_wf k -> s_packets s1 = <[o := net_packet_init k]> (s_packets s) ->
  Forall byte bytes -> exists s2, on_packet o (recv_packet addr bytes) s1 = Done (tt, s2) /\
  socket_holds s2 (o :: owners) pending /\ same_queues s s2 /\
  s_packets s2 = <[o := recv_packet addr bytes (net_packet_init k)]> (s_packets s).
Proof.
  intros Q H Ho Hn Hk P By. assert (Ek : s_packets s1 !! o = Some (net_packet_init k)) by (rewrite P; apply lookup_insert_eq).
  eexists. split; [by apply (on_packet_done s1 o _ _ Ho Ek)|]. split; [|split].
  - apply (holds_write s1 _ _ o _ _ H Ek); [apply recv_packet_wf; [destruct Hk; by split|done]|].
    rewrite (sq_blocks _ _ Q). intros Hin. exfalso. apply Hn. unfold references. apply elem_of_app. by right.
  - destruct Q. by split.
  - cbn. by rewrite P, insert_insert_eq.
Qed.

Lemma read_event_at s owners pending d : socket_holds s owners pending ->
  match d with Some (_, bytes) => Forall byte bytes | None => True end ->
  exists s', read_event d s = Done (tt, s') /\ s_pending s' = s_pending s /\
    s_blocks s' = s_blocks s /\ s_wire s' = s_wire s /\ s_receiver s' = s_receiver s /\
    if exhausted s owners pending then s' = s else exists o k, takes s s' owners pending d o k.
Proof.
  intros H By. destruct (alloc_holds s owners pending H) as (o & s1 & E1 & Q1 & A).
  unfold read_event. rewrite (bind_done _ _ _ _ _ E1). unfold exhausted.
  destruct (_ =? kNetPacketPoolCapacity).
  { destruct A as [-> ->]. rewrite Z.eqb_refl. by exists s. }
  destruct A as (Ho & Hni & H1 & k & Hk & P1). rewrite (proj2 (Z.eqb_neq o 0)) by done.
  assert (Ea : exists s0, net_packet_alloc s = Done (o, s0)) by (by eexists). clear E1.
  destruct d as [[addr bytes]|].
  2:{ destruct (takes_unwanted s s1 owners pending None o _ Ea Ho Hni eq_refl P1 Q1 H1) as (s2 & E2 & [] & R2).
      exists s2. do 5 (split; [done|]). by eexists _, _. }
  destruct (packet_stored s s1 owners pending o k addr bytes Q1 H1 Ho Hni Hk P1 By) as (s2 & E2 & H2 & Q2 & P2).
  change (fun k => mkPacket addr _ _) with (recv_packet addr bytes). rewrite (bind_done _ _ _ _ _ E2).
  set (k1 := recv_packet addr bytes (net_packet_init k)) in *.
  destruct (Z.ltb_spec 0 (zlen bytes)) as [Lz|Lz].
  2:{ destruct Q2 as [B1 B2 B3 B4 _ B6]. exists s2. do 5 (split; [done|]). exists o, k1.
      apply takes_wanted; [done..|unfold kNetPacketMaxLen; lia|done|done|apply recv_packet_holding; [done..|unfold kNetPacketMaxLen; lia|lia]|].
      by rewrite B3, (proj2 (Z.ltb_ge _ _) Lz), app_nil_r. }
  destruct (Z.leb_spec (zlen bytes) kNetPacketMaxLen) as [Lm|Lm].
  2:{ destruct (takes_unwanted s s2 owners pending (Some (addr, bytes)) o k1 Ea Ho Hni) as (s3 & E3 & [] & R3);
        [by apply Z.leb_gt|done..|].
      exists s3. split; [exact E3|]. do 4 (split; [done|]). by eexists _, _. }
  set (k2 := mkPacket addr (zlen bytes) (pk_bitstream k1)). assert (Ek2 : s_packets s2 !! o = Some k1) by (rewrite P2; apply lookup_insert_eq).
  rewrite (bind_done _ _ _ _ _ (on_packet_done s2 o k1 _ Ho Ek2)), bind_get.
  change (mkPacket _ _ _) with k2. set (s3 := set_packets (<[o := k2]> (s_packets s2)) s2).
  assert (H3 : socket_holds s3 (o :: owners) pending).
  { apply (holds_write s2 _ _ o k1 k2 H2 Ek2); [destruct (recv_packet_wf (net_packet_init k) addr bytes) as [? ?]; [destruct Hk; by split|done|by split]|].
    rewrite (sq_blocks _ _ Q2). intros Hin. exfalso. apply Hni. unfold references. apply elem_of_app. by right. }
  assert (P3 : s_packets s3 = <[o := k2]> (s_packets s)).
  { change (<[o := k2]> (s_packets s2) = <[o := k2]> (s_packets s)). by rewrite P2, insert_insert_eq. }
  assert (Hh : holding addr bytes k2).
  { apply (recv_packet_holding (mkPacket (pk_addr k) (zlen bytes) (pk_bitstream k)) addr bytes); [destruct Hk; by split|done..]. }
  change (s_receiver s3) with (s_receiver s2). destruct Q2 as [B1 B2 B3 B4 _ B6]. rewrite B6.
  destruct (has_receiver (s_receiver s)) eqn:Er; eexists; (split; [reflexivity|]); do 4 (split; [done|]); exists o, k2;
    (apply takes_wanted; [done..| | |]); rewrite ?Er, ?(proj2 (Z.ltb_lt _ _) Lz); cbn; rewrite ?B3, ?app_nil_r; try done.
  destruct H3. by split.
Qed.

Lemma read_event_holds s owners pending d : socket_holds s owners pending ->
  match d with Some (_, bytes) => Forall byte bytes | None => True end ->
  exists s', read_event d s = Done (tt, s') /\ s_pending s' = s_pending s /\
    s_blocks s' = s_blocks s /\ s_wire s' = s_wire s /\ s_receiver s' = s_receiver s /\
    if exhausted s owners pending then s' = s
    else exists o k, o <> 0 /\ (o ∉ references s owners pending) /\
      s_packets s' = <[o := k]> (s_packets s) /\
      socket_holds s' (if fits d then o :: owners else owners) pending /\
      s_delivered s' = s_delivered s ++
        (if fits d && negb (empty d) && has_receiver (s_receiver s) then [o] else []) /\
      match d with
      | Some (addr, bytes) => fits d = true -> holding addr bytes k
      | None => True
      end.
Proof.
  intros H By. destruct (read_event_at s owners pending d H By) as (s' & E1 & E2 & E3 & E4 & E5 & A).
  exists s'. do 5 (split; [done|]). destruct (exhausted _ _ _); [done|]. destruct A as (o & k & _ & A). by exists o, k.
Qed.

(** ** Filling a packet *)

(** A packet filled with some bytes for an address ... *)
Record packed (k : net_packet_s) (address : net_addr_t) (bytes : list Z) : Prop := {
  pd_wf : packet_wf k;
  pd_addr : pk_addr k = address;
  pd_offset : bs_offset (pk_bitstream k) = zlen bytes;
  pd_data : take (length bytes) (pk_data k) = bytes;
}.

(** ... and given to [net_socket_send]. *)
Record carries (k : net_packet_s) (address : net_addr_t) (bytes : list Z) : Prop := {
  cr_packed : packed k address bytes;
  cr_length : pk_length k = zlen bytes;
}.

Lemma packed_carries k address bytes : packed k address bytes ->
  carries (mkPacket (pk_addr k) (bs_offset (pk_bitstream k)) (pk_bitstream k)) address bytes.
Proof. intros [W A O D]. split; [split; [destruct W; by split|done..]|done]. Qed.

Lemma datagram_carries packets o k address bytes : packets !! o = Some k -> carries k address bytes ->
  datagram packets o = [(address, bytes)].
Proof.
  intros E [[_ Ea _ D] El]. unfold datagram. rewrite E, Ea, El. unfold zlen. by rewrite Nat2Z.id, D.
Qed.

Lemma append_start k bs : packet_wf k -> zlen bs <= kNetPacketMaxLen ->
  let b := append (pk_bitstream (net_packet_init k)) bs in
  zlen (bs_data b) = kNetPacketMaxLen /\ bs_offset b = zlen bs /\ take (length bs) (bs_data b) = bs.
Proof.
  intros [Hd _] Hl b. unfold pk_data, zlen, kNetPacketMaxLen in *. subst b. unfold append. cbn.
  split; [rewrite length_splice; unfold cursor, pk_data; cbn; lia|]. split; [unfold zlen; lia|].
  apply splice_start. unfold pk_data. lia.
Qed.

(** A header, a body and the destination, as every message is packed. *)
Definition pack_packet (packet : Z) (header body : prog bitstream_t unit) (address : net_addr_t) :
    prog net_socket_s unit :=
  on_bitstream packet header ;;
  on_bitstream packet body ;;
  on_packet packet (fun k => net_packet_addr k address).

Lemma pack_packet_done s o k0 header body b1 b2 address : o <> 0 -> packet_wf k0 ->
  s_packets s !! o = Some (net_packet_init k0) -> emits header b1 tt -> emits body b2 tt ->
  zlen (b1 ++ b2) <= kNetPacketMaxLen ->
  exists k, pack_packet o header body address s = Done (tt, set_packets (<[o := k]> (s_packets s)) s) /\
    packed k address (b1 ++ b2).
Proof.
  intros Ho W E [Bh Eh] [Bd Ed] F. unfold pack_packet.
  set (s0 := pk_bitstream (net_packet_init k0)).
  assert (W0 : bs_wf s0) by (by apply packet_init_wf).
  assert (R0 : room s0 = 256) by apply packet_init_room.
  rewrite zlen_app in F. unfold kNetPacketMaxLen in F. pose proof (zlen_nonneg b1). pose proof (zlen_nonneg b2).
  set (s1 := append s0 b1).
  rewrite (bind_done _ _ _ _ _ (on_bitstream_done s o _ _ tt s1 Ho E (Eh s0 W0 ltac:(lia)))).
  set (t1 := set_packets _ s).
  assert (E1 : s_packets t1 !! o = Some (mkPacket (pk_addr k0) (pk_length k0) s1)) by (cbn; apply lookup_insert_eq).
  assert (W1 : bs_wf s1) by (apply append_wf; [done|lia|done]).
  assert (R1 : zlen b2 <= room s1) by (unfold s1; rewrite room_append; lia).
  set (s2 := append s1 b2).
  rewrite (bind_done _ _ _ _ _ (on_bitstream_done t1 o _ _ tt s2 Ho E1 (Ed s1 W1 R1))). unfold t1. rewrite packets_twice.
  set (t2 := set_packets _ s).
  assert (E2 : s_packets t2 !! o = Some (mkPacket (pk_addr k0) (pk_length k0) s2)) by (cbn; apply lookup_insert_eq).
  rewrite (on_packet_done t2 o _ _ Ho E2). unfold t2. rewrite packets_twice. cbn [pk_addr pk_length pk_bitstream].
  eexists. split; [reflexivity|]. unfold net_packet_addr. cbn [pk_addr pk_length pk_bitstream].
  assert (Eb : s2 = append s0 (b1 ++ b2)) by (apply append_append; [done|lia]).
  assert (W2 : bs_wf s2) by (by apply append_wf).
  destruct (append_start k0 (b1 ++ b2) W) as (Hd & Hof & Htk); [rewrite zlen_app; unfold kNetPacketMaxLen; lia|].
  fold s0 in Hd, Hof, Htk. rewrite <- Eb in Hd, Hof, Htk.
  split; [split; [exact Hd|apply W2]|done..].
Qed.

(** A packet of the pool is filled and sent; its user still holds it. *)
Record posted (s s' : net_socket_s) (o : Z) (k : net_packet_s) : Prop := {
  po_fresh : o ∉ s_blocks s;
  po_packets : s_packets s' = <[o := k]> (s_packets s);
  po_blocks : s_blocks s' = s_blocks s ++ [o];
  po_delivered : s_delivered s' = s_delivered s;
  po_wire : s_wire s' = s_wire s;
  po_receiver : s_receiver s' = s_receiver s;
}.

Lemma post_packet s owners pending o k0 header body b1 b2 address :
  socket_holds s owners pending -> o ∈ owners -> packet_wf k0 ->
  s_packets s !! o = Some (net_packet_init k0) -> o ∉ s_blocks s ++ pending ->
  emits header b1 tt -> emits body b2 tt -> 0 < zlen (b1 ++ b2) <= kNetPacketMaxLen ->
  Z.of_nat (length (references s owners pending)) + 1 < 2 ^ 32 ->
  exists s1 s2 k, pack_packet o header body address s = Done (tt, s1) /\
    net_socket_send o s1 = Done (tt, s2) /\ socket_holds s2 owners pending /\
    carries k address (b1 ++ b2) /\ posted s s2 o k.
Proof.
  intros H Hin W E Hq H1 H2 F Hlen.
  assert (Ho : o <> 0) by (apply (holds_object s owners pending o H), elem_of_app; by left).
  destruct (pack_packet_done s o k0 header body b1 b2 address Ho W E H1 H2 (proj2 F)) as (k & Ep & Hk).
  set (s1 := set_packets _ s) in *. pose proof (pd_offset _ _ _ Hk) as Ek.
  assert (Hs1 : socket_holds s1 owners pending).
  { apply (holds_write s _ _ o (net_packet_init k0) k H E (pd_wf _ _ _ Hk)). intros Hx. done. }
  destruct (send_holds s1 o owners pending k Hs1 Hin) as (s2 & Es & H3 & Pk & _ & B & Wr & D & _ & R);
    [cbn; apply lookup_insert_eq|lia|done|].
  exists s1, s2. eexists. split; [done|]. split; [done|]. split; [done|]. split; [by apply packed_carries|].
  rewrite Ek, (proj2 (Z.ltb_lt 0 _)) in B by lia. split; [|rewrite Pk; cbn; by rewrite insert_insert_eq|done..].
  intros Hx. apply Hq, elem_of_app. by left.
Qed.

(** ** A well-behaved user of the socket

    It fills, sends, retains and releases only packets it owns, and frees one
    only when nobody else has a reference to it; the events of the system come
    in between in any order, reads that fail, datagrams that are empty or too
    long and changes of the receiver among them. *)

Inductive socket_op :=
| OpAlloc
| OpFill (packet : Z) (addr : net_addr_t) (data : list Z)
| OpSend (packet : Z)
| OpRetain (packet : Z)
| OpRelease (packet : Z)
| OpFree (packet : Z)
| OpBlock
| OpWritable
| OpReadable (datagram : option (net_addr_t * list Z))
| OpReceiver (info : net_socket_info).

Fixpoint remove_one (o : Z) (l : list Z) : list Z :=
  match l with
  | [] => []
  | x :: l' => if x =? o then l' else x :: remove_one o l'
  end.

Definition fill (packet : Z) (addr : net_addr_t) (data : list Z) : prog net_socket_s unit :=
  k <- get_packet packet ;;
  k' <- lift (net_packet_set_data k data (zlen data)) ;;
  put_packet packet (net_packet_addr k' addr).

(** The user's reference is the only one: it is neither dispatched nor queued. *)
Definition sole (o : Z) (owners : list Z) (s : net_socket_s) : Prop :=
  o ∈ owners /\ (o ∉ remove_one o owners) /\ (o ∉ s_blocks s) /\
  map_Forall (fun _ n => qn_object n <> o) (q_heap (s_pending s)).

#[export] Instance sole_dec o owners s : Decision (sole o owners s).
Proof. unfold sole. apply _. Defined.

Section Run.
Context (malloc : gmap Z queue_node_s -> option (Z * queue_node_s)).

(** The result is what the user owns afterwards. *)
Definition socket_step (op : socket_op) (owners : list Z) : prog net_socket_s (list Z) :=
  match op with
  | OpAlloc => o <- net_packet_alloc ;; ret (if o =? 0 then owners else o :: owners)
  | OpFill o addr data =>
      if decide (o ∈ owners) then fill o addr data ;; ret owners else ret owners
  | OpSend o => if decide (o ∈ owners) then net_socket_send o ;; ret owners else ret owners
  | OpRetain o =>
      if decide (o ∈ owners) then net_packet_retain o ;; ret (o :: owners) else ret owners
  | OpRelease o =>
      if decide (o ∈ owners) then net_packet_release o ;; ret (remove_one o owners) else ret owners
  | OpFree o =>
      s <- get ;;
      if decide (sole o owners s) then net_packet_free o ;; ret (remove_one o owners) else ret owners
  | OpBlock => run_send_block malloc ;; ret owners
  | OpWritable => write_event ;; ret owners
  | OpReadable d =>
      s <- get ;;
      read_event d ;;
      s' <- get ;;
      ret (drop (length (s_delivered s)) (s_delivered s') ++ owners)
  | OpReceiver info => net_socket_set_info info ;; ret owners
  end.

Fixpoint socket_run (ops : list socket_op) (owners : list Z) : prog net_socket_s (list Z) :=
  match ops with
  | [] => ret owners
  | op :: ops' => owners' <- socket_step op owners ;; socket_run ops' owners'
  end.

(** Bytes are bytes. *)
Definition socket_op_ok (op : socket_op) : Prop :=
  match op with
  | OpFill _ _ data => Forall byte data
  | OpReadable (Some (_, bytes)) => Forall byte bytes
  | _ => True
  end.

(** The datagrams whose packet nobody gets: empty ones, and those that come
    while there is no receiver. *)
Fixpoint unclaimed (ops : list socket_op) (info : net_socket_info) : nat :=
  match ops with
  | [] => 0
  | OpReadable d :: ops' => (if fits d && (empty d || negb (has_receiver info)) then 1 else 0) + unclaimed ops' info
  | OpReceiver info' :: ops' => unclaimed ops' info'
  | _ :: ops' => unclaimed ops' info
  end.

(** What the user may assume of its packets. *)
Definition usable (s : net_socket_s) (owners : list Z) : Prop :=
  forall o k, o ∈ owners -> s_packets s !! o = Some k -> 0 <= bs_offset (pk_bitstream k) <= kNetPacketMaxLen.

(** The references to packets: those of the user, those that are lost, the
    dispatched blocks (in [socket_holds]) and the queue. *)
Record run_holds (s : net_socket_s) (owners lost pending : list Z) : Prop := {
  rn_socket : socket_holds s (owners ++ lost) pending;
  rn_usable : usable s owners;
  rn_apart : forall o, o ∈ owners -> o ∉ lost;
}.

Lemma remove_one_perm o l : o ∈ l -> l ≡ₚ o :: remove_one o l.
Proof.
  induction l as [|x l IH]; intros Hin; [by apply not_elem_of_nil in Hin|]. cbn.
  destruct (Z.eqb_spec x o) as [->|Hx]; [done|]. apply elem_of_cons in Hin as [->|Hin]; [done|].
  rewrite (IH Hin) at 1. apply Permutation_swap.
Qed.

Lemma usable_same s s' owners owners' : usable s owners -> s_packets s' = s_packets s ->
  (forall o, o ∈ owners' -> o ∈ owners) -> usable s' owners'.
Proof. intros U E I o k Ho Hk. rewrite E in Hk. by apply (U o k); [apply I|]. Qed.

Lemma usable_write s s' owners o k' : usable s owners -> s_packets s' = <[o := k']> (s_packets s) ->
  0 <= bs_offset (pk_bitstream k') <= kNetPacketMaxLen -> usable s' owners.
Proof.
  intros U E Hk x k Hx Hxk. rewrite E in Hxk. apply lookup_insert_Some in Hxk as [[_ <-]|[_ Hxk]]; [done|].
  by apply (U x k).
Qed.

Lemma set_data_spec k data : packet_wf k -> Forall byte data ->
  exists k', net_packet_set_data k data (zlen data) = Done k' /\
    if zlen data <=? kNetPacketMaxLen then
      pk_length k' = zlen data /\ bs_offset (pk_bitstream k') = zlen data /\ packet_wf k'
    else k' = k.
Proof.
  intros [Hd Hb] By. unfold net_packet_set_data.
  destruct (Z.leb_spec (zlen data) kNetPacketMaxLen) as [L|L]; [|by exists k].
  unfold memcpy. rewrite decide_True by (pose proof (zlen_nonneg data); lia).
  eexists. split; [reflexivity|]. cbn [pk_length pk_bitstream bs_offset]. split; [done|]. split; [done|].
  unfold kNetPacketMaxLen, zlen, pk_data in *. split; unfold pk_data; cbn [pk_bitstream bs_data].
  - unfold zlen, kNetPacketMaxLen. rewrite length_splice; [lia|]. rewrite length_take, length_drop. lia.
  - apply Forall_splice; [done|]. apply Forall_take. by rewrite Z2Nat.inj_0, drop_0.
Qed.

Lemma run_owner s owners lost pending o : run_holds s owners lost pending -> o ∈ owners ->
  exists k, s_packets s !! o = Some k /\ o <> 0 /\ packet_wf k /\ 0 <= bs_offset (pk_bitstream k) <= kNetPacketMaxLen.
Proof.
  intros [H U _] Hin. destruct (holds_object s _ pending o H) as (Ho & k & Ek & Hw); [set_solver|].
  exists k. split; [done|]. split; [done|]. split; [done|]. by apply (U o).
Qed.

Lemma fill_holds s o addr data owners lost pending : run_holds s owners lost pending -> o ∈ owners -> Forall byte data ->
  exists s', fill o addr data s = Done (tt, s') /\ run_holds s' owners lost pending /\ s_blocks s' = s_blocks s /\
    s_receiver s' = s_receiver s.
Proof.
  intros Hr Hin By. destruct (run_owner s owners lost pending o Hr Hin) as (k & Ek & Ho & Hw & Hk). destruct Hr as [H U A].
  destruct (set_data_spec k data Hw By) as (k' & E' & S'). unfold fill.
  rewrite (bind_done _ _ _ _ _ (get_packet_done s o k Ho Ek)). unfold bind at 1, lift. rewrite E'.
  rewrite (put_packet_done s o k _ Ho Ek). eexists. split; [reflexivity|]. split; [|done].
  pose proof (zlen_nonneg data) as Hz.
  destruct (Z.leb_spec (zlen data) kNetPacketMaxLen) as [L|L].
  - destruct S' as (L1 & L2 & W'). split; [| |exact A].
    + apply (holds_write s _ pending o k _ H Ek); [destruct W'; by split|].
      intros _. split; [destruct W'; by split|]. cbn. lia.
    + apply (usable_write s _ owners o (net_packet_addr k' addr)); [exact U|reflexivity|cbn; lia].
  - subst k'. split; [| |exact A].
    + apply (holds_write s _ pending o k _ H Ek); [destruct Hw; by split|]. intros Hq.
      destruct (sh_queued _ _ _ H o Hq) as (k2 & Ek2 & [Hw2 Hl2]). rewrite Ek in Ek2. injection Ek2 as <-.
      split; [destruct Hw; by split|done].
    + apply (usable_write s _ owners o (net_packet_addr k addr)); [exact U|reflexivity|done].
Qed.

Lemma run_retain s o owners pending : socket_holds s owners pending -> o ∈ owners ->
  Z.of_nat (length (references s owners pending)) + 1 < 2 ^ 32 ->
  exists s', net_packet_retain o s = Done (tt, s') /\ same_queues s s' /\
    s_packets s' = s_packets s /\ socket_holds s' (o :: owners) pending.
Proof.
  intros H Hin Hlen. pose proof H as [(p & E & Hp & Hc & Hk) Hq Hz Hs].
  assert (Hin' : o ∈ references s owners pending) by (unfold references; set_solver).
  destruct (pool_retain_holds p _ o _ Hp (counts_of_in _ _ Hin')) as (p' & Er & Hb & Hp').
  { pose proof (occurrences_length o (references s owners pending)). lia. }
  exists (set_pool p' s). unfold net_packet_retain. rewrite (on_pool_done _ s p tt p' E Er).
  split; [done|]. split; [by split|]. split; [done|].
  apply (holds_pool s owners pending p p' (o :: owners) H E Hb).
  - change ((o :: owners) ++ s_blocks s ++ pending) with (o :: references s owners pending).
    by rewrite counts_cons, (counts_of_in _ _ Hin').
  - apply Forall_app in Hz as [Hz _]. constructor; [|done]. by eapply Forall_forall in Hz.
Qed.

(** An object that no node of the queue holds is not in the queue. *)
Lemma queue_absent q l o : queue_holds q l -> map_Forall (fun _ n => qn_object n <> o) (q_heap q) -> o ∉ l.
Proof.
  intros (enq & res & C & <-) F. pose proof (cells_head _ _ _ C) as Hc. clear C. revert Hc. generalize (q_head q).
  induction enq as [|[a x] enq IH]; intros p; [by intros _ ?%not_elem_of_nil|].
  intros (-> & Hn & next & Ha & Hc). cbn. intros [->|Hin]%elem_of_cons; [|by apply (IH next)]. by apply (F _ _ Ha).
Qed.

Hypothesis malloc_new : malloc_fresh malloc.
Hypothesis malloc_ok : forall h, malloc h <> None.

(** One step adds at most one reference, and loses at most one. *)
Record steps (op : socket_op) (s s' : net_socket_s) (o o' lost more p p' : list Z) : Prop := {
  st_holds : run_holds s' o' (more ++ lost) p';
  st_grows : (length (references s' (o' ++ more ++ lost) p') <= S (length (references s (o ++ lost) p)))%nat;
  st_lost : forall ops, (length more + unclaimed ops (s_receiver s') <= unclaimed (op :: ops) (s_receiver s))%nat;
}.

(** A step that loses nothing. *)
Lemma steps_intro op s s' o o' lost p p' : run_holds s' o' lost p' ->
  (length o' + length (s_blocks s' ++ p') <= S (length o + length (s_blocks s ++ p)))%nat ->
  (forall ops, unclaimed ops (s_receiver s') <= unclaimed (op :: ops) (s_receiver s))%nat -> steps op s s' o o' lost [] p p'.
Proof. intros H L U. split; [done| |done]. unfold references. rewrite !length_app in *. cbn. lia. Qed.

Lemma alloc_step s owners lost pending : run_holds s owners lost pending ->
  exists owners' s', socket_step OpAlloc owners s = Done (owners', s') /\ steps OpAlloc s s' owners owners' lost [] pending pending.
Proof.
  intros Hr. pose proof Hr as [H U A]. unfold socket_step. destruct (alloc_holds s _ pending H) as (o & s' & E & Q & R).
  rewrite (bind_done _ _ _ _ _ E). destruct (_ =? kNetPacketPoolCapacity).
  - destruct R as [-> ->]. exists owners, s. split; [done|]. by apply steps_intro; [|lia|].
  - destruct R as (Ho & Hni & H' & k & Hk & P). rewrite (proj2 (Z.eqb_neq o 0)) by done.
    exists (o :: owners), s'. split; [done|]. destruct Q as [Q1 Q2 Q3 Q4 Q5 Q6].
    apply steps_intro; [|rewrite Q2; cbn; lia|by rewrite Q6]. split; [exact H'| |].
    + intros x kx Hx Hkx. rewrite P in Hkx. apply lookup_insert_Some in Hkx as [[_ <-]|[Hne Hkx]]; [done|].
      apply elem_of_cons in Hx as [->|Hx]; [done|]. by apply (U x kx).
    + intros x [->|Hx]%elem_of_cons; [|by apply A]. intros Hl. apply Hni. unfold references. set_solver.
Qed.

(** A packet that arrives is the user's, lost, or given back. *)
Lemma readable_step s owners lost pending d : run_holds s owners lost pending ->
  match d with Some (_, bytes) => Forall byte bytes | None => True end ->
  exists owners' more s', socket_step (OpReadable d) owners s = Done (owners', s') /\
    steps (OpReadable d) s s' owners owners' lost more pending pending.
Proof.
  intros Hr By. pose proof Hr as [H U A]. unfold socket_step. rewrite bind_get.
  destruct (read_event_holds s _ pending d H By) as (s' & E & _ & B & _ & R' & T).
  rewrite (bind_done _ _ _ _ _ E), bind_get. unfold ret.
  destruct (exhausted s _ pending).
  { subst s'. rewrite drop_all. eexists _, [], s. split; [reflexivity|]. apply steps_intro; [done|cbn; lia|cbn; lia]. }
  destruct T as (o & k & Ho & Hni & P & H' & D & K). rewrite D, drop_app_length.
  assert (Ni : (o ∉ owners) /\ (o ∉ lost)) by (unfold references in Hni; set_solver).
  assert (Us : usable s' owners).
  { intros x kx Hx Hkx. rewrite P in Hkx. apply lookup_insert_Some in Hkx as [[<- _]|[_ Hkx]]; [by destruct Ni|].
    by apply (U x kx). }
  destruct (fits d) eqn:F; cbn [andb].
  2:{ eexists _, [], s'. split; [reflexivity|]. apply steps_intro; [by split|cbn; rewrite B; lia|cbn; rewrite R', F; cbn; lia]. }
  destruct (empty d || negb (has_receiver (s_receiver s))) eqn:G.
  - assert (negb (empty d) && has_receiver (s_receiver s) = false) as -> by (by destruct (empty d), (has_receiver _)).
    eexists _, [o], s'. split; [reflexivity|]. split.
    + split; [|exact Us|intros x Hx; cbn; rewrite not_elem_of_cons; split; [by intros ->; destruct Ni|by apply A]].
      apply (holds_move s' s' (o :: owners ++ lost) pending); [done..| |apply H'|done]. solve_Permutation.
    + unfold references. rewrite B, !length_app. cbn. lia.
    + intros ops. cbn. rewrite R', F, G. cbn. lia.
  - assert (negb (empty d) && has_receiver (s_receiver s) = true) as -> by (by destruct (empty d), (has_receiver _)).
    eexists _, [], s'. split; [reflexivity|].
    apply steps_intro; [|cbn; rewrite B; lia|intros ops; cbn; rewrite R'; lia].
    split; [exact H'| |intros x [->|Hx]%elem_of_cons; [by destruct Ni|by apply A]].
    intros x kx [->|Hx]%elem_of_cons Hkx; [|by apply (Us x kx)]. rewrite P, lookup_insert_eq in Hkx. injection Hkx as <-.
    destruct d as [[addr bytes]|]; [|done]. destruct (K eq_refl) as (_ & _ & Hu & _).
    rewrite (ur_offset _ Hu). unfold kNetPacketMaxLen. lia.
Qed.

(** The user gives back one of its references. *)
Lemma owner_apart s o owners lost pending : run_holds s owners lost pending -> o ∈ owners ->
  socket_holds s (o :: remove_one o owners ++ lost) pending.
Proof.
  intros [H _ _] Hin. apply (holds_move s s (owners ++ lost) pending); [done..| |apply H|done].
  by rewrite (remove_one_perm o owners Hin) at 2.
Qed.

Lemma remove_one_incl o x owners : x ∈ remove_one o owners -> x ∈ owners.
Proof.
  induction owners as [|y l IH]; [done|]. cbn. destruct (_ =? _); [by right|].
  intros [->|Hx]%elem_of_cons; [by left|right; by apply IH].
Qed.

(** What is left after a reference was given back. *)
Lemma steps_back op s s' o owners lost pending : run_holds s owners lost pending -> o ∈ owners -> same_queues s s' ->
  s_packets s' = s_packets s -> socket_holds s' (remove_one o owners ++ lost) pending ->
  (forall ops info, unclaimed (op :: ops) info = unclaimed ops info) ->
  steps op s s' owners (remove_one o owners) lost [] pending pending.
Proof.
  intros [_ U A] Hin [_ B _ _ _ R] P H' N. apply steps_intro.
  - split; [done| |intros x Hx%remove_one_incl; by apply A].
    apply (usable_same s s' owners); [done|done|intros x; apply remove_one_incl].
  - pose proof (Permutation_length (remove_one_perm o owners Hin)) as L. rewrite L, B. cbn. lia.
  - intros ops. by rewrite N, R.
Qed.

(** A call that the user may not make is not made. *)
Lemma steps_refl op s owners lost pending : run_holds s owners lost pending ->
  (forall ops info, unclaimed (op :: ops) info = unclaimed ops info) -> steps op s s owners owners lost [] pending pending.
Proof. intros H N. apply steps_intro; [done|lia|intros ops; by rewrite N]. Qed.

Lemma give_back_step op s owners lost pending : run_holds s owners lost pending ->
  match op with OpRelease _ | OpFree _ => True | _ => False end ->
  exists owners' s', socket_step op owners s = Done (owners', s') /\ steps op s s' owners owners' lost [] pending pending.
Proof.
  intros Hr. destruct op as [| | | |o|o| | | |]; try done; intros _; cbn [socket_step].
  - destruct (decide (o ∈ owners)) as [Hin|]; [|exists owners, s; split; [done|by apply steps_refl]].
    destruct (release_holds s o _ pending (owner_apart s o owners lost pending Hr Hin)) as (s' & E & Q & P & H').
    rewrite (bind_done _ _ _ _ _ E). eexists _, s'. split; [reflexivity|]. by apply steps_back.
  - rewrite bind_get. destruct (decide (sole o owners s)) as [(Hin & N1 & N2 & N3)|]; [|exists owners, s; split; [done|by apply steps_refl]].
    pose proof (queue_absent _ _ o (sh_pending _ _ _ (rn_socket _ _ _ _ Hr)) N3) as N4.
    pose proof (rn_apart _ _ _ _ Hr o Hin) as N5.
    destruct (free_holds s o _ pending (owner_apart s o owners lost pending Hr Hin)) as (s' & E & Q & P & H'); [set_solver|].
    rewrite (bind_done _ _ _ _ _ E). eexists _, s'. split; [reflexivity|]. by apply steps_back.
Qed.

(** The user fills, sends or retains a packet it owns. *)
Lemma owner_step op s owners lost pending : run_holds s owners lost pending -> socket_op_ok op ->
  Z.of_nat (length (references s (owners ++ lost) pending)) + 1 < 2 ^ 32 ->
  match op with OpFill _ _ _ | OpSend _ | OpRetain _ => True | _ => False end ->
  exists owners' s', socket_step op owners s = Done (owners', s') /\ steps op s s' owners owners' lost [] pending pending.
Proof.
  intros Hr Hop Hlen. pose proof Hr as [H U A].
  destruct op as [|o addr data|o|o| | | | | |]; try done; intros _; cbn [socket_step];
    (destruct (decide (o ∈ owners)) as [Hin|]; [|exists owners, s; split; [done|by apply steps_refl]]).
  - destruct (fill_holds s o addr data owners lost pending Hr Hin Hop) as (s' & E & H' & B & R).
    exists owners, s'. rewrite (bind_done _ _ _ _ _ E). split; [done|]. apply steps_intro; [done|rewrite B; lia|by rewrite R].
  - destruct (run_owner s owners lost pending o Hr Hin) as (k & Ek & Ho & Hw & Hk).
    destruct (send_holds s o (owners ++ lost) pending k H ltac:(set_solver) Ek Hk Hlen)
      as (s' & E & H' & P & _ & B & _ & _ & _ & R).
    exists owners, s'. rewrite (bind_done _ _ _ _ _ E). split; [done|]. apply steps_intro; [|rewrite B, !length_app; destruct (_ <? _); cbn; lia|by rewrite R].
    split; [done|by apply (usable_write s s' owners o _ U P)|done].
  - destruct (run_retain s o (owners ++ lost) pending H ltac:(set_solver) Hlen) as (s' & E & [_ B _ _ _ R] & P & H').
    exists (o :: owners), s'. rewrite (bind_done _ _ _ _ _ E). split; [done|]. apply steps_intro; [|rewrite B; cbn; lia|by rewrite R].
    split; [exact H'|apply (usable_same s s' owners); [done..|]|]; intros x [->|Hx]%elem_of_cons; auto.
Qed.

(** The events of the socket. *)
Lemma event_step op s owners lost pending : run_holds s owners lost pending ->
  match op with OpBlock | OpWritable | OpReceiver _ => True | _ => False end ->
  exists pending' s', socket_step op owners s = Done (owners, s') /\ steps op s s' owners owners lost [] pending pending'.
Proof.
  intros Hr. pose proof Hr as [H U A]. destruct op as [| | | | | | | | |info]; try done; intros _; cbn [socket_step].
  - destruct (s_blocks s) as [|o bl] eqn:Eb.
    + exists pending, s. unfold run_send_block. unfold bind at 1. rewrite bind_get, Eb. split; [done|by apply steps_refl].
    + destruct (block_holds malloc malloc_new malloc_ok s o bl _ pending H Eb) as (s' & E & H' & B & P & _ & _ & R & _).
      exists (pending ++ [o]), s'. rewrite (bind_done _ _ _ _ _ E). split; [done|].
      apply steps_intro; [|rewrite B, Eb, !length_app; cbn; lia|by rewrite R]. split; [done|by apply (usable_same s s' owners)|done].
  - destruct (write_event_holds s _ pending H) as (s' & E & H' & [P B _ R] & _).
    exists [], s'. rewrite (bind_done _ _ _ _ _ E). split; [done|].
    apply steps_intro; [|rewrite B, !length_app; cbn; lia|by rewrite R]. split; [done|by apply (usable_same s s' owners)|done].
  - exists pending. eexists. split; [reflexivity|].
    apply steps_intro; [split; [destruct H; by split|exact U|exact A]|cbn; lia|done].
Qed.

Lemma socket_step_holds op s owners lost pending : run_holds s owners lost pending -> socket_op_ok op ->
  Z.of_nat (length (references s (owners ++ lost) pending)) + 1 < 2 ^ 32 ->
  exists owners' more pending' s', socket_step op owners s = Done (owners', s') /\
    steps op s s' owners owners' lost more pending pending'.
Proof.
  intros Hr Hop Hlen. destruct op as [|o addr data|o|o|o|o| | |d|info].
  - destruct (alloc_step s owners lost pending Hr) as (o' & s' & A). by exists o', [], pending, s'.
  - destruct (owner_step (OpFill o addr data) s owners lost pending Hr Hop Hlen Logic.I) as (o' & s' & A). by exists o', [], pending, s'.
  - destruct (owner_step (OpSend o) s owners lost pending Hr Hop Hlen Logic.I) as (o' & s' & A). by exists o', [], pending, s'.
  - destruct (owner_step (OpRetain o) s owners lost pending Hr Hop Hlen Logic.I) as (o' & s' & A). by exists o', [], pending, s'.
  - destruct (give_back_step (OpRelease o) s owners lost pending Hr Logic.I) as (o' & s' & A). by exists o', [], pending, s'.
  - destruct (give_back_step (OpFree o) s owners lost pending Hr Logic.I) as (o' & s' & A). by exists o', [], pending, s'.
  - destruct (event_step OpBlock s owners lost pending Hr Logic.I) as (p' & s' & A). by exists owners, [], p', s'.
  - destruct (event_step OpWritable s owners lost pending Hr Logic.I) as (p' & s' & A). by exists owners, [], p', s'.
  - destruct (readable_step s owners lost pending d Hr Hop) as (o' & more & s' & A). by exists o', more, pending, s'.
  - destruct (event_step (OpReceiver info) s owners lost pending Hr Logic.I) as (p' & s' & A). by exists owners, [], p', s'.
Qed.

Lemma socket_run_holds ops s owners lost pending : run_holds s owners lost pending -> Forall socket_op_ok ops ->
  Z.of_nat (length (references s (owners ++ lost) pending)) + Z.of_nat (length ops) < 2 ^ 32 ->
  exists owners' more pending' s', socket_run ops owners s = Done (owners', s') /\
    run_holds s' owners' (more ++ lost) pending' /\ (length more <= unclaimed ops (s_receiver s))%nat.
Proof.
  intros Hr Hops. revert s owners lost pending Hr.
  induction Hops as [|op ops Hop Hops IH]; intros s owners lost pending Hr Hlen; cbn [socket_run].
  { by exists owners, [], pending, s. }
  cbn [length] in Hlen.
  destruct (socket_step_holds op s owners lost pending Hr Hop) as (o1 & m1 & p1 & s1 & E1 & [R1 G1 L1]); [lia|].
  rewrite (bind_done _ _ _ _ _ E1).
  destruct (IH s1 o1 (m1 ++ lost) p1 R1) as (o2 & m2 & p2 & s2 & E2 & R2 & L2); [lia|].
  exists o2, (m2 ++ m1), p2, s2. split; [done|]. rewrite <- app_assoc. split; [done|].
  specialize (L1 ops). rewrite length_app. lia.
Qed.

(** The packets that are in use, and how often. *)
Lemma socket_counts s owners pending : socket_holds s owners pending ->
  exists p, s_pool s = Some p /\ pool_holds p (counts_of (references s owners pending)) /\
    debug_pool_alloc_count p = Z.of_nat (size (counts_of (references s owners pending))).
Proof.
  intros [(p & Ep & Hp & _) _ _ _]. exists p. split; [done|]. split; [exact Hp|].
  destruct Hp as (free & C). apply (pc_alloc _ _ _ C).
Qed.

(** C15: a user that fills, sends, retains and releases only packets it owns,
    and frees one only when its reference is the sole one; events, blocks,
    datagrams of any kind, failed reads and changes of the receiver come in
    between in any order.  Nothing faults and every loop ends; every reference
    to a packet has one owner, which is the user, a dispatched block, the
    queue, or nobody: a packet is lost only to a datagram that is empty or
    comes while there is no receiver, one for each at most.  The retain count
    of every packet is the number of its references, and the packets in use
    are those that have one, so that without such datagrams all 64 are free
    again when the user has released its own and the blocks and the write
    event have run. *)
Theorem socket_conserves_packets ops s owners lost pending :
  run_holds s owners lost pending -> Forall socket_op_ok ops ->
  Z.of_nat (length (references s (owners ++ lost) pending)) + Z.of_nat (length ops) < 2 ^ 32 ->
  exists owners' more pending' s', socket_run ops owners s = Done (owners', s') /\
    run_holds s' owners' (more ++ lost) pending' /\
    (length more <= unclaimed ops (s_receiver s))%nat /\
    let counts := counts_of (references s' (owners' ++ more ++ lost) pending') in
    exists p, s_pool s' = Some p /\ pool_holds p counts /\ debug_pool_alloc_count p = Z.of_nat (size counts).
Proof.
  intros Hr Hops Hlen. destruct (socket_run_holds ops s owners lost pending Hr Hops Hlen) as (o & m & p & s' & E & R & L).
  exists o, m, p, s'. split; [done|]. split; [done|]. split; [done|]. apply socket_counts, R.
Qed.

(** All the dispatched blocks, then the write event they cause. *)
Fixpoint run_blocks (n : nat) : prog net_socket_s unit :=
  match n with
  | O => ret tt
  | S n' => run_send_block malloc ;; run_blocks n'
  end.

Definition flush : prog net_socket_s unit :=
  s <- get ;; run_blocks (length (s_blocks s)) ;; write_event.

Lemma run_blocks_holds s owners pending : socket_holds s owners pending ->
  exists s', run_blocks (length (s_blocks s)) s = Done (tt, s') /\
    socket_holds s' owners (pending ++ s_blocks s) /\ s_blocks s' = [] /\
    s_packets s' = s_packets s /\ s_wire s' = s_wire s /\
    s_delivered s' = s_delivered s /\ s_receiver s' = s_receiver s.
Proof.
  remember (s_blocks s) as bl eqn:Eb. revert s pending Eb.
  induction bl as [|o bl IH]; intros s pending Eb H; cbn [run_blocks length].
  - exists s. rewrite app_nil_r. done.
  - symmetry in Eb. destruct (block_holds malloc malloc_new malloc_ok s o bl owners pending H Eb)
      as (s1 & E1 & H1 & B1 & P1 & W1 & D1 & R1 & _).
    rewrite (bind_done _ _ _ _ _ E1). symmetry in B1.
    destruct (IH s1 (pending ++ [o]) B1 H1) as (s2 & E2 & H2 & B2 & P2 & W2 & D2 & R2).
    exists s2. split; [done|]. rewrite <- app_assoc in H2. split; [exact H2|]. repeat split; congruence.
Qed.

Lemma flush_holds s owners pending : socket_holds s owners pending ->
  exists s', flush s = Done (tt, s') /\ socket_holds s' owners [] /\ s_blocks s' = [] /\
    s_isSending s' = 0 /\ s_wire s' = s_wire s ++ ((pending ++ s_blocks s) ≫= datagram (s_packets s)) /\
    s_packets s' = s_packets s /\ s_delivered s' = s_delivered s /\ s_receiver s' = s_receiver s.
Proof.
  intros H. destruct (run_blocks_holds s owners pending H) as (s1 & E1 & H1 & B1 & P1 & W1 & D1 & R1).
  unfold flush. rewrite bind_get, (bind_done _ _ _ _ _ E1).
  destruct (write_event_holds s1 owners _ H1) as (s2 & E2 & H2 & [P2 B2 D2 R2] & S2 & W2).
  exists s2. split; [done|]. split; [done|]. repeat split; congruence.
Qed.

(** C16: the packets that were sent go out once each, in the order in which
    they were sent, each with its address and the bytes its stream held; the
    write source is off afterwards. *)
Theorem socket_sends_in_order s owners pending :
  socket_holds s owners pending ->
  exists s', flush s = Done (tt, s') /\ socket_holds s' owners [] /\ s_blocks s' = [] /\
    s_isSending s' = 0 /\
    s_wire s' = s_wire s ++ ((pending ++ s_blocks s) ≫= datagram (s_packets s)).
Proof.
  intros H. destruct (flush_holds s owners pending H) as (s' & E & H' & B & S & W & _). by exists s'.
Qed.

End Run.

(** ** Receiving, on every branch *)

(** C31: a read event takes a free packet, if there is one. A datagram of up to
    256 bytes is stored with its address and its length in a packet that was
    unused, rewound to its start, and handed to the receiver; a longer one and
    a failed read give the packet back. The packets already in use are not
    touched. *)
Theorem socket_receives s owners pending d :
  socket_holds s owners pending ->
  match d with Some (_, bytes) => Forall byte bytes | None => True end ->
  exists s', read_event d s = Done (tt, s') /\
    if exhausted s owners pending then s' = s
    else exists o k, (o ∉ references s owners pending) /\
      s_packets s' = <[o := k]> (s_packets s) /\
      socket_holds s' (if fits d then o :: owners else owners) pending /\
      s_delivered s' = s_delivered s ++
        (if fits d && negb (empty d) && has_receiver (s_receiver s) then [o] else []) /\
      match d with
      | Some (addr, bytes) => fits d = true -> holding addr bytes k
      | None => True
      end.
Proof.
  intros H By. destruct (read_event_holds s owners pending d H By) as (s' & E & _ & _ & _ & _ & A).
  exists s'. split; [done|]. destruct (exhausted s owners pending); [done|].
  destruct A as (o & k & _ & A). by exists o, k.
Qed.

Fixpoint read_empty (n : nat) (addr : net_addr_t) : prog net_socket_s unit :=
  match n with
  | O => ret tt
  | S n' => read_event (Some (addr, [])) ;; read_empty n' addr
  end.

Lemma in_use_bound s owners pending : socket_holds s owners pending ->
  Z.of_nat (size (counts_of (references s owners pending))) <= kNetPacketPoolCapacity.
Proof.
  intros [(p & _ & (free & C) & Hc & _) _ _ _]. pose proof (pc_total _ _ _ C) as T.
  pose proof (zlen_nonneg free). unfold references. lia.
Qed.

Lemma read_empty_holds n addr s owners pending : socket_holds s owners pending ->
  exists s' owners', read_empty n addr s = Done (tt, s') /\ socket_holds s' owners' pending /\
    s_delivered s' = s_delivered s /\
    Z.min kNetPacketPoolCapacity (Z.of_nat (size (counts_of (references s owners pending))) + Z.of_nat n)
    <= Z.of_nat (size (counts_of (references s' owners' pending))).
Proof.
  revert s owners. induction n as [|n IH]; intros s owners H; cbn [read_empty].
  { exists s, owners. split; [done|]. split; [done|]. split; [done|]. lia. }
  destruct (read_event_holds s owners pending (Some (addr, [])) H) as (s1 & E1 & _ & B1 & _ & _ & A); [done|].
  rewrite (bind_done _ _ _ _ _ E1). unfold exhausted in A.
  destruct (Z.eqb_spec (Z.of_nat (size (counts_of (references s owners pending)))) kNetPacketPoolCapacity) as [F|F].
  - subst s1. destruct (IH s owners H) as (s2 & o2 & E2 & H2 & D2 & M2). exists s2, o2.
    do 3 (split; [done|]). lia.
  - destruct A as (o & k & Ho & Hni & P1 & H1 & D1 & _). cbn [fits empty negb andb] in *.
    change (zlen [] <=? kNetPacketMaxLen) with true in H1. cbv iota in H1.
    change (zlen [] =? 0) with true in D1. rewrite andb_false_r, app_nil_r in D1.
    destruct (IH s1 (o :: owners) H1) as (s2 & o2 & E2 & H2 & D2 & M2). exists s2, o2.
    split; [done|]. split; [done|]. split; [congruence|].
    assert (Sz : size (counts_of (references s1 (o :: owners) pending)) =
                 S (size (counts_of (references s owners pending)))).
    { unfold references. rewrite B1, <- app_comm_cons, counts_cons. apply map_size_insert_None.
      rewrite counts_lookup. by rewrite decide_False. }
    rewrite Sz in M2. lia.
Qed.

(** an empty datagram (which any host can send) takes a packet that nobody
    gives back and delivers nothing: after 64 of them no packet can be
    allocated, so that nothing is received or sent any more. *)
Theorem empty_datagrams_exhaust addr s owners pending :
  socket_holds s owners pending ->
  exists s', read_empty 64 addr s = Done (tt, s') /\ s_delivered s' = s_delivered s /\
    net_packet_alloc s' = Done (0, s') /\
    forall d, match d with Some (_, bytes) => Forall byte bytes | None => True end ->
      read_event d s' = Done (tt, s').
Proof.
  intros H. destruct (read_empty_holds 64 addr s owners pending H) as (s' & o' & E & H' & D & M).
  exists s'. split; [done|]. split; [done|].
  assert (F : Z.of_nat (size (counts_of (references s' o' pending))) = kNetPacketPoolCapacity).
  { pose proof (in_use_bound s' o' pending H'). unfold kNetPacketPoolCapacity in *. lia. }
  split.
  - destruct (alloc_holds s' o' pending H') as (o & s2 & E2 & _ & A).
    rewrite (proj2 (Z.eqb_eq _ _) F) in A. destruct A as [-> ->]. done.
  - intros d Hd. destruct (read_event_holds s' o' pending d H' Hd) as (s2 & E2 & _ & _ & _ & _ & A).
    unfold exhausted in A. rewrite (proj2 (Z.eqb_eq _ _) F) in A. by subst s2.
Qed.

(** ** Creation *)

Lemma netErrorPosix_error e : netErrorPosix e <> NetNoError.
Proof. unfold netErrorPosix. by repeat destruct (bool_decide _). Qed.

(** The memory of the 64 packets. *)
Definition memory_ok (memblock : Z) (memory : gmap Z net_packet_s) : Prop :=
  forall i, 0 <= i < kNetPacketPoolCapacity -> exists k,
    memory !! (memblock + i * (sizeof_net_packet_s + sizeof_pool_node_s)) = Some k /\ packet_wf k.

(** The pool of a socket that was just created. *)
Lemma pool_of_block memblock memory : 0 <= memblock < 2 ^ 63 -> memory_ok memblock memory ->
  exists po, pool_create sizeof_net_packet_s kNetPacketPoolCapacity memblock = Done po /\
    forall sockaddr, let s := mkSocket sockaddr 0 queue_create po memory no_receiver [] [] [] in
    if memblock =? 0 then net_packet_alloc s = Fault NullPointer
    else socket_holds s [] [] /\ s_wire s = [] /\ s_delivered s = [] /\ s_blocks s = [].
Proof.
  intros Hm Hk. destruct (Z.eqb_spec memblock 0) as [->|Hne].
  { exists None. done. }
  destruct (pool_create_spec sizeof_net_packet_s kNetPacketPoolCapacity memblock)
    as (p & E & Hp & S & F1 & F2 & F3); [done|done|lia|by unfold kNetPacketPoolCapacity, sizeof_net_packet_s, sizeof_pool_node_s, kNetPacketMaxLen; lia|done|].
  exists (Some p). split; [done|]. intros sockaddr. split; [|done]. split; cbn.
  - exists p. split; [done|]. split; [done|]. split; [done|]. intros o (i & Hi & ->).
    rewrite F3, (ps_size _ S), F2. apply Hk. by rewrite <- F1.
  - apply queue_create_holds.
  - constructor.
  - intros o Ho. by apply not_elem_of_nil in Ho.
Qed.

(** [net_socket_create] reports an error exactly when there is no socket,
    unless [calloc] failed, which is not reported; a created socket holds no
    reference to any of its packets. That the pool was created is not checked:
    without memory for it the first allocation dereferences NULL. *)
Theorem socket_create_reports `{Host} domain port os memory :
  0 <= os_memblock os < 2 ^ 63 -> memory_ok (os_memblock os) memory ->
  exists e r, net_socket_create domain port os memory = Done (e, r) /\
    (os_calloc os = false -> e = NetNoError /\ r = None) /\
    (os_calloc os = true -> (r = None <-> e <> NetNoError)) /\
    forall s, r = Some s ->
      if os_memblock os =? 0 then net_packet_alloc s = Fault NullPointer
      else socket_holds s [] [] /\ s_wire s = [] /\ s_delivered s = [] /\ s_blocks s = [].
Proof.
  intros Hm Hk. unfold net_socket_create. destruct (os_calloc os); cbn [negb].
  2:{ exists NetNoError, None. by split. }
  destruct (pool_of_block (os_memblock os) memory Hm Hk) as (po & Ep & Hp).
  rewrite Ep. cbn [obind].
  assert (F : forall e, e <> NetNoError -> exists e0 r,
    (Done (e, @None net_socket_s)) = Done (e0, r) /\ (true = false -> e0 = NetNoError /\ r = None) /\
    (true = true -> (r = None <-> e0 <> NetNoError)) /\
    forall s, r = Some s -> if os_memblock os =? 0 then net_packet_alloc s = Fault NullPointer
      else socket_holds s [] [] /\ s_wire s = [] /\ s_delivered s = [] /\ s_blocks s = []).
  { intros e He. exists e, None. do 3 (split; [done|]). done. }
  destruct (os_socket os); [apply F, netErrorPosix_error|].
  destruct (os_setsockopt os); [apply F, netErrorPosix_error|].
  destruct (os_aton os) as [[a|]|]; [| |]; try (by apply F).
  all: destruct (os_bind os); [apply F, netErrorPosix_error|].
  all: destruct (os_getsockname os) as [e|sockaddr]; [apply F, netErrorPosix_error|].
  all: destruct (_ && _); [by apply F|].
  all: destruct (os_fcntl os); [apply F, netErrorPosix_error|].
  all: destruct (negb _); [by apply F|].
  all: eexists _, _; split; [reflexivity|]; split; [done|]; split; [done|].
  all: intros s [= <-]; apply Hp.
Qed.

(** *** Concrete instances *)

Definition blank_packet : net_packet_s := mkPacket zeroAddr 0 (mkBitstream (replicate 256 0) 0 256).

Definition demo_memory : gmap Z net_packet_s :=
  list_to_map ((fun i => (4096 + i * 328, blank_packet)) <$> seqZ 0 64).

Definition demo_os : os_answers :=
  mkOs true 4096 None None (Some (Some 0)) None (inr (mkAddr AF_INET 5000 0)) None true true.

Definition demo_socket : net_socket_s :=
  match net_socket_create (H := LittleEndian) AF_INET 5000 demo_os demo_memory with
  | Done (_, Some s) => set_info (mkInfo 1 0 0) s
  | _ => mkSocket zeroAddr 0 queue_create None ∅ no_receiver [] [] []
  end.

Lemma demo_memory_ok : memory_ok 4096 demo_memory.
Proof.
  intros i Hi. exists blank_packet. split; [|split; [done|apply Forall_replicate; done]].
  unfold demo_memory. apply elem_of_list_to_map_1.
  - rewrite <- list_fmap_compose. apply NoDup_fmap_2_strong; [|apply NoDup_seqZ].
    intros x y _ _ E. cbn in E. lia.
  - apply list_elem_of_fmap. exists i. split; [done|]. apply elem_of_seqZ.
    unfold kNetPacketPoolCapacity in Hi. lia.
Qed.

Lemma demo_created memory po :
  pool_create sizeof_net_packet_s kNetPacketPoolCapacity 4096 = Done po ->
  net_socket_create (H := LittleEndian) AF_INET 5000 demo_os memory =
  Done (NetNoError, Some (mkSocket (mkAddr AF_INET 5000 0) 0 queue_create po memory no_receiver [] [] [])).
Proof.
  intros E. unfold net_socket_create.
  cbn [demo_os os_calloc os_memblock os_socket os_setsockopt os_aton os_bind os_getsockname os_fcntl
       os_read_source os_write_source negb andb]. rewrite E. reflexivity.
Qed.

Lemma demo_socket_holds :
  socket_holds demo_socket [] [] /\ usable demo_socket [] /\ has_receiver (s_receiver demo_socket) = true.
Proof.
  pose proof (pool_of_block 4096 demo_memory ltac:(lia) demo_memory_ok) as (po & Ep & Hp).
  specialize (Hp (mkAddr AF_INET 5000 0)). cbn [Z.eqb] in Hp. destruct Hp as (H & _ & _ & _).
  assert (E : demo_socket = set_info (mkInfo 1 0 0) (mkSocket (mkAddr AF_INET 5000 0) 0 queue_create po demo_memory no_receiver [] [] [])).
  { unfold demo_socket. by rewrite (demo_created demo_memory po Ep). }
  rewrite E. clear E Ep. generalize dependent demo_memory. intros memory H.
  split; [destruct H; by split|]. split; [|done]. intros o k Ho. destruct (not_elem_of_nil o Ho).
Qed.

Lemma demo_socket_run : run_holds demo_socket [] [] [].
Proof. destruct demo_socket_holds as (H & U & _). split; [exact H|exact U|]. intros o Ho. destruct (not_elem_of_nil o Ho). Qed.

Lemma demo_socket_quiet : s_delivered demo_socket = [] /\ s_blocks demo_socket = [].
Proof. by vm_compute. Qed.

Lemma socket_create_reports_witness :
  exists e r, net_socket_create (H := LittleEndian) AF_INET 5000 demo_os demo_memory = Done (e, r) /\
    (os_calloc demo_os = false -> e = NetNoError /\ r = None) /\
    (os_calloc demo_os = true -> (r = None <-> e <> NetNoError)) /\
    forall s, r = Some s ->
      if 4096 =? 0 then net_packet_alloc s = Fault NullPointer
      else socket_holds s [] [] /\ s_wire s = [] /\ s_delivered s = [] /\ s_blocks s = [].
Proof.
  apply (socket_create_reports (H := LittleEndian) AF_INET 5000 demo_os demo_memory).
  - cbn. lia.
  - exact demo_memory_ok.
Defined.

(** A packet is sent, retained and released, one is freed at once, a datagram
    is received and released, another is empty, a read fails. *)
Definition demo_ops : list socket_op :=
  [OpAlloc; OpFill 4096 (mkAddr AF_INET 7000 1) [1; 2; 3]; OpSend 4096; OpRetain 4096; OpRelease 4096; OpRelease 4096;
   OpBlock; OpReadable (Some (mkAddr AF_INET 7001 2, [4; 5])); OpWritable; OpRelease 4424; OpAlloc; OpFree 4424;
   OpReadable None; OpReadable (Some (mkAddr AF_INET 7001 2, []))].

(** The packet of the empty datagram is the only one that is still in use. *)
Lemma socket_conserves_packets_witness :
  exists owners' more pending' s', socket_run next_free demo_ops [] demo_socket = Done (owners', s') /\
    run_holds s' owners' (more ++ []) pending' /\ (length more <= 1)%nat /\
    let counts := counts_of (references s' (owners' ++ more ++ []) pending') in
    exists p, s_pool s' = Some p /\ pool_holds p counts /\ debug_pool_alloc_count p = Z.of_nat (size counts).
Proof.
  apply (socket_conserves_packets next_free next_free_fresh (fun h => ltac:(discriminate))
    demo_ops demo_socket [] [] []).
  - exact demo_socket_run.
  - by repeat constructor.
  - by vm_compute.
Defined.

(** A packet sent twice, the second time with the first one waiting. *)
Definition demo_sent : net_socket_s :=
  match socket_run next_free (take 3 demo_ops ++ [OpBlock; OpSend 4096]) [] demo_socket with
  | Done (_, s) => s
  | Fault _ => demo_socket
  end.

Lemma demo_sent_holds : exists owners pending, socket_holds demo_sent owners pending /\ length (s_blocks demo_sent) = 1%nat.
Proof.
  destruct (socket_run_holds next_free next_free_fresh (fun h => ltac:(discriminate))
    (take 3 demo_ops ++ [OpBlock; OpSend 4096]) demo_socket [] [] [] demo_socket_run)
    as (o & m & p & s & E & R & _); [by repeat constructor|by vm_compute|].
  exists (o ++ m ++ []), p. split; [|by vm_compute]. unfold demo_sent. rewrite E. apply R.
Qed.

(** A packet that waits in the queue and is dispatched once more. *)
Lemma socket_sends_in_order_witness :
  length (s_blocks demo_sent) = 1%nat /\
  exists owners pending s', flush next_free demo_sent = Done (tt, s') /\ socket_holds s' owners [] /\ s_blocks s' = [] /\
    s_isSending s' = 0 /\
    s_wire s' = s_wire demo_sent ++ ((pending ++ s_blocks demo_sent) ≫= datagram (s_packets demo_sent)).
Proof.
  destruct demo_sent_holds as (owners & pending & H & L). split; [exact L|]. exists owners, pending.
  exact (socket_sends_in_order next_free next_free_fresh (fun h => ltac:(discriminate)) demo_sent owners pending H).
Defined.

Lemma demo_socket_free : exhausted demo_socket [] [] = false.
Proof. by vm_compute. Qed.

Lemma socket_receives_witness :
  exists s', read_event (Some (mkAddr AF_INET 7001 2, [4; 5])) demo_socket = Done (tt, s') /\
    exists o k, (o ∉ references demo_socket [] []) /\
      s_packets s' = <[o := k]> (s_packets demo_socket) /\
      socket_holds s' [o] [] /\
      s_delivered s' = s_delivered demo_socket ++ (if has_receiver (s_receiver demo_socket) then [o] else []) /\
      (fits (Some (mkAddr AF_INET 7001 2, [4; 5])) = true -> holding (mkAddr AF_INET 7001 2) [4; 5] k).
Proof.
  pose proof (socket_receives demo_socket [] [] (Some (mkAddr AF_INET 7001 2, [4; 5]))
    (proj1 demo_socket_holds)) as W.
  rewrite demo_socket_free in W. apply W. by repeat constructor.
Defined.

Lemma empty_datagrams_exhaust_witness :
  exists s', read_empty 64 (mkAddr AF_INET 7001 2) demo_socket = Done (tt, s') /\
    s_delivered s' = s_delivered demo_socket /\ net_packet_alloc s' = Done (0, s') /\
    forall d, match d with Some (_, bytes) => Forall byte bytes | None => True end ->
      read_event d s' = Done (tt, s').
Proof. apply (empty_datagrams_exhaust (mkAddr AF_INET 7001 2) demo_socket [] []). apply demo_socket_holds. Defined.
