(* ===== verification/NetSocketLife.v ===== *)
(** * The lifetime of a socket (src/net_socket.c)

    What a socket owns outside its packets: its memory, the pool and the queue
    of pending packets, a dispatch queue, a descriptor and two event sources
    of Grand Central Dispatch.  Creation and destruction acquire and release
    them; the two cancel handlers of the sources run on different queues, and
    the counter they share is read and written in two steps.  It is not seen
    here what the packets hold (NetSocket). *)
From S2P Require Import Prelude Bitstream Wire Fields Net Queue Pool NetSocket NetSocketSpec.

(** An event source; it is created suspended, and gone when its last reference
    is released. *)
Record event_source := mkEventSource {
  es_suspended : Z;          (* the calls of [dispatch_resume] it takes to run *)
  es_cancelled : bool;
  es_cancel_handler : bool;  (* is one installed? *)
}.

(** An object that is not suspended must not be resumed. *)
Definition resume_source (e : event_source) : outcome event_source :=
  if 0 <? es_suspended e then Done (mkEventSource (es_suspended e - 1) (es_cancelled e) (es_cancel_handler e))
  else Fault AssertionFailed.

Definition suspend_source (e : event_source) : outcome event_source :=
  Done (mkEventSource (es_suspended e + 1) (es_cancelled e) (es_cancel_handler e)).

Definition cancel_source (e : event_source) : outcome event_source :=
  Done (mkEventSource (es_suspended e) true (es_cancel_handler e)).

Definition handle_cancel (e : event_source) : outcome event_source :=
  Done (mkEventSource (es_suspended e) (es_cancelled e) true).

(** The last reference is released; an object must not be released while it
    is suspended. *)
Definition release_source (e : option event_source) : outcome (option event_source) :=
  match e with
  | None => Fault OutOfBounds
  | Some e => if es_suspended e =? 0 then Done None else Fault AssertionFailed
  end.

(** The members of [struct net_socket_s] that matter here. *)
Record socket_fields := mkFields {
  lf_fd : Z;
  lf_readDispatchSource : bool;   (* not NULL *)
  lf_writeDispatchSource : bool;
  lf_isSending : Z;
}.

Record socket_life := mkLife {
  l_socket : option socket_fields;   (* None when it was not allocated, or freed *)
  l_dispatchQueue : bool;
  l_pendingPackets : bool;
  l_poolPackets : bool;
  l_descriptors : list Z;            (* those that are open *)
  l_read : option event_source;
  l_write : option event_source;
  l_closeRetainCount : Z;            (* [__block int socketCloseRetainCount] *)
}.

Definition nothing : socket_life := mkLife None false false false [] None None 0.

Definition life_socket (x : option socket_fields) (l : socket_life) : socket_life :=
  mkLife x (l_dispatchQueue l) (l_pendingPackets l) (l_poolPackets l) (l_descriptors l) (l_read l) (l_write l) (l_closeRetainCount l).
Definition life_queues (queue pending pool : bool) (l : socket_life) : socket_life :=
  mkLife (l_socket l) queue pending pool (l_descriptors l) (l_read l) (l_write l) (l_closeRetainCount l).
Definition life_descriptors (x : list Z) (l : socket_life) : socket_life :=
  mkLife (l_socket l) (l_dispatchQueue l) (l_pendingPackets l) (l_poolPackets l) x (l_read l) (l_write l) (l_closeRetainCount l).
Definition life_sources (read write : option event_source) (l : socket_life) : socket_life :=
  mkLife (l_socket l) (l_dispatchQueue l) (l_pendingPackets l) (l_poolPackets l) (l_descriptors l) read write (l_closeRetainCount l).
Definition life_count (x : Z) (l : socket_life) : socket_life :=
  mkLife (l_socket l) (l_dispatchQueue l) (l_pendingPackets l) (l_poolPackets l) (l_descriptors l) (l_read l) (l_write l) x.

(** ** The members of the socket *)

(** A socket that was freed is an access outside every object. *)
Definition socket_members : prog socket_life socket_fields := fun l =>
  match l_socket l with Some f => Done (f, l) | None => Fault OutOfBounds end.

Definition put_members (g : socket_fields -> socket_fields) : prog socket_life unit :=
  f <- socket_members ;; modify (life_socket (Some (g f))).

Definition with_fd (x : Z) (f : socket_fields) : socket_fields :=
  mkFields x (lf_readDispatchSource f) (lf_writeDispatchSource f) (lf_isSending f).
Definition with_sources (read write : bool) (f : socket_fields) : socket_fields :=
  mkFields (lf_fd f) read write (lf_isSending f).
Definition with_isSending (x : Z) (f : socket_fields) : socket_fields :=
  mkFields (lf_fd f) (lf_readDispatchSource f) (lf_writeDispatchSource f) x.

(** ** Event sources *)

Inductive which_source := ReadSource | WriteSource.

#[export] Instance which_source_eq_dec : EqDecision which_source.
Proof. solve_decision. Defined.

Definition source_of (w : which_source) (l : socket_life) : option event_source :=
  match w with ReadSource => l_read l | WriteSource => l_write l end.

Definition put_source (w : which_source) (x : option event_source) (l : socket_life) : socket_life :=
  match w with ReadSource => life_sources x (l_write l) l | WriteSource => life_sources (l_read l) x l end.

(** A source that is gone is an access outside every object. *)
Definition on_source (w : which_source) (m : event_source -> outcome event_source) : prog socket_life unit := fun l =>
  match source_of w l with
  | None => Fault OutOfBounds
  | Some e => match m e with Done e' => Done (tt, put_source w (Some e') l) | Fault f => Fault f end
  end.

Definition dispatch_resume (w : which_source) : prog socket_life unit := on_source w resume_source.
Definition dispatch_suspend (w : which_source) : prog socket_life unit := on_source w suspend_source.
Definition source_cancel (w : which_source) : prog socket_life unit := on_source w cancel_source.
Definition set_cancel_handler (w : which_source) : prog socket_life unit := on_source w handle_cancel.

Definition source_release (w : which_source) : prog socket_life unit := fun l =>
  match release_source (source_of w l) with Done e => Done (tt, put_source w e l) | Fault f => Fault f end.

(** The cancel handler is called. *)
Definition handler_runs (w : which_source) (l : socket_life) : bool :=
  match source_of w l with
  | Some e => es_cancelled e && es_cancel_handler e && (es_suspended e =? 0)
  | None => false
  end.

(** ** Suspending and resuming the write source *)

Definition life_suspend_write : prog socket_life unit :=
  f <- socket_members ;;
  if negb (lf_isSending f =? 0) then
    dispatch_suspend WriteSource ;; put_members (with_isSending 0)
  else ret tt.

Definition life_resume_write : prog socket_life unit :=
  f <- socket_members ;;
  if lf_isSending f =? 0 then
    put_members (with_isSending 1) ;; dispatch_resume WriteSource
  else ret tt.

(** ** Destruction *)

Definition net_socket_destroy : prog socket_life unit :=
  f <- socket_members ;;
  (if lf_readDispatchSource f then source_cancel ReadSource else ret tt) ;;
  f <- socket_members ;;
  if lf_writeDispatchSource f then
    life_resume_write ;;
    source_cancel WriteSource
  else ret tt.

Definition net_socket_destroy_async : prog socket_life unit :=
  f <- socket_members ;;
  (if lf_readDispatchSource f then source_release ReadSource else ret tt) ;;
  f <- socket_members ;;
  (if lf_writeDispatchSource f then source_release WriteSource else ret tt) ;;
  modify (life_queues false false false) ;;
  modify (life_socket None).

(** What follows [--socketCloseRetainCount == 0]. *)
Definition close_socket : prog socket_life unit :=
  net_socket_destroy_async ;;
  f <- socket_members ;;
  modify (fun l => life_descriptors (filter (fun d => d <> lf_fd f) (l_descriptors l)) l) ;;
  put_members (with_fd 0).

(** Where a cancel handler is: it has not started, it has read the counter,
    or it is at its end. *)
Inductive handler_state := Waiting | Counted (count : Z) | Ended.

(** Its next step, when its source has been cancelled. *)
Definition handler_step (w : which_source) (h : handler_state) : prog socket_life handler_state :=
  l <- get ;;
  match h with
  | Waiting => if handler_runs w l then ret (Counted (l_closeRetainCount l)) else ret Waiting
  | Counted count =>
      modify (life_count (count - 1)) ;;
      (if count - 1 =? 0 then close_socket else ret tt) ;;
      ret Ended
  | Ended => ret Ended
  end.

(** The two handlers, in the order of a schedule. *)
Fixpoint run_handlers (schedule : list which_source) (read write : handler_state) :
    prog socket_life (handler_state * handler_state) :=
  match schedule with
  | [] => ret (read, write)
  | ReadSource :: schedule' => read' <- handler_step ReadSource read ;; run_handlers schedule' read' write
  | WriteSource :: schedule' => write' <- handler_step WriteSource write ;; run_handlers schedule' read write'
  end.

(** ** Creation *)

(** The end of [net_socket_set_dispatch_sources]. *)
Definition install_cancel_handlers : prog socket_life NetError :=
  modify (life_count 2) ;;
  set_cancel_handler ReadSource ;;
  set_cancel_handler WriteSource ;;
  dispatch_resume ReadSource ;;
  put_members (with_isSending 0) ;;
  ret NetNoError.

(** [net_socket_set_dispatch_sources]: the sources are created and, when both
    are there, get their handlers. *)
Definition net_socket_set_dispatch_sources (os : os_answers) : prog socket_life NetError :=
  (if os_read_source os then modify (fun l => life_sources (Some (mkEventSource 1 false false)) (l_write l) l) else ret tt) ;;
  f <- socket_members ;;
  put_members (with_sources (os_read_source os) (lf_writeDispatchSource f)) ;;
  if negb (os_read_source os) then ret NetSockError
  else
  (if os_write_source os then modify (fun l => life_sources (l_read l) (Some (mkEventSource 1 false false)) l) else ret tt) ;;
  put_members (with_sources (os_read_source os) (os_write_source os)) ;;
  if negb (os_write_source os) then ret NetSockError
  else install_cancel_handlers.

(** [net_socket_set_nonblock]. *)
Definition net_socket_set_nonblock (os : os_answers) : NetError :=
  match os_fcntl os with Some e => netErrorPosix e | None => NetNoError end.

Section Creation.
Context `{Host}.
(** The descriptor that [socket] returns. *)
Context (fd : Z).

(** The error, and whether the socket is not NULL.  A failure destroys what
    there is. *)
Definition socket_open (domain port : Z) (os : os_answers) : prog socket_life (NetError * bool) :=
  let failed error := net_socket_destroy ;; ret (error, false) in
  if negb (os_calloc os) then ret (NetNoError, false)
  else
  modify (life_socket (Some (mkFields 0 false false 0))) ;;
  modify (life_queues true true (negb (os_memblock os =? 0))) ;;
  match os_socket os with Some e => put_members (with_fd (-1)) ;; failed (netErrorPosix e) | None =>
  modify (fun l => life_descriptors (fd :: l_descriptors l) l) ;;
  put_members (with_fd fd) ;;
  match os_setsockopt os with Some e => failed (netErrorPosix e) | None =>
  match os_aton os with Some None => failed NetInvalidError | aton =>
  let bindaddr := mkAddr domain (htons port) (match aton with Some (Some a) => a | _ => htonl 0 end) in
  match os_bind os with Some e => failed (netErrorPosix e) | None =>
  match os_getsockname os with inl e => failed (netErrorPosix e) | inr sockaddr =>
  if negb (sin_port sockaddr =? sin_port bindaddr) && negb (s_addr sockaddr =? s_addr bindaddr)
  then failed NetInvalidError
  else
  if decide (net_socket_set_nonblock os <> NetNoError) then failed (net_socket_set_nonblock os)
  else
  error <- net_socket_set_dispatch_sources os ;;
  if decide (error <> NetNoError) then failed error else ret (NetNoError, true)
  end end end end end.

End Creation.

(** ** Properties *)

(** A socket after [net_socket_create], and after [net_socket_destroy]. *)
Definition opened (fd : Z) (pool : bool) : socket_life :=
  mkLife (Some (mkFields fd true true 0)) true true pool [fd]
    (Some (mkEventSource 0 false true)) (Some (mkEventSource 1 false true)) 2.

Definition closing (fd : Z) (pool : bool) (count : Z) : socket_life :=
  mkLife (Some (mkFields fd true true 1)) true true pool [fd]
    (Some (mkEventSource 0 true true)) (Some (mkEventSource 0 true true)) count.

(** What is still there, and no handler will ever run. *)
Record leaked (fd : Z) (os : os_answers) (l : socket_life) : Prop := {
  lk_socket : l_socket l <> None;
  lk_queues : l_dispatchQueue l = true /\ l_pendingPackets l = true /\ l_poolPackets l = negb (os_memblock os =? 0);
  lk_descriptor : l_descriptors l = (if os_socket os then [] else [fd]);
  lk_handlers : handler_runs ReadSource l = false /\ handler_runs WriteSource l = false;
}.

Section Properties.
Context `{Host}.

(** One of the failures. *)
Ltac leak := eexists; split; [reflexivity|]; by split.

(** The error of the first call that fails after the allocation. *)
Definition creation_error (domain port : Z) (os : os_answers) : option NetError :=
  match os_socket os with Some e => Some (netErrorPosix e) | None =>
  match os_setsockopt os with Some e => Some (netErrorPosix e) | None =>
  match os_aton os with Some None => Some NetInvalidError | aton =>
  match os_bind os with Some e => Some (netErrorPosix e) | None =>
  match os_getsockname os with inl e => Some (netErrorPosix e) | inr sockaddr =>
  if negb (sin_port sockaddr =? htons port) && negb (s_addr sockaddr =? match aton with Some (Some a) => a | _ => htonl 0 end)
  then Some NetInvalidError
  else
  match os_fcntl os with Some e => Some (netErrorPosix e) | None =>
  if os_read_source os && os_write_source os then None else Some NetSockError
  end end end end end end.

Lemma creation_error_real domain port os e : creation_error domain port os = Some e -> e <> NetNoError.
Proof.
  pose proof netErrorPosix_error. unfold creation_error. intros E. repeat case_match; simplify_eq; auto; discriminate.
Qed.

Lemma socket_open_result fd domain port os : os_calloc os = true ->
  match creation_error domain port os with
  | Some e => exists l, socket_open fd domain port os nothing = Done ((e, false), l) /\ leaked fd os l
  | None => socket_open fd domain port os nothing = Done ((NetNoError, true), opened fd (negb (os_memblock os =? 0)))
  end.
Proof.
  unfold creation_error, socket_open, net_socket_set_nonblock. destruct os as [calloc memblock socket setsockopt aton bind getsockname fcntl read write].
  cbn -[netErrorPosix]. intros ->.
  destruct socket as [e|]; [leak|]. destruct setsockopt as [e|]; [leak|].
  destruct aton as [[a|]|]; [|leak|];
  (destruct bind as [e|]; [leak|]; destruct getsockname as [e|sockaddr]; [leak|]; destruct (_ && _); [leak|];
   destruct fcntl as [e|]; [rewrite (decide_True _ _ (netErrorPosix_error e)); leak|]; destruct read; [|leak]; destruct write; [done|leak]).
Qed.

Lemma net_socket_create_result domain port os memory pool : os_calloc os = true ->
  pool_create sizeof_net_packet_s kNetPacketPoolCapacity (os_memblock os) = Done pool ->
  exists r, net_socket_create domain port os memory =
    Done (match creation_error domain port os with Some e => e | None => NetNoError end, r) /\
    (r = None <-> creation_error domain port os <> None).
Proof.
  intros Ec Ep. unfold net_socket_create, creation_error. rewrite Ec, Ep. clear. cbn [negb sin_port s_addr].
  destruct (os_socket os); [by eexists|]. destruct (os_setsockopt os); [by eexists|].
  destruct (os_aton os) as [[a|]|]; [|by eexists|];
    (destruct (os_bind os); [by eexists|]; destruct (os_getsockname os); [by eexists|]; destruct (_ && _); [by eexists|];
     destruct (os_fcntl os); [by eexists|]; destruct (os_read_source os), (os_write_source os); by eexists).
Qed.

(** the two accounts of [net_socket_create] agree: for every outcome of the
    system calls the one that acquires resources and the one that sets up the
    packets return the same error, and a socket in the same cases. *)
Theorem creations_agree fd domain port os memory :
  match net_socket_create domain port os memory with
  | Done (e, r) => exists l, socket_open fd domain port os nothing = Done ((e, bool_decide (is_Some r)), l)
  | Fault f => pool_create sizeof_net_packet_s kNetPacketPoolCapacity (os_memblock os) = Fault f
  end.
Proof.
  destruct (os_calloc os) eqn:Ec; [|unfold net_socket_create, socket_open; rewrite Ec; by eexists].
  destruct (pool_create sizeof_net_packet_s kNetPacketPoolCapacity (os_memblock os)) as [pool|f] eqn:Ep;
    [|unfold net_socket_create; rewrite Ec, Ep; reflexivity].
  destruct (net_socket_create_result domain port os memory pool Ec Ep) as (r & -> & Hr).
  pose proof (socket_open_result fd domain port os Ec) as R. destruct (creation_error domain port os) as [e|].
  - destruct R as (l & -> & _). exists l. rewrite (proj2 Hr) by done. done.
  - eexists. rewrite R. destruct r; [done|]. by destruct (proj1 Hr).
Qed.

(** when [net_socket_create] fails after its first allocation, it reports
    an error and returns NULL, and everything it had acquired stays: the memory,
    the queues, the pool and the descriptor, for [net_socket_destroy] only
    cancels event sources, and no cancel handler is installed yet. *)
Theorem failed_creation_leaks fd domain port os e l :
  os_calloc os = true -> socket_open fd domain port os nothing = Done ((e, false), l) ->
  e <> NetNoError /\ leaked fd os l.
Proof.
  intros Hc E. pose proof (socket_open_result fd domain port os Hc) as R.
  destruct (creation_error domain port os) as [e'|] eqn:Ee; [|congruence].
  destruct R as (l' & R & L). rewrite R in E. injection E as -> ->. split; [by apply (creation_error_real domain port os)|done].
Qed.

(** Sending: the write source runs while there is something to send. *)
Fixpoint toggle (runs : list bool) : prog socket_life unit :=
  match runs with
  | [] => ret tt
  | run :: runs' => (if run : bool then life_resume_write else life_suspend_write) ;; toggle runs'
  end.

(** A socket that is [sending], or not. *)
Definition balanced (fd : Z) (pool sending : bool) : socket_life :=
  mkLife (Some (mkFields fd true true (Z.b2z sending))) true true pool [fd]
    (Some (mkEventSource 0 false true)) (Some (mkEventSource (1 - Z.b2z sending) false true)) 2.

Lemma toggle_balanced fd pool runs : forall sending,
  toggle runs (balanced fd pool sending) = Done (tt, balanced fd pool (List.last runs sending)).
Proof.
  induction runs as [|run runs IH]; intros sending; [done|]. cbn [toggle].
  assert (E : (if run then life_resume_write else life_suspend_write) (balanced fd pool sending) = Done (tt, balanced fd pool run))
    by (destruct run, sending; reflexivity).
  rewrite (bind_done _ _ _ _ _ E), IH. destruct runs; [done|]. do 3 f_equal. clear. revert sending run b.
  induction runs as [|r runs IH]; intros; [done|]. cbn in *. destruct runs; [done|]. apply IH; done.
Qed.

(** C18: the write source is never resumed while it runs and never left
    suspended: after any sequence of resumptions and suspensions it is
    suspended once exactly when the socket is not sending, which the last call
    decides. *)
Theorem write_source_balanced fd pool runs :
  exists l f e, toggle runs (opened fd pool) = Done (tt, l) /\ l_socket l = Some f /\ l_write l = Some e /\
    (lf_isSending f = 0 \/ lf_isSending f = 1) /\ es_suspended e = 1 - lf_isSending f /\
    (lf_isSending f = 1 <-> List.last runs false = true).
Proof.
  change (opened fd pool) with (balanced fd pool false). rewrite toggle_balanced. generalize (List.last runs false). intros sending.
  eexists _, _, _. split; [reflexivity|]. split; [reflexivity|]. split; [reflexivity|]. destruct sending; cbn; intuition lia || intuition discriminate.
Qed.

Lemma destroy_result fd pool sending : net_socket_destroy (balanced fd pool sending) = Done (tt, closing fd pool 2).
Proof. by destruct sending. Qed.

(** The states of the two handlers with the counter. *)
Definition handlers_reach : list (handler_state * handler_state * Z) :=
  [(Waiting, Waiting, 2); (Counted 2, Waiting, 2); (Waiting, Counted 2, 2); (Counted 2, Counted 2, 2);
   (Ended, Waiting, 1); (Waiting, Ended, 1); (Ended, Counted 1, 1); (Counted 1, Ended, 1);
   (Ended, Counted 2, 1); (Counted 2, Ended, 1); (Ended, Ended, 1)].

(** The next of them, unless the socket is closed. *)
Definition handlers_next (w : which_source) (h : handler_state * handler_state * Z) : option (handler_state * handler_state * Z) :=
  let '(read, write, count) := h in
  let next x := match x with
    | Waiting => Some (Counted count, count)
    | Counted n => if n - 1 =? 0 then None else Some (Ended, n - 1)
    | Ended => Some (Ended, count)
    end in
  match w with
  | ReadSource => match next read with Some (x, n) => Some (x, write, n) | None => None end
  | WriteSource => match next write with Some (x, n) => Some (read, x, n) | None => None end
  end.

Lemma handlers_step fd pool w schedule h : h ∈ handlers_reach ->
  match handlers_next w h with
  | None => run_handlers (w :: schedule) h.1.1 h.1.2 (closing fd pool h.2) = Fault OutOfBounds
  | Some k => k ∈ handlers_reach /\
      run_handlers (w :: schedule) h.1.1 h.1.2 (closing fd pool h.2) = run_handlers schedule k.1.1 k.1.2 (closing fd pool k.2)
  end.
Proof.
  intros Hh. unfold handlers_reach in Hh.
  repeat (apply elem_of_cons in Hh as [->|Hh]; [destruct w; first [reflexivity|split; [cbn; unfold handlers_reach; rewrite !elem_of_cons; tauto|reflexivity]]|]).
  by apply not_elem_of_nil in Hh.
Qed.

Lemma handlers_run fd pool schedule : forall h, h ∈ handlers_reach ->
  run_handlers schedule h.1.1 h.1.2 (closing fd pool h.2) = Fault OutOfBounds \/
  exists h', h' ∈ handlers_reach /\ run_handlers schedule h.1.1 h.1.2 (closing fd pool h.2) = Done (h'.1, closing fd pool h'.2).
Proof.
  induction schedule as [|w schedule IH]; intros h Hh.
  { right. exists h. split; [done|]. by destruct h as [[]]. }
  pose proof (handlers_step fd pool w schedule h Hh) as S. destruct (handlers_next w h) as [k|]; [|by left].
  destruct S as [Hk S]. rewrite S. by apply IH.
Qed.

(** C17: a socket that was created is never closed properly. Whatever it sent
    before, and in whatever order its two cancel handlers run: either the
    handler that is last frees the socket and then reads and writes its
    descriptor in the freed memory, or the handlers have read the counter at
    the same time and nothing is freed or closed. One handler after the other
    gives the first, both at once the second. *)
Theorem close_never_clean fd pool runs schedule :
  let close schedule := (toggle runs ;; net_socket_destroy ;; run_handlers schedule Waiting Waiting) (opened fd pool) in
  (close schedule = Fault OutOfBounds \/
   exists h l, close schedule = Done (h, l) /\ l_socket l <> None /\ l_descriptors l = [fd] /\
     l_pendingPackets l = true /\ l_poolPackets l = pool /\ is_Some (l_read l) /\ is_Some (l_write l)) /\
  close [ReadSource; ReadSource; WriteSource; WriteSource] = Fault OutOfBounds /\
  close [WriteSource; WriteSource; ReadSource; ReadSource] = Fault OutOfBounds /\
  exists l, close [ReadSource; WriteSource; ReadSource; WriteSource] = Done ((Ended, Ended), l).
Proof.
  assert (E : forall schedule, (toggle runs ;; net_socket_destroy ;; run_handlers schedule Waiting Waiting) (opened fd pool) =
    run_handlers schedule Waiting Waiting (closing fd pool 2)).
  { intros schedule'. change (opened fd pool) with (balanced fd pool false).
    by rewrite (bind_done _ _ _ _ _ (toggle_balanced fd pool runs false)), (bind_done _ _ _ _ _ (destroy_result fd pool _)). }
  cbv beta zeta. rewrite !E. split; [|split; [reflexivity|split; [reflexivity|by eexists]]].
  destruct (handlers_run fd pool schedule (Waiting, Waiting, 2)) as [S|(h & _ & S)]; [by left|left; exact S|right].
  exists h.1, (closing fd pool h.2). split; [exact S|]. repeat split; try done; by eexists.
Qed.

End Properties.

(** ** Concrete instances *)

(** No memory problems, but the port is taken. *)
Definition os_port_taken : os_answers :=
  mkOs true 4096 None None (Some (Some 0)) (Some EADDRINUSE) (inr (mkAddr AF_INET 5000 0)) None true true.

Lemma failed_creation_leaks_witness : exists l, socket_open (H := LittleEndian) 3 AF_INET 5000 os_port_taken nothing = Done ((NetBindError, false), l) /\
  NetBindError <> NetNoError /\ leaked 3 os_port_taken l.
Proof.
  eexists. split; [vm_compute; reflexivity|].
  apply (failed_creation_leaks (H := LittleEndian) 3 AF_INET 5000 os_port_taken); vm_compute; reflexivity.
Defined.
