(* ===== verification/StunProtocol.v ===== *)
(** * The STUN messages (src/stun_protocol.[ch])

    Headers, the attributes of a binding response and the loop over them.
    The codes and the attribute types are integers, as the source compares
    them with what it reads from the network. *)
From S2P Require Import Prelude Bitstream Wire Fields Net Protocol.

Definition StunMsgClassRequest : Z := 0x00.
Definition StunMsgClassIndication : Z := 0x01.
Definition StunMsgClassSuccessResponse : Z := 0x02.
Definition StunMsgClassFailureResponse : Z := 0x03.
Definition StunMsgClassInvalidMessageClass : Z := 0xff.

Definition StunMsgTypeBinding : Z := 0x0001.

Definition StunAttributeMappedAddress : Z := 0x0001.
Definition StunAttributeXorMappedAddress : Z := 0x0020.
Definition StunAttributeAlternateServer : Z := 0x8023.
Definition StunAttributeOtherAddress : Z := 0x802c.
Definition StunAttributeOriginServer : Z := 0x802b.
Definition StunAttributeErrorCode : Z := 0x0009.
Definition StunAttributeChangeRequest : Z := 0x0003.

Definition StunAddrFamilyIPv4 : Z := 0x01.

Definition kStunInvalid : Z := -1.
Definition kStunUnexpected : Z := 1.
Definition kStunUnsupported : Z := 3.
Definition kStunValid : Z := 0.

Definition mStunIsRequest (type : Z) : bool := Z.land type 0x0110 =? 0x0000.
Definition mStunIsIndication (type : Z) : bool := Z.land type 0x0110 =? 0x0010.
Definition mStunIsSuccessResponse (type : Z) : bool := Z.land type 0x0110 =? 0x0100.
Definition mStunIsErrorResponse (type : Z) : bool := Z.land type 0x0110 =? 0x0110.

Definition kStunProtocolMagicCookie : Z := 0x2112A442.
Definition mStunProtocolIsValidMagicCookie (magic_cookie : Z) : bool :=
  magic_cookie =? kStunProtocolMagicCookie.

Definition kStunTransactionIdLen : Z := 12.

(** The out-parameters of [stunProtocolUnpackHeader]. *)
Record StunHeader := mkStunHeader {
  sh_msgType : Z;
  sh_msgClass : Z;
  sh_transactionId : list Z;
  sh_length : Z;
}.

Record StunBindingResponse := mkBindingResponse {
  hasResponseOrigin : bool;
  responseOriginAddr : net_addr_t;
  hasMappedAddress : bool;
  mappedAddressAddr : net_addr_t;
  hasXorMappedAddress : bool;
  xorMappedAddressAddr : net_addr_t;
  hasAlternateServer : bool;
  alternateServerAddr : net_addr_t;
  hasErrorCode : bool;
  errorCodeValue : Z;
}.

(** [memset] to zero. *)
Definition emptyResponse : StunBindingResponse :=
  mkBindingResponse false zeroAddr false zeroAddr false zeroAddr false zeroAddr false 0.

Definition set_responseOrigin (b : bool) (a : net_addr_t) (r : StunBindingResponse) :=
  mkBindingResponse b a (hasMappedAddress r) (mappedAddressAddr r) (hasXorMappedAddress r)
    (xorMappedAddressAddr r) (hasAlternateServer r) (alternateServerAddr r) (hasErrorCode r)
    (errorCodeValue r).
Definition set_mappedAddress (b : bool) (a : net_addr_t) (r : StunBindingResponse) :=
  mkBindingResponse (hasResponseOrigin r) (responseOriginAddr r) b a (hasXorMappedAddress r)
    (xorMappedAddressAddr r) (hasAlternateServer r) (alternateServerAddr r) (hasErrorCode r)
    (errorCodeValue r).
Definition set_xorMappedAddress (b : bool) (a : net_addr_t) (r : StunBindingResponse) :=
  mkBindingResponse (hasResponseOrigin r) (responseOriginAddr r) (hasMappedAddress r)
    (mappedAddressAddr r) b a (hasAlternateServer r) (alternateServerAddr r) (hasErrorCode r)
    (errorCodeValue r).
Definition set_alternateServer (b : bool) (a : net_addr_t) (r : StunBindingResponse) :=
  mkBindingResponse (hasResponseOrigin r) (responseOriginAddr r) (hasMappedAddress r)
    (mappedAddressAddr r) (hasXorMappedAddress r) (xorMappedAddressAddr r) b a (hasErrorCode r)
    (errorCodeValue r).
Definition set_errorCode (b : bool) (v : Z) (r : StunBindingResponse) :=
  mkBindingResponse (hasResponseOrigin r) (responseOriginAddr r) (hasMappedAddress r)
    (mappedAddressAddr r) (hasXorMappedAddress r) (xorMappedAddressAddr r) (hasAlternateServer r)
    (alternateServerAddr r) b v.

(** The 16-bit field of the message type and class ... *)
Definition stun_type (msgType msgClass : Z) : Z :=
  let type := u16 (Z.shiftl (Z.land msgType 0x0f80) 2) in
  let type := u16 (Z.lor type (Z.shiftl (Z.land msgType 0x0070) 1)) in
  let type := u16 (Z.lor type (Z.land msgType 0x000f)) in
  let type := u16 (Z.lor type (Z.shiftl (Z.land msgClass 0x02) 7)) in
  u16 (Z.lor type (Z.shiftl (Z.land msgClass 0x01) 4)).

(** ... and back. *)
Definition stun_msg_type (type : Z) : Z :=
  Z.lor (Z.lor (Z.land type 0x000f) (Z.shiftr (Z.land type 0x00e0) 1))
        (Z.shiftr (Z.land type 0x3E00) 2).

Definition stun_msg_class (type : Z) : Z :=
  if mStunIsRequest type then StunMsgClassRequest
  else if mStunIsIndication type then StunMsgClassIndication
  else if mStunIsSuccessResponse type then StunMsgClassSuccessResponse
  else if mStunIsErrorResponse type then StunMsgClassFailureResponse
  else StunMsgClassInvalidMessageClass.

Section Operations.
Context `{Host}.

Definition stunProtocolPackHeader (msgType msgClass : Z) (transactionId : list Z) (length : Z) :
    io unit :=
  bitstream_write_uint16 (stun_type msgType msgClass) ;;
  bitstream_write_uint16 length ;;
  bitstream_write_uint32 kStunProtocolMagicCookie ;;
  bitstream_write_bytes transactionId kStunTransactionIdLen ;;
  ret tt.

Definition stunProtocolUnpackHeader (out : StunHeader) : io (Z * StunHeader) :=
  type <- bitstream_read_uint16 ;;
  let out := mkStunHeader (stun_msg_type type) (stun_msg_class type)
               (sh_transactionId out) (sh_length out) in
  if stun_msg_class type =? StunMsgClassInvalidMessageClass then ret (kStunInvalid, out)
  else
  length <- bitstream_read_uint16 ;;
  let out := mkStunHeader (sh_msgType out) (sh_msgClass out) (sh_transactionId out) length in
  magic_cookie <- bitstream_read_uint32 ;;
  if negb (mStunProtocolIsValidMagicCookie magic_cookie) then ret (kStunInvalid, out)
  else
  let* '(id, _) := bitstream_read_bytes (sh_transactionId out) kStunTransactionIdLen in
  ret (kStunValid, mkStunHeader (sh_msgType out) (sh_msgClass out) id (sh_length out)).

Definition stunProtocolPackAttributeChangeAddr (doChangeHost doChangePort : bool) : io unit :=
  let changeData := 0 in
  let changeData := if doChangeHost then Z.lor changeData 0x04 else changeData in
  let changeData := if doChangePort then Z.lor changeData 0x02 else changeData in
  bitstream_write_uint16 StunAttributeChangeRequest ;;
  bitstream_write_uint16 0x0004 ;;
  bitstream_write_uint32 changeData.

Definition stunProtocolUnpackAttributeAddr (addr : net_addr_t) : io (Z * net_addr_t) :=
  addrFamily <- bitstream_read_uint16 ;;
  if negb (addrFamily =? StunAddrFamilyIPv4) then ret (kStunUnsupported, addr)
  else
  port <- bitstream_read_uint16 ;;
  hostaddr <- bitstream_read_uint32 ;;
  ret (kStunValid, net_addr_set hostaddr port true).

Definition stunProtocolUnpackAttributeXorAddr (addr : net_addr_t) : io (Z * net_addr_t) :=
  addrFamily <- bitstream_read_uint16 ;;
  if negb (addrFamily =? StunAddrFamilyIPv4) then ret (kStunUnsupported, addr)
  else
  xorPort <- bitstream_read_uint16 ;;
  xorHost <- bitstream_read_uint32 ;;
  let port := u16 (Z.lxor xorPort (Z.land (Z.shiftr kStunProtocolMagicCookie 16) 0xFFFF)) in
  let hostaddr := u32 (Z.lxor xorHost kStunProtocolMagicCookie) in
  ret (kStunValid, net_addr_set hostaddr port true).

Definition stunProtocolUnpackAttributeError (value : Z) : io (Z * Z) :=
  n <- bitstream_read_uint32 ;;
  let n := Z.shiftr n 21 in
  let class := Z.land n 0x07 in
  let error := Z.land (Z.shiftr n 3) 0xFF in
  ret (kStunValid, s32 (class * 100 + error)).

(** The [switch] on the attribute type: [inl] is the return of the function,
    [inr] the response to go on with. *)
Definition unpack_attribute (attributeType attributeLength : Z) (r : StunBindingResponse) :
    io (StunBindingResponse + StunBindingResponse) :=
  if attributeType =? StunAttributeMappedAddress then
    let* '(c, a) := stunProtocolUnpackAttributeAddr (mappedAddressAddr r) in
    if negb (c =? kStunValid) then ret (inl (set_mappedAddress (hasMappedAddress r) a r))
    else ret (inr (set_mappedAddress true a r))
  else if attributeType =? StunAttributeXorMappedAddress then
    let* '(c, a) := stunProtocolUnpackAttributeXorAddr (xorMappedAddressAddr r) in
    if negb (c =? kStunValid) then ret (inl (set_xorMappedAddress (hasXorMappedAddress r) a r))
    else ret (inr (set_xorMappedAddress true a r))
  else if (attributeType =? StunAttributeAlternateServer) ||
          (attributeType =? StunAttributeOtherAddress) then
    let* '(c, a) := stunProtocolUnpackAttributeAddr (alternateServerAddr r) in
    if negb (c =? kStunValid) then ret (inl (set_alternateServer (hasAlternateServer r) a r))
    else ret (inr (set_alternateServer true a r))
  else if attributeType =? StunAttributeOriginServer then
    let* '(c, a) := stunProtocolUnpackAttributeAddr (responseOriginAddr r) in
    if negb (c =? kStunValid) then ret (inl (set_responseOrigin (hasResponseOrigin r) a r))
    else ret (inr (set_responseOrigin true a r))
  else if attributeType =? StunAttributeErrorCode then
    let* '(c, v) := stunProtocolUnpackAttributeError (errorCodeValue r) in
    if negb (c =? kStunValid) then ret (inl (set_errorCode (hasErrorCode r) v r))
    else ret (inr (set_errorCode true v r))
  else
    bitstream_skip_bytes attributeLength ;;
    ret (inr r).

(** [while(remainingBytes > 0)]: every iteration takes at least four bytes
    off, so [n] iterations are enough for [remainingBytes <= 4 * n]. *)
Fixpoint unpack_attributes (n : nat) (remainingBytes : Z) (r : StunBindingResponse) :
    io (Z * StunBindingResponse) :=
  if negb (0 <? remainingBytes) then ret (kStunValid, r)
  else match n with
  | O => fail OutOfFuel
  | S n' =>
      attributeType <- bitstream_read_uint16 ;;
      attributeLength <- bitstream_read_uint16 ;;
      x <- unpack_attribute attributeType attributeLength r ;;
      match x with
      | inl r' => ret (kStunInvalid, r')
      | inr r' => unpack_attributes n' (s32 (u32 (remainingBytes - attributeLength - 4))) r'
      end
  end.

Definition stunProtocolUnpackBindingResponseBody (length : Z) : io (Z * StunBindingResponse) :=
  unpack_attributes (Z.to_nat length) (s32 length) emptyResponse.

Definition stunProtocolPackBindingRequest (transactionId : list Z) : io unit :=
  stunProtocolPackHeader StunMsgTypeBinding StunMsgClassRequest transactionId 0.

Definition stunProtocolPackBindingChangeRequest (transactionId : list Z)
    (doChangeHost doChangePort : bool) : io unit :=
  stunProtocolPackHeader StunMsgTypeBinding StunMsgClassRequest transactionId 8 ;;
  stunProtocolPackAttributeChangeAddr doChangeHost doChangePort.

(** [out] is what the local variables and [transactionId] hold before. *)
Definition stunProtocolUnpackBindingResponse (out : StunHeader)
    (bindingResponse : StunBindingResponse) : io (Z * list Z * StunBindingResponse) :=
  let* '(c, h) := stunProtocolUnpackHeader out in
  if c =? kStunInvalid then ret (kStunInvalid, sh_transactionId h, bindingResponse)
  else if negb (sh_msgType h =? StunMsgTypeBinding) || (sh_msgClass h =? StunMsgClassRequest)
  then ret (kStunUnexpected, sh_transactionId h, bindingResponse)
  else if sh_length h =? 0 then ret (kStunInvalid, sh_transactionId h, bindingResponse)
  else
  let* '(c, r) := stunProtocolUnpackBindingResponseBody (sh_length h) in
  if c =? kStunInvalid then ret (kStunInvalid, sh_transactionId h, r)
  else ret (kStunValid, sh_transactionId h, r).

End Operations.
