(* ===== verification/StunProtocolSpec.v ===== *)
(** * What the STUN messages promise

    Round trips of headers and addresses, the safety of the receiver up to a
    length of the body, the termination of the loop over the attributes, and
    what the receiver makes of error codes and of long bodies. *)
From S2P Require Import Prelude Bitstream Wire Fields BitstreamSpec Net Protocol StunProtocol.

(** ** The type field *)

Definition type_cases : list (Z * Z) :=
  t ← seqZ 0 4096; c ← seqZ 0 4; [(t, c)].

Lemma stun_type_check :
  forallb (fun '(t, c) => (stun_msg_type (stun_type t c) =? t) &&
    (stun_msg_class (stun_type t c) =? c) && (stun_type t c <? 65536) && (0 <=? stun_type t c))
    type_cases = true.
Proof. vm_compute. reflexivity. Qed.

Lemma stun_type_inverse t c : 0 <= t < 4096 -> 0 <= c < 4 ->
  stun_msg_type (stun_type t c) = t /\ stun_msg_class (stun_type t c) = c /\
  uint_ok 2 (stun_type t c).
Proof.
  intros Ht Hc. pose proof (proj1 (forallb_forall _ _) stun_type_check (t, c)) as F.
  cbv beta iota in F. rewrite !andb_true_iff, !Z.eqb_eq, Z.ltb_lt, Z.leb_le in F.
  destruct F as [[[F1 F2] F3] F4]; [|repeat split; auto; lia].
  apply list_elem_of_In. unfold type_cases. apply list_elem_of_bind. exists t.
  split; [|apply elem_of_seqZ; lia]. apply list_elem_of_bind. exists c.
  split; [by apply list_elem_of_singleton|apply elem_of_seqZ; lia].
Qed.

Section Spec.
Context `{Host}.

Definition enc_stun_header (msgType msgClass : Z) (id : list Z) (length : Z) : list Z :=
  enc_int U16 (stun_type msgType msgClass) ++ enc_int U16 length ++
  enc_int U32 kStunProtocolMagicCookie ++ wire_order id ++ [].

Definition id_ok (id : list Z) : Prop := zlen id = kStunTransactionIdLen /\ Forall byte id.

Lemma zlen_enc_stun_header t c id n : id_ok id -> zlen (enc_stun_header t c id n) = 20.
Proof.
  intros [Hid _]. unfold enc_stun_header.
  by rewrite !zlen_app, !zlen_enc_int, zlen_wire_order, Hid.
Qed.

Lemma pack_stun_header_emits t c id n : id_ok id ->
  emits (stunProtocolPackHeader t c id n) (enc_stun_header t c id n) tt.
Proof.
  intros [Hid Hb]. unfold stunProtocolPackHeader, enc_stun_header.
  do 3 (eapply emits_bind; [auto with wire|]). eapply emits_bind; [|apply emits_ret].
  eapply emits_eq; [|eapply field_emits, write_bytes_field; [by rewrite Hid|done]].
  f_equal. rewrite take_ge; [done|]. unfold zlen in Hid. rewrite <- Hid. lia.
Qed.

Lemma unpack_stun_header_parses out t c id n :
  0 <= t < 4096 -> 0 <= c < 4 -> id_ok id -> uint_ok 2 n ->
  zlen (sh_transactionId out) = kStunTransactionIdLen ->
  parses (stunProtocolUnpackHeader out) (enc_stun_header t c id n)
    (kStunValid, mkStunHeader t c id n).
Proof.
  intros Ht Hc [Hid Hb] Hn Ho. destruct (stun_type_inverse t c Ht Hc) as (E1 & E2 & E3).
  unfold stunProtocolUnpackHeader, enc_stun_header.
  eapply parses_bind; [auto with wire|]. cbv zeta. rewrite E1, E2.
  rewrite (proj2 (Z.eqb_neq _ _)) by (unfold StunMsgClassInvalidMessageClass; lia).
  eapply parses_bind; [auto with wire|].
  eapply parses_bind; [by apply u32_parses|].
  unfold mStunProtocolIsValidMagicCookie. rewrite Z.eqb_refl.
  cbn [negb sh_msgType sh_msgClass sh_transactionId sh_length].
  assert (Hz : zlen (wire_order id) = kStunTransactionIdLen) by (by rewrite zlen_wire_order).
  rewrite <- Hz. eapply parses_bind; [apply read_bytes_parses; lia|].
  cbn beta iota. rewrite wire_order_involutive.
  replace (splice (sh_transactionId out) 0 id) with id; [apply parses_ret|].
  unfold splice. rewrite take_0. cbn. rewrite drop_ge, app_nil_r; [done|].
  unfold zlen in *. lia.
Qed.

(** ** The attributes *)

Lemma skip_bytes_result n s : bs_wf s -> 0 <= n ->
  bitstream_skip_bytes n s = Done (tt, if n <=? room s then skip s n else s).
Proof.
  intros W Hn. unfold bitstream_skip_bytes. rewrite bind_get, wf_enough by done.
  destruct (Z.leb_spec n (room s)) as [Hr|Hr]; [|done]. cbn [negb]. unfold modify.
  rewrite wf_u64 by (done || lia). destruct W. unfold room in Hr.
  rewrite (proj2 (Z.ltb_ge _ _)) by lia. done.
Qed.

Ltac early :=
  eapply (reads_upto_weaken 0 _ _ (fun _ => True));
  [by apply (reads_upto_ret _ (fun _ => True))|lia|done].

Lemma attr_addr_reads a : reads_upto 8 (stunProtocolUnpackAttributeAddr a) (fun _ => True).
Proof.
  unfold stunProtocolUnpackAttributeAddr.
  eapply (reads_upto_bind 2 6); [apply reads_reads_upto, u16_reads| |lia]. intros f _.
  destruct (negb _); [early|].
  eapply (reads_upto_bind 2 4); [apply reads_reads_upto, u16_reads| |lia]. intros p _.
  eapply (reads_upto_bind 4 0); [apply reads_reads_upto, u32_reads| |lia]. intros h _.
  by apply reads_upto_ret.
Qed.

Lemma attr_xor_addr_reads a : reads_upto 8 (stunProtocolUnpackAttributeXorAddr a) (fun _ => True).
Proof.
  unfold stunProtocolUnpackAttributeXorAddr.
  eapply (reads_upto_bind 2 6); [apply reads_reads_upto, u16_reads| |lia]. intros f _.
  destruct (negb _); [early|].
  eapply (reads_upto_bind 2 4); [apply reads_reads_upto, u16_reads| |lia]. intros p _.
  eapply (reads_upto_bind 4 0); [apply reads_reads_upto, u32_reads| |lia]. intros h _.
  by apply reads_upto_ret.
Qed.

Lemma attr_error_reads v : reads_upto 8 (stunProtocolUnpackAttributeError v) (fun _ => True).
Proof.
  unfold stunProtocolUnpackAttributeError.
  eapply (reads_upto_bind 4 4); [apply reads_reads_upto, u32_reads| |lia]. intros n _. early.
Qed.

(** An attribute takes at most eight bytes or its length. *)
Lemma unpack_attribute_result t n r s : bs_wf s -> 8 <= room s -> 0 <= n ->
  exists x m, unpack_attribute t n r s = Done (x, skip s m) /\ 0 <= m <= room s /\ m <= Z.max 8 n.
Proof.
  intros W Hr Hn.
  assert (P : forall {A B} (rd : io A) (k : A -> B), reads_upto 8 rd (fun _ => True) ->
    exists x m, (v <- rd ;; ret (k v)) s = Done (x, skip s m) /\ 0 <= m <= room s /\ m <= Z.max 8 n).
  { intros A B rd k [_ R]. destruct (R s W Hr) as (v & m & E & Hm & _).
    exists (k v), m. rewrite (bind_done _ _ _ _ _ E). split; [done|]. lia. }
  assert (Q : forall (rd : io (Z * net_addr_t)) f g, reads_upto 8 rd (fun _ => True) ->
    exists x m, (let* '(c, a) := rd in
      if negb (c =? kStunValid) then ret (inl (f a)) else ret (inr (g a))) s =
      Done (x : StunBindingResponse + StunBindingResponse, skip s m) /\
      0 <= m <= room s /\ m <= Z.max 8 n).
  { intros rd f g R. destruct (P _ _ rd (fun '(c, a) =>
      if negb (c =? kStunValid) then inl (f a) else inr (g a)) R) as (x & m & E & Hm).
    exists x, m. rewrite <- E. split; [|done]. unfold bind. destruct (rd s) as [[[c a] s']|f']; [|done].
    by destruct (negb _). }
  unfold unpack_attribute.
  destruct (t =? StunAttributeMappedAddress); [apply Q, attr_addr_reads|].
  destruct (t =? StunAttributeXorMappedAddress); [apply Q, attr_xor_addr_reads|].
  destruct ((t =? StunAttributeAlternateServer) || (t =? StunAttributeOtherAddress));
    [apply Q, attr_addr_reads|].
  destruct (t =? StunAttributeOriginServer); [apply Q, attr_addr_reads|].
  destruct (t =? StunAttributeErrorCode).
  - destruct (P _ _ _ (fun '(c, v) =>
      if negb (c =? kStunValid) then inl (set_errorCode (hasErrorCode r) v r)
      else inr (set_errorCode true v r)) (attr_error_reads (errorCodeValue r))) as (x & m & E & Hm).
    exists x, m. rewrite <- E. split; [|done]. unfold bind.
    destruct (stunProtocolUnpackAttributeError _ s) as [[[c v] s']|f']; [|done]. by destruct (negb _).
  - rewrite (bind_done _ _ _ _ _ (skip_bytes_result n s W Hn)).
    destruct (Z.leb_spec n (room s)) as [Hle|Hgt]; [exists (inr r), n|exists (inr r), 0];
      rewrite ?skip_0; (split; [done|]); lia.
Qed.

Lemma remaining_bytes remaining n : 0 < remaining < 2 ^ 16 -> 0 <= n < 2 ^ 16 ->
  s32 (u32 (remaining - n - 4)) = remaining - n - 4.
Proof. intros Hr Hn. unfold s32, u32. lia. Qed.

Lemma unpack_attributes_result k remaining r s :
  bs_wf s -> remaining < 2 ^ 16 -> remaining <= 4 * Z.of_nat k ->
  (0 < remaining -> 3 * remaining + 9 <= room s) ->
  exists c r' m, unpack_attributes k remaining r s = Done (c, r', skip s m) /\ 0 <= m <= room s.
Proof.
  revert remaining r s. induction k as [|k IH]; intros remaining r s W Hrem Hk Hroom.
  { cbn. rewrite (proj2 (Z.ltb_ge _ _)) by lia. cbn [negb].
    exists kStunValid, r, 0. rewrite skip_0. pose proof (room_nonneg s W). split; [done|lia]. }
  cbn [unpack_attributes]. destruct (Z.ltb_spec 0 remaining) as [Hpos|Hpos]; cbn [negb].
  2: { exists kStunValid, r, 0. rewrite skip_0. pose proof (room_nonneg s W). split; [done|lia]. }
  specialize (Hroom Hpos).
  destruct (proj2 u16_reads s W ltac:(lia)) as (t & E1 & _). rewrite (bind_done _ _ _ _ _ E1).
  assert (W1 : bs_wf (skip s 2)) by (apply skip_wf; [done|lia]).
  destruct (proj2 u16_reads _ W1) as (n & E2 & Hn); [rewrite room_skip; lia|].
  rewrite (bind_done _ _ _ _ _ E2), skip_skip. unfold uint_ok in Hn.
  assert (W2 : bs_wf (skip s (2 + 2))) by (apply skip_wf; [done|lia]).
  destruct (unpack_attribute_result t n r _ W2) as (x & m & E3 & Hm & Hmn);
    [rewrite room_skip; lia|lia|]. rewrite room_skip in Hm.
  rewrite (bind_done _ _ _ _ _ E3), skip_skip. destruct x as [r'|r'].
  { eexists _, _, (2 + 2 + m). split; [reflexivity|lia]. }
  rewrite remaining_bytes by lia.
  destruct (IH (remaining - n - 4) r' (skip s (2 + 2 + m))) as (c & r'' & m' & E4 & Hm').
  - apply skip_wf; [done|lia].
  - lia.
  - lia.
  - intros Hp. rewrite room_skip. lia.
  - rewrite E4, skip_skip. eexists _, _, _. split; [reflexivity|]. rewrite room_skip in Hm'. lia.
Qed.

(** ** The loop ends whatever the bytes are *)

(** On a stream whose bound is the end of its block, a reader leaves the block
    or returns inside it. *)
Definition tame {A} (rd : io A) (P : A -> Prop) : Prop :=
  forall s, bs_wf s -> bs_bound s = zlen (bs_data s) ->
    rd s = Fault OutOfBounds \/
    exists v m, rd s = Done (v, skip s m) /\ 0 <= m <= room s /\ P v.

Lemma tame_ret {A} (v : A) (P : A -> Prop) : P v -> tame (ret v) P.
Proof.
  intros Hv s W _. right. exists v, 0. rewrite skip_0. pose proof (room_nonneg s W).
  split; [done|]. split; [lia|done].
Qed.

Lemma tame_bind {A B} (rd : io A) (k : A -> io B) P Q :
  tame rd P -> (forall v, P v -> tame (k v) Q) -> tame (bind rd k) Q.
Proof.
  intros H1 H2 s W E. destruct (H1 s W E) as [F|(v & m & R & Hm & Hv)].
  { left. by apply bind_fault. }
  rewrite (bind_done _ _ _ _ _ R).
  destruct (H2 v Hv (skip s m)) as [F|(v' & m' & R' & Hm' & Hv')];
    [apply skip_wf; [done|lia]|done|by left|].
  right. rewrite room_skip in Hm'. exists v', (m + m'). rewrite R', skip_skip.
  split; [done|]. split; [lia|done].
Qed.

Lemma tame_int k : tame (read_int k) (uint_ok (int_bytes k)).
Proof.
  intros s W E. destruct (Z.lt_ge_cases (room s) (Z.of_nat (int_bytes k))) as [Hlt|Hge].
  - left. by apply read_int_short.
  - right. destruct (proj2 (read_int_reads k) s W Hge) as (v & R & Hv).
    exists v, (Z.of_nat (int_bytes k)). split; [done|]. split; [lia|done].
Qed.

Lemma tame_skip n : 0 <= n -> tame (bitstream_skip_bytes n) (fun _ => True).
Proof.
  intros Hn s W _. right. rewrite skip_bytes_result by done. pose proof (room_nonneg s W).
  destruct (Z.leb_spec n (room s)); [exists tt, n|exists tt, 0; rewrite skip_0]; (split; [done|]; lia).
Qed.

Ltac tame_read :=
  repeat first
    [ apply tame_ret; exact I
    | eapply tame_bind; [first [apply (tame_int U16)|apply (tame_int U32)]|intros ? _]
    | match goal with |- tame (if ?b then _ else _) _ => destruct b end ].

Lemma tame_attr_addr a : tame (stunProtocolUnpackAttributeAddr a) (fun _ => True).
Proof. unfold stunProtocolUnpackAttributeAddr. tame_read. Qed.
Lemma tame_attr_xor_addr a : tame (stunProtocolUnpackAttributeXorAddr a) (fun _ => True).
Proof. unfold stunProtocolUnpackAttributeXorAddr. tame_read. Qed.
Lemma tame_attr_error v : tame (stunProtocolUnpackAttributeError v) (fun _ => True).
Proof. unfold stunProtocolUnpackAttributeError. tame_read. Qed.

Lemma tame_attribute t n r : 0 <= n -> tame (unpack_attribute t n r) (fun _ => True).
Proof.
  intros Hn. unfold unpack_attribute.
  repeat match goal with |- tame (if ?b then _ else _) _ => destruct b end;
    (eapply tame_bind;
     [first [apply tame_attr_addr|apply tame_attr_xor_addr|apply tame_attr_error|by apply tame_skip]
     |intros [] _; tame_read]).
Qed.

Lemma tame_attributes k remaining r : remaining < 2 ^ 16 -> remaining <= 4 * Z.of_nat k ->
  tame (unpack_attributes k remaining r) (fun _ => True).
Proof.
  revert remaining r. induction k as [|k IH]; intros remaining r Hrem Hk; cbn [unpack_attributes].
  { rewrite (proj2 (Z.ltb_ge _ _)) by lia. by apply tame_ret. }
  destruct (Z.ltb_spec 0 remaining) as [Hpos|Hpos]; [|by apply tame_ret]. cbn [negb].
  eapply tame_bind; [apply (tame_int U16)|]. intros t _.
  eapply tame_bind; [apply (tame_int U16)|]. intros n Hn. unfold uint_ok in Hn. cbn in Hn.
  eapply tame_bind; [apply tame_attribute; lia|]. intros [r'|r'] _; [by apply tame_ret|].
  rewrite remaining_bytes by lia. apply IH; lia.
Qed.

End Spec.

(** ** Properties *)

Section Properties.
Context `{Host}.

Lemma read_bytes_reads dest n : 0 <= n <= zlen dest -> n < 2 ^ 31 ->
  reads n (bitstream_read_bytes dest n) (fun _ => True).
Proof.
  intros Hn Hi. split; [lia|]. intros s W Hr.
  destruct (bytes_ahead s n W ltac:(lia)) as (bs & Hby & <- & Ha).
  eexists. split; [apply read_bytes_parses; auto; lia|done].
Qed.

Lemma unpack_stun_header_reads out : zlen (sh_transactionId out) = kStunTransactionIdLen ->
  reads_upto 20 (stunProtocolUnpackHeader out)
    (fun '(c, h) => c = kStunInvalid \/ uint_ok 2 (sh_length h)).
Proof.
  intros Ho. unfold stunProtocolUnpackHeader.
  eapply (reads_upto_bind 2 18); [apply reads_reads_upto, u16_reads| |lia]. intros t _. cbv zeta.
  destruct (_ =? StunMsgClassInvalidMessageClass).
  { eapply (reads_upto_weaken 0 _ _ (fun p => p.1 = kStunInvalid)); [by apply reads_upto_ret|lia|].
    intros [c h]. by left. }
  eapply (reads_upto_bind 2 16); [apply reads_reads_upto, u16_reads| |lia]. intros n Hn.
  eapply (reads_upto_bind 4 12); [apply reads_reads_upto, u32_reads| |lia]. intros mc _.
  destruct (negb _).
  { eapply (reads_upto_weaken 0 _ _ (fun p => p.1 = kStunInvalid)); [by apply reads_upto_ret|lia|].
    intros [c h]. by left. }
  eapply (reads_upto_bind 12 0); [apply reads_reads_upto, read_bytes_reads| |lia].
  - cbn [sh_transactionId]. rewrite Ho. done.
  - done.
  - intros [d m] _. apply reads_upto_ret. by right.
Qed.

(** C35: a STUN header survives the network between hosts of one byte order:
    type, class, transaction and length are those that were packed, in twenty
    bytes. *)
Theorem stun_header_roundtrip out t c id n s :
  0 <= t < 4096 -> 0 <= c < 4 -> id_ok id -> uint_ok 2 n ->
  zlen (sh_transactionId out) = kStunTransactionIdLen -> bs_wf s -> 20 <= room s ->
  exists s', stunProtocolPackHeader t c id n s = Done (tt, s') /\
    bs_offset s' = bs_offset s + 20 /\
    stunProtocolUnpackHeader out (set_offset s' (bs_offset s)) =
      Done (kStunValid, mkStunHeader t c id n, s').
Proof.
  intros Ht Hc Hid Hn Ho W Hr. pose proof (zlen_enc_stun_header t c id n Hid) as Hz.
  pose proof (pack_stun_header_emits t c id n Hid) as E.
  pose proof (unpack_stun_header_parses out t c id n Ht Hc Hid Hn Ho) as P.
  destruct (emits_parses _ _ _ _ s E P W ltac:(lia)) as (s' & E' & X & R).
  exists s'. split; [done|]. split; [|done].
  rewrite (proj2 E s W ltac:(lia)) in E'. injection E' as <-.
  unfold append. cbn [bs_offset]. by rewrite Hz.
Qed.

(** The bytes of a success response with one XOR-MAPPED-ADDRESS. *)
Definition enc_xor_mapped (id : list Z) (hostaddr port : Z) : list Z :=
  enc_stun_header StunMsgTypeBinding StunMsgClassSuccessResponse id 12 ++
  enc_int U16 StunAttributeXorMappedAddress ++ enc_int U16 8 ++
  enc_int U16 StunAddrFamilyIPv4 ++
  enc_int U16 (Z.lxor port 0x2112) ++ enc_int U32 (Z.lxor hostaddr kStunProtocolMagicCookie).

Lemma lxor_ok n a b : (0 < n)%nat -> uint_ok n a -> uint_ok n b -> uint_ok n (Z.lxor a b).
Proof.
  unfold uint_ok. change 256 with (2 ^ 8). rewrite <- Z.pow_mul_r by lia.
  set (w := 8 * Z.of_nat n). intros Hn Ha Hb.
  assert (L : forall x, 0 <= x < 2 ^ w -> Z.log2 x < w).
  { intros x Hx. destruct (decide (x = 0)) as [->|]; [cbn; lia|]. apply Z.log2_lt_pow2; lia. }
  assert (H0 : 0 <= Z.lxor a b) by (apply Z.lxor_nonneg; lia). split; [done|].
  destruct (decide (Z.lxor a b = 0)) as [->|Hz]; [apply Z.pow_pos_nonneg; lia|].
  apply Z.log2_lt_pow2; [lia|].
  pose proof (Z.log2_lxor a b (proj1 Ha) (proj1 Hb)). pose proof (L a Ha). pose proof (L b Hb). lia.
Qed.

(** the address a STUN server reports in a XOR-MAPPED-ADDRESS attribute is
    the address the client gets, whatever it is. *)
Theorem stun_xor_mapped_address out r0 id hostaddr port :
  id_ok id -> uint_ok 4 hostaddr -> uint_ok 2 port ->
  zlen (sh_transactionId out) = kStunTransactionIdLen ->
  parses (stunProtocolUnpackBindingResponse out r0) (enc_xor_mapped id hostaddr port)
    (kStunValid, id, set_xorMappedAddress true (net_addr_set hostaddr port true) emptyResponse).
Proof.
  intros Hid Hh Hp Ho. unfold stunProtocolUnpackBindingResponse, enc_xor_mapped.
  eapply parses_bind; [by apply unpack_stun_header_parses|]. cbn beta iota.
  cbn [sh_msgType sh_msgClass sh_transactionId sh_length].
  rewrite !(proj2 (Z.eqb_neq _ _)) by done. cbn [negb orb]. rewrite Z.eqb_refl. cbn [negb orb].
  set (r := set_xorMappedAddress true (net_addr_set hostaddr port true) emptyResponse).
  match goal with |- parses _ ?bs _ => rewrite <- (app_nil_r bs) end.
  eapply (parses_bind _ _ _ _ (kStunValid, r)); [|apply parses_ret].
  unfold stunProtocolUnpackBindingResponseBody.
  change (Z.to_nat 12) with 12%nat. change (s32 12) with 12. cbn [unpack_attributes].
  change (0 <? 12) with true. cbn [negb].
  eapply parses_bind; [by apply u16_parses|]. eapply parses_bind; [by apply u16_parses|].
  unfold unpack_attribute. rewrite (proj2 (Z.eqb_neq _ _)) by done. rewrite Z.eqb_refl.
  match goal with |- parses _ ?bs _ => rewrite <- (app_nil_r bs) end.
  eapply (parses_bind _ _ _ _ (inr r)); [|change (s32 (u32 (12 - 8 - 4))) with 0; apply parses_ret].
  match goal with |- parses _ ?bs _ => rewrite <- (app_nil_r bs) end.
  eapply (parses_bind _ _ _ _ (kStunValid, net_addr_set hostaddr port true)); [|apply parses_ret].
  unfold stunProtocolUnpackAttributeXorAddr.
  eapply parses_bind; [by apply u16_parses|]. rewrite Z.eqb_refl. cbn [negb].
  eapply parses_bind; [apply u16_parses, lxor_ok; [lia|done|by split]|].
  rewrite <- (app_nil_r (enc_int U32 _)).
  eapply parses_bind; [apply u32_parses, lxor_ok; [lia|done|by split]|].
  cbv zeta. change (Z.land (Z.shiftr kStunProtocolMagicCookie 16) 0xFFFF) with 0x2112.
  rewrite !Z.lxor_assoc, !Z.lxor_nilpotent, !Z.lxor_0_r.
  unfold uint_ok in Hh, Hp. rewrite (u16_small port), (u32_small hostaddr) by lia. apply parses_ret.
Qed.

(** the loop over the attributes ends for every length and every bytes: on
    a stream whose bound is the end of its block it returns, or leaves the
    block. *)
Theorem stun_body_terminates length s :
  uint_ok 2 length -> bs_wf s -> bs_bound s = zlen (bs_data s) ->
  stunProtocolUnpackBindingResponseBody length s = Fault OutOfBounds \/
  exists c r m, stunProtocolUnpackBindingResponseBody length s = Done (c, r, skip s m) /\
    0 <= m <= room s.
Proof.
  intros Hl W E. unfold uint_ok in Hl. unfold stunProtocolUnpackBindingResponseBody.
  rewrite s32_small by lia.
  destruct (tame_attributes (Z.to_nat length) length emptyResponse ltac:(lia) ltac:(lia) s W E)
    as [F|([c r] & m & R & Hm & _)]; [by left|right; by exists c, r, m].
Qed.

(** C36: whatever 256 bytes arrive, unpacking a binding response stays inside the
    packet if its length field is at most 75. *)
Theorem stun_receive_safe p out r0 :
  packet_wf p -> zlen (sh_transactionId out) = kStunTransactionIdLen ->
  exists c h s, stunProtocolUnpackHeader out (pk_bitstream (net_packet_init p)) = Done (c, h, s) /\
    (sh_length h <= 75 -> exists v s',
      stunProtocolUnpackBindingResponse out r0 (pk_bitstream (net_packet_init p)) = Done (v, s')).
Proof.
  intros Hp Ho. set (s := pk_bitstream (net_packet_init p)).
  assert (W : bs_wf s) by (by apply packet_init_wf).
  assert (R : room s = 256) by apply packet_init_room.
  destruct (proj2 (unpack_stun_header_reads out Ho) s W ltac:(lia)) as ([c h] & m & E & Hm & Hv).
  exists c, h, (skip s m). split; [done|]. intros Hl.
  unfold stunProtocolUnpackBindingResponse. rewrite (bind_done _ _ _ _ _ E).
  destruct (Z.eqb_spec c kStunInvalid) as [Hc|Hc]; [by eexists _, _|].
  destruct (_ || _); [by eexists _, _|].
  destruct (sh_length h =? 0); [by eexists _, _|].
  destruct Hv as [?|Hv]; [done|]. unfold uint_ok in Hv.
  destruct (unpack_attributes_result (Z.to_nat (sh_length h)) (s32 (sh_length h)) emptyResponse
    (skip s m)) as (c' & r' & m' & E' & Hm').
  - apply skip_wf; [done|lia].
  - rewrite s32_small; lia.
  - rewrite s32_small; lia.
  - intros _. rewrite room_skip, s32_small by lia. lia.
  - unfold stunProtocolUnpackBindingResponseBody. rewrite (bind_done _ _ _ _ _ E').
    destruct (c' =? kStunInvalid); by eexists _, _.
Qed.

Lemma zero_attributes n k remaining r s :
  bs_wf s -> bs_bound s = zlen (bs_data s) -> room s = Z.of_nat k ->
  ahead s (replicate k 0) -> Z.of_nat k < remaining < 2 ^ 16 -> remaining <= 4 * Z.of_nat n ->
  unpack_attributes n remaining r s = Fault OutOfBounds.
Proof.
  revert k remaining r s. induction n as [|n IH]; intros k remaining r s W E Hr Ha Hk Hn; [lia|].
  cbn [unpack_attributes]. rewrite (proj2 (Z.ltb_lt _ _)) by lia. cbn [negb].
  assert (Ez : enc_int U16 0 = [0; 0]) by (by unfold enc_int, enc_uint; destruct host).
  destruct (decide (k < 2)%nat) as [H2|H2].
  { apply bind_fault. apply (read_int_short U16); auto. rewrite Hr. cbn. lia. }
  destruct k as [|[|k]]; [lia|lia|].
  change (replicate (S (S k)) 0) with ([0; 0] ++ replicate k 0) in Ha.
  destruct (ahead_split s [0; 0] (replicate k 0) W Ha) as [A1 A2]. rewrite <- Ez in A1.
  pose proof (u16_parses 0 ltac:(by split) s W ltac:(rewrite zlen_enc_int; cbn; lia) A1) as E1.
  rewrite zlen_enc_int in E1. rewrite (bind_done _ _ _ _ _ E1).
  change (Z.of_nat (int_bytes U16)) with 2. change (zlen [0; 0]) with 2 in A2.
  assert (W1 : bs_wf (skip s 2)) by (apply skip_wf; [done|lia]).
  assert (R1 : room (skip s 2) = Z.of_nat k) by (rewrite room_skip; lia).
  destruct (decide (k < 2)%nat) as [H4|H4].
  { apply bind_fault. apply (read_int_short U16); auto. rewrite R1. cbn. lia. }
  destruct k as [|[|k]]; [lia|lia|].
  change (replicate (S (S k)) 0) with ([0; 0] ++ replicate k 0) in A2.
  destruct (ahead_split _ [0; 0] (replicate k 0) W1 A2) as [A3 A4]. rewrite <- Ez in A3.
  pose proof (u16_parses 0 ltac:(by split) _ W1 ltac:(rewrite zlen_enc_int; cbn; lia) A3) as E2.
  rewrite zlen_enc_int in E2. rewrite (bind_done _ _ _ _ _ E2).
  change (Z.of_nat (int_bytes U16)) with 2. change (zlen [0; 0]) with 2 in A4.
  set (s2 := skip (skip s 2) 2) in *.
  assert (W2 : bs_wf s2) by (apply skip_wf; [done|lia]).
  assert (R2 : room s2 = Z.of_nat k) by (unfold s2; rewrite room_skip; lia).
  assert (E3 : unpack_attribute 0 0 r s2 = Done (inr r, s2)).
  { unfold unpack_attribute. rewrite !(proj2 (Z.eqb_neq _ _)) by done. cbn [orb].
    rewrite (bind_done _ _ _ _ _ (skip_bytes_result 0 s2 W2 ltac:(lia))).
    rewrite (proj2 (Z.leb_le _ _)) by lia. by rewrite skip_0. }
  rewrite (bind_done _ _ _ _ _ E3), remaining_bytes by lia.
  apply (IH k); [done|done|done|done|lia|lia].
Qed.

(** the length of the body is not checked against the packet: a response
    whose length field is larger than what follows, with zeros there, makes
    the receiver read past the end of the packet. *)
Theorem stun_body_overread out r0 c id n k s :
  1 <= c < 4 -> id_ok id -> Z.of_nat k < n < 2 ^ 16 ->
  zlen (sh_transactionId out) = kStunTransactionIdLen -> bs_wf s ->
  bs_bound s = zlen (bs_data s) -> room s = 20 + Z.of_nat k ->
  ahead s (enc_stun_header StunMsgTypeBinding c id n ++ replicate k 0) ->
  stunProtocolUnpackBindingResponse out r0 s = Fault OutOfBounds.
Proof.
  intros Hc Hid Hn Ho W E Hr Ha. destruct (ahead_split _ _ _ W Ha) as [A1 A2].
  rewrite zlen_enc_stun_header in A2 by done.
  pose proof (unpack_stun_header_parses out StunMsgTypeBinding c id n ltac:(by split) ltac:(lia) Hid
    ltac:(unfold uint_ok; lia) Ho s W ltac:(rewrite zlen_enc_stun_header by done; lia) A1) as E1.
  rewrite zlen_enc_stun_header in E1 by done.
  unfold stunProtocolUnpackBindingResponse. rewrite (bind_done _ _ _ _ _ E1).
  cbn [sh_msgType sh_msgClass sh_transactionId sh_length].
  rewrite (proj2 (Z.eqb_neq _ _)) by done. rewrite Z.eqb_refl. cbn [negb orb].
  rewrite (proj2 (Z.eqb_neq c _)) by (unfold StunMsgClassRequest; lia).
  rewrite (proj2 (Z.eqb_neq n 0)) by lia. apply bind_fault.
  unfold stunProtocolUnpackBindingResponseBody. rewrite s32_small by lia.
  apply (zero_attributes _ k); [apply skip_wf; [done|lia]|done|rewrite room_skip; lia|done|lia|lia].
Qed.

(** an error code in the format of the attribute (21 zero bits, 3 bits of
    class, 8 bits of number) is always read as zero. *)
Theorem stun_error_code_lost class number value :
  0 <= class < 8 -> 0 <= number < 256 ->
  parses (stunProtocolUnpackAttributeError value) (enc_int U32 (class * 256 + number))
    (kStunValid, 0).
Proof.
  intros Hc Hn. unfold stunProtocolUnpackAttributeError.
  rewrite <- (app_nil_r (enc_int U32 _)).
  eapply parses_bind; [apply u32_parses; unfold uint_ok; lia|]. cbv zeta.
  rewrite Z.shiftr_div_pow2 by lia. rewrite Z.div_small by lia. apply parses_ret.
Qed.

End Properties.

(** ** Concrete instances *)

Definition demo_id : list Z := [1; 2; 3; 4; 5; 6; 7; 8; 9; 10; 11; 12].
Definition blank_header : StunHeader := mkStunHeader 0 0 (replicate 12 0) 0.

Lemma demo_id_ok : id_ok demo_id.
Proof. split; [reflexivity|apply forallb_bytes; reflexivity]. Defined.

Lemma stun_header_roundtrip_witness :
  exists s', stunProtocolPackHeader (H := LittleEndian) 1 2 demo_id 12 (pk_bitstream blankPacket) =
      Done (tt, s') /\
    bs_offset s' = 20 /\
    stunProtocolUnpackHeader (H := LittleEndian) blank_header (set_offset s' 0) =
      Done (kStunValid, mkStunHeader 1 2 demo_id 12, s').
Proof.
  apply (stun_header_roundtrip (H := LittleEndian) blank_header 1 2 demo_id 12 (pk_bitstream blankPacket));
    [by split|by split|exact demo_id_ok|by split|reflexivity|apply bs_wfb_wf; reflexivity|discriminate].
Defined.

Lemma stun_xor_mapped_address_witness :
  parses (stunProtocolUnpackBindingResponse (H := LittleEndian) blank_header emptyResponse)
    (enc_xor_mapped (H := LittleEndian) demo_id 0xC0A80001 3478)
    (kStunValid, demo_id, set_xorMappedAddress true
      (net_addr_set (H := LittleEndian) 0xC0A80001 3478 true) emptyResponse).
Proof.
  apply (stun_xor_mapped_address (H := LittleEndian));
    [exact demo_id_ok|by split|by split|reflexivity].
Defined.

Lemma stun_body_terminates_witness :
  let s := pk_bitstream blankPacket in
  stunProtocolUnpackBindingResponseBody (H := LittleEndian) 300 s = Fault OutOfBounds \/
  exists c r m, stunProtocolUnpackBindingResponseBody (H := LittleEndian) 300 s =
      Done (c, r, skip s m) /\ 0 <= m <= room s.
Proof.
  apply (stun_body_terminates (H := LittleEndian));
    [by split|apply bs_wfb_wf; reflexivity|reflexivity].
Defined.

Lemma stun_receive_safe_witness :
  exists c h s, stunProtocolUnpackHeader (H := BigEndian) blank_header
      (pk_bitstream (net_packet_init blankPacket)) = Done (c, h, s) /\
    (sh_length h <= 75 -> exists v s',
      stunProtocolUnpackBindingResponse (H := BigEndian) blank_header emptyResponse
        (pk_bitstream (net_packet_init blankPacket)) = Done (v, s')).
Proof. apply (stun_receive_safe (H := BigEndian)); [exact blankPacket_wf|reflexivity]. Defined.

Definition overread_stream : bitstream_t :=
  bitstream_create ([1; 1; 2; 0; 33; 18; 164; 66] ++ replicate 12 0 ++ replicate 236 0) 256.

Lemma stun_body_overread_witness :
  stunProtocolUnpackBindingResponse (H := LittleEndian) blank_header emptyResponse overread_stream =
    Fault OutOfBounds.
Proof.
  apply (stun_body_overread (H := LittleEndian) blank_header emptyResponse 2 (replicate 12 0) 512 236);
    [by split|split; [reflexivity|apply forallb_bytes; reflexivity]|by split|reflexivity
    |apply bs_wfb_wf; reflexivity|reflexivity|reflexivity|].
  exists []. reflexivity.
Defined.

(** 420, Unknown Attribute. *)
Lemma stun_error_code_lost_witness :
  parses (stunProtocolUnpackAttributeError (H := LittleEndian) 7)
    (enc_int (H := LittleEndian) U32 (4 * 256 + 20)) (kStunValid, 0).
Proof. apply (stun_error_code_lost (H := LittleEndian) 4 20 7); by split. Defined.
