(* ===== verification/Floats.v ===== *)
(** * Floating-point numbers

    The [float] and the [double] of the program are the binary32 and the
    binary64 numbers of IEEE 754, with rounding to nearest even, in the
    Standard Library's executable specification. *)
From S2P Require Import Prelude.
From Stdlib Require Export SpecFloat.

Definition float := spec_float.
Definition double := spec_float.

Definition f32_of_Z (z : Z) : float := binary_normalize 24 128 z 0 false.
Definition f64_of_Z (z : Z) : double := binary_normalize 53 1024 z 0 false.

Definition f32_add : float -> float -> float := SFadd 24 128.
Definition f32_sub : float -> float -> float := SFsub 24 128.
Definition f32_mul : float -> float -> float := SFmul 24 128.
Definition f32_div : float -> float -> float := SFdiv 24 128.
Definition f64_add : double -> double -> double := SFadd 53 1024.
Definition f64_sub : double -> double -> double := SFsub 53 1024.
Definition f64_mul : double -> double -> double := SFmul 53 1024.
Definition f64_div : double -> double -> double := SFdiv 53 1024.

(** [a > b], [a <= b] and [a >= b]; false when one of them is not a number. *)
Definition f_gt (a b : spec_float) : bool := SFltb b a.
Definition f_lt (a b : spec_float) : bool := SFltb a b.
Definition f_le (a b : spec_float) : bool := SFleb a b.
Definition f_ge (a b : spec_float) : bool := SFleb b a.

(** The promotion of a [float] to [double] is exact. *)
Definition f64_of_f32 (x : float) : double :=
  match x with
  | S754_finite s m e => binary_normalize 53 1024 (if s then Z.neg m else Z.pos m) e s
  | _ => x
  end.

(** The conversion to an integer, towards zero. *)
Definition f_trunc (x : spec_float) : Z :=
  match x with
  | S754_finite s m e =>
      let a := if 0 <=? e then Z.pos m * 2 ^ e else Z.pos m / 2 ^ (- e) in
      if s then - a else a
  | _ => 0
  end.

(** The literal [n/d], correctly rounded. *)
Definition f32_lit (n d : Z) : float := f32_div (f32_of_Z n) (f32_of_Z d).

Definition f_zero : spec_float := S754_zero false.

#[export] Instance spec_float_eq_dec : EqDecision spec_float.
Proof. solve_decision. Defined.

Lemma SFcompare_antisym x y : SFcompare y x = option_map CompOpp (SFcompare x y).
Proof.
  destruct x as [sx|sx| |sx mx ex], y as [sy|sy| |sy my ey]; try (destruct sx, sy; reflexivity);
    try (destruct sx; reflexivity); try (destruct sy; reflexivity); [reflexivity|].
  cbn. rewrite (Z.compare_antisym ex ey). destruct sx, sy; try reflexivity;
    destruct (ex ?= ey)%Z; try reflexivity; cbn;
    pose proof (Pos.compare_cont_antisym mx my Eq) as E; cbn in E; rewrite <- E;
    by destruct (Pos.compare_cont Eq mx my).
Qed.

Lemma gt_not_le x y : f_gt x y = true -> f_le x y = false.
Proof.
  unfold f_gt, f_le, SFltb, SFleb. rewrite (SFcompare_antisym x y).
  by destruct (SFcompare x y) as [[]|].
Qed.
