(* ===== verification/FloatStream.v ===== *)
(** * Floats in a bit stream (src/bitstream.c)

    [bitstream_write_float32] and [bitstream_read_float32] pass a [float] as a
    fixed-point number: a sign, 15 bits of whole part and 16 of fraction.
    What they do is arithmetic on binary32 numbers (Floats), whose roundings
    are followed here. *)
From S2P Require Import Prelude Bitstream Wire Fields BitstreamSpec Floats.

(** The conversions of a [float] to [uint32_t] and to [int]: towards zero, and
    undefined when the result does not fit. *)
Definition f32_to_u32 (x : float) : outcome Z :=
  match x with
  | S754_zero _ | S754_finite _ _ _ =>
      if (0 <=? f_trunc x) && (f_trunc x <? 2 ^ 32) then Done (f_trunc x) else Fault BadConversion
  | _ => Fault BadConversion
  end.

Definition f32_to_s32 (x : float) : outcome Z :=
  match x with
  | S754_zero _ | S754_finite _ _ _ =>
      if (- 2 ^ 31 <=? f_trunc x) && (f_trunc x <? 2 ^ 31) then Done (f_trunc x) else Fault BadConversion
  | _ => Fault BadConversion
  end.

Section Operations.
Context `{Host}.

Definition bitstream_write_float32 (src : float) : io unit :=
  let* '(sign, src) := ret (if f_lt src f_zero then (1, SFopp src) else (0, src)) in
  whole <- lift (f32_to_u32 src) ;;
  let p := Z.lor (u32 (Z.shiftl (Z.land whole 0x7fff) 16)) (u32 (Z.shiftl sign 31)) in
  int_src <- lift (f32_to_s32 src) ;;
  fraction <- lift (f32_to_u32 (f32_mul (f32_sub src (f32_of_Z int_src)) (f32_of_Z 65537))) ;;
  bitstream_write_uint32 (Z.lor p (Z.land fraction 0xffff)).

Definition bitstream_read_float32 : io float :=
  p <- bitstream_read_uint32 ;;
  let f := f32_of_Z (Z.land (Z.shiftr p 16) 0x7fff) in
  let f := f32_add f (f32_div (f32_of_Z (Z.land p 0xffff)) (f32_of_Z 65536)) in
  ret (if Z.land (Z.shiftr p 31) 1 =? 1 then SFopp f else f).

End Operations.

(** ** Rounding

    A number is its mantissa times a power of two; [val m e] is that multiplied
    by a power that makes it an integer. *)

Definition val (m e : Z) : Z := m * 2 ^ (e + 200).

Lemma digits_size p : digits2_pos p = Pos.size p.
Proof. induction p as [p IH|p IH|]; cbn; by rewrite ?IH. Qed.

Lemma digits_unique p n : 0 < n -> 2 ^ (n - 1) <= Z.pos p < 2 ^ n -> Z.pos (digits2_pos p) = n.
Proof.
  intros Hn [H1 H2]. rewrite digits_size.
  assert (L : Z.log2 (Z.pos p) = n - 1) by (apply Z.log2_unique; [lia|]; replace (Z.succ (n - 1)) with n by lia; done).
  destruct p; cbn in L |- *; lia.
Qed.

Lemma fexp_normal e : -125 <= e -> fexp 24 128 e = e - 24.
Proof. unfold fexp, emin. lia. Qed.

Lemma iter_pos_nat {A} (f : A -> A) p : forall x, iter_pos f p x = Nat.iter (Pos.to_nat p) f x.
Proof.
  assert (D : forall n x, Nat.iter n f (Nat.iter n f x) = Nat.iter (2 * n) f x)
    by (intros n x; rewrite <- Nat.iter_add; f_equal; lia).
  induction p as [p IH|p IH|]; intros x; cbn [iter_pos].
  - rewrite !IH, D, Nat.iter_swap, Pos2Nat.inj_xI. done.
  - rewrite !IH, D, Pos2Nat.inj_xO. done.
  - done.
Qed.

Lemma shr_1_spec m r s : 0 <= m -> shr_1 (Build_shr_record m r s) = Build_shr_record (m / 2) (Z.odd m) (r || s).
Proof.
  intros Hm. destruct m as [|[p|p|]|p]; [done| | |done|lia]; cbn [shr_1 Z.odd].
  - f_equal. rewrite Pos2Z.inj_xI. lia.
  - f_equal. rewrite Pos2Z.inj_xO. lia.
Qed.

Lemma mod_next m n : m mod 2 ^ Z.of_nat (S n) = 2 ^ Z.of_nat n * (if Z.odd (m / 2 ^ Z.of_nat n) then 1 else 0) + m mod 2 ^ Z.of_nat n.
Proof.
  rewrite Nat2Z.inj_succ, Z.pow_succ_r, (Z.mul_comm 2), Z.rem_mul_r by lia.
  rewrite Zmod_odd. lia.
Qed.

Lemma shr_steps m n : 0 <= m ->
  Nat.iter (S n) shr_1 (Build_shr_record m false false) =
  Build_shr_record (m / 2 ^ Z.of_nat (S n)) (Z.odd (m / 2 ^ Z.of_nat n)) (negb (m mod 2 ^ Z.of_nat n =? 0)).
Proof.
  intros Hm. induction n as [|n IH]; [cbn -[shr_1]; rewrite shr_1_spec, Z.div_1_r, Z.mod_1_r by done; done|].
  rewrite Nat.iter_succ, IH, shr_1_spec by (apply Z.div_pos; lia). f_equal.
  - rewrite Z.div_div by lia. do 2 f_equal. rewrite (Nat2Z.inj_succ (S n)), Z.pow_succ_r; lia.
  - rewrite (mod_next m n). pose proof (Z.mod_pos_bound m (2 ^ Z.of_nat n)).
    destruct (Z.odd _); cbn [orb]; [|by rewrite Z.mul_0_r]. symmetry. apply negb_true_iff, Z.eqb_neq. lia.
Qed.

(** The mantissa after [n] shifts to the right, and what was lost. *)
Lemma shr_shifts m n : 0 <= m ->
  let mrs := Nat.iter n shr_1 (Build_shr_record m false false) in
  let r := m mod 2 ^ Z.of_nat n in
  shr_m mrs = m / 2 ^ Z.of_nat n /\
  loc_of_shr_record mrs = if r =? 0 then loc_Exact else loc_Inexact (2 * r ?= 2 ^ Z.of_nat n).
Proof.
  intros Hm. destruct n as [|n]; [cbn; rewrite Z.div_1_r, Z.mod_1_r; done|]. rewrite shr_steps by done.
  cbn zeta. split; [done|]. rewrite mod_next. pose proof (Z.mod_pos_bound m (2 ^ Z.of_nat n) ltac:(lia)) as B.
  rewrite (Nat2Z.inj_succ n), Z.pow_succ_r by lia. set (q := 2 ^ Z.of_nat n) in *. set (l := m mod q) in *.
  cbn [loc_of_shr_record]. destruct (Z.odd _), (Z.eqb_spec l 0); cbn [negb]; rewrite ?Z.mul_0_r, ?Z.mul_1_r;
    case_match eqn:E; rewrite ?Z.eqb_eq, ?Z.eqb_neq in E; try lia; try done; do 2 f_equal; symmetry;
    first [apply Z.compare_lt_iff|apply Z.compare_gt_iff|apply Z.compare_eq_iff]; lia.
Qed.

(** The nearest integer to [m / 2 ^ n]. *)
Lemma round_nearest m n : 0 <= m ->
  let mrs := Nat.iter n shr_1 (Build_shr_record m false false) in
  let R := round_nearest_even (shr_m mrs) (loc_of_shr_record mrs) in
  2 * m - 2 ^ Z.of_nat n <= 2 * R * 2 ^ Z.of_nat n <= 2 * m + 2 ^ Z.of_nat n /\ (R = m / 2 ^ Z.of_nat n \/ R = m / 2 ^ Z.of_nat n + 1) /\
  (m mod 2 ^ Z.of_nat n = 0 -> R = m / 2 ^ Z.of_nat n).
Proof.
  intros Hm mrs R. destruct (shr_shifts m n Hm) as [E1 E2]. fold mrs in E1, E2. subst R. rewrite E1, E2. clear.
  set (q := 2 ^ Z.of_nat n). assert (0 < q) by (unfold q; lia).
  pose proof (Z.div_mod m q ltac:(lia)). pose proof (Z.mod_pos_bound m q ltac:(lia)).
  set (r := m mod q) in *. set (d := m / q) in *.
  destruct (Z.eqb_spec r 0) as [Er|Er]; cbn [round_nearest_even]; [nia|].
  destruct (Z.compare_spec (2 * r) q); [destruct (Z.even d)| |]; nia.
Qed.

Lemma shr_fexp_normal m e k : 2 ^ (23 + k) <= m < 2 ^ (24 + k) -> -24 < k -> -149 <= e + k ->
  shr_fexp 24 128 m e loc_Exact = (Nat.iter (Z.to_nat k) shr_1 (Build_shr_record m false false), e + Z.max 0 k).
Proof.
  intros Hm Hk He. unfold shr_fexp. assert (0 < m) by lia. destruct m as [|p|]; try lia.
  cbn [Zdigits2 shr_record_of_loc]. rewrite (digits_unique p (24 + k)) by (replace (24 + k - 1) with (23 + k) by lia; lia).
  rewrite fexp_normal by lia. replace (24 + k + e - 24 - e) with k by lia. unfold shr.
  destruct k as [|k|k]; cbn [Z.max Z.compare]; rewrite ?Z.add_0_r; [done| |done].
  rewrite iter_pos_nat. by rewrite Z2Nat.inj_pos.
Qed.

(** Rounding a mantissa of [24 + n] digits, upwards perhaps to the next power. *)
Lemma aux_round s m n e : 0 <= n -> 2 ^ (23 + n) <= m < 2 ^ (24 + n) -> -149 <= e + n < 104 ->
  exists R, binary_round_aux 24 128 s m e loc_Exact =
    (if R =? 2 ^ 24 then S754_finite s (2 ^ 23)%positive (e + n + 1) else S754_finite s (Z.to_pos R) (e + n)) /\
    2 ^ 23 <= R <= 2 ^ 24 /\ 2 * m - 2 ^ n <= 2 * R * 2 ^ n <= 2 * m + 2 ^ n /\ (m mod 2 ^ n = 0 -> R = m / 2 ^ n).
Proof.
  intros Hn Hm He. assert (0 < m) by lia. pose proof (round_nearest m (Z.to_nat n) ltac:(lia)) as RN. cbv zeta in RN.
  unfold binary_round_aux. rewrite (shr_fexp_normal m e n) by lia. rewrite Z.max_r by lia.
  set (R := round_nearest_even _ _) in *. rewrite Z2Nat.id in RN by lia. destruct RN as (R1 & R2 & R3).
  rewrite !Z.pow_add_r in Hm by lia. set (q := 2 ^ n) in *. assert (0 < q) by (unfold q; lia).
  assert (HR : 2 ^ 23 <= R <= 2 ^ 24) by (split; nia). exists R. split; [|done].
  destruct (Z.eqb_spec R (2 ^ 24)) as [->|Hne].
  - rewrite (shr_fexp_normal (2 ^ 24) (e + n) 1) by lia. rewrite Z.max_r by lia.
    change (shr_m (Nat.iter (Z.to_nat 1) shr_1 _)) with (2 ^ 23). cbn -[Z.add Z.leb]. by rewrite (proj2 (Z.leb_le _ _)) by lia.
  - rewrite (shr_fexp_normal R (e + n) 0) by lia. cbn [Z.to_nat Nat.iter nat_rect shr_m]. rewrite Z.max_l, Z.add_0_r by lia.
    destruct R as [|R|R]; try lia. by rewrite (proj2 (Z.leb_le _ _)) by lia.
Qed.

(** A number with 24 digits is not rounded, however it is given. *)
Lemma aux_exact s m e M E : 2 ^ 23 <= M < 2 ^ 24 -> -149 <= E < 104 -> e <= E -> m = M * 2 ^ (E - e) ->
  binary_round_aux 24 128 s m e loc_Exact = S754_finite s (Z.to_pos M) E.
Proof.
  intros HM HE He ->. assert (0 < 2 ^ (E - e)) by lia.
  destruct (aux_round s (M * 2 ^ (E - e)) (E - e) e) as (R & -> & _ & _ & R3); [lia| |lia|].
  { rewrite !Z.pow_add_r by lia. nia. }
  rewrite R3, Z.div_mul by (try apply Z.mod_mul; lia). rewrite (proj2 (Z.eqb_neq _ _)) by lia. f_equal. lia.
Qed.

Lemma shl_iter d p : Z.pos (Pos.iter xO p d) = Z.pos p * 2 ^ Z.pos d.
Proof.
  revert p. induction d as [|d IH] using Pos.peano_ind; intros p; [cbn; lia|].
  rewrite Pos.iter_succ, Pos2Z.inj_xO, IH, Pos2Z.inj_succ, Z.pow_succ_r; lia.
Qed.

Lemma val_same m e M E : -200 <= e <= E -> val m e = val M E -> m = M * 2 ^ (E - e).
Proof.
  unfold val. intros He V. replace (E + 200) with ((E - e) + (e + 200)) in V by lia.
  rewrite (Z.pow_add_r 2 (E - e)), Z.mul_assoc in V by lia.
  apply Z.mul_reg_r in V; [done|]. apply Z.pow_nonzero; lia.
Qed.

Lemma round_exact s m e M E : 2 ^ 23 <= M < 2 ^ 24 -> -149 <= E < 104 -> -200 <= e -> val (Z.pos m) e = val M E ->
  binary_round 24 128 s m e = S754_finite s (Z.to_pos M) E.
Proof.
  intros HM HE He V. unfold binary_round, shl_align.
  assert (D : fexp 24 128 (Z.pos (digits2_pos m) + e) = E).
  { assert (Hd : -24 < E - e /\ 2 ^ (23 + (E - e)) <= Z.pos m < 2 ^ (24 + (E - e))).
    { destruct (Z.le_gt_cases e E) as [H|H].
      - rewrite (val_same _ _ _ _ (conj He H) V), !Z.pow_add_r by lia. split; [lia|]. assert (0 < 2 ^ (E - e)) by lia. nia.
      - pose proof (val_same M E (Z.pos m) e ltac:(lia) (eq_sym V)) as ->. assert (G : e - E < 24).
        { apply (Z.pow_lt_mono_r_iff 2); [lia|lia|]. assert (0 < 2 ^ (e - E)) by lia. nia. }
        assert (Q : forall k, e - E <= k -> 2 ^ k = 2 ^ (k + (E - e)) * 2 ^ (e - E))
          by (intros k Hk; rewrite <- Z.pow_add_r by lia; f_equal; lia).
        rewrite (Q 23), (Q 24) in HM by lia. assert (0 < 2 ^ (e - E)) by lia. split; [lia|]. nia. }
    rewrite (digits_unique m (24 + (E - e))) by (replace (24 + (E - e) - 1) with (23 + (E - e)) by lia; lia).
    rewrite fexp_normal; lia. }
  rewrite D. clear D. destruct (E - e) as [|d|d] eqn:Ed; apply aux_exact; try done; try lia;
    try (apply val_same; [lia|exact V]).
  rewrite shl_iter. pose proof (val_same M E (Z.pos m) e ltac:(lia) (eq_sym V)) as ->.
  rewrite Z.sub_diag, Z.mul_1_r. f_equal. f_equal. lia.
Qed.

(** ** Numbers that are not rounded *)

(** The mantissa [M] and the exponent [E] of the number with the mantissa [m]
    and the exponent [e]. *)
Definition normal (m e M E : Z) : Prop := 2 ^ 23 <= M < 2 ^ 24 /\ -149 <= E < 104 /\ val m e = val M E.

Definition exact (m e : Z) : Prop := -200 <= e /\ (m = 0 \/ exists M E, normal m e M E).

(** The number that is not negative. *)
Definition fl (m e : Z) : float := binary_normalize 24 128 m e false.

Lemma normal_pos m e M E : -200 <= e -> normal m e M E -> 0 < m.
Proof.
  intros He (HM & HE & V). unfold val in V. assert (0 < 2 ^ (E + 200)) by lia. assert (0 < 2 ^ (e + 200)) by lia. nia.
Qed.

Lemma fl_normal m e M E : -200 <= e -> normal m e M E -> fl m e = S754_finite false (Z.to_pos M) E.
Proof.
  intros He N. pose proof (normal_pos _ _ _ _ He N) as Hm. destruct N as (HM & HE & V). unfold fl. destruct m as [|m|m]; try lia.
  by apply round_exact.
Qed.

Lemma val_shift m e k : -200 <= e -> 0 <= k -> val (m * 2 ^ k) e = val m (e + k).
Proof. intros He Hk. unfold val. rewrite <- Z.mul_assoc, <- Z.pow_add_r by lia. do 2 f_equal. lia. Qed.

Lemma val_0 e : val 0 e = 0.
Proof. done. Qed.

Lemma val_add m n e : val (m + n) e = val m e + val n e.
Proof. unfold val. lia. Qed.

Lemma val_sub m n e : val (m - n) e = val m e - val n e.
Proof. unfold val. lia. Qed.

Lemma fl_value m e m' e' : exact m e -> -200 <= e' -> val m e = val m' e' -> fl m e = fl m' e' /\ exact m' e'.
Proof.
  intros [He [->|(M & E & N)]] He' V.
  - assert (m' = 0) as ->; [|by split; [|split; [done|left]]].
    unfold val in V. assert (0 < 2 ^ (e' + 200)) by lia. nia.
  - assert (N' : normal m' e' M E) by (destruct N as (HM & HE & N); split; [done|]; split; [done|congruence]).
    split; [|split; [done|right; by exists M, E]]. by rewrite (fl_normal _ _ _ _ He N), (fl_normal _ _ _ _ He' N').
Qed.

Lemma small_normal m e : 0 < m < 2 ^ 24 -> -100 <= e <= 100 ->
  let d := Z.log2 m + 1 in 1 <= d <= 24 /\ 2 ^ (d - 1) <= m < 2 ^ d /\ normal m e (m * 2 ^ (24 - d)) (e + d - 24).
Proof.
  intros Hm He d. assert (Hl : 0 <= Z.log2 m < 24) by (split; [apply Z.log2_nonneg|apply Z.log2_lt_pow2; lia]).
  pose proof (Z.log2_spec m ltac:(lia)) as L. replace (Z.succ (Z.log2 m)) with d in L by lia.
  replace (Z.log2 m) with (d - 1) in L by lia. split; [lia|]. split; [done|]. split; [|split; [lia|]].
  - assert (P1 : 2 ^ 23 = 2 ^ (d - 1) * 2 ^ (24 - d)) by (rewrite <- Z.pow_add_r by lia; f_equal; lia).
    assert (P2 : 2 ^ 24 = 2 ^ d * 2 ^ (24 - d)) by (rewrite <- Z.pow_add_r by lia; f_equal; lia).
    rewrite P1, P2. assert (0 < 2 ^ (24 - d)) by lia. nia.
  - rewrite val_shift by lia. f_equal. lia.
Qed.

Lemma exact_small m e : 0 <= m < 2 ^ 24 -> -100 <= e <= 100 -> exact m e.
Proof.
  intros Hm He. split; [lia|]. destruct (decide (m = 0)); [by left|right].
  destruct (small_normal m e) as (_ & _ & N); [lia|lia|]. eauto.
Qed.

Lemma exact_scaled m j e : 0 <= m < 2 ^ 24 -> 0 <= j -> -100 <= e -> e + j <= 100 -> exact (m * 2 ^ j) e.
Proof.
  intros Hm Hj He Hj'. apply (fl_value m (e + j)); [apply exact_small; lia|lia|]. by rewrite val_shift by lia.
Qed.

Lemma trunc_fl m e : exact m e -> f_trunc (fl m e) = val m e / 2 ^ 200.
Proof.
  intros [He [->|(M & E & N)]]; [by rewrite val_0|]. rewrite (fl_normal _ _ _ _ He N). destruct N as (HM & HE & ->).
  unfold f_trunc, val. rewrite Z2Pos.id by lia. destruct (Z.leb_spec 0 E).
  - rewrite Z.pow_add_r, Z.mul_assoc, Z.div_mul by lia. done.
  - replace 200 with (- E + (E + 200)) at 2 by lia. rewrite (Z.pow_add_r 2 (- E)) by lia.
    rewrite Z.div_mul_cancel_r by (apply Z.pow_nonzero; lia). done.
Qed.

(** *** Sums and differences *)

Lemma align_val m e ez : -200 <= ez <= e -> val (Z.pos (fst (shl_align m e ez))) ez = val (Z.pos m) e.
Proof.
  intros H. unfold shl_align. destruct (ez - e) as [|d|d] eqn:Ed; cbn [fst]; [f_equal; lia|lia|].
  rewrite shl_iter, val_shift by lia. f_equal. lia.
Qed.

Lemma fl_add m n e : exact m e -> exact n e -> exact (m + n) e -> f32_add (fl m e) (fl n e) = fl (m + n) e.
Proof.
  intros [He [->|(M & E & X)]] [_ [->|(M' & E' & Y)]] S; [done| | |].
  - rewrite Z.add_0_l. by rewrite (fl_normal _ _ _ _ He Y).
  - rewrite Z.add_0_r. by rewrite (fl_normal _ _ _ _ He X).
  - rewrite (fl_normal _ _ _ _ He X), (fl_normal _ _ _ _ He Y). unfold f32_add, SFadd. cbn zeta. cbn [cond_Zopp].
    destruct X as (HM & HE & X), Y as (HM' & HE' & Y). symmetry. apply (fl_value _ _ _ _ S); [lia|].
    rewrite !val_add, !align_val, !Z2Pos.id by lia. congruence.
Qed.

Lemma fl_sub m n e : exact m e -> exact n e -> exact (m - n) e -> 0 <= n <= m -> f32_sub (fl m e) (fl n e) = fl (m - n) e.
Proof.
  intros [He [->|(M & E & X)]] [_ [->|(M' & E' & Y)]] S Hn; [done| | |].
  - pose proof (normal_pos _ _ _ _ He Y). lia.
  - rewrite Z.sub_0_r. by rewrite (fl_normal _ _ _ _ He X).
  - rewrite (fl_normal _ _ _ _ He X), (fl_normal _ _ _ _ He Y). unfold f32_sub, SFsub. cbn zeta. cbn [cond_Zopp].
    destruct X as (HM & HE & X), Y as (HM' & HE' & Y). symmetry. apply (fl_value _ _ _ _ S); [lia|].
    rewrite !val_sub, !align_val, !Z2Pos.id by lia. congruence.
Qed.

(** *** The two constants of the source *)

Lemma div_65536 M E : 2 ^ 23 <= M < 2 ^ 24 -> -40 <= E <= 40 ->
  f32_div (S754_finite false (Z.to_pos M) E) (f32_of_Z 65536) = S754_finite false (Z.to_pos M) (E - 16).
Proof.
  intros HM HE. change (f32_of_Z 65536) with (S754_finite false 8388608 (-7)).
  unfold f32_div, SFdiv, SFdiv_core_binary. cbv zeta. cbn [Zdigits2 xorb].
  rewrite (digits_unique (Z.to_pos M) 24) by (try rewrite Z2Pos.id; lia). change (Z.pos (digits2_pos 8388608)) with 24.
  replace (Z.min _ _) with (E - 17) by (rewrite fexp_normal by lia; lia). replace (E - -7 - (E - 17)) with 24 by lia.
  rewrite Z2Pos.id, Z.shiftl_mul_pow2 by lia.
  assert (D : Z.div_eucl (M * 2 ^ 24) 8388608 = (2 * M, 0)).
  { pose proof (Z.div_mod_unique 8388608) as U. rewrite (surjective_pairing (Z.div_eucl _ _)).
    change (fst (Z.div_eucl (M * 2 ^ 24) 8388608)) with (M * 2 ^ 24 / 8388608).
    change (snd (Z.div_eucl (M * 2 ^ 24) 8388608)) with ((M * 2 ^ 24) mod 8388608). f_equal; lia. }
  rewrite D. change (new_location 8388608 0) with loc_Exact. apply aux_exact; [done|lia|lia|].
  replace (E - 16 - (E - 17)) with 1 by lia. lia.
Qed.

Lemma fl_div k : 0 <= k < 2 ^ 16 -> f32_div (f32_of_Z k) (f32_of_Z 65536) = fl k (-16).
Proof.
  intros Hk. destruct (decide (k = 0)) as [->|Hne]; [done|]. change (f32_of_Z k) with (fl k 0).
  destruct (small_normal k 0) as (Hd & _ & N); [lia|lia|]. destruct (small_normal k (-16)) as (_ & _ & N'); [lia|lia|].
  rewrite (fl_normal k 0 _ _ ltac:(lia) N), (fl_normal k (-16) _ _ ltac:(lia) N'). destruct N as (HM & _).
  rewrite div_65536 by lia. f_equal. lia.
Qed.

(** The bits of the fraction [k/65536] in the stream. *)
Definition stored_fraction (k : Z) : Z := if k <? 65408 then k else (k + 1) mod 65536.

Definition written_fraction (k : Z) : outcome Z := f32_to_u32 (f32_mul (fl k (-16)) (f32_of_Z 65537)).

Lemma fraction_low k : 0 <= k < 65408 -> written_fraction k = Done k.
Proof.
  intros Hk. destruct (decide (k = 0)) as [->|Hne]; [done|]. unfold written_fraction.
  destruct (small_normal k (-16)) as (Hd & Hp & N); [lia|lia|]. rewrite (fl_normal k (-16) _ _ ltac:(lia) N).
  destruct N as (HM & HE & _). set (d := Z.log2 k + 1) in *.
  assert (Hd' : d <= 16) by (assert (d - 1 < 16); [apply (Z.pow_lt_mono_r_iff 2); lia|lia]).
  change (f32_of_Z 65537) with (S754_finite false 8388736 (-7)). unfold f32_mul, SFmul. cbn [xorb].
  rewrite Pos2Z.inj_mul, Z2Pos.id by lia.
  assert (Pd : 2 ^ 24 = 2 ^ d * 2 ^ (24 - d)) by (rewrite <- Z.pow_add_r by lia; f_equal; lia).
  assert (Hw : 2 ^ 8 <= 2 ^ (24 - d)) by (apply Z.pow_le_mono_r; lia).
  destruct (aux_round false (k * 2 ^ (24 - d) * 8388736) 23 (-16 + d - 24 + -7)) as (R & -> & HR & B & _);
    [lia|split; nia|lia|].
  assert (T : R / 2 ^ (24 - d) = k) by (symmetry; apply (Z.div_unique_pos _ _ _ (R - 2 ^ (24 - d) * k)); nia).
  destruct (Z.eqb_spec R (2 ^ 24)) as [->|Hn24].
  { rewrite Pd, Z.div_mul in T by lia. lia. }
  unfold f32_to_u32, f_trunc. replace (-16 + d - 24 + -7 + 23) with (d - 24) by lia. rewrite (proj2 (Z.leb_gt 0 (d - 24))) by lia.
  replace (- (d - 24)) with (24 - d) by lia. rewrite Z2Pos.id, T by lia.
  by rewrite (proj2 (Z.leb_le 0 k)), (proj2 (Z.ltb_lt k _)) by lia.
Qed.

(** The last 128 are rounded up to the next one, or to a whole. *)
Lemma fraction_high k : 65408 <= k < 65536 -> written_fraction k = Done (k + 1).
Proof.
  intros Hk. assert (T : forallb (fun k => match written_fraction k with Done x => x =? k + 1 | _ => false end) (seqZ 65408 128) = true) by (by vm_compute).
  rewrite forallb_forall in T. specialize (T k). destruct (written_fraction k) as [x|f].
  - apply Z.eqb_eq in T as ->; [done|]. apply list_elem_of_In, elem_of_seqZ. lia.
  - discriminate T. apply list_elem_of_In, elem_of_seqZ. lia.
Qed.

Lemma fraction_stored k : 0 <= k < 65536 -> exists x, written_fraction k = Done x /\ Z.land x 0xffff = stored_fraction k.
Proof.
  intros Hk. unfold stored_fraction. destruct (Z.ltb_spec k 65408).
  - exists k. rewrite fraction_low, land_ffff, Z.mod_small by lia. done.
  - exists (k + 1). rewrite fraction_high, land_ffff by lia. done.
Qed.

(** ** What passes through the stream *)

(** The number [N / 65536], or its negative. *)
Definition fixed (neg : bool) (N : Z) : float := binary_normalize 24 128 (if neg then - N else N) (-16) neg.

Lemma fixed_fl neg N : exact N (-16) -> 0 <= N -> fixed neg N = if neg then SFopp (fl N (-16)) else fl N (-16).
Proof.
  intros [_ [->|(M & E & X)]] HN; [by destruct neg|]. destruct neg; [|done]. rewrite (fl_normal N (-16) M E ltac:(lia) X).
  pose proof (normal_pos N (-16) M E ltac:(lia) X). destruct X as (HM & HE & V). unfold fixed. destruct N as [|N|N]; try lia.
  apply round_exact; done || lia.
Qed.

(** A fixed-point number that is a [float]: it has 24 digits, and then
    zeroes. *)
Record short_digits (N : Z) : Prop := {
  sd_range : 0 <= N < 2 ^ 47;
  sd_digits : exists m j, N = m * 2 ^ j /\ 0 <= m < 2 ^ 24 /\ 0 <= j;
}.

Lemma short_exact N : short_digits N -> exact N (-16).
Proof.
  intros [HN (m & j & -> & Hm & Hj)]. destruct (decide (m = 0)) as [->|Hne]; [split; [lia|by left]|].
  apply exact_scaled; try lia. assert (j < 47); [|lia]. apply (Z.pow_lt_mono_r_iff 2); nia.
Qed.

Lemma short_whole N : short_digits N -> exact (N / 65536 * 65536) (-16).
Proof.
  intros S. pose proof (short_exact N S) as X. destruct S as [HN (m & j & E & Hm & Hj)].
  destruct (Z.le_gt_cases j 16) as [H|H].
  - apply (exact_scaled (N / 65536) 16); try lia. split; [apply Z.div_pos; lia|]. apply Z.div_lt_upper_bound; [lia|].
    assert (2 ^ j <= 2 ^ 16) by (apply Z.pow_le_mono_r; lia). nia.
  - assert (D : N mod 65536 = 0); [|by replace (N / 65536 * 65536) with N by lia].
    subst N. replace j with ((j - 16) + 16) by lia. rewrite Z.pow_add_r, Z.mul_assoc by lia. apply Z.mod_mul. lia.
Qed.

Lemma short_mod N : short_digits N -> exact (N mod 2 ^ 31) (-16).
Proof.
  intros S. pose proof (short_exact N S) as X. destruct S as [HN (m & j & E & Hm & Hj)].
  destruct (Z.le_gt_cases j 7) as [H|H].
  - rewrite Z.mod_small; [done|]. assert (2 ^ j <= 2 ^ 7) by (apply Z.pow_le_mono_r; lia). nia.
  - destruct (Z.le_gt_cases j 31) as [H'|H'].
    + replace (2 ^ 31) with (2 ^ (31 - j) * 2 ^ j) by (rewrite <- Z.pow_add_r by lia; f_equal; lia).
      subst N. rewrite Z.mul_mod_distr_r by (apply Z.pow_nonzero; lia). apply exact_scaled; try lia.
      pose proof (Z.mod_pos_bound m (2 ^ (31 - j)) ltac:(lia)). assert (2 ^ (31 - j) <= 2 ^ 24) by (apply Z.pow_le_mono_r; lia). lia.
    + subst N. replace j with ((j - 31) + 31) by lia. rewrite Z.pow_add_r, Z.mul_assoc, Z.mod_mul by lia. split; [lia|by left].
Qed.

(** The word in the stream: sign, whole part and fraction. *)
Definition float_word (neg : bool) (whole fraction : Z) : Z := (if neg then 2 ^ 31 else 0) + (whole * 65536 + fraction).

(** A mask of [n] ones. *)
Lemma land_low a n : 0 <= n -> Z.land a (2 ^ n - 1) = a mod 2 ^ n.
Proof. intros Hn. rewrite <- Z.land_ones by done. by rewrite Z.ones_equiv, Z.sub_1_r. Qed.

Lemma word_joined (neg : bool) w x : 0 <= w ->
  Z.lor (Z.lor (u32 (Z.shiftl (Z.land w 0x7fff) 16)) (u32 (Z.shiftl (if neg then 1 else 0) 31))) (Z.land x 0xffff) =
  float_word neg (w mod 32768) (Z.land x 0xffff).
Proof.
  intros Hw. rewrite (land_low w 15 ltac:(lia) : Z.land w 32767 = w mod 2 ^ 15), land_ffff.
  pose proof (Z.mod_pos_bound w 32768 ltac:(lia)). pose proof (Z.mod_pos_bound x 65536 ltac:(lia)).
  change (2 ^ 15) with 32768. rewrite Z.shiftl_mul_pow2, (u32_small (_ * _)) by lia.
  assert (S : u32 (Z.shiftl (if neg then 1 else 0) 31) = if neg then 2 ^ 31 else 0) by (by destruct neg).
  rewrite S, Z.lor_comm, (Z.lor_comm (_ * _)). unfold float_word. rewrite (lor_add (if neg then 2 ^ 31 else 0) _ 31) by (destruct neg; lia).
  rewrite Z.lor_comm, (lor_add _ _ 16) by (destruct neg; lia). lia.
Qed.

Lemma convert_positive M E : 0 <= f_trunc (S754_finite false M E) < 2 ^ 31 ->
  f32_to_u32 (S754_finite false M E) = Done (f_trunc (S754_finite false M E)) /\
  f32_to_s32 (S754_finite false M E) = Done (f_trunc (S754_finite false M E)).
Proof.
  unfold f32_to_u32, f32_to_s32. generalize (f_trunc (S754_finite false M E)). intros t Ht.
  by rewrite !(proj2 (Z.leb_le _ _)), !(proj2 (Z.ltb_lt _ _)) by lia.
Qed.

Section Properties.
Context `{Host}.

(** The sign is split off first. *)
Lemma write_sign neg M E s : bitstream_write_float32 (S754_finite neg M E) s =
  (whole <- lift (f32_to_u32 (S754_finite false M E)) ;;
    int_src <- lift (f32_to_s32 (S754_finite false M E)) ;;
    fraction <- lift (f32_to_u32 (f32_mul (f32_sub (S754_finite false M E) (f32_of_Z int_src)) (f32_of_Z 65537))) ;;
    bitstream_write_uint32 (Z.lor (Z.lor (u32 (Z.shiftl (Z.land whole 0x7fff) 16)) (u32 (Z.shiftl (if neg then 1 else 0) 31))) (Z.land fraction 0xffff))) s.
Proof. by destruct neg. Qed.

Lemma write_fixed neg N s : short_digits N ->
  bitstream_write_float32 (fixed neg N) s =
  bitstream_write_uint32 (float_word (neg && (0 <? N)) (N / 65536 mod 32768) (stored_fraction (N mod 65536))) s.
Proof.
  intros S. pose proof (short_exact N S) as X. pose proof (short_whole N S) as Xw. destruct S as [HN _].
  destruct (decide (N = 0)) as [->|Hne]; [by destruct neg|].
  rewrite (proj2 (Z.ltb_lt 0 N)), andb_true_r by lia. rewrite fixed_fl by (done || lia).
  assert (T : f_trunc (fl N (-16)) = N / 65536) by (rewrite trunc_fl by done; unfold val; lia).
  destruct (fl_value (N / 65536 * 65536) (-16) (N / 65536) 0 Xw) as [Ew _]; [lia|by rewrite <- (val_shift _ (-16) 16)|].
  assert (D : f32_sub (fl N (-16)) (f32_of_Z (N / 65536)) = fl (N mod 65536) (-16)).
  { change (f32_of_Z (N / 65536)) with (fl (N / 65536) 0). rewrite <- Ew.
    assert (Em : N - N / 65536 * 65536 = N mod 65536) by lia.
    rewrite fl_sub; [by rewrite Em|done|done| |lia]. rewrite Em. apply exact_small; lia. }
  destruct (fraction_stored (N mod 65536) ltac:(lia)) as (x & Ex & <-).
  assert (Ef : exists M E, fl N (-16) = S754_finite false M E).
  { destruct X as [_ [->|(M & E & X)]]; [done|]. eexists _, _. exact (fl_normal N (-16) M E ltac:(lia) X). }
  destruct Ef as (M & E & Ef). unfold written_fraction in Ex. rewrite <- D, Ef in Ex. rewrite Ef in *.
  destruct (convert_positive M E ltac:(rewrite T; lia)) as [C1 C2]. rewrite T in C1, C2.
  transitivity (bitstream_write_float32 (S754_finite neg M E) s); [by destruct neg|].
  rewrite write_sign.
  rewrite C1, C2. unfold lift at 1 2. unfold bind at 1 2. rewrite Ex. unfold lift, bind. rewrite word_joined by lia. done.
Qed.

(** The float of a word. *)
Definition word_float (p : Z) : float :=
  let f := f32_of_Z (Z.land (Z.shiftr p 16) 0x7fff) in
  let f := f32_add f (f32_div (f32_of_Z (Z.land p 0xffff)) (f32_of_Z 65536)) in
  if Z.land (Z.shiftr p 31) 1 =? 1 then SFopp f else f.

Lemma word_fixed neg w k : 0 <= w < 32768 -> 0 <= k < 65536 -> exact (w * 65536 + k) (-16) ->
  word_float (float_word neg w k) = fixed neg (w * 65536 + k).
Proof.
  intros Hw Hk X. unfold word_float. set (p := float_word neg w k).
  assert (Ew : Z.land (Z.shiftr p 16) 0x7fff = w).
  { rewrite (land_low (Z.shiftr p 16) 15 ltac:(lia) : Z.land (Z.shiftr p 16) 32767 = Z.shiftr p 16 mod 2 ^ 15), shiftr_div by lia. unfold p, float_word. destruct neg; lia. }
  assert (Ek : Z.land p 0xffff = k) by (rewrite land_ffff; unfold p, float_word; destruct neg; lia).
  assert (Es : (Z.land (Z.shiftr p 31) 1 =? 1) = neg).
  { rewrite (land_low (Z.shiftr p 31) 1 ltac:(lia) : Z.land (Z.shiftr p 31) 1 = Z.shiftr p 31 mod 2 ^ 1), shiftr_div by lia. unfold p, float_word. destruct neg;
      [apply Z.eqb_eq|apply Z.eqb_neq]; lia. }
  cbv zeta. rewrite Ew, Ek, Es, fl_div by lia. change (f32_of_Z w) with (fl w 0).
  destruct (fl_value w 0 (w * 65536) (-16)) as [-> Xw]; [apply exact_small; lia|lia|exact (eq_sym (val_shift w (-16) 16 ltac:(lia) ltac:(lia)))|].
  rewrite fl_add by (done || apply exact_small; lia). by rewrite fixed_fl by (done || lia).
Qed.

Lemma float_roundtrip_word neg N s : short_digits N -> bs_wf s -> 4 <= room s ->
  let p := float_word (neg && (0 <? N)) (N / 65536 mod 32768) (stored_fraction (N mod 65536)) in
  exists s', bitstream_write_float32 (fixed neg N) s = Done (tt, s') /\ extends s s' /\
    bitstream_read_float32 (set_offset s' (bs_offset s)) = Done (word_float p, s').
Proof.
  intros S W R p. rewrite write_fixed by done. fold p.
  assert (Hp : uint_ok 4 p).
  { unfold uint_ok, p, float_word, stored_fraction. pose proof (Z.mod_pos_bound (N / 65536) 32768 ltac:(lia)).
    destruct (_ && _), (_ <? _); lia. }
  destruct (codec_roundtrip _ _ _ _ (C := int_codec U32) p s Hp W) as (s' & E & X & D); [by rewrite length_enc_int|].
  exists s'. split; [exact E|]. split; [done|]. unfold bitstream_read_float32. by rewrite (bind_done _ _ _ _ _ D).
Qed.

(** C9: a float below 2^31 in magnitude (the bound [short_digits] has) that is a
    whole number of 65536ths, with a fraction below 65408/65536, is read back, on the same host, without its sign if it is
    zero and modulo 32768 if it is larger: exactly, in spite of the four
    roundings. The write touches nothing else. *)
Theorem float_roundtrip neg N s : short_digits N -> N mod 65536 < 65408 -> bs_wf s -> 4 <= room s ->
  exists s', bitstream_write_float32 (fixed neg N) s = Done (tt, s') /\ extends s s' /\
    bitstream_read_float32 (set_offset s' (bs_offset s)) = Done (fixed (neg && (0 <? N)) (N mod 2 ^ 31), s').
Proof.
  intros S Hk W R. destruct (float_roundtrip_word neg N s S W R) as (s' & E & X & D).
  exists s'. split; [done|]. split; [done|]. rewrite D. unfold stored_fraction. rewrite (proj2 (Z.ltb_lt (N mod 65536) 65408)) by done.
  assert (Em : N / 65536 mod 32768 * 65536 + N mod 65536 = N mod 2 ^ 31) by lia.
  rewrite word_fixed; [by rewrite Em|lia|lia|]. rewrite Em. by apply short_mod.
Qed.

(** the fraction is multiplied by 65537: one of 65408/65536 or more is read
    back as the next one, and the largest, which would be a whole, as zero, so
    that 0.99998474 becomes 0. *)
Theorem float_fraction_lost neg N s : 0 <= N < 2 ^ 24 -> 65408 <= N mod 65536 -> bs_wf s -> 4 <= room s ->
  exists s', bitstream_write_float32 (fixed neg N) s = Done (tt, s') /\
    bitstream_read_float32 (set_offset s' (bs_offset s)) =
      Done (fixed neg (N / 65536 * 65536 + (N mod 65536 + 1) mod 65536), s').
Proof.
  intros HN Hk W R. assert (S : short_digits N).
  { split; [lia|]. exists N, 0. lia. }
  destruct (float_roundtrip_word neg N s S W R) as (s' & E & X & D). exists s'. split; [done|]. rewrite D.
  unfold stored_fraction. rewrite (proj2 (Z.ltb_ge (N mod 65536) 65408)), (proj2 (Z.ltb_lt 0 N)), andb_true_r by lia.
  rewrite word_fixed; [|lia|lia|apply exact_small; lia]. do 4 f_equal. lia.
Qed.

(** a float that is not a number, or whose whole part does not fit an
    [int], has no defined conversion: the write is undefined, in every state
    of the stream. *)
Theorem float_out_of_range x s :
  match x with
  | S754_nan | S754_infinity _ => True
  | _ => f_trunc x <= - 2 ^ 31 \/ 2 ^ 31 <= f_trunc x
  end -> bitstream_write_float32 x s = Fault BadConversion.
Proof.
  assert (F : forall m e, 2 ^ 31 <= f_trunc (S754_finite false m e) -> f32_to_s32 (S754_finite false m e) = Fault BadConversion).
  { intros m e Ht. unfold f32_to_s32. rewrite (proj2 (Z.ltb_ge _ _)), andb_false_r by done. done. }
  assert (U : forall x, f32_to_u32 x = Done (f_trunc x) \/ f32_to_u32 x = Fault BadConversion).
  { intros y. unfold f32_to_u32. destruct y; try (by right); case_match; auto. }
  destruct x as [z|z| |z m e]; intros Hx; [cbn in Hx; lia|by destruct z|done|].
  assert (Ht : 2 ^ 31 <= f_trunc (S754_finite false m e)).
  { assert (0 <= f_trunc (S754_finite false m e)) by (cbn; case_match; [nia|apply Z.div_pos; lia]). destruct z; cbn in *; lia. }
  rewrite write_sign. unfold lift at 1. unfold bind at 1. destruct (U (S754_finite false m e)) as [-> | ->]; [|done].
  rewrite F by done. done.
Qed.

End Properties.

(** ** Concrete instances *)

(** 25.5, and its bytes on a little-endian host. *)
Example float_25_5 : exists s', bitstream_write_float32 (H := LittleEndian) (fixed false (25 * 65536 + 32768)) demo = Done (tt, s') /\
  firstn 4 (bs_data s') = [0; 25; 128; 0].
Proof. eexists. split; [vm_compute; reflexivity|reflexivity]. Qed.

Lemma float_roundtrip_witness : exists s', bitstream_write_float32 (H := LittleEndian) (fixed true (32770 * 65536 + 16384)) demo = Done (tt, s') /\
  extends demo s' /\
  bitstream_read_float32 (H := LittleEndian) (set_offset s' (bs_offset demo)) = Done (fixed true (2 * 65536 + 16384), s').
Proof.
  apply (float_roundtrip (H := LittleEndian) true (32770 * 65536 + 16384) demo); [|vm_compute; reflexivity|apply demo_wf|vm_compute; discriminate].
  split; [split; [discriminate|reflexivity]|]. exists (32770 * 4 + 1), 14. split; [reflexivity|split; [split; [discriminate|reflexivity]|discriminate]].
Defined.

Lemma float_fraction_lost_witness : exists s', bitstream_write_float32 (H := BigEndian) (fixed false 65535) demo = Done (tt, s') /\
  bitstream_read_float32 (H := BigEndian) (set_offset s' (bs_offset demo)) = Done (f_zero, s').
Proof.
  apply (float_fraction_lost (H := BigEndian) false 65535 demo); [split; [discriminate|reflexivity]|vm_compute; discriminate|apply demo_wf|vm_compute; discriminate].
Defined.

Lemma float_out_of_range_witness : bitstream_write_float32 (H := LittleEndian) (f32_of_Z (2 ^ 40)) demo = Fault BadConversion.
Proof. apply (float_out_of_range (H := LittleEndian) (f32_of_Z (2 ^ 40)) demo). right. vm_compute. discriminate. Defined.

(** The unit test expects 3.14 to be read back unchanged; it is read back as
    205783 / 65536. *)
Lemma float_3_14_changed : exists s', bitstream_write_float32 (H := LittleEndian) (f32_lit 314 100) demo = Done (tt, s') /\
  bitstream_read_float32 (H := LittleEndian) (set_offset s' 0) = Done (fixed false 205783, s') /\
  SFeqb (fixed false 205783) (f32_lit 314 100) = false.
Proof. eexists. split; [vm_compute; reflexivity|]. split; vm_compute; reflexivity. Qed.
