(* ===== verification/StreamFlow.v ===== *)
(** * Flow control (src/stream_flow.[ch])

    Two modes of sending, good and bad, chosen by the round trip time, with a
    penalty that doubles and halves. *)
From S2P Require Import Prelude Floats.

Definition kStreamFlowModeBadRate : float := f32_of_Z 5.
Definition kStreamFlowModeGoodRate : float := f32_of_Z 15.
Definition kStreamFlowRttThreshold : float := f32_lit 1 4.

Inductive StreamFlowMode := StreamFlowModeGood | StreamFlowModeBad.

#[export] Instance StreamFlowMode_eq_dec : EqDecision StreamFlowMode.
Proof. solve_decision. Defined.

Record StreamFlow := mkFlow {
  fl_mode : StreamFlowMode;
  fl_updateInterval : float;
  fl_goodConditions : float;
  fl_penalty : float;
  fl_penaltyReductionAccumulator : float;
}.

Definition badInterval : float := f32_div (f32_of_Z 1) kStreamFlowModeBadRate.
Definition goodInterval : float := f32_div (f32_of_Z 1) kStreamFlowModeGoodRate.

Definition streamFlowClear : StreamFlow :=
  mkFlow StreamFlowModeBad badInterval f_zero (f32_of_Z 4) f_zero.

Definition penalty_doubled (penalty : float) : float :=
  let penalty := f32_mul penalty (f32_of_Z 2) in
  if f_gt penalty (f32_of_Z 60) then f32_of_Z 60 else penalty.

Definition penalty_halved (penalty : float) : float :=
  let penalty := f32_div penalty (f32_of_Z 2) in
  if f_lt penalty (f32_of_Z 1) then f32_of_Z 1 else penalty.

(** The first [if]: the good mode. *)
Definition flow_good (rtt deltaTime : float) (ref : StreamFlow) : StreamFlow :=
  if f_gt rtt kStreamFlowRttThreshold then
    mkFlow StreamFlowModeBad badInterval f_zero
      (if f_lt (fl_goodConditions ref) (f32_of_Z 10) && f_lt (fl_penalty ref) (f32_of_Z 60)
       then penalty_doubled (fl_penalty ref) else fl_penalty ref)
      f_zero
  else
    let goodConditions := f32_add (fl_goodConditions ref) deltaTime in
    let accumulator := f32_add (fl_penaltyReductionAccumulator ref) deltaTime in
    if f_gt accumulator (f32_of_Z 10) && f_gt (fl_penalty ref) (f32_of_Z 1) then
      mkFlow (fl_mode ref) (fl_updateInterval ref) goodConditions
        (penalty_halved (fl_penalty ref)) f_zero
    else
      mkFlow (fl_mode ref) (fl_updateInterval ref) goodConditions (fl_penalty ref) accumulator.

(** The second [if]: the bad mode. *)
Definition flow_bad (rtt deltaTime : float) (ref : StreamFlow) : StreamFlow :=
  let goodConditions :=
    if f_le rtt kStreamFlowRttThreshold then f32_add (fl_goodConditions ref) deltaTime
    else f_zero in
  if f_gt goodConditions (fl_penalty ref) then
    mkFlow StreamFlowModeGood goodInterval f_zero (fl_penalty ref) f_zero
  else
    mkFlow (fl_mode ref) (fl_updateInterval ref) goodConditions (fl_penalty ref)
      (fl_penaltyReductionAccumulator ref).

(** The second test sees the mode the first one leaves. *)
Definition streamFlowUpdate (rtt deltaTime : float) (ref : StreamFlow) : StreamFlow :=
  let ref := if decide (fl_mode ref = StreamFlowModeGood) then flow_good rtt deltaTime ref else ref in
  if decide (fl_mode ref = StreamFlowModeBad) then flow_bad rtt deltaTime ref else ref.

Definition flow_run (updates : list (float * float)) (ref : StreamFlow) : StreamFlow :=
  fold_left (fun ref '(rtt, deltaTime) => streamFlowUpdate rtt deltaTime ref) updates ref.

(** ** Properties *)

(** The penalties: 4 doubled up to 60 and halved down to 1. *)
Definition all_penalties : list float :=
  (f32_of_Z <$> [1; 2; 4; 8; 16; 32; 60; 30; 15]) ++
  [f32_lit 15 2; f32_lit 15 4; f32_lit 15 8].

Definition inb (x : float) : bool := bool_decide (x ∈ all_penalties).

Record flow_wf (ref : StreamFlow) : Prop := {
  fw_penalty : fl_penalty ref ∈ all_penalties;
  fw_interval : fl_updateInterval ref =
    match fl_mode ref with StreamFlowModeGood => goodInterval | StreamFlowModeBad => badInterval end;
}.

Lemma penalties_closed :
  forallb (fun p => inb (penalty_doubled p) && inb (penalty_halved p) &&
    negb (f_gt f_zero p) && f_le (f32_of_Z 1) p && f_le p (f32_of_Z 60)) all_penalties = true.
Proof. vm_compute. reflexivity. Qed.

Lemma penalty_facts p : p ∈ all_penalties ->
  penalty_doubled p ∈ all_penalties /\ penalty_halved p ∈ all_penalties /\
  f_gt f_zero p = false /\ f_le (f32_of_Z 1) p = true /\ f_le p (f32_of_Z 60) = true.
Proof.
  intros Hp. pose proof (proj1 (forallb_forall _ _) penalties_closed p) as F. cbv beta in F.
  rewrite !andb_true_iff, negb_true_iff in F. unfold inb in F. rewrite !bool_decide_eq_true in F.
  destruct F as [[[[? ?] ?] ?] ?]; [by apply list_elem_of_In|done].
Qed.

Lemma flow_good_spec rtt dt ref : flow_wf ref -> fl_mode ref = StreamFlowModeGood ->
  flow_wf (flow_good rtt dt ref) /\
  fl_mode (flow_good rtt dt ref) =
    if f_gt rtt kStreamFlowRttThreshold then StreamFlowModeBad else StreamFlowModeGood.
Proof.
  intros [Hp Hi] Hm. rewrite Hm in Hi. destruct (penalty_facts _ Hp) as (Hd & Hh & _).
  unfold flow_good. destruct (f_gt rtt _).
  - split; [split|done]; [|done]. cbn [fl_penalty].
    destruct (f_lt (fl_goodConditions ref) _ && _); done.
  - destruct (f_gt (f32_add _ dt) _ && _); (split; [split|]);
      cbn [fl_penalty fl_mode fl_updateInterval]; rewrite ?Hm; done.
Qed.

Lemma flow_bad_spec rtt dt ref : flow_wf ref -> fl_mode ref = StreamFlowModeBad ->
  flow_wf (flow_bad rtt dt ref) /\
  fl_mode (flow_bad rtt dt ref) =
    if f_le rtt kStreamFlowRttThreshold && f_gt (f32_add (fl_goodConditions ref) dt) (fl_penalty ref)
    then StreamFlowModeGood else StreamFlowModeBad.
Proof.
  intros [Hp Hi] Hm. rewrite Hm in Hi. destruct (penalty_facts _ Hp) as (_ & _ & Hz & _).
  unfold flow_bad. destruct (f_le rtt _); cbn [andb];
    [destruct (f_gt (f32_add (fl_goodConditions ref) dt) (fl_penalty ref))|rewrite Hz];
    (split; [split|]); cbn [fl_penalty fl_mode fl_updateInterval]; rewrite ?Hm; done.
Qed.

Lemma streamFlowUpdate_spec rtt dt ref : flow_wf ref ->
  flow_wf (streamFlowUpdate rtt dt ref) /\
  fl_mode (streamFlowUpdate rtt dt ref) =
    match fl_mode ref with
    | StreamFlowModeGood =>
        if f_gt rtt kStreamFlowRttThreshold then StreamFlowModeBad else StreamFlowModeGood
    | StreamFlowModeBad =>
        if f_le rtt kStreamFlowRttThreshold && f_gt (f32_add (fl_goodConditions ref) dt) (fl_penalty ref)
        then StreamFlowModeGood else StreamFlowModeBad
    end.
Proof.
  intros W. unfold streamFlowUpdate. destruct (fl_mode ref) eqn:Hm.
  - destruct (decide (StreamFlowModeGood = StreamFlowModeGood)) as [_|?]; [|done].
    destruct (flow_good_spec rtt dt ref W Hm) as [W' Hm'].
    destruct (f_gt rtt kStreamFlowRttThreshold) eqn:G; rewrite Hm'.
    + rewrite decide_True by done. destruct (flow_bad_spec rtt dt _ W' Hm') as [W'' Hm''].
      split; [done|]. by rewrite Hm'', (gt_not_le _ _ G).
    + rewrite decide_False by done. split; [done|exact Hm'].
  - destruct (decide (StreamFlowModeBad = StreamFlowModeGood)) as [?|_]; [done|].
    rewrite Hm, decide_True by done. by apply flow_bad_spec.
Qed.

Lemma flow_run_wf updates : flow_wf (flow_run updates streamFlowClear).
Proof.
  assert (P : forall ref, flow_wf ref -> flow_wf (flow_run updates ref)).
  { induction updates as [|[rtt dt] us IH]; intros ref W; [done|]. cbn. apply IH.
    by apply streamFlowUpdate_spec. }
  apply P. split; [|done]. apply (bool_decide_unpack _). by vm_compute.
Qed.

(** whatever round trip times and intervals are measured (infinities and
    not-a-numbers included), the penalty is one of twelve values between 1
    and 60 seconds, and the interval between packets is that of the mode. *)
Theorem flow_penalty_bounded updates :
  let ref := flow_run updates streamFlowClear in
  f_le (f32_of_Z 1) (fl_penalty ref) = true /\ f_le (fl_penalty ref) (f32_of_Z 60) = true /\
  fl_penalty ref ∈ all_penalties /\
  fl_updateInterval ref =
    match fl_mode ref with StreamFlowModeGood => goodInterval | StreamFlowModeBad => badInterval end.
Proof.
  destruct (flow_run_wf updates) as [Hp Hi]. by destruct (penalty_facts _ Hp) as (_ & _ & _ & H1 & H2).
Qed.

(** the flow turns bad exactly when the round trip time exceeds the
    threshold, and good exactly when it does not and the good conditions have
    lasted longer than the penalty. *)
Theorem flow_transitions updates rtt dt :
  let ref := flow_run updates streamFlowClear in
  fl_mode (streamFlowUpdate rtt dt ref) =
    match fl_mode ref with
    | StreamFlowModeGood =>
        if f_gt rtt kStreamFlowRttThreshold then StreamFlowModeBad else StreamFlowModeGood
    | StreamFlowModeBad =>
        if f_le rtt kStreamFlowRttThreshold &&
           f_gt (f32_add (fl_goodConditions ref) dt) (fl_penalty ref)
        then StreamFlowModeGood else StreamFlowModeBad
    end.
Proof. apply streamFlowUpdate_spec, flow_run_wf. Qed.
