(* ===== verification/StreamReliability.v ===== *)
(** * Reliability (src/stream_reliability.[ch])

    The acknowledgements of a stream: a ring buffer of the packets sent, the
    last sequence received with the bits of the 31 before, and the
    statistics.  Times are floats, counters are C integers; an [assert] that
    does not hold is a fault. *)
From S2P Require Import Prelude Floats StreamFlow.

Definition kStreamReliabilityMaxRtt : double := f64_of_Z 1.
Definition kStreamReliabilityMaxSequence : Z := 0xFFFF.

(** [(int)(2.35f * kStreamReliabilityMaxRtt * kStreamFlowMaxRate + 0.5)] *)
Definition kStreamReliabilityBufferCapacity : Z := 35.

Definition capacity_expression : Z :=
  f_trunc (f64_add (f64_mul (f64_mul (f64_of_f32 (f32_lit 235 100)) kStreamReliabilityMaxRtt)
                            (f64_of_f32 kStreamFlowModeGoodRate))
                   (f64_div (f64_of_Z 1) (f64_of_Z 2))).

Lemma capacity_value : capacity_expression = kStreamReliabilityBufferCapacity.
Proof. vm_compute. reflexivity. Qed.

Record StreamPacketMetadata := mkMetadata {
  pm_sequence : Z;
  pm_time : float;
  pm_size : Z;
  pm_acked : bool;
}.

Record StreamReliability := mkReliability {
  packets : list StreamPacketMetadata;
  frontSent : Z;
  frontAcked : Z;
  back : Z;
  sequence : Z;
  ack : Z;
  ackBits : Z;
  totalSentPackets : Z;
  totalReceivedPackets : Z;
  totalAckedPackets : Z;
  totalLostPackets : Z;
  sentBytes : Z;
  sentBytesPerSecond : Z;
  ackedPackets : Z;
  ackedPacketsPerSecond : Z;
  ackedBytes : Z;
  ackedBytesPerSecond : Z;
  sentBandwidth : float;
  ackedBandwidth : float;
  rtt : float;
}.

(** ** Setters *)

Definition set_ring (ps : list StreamPacketMetadata) (fs fa b : Z) (r : StreamReliability) :=
  mkReliability ps fs fa b (sequence r) (ack r) (ackBits r) (totalSentPackets r)
    (totalReceivedPackets r) (totalAckedPackets r) (totalLostPackets r) (sentBytes r)
    (sentBytesPerSecond r) (ackedPackets r) (ackedPacketsPerSecond r) (ackedBytes r)
    (ackedBytesPerSecond r) (sentBandwidth r) (ackedBandwidth r) (rtt r).
Definition set_sent (q total bytes : Z) (r : StreamReliability) :=
  mkReliability (packets r) (frontSent r) (frontAcked r) (back r) q (ack r) (ackBits r) total
    (totalReceivedPackets r) (totalAckedPackets r) (totalLostPackets r) bytes
    (sentBytesPerSecond r) (ackedPackets r) (ackedPacketsPerSecond r) (ackedBytes r)
    (ackedBytesPerSecond r) (sentBandwidth r) (ackedBandwidth r) (rtt r).
Definition set_ack (a bits : Z) (r : StreamReliability) :=
  mkReliability (packets r) (frontSent r) (frontAcked r) (back r) (sequence r) a bits
    (totalSentPackets r) (totalReceivedPackets r) (totalAckedPackets r) (totalLostPackets r)
    (sentBytes r) (sentBytesPerSecond r) (ackedPackets r) (ackedPacketsPerSecond r)
    (ackedBytes r) (ackedBytesPerSecond r) (sentBandwidth r) (ackedBandwidth r) (rtt r).
Definition set_totals (received acked lost : Z) (r : StreamReliability) :=
  mkReliability (packets r) (frontSent r) (frontAcked r) (back r) (sequence r) (ack r)
    (ackBits r) (totalSentPackets r) received acked lost
    (sentBytes r) (sentBytesPerSecond r) (ackedPackets r) (ackedPacketsPerSecond r)
    (ackedBytes r) (ackedBytesPerSecond r) (sentBandwidth r) (ackedBandwidth r) (rtt r).
Definition set_rtt (x : float) (r : StreamReliability) :=
  mkReliability (packets r) (frontSent r) (frontAcked r) (back r) (sequence r) (ack r)
    (ackBits r) (totalSentPackets r) (totalReceivedPackets r) (totalAckedPackets r)
    (totalLostPackets r) (sentBytes r) (sentBytesPerSecond r) (ackedPackets r)
    (ackedPacketsPerSecond r) (ackedBytes r) (ackedBytesPerSecond r) (sentBandwidth r)
    (ackedBandwidth r) x.
Definition set_sentBytes (x : Z) (r : StreamReliability) :=
  set_sent (sequence r) (totalSentPackets r) x r.
Definition set_stats (sbs ap aps ab abs : Z) (sbw abw : float) (r : StreamReliability) :=
  mkReliability (packets r) (frontSent r) (frontAcked r) (back r) (sequence r) (ack r)
    (ackBits r) (totalSentPackets r) (totalReceivedPackets r) (totalAckedPackets r)
    (totalLostPackets r) (sentBytes r) sbs ap aps ab abs sbw abw (rtt r).

(** ** Operations *)

Definition increase (value max : Z) : Z := u32 (value + 1) mod max.

(** [value] is an [int], [count] and [max] are unsigned: the comparison and
    the arithmetic are unsigned, the result is stored in an [int]. *)
Definition decrease (value count max : Z) : Z :=
  if u32 count <=? u32 value then s32 (u32 (value - count)) else s32 (u32 (value + max - count)).

Definition isSequenceMoreRecent (sequence otherSequence maxSequence : Z) : bool :=
  ((otherSequence <? sequence) && (sequence - otherSequence <=? maxSequence / 2)) ||
  ((sequence <? otherSequence) && (maxSequence / 2 <? otherSequence - sequence)).

(** [packets] is not cleared: [ps] is what the memory held. *)
Definition streamReliabilityClear (ps : list StreamPacketMetadata) : StreamReliability :=
  mkReliability ps 0 0 0 0 0 0 0 0 0 0 0 0 0 0 0 0 f_zero f_zero f_zero.

Definition c_assert {S} (b : bool) : prog S unit :=
  if b then ret tt else fail AssertionFailed.

(** [if(pivotBack != pivotAcked) assert(pivotBack != pivotAcked);] holds. *)
Definition streamReliabilityPacketSent (size : Z) : prog StreamReliability unit :=
  ref <- get ;;
  (if negb (back ref =? frontAcked ref) then c_assert (negb (back ref =? frontAcked ref))
   else ret tt) ;;
  let metadata := mkMetadata (sequence ref) f_zero size false in
  ps <- lift (store (packets ref) (back ref) metadata) ;;
  modify (set_ring ps (frontSent ref) (frontAcked ref)
            (increase (back ref) kStreamReliabilityBufferCapacity)) ;;
  modify (set_sent (increase (sequence ref) kStreamReliabilityMaxSequence)
            (u32 (totalSentPackets ref + 1)) (u32 (sentBytes ref + size))) ;;
  ref <- get ;;
  (if back ref =? frontAcked ref then
     modify (set_ring (packets ref) (frontSent ref)
               (increase (frontAcked ref) kStreamReliabilityBufferCapacity) (back ref))
   else ret tt) ;;
  ref <- get ;;
  (if back ref =? frontSent ref then
     modify (set_ring (packets ref) (increase (frontSent ref) kStreamReliabilityBufferCapacity)
               (frontAcked ref) (back ref))
   else ret tt) ;;
  ref <- get ;;
  c_assert (negb (frontSent ref =? back ref)) ;;
  c_assert (negb (frontAcked ref =? back ref)).

Definition streamReliabilityProcessSequence (s : Z) : prog StreamReliability unit :=
  modify (fun ref =>
    if isSequenceMoreRecent s (ack ref) kStreamReliabilityMaxSequence then
      let shifts := if ack ref <? s then u32 (s - ack ref)
                    else u32 (s - ack ref + kStreamReliabilityMaxSequence + 1) in
      let bits := if shifts <? 32 then Z.lor (u32 (Z.shiftl (ackBits ref) shifts)) 1 else 0 in
      set_ack s (Z.land bits 0xFFFFFFFF) ref
    else
      let shifts := if s <=? ack ref then u32 (ack ref - s)
                    else u32 (ack ref - s + kStreamReliabilityMaxSequence + 1) in
      let bits := if shifts <? 32 then Z.lor (ackBits ref) (u32 (Z.shiftl 1 shifts))
                  else ackBits ref in
      set_ack (ack ref) (Z.land bits 0xFFFFFFFF) ref).

(** [ref->rtt += (time - ref->rtt) * 0.1f] *)
Definition filter_rtt (old time : float) : float :=
  f32_add old (f32_mul (f32_sub time old) (f32_lit 1 10)).

(** [for(int p=0; p<31; ++p)], with [n] iterations left. *)
Fixpoint process_ack_bits (n : nat) (pivot bits : Z) : prog StreamReliability unit :=
  match n with
  | O => ret tt
  | S n' =>
      ref <- get ;;
      packet <- lift (load (packets ref) pivot) ;;
      (if negb (pm_acked packet) && negb (Z.land bits 1 =? 0) then
         ps <- lift (store (packets ref) pivot
                 (mkMetadata (pm_sequence packet) (pm_time packet) (pm_size packet) true)) ;;
         modify (fun ref => set_rtt (filter_rtt (rtt ref) (pm_time packet))
                   (set_totals (totalReceivedPackets ref) (u32 (totalAckedPackets ref + 1))
                     (totalLostPackets ref)
                     (set_ring ps (frontSent ref) (frontAcked ref) (back ref) ref)))
       else ret tt) ;;
      process_ack_bits n' (decrease pivot 1 kStreamReliabilityBufferCapacity) (Z.shiftr bits 1)
  end.

Definition streamReliabilityProcessAck (a bits : Z) : prog StreamReliability unit :=
  ref <- get ;;
  if frontSent ref =? back ref then ret tt
  else
  let pivot := s32 (back ref) in
  let count := if a <? sequence ref then s32 (u32 (sequence ref - a))
               else s32 (u32 (sequence ref - a + kStreamReliabilityMaxSequence + 1)) in
  if count <? kStreamReliabilityBufferCapacity then
    let pivot := decrease pivot count kStreamReliabilityBufferCapacity in
    c_assert ((0 <=? pivot) && (pivot <? kStreamReliabilityBufferCapacity)) ;;
    process_ack_bits 31 pivot bits
  else ret tt.

Definition streamReliabilityPacketReceived (s a bits : Z) : prog StreamReliability unit :=
  streamReliabilityProcessSequence s ;;
  streamReliabilityProcessAck a bits ;;
  modify (fun ref => set_totals (u32 (totalReceivedPackets ref + 1)) (totalAckedPackets ref)
                       (totalLostPackets ref) ref).

(** *** The periodic update *)

Definition epsilon : float := f32_lit 1 10000.

Definition sent_limit : double := f64_add kStreamReliabilityMaxRtt (f64_of_f32 epsilon).
Definition acked_limit : double :=
  f64_sub (f64_mul kStreamReliabilityMaxRtt (f64_of_Z 2)) (f64_of_f32 epsilon).

Definition add_time (deltaTime : float) (p : StreamPacketMetadata) : StreamPacketMetadata :=
  mkMetadata (pm_sequence p) (f32_add (pm_time p) deltaTime) (pm_size p) (pm_acked p).

(** The first [while]; [n] bounds the iterations. *)
Fixpoint advance_sent (n : nat) : prog StreamReliability unit :=
  ref <- get ;;
  if frontSent ref =? back ref then ret tt
  else
  packet <- lift (load (packets ref) (frontSent ref)) ;;
  if f_gt (f64_of_f32 (pm_time packet)) sent_limit then
    match n with
    | O => fail OutOfFuel
    | S n' =>
        modify (fun ref => set_sentBytes (u32 (sentBytes ref - pm_size packet)) ref) ;;
        (if negb (pm_acked packet) then
           modify (fun ref => set_totals (totalReceivedPackets ref) (totalAckedPackets ref)
                                (u32 (totalLostPackets ref + 1)) ref)
         else ret tt) ;;
        modify (fun ref => set_ring (packets ref)
                  (increase (frontSent ref) kStreamReliabilityBufferCapacity)
                  (frontAcked ref) (back ref) ref) ;;
        advance_sent n'
    end
  else ret tt.

(** The second one. *)
Fixpoint advance_acked (n : nat) : prog StreamReliability unit :=
  ref <- get ;;
  if frontAcked ref =? back ref then ret tt
  else
  packet <- lift (load (packets ref) (frontAcked ref)) ;;
  if f_gt (f64_of_f32 (pm_time packet)) acked_limit then
    match n with
    | O => fail OutOfFuel
    | S n' =>
        modify (fun ref => set_ring (packets ref) (frontSent ref)
                  (increase (frontAcked ref) kStreamReliabilityBufferCapacity) (back ref) ref) ;;
        advance_acked n'
    end
  else ret tt.

(** [while(pivot != ref->back)]: the acked packets and bytes from [pivot]. *)
Fixpoint count_acked (n : nat) (ref : StreamReliability) (pivot ap ab : Z) : outcome (Z * Z) :=
  if pivot =? back ref then Done (ap, ab)
  else match n with
  | O => Fault OutOfFuel
  | S n' =>
      packet <-! load (packets ref) pivot ;;
      let counted := pm_acked packet && f_ge (f64_of_f32 (pm_time packet)) kStreamReliabilityMaxRtt in
      count_acked n' ref (increase pivot kStreamReliabilityBufferCapacity)
        (if counted then u32 (ap + 1) else ap)
        (if counted then u32 (ab + pm_size packet) else ab)
  end.

(** An [unsigned int] divided by the maximal round trip time, as one. *)
Definition per_second (x : Z) : Z := f_trunc (f64_div (f64_of_Z x) kStreamReliabilityMaxRtt).
Definition bandwidth (x : Z) : float := f32_mul (f32_of_Z x) (f32_lit 8 1000).

Definition streamReliabilityUpdate (deltaTime : float) : prog StreamReliability unit :=
  ref <- get ;;
  if frontSent ref =? back ref then ret tt
  else
  modify (fun ref => set_ring (add_time deltaTime <$> packets ref) (frontSent ref)
                       (frontAcked ref) (back ref) ref) ;;
  advance_sent (Z.to_nat kStreamReliabilityBufferCapacity) ;;
  advance_acked (Z.to_nat kStreamReliabilityBufferCapacity) ;;
  ref <- get ;;
  let* '(ap, ab) := lift (count_acked (Z.to_nat kStreamReliabilityBufferCapacity) ref
                            (frontAcked ref) 0 0) in
  modify (fun ref =>
    set_stats (per_second (sentBytes ref)) ap (per_second ap) ab (per_second ab)
      (bandwidth (per_second (sentBytes ref))) (bandwidth (per_second ab)) ref).
