(* ===== verification/StreamReliabilitySpec.v ===== *)
(** * What the reliability layer promises

    No assertion of the ring buffer fails while the acknowledgements are at
    most the sequence sent last, which [streamReceive] checks; what the ack
    bits mean on the receiving and on the sending side; and where the source
    departs from it. *)
From S2P Require Import Prelude Floats StreamFlow StreamReliability.

#[local] Abbreviation cap := kStreamReliabilityBufferCapacity.

(** ** Ring arithmetic *)

Lemma increase_mod v m : 0 <= v < m -> m < 2 ^ 31 -> increase v m = (v + 1) mod m.
Proof. intros Hv Hm. unfold increase. by rewrite u32_small by lia. Qed.

Lemma decrease_mod v c : 0 <= v < cap -> 0 <= c < cap -> decrease v c cap = (v - c) mod cap.
Proof.
  unfold cap. intros Hv Hc. unfold decrease. rewrite !u32_small by lia.
  destruct (Z.leb_spec c v); rewrite u32_small, s32_small by lia.
  - by rewrite Z.mod_small by lia.
  - rewrite <- (Z.mod_add _ 1) by lia. rewrite Z.mod_small; lia.
Qed.

Lemma bit0 b : negb (Z.land b 1 =? 0) = Z.testbit b 0.
Proof.
  change 1 with (Z.ones 1). rewrite Z.land_ones by lia. rewrite Z.bit0_odd.
  change (2 ^ 1) with 2. rewrite Zmod_odd. by destruct (Z.odd b).
Qed.

(** ** The invariant *)

Record ring_wf (r : StreamReliability) : Prop := {
  rw_length : zlen (packets r) = cap;
  rw_sent : 0 <= frontSent r < cap;
  rw_acked : 0 <= frontAcked r < cap;
  rw_back : 0 <= back r < cap;
  rw_sequence : 0 <= sequence r < kStreamReliabilityMaxSequence;
}.

(** What processing an ack may change. *)
Record same_ring (r r' : StreamReliability) : Prop := {
  sr_sent : frontSent r' = frontSent r;
  sr_acked : frontAcked r' = frontAcked r;
  sr_back : back r' = back r;
  sr_sequence : sequence r' = sequence r;
  sr_length : zlen (packets r') = zlen (packets r);
  sr_ack : ack r' = ack r;
  sr_bits : ackBits r' = ackBits r;
}.

Lemma same_ring_trans r1 r2 r3 : same_ring r1 r2 -> same_ring r2 r3 -> same_ring r1 r3.
Proof. intros [] []. split; congruence. Qed.

Lemma same_ring_wf r r' : same_ring r r' -> ring_wf r -> ring_wf r'.
Proof. intros [] []. split; congruence || lia. Qed.

(** The packet of a slot. *)
Definition slot (r : StreamReliability) (j : Z) : option StreamPacketMetadata :=
  packets r !! Z.to_nat j.

(** Which slots are marked, from [pivot] back. *)
Definition marked (n : Z) (pivot bits j : Z) : bool :=
  let p := (pivot - j) mod cap in (p <? n) && Z.testbit bits p.

Definition marks (n pivot bits : Z) (r r' : StreamReliability) : Prop :=
  forall j, 0 <= j < cap -> exists q q', slot r j = Some q /\ slot r' j = Some q' /\
    pm_sequence q' = pm_sequence q /\ pm_acked q' = pm_acked q || marked n pivot bits j.

Lemma slot_some r j : zlen (packets r) = cap -> 0 <= j < cap -> exists q, slot r j = Some q.
Proof.
  intros Hl Hj. destruct (load_in (packets r) j ltac:(lia)) as (q & Hq & _). by exists q.
Qed.

Lemma slot_load r j q : 0 <= j -> slot r j = Some q -> load (packets r) j = Done q.
Proof. intros Hj Hq. by apply load_done. Qed.

(** Marking one slot. *)
Lemma mark_step r pivot bits q : zlen (packets r) = cap -> 0 <= pivot < cap -> slot r pivot = Some q ->
  exists r', ((if negb (pm_acked q) && negb (Z.land bits 1 =? 0) then
         ps <- lift (store (packets r) pivot
                 (mkMetadata (pm_sequence q) (pm_time q) (pm_size q) true)) ;;
         modify (fun ref => set_rtt (filter_rtt (rtt ref) (pm_time q))
                   (set_totals (totalReceivedPackets ref) (u32 (totalAckedPackets ref + 1))
                     (totalLostPackets ref)
                     (set_ring ps (frontSent ref) (frontAcked ref) (back ref) ref)))
       else ret tt) r) = Done (tt, r') /\ same_ring r r' /\
    forall j, 0 <= j < cap -> exists q0 q', slot r j = Some q0 /\ slot r' j = Some q' /\
      pm_sequence q' = pm_sequence q0 /\
      pm_acked q' = pm_acked q0 || (bool_decide (j = pivot) && Z.testbit bits 0).
Proof.
  intros Hl Hp Hq. rewrite bit0.
  destruct (negb (pm_acked q) && Z.testbit bits 0) eqn:E.
  - apply andb_true_iff in E as [Ea Eb]. rewrite store_done by lia.
    eexists. split; [reflexivity|]. split; [by split; cbn; rewrite ?zlen_insert|].
    intros j Hj. destruct (slot_some r j Hl Hj) as [q0 Hq0]. exists q0.
    unfold slot. cbn [packets set_rtt set_totals set_ring]. rewrite list_lookup_insert. destruct (decide (pivot = j)) as [->|Hne].
    + rewrite decide_True by (unfold zlen in Hl; lia). eexists. split; [done|]. split; [reflexivity|].
      rewrite Hq in Hq0. injection Hq0 as <-. rewrite bool_decide_true by done. split; [done|].
      rewrite Eb. cbn [pm_acked andb]. by rewrite orb_true_r.
    + rewrite decide_False by lia. exists q0. split; [done|]. split; [exact Hq0|].
      rewrite bool_decide_false by congruence. by rewrite orb_false_r.
  - exists r. split; [done|]. split; [by split|]. intros j Hj.
    destruct (slot_some r j Hl Hj) as [q0 Hq0]. exists q0, q0. split; [done|]. split; [done|].
    split; [done|]. destruct (bool_decide (j = pivot)) eqn:B; [|by rewrite orb_false_r].
    apply bool_decide_eq_true in B as ->. rewrite Hq in Hq0. injection Hq0 as <-.
    apply andb_false_iff in E as [E|E].
    + apply negb_false_iff in E. by rewrite E.
    + rewrite E. by rewrite orb_false_r.
Qed.

Lemma process_ack_bits_spec n pivot bits r :
  zlen (packets r) = cap -> 0 <= pivot < cap -> (n < 35)%nat ->
  exists r', process_ack_bits n pivot bits r = Done (tt, r') /\ same_ring r r' /\
    marks (Z.of_nat n) pivot bits r r'.
Proof.
  revert pivot bits r. induction n as [|n IH]; intros pivot bits r Hl Hp Hn.
  { exists r. split; [done|]. split; [by split|]. intros j Hj.
    destruct (slot_some r j Hl Hj) as [q Hq]. exists q, q. repeat split; try done.
    unfold marked. rewrite (proj2 (Z.ltb_ge _ _)) by lia. by rewrite orb_false_r. }
  destruct (slot_some r pivot Hl Hp) as [q Hq].
  cbn [process_ack_bits]. rewrite bind_get. unfold bind at 1, lift.
  rewrite (slot_load r pivot q ltac:(lia) Hq).
  destruct (mark_step r pivot bits q Hl Hp Hq) as (r1 & E1 & S1 & M1).
  rewrite (bind_done _ _ _ _ _ E1). rewrite decrease_mod by (unfold cap in *; lia).
  destruct (IH ((pivot - 1) mod cap) (Z.shiftr bits 1) r1) as (r2 & E2 & S2 & M2).
  - by rewrite (sr_length _ _ S1).
  - apply Z.mod_pos_bound. done.
  - lia.
  - exists r2. split; [done|]. split; [by apply (same_ring_trans r r1)|].
    intros j Hj. destruct (M1 j Hj) as (q0 & q1 & H0 & H1 & Hs1 & Ha1).
    destruct (M2 j Hj) as (q1' & q2 & H1' & H2 & Hs2 & Ha2). rewrite H1 in H1'. injection H1' as <-.
    exists q0, q2. split; [done|]. split; [done|]. split; [congruence|].
    rewrite Ha2, Ha1, <- orb_assoc. f_equal. unfold marked.
    unfold cap in *. destruct (decide (j = pivot)) as [->|Hne].
    + rewrite bool_decide_true by done. rewrite Z.sub_diag.
      change (0 mod 35) with 0. rewrite (proj2 (Z.ltb_lt 0 _)) by lia. cbn [andb].
      replace (((pivot - 1) mod 35 - pivot) mod 35) with 34.
      * rewrite (proj2 (Z.ltb_ge 34 _)) by lia. by rewrite orb_false_r.
      * rewrite Zminus_mod_idemp_l. replace (pivot - 1 - pivot) with (-1) by lia. done.
    + rewrite bool_decide_false by done. cbn [andb orb]. rewrite Zminus_mod_idemp_l.
      set (p := (pivot - j) mod 35).
      assert (Hp0 : 1 <= p < 35).
      { pose proof (Z.mod_pos_bound (pivot - j) 35 ltac:(lia)). fold p in H.
        destruct (decide (p = 0)) as [Hz|]; [|lia]. unfold p in Hz.
        apply Z.mod_divide in Hz as [k Hk]; [lia|lia]. }
      replace ((pivot - 1 - j) mod 35) with (p - 1).
      * rewrite Z.shiftr_spec by lia. replace (p - 1 + 1) with p by lia. f_equal.
        destruct (Z.ltb_spec (p - 1) (Z.of_nat n)), (Z.ltb_spec p (Z.of_nat (S n))); lia || done.
      * replace (pivot - 1 - j) with (pivot - j - 1) by lia. unfold p.
        rewrite <- (Zminus_mod_idemp_l (pivot - j)). fold p. rewrite Z.mod_small; lia.
Qed.

(** ** Each operation keeps the invariant *)

Lemma increase_range v : 0 <= v < cap -> 0 <= increase v cap < cap.
Proof. unfold cap. intros Hv. rewrite increase_mod by lia. lia. Qed.

Lemma increase_ne v : 0 <= v < cap -> increase v cap <> v.
Proof. unfold cap. intros Hv. rewrite increase_mod by lia. lia. Qed.

(** The ring after a packet of [size] bytes is sent. *)
Record sent_ring (size : Z) (r r' : StreamReliability) : Prop := {
  st_packets : packets r' = <[Z.to_nat (back r) := mkMetadata (sequence r) f_zero size false]> (packets r);
  st_back : back r' = (back r + 1) mod cap;
  st_sequence : sequence r' = (sequence r + 1) mod kStreamReliabilityMaxSequence;
  st_total : totalSentPackets r' = u32 (totalSentPackets r + 1);
  st_ack : ack r' = ack r;
  st_bits : ackBits r' = ackBits r;
}.

Lemma packet_sent_spec size r : ring_wf r ->
  exists r', streamReliabilityPacketSent size r = Done (tt, r') /\ ring_wf r' /\
    sent_ring size r r' /\ frontSent r' <> back r' /\ frontAcked r' <> back r'.
Proof.
  intros [Hl Hs Ha Hb Hq]. unfold streamReliabilityPacketSent. rewrite bind_get.
  assert (E : forall k : unit -> prog StreamReliability unit,
    bind (if negb (back r =? frontAcked r) then c_assert (negb (back r =? frontAcked r))
          else ret tt) k r = k tt r) by (intros k; by destruct (back r =? frontAcked r)).
  rewrite E. clear E. unfold bind at 1, lift. rewrite store_done by lia.
  rewrite !bind_modify, bind_get. cbn [set_sent set_ring back frontAcked frontSent packets sequence totalSentPackets sentBytes].
  pose proof (increase_range _ Hb). pose proof (increase_ne _ (increase_range _ Hb)).
  pose proof (increase_range _ Ha). pose proof (increase_range _ Hs).
  assert (Q : increase (sequence r) kStreamReliabilityMaxSequence =
              (sequence r + 1) mod kStreamReliabilityMaxSequence)
    by (apply increase_mod; unfold kStreamReliabilityMaxSequence in *; lia).
  assert (B : increase (back r) cap = (back r + 1) mod cap) by (apply increase_mod; [done|reflexivity]).
  pose proof (Z.mod_pos_bound (sequence r + 1) kStreamReliabilityMaxSequence ltac:(reflexivity)).
  destruct (Z.eqb_spec (increase (back r) cap) (frontAcked r)) as [Ea|Ea];
    destruct (Z.eqb_spec (increase (back r) cap) (frontSent r)) as [Es|Es];
    rewrite ?bind_modify, ?bind_ret_l, bind_get;
    cbn [set_sent set_ring back frontAcked frontSent packets sequence totalSentPackets sentBytes];
    (rewrite (proj2 (Z.eqb_eq _ _)) by congruence) || (rewrite (proj2 (Z.eqb_neq _ _)) by congruence);
    rewrite ?bind_modify, ?bind_ret_l, bind_get;
    cbn [set_sent set_ring back frontAcked frontSent packets sequence totalSentPackets sentBytes];
    unfold c_assert, bind;
    (do 2 (rewrite (proj2 (Z.eqb_neq _ _)) by congruence)); cbn [negb ret];
    (eexists; split; [reflexivity|]); (split; [split|split; [split|split]]);
    cbn [set_sent set_ring back frontAcked frontSent packets sequence totalSentPackets ack ackBits];
    rewrite ?zlen_insert, ?Q; congruence || lia || done.
Qed.

Lemma process_sequence_same s r :
  exists a bits, streamReliabilityProcessSequence s r = Done (tt, set_ack a bits r).
Proof.
  unfold streamReliabilityProcessSequence, modify. cbv zeta. destruct (isSequenceMoreRecent _ _ _); eauto.
Qed.

(** The code's [count]: how far [a] is behind the packet to send next. *)
Definition behind (r : StreamReliability) (a : Z) : Z :=
  if a <? sequence r then sequence r - a else sequence r - a + kStreamReliabilityMaxSequence + 1.

Lemma process_ack_spec a bits r : ring_wf r -> 0 <= a < 2 ^ 16 ->
  exists r', streamReliabilityProcessAck a bits r = Done (tt, r') /\ same_ring r r' /\
    if (frontSent r =? back r) || (cap <=? behind r a) then r' = r
    else marks 31 ((back r - behind r a) mod cap) bits r r'.
Proof.
  intros [Hl Hs Ha Hb Hq] Hack. unfold streamReliabilityProcessAck.
  rewrite bind_get. destruct (Z.eqb_spec (frontSent r) (back r)) as [E|E]; [exists r; by repeat split|].
  cbn [orb]. cbv zeta.
  assert (C : (if a <? sequence r then s32 (u32 (sequence r - a))
     else s32 (u32 (sequence r - a + kStreamReliabilityMaxSequence + 1))) = behind r a /\ 1 <= behind r a).
  { unfold behind, kStreamReliabilityMaxSequence in *.
    destruct (Z.ltb_spec a (sequence r)); rewrite u32_small, s32_small by lia; lia. }
  destruct C as [C C1]. rewrite C. clear C.
  destruct (Z.ltb_spec (behind r a) cap) as [L|L];
    [|exists r; rewrite (proj2 (Z.leb_le _ _)) by lia; by repeat split].
  rewrite (proj2 (Z.leb_gt cap (behind r a))) by lia. rewrite s32_small by (unfold cap in *; lia).
  rewrite decrease_mod by lia. pose proof (Z.mod_pos_bound (back r - behind r a) cap ltac:(done)).
  rewrite (proj2 (Z.leb_le _ _)), (proj2 (Z.ltb_lt _ _)) by lia. cbn [andb c_assert].
  rewrite bind_ret_l. by apply process_ack_bits_spec; [| |lia].
Qed.

Lemma packet_received_spec s a bits r : ring_wf r -> 0 <= a < 2 ^ 16 ->
  exists r', streamReliabilityPacketReceived s a bits r = Done (tt, r') /\ ring_wf r' /\
    sequence r' = sequence r /\ back r' = back r /\
    if (frontSent r =? back r) || (cap <=? behind r a) then packets r' = packets r
    else marks 31 ((back r - behind r a) mod cap) bits r r'.
Proof.
  intros Hw Ha. unfold streamReliabilityPacketReceived.
  destruct (process_sequence_same s r) as (x & y & E). rewrite (bind_done _ _ _ _ _ E).
  assert (Hw' : ring_wf (set_ack x y r)) by (destruct Hw; by split).
  destruct (process_ack_spec a bits (set_ack x y r) Hw' Ha) as (r' & E' & S & M).
  rewrite (bind_done _ _ _ _ _ E'). eexists. split; [reflexivity|].
  pose proof (same_ring_wf _ _ S Hw') as []. split; [by split|].
  split; [exact (sr_sequence _ _ S)|]. split; [exact (sr_back _ _ S)|].
  change (behind (set_ack x y r) a) with (behind r a) in M. cbn [frontSent back set_ack] in M.
  destruct ((frontSent r =? back r) || (cap <=? behind r a)); [by rewrite M|exact M].
Qed.

(** The acknowledgement sent back after a packet. *)
Lemma process_sequence_ack s r : 0 <= s < 2 ^ 32 -> 0 <= ack r < 2 ^ 32 ->
  exists y, streamReliabilityProcessSequence s r =
      Done (tt, set_ack (if isSequenceMoreRecent s (ack r) kStreamReliabilityMaxSequence then s else ack r) y r) /\
    0 <= y < 2 ^ 32.
Proof.
  intros Hs Ha. unfold streamReliabilityProcessSequence, modify. cbv zeta.
  assert (B : forall x, 0 <= Z.land x 0xFFFFFFFF < 2 ^ 32).
  { intros x. change 0xFFFFFFFF with (Z.ones 32). rewrite Z.land_ones by lia. apply Z.mod_pos_bound. lia. }
  destruct (isSequenceMoreRecent _ _ _); eexists; (split; [reflexivity|apply B]).
Qed.

Lemma packet_received_ack s a bits r : ring_wf r -> 0 <= a < 2 ^ 16 ->
  0 <= s < 2 ^ 32 -> 0 <= ack r < 2 ^ 32 ->
  exists r', streamReliabilityPacketReceived s a bits r = Done (tt, r') /\ ring_wf r' /\
    sequence r' = sequence r /\ 0 <= ackBits r' < 2 ^ 32 /\
    ack r' = if isSequenceMoreRecent s (ack r) kStreamReliabilityMaxSequence then s else ack r.
Proof.
  intros Hw Ha Hs Hk. unfold streamReliabilityPacketReceived.
  destruct (process_sequence_ack s r Hs Hk) as (y & E & Hy). rewrite (bind_done _ _ _ _ _ E).
  set (x := if isSequenceMoreRecent _ _ _ then s else ack r) in *.
  assert (Hw' : ring_wf (set_ack x y r)) by (destruct Hw; by split).
  destruct (process_ack_spec a bits (set_ack x y r) Hw' Ha) as (r' & E' & S & _).
  rewrite (bind_done _ _ _ _ _ E'). eexists. split; [reflexivity|].
  pose proof (same_ring_wf _ _ S Hw') as []. split; [by split|].
  split; [exact (sr_sequence _ _ S)|]. change (ackBits _) with (ackBits r'). rewrite (sr_bits _ _ S).
  split; [done|exact (sr_ack _ _ S)].
Qed.

(** *** The periodic update ends and stays in the ring *)

(** How many steps [increase] takes from [a] to [b]. *)
Definition dist (a b : Z) : Z := (b - a) mod cap.

Lemma dist_range a b : 0 <= dist a b < cap.
Proof. apply Z.mod_pos_bound. done. Qed.

Lemma dist_increase a b : 0 <= a < cap -> 0 <= b < cap -> a <> b ->
  dist (increase a cap) b = dist a b - 1.
Proof. unfold dist, cap. intros Ha Hb Hn. rewrite increase_mod by lia. lia. Qed.

(** A packet's record but for its age. *)
Definition identity (q : StreamPacketMetadata) : Z * Z * bool :=
  (pm_sequence q, pm_size q, pm_acked q).

Lemma identity_add_time dt (ps : list StreamPacketMetadata) : identity <$> (add_time dt <$> ps) = identity <$> ps.
Proof. rewrite <- list_fmap_compose. by apply list_fmap_ext. Qed.

(** What the update leaves alone. *)
Record update_ring (r r' : StreamReliability) : Prop := {
  up_packets : identity <$> packets r' = identity <$> packets r;
  up_back : back r' = back r;
  up_sequence : sequence r' = sequence r;
  up_ack : ack r' = ack r;
  up_bits : ackBits r' = ackBits r;
  up_rtt : rtt r' = rtt r;
}.

Lemma update_ring_trans r1 r2 r3 : update_ring r1 r2 -> update_ring r2 r3 -> update_ring r1 r3.
Proof. intros [] []. split; congruence. Qed.

Lemma update_ring_refl r : update_ring r r.
Proof. by split. Qed.
#[local] Hint Resolve update_ring_refl : core.

Lemma load_slot r j : ring_wf r -> 0 <= j < cap ->
  exists q, slot r j = Some q /\ load (packets r) j = Done q.
Proof. intros Hw Hj. apply load_in. rewrite (rw_length _ Hw). exact Hj. Qed.

Lemma advance_sent_spec n r : ring_wf r -> dist (frontSent r) (back r) <= Z.of_nat n ->
  exists r', advance_sent n r = Done (tt, r') /\ ring_wf r' /\ update_ring r r'.
Proof.
  revert r. induction n as [|n IH]; intros r Hw Hd; cbn [advance_sent]; rewrite bind_get;
    destruct (Z.eqb_spec (frontSent r) (back r)) as [E|E]; try (by exists r).
  { exfalso. pose proof (rw_sent _ Hw). pose proof (rw_back _ Hw). unfold dist, cap in *. lia. }
  destruct (load_slot r _ Hw (rw_sent _ Hw)) as (q & _ & Hq).
  unfold bind at 1, lift. rewrite Hq.
  destruct (f_gt (f64_of_f32 (pm_time q)) sent_limit); [|by exists r].
  rewrite bind_modify. set (r0 := set_sentBytes _ r).
  assert (W0 : ring_wf r0) by (destruct Hw; by split).
  set (m := if negb (pm_acked q) then _ else _).
  assert (M : exists r1, m r0 = Done (tt, r1) /\ ring_wf r1 /\ update_ring r0 r1 /\ frontSent r1 = frontSent r).
  { subst m. destruct (negb (pm_acked q)); eexists; (split; [reflexivity|]);
      (split; [destruct W0; by split|]); split; by try split. }
  destruct M as (r1 & E1 & W1 & U1 & F1). rewrite (bind_done _ _ _ _ _ E1), bind_modify.
  set (r2 := set_ring _ _ _ _ r1). pose proof W1 as [].
  assert (W2 : ring_wf r2) by (split; try done; apply increase_range; done).
  destruct (IH r2 W2) as (r3 & E3 & W3 & U3).
  { change (back r2) with (back r1). change (frontSent r2) with (increase (frontSent r1) cap).
    rewrite F1, (up_back _ _ U1), dist_increase by (apply Hw || exact E).
    change (back r0) with (back r). lia. }
  exists r3. split; [exact E3|]. split; [done|].
  apply (update_ring_trans r r1); [|apply (update_ring_trans r1 r2); [by split|done]].
  apply (update_ring_trans r r0); [by split|done].
Qed.

Lemma advance_acked_spec n r : ring_wf r -> dist (frontAcked r) (back r) <= Z.of_nat n ->
  exists r', advance_acked n r = Done (tt, r') /\ ring_wf r' /\ update_ring r r'.
Proof.
  revert r. induction n as [|n IH]; intros r Hw Hd; cbn [advance_acked]; rewrite bind_get;
    destruct (Z.eqb_spec (frontAcked r) (back r)) as [E|E]; try (by exists r).
  { exfalso. pose proof (rw_acked _ Hw). pose proof (rw_back _ Hw). unfold dist, cap in *. lia. }
  destruct (load_slot r _ Hw (rw_acked _ Hw)) as (q & _ & Hq).
  unfold bind at 1, lift. rewrite Hq.
  destruct (f_gt (f64_of_f32 (pm_time q)) acked_limit); [|by exists r].
  rewrite bind_modify. set (r2 := set_ring _ _ _ _ r). pose proof Hw as [].
  assert (W2 : ring_wf r2) by (split; try done; apply increase_range; done).
  destruct (IH r2 W2) as (r3 & E3 & W3 & U3).
  { change (back r2) with (back r). change (frontAcked r2) with (increase (frontAcked r) cap).
    rewrite dist_increase by done. lia. }
  exists r3. split; [exact E3|]. split; [done|].
  apply (update_ring_trans r r2); [by split|done].
Qed.

Lemma count_acked_spec n r pivot ap ab : ring_wf r -> 0 <= pivot < cap ->
  dist pivot (back r) <= Z.of_nat n -> exists x, count_acked n r pivot ap ab = Done x.
Proof.
  intros Hw. revert pivot ap ab. induction n as [|n IH]; intros pivot ap ab Hp Hd; cbn [count_acked];
    destruct (Z.eqb_spec pivot (back r)) as [E|E]; try by eexists.
  { exfalso. pose proof (rw_back _ Hw). unfold dist, cap in *. lia. }
  destruct (load_slot r _ Hw Hp) as (q & _ & Hq). rewrite Hq. cbn [obind].
  apply IH; [by apply increase_range|]. rewrite dist_increase by (done || apply Hw). lia.
Qed.

Lemma update_spec dt r : ring_wf r ->
  exists r', streamReliabilityUpdate dt r = Done (tt, r') /\ ring_wf r' /\ update_ring r r'.
Proof.
  intros Hw. unfold streamReliabilityUpdate. rewrite bind_get.
  destruct (Z.eqb_spec (frontSent r) (back r)) as [E|E]; [by exists r|].
  rewrite bind_modify. set (r0 := set_ring _ _ _ _ r).
  assert (W0 : ring_wf r0).
  { destruct Hw. split; try done. cbn. unfold zlen in *. by rewrite length_fmap. }
  assert (F : forall a b, dist a b <= Z.of_nat (Z.to_nat cap)).
  { intros a b. pose proof (dist_range a b). unfold cap in *. lia. }
  destruct (advance_sent_spec (Z.to_nat cap) r0 W0 (F _ _)) as (r1 & E1 & W1 & U1).
  rewrite (bind_done _ _ _ _ _ E1).
  destruct (advance_acked_spec (Z.to_nat cap) r1 W1 (F _ _)) as (r2 & E2 & W2 & U2).
  rewrite (bind_done _ _ _ _ _ E2), bind_get. unfold bind at 1, lift.
  destruct (count_acked_spec (Z.to_nat cap) r2 (frontAcked r2) 0 0 W2 (rw_acked _ W2) (F _ _)) as ([ap ab] & E3).
  rewrite E3. eexists. split; [reflexivity|]. split; [destruct W2; by split|].
  apply (update_ring_trans r r0).
  - split; try done. apply identity_add_time.
  - apply (update_ring_trans r0 r1); [done|]. apply (update_ring_trans r1 r2); [done|by split].
Qed.

(** ** The operations of a stream, in any order *)

Inductive reliability_op :=
| OpSent (size : Z)
| OpReceived (s a bits : Z)
| OpUpdate (dt : float).

Definition reliability_step (o : reliability_op) : prog StreamReliability unit :=
  match o with
  | OpSent size => streamReliabilityPacketSent size
  | OpReceived s a bits => streamReliabilityPacketReceived s a bits
  | OpUpdate dt => streamReliabilityUpdate dt
  end.

Fixpoint reliability_run (os : list reliability_op) : prog StreamReliability unit :=
  match os with
  | [] => ret tt
  | o :: os' => reliability_step o ;; reliability_run os'
  end.

(** An ack is a 16-bit field of the packet header. *)
Definition op_ok (o : reliability_op) : Prop :=
  match o with OpReceived _ a _ => 0 <= a < 2 ^ 16 | _ => True end.

Definition sends (o : reliability_op) : Z := match o with OpSent _ => 1 | _ => 0 end.
Definition total_sends (os : list reliability_op) : Z := foldr (fun o n => sends o + n) 0 os.

(** After [n] packets, the packet [k] steps behind [back] is the packet
    number [n - k]. *)
Record ring_seq (n : Z) (r : StreamReliability) : Prop := {
  rs_sequence : sequence r = n mod kStreamReliabilityMaxSequence;
  rs_slots : forall k, 1 <= k <= n -> k <= cap ->
    exists q, slot r ((back r - k) mod cap) = Some q /\
              pm_sequence q = (n - k) mod kStreamReliabilityMaxSequence;
}.

Lemma ring_seq_sent size n r r' : 0 <= n -> ring_wf r -> ring_seq n r -> sent_ring size r r' ->
  ring_seq (n + 1) r'.
Proof.
  intros Hn Hw [Hq Hs] S. split.
  { rewrite (st_sequence _ _ _ S), Hq. by rewrite Zplus_mod_idemp_l. }
  intros k Hk Hc. rewrite (st_back _ _ _ S), Zminus_mod_idemp_l. unfold slot.
  rewrite (st_packets _ _ _ S). pose proof (rw_back _ Hw) as Hb. pose proof (rw_length _ Hw) as Hl.
  destruct (decide (k = 1)) as [->|Hk1].
  - replace (back r + 1 - 1) with (back r) by lia. rewrite Z.mod_small by done.
    eexists. rewrite list_lookup_insert_eq by (unfold zlen in Hl; lia). split; [done|].
    cbn. rewrite Hq. f_equal. lia.
  - destruct (Hs (k - 1)) as (q & Hq1 & Hq2); [lia..|]. exists q.
    replace (back r + 1 - k) with (back r - (k - 1)) by lia.
    pose proof (Z.mod_pos_bound (back r - (k - 1)) cap ltac:(done)).
    rewrite list_lookup_insert_ne.
    + split; [exact Hq1|]. rewrite Hq2. f_equal. lia.
    + unfold cap in *. intros E. apply Z2Nat.inj in E; lia.
Qed.

Lemma ring_seq_slots n r r' : back r' = back r -> sequence r' = sequence r ->
  (forall j q, slot r j = Some q -> exists q', slot r' j = Some q' /\ pm_sequence q' = pm_sequence q) ->
  ring_seq n r -> ring_seq n r'.
Proof.
  intros Hb Hq Hslot [Hs Hr]. split; [congruence|]. intros k Hk Hc.
  destruct (Hr k Hk Hc) as (q & H1 & H2). rewrite <- Hb in H1.
  destruct (Hslot _ _ H1) as (q' & H3 & H4). exists q'. split; [done|]. congruence.
Qed.

Lemma ring_seq_update n r r' : update_ring r r' -> ring_seq n r -> ring_seq n r'.
Proof.
  intros U. apply ring_seq_slots; [apply U|apply U|]. intros j q Hj.
  assert (E : identity <$> slot r' j = identity <$> slot r j).
  { unfold slot. rewrite <- !list_lookup_fmap. by rewrite (up_packets _ _ U). }
  rewrite Hj in E. destruct (slot r' j) as [q'|]; [|done]. exists q'. split; [done|].
  unfold identity in E. cbn in E. congruence.
Qed.

Lemma ring_seq_marks n m p bits r r' : ring_wf r -> back r' = back r -> sequence r' = sequence r ->
  marks m p bits r r' -> ring_seq n r -> ring_seq n r'.
Proof.
  intros Hw Hb Hq M [Hs Hr]. split; [congruence|]. intros k Hk Hc.
  destruct (Hr k Hk Hc) as (q & H1 & H2). rewrite Hb.
  destruct (M ((back r - k) mod cap)) as (q0 & q' & H3 & H4 & H5 & _); [by apply Z.mod_pos_bound|].
  exists q'. split; [done|]. congruence.
Qed.

Lemma reliability_step_spec o n r : 0 <= n -> op_ok o -> ring_wf r -> ring_seq n r ->
  exists r', reliability_step o r = Done (tt, r') /\ ring_wf r' /\ ring_seq (n + sends o) r'.
Proof.
  intros Hn Ho Hw Hs. destruct o as [size|s a bits|dt]; cbn [reliability_step sends].
  - destruct (packet_sent_spec size r Hw) as (r' & E & W & S & _).
    exists r'. split; [done|]. split; [done|]. by apply (ring_seq_sent size n r).
  - rewrite Z.add_0_r. destruct (packet_received_spec s a bits r Hw Ho) as (r' & E & W & Q & B & M).
    exists r'. split; [done|]. split; [done|].
    destruct ((frontSent r =? back r) || (cap <=? behind r a)).
    + apply (ring_seq_slots n r); [done..| |done]. unfold slot. rewrite M. eauto.
    + by apply (ring_seq_marks n _ _ _ r r' Hw B Q M).
  - rewrite Z.add_0_r. destruct (update_spec dt r Hw) as (r' & E & W & U).
    exists r'. split; [done|]. split; [done|]. by apply (ring_seq_update n r).
Qed.

Lemma clear_wf ps : zlen ps = cap ->
  ring_wf (streamReliabilityClear ps) /\ ring_seq 0 (streamReliabilityClear ps).
Proof. intros Hl. split; split; try done. intros k Hk. lia. Qed.

(** C12: whatever packets a stream sends, receives (with any 16-bit ack and any
    bits) and however often it is updated, in any order: no assertion fails,
    no access leaves the ring of 35 packets, the loops of the update end; and
    the slot [k] steps behind [back] holds the packet sent [k] packets ago,
    with its own sequence number. *)
Theorem reliability_safe ps os :
  zlen ps = kStreamReliabilityBufferCapacity -> Forall op_ok os ->
  exists r, reliability_run os (streamReliabilityClear ps) = Done (tt, r) /\
            ring_wf r /\ ring_seq (total_sends os) r.
Proof.
  intros Hl Hos. destruct (clear_wf ps Hl) as [Hw Hs].
  assert (G : forall n r, 0 <= n -> ring_wf r -> ring_seq n r ->
    exists r', reliability_run os r = Done (tt, r') /\ ring_wf r' /\ ring_seq (n + total_sends os) r').
  { clear Hl Hw Hs. induction Hos as [|o os Ho Hos IH]; intros n r Hn Hw Hs; cbn [reliability_run].
    - exists r. cbn. by rewrite Z.add_0_r.
    - destruct (reliability_step_spec o n r Hn Ho Hw Hs) as (r1 & E1 & W1 & S1).
      rewrite (bind_done _ _ _ _ _ E1).
      destruct (IH (n + sends o) r1) as (r2 & E2 & W2 & S2); [destruct o; cbn; lia|done..|].
      exists r2. split; [done|]. split; [done|]. cbn [total_sends foldr].
      fold (total_sends os). by rewrite Z.add_assoc. }
  apply (G 0 _ (Z.le_refl 0) Hw Hs).
Qed.

(** What an ack of one of the last 34 packets does to the slot [k] behind
    [back]; [p] is where the code looks for its bit. *)
Lemma ack_slot n s a bits r k :
  ring_wf r -> ring_seq n r -> frontSent r <> back r ->
  0 <= a -> sequence r - 35 < a < sequence r -> 1 <= k <= 35 -> k <= n ->
  exists r' q q', streamReliabilityPacketReceived s a bits r = Done (tt, r') /\
    slot r ((back r - k) mod 35) = Some q /\ slot r' ((back r - k) mod 35) = Some q' /\
    pm_sequence q' = (n - k) mod kStreamReliabilityMaxSequence /\
    let p := (a - (sequence r - k)) mod 35 in
    pm_acked q' = pm_acked q || ((p <? 31) && Z.testbit bits p).
Proof.
  intros Hw Hs Hne Ha Hr Hk Hn. pose proof (rw_sequence _ Hw). unfold kStreamReliabilityMaxSequence in *.
  destruct (packet_received_spec s a bits r Hw ltac:(lia)) as (r' & E & W & Q & B & M).
  rewrite (proj2 (Z.eqb_neq _ _)) in M by done. cbn [orb] in M.
  destruct (rs_slots _ _ Hs k ltac:(lia) ltac:(unfold cap; lia)) as (q & Hq & Hqs).
  exists r', q. unfold behind in M. rewrite (proj2 (Z.ltb_lt a _)) in M by lia.
  rewrite (proj2 (Z.leb_gt cap _)) in M by (unfold cap; lia).
  destruct (M ((back r - k) mod cap)) as (q0 & q' & H0 & H1 & H2 & H3); [by apply Z.mod_pos_bound|].
  rewrite Hq in H0. injection H0 as <-. exists q'. split; [done|]. split; [done|]. split; [done|].
  split; [by rewrite H2|]. rewrite H3. unfold marked, cap in *. rewrite <- Zminus_mod.
  by replace (back r - (sequence r - a) - (back r - k)) with (a - (sequence r - k)) by lia.
Qed.

(** an ack of one of the last 34 packets marks what it says: of the packets
    not newer than the ack, the one [p] sequence numbers before it is
    acknowledged afterwards iff it was before or bit [p] of the field is set
    (31 bits are looked at, [p] from 0 to 30). *)
Theorem ack_marks n s a bits r k :
  ring_wf r -> ring_seq n r -> frontSent r <> back r ->
  0 <= a -> sequence r - 35 < a < sequence r -> sequence r - a <= k <= 35 -> k <= n ->
  exists r' q q', streamReliabilityPacketReceived s a bits r = Done (tt, r') /\
    slot r ((back r - k) mod 35) = Some q /\ slot r' ((back r - k) mod 35) = Some q' /\
    pm_sequence q' = (n - k) mod kStreamReliabilityMaxSequence /\
    let p := a - (sequence r - k) in
    pm_acked q' = pm_acked q || ((p <? 31) && Z.testbit bits p).
Proof.
  intros Hw Hs Hne Ha Hr Hk Hn.
  destruct (ack_slot n s a bits r k Hw Hs Hne Ha Hr) as (r' & q & q' & E & H1 & H2 & H3 & H4); [lia..|].
  exists r', q, q'. rewrite Z.mod_small in H4 by lia.
  do 4 (split; [assumption|]). exact H4.
Qed.

(** Forty packets sent, none acknowledged. *)
Definition no_packet : StreamPacketMetadata := mkMetadata 0 f_zero 0 false.
Definition forty_sent : StreamReliability :=
  match reliability_run (repeat (OpSent 100) 40) (streamReliabilityClear (repeat no_packet 35)) with
  | Done (_, r) => r
  | Fault _ => streamReliabilityClear []
  end.

Lemma forty_sent_ok : ring_wf forty_sent /\ ring_seq 40 forty_sent.
Proof.
  destruct (clear_wf (repeat no_packet 35)) as [Hw Hs]; [reflexivity|].
  assert (G : forall k r, (k <= 40)%nat -> ring_wf r -> ring_seq (40 - Z.of_nat k) r ->
    exists r', reliability_run (repeat (OpSent 100) k) r = Done (tt, r') /\ ring_wf r' /\ ring_seq 40 r').
  { clear Hw Hs. induction k as [|k IH]; intros r Hk Hw Hs; cbn [repeat reliability_run].
    - exists r. done.
    - destruct (reliability_step_spec (OpSent 100) (40 - Z.of_nat (S k)) r) as (r1 & E & W & S1); [lia|done..|].
      rewrite (bind_done _ _ _ _ _ E). apply IH; [lia|done|].
      cbn [sends] in S1. by replace (40 - Z.of_nat k) with (40 - Z.of_nat (S k) + 1) by lia. }
  unfold forty_sent. destruct (G 40%nat _ ltac:(lia) Hw Hs) as (r & E & W & S1).
  destruct (reliability_run _ _) as [[[] r']|f]; [|discriminate E].
  injection E as ->. by split.
Qed.

Lemma reliability_safe_witness :
  exists r, reliability_run [OpSent 100; OpReceived 5 0 1; OpUpdate (f32_lit 1 30)]
              (streamReliabilityClear (repeat no_packet 35)) = Done (tt, r) /\
            ring_wf r /\ ring_seq 1 r.
Proof.
  apply (reliability_safe (repeat no_packet 35) [OpSent 100; OpReceived 5 0 1; OpUpdate (f32_lit 1 30)]).
  - reflexivity.
  - repeat constructor. all: cbn; lia.
Defined.

(** The packet 37 is acknowledged by an ack of the packet 38. *)
Lemma ack_marks_witness :
  exists r' q q', streamReliabilityPacketReceived 0 38 2 forty_sent = Done (tt, r') /\
    slot forty_sent ((back forty_sent - 3) mod 35) = Some q /\
    slot r' ((back forty_sent - 3) mod 35) = Some q' /\
    pm_sequence q' = 37 /\ pm_acked q' = pm_acked q || true.
Proof.
  apply (ack_marks 40 0 38 2 forty_sent 3).
  - apply forty_sent_ok.
  - apply forty_sent_ok.
  - by vm_compute.
  - lia.
  - by vm_compute.
  - by vm_compute.
  - lia.
Defined.

(** the walk over 31 slots wraps around the ring of 35: an ack that is 6 to
    34 packets behind, whose bit [36 - c] (of a packet sent long before) is
    set, marks the newest packet as acknowledged although the peer cannot have
    received it when it sent that ack. *)
Theorem ack_marks_newest n s a bits r :
  ring_wf r -> ring_seq n r -> frontSent r <> back r -> 1 <= n ->
  0 <= a -> sequence r - 35 < a -> a <= sequence r - 6 ->
  Z.testbit bits (36 - (sequence r - a)) = true ->
  exists r' q', streamReliabilityPacketReceived s a bits r = Done (tt, r') /\
    slot r' ((back r - 1) mod 35) = Some q' /\
    pm_sequence q' = (n - 1) mod kStreamReliabilityMaxSequence /\ pm_acked q' = true.
Proof.
  intros Hw Hs Hne Hn Ha Hr Hc Hb.
  destruct (ack_slot n s a bits r 1 Hw Hs Hne Ha) as (r' & q & q' & E & H1 & H2 & H3 & H4); [lia..|].
  exists r', q'. do 3 (split; [assumption|]). rewrite H4.
  replace ((a - (sequence r - 1)) mod 35) with (36 - (sequence r - a)).
  - rewrite Hb, (proj2 (Z.ltb_lt _ _)) by lia. apply orb_true_r.
  - rewrite <- (Z.mod_add _ 1) by lia. symmetry. rewrite Z.mod_small; lia.
Qed.

(** Packet 39 was just sent; the peer acks 30 and all before. *)
Lemma ack_marks_newest_witness :
  exists r' q', streamReliabilityPacketReceived 0 30 0xFFFFFFFF forty_sent = Done (tt, r') /\
    slot r' ((back forty_sent - 1) mod 35) = Some q' /\ pm_sequence q' = 39 /\ pm_acked q' = true.
Proof.
  apply (ack_marks_newest 40 0 30 0xFFFFFFFF forty_sent).
  - apply forty_sent_ok.
  - apply forty_sent_ok.
  - by vm_compute.
  - lia.
  - lia.
  - by vm_compute.
  - by vm_compute.
  - by vm_compute.
Defined.

(** ** The receiving side *)

(** The field says of the last 32 packets which have arrived. *)
Definition tracks (r : StreamReliability) (arrived : list Z) : Prop :=
  0 <= ackBits r < 2 ^ 32 /\ (forall s, s ∈ arrived -> s <= ack r) /\
  forall p, 0 <= p < 32 -> Z.testbit (ackBits r) p = bool_decide (ack r - p ∈ arrived).

(** Arrivals at most 31 ahead of the newest so far, without wrapping. *)
Fixpoint arrivals (newest : Z) (ss : list Z) : Prop :=
  match ss with
  | [] => True
  | s :: ss' => 0 <= s < kStreamReliabilityMaxSequence /\ s - newest <= 31 /\ newest - s <= 32767 /\
                arrivals (Z.max newest s) ss'
  end.

Fixpoint receive_all (ss : list Z) : prog StreamReliability unit :=
  match ss with
  | [] => ret tt
  | s :: ss' => streamReliabilityProcessSequence s ;; receive_all ss'
  end.

Lemma testbit_u32 x p : 0 <= p < 32 -> Z.testbit (u32 x) p = Z.testbit x p.
Proof. intros Hp. apply Z.mod_pow2_bits_low. lia. Qed.

Lemma land_u32 x : Z.land x 0xFFFFFFFF = u32 x.
Proof. apply (Z.land_ones x 32). lia. Qed.

Lemma process_sequence_newer s r : 0 < s - ack r -> s - ack r <= 31 ->
  streamReliabilityProcessSequence s r =
  Done (tt, set_ack s (u32 (Z.lor (u32 (Z.shiftl (ackBits r) (s - ack r))) 1)) r).
Proof.
  intros H1 H2. unfold streamReliabilityProcessSequence, modify, isSequenceMoreRecent.
  unfold kStreamReliabilityMaxSequence. change (0xFFFF / 2) with 32767.
  rewrite (proj2 (Z.ltb_lt (ack r) s)), (proj2 (Z.leb_le _ 32767)) by lia. cbn [andb orb].
  rewrite u32_small by lia. cbv zeta. rewrite (proj2 (Z.ltb_lt _ 32)) by lia. by rewrite land_u32.
Qed.

Lemma process_sequence_older s r : 0 <= ack r - s -> ack r - s <= 32767 ->
  streamReliabilityProcessSequence s r =
  Done (tt, set_ack (ack r) (u32 (if ack r - s <? 32 then
     Z.lor (ackBits r) (u32 (Z.shiftl 1 (ack r - s))) else ackBits r)) r).
Proof.
  intros H1 H2. unfold streamReliabilityProcessSequence, modify, isSequenceMoreRecent.
  unfold kStreamReliabilityMaxSequence. change (0xFFFF / 2) with 32767.
  rewrite (proj2 (Z.ltb_ge (ack r) s)), (proj2 (Z.ltb_ge 32767 _)) by lia.
  rewrite andb_false_r. cbn [andb orb]. rewrite (proj2 (Z.leb_le s (ack r))) by lia.
  rewrite u32_small by lia. cbv zeta. by rewrite land_u32.
Qed.

Lemma tracks_step s r arrived : tracks r arrived -> s - ack r <= 31 -> ack r - s <= 32767 ->
  exists r', streamReliabilityProcessSequence s r = Done (tt, r') /\
    tracks r' (s :: arrived) /\ ack r' = Z.max (ack r) s.
Proof.
  intros (Hb & Ha & Ht) H1 H2. destruct (Z.ltb_spec (ack r) s) as [L|L].
  - rewrite process_sequence_newer by lia. eexists. split; [reflexivity|]. cbn [ack set_ack].
    split; [|lia]. unfold tracks. cbn [ack ackBits set_ack]. split; [apply u32_range|]. split.
    { intros x [->|Hx]%elem_of_cons; [lia|]. specialize (Ha x Hx). lia. }
    intros p Hp. rewrite testbit_u32, Z.lor_spec, testbit_u32 by done.
    destruct (decide (p = 0)) as [->|Hp0].
    + rewrite orb_true_r. symmetry. apply bool_decide_eq_true. rewrite Z.sub_0_r. by left.
    + replace (Z.testbit 1 p) with false by (symmetry; apply (Z.bits_above_log2 1 p); cbn; lia).
      rewrite orb_false_r. destruct (Z.ltb_spec p (s - ack r)) as [C|C].
      * rewrite Z.shiftl_spec_low by lia. symmetry. apply bool_decide_eq_false.
        intros [E|Hx]%elem_of_cons; [lia|]. specialize (Ha _ Hx). lia.
      * rewrite Z.shiftl_spec by lia. rewrite Ht by lia.
        replace (ack r - (p - (s - ack r))) with (s - p) by lia.
        apply bool_decide_ext. rewrite elem_of_cons. split; [by right|]. intros [E|E]; [lia|done].
  - rewrite process_sequence_older by lia. eexists. split; [reflexivity|]. cbn [ack set_ack].
    split; [|lia]. unfold tracks. cbn [ack ackBits set_ack]. split; [apply u32_range|]. split.
    { intros x [->|Hx]%elem_of_cons; [lia|]. by apply Ha. }
    intros p Hp. rewrite testbit_u32 by done. destruct (Z.ltb_spec (ack r - s) 32) as [C|C].
    + rewrite Z.lor_spec, testbit_u32, Ht by done. rewrite Z.shiftl_1_l, Z.pow2_bits_eqb by lia.
      destruct (Z.eqb_spec (ack r - s) p) as [E|E].
      * rewrite orb_true_r. symmetry. apply bool_decide_eq_true. apply elem_of_cons. left. lia.
      * rewrite orb_false_r. apply bool_decide_ext. rewrite elem_of_cons.
        split; [by right|]. intros [E'|E']; [lia|done].
    + rewrite Ht by done. apply bool_decide_ext. rewrite elem_of_cons.
      split; [by right|]. intros [E'|E']; [lia|done].
Qed.

(** after any packets have arrived, none more than 31 ahead of the newest
    before it, [ack] is the newest and bit [p] of [ackBits] says whether the
    packet [p] before it has arrived, for the 32 last packets: in any order,
    with losses and with duplicates. *)
Theorem ack_bits_track ps ss : arrivals 0 ss ->
  exists r, receive_all ss (streamReliabilityClear ps) = Done (tt, r) /\
    ack r = foldl Z.max 0 ss /\ 0 <= ackBits r < 2 ^ 32 /\
    forall p, 0 <= p < 32 -> Z.testbit (ackBits r) p = bool_decide (ack r - p ∈ ss).
Proof.
  assert (G : forall ss r arrived, tracks r arrived -> arrivals (ack r) ss ->
    exists r', receive_all ss r = Done (tt, r') /\ ack r' = foldl Z.max (ack r) ss /\
               tracks r' (reverse ss ++ arrived)).
  { clear ss. induction ss as [|s ss IH]; intros r arrived Ht Hs; [by exists r|].
    destruct Hs as (_ & H1 & H2 & Hs). cbn [receive_all].
    destruct (tracks_step s r arrived Ht H1 H2) as (r1 & E1 & T1 & A1).
    rewrite (bind_done _ _ _ _ _ E1). rewrite <- A1 in Hs.
    destruct (IH r1 (s :: arrived) T1 Hs) as (r2 & E2 & A2 & T2). exists r2. split; [done|].
    split; [cbn [foldl]; congruence|]. by rewrite reverse_cons, <- app_assoc. }
  intros Hs. destruct (G ss (streamReliabilityClear ps) []) as (r & E & A & Hb & _ & Ht).
  - split; [done|]. split; [intros s Hin; by apply not_elem_of_nil in Hin|]. intros p Hp.
    rewrite Z.bits_0. symmetry. apply bool_decide_eq_false. apply not_elem_of_nil.
  - exact Hs.
  - exists r. split; [done|]. split; [done|]. split; [done|]. intros p Hp. rewrite Ht by done.
    apply bool_decide_ext. rewrite app_nil_r. apply elem_of_reverse.
Qed.

Lemma ack_bits_track_witness :
  exists r, receive_all [0; 2; 5; 3] (streamReliabilityClear []) = Done (tt, r) /\
    ack r = 5 /\ 0 <= ackBits r < 2 ^ 32 /\
    forall p, 0 <= p < 32 -> Z.testbit (ackBits r) p = bool_decide (ack r - p ∈ [0; 2; 5; 3]).
Proof. apply (ack_bits_track [] [0; 2; 5; 3]). cbn. unfold kStreamReliabilityMaxSequence. lia. Defined.

(** a packet 32 to 32767 ahead of the newest one empties the field, its
    own bit included: the packet that has just arrived is reported lost. *)
Theorem jump_unacknowledged s r : 32 <= s - ack r <= 32767 ->
  streamReliabilityProcessSequence s r = Done (tt, set_ack s 0 r).
Proof.
  intros Hj. unfold streamReliabilityProcessSequence, modify, isSequenceMoreRecent.
  unfold kStreamReliabilityMaxSequence. change (0xFFFF / 2) with 32767.
  rewrite (proj2 (Z.ltb_lt (ack r) s)), (proj2 (Z.leb_le _ 32767)) by lia. cbn [andb orb].
  rewrite u32_small by lia. cbv zeta. by rewrite (proj2 (Z.ltb_ge _ 32)) by lia.
Qed.

Lemma jump_unacknowledged_witness :
  streamReliabilityProcessSequence 40 (streamReliabilityClear []) =
  Done (tt, set_ack 40 0 (streamReliabilityClear [])).
Proof. apply jump_unacknowledged. cbn. lia. Defined.

(** sequence numbers are counted modulo 0xFFFF by the sender, the receiver
    takes 0x10000 for their number: the packet sent after 0xFFFE, number 0, is
    taken to be the second one after it, and the field shifted by two. *)
Theorem wrap_skips_one r : ack r = 0xFFFE -> 0 <= ackBits r < 2 ^ 30 ->
  increase 0xFFFE kStreamReliabilityMaxSequence = 0 /\
  streamReliabilityProcessSequence 0 r = Done (tt, set_ack 0 (4 * ackBits r + 1) r).
Proof.
  intros Ha Hb. split; [done|]. unfold streamReliabilityProcessSequence, modify. rewrite Ha.
  change (isSequenceMoreRecent 0 0xFFFE kStreamReliabilityMaxSequence) with true. cbv zeta.
  change (u32 (0 - 0xFFFE + kStreamReliabilityMaxSequence + 1)) with 2.
  change (0xFFFE <? 0) with false. cbv iota. change (2 <? 32) with true. cbv iota.
  rewrite land_u32, Z.shiftl_mul_pow2 by lia. change (2 ^ 2) with 4.
  rewrite (u32_small (ackBits r * 4)) by lia.
  rewrite (lor_add _ _ 2); [|lia|change (2 ^ 2) with 4; lia|lia].
  rewrite u32_small by lia. by rewrite Z.mul_comm.
Qed.

Lemma wrap_skips_one_witness :
  let r := set_ack 0xFFFE 1 (streamReliabilityClear []) in
  increase 0xFFFE kStreamReliabilityMaxSequence = 0 /\
  streamReliabilityProcessSequence 0 r = Done (tt, set_ack 0 5 r).
Proof.
  apply (wrap_skips_one (set_ack 0xFFFE 1 (streamReliabilityClear []))); [reflexivity|].
  cbn. lia.
Defined.
