(* ===== verification/StreamExchange.v ===== *)
(** * Two peers and their acknowledgements (src/stream_reliability.c, src/stream.c)

    The reliability layers of the two ends of a stream, with a network that
    loses, repeats, delays and reorders what they send.  A message is the
    header that [streamSend] packs before it marks the packet as sent; it is
    handed to the other end as [streamReceive] does. *)
From S2P Require Import Prelude Floats StreamFlow StreamReliability StreamReliabilitySpec.

#[local] Abbreviation cap := kStreamReliabilityBufferCapacity.

(** ** The exchange *)

(** A header on its way.  [m_heard] is not in it: it is what the sender had
    heard when it sent the message. *)
Record ack_message := mkMessage {
  m_sequence : Z;
  m_ack : Z;
  m_bits : Z;
  m_heard : list Z;
}.

(** [p_heard]: the sequences that [streamReceive] has processed. *)
Record peer := mkPeer {
  p_ring : StreamReliability;
  p_sent : list ack_message;
  p_heard : list Z;
}.

Definition new_peer (ps : list StreamPacketMetadata) : peer := mkPeer (streamReliabilityClear ps) [] [].

Inductive peer_op :=
| Send (size : Z)
| Receive (i : nat)          (* the message [i] of the other end, whenever it comes *)
| Update (deltaTime : float).

(** [streamSend] and [streamReceive], as far as the reliability is concerned. *)
Definition peer_step (op : peer_op) (other : list ack_message) (p : peer) : outcome peer :=
  match op with
  | Send size =>
      let r := p_ring p in
      let m := mkMessage (sequence r) (ack r) (ackBits r) (p_heard p) in
      x <-! streamReliabilityPacketSent size r ;;
      Done (mkPeer (snd x) (p_sent p ++ [m]) (p_heard p))
  | Receive i =>
      match other !! i with
      | Some m =>
          if m_ack m <=? sequence (p_ring p) then
            x <-! streamReliabilityPacketReceived (m_sequence m) (m_ack m) (m_bits m) (p_ring p) ;;
            Done (mkPeer (snd x) (p_sent p) (m_sequence m :: p_heard p))
          else Done p
      | None => Done p
      end
  | Update deltaTime =>
      x <-! streamReliabilityUpdate deltaTime (p_ring p) ;;
      Done (mkPeer (snd x) (p_sent p) (p_heard p))
  end.

(** The steps of which nothing bad is known: the sequence does not wrap, a
    message is not further ahead than the field of the receiver is long, and
    it does not acknowledge a packet that is 6 to 34 packets old, for which
    the walk over the ring goes past its end ([ack_marks_newest]). *)
Definition timely (op : peer_op) (other : list ack_message) (p : peer) : Prop :=
  match op with
  | Send _ => zlen (p_sent p) + 1 < kStreamReliabilityMaxSequence
  | Receive i => forall m, other !! i = Some m ->
      let r := p_ring p in
      m_sequence m - ack r <= 31 /\ ack r - m_sequence m <= 32767 /\
      (sequence r - m_ack m <= 5 \/ cap <= sequence r - m_ack m)
  | Update _ => True
  end.

Inductive exchange : peer -> peer -> Prop :=
| exchange_start ps ps' : zlen ps = cap -> zlen ps' = cap -> exchange (new_peer ps) (new_peer ps')
| exchange_swap p q : exchange p q -> exchange q p
| exchange_step op p q p' : exchange p q -> timely op (p_sent q) p ->
    peer_step op (p_sent q) p = Done p' -> exchange p' q.

(** ** The invariant *)

(** The slot of the packet that was sent [k] packets ago. *)
Definition slot_ago (r : StreamReliability) (k : Z) : option StreamPacketMetadata := slot r ((back r - k) mod cap).

(** What a message says is what its sender had heard. *)
Record message_ok (p : peer) (i : nat) (m : ack_message) : Prop := {
  mo_sequence : m_sequence m = Z.of_nat i;
  mo_ack : 0 <= m_ack m < 2 ^ 16;
  mo_range : 0 <= m_bits m < 2 ^ 32;
  mo_bits : forall t, 0 <= t < 32 -> Z.testbit (m_bits m) t = bool_decide (m_ack m - t ∈ m_heard m);
  mo_heard : m_heard m ⊆ p_heard p;
}.

Record peer_ok (p : peer) : Prop := {
  po_wf : ring_wf (p_ring p);
  po_seq : ring_seq (zlen (p_sent p)) (p_ring p);
  po_sent : zlen (p_sent p) < kStreamReliabilityMaxSequence;
  po_tracks : tracks (p_ring p) (p_heard p);
  po_ack : 0 <= ack (p_ring p) < 2 ^ 16;
  po_messages : forall i m, p_sent p !! i = Some m -> message_ok p i m;
}.

(** Every packet that [p] takes for acknowledged was heard by [q]. *)
Definition acked_heard (p q : peer) : Prop :=
  forall k x, 1 <= k <= cap -> k <= zlen (p_sent p) -> slot_ago (p_ring p) k = Some x ->
    pm_acked x = true -> zlen (p_sent p) - k ∈ p_heard q.

(** [q] has heard only what [p] has sent. *)
Definition heard_sent (p q : peer) : Prop := forall s, s ∈ p_heard q -> 0 <= s < zlen (p_sent p).

Record linked (p q : peer) : Prop := {
  lk_left : peer_ok p;
  lk_right : peer_ok q;
  lk_acked : acked_heard p q;
  lk_acked' : acked_heard q p;
  lk_heard : heard_sent p q;
  lk_heard' : heard_sent q p;
}.

Lemma linked_swap p q : linked p q -> linked q p.
Proof. by intros []. Qed.

Lemma peer_sequence p : peer_ok p -> sequence (p_ring p) = zlen (p_sent p).
Proof.
  intros H. rewrite (rs_sequence _ _ (po_seq _ H)). apply Z.mod_small.
  pose proof (po_sent _ H). pose proof (zlen_nonneg (p_sent p)). lia.
Qed.

Lemma message_heard p p' i m : message_ok p i m -> p_heard p ⊆ p_heard p' -> message_ok p' i m.
Proof. intros [h1 h2 h3 h4 h5] Hs. split; try done. by etrans. Qed.

Lemma new_linked ps ps' : zlen ps = cap -> zlen ps' = cap -> linked (new_peer ps) (new_peer ps').
Proof.
  assert (P : forall ps, zlen ps = cap -> peer_ok (new_peer ps)).
  { clear. intros ps H. destruct (clear_wf ps H) as [Hw Hs]. split; try done.
    split; [done|]. split; [intros s Hs'; by apply not_elem_of_nil in Hs'|]. intros t _. by rewrite Z.bits_0. }
  assert (A : forall ps q, acked_heard (new_peer ps) q) by (intros ? ? k x Hk Hn; change (k <= 0) in Hn; lia).
  intros H H'. split; auto; intros s Hs; by apply not_elem_of_nil in Hs.
Qed.

(** ** Sending *)

Lemma sent_ago size r r' k : ring_wf r -> sent_ring size r r' -> 1 <= k <= cap ->
  slot_ago r' k = if decide (k = 1) then Some (mkMetadata (sequence r) f_zero size false) else slot_ago r (k - 1).
Proof.
  intros Hw S Hk. pose proof (rw_back _ Hw) as Hb. pose proof (rw_length _ Hw) as Hl. unfold slot_ago, slot, cap in *.
  rewrite (st_back _ _ _ S), Zminus_mod_idemp_l, (st_packets _ _ _ S). destruct (decide (k = 1)) as [->|Hk1].
  - replace (back r + 1 - 1) with (back r) by lia. rewrite Z.mod_small by done.
    apply list_lookup_insert_eq. unfold zlen in Hl. lia.
  - replace (back r + 1 - k) with (back r - (k - 1)) by lia. apply list_lookup_insert_ne.
    pose proof (Z.mod_pos_bound (back r - (k - 1)) 35 ltac:(done)).
    intros E. apply Z2Nat.inj in E; [|lia..]. lia.
Qed.

Lemma sent_tracks size r r' heard : sent_ring size r r' -> tracks r heard -> tracks r' heard.
Proof. intros [_ _ _ _ Ea Eb] H. unfold tracks. by rewrite Ea, Eb. Qed.

Lemma send_linked size p q : linked p q -> timely (Send size) (p_sent q) p ->
  exists p', peer_step (Send size) (p_sent q) p = Done p' /\ linked p' q.
Proof.
  intros [Hp Hq A A' S S'] Ht. destruct Hp as [Hw Hs Hn Htr Ha Hm]. cbn [timely] in Ht.
  destruct (packet_sent_spec size (p_ring p) Hw) as (r & E & W & R & _).
  cbn [peer_step]. rewrite E. cbn [obind snd]. eexists. split; [reflexivity|]. set (m := mkMessage _ _ _ _).
  assert (L : zlen (p_sent p ++ [m]) = zlen (p_sent p) + 1) by (rewrite zlen_app; done).
  pose proof (zlen_nonneg (p_sent p)) as Hz. split; [|done| |done| |done]; cbn [p_ring p_sent p_heard].
  - split; cbn [p_ring p_sent p_heard]; rewrite ?L.
    + done.
    + by apply (ring_seq_sent size _ (p_ring p)).
    + lia.
    + by apply (sent_tracks size (p_ring p)).
    + by rewrite (st_ack _ _ _ R).
    + intros i m' Hi. apply lookup_app_Some in Hi as [Hi|[Hi Em]]; [by apply (message_heard p); [apply Hm|]|].
      apply list_lookup_singleton_Some in Em as [Ei <-].
      assert (Eq : sequence (p_ring p) = zlen (p_sent p)) by (rewrite (rs_sequence _ _ Hs); apply Z.mod_small; lia).
      unfold m. split; cbn [m_sequence m_ack m_bits m_heard]; [rewrite Eq; unfold zlen; lia|done|apply Htr|apply Htr|done].
  - intros k x Hk Hkn Hx Hax. cbn [p_ring p_sent] in *. rewrite (sent_ago size (p_ring p)) in Hx by done.
    destruct (decide (k = 1)) as [->|Hk1]; [by injection Hx as <-|]. rewrite L in *.
    replace (zlen (p_sent p) + 1 - k) with (zlen (p_sent p) - (k - 1)) by lia. by apply (A (k - 1) x); [lia|lia| |].
  - intros s Hs'. cbn [p_sent]. rewrite L. specialize (S s Hs'). lia.
Qed.

(** ** Receiving *)

Lemma packet_received_tracks s a bits r heard : ring_wf r -> 0 <= a < 2 ^ 16 -> tracks r heard ->
  s - ack r <= 31 -> ack r - s <= 32767 ->
  exists r', streamReliabilityPacketReceived s a bits r = Done (tt, r') /\
    tracks r' (s :: heard) /\ ack r' = Z.max (ack r) s.
Proof.
  intros Hw Ha Ht H1 H2. destruct (tracks_step s r heard Ht H1 H2) as (r1 & E1 & T1 & A1).
  destruct (process_sequence_same s r) as (x & y & E). rewrite E in E1. injection E1 as <-.
  assert (Hw' : ring_wf (set_ack x y r)) by (destruct Hw; by split).
  destruct (process_ack_spec a bits (set_ack x y r) Hw' Ha) as (r2 & E2 & S2 & _).
  unfold streamReliabilityPacketReceived. rewrite (bind_done _ _ _ _ _ E), (bind_done _ _ _ _ _ E2).
  eexists. split; [reflexivity|]. unfold tracks in *. cbn [ack ackBits set_totals].
  by rewrite (sr_ack _ _ S2), (sr_bits _ _ S2).
Qed.

(** What a message that is not too old changes in the slot of a packet. *)
Lemma received_ago s a bits n r r' k : ring_wf r -> ring_seq n r -> n < kStreamReliabilityMaxSequence ->
  0 <= a <= n -> a < 2 ^ 16 -> (n - a <= 5 \/ cap <= n - a) -> 1 <= k <= cap -> k <= n ->
  streamReliabilityPacketReceived s a bits r = Done (tt, r') ->
  exists x x', slot_ago r k = Some x /\ slot_ago r' k = Some x' /\
    pm_acked x' = pm_acked x || (negb (frontSent r =? back r) && (a <? n) && (n - a <=? 5) &&
      (0 <=? a - (n - k)) && (a - (n - k) <? 31) && Z.testbit bits (a - (n - k))).
Proof.
  intros Hw Hs Hn Ha Ha' Hold Hk Hkn E. pose proof (rw_back _ Hw) as Hb.
  assert (Q : sequence r = n) by (rewrite (rs_sequence _ _ Hs); apply Z.mod_small; lia).
  destruct (rs_slots _ _ Hs k ltac:(lia) ltac:(lia)) as (x & Hx & _). exists x. unfold slot_ago.
  destruct (packet_received_spec s a bits r Hw ltac:(lia)) as (r1 & E1 & _ & _ & B & M).
  rewrite E in E1. injection E1 as <-. rewrite B. unfold behind in M. rewrite Q in M.
  unfold cap, kStreamReliabilityMaxSequence in *. destruct (Z.eqb_spec (frontSent r) (back r)) as [Ef|Ef]; cbn [orb negb andb] in *.
  { exists x. rewrite orb_false_r. unfold slot in *. rewrite M. done. }
  destruct (Z.ltb_spec a n) as [L|L].
  - destruct (Z.leb_spec 35 (n - a)) as [O|O]; cbn [orb] in M.
    { exists x. rewrite (proj2 (Z.leb_gt (n - a) 5)), orb_false_r by lia. unfold slot in *. rewrite M. done. }
    destruct (M ((back r - k) mod 35)) as (x0 & x' & H0 & H1 & _ & H3); [by apply Z.mod_pos_bound|].
    rewrite Hx in H0. injection H0 as <-. exists x'. split; [done|]. split; [done|]. rewrite H3. f_equal.
    unfold marked, cap. rewrite <- Zminus_mod. rewrite (proj2 (Z.leb_le (n - a) 5)) by lia.
    replace (back r - (n - a) - (back r - k)) with (a - (n - k)) by lia.
    destruct (Z.leb_spec 0 (a - (n - k))) as [P|P]; cbn [andb].
    + rewrite Z.mod_small by lia. done.
    + rewrite <- (Z.mod_add _ 1), Z.mod_small by lia. by rewrite (proj2 (Z.ltb_ge _ 31)) by lia.
  - rewrite (proj2 (Z.leb_le 35 _)) in M by lia. cbn [orb] in M. exists x. unfold slot in *. rewrite M.
    by rewrite orb_false_r.
Qed.

Lemma message_of q i m : peer_ok q -> p_sent q !! i = Some m -> message_ok q i m.
Proof. intros H. apply (po_messages _ H). Qed.

Lemma receive_linked i p q : linked p q -> timely (Receive i) (p_sent q) p ->
  exists p', peer_step (Receive i) (p_sent q) p = Done p' /\ linked p' q.
Proof.
  intros H Ht. cbn [peer_step timely] in *. destruct (p_sent q !! i) as [m|] eqn:Em; [|by exists p].
  destruct (Z.leb_spec (m_ack m) (sequence (p_ring p))) as [G|G]; [|by exists p].
  specialize (Ht m eq_refl) as (T1 & T2 & T3). destruct H as [Hp Hq A A' S S'].
  destruct (message_of q i m Hq Em) as [o1 o2 _ o3 o4]. pose proof (peer_sequence p Hp) as Q. destruct Hp as [Hw Hs Hn Htr Ha Hm].
  destruct (packet_received_spec (m_sequence m) (m_ack m) (m_bits m) _ Hw o2) as (r & E & W & Sq & B & M).
  destruct (packet_received_tracks (m_sequence m) (m_ack m) (m_bits m) _ _ Hw o2 Htr T1 T2) as (r' & E' & Tr & Ar).
  rewrite E in E'. injection E' as <-. rewrite E. cbn [obind snd]. eexists. split; [reflexivity|].
  pose proof (lookup_lt_Some _ _ _ Em) as Hi.
  assert (Hs' : 0 <= m_sequence m < zlen (p_sent q)) by (rewrite o1; unfold zlen; lia).
  pose proof (po_sent _ Hq) as Hnq. unfold kStreamReliabilityMaxSequence in Hnq. split; [|done| | |done|]; cbn [p_ring p_sent p_heard].
  - split; cbn [p_ring p_sent p_heard]; [done| |done|done|lia|].
    + destruct (_ || _) in M; [|by apply (ring_seq_marks _ _ _ _ (p_ring p) r Hw B Sq M)].
      apply (ring_seq_slots _ (p_ring p)); [done..| |done]. unfold slot. rewrite M. eauto.
    + intros j m' Hj. apply (message_heard p); [by apply Hm|]. apply list_subseteq_cons. done.
  - intros k x Hk Hkn Hx Hax. cbn [p_ring p_sent] in *. rewrite Q in G, T3.
    destruct (received_ago (m_sequence m) (m_ack m) (m_bits m) _ _ r k Hw Hs Hn ltac:(lia) ltac:(lia) T3 Hk Hkn E)
      as (x0 & x' & H0 & H1 & H2). rewrite Hx in H1. injection H1 as <-. rewrite Hax in H2.
    destruct (pm_acked x0) eqn:E0; [by apply (A k x0)|]. cbn [orb] in H2. symmetry in H2.
    rewrite !andb_true_iff in H2. destruct H2 as [[[_ P0%Z.leb_le] P1%Z.ltb_lt] P2]. rewrite o3 in P2 by lia.
    apply bool_decide_eq_true in P2. apply o4. by replace (zlen (p_sent p) - k) with (m_ack m - (m_ack m - (zlen (p_sent p) - k))) by lia.
  - intros k x Hk Hkn Hx Hax. cbn [p_heard]. right. by apply (A' k x).
  - intros s [->|Hin]%elem_of_cons; [done|by apply S'].
Qed.

(** ** The passage of time *)

Lemma update_ago r r' k : update_ring r r' ->
  (fun x => (pm_sequence x, pm_acked x)) <$> slot_ago r' k = (fun x => (pm_sequence x, pm_acked x)) <$> slot_ago r k.
Proof.
  intros U. unfold slot_ago, slot. rewrite (up_back _ _ U). set (j := Z.to_nat _).
  assert (E : identity <$> packets r' !! j = identity <$> packets r !! j)
    by (rewrite <- !list_lookup_fmap; by rewrite (up_packets _ _ U)).
  unfold identity in E. destruct (packets r' !! j), (packets r !! j); cbn in *; congruence.
Qed.

Lemma update_linked deltaTime p q : linked p q ->
  exists p', peer_step (Update deltaTime) (p_sent q) p = Done p' /\ linked p' q.
Proof.
  intros [Hp Hq A A' S S']. destruct Hp as [Hw Hs Hn Htr Ha Hm].
  destruct (update_spec deltaTime (p_ring p) Hw) as (r & E & W & U). cbn [peer_step]. rewrite E. cbn [obind snd].
  eexists. split; [reflexivity|]. split; try done; cbn [p_ring p_sent p_heard].
  - split; cbn [p_ring p_sent p_heard]; try done.
    + by apply (ring_seq_update _ (p_ring p)).
    + unfold tracks. by rewrite (up_ack _ _ U), (up_bits _ _ U).
    + by rewrite (up_ack _ _ U).
    + intros i m Hi. by apply (message_heard p); [apply Hm|].
  - intros k x Hk Hkn Hx Hax. cbn [p_ring p_sent] in *. pose proof (update_ago _ _ k U) as Eq. rewrite Hx in Eq.
    destruct (slot_ago (p_ring p) k) as [x0|] eqn:E0; [|done]. injection Eq as _ Eq. apply (A k x0); [done..|congruence].
Qed.

Lemma step_linked op p q : linked p q -> timely op (p_sent q) p ->
  exists p', peer_step op (p_sent q) p = Done p' /\ linked p' q.
Proof. destruct op as [size|i|deltaTime]; [apply send_linked|apply receive_linked|by intros ? _; apply update_linked]. Qed.

Lemma exchange_linked p q : exchange p q -> linked p q.
Proof.
  induction 1 as [ps ps' Hps Hps'|p q _ IH|op p q p' _ IH Ht E]; [by apply new_linked|by apply linked_swap|].
  destruct (step_linked op p q IH Ht) as (p1 & E1 & L). rewrite E in E1. by injection E1 as <-.
Qed.

(** ** Properties *)

(** C13: two peers send, receive and wait in any order, over a network that
    loses, repeats and reorders their messages, as long as every step is
    [timely]: the sequence does not wrap, a message that arrives is at most 31
    packets ahead of the newest one heard, and what it acknowledges is at most
    five packets old, or so old (35) that it has left the ring.  Then no
    assertion fails; a packet that one takes for acknowledged was heard by the
    other; and a message of the other that acknowledges a packet at most five
    packets old makes known exactly what it had heard of the last 31 packets
    when it sent it.  [late_ack_unsound] shows that an acknowledgement that is
    not timely makes a packet that was never heard pass for acknowledged. *)
Theorem acks_exact p q : exchange p q ->
  (forall op, timely op (p_sent q) p -> exists p', peer_step op (p_sent q) p = Done p' /\ exchange p' q) /\
  acked_heard p q /\ acked_heard q p /\
  forall i m p', p_sent q !! i = Some m -> timely (Receive i) (p_sent q) p ->
    peer_step (Receive i) (p_sent q) p = Done p' -> frontSent (p_ring p) <> back (p_ring p) ->
    let n := zlen (p_sent p) in
    m_ack m < n <= m_ack m + 5 -> forall s, 0 <= s -> n - cap <= s < n ->
    exists x x', slot_ago (p_ring p) (n - s) = Some x /\ slot_ago (p_ring p') (n - s) = Some x' /\
      pm_acked x' = pm_acked x || bool_decide (s ∈ m_heard m /\ m_ack m - 31 < s <= m_ack m).
Proof.
  intros X. pose proof (exchange_linked p q X) as L. split; [|split; [apply L|split; [apply L|]]].
  { intros op Ht. destruct (step_linked op p q L Ht) as (p' & E & _). exists p'. split; [done|]. by apply (exchange_step op p). }
  intros i m p' Em Ht E Hf n Hm s Hs Hsn. destruct L as [Hp Hq _ _ _ _]. cbn [peer_step timely] in *. rewrite Em in E.
  pose proof (peer_sequence p Hp) as Q. destruct (message_of q i m Hq Em) as [o1 o2 _ o3 _]. destruct Hp as [Hw Hr Hn _ _ _].
  rewrite Q, (proj2 (Z.leb_le _ _)) in E by (fold n; lia).
  destruct (packet_received_spec (m_sequence m) (m_ack m) (m_bits m) _ Hw o2) as (r & E1 & _).
  rewrite E1 in E. injection E as <-. cbn [p_ring snd].
  destruct (received_ago (m_sequence m) (m_ack m) (m_bits m) _ _ r (n - s) Hw Hr Hn ltac:(lia) ltac:(lia) ltac:(lia)
    ltac:(lia) ltac:(lia) E1) as (x & x' & H1 & H2 & H3).
  exists x, x'. do 2 (split; [done|]). rewrite H3. f_equal. fold n. replace (n - (n - s)) with s by lia.
  rewrite (proj2 (Z.eqb_neq _ _) Hf), (proj2 (Z.ltb_lt _ _)), (proj2 (Z.leb_le _ 5)) by lia. cbn [negb andb].
  destruct (Z.leb_spec 0 (m_ack m - s)) as [C|C]; cbn [andb]; [|symmetry; apply bool_decide_eq_false; lia].
  destruct (Z.ltb_spec (m_ack m - s) 31) as [D|D]; cbn [andb]; [|symmetry; apply bool_decide_eq_false; lia].
  rewrite o3 by lia. replace (m_ack m - (m_ack m - s)) with s by lia. apply bool_decide_ext. split; [|tauto]. intros Hin. split; [done|lia].
Qed.

(** ** Concrete exchanges *)

#[export] Instance timely_dec op other p : Decision (timely op other p).
Proof.
  destruct op as [size|i|deltaTime]; cbn [timely]; [apply _| |apply _].
  destruct (other !! i) as [m|]; [|left; intros m E; discriminate].
  destruct (decide (m_sequence m - ack (p_ring p) <= 31 /\ ack (p_ring p) - m_sequence m <= 32767 /\
    (sequence (p_ring p) - m_ack m <= 5 \/ cap <= sequence (p_ring p) - m_ack m))) as [T|T].
  - left. intros m' E. by injection E as <-.
  - right. intros F. apply T, (F m eq_refl).
Defined.

(** Steps of the first and of the second peer, as long as they are timely. *)
Fixpoint exchange_run (ops : list (peer_op + peer_op)) (p q : peer) : option (peer * peer) :=
  match ops with
  | [] => Some (p, q)
  | inl op :: ops' =>
      if decide (timely op (p_sent q) p) then
        match peer_step op (p_sent q) p with Done p' => exchange_run ops' p' q | Fault _ => None end
      else None
  | inr op :: ops' =>
      if decide (timely op (p_sent p) q) then
        match peer_step op (p_sent p) q with Done q' => exchange_run ops' p q' | Fault _ => None end
      else None
  end.

Lemma exchange_run_reaches ops p q p' q' : exchange p q -> exchange_run ops p q = Some (p', q') -> exchange p' q'.
Proof.
  revert p q. induction ops as [|[op|op] ops IH]; intros p q X E; cbn [exchange_run] in E; [by injection E as <- <-| |];
    destruct (decide _) as [Ht|] in E; try done; destruct (peer_step _ _ _) as [x|] eqn:S in E; try done.
  - apply (IH x q); [by apply (exchange_step op p)|done].
  - apply (IH p x); [|done]. apply exchange_swap, (exchange_step op q); [by apply exchange_swap|done..].
Qed.

Definition demo_ring : list StreamPacketMetadata := repeat no_packet 35.

Definition exchange_demo (ops : list (peer_op + peer_op)) : option (peer * peer) :=
  exchange_run ops (new_peer demo_ring) (new_peer demo_ring).

Lemma demo_reaches ops p q : exchange_demo ops = Some (p, q) -> exchange p q.
Proof. unfold exchange_demo. apply exchange_run_reaches. by apply exchange_start. Qed.

(** The first peer sends 37 packets; the second hears the first 31 of them,
    in the order they were sent, and answers. *)
Definition answered : list (peer_op + peer_op) :=
  replicate 37 (inl (Send 100)) ++ ((fun i => inr (Receive i)) <$> seq 0 31) ++ [inr (Send 100)].

Lemma answered_some : exists p q, exchange_demo answered = Some (p, q) /\ exchange p q.
Proof.
  assert (C : bool_decide (is_Some (exchange_demo answered)) = true) by (vm_compute; reflexivity).
  apply bool_decide_eq_true in C as [[p q] E]. exists p, q. split; [done|]. by apply (demo_reaches answered p q).
Qed.

(** The first message of the second peer arrives: is the newest packet of the
    first one acknowledged although it was not heard? *)
Definition wrongly_acked (p q : peer) : bool :=
  match peer_step (Receive 0) (p_sent q) p with
  | Done p' => bool_decide (pm_acked <$> slot_ago (p_ring p') 1 = Some true) && bool_decide (zlen (p_sent p') - 1 ∉ p_heard q)
  | Fault _ => false
  end.

(** the age of an acknowledgement matters: after this run of timely steps the
    answer arrives, seven packets old, and the newest packet, which was not
    heard, is taken for acknowledged. *)
Theorem late_ack_unsound :
  exists p q p' x, exchange p q /\ peer_step (Receive 0) (p_sent q) p = Done p' /\ slot_ago (p_ring p') 1 = Some x /\
    pm_acked x = true /\ zlen (p_sent p') - 1 ∉ p_heard q.
Proof.
  destruct answered_some as (p & q & E & X).
  assert (C : (fun '(p, q) => wrongly_acked p q) <$> exchange_demo answered = Some true) by (vm_compute; reflexivity).
  rewrite E in C. cbn [fmap option_fmap option_map] in C. injection C as C. unfold wrongly_acked in C.
  destruct (peer_step _ _ _) as [p'|] eqn:S in C; [|done]. apply andb_true_iff in C as [C1%bool_decide_eq_true C2%bool_decide_eq_true].
  destruct (slot_ago (p_ring p') 1) as [x|] eqn:Ex; [|done]. injection C1 as C1.
  exists p, q, p', x. do 4 (split; [assumption|]). exact C2.
Qed.

(** Four packets are sent, the third is lost; the answer to the fourth comes
    back twice. *)
Definition lossy : list (peer_op + peer_op) :=
  replicate 4 (inl (Send 100)) ++ [inr (Receive 1); inr (Receive 0); inr (Receive 3); inr (Send 50);
    inl (Receive 0); inl (Update (f32_lit 1 30)); inl (Receive 0)].

Example lossy_acked : (fun '(p, _) => (fun k => pm_acked <$> slot_ago (p_ring p) k) <$> [4; 3; 2; 1]) <$> exchange_demo lossy =
  Some [Some true; Some true; Some false; Some true].
Proof. vm_compute. reflexivity. Qed.

Lemma lossy_reaches : exists p q, exchange_demo lossy = Some (p, q) /\ exchange p q.
Proof.
  assert (C : bool_decide (is_Some (exchange_demo lossy)) = true) by (vm_compute; reflexivity).
  apply bool_decide_eq_true in C as [[p q] E]. exists p, q. split; [done|]. by apply (demo_reaches lossy p q).
Qed.

Lemma acks_exact_witness : exists p q, exchange_demo lossy = Some (p, q) /\ acked_heard p q /\ acked_heard q p.
Proof.
  destruct lossy_reaches as (p & q & E & X). exists p, q. split; [done|].
  destruct (acks_exact p q X) as (_ & A & A' & _). by split.
Defined.
