(* ===== verification/Stream.v ===== *)
(** * Streams (src/stream.c, src/stream.h, src/stream_internal.h)

    A peer keeps a list of streams, one per remote address, on one socket.
    All of it runs on a serial dispatch queue: the tasks that were dispatched
    and the ticks of a timer, which is suspended while there is no stream.  A
    step of the model is one task or one tick; the callbacks of the
    application are recorded in the order of their calls. *)
From S2P Require Import Prelude Bitstream Wire Fields Net Protocol LinkedList Queue Pool NetSocket.
From S2P Require Import Floats StreamFlow StreamReliability.

Definition kStreamListCapacity : Z := 5.
Definition kStreamTimeout : double := f64_of_Z 5.
(** [1.0f/kStreamFlowMaxRate], which is the rate of the good mode. *)
Definition kStreamTimerUpdateInterval : float := f32_div (f32_of_Z 1) kStreamFlowModeGoodRate.

Inductive StreamState := StreamWaiting | StreamConnected | StreamDisconnected | StreamTimeout.

#[export] Instance StreamState_eq_dec : EqDecision StreamState.
Proof. solve_decision. Defined.

(** The links [next] and [previous] are not used by the program. *)
Record Stream := mkStream {
  st_state : StreamState;
  st_reliability : StreamReliability;
  st_flow : StreamFlow;
  st_address : net_addr_t;
  st_timeoutAccumulator : float;
  st_updateAccumulator : float;
}.

Definition with_state (x : StreamState) (st : Stream) : Stream :=
  mkStream x (st_reliability st) (st_flow st) (st_address st) (st_timeoutAccumulator st)
    (st_updateAccumulator st).
Definition with_reliability (x : StreamReliability) (st : Stream) : Stream :=
  mkStream (st_state st) x (st_flow st) (st_address st) (st_timeoutAccumulator st)
    (st_updateAccumulator st).
Definition with_flow (x : StreamFlow) (st : Stream) : Stream :=
  mkStream (st_state st) (st_reliability st) x (st_address st) (st_timeoutAccumulator st)
    (st_updateAccumulator st).
Definition with_timeoutAccumulator (x : float) (st : Stream) : Stream :=
  mkStream (st_state st) (st_reliability st) (st_flow st) (st_address st) x
    (st_updateAccumulator st).
Definition with_updateAccumulator (x : float) (st : Stream) : Stream :=
  mkStream (st_state st) (st_reliability st) (st_flow st) (st_address st)
    (st_timeoutAccumulator st) x.

(** A block given to the dispatch queue of the streams. *)
Inductive stream_task :=
| TaskAdd (address : net_addr_t)
| TaskRemove (address : net_addr_t)
| TaskTimeout (stream : Z)
| TaskReceive (packet : Z).

(** A call of one of the callbacks of the application. *)
Inductive stream_event :=
| EventUpdate
| EventReceive (address : net_addr_t) (object : StreamObject)
| EventTimeout (address : net_addr_t)
| EventSuspend.

(** The callbacks of the application; zero is NULL. *)
Record stream_callbacks := mkStreamCallbacks {
  cb_update : Z;
  cb_receive : Z;
  cb_timeout : Z;
  cb_suspend : Z;
}.

Record StreamConfiguration := mkConfig {
  c_socket : net_socket_s;
  c_address : net_addr_t;
  c_streamDispatchQueue : list stream_task;
  c_active : bool;
  c_callbacks : stream_callbacks;
  c_streams : list_s;
  c_heap : gmap Z Stream;         (* the streams that were allocated *)
  c_events : list stream_event;   (* the callbacks called so far *)
}.

Definition set_socket (x : net_socket_s) (c : StreamConfiguration) : StreamConfiguration :=
  mkConfig x (c_address c) (c_streamDispatchQueue c) (c_active c) (c_callbacks c) (c_streams c)
    (c_heap c) (c_events c).
Definition set_tasks (x : list stream_task) (c : StreamConfiguration) : StreamConfiguration :=
  mkConfig (c_socket c) (c_address c) x (c_active c) (c_callbacks c) (c_streams c)
    (c_heap c) (c_events c).
Definition set_active (x : bool) (c : StreamConfiguration) : StreamConfiguration :=
  mkConfig (c_socket c) (c_address c) (c_streamDispatchQueue c) x (c_callbacks c) (c_streams c)
    (c_heap c) (c_events c).
Definition set_streams (x : list_s) (c : StreamConfiguration) : StreamConfiguration :=
  mkConfig (c_socket c) (c_address c) (c_streamDispatchQueue c) (c_active c) (c_callbacks c) x
    (c_heap c) (c_events c).
Definition set_streams_heap (x : gmap Z Stream) (c : StreamConfiguration) : StreamConfiguration :=
  mkConfig (c_socket c) (c_address c) (c_streamDispatchQueue c) (c_active c) (c_callbacks c)
    (c_streams c) x (c_events c).
Definition set_events (x : list stream_event) (c : StreamConfiguration) : StreamConfiguration :=
  mkConfig (c_socket c) (c_address c) (c_streamDispatchQueue c) (c_active c) (c_callbacks c)
    (c_streams c) (c_heap c) x.

(** ** The parts of a configuration *)

Definition on_socket {A} (m : prog net_socket_s A) : prog StreamConfiguration A := fun c =>
  match m (c_socket c) with Done (a, s) => Done (a, set_socket s c) | Fault f => Fault f end.

Definition on_streams {A} (m : prog list_s A) : prog StreamConfiguration A := fun c =>
  match m (c_streams c) with Done (a, l) => Done (a, set_streams l c) | Fault f => Fault f end.

(** The memory a pointer to a stream points to. *)
Definition stream_at (heap : gmap Z Stream) (stream : Z) : outcome Stream :=
  if stream =? 0 then Fault NullPointer
  else match heap !! stream with Some st => Done st | None => Fault OutOfBounds end.

Definition get_stream (stream : Z) : prog StreamConfiguration Stream := fun c =>
  st <-! stream_at (c_heap c) stream ;; Done (st, c).

Definition put_stream (stream : Z) (st : Stream) : prog StreamConfiguration unit :=
  _ <- get_stream stream ;;
  modify (fun c => set_streams_heap (<[stream := st]> (c_heap c)) c).

Definition on_stream (stream : Z) (f : Stream -> Stream) : prog StreamConfiguration unit :=
  st <- get_stream stream ;; put_stream stream (f st).

Definition on_reliability {A} (stream : Z) (m : prog StreamReliability A) :
    prog StreamConfiguration A :=
  st <- get_stream stream ;;
  let* '(a, r) := lift (m (st_reliability st)) in
  put_stream stream (with_reliability r st) ;;
  ret a.

Definition dispatch_async (task : stream_task) : prog StreamConfiguration unit :=
  modify (fun c => set_tasks (c_streamDispatchQueue c ++ [task]) c).

(** A call through a pointer to a function. *)
Definition call (callback : stream_callbacks -> Z) (event : stream_event) :
    prog StreamConfiguration unit :=
  c <- get ;;
  if callback (c_callbacks c) =? 0 then fail NullPointer
  else modify (fun c => set_events (c_events c ++ [event]) c).

(** [list_iterate] with a block that works on the configuration; the block
    does not change the list. *)
Definition iterate_streams {A} (block : A -> Z -> prog StreamConfiguration A) (a : A) :
    prog StreamConfiguration A := fun c =>
  r <-! list_iterate (c_streams c) (fun s stream => s <-! s ;; block (fst s) stream (snd s)) (Done (a, c)) ;;
  r.

(** ** Suspending and resuming the timer *)

Definition streamSuspend : prog StreamConfiguration unit :=
  c <- get ;;
  if c_active c then
    modify (set_active false) ;;
    call cb_suspend EventSuspend
  else ret tt.

Definition streamResume : prog StreamConfiguration unit :=
  c <- get ;;
  if negb (c_active c) then
    if negb (list_is_empty (c_streams c)) then modify (set_active true) else ret tt
  else ret tt.

(** ** Streams *)

(** The memory [memset] leaves: zero, which is also [StreamWaiting]. *)
Definition blank_metadata : list StreamPacketMetadata :=
  replicate (Z.to_nat kStreamReliabilityBufferCapacity) (mkMetadata 0 f_zero 0 false).

(** [memory] is the address [malloc] returns. *)
Definition streamCreate (memory : Z) (address : net_addr_t) : prog StreamConfiguration Z :=
  (if negb (memory =? 0) then
     modify (fun c => set_streams_heap
       (<[memory := mkStream StreamWaiting (streamReliabilityClear blank_metadata) streamFlowClear
                      (net_addr_copy address) f_zero f_zero]> (c_heap c)) c)
   else ret tt) ;;
  ret memory.

(** The block that compares the address of a stream. *)
Definition has_address (heap : gmap Z Stream) (address : net_addr_t) (stream : Z) : outcome bool :=
  st <-! stream_at heap stream ;; Done (net_addr_is_equal (st_address st) address).

Definition find_stream (address : net_addr_t) : prog StreamConfiguration Z := fun c =>
  stream <-! list_find (c_streams c) (has_address (c_heap c) address) ;; Done (stream, c).

Definition streamDoesExist (address : net_addr_t) : prog StreamConfiguration bool :=
  stream <- find_stream address ;; ret (negb (stream =? 0)).

Definition streamListIsEmpty : prog StreamConfiguration bool :=
  gets (fun c => list_is_empty (c_streams c)).

Definition streamAdd (streamRemoteAddress : net_addr_t) : prog StreamConfiguration unit :=
  dispatch_async (TaskAdd (net_addr_copy streamRemoteAddress)).

Definition streamRemove (streamRemoteAddress : net_addr_t) : prog StreamConfiguration unit :=
  dispatch_async (TaskRemove (net_addr_copy streamRemoteAddress)).

Definition streamTimeout (stream : Z) : prog StreamConfiguration unit :=
  dispatch_async (TaskTimeout stream).

Section Allocation.
Context (realloc : gmap Z list_node_s -> Z -> option (gmap Z list_node_s)).

(** The block of [streamAdd]. *)
Definition run_add (memory : Z) (address : net_addr_t) : prog StreamConfiguration unit :=
  stream <- find_stream address ;;
  if stream =? 0 then
    stream <- streamCreate memory address ;;
    on_streams (list_add realloc stream) ;;
    _ <- get_stream stream ;;    (* its address is logged *)
    streamResume
  else ret tt.
End Allocation.

(** The block of [streamRemove]. *)
Definition run_remove (address : net_addr_t) : prog StreamConfiguration unit :=
  stream <- find_stream address ;;
  if negb (stream =? 0) then
    on_streams (list_remove stream) ;;
    c <- get ;;
    if list_is_empty (c_streams c) then streamSuspend else ret tt
  else ret tt.

(** The block of [streamTimeout]. *)
Definition run_timeout (stream : Z) : prog StreamConfiguration unit :=
  on_stream stream (with_state StreamTimeout) ;;
  st <- get_stream stream ;;
  call cb_timeout (EventTimeout (st_address st)).

Definition streamUpdate (stream : Z) : prog StreamConfiguration bool :=
  on_reliability stream (streamReliabilityUpdate kStreamTimerUpdateInterval) ;;
  on_stream stream (fun st => with_flow
    (streamFlowUpdate (rtt (st_reliability st)) kStreamTimerUpdateInterval (st_flow st)) st) ;;
  on_stream stream (fun st => with_timeoutAccumulator
    (f32_add (st_timeoutAccumulator st) kStreamTimerUpdateInterval) st) ;;
  st <- get_stream stream ;;
  (if f_gt (f64_of_f32 (st_timeoutAccumulator st)) kStreamTimeout then streamTimeout stream
   else ret tt) ;;
  on_stream stream (fun st => with_updateAccumulator
    (f32_add (st_updateAccumulator st) kStreamTimerUpdateInterval) st) ;;
  st <- get_stream stream ;;
  if f_ge (st_updateAccumulator st) (fl_updateInterval (st_flow st)) then
    on_stream stream (with_updateAccumulator f_zero) ;;
    ret true
  else ret false.

Section Messages.
Context `{Host}.

Definition streamSend (stream : Z) (object : StreamObject) : prog StreamConfiguration unit :=
  st <- get_stream stream ;;
  if decide (st_state st = StreamConnected \/ st_state st = StreamWaiting) then
    packet <- on_socket net_packet_alloc ;;
    if packet =? 0 then ret tt
    else
      on_socket (on_bitstream packet
        (streamProtocolPackHeader (sequence (st_reliability st)) (ack (st_reliability st))
           (ackBits (st_reliability st)))) ;;
      on_socket (on_bitstream packet (streamProtocolPackData object)) ;;
      on_socket (on_packet packet (fun k => net_packet_addr k (st_address st))) ;;
      on_socket (net_socket_send packet) ;;
      k <- on_socket (get_packet packet) ;;
      on_reliability stream (streamReliabilityPacketSent (pk_length k)) ;;
      on_socket (net_packet_release packet)
  else ret tt.

Definition streamReceive (stream s a bits : Z) (object : StreamObject) :
    prog StreamConfiguration unit :=
  st <- get_stream stream ;;
  if a <=? sequence (st_reliability st) then
    on_stream stream (with_timeoutAccumulator f_zero) ;;
    on_reliability stream (streamReliabilityPacketReceived s a bits) ;;
    st <- get_stream stream ;;
    call cb_receive (EventReceive (st_address st) object)
  else ret tt.

(** [uninit] is what the variable [updateObject] held, [update] what the
    application makes of it. *)
Definition streamTimerCallback (uninit : StreamObject) (update : StreamObject -> StreamObject) :
    prog StreamConfiguration unit :=
  c <- get ;;
  if negb (list_is_empty (c_streams c)) then
    syncUpdate <- iterate_streams (fun sync stream =>
      streamShouldUpdate <- streamUpdate stream ;; ret (sync && streamShouldUpdate)) true ;;
    if syncUpdate then
      call cb_update EventUpdate ;;
      let updateObject := update (streamObjectSetup uninit) in
      iterate_streams (fun _ stream => streamSend stream updateObject) tt
    else ret tt
  else ret tt.

Definition streamSocketReceiveCallback (packet : Z) : prog StreamConfiguration unit :=
  dispatch_async (TaskReceive packet).

(** The block of [streamSocketReceiveCallback]; [out] and [uninit] are what
    its variables held. *)
Definition run_receive (out : Z * Z * Z) (uninit : StreamObject) (packet : Z) :
    prog StreamConfiguration unit :=
  let* '(result, hdr) := on_socket (on_bitstream packet (streamProtocolUnpackHeader out)) in
  (if decide (result = UnpackValid) then
     k <- on_socket (get_packet packet) ;;
     stream <- find_stream (pk_addr k) ;;
     (if stream =? 0 then streamAdd (pk_addr k) else ret tt) ;;
     if negb (stream =? 0) then
       let* '(_, receiveObject) :=
         on_socket (on_bitstream packet (streamProtocolUnpackData (streamObjectSetup uninit))) in
       streamReceive stream (fst (fst hdr)) (snd (fst hdr)) (snd hdr) receiveObject
     else ret tt
   else ret tt) ;;
  on_socket (net_packet_release packet).

(** ** Steps *)

(** What the variables of a task held before. *)
Record stream_env := mkEnv {
  env_out : Z * Z * Z;
  env_object : StreamObject;
}.

Context (realloc : gmap Z list_node_s -> Z -> option (gmap Z list_node_s)).
Context (malloc : gmap Z Stream -> Z).

(** The serial queue runs its first task. *)
Definition run_task (env : stream_env) : prog StreamConfiguration unit :=
  c <- get ;;
  match c_streamDispatchQueue c with
  | [] => ret tt
  | task :: tasks =>
      modify (set_tasks tasks) ;;
      match task with
      | TaskAdd address => run_add realloc (malloc (c_heap c)) address
      | TaskRemove address => run_remove address
      | TaskTimeout stream => run_timeout stream
      | TaskReceive packet => run_receive (env_out env) (env_object env) packet
      end
  end.

(** The timer fires, if it is not suspended. *)
Definition timer_event (uninit : StreamObject) (update : StreamObject -> StreamObject) :
    prog StreamConfiguration unit :=
  c <- get ;;
  if c_active c then streamTimerCallback uninit update else ret tt.

(** The global queue is concurrent: the packets read reach the callback in
    any order. *)
Definition deliver (i : nat) : prog StreamConfiguration unit :=
  c <- get ;;
  match s_delivered (c_socket c) !! i with
  | None => ret tt
  | Some packet =>
      on_socket (modify (fun s => set_delivered (delete i (s_delivered s)) s)) ;;
      streamSocketReceiveCallback packet
  end.

(** ** Setting up *)

(** [context] is the address of the configuration, [receive] that of
    [streamSocketReceiveCallback]; [config] is what the memory of the
    configuration held.  Without a socket there is no configuration to use. *)
Definition streamSetup (config : StreamConfiguration) (context receive port : Z)
    (callbacks : stream_callbacks) (os : os_answers) (ifs : Z + list ifaddr)
    (memory : gmap Z net_packet_s) : outcome (NetError * option StreamConfiguration) :=
  created <-! net_socket_create AF_INET port os memory ;;
  if decide (created.1 <> NetNoError) then Done (created.1, None)
  else match created.2 with
  | None => Fault NullPointer
  | Some s =>
      receiving <-! net_socket_set_receive_callback context receive s ;;
      let s := receiving.2 in
      let address := net_socket_local_addr ifs (c_address config) s in
      if (cb_update callbacks =? 0) || (cb_receive callbacks =? 0) || (cb_timeout callbacks =? 0) then
        Done (NetInvalidError,
              Some (mkConfig s address (c_streamDispatchQueue config) (c_active config) callbacks
                      (c_streams config) (c_heap config) (c_events config)))
      else
        streams <-! list_create realloc kStreamListCapacity ;;
        Done (NetNoError, Some (mkConfig s address [] false callbacks streams ∅ []))
  end.

End Messages.
