(* ===== verification/StreamSpec.v ===== *)
(** * Properties of the streams

    The invariant of a configuration: its socket, its table of streams and
    its queue of tasks; what each operation does to it; and what a message
    does on its way from one peer to another. *)
From S2P Require Import Prelude Bitstream Wire Fields Net Protocol LinkedList Queue Pool.
From S2P Require Import NetSocket NetSocketSpec Floats StreamFlow StreamReliability StreamReliabilitySpec Stream.

(** ** The invariant *)

Record stream_wf (st : Stream) : Prop := {
  sw_ring : ring_wf (st_reliability st);
  sw_flow : flow_wf (st_flow st);
  sw_ack : uint_ok 4 (ack (st_reliability st));
  sw_bits : uint_ok 4 (ackBits (st_reliability st));
  sw_state : st_state st = StreamWaiting \/ st_state st = StreamTimeout;
}.

(** The address of a stream of the list. *)
Definition stream_address (heap : gmap Z Stream) (stream : Z) : option net_addr_t :=
  st_address <$> heap !! stream.

Record table_holds (l : list_s) (heap : gmap Z Stream) (streams : list Z) : Prop := {
  th_list : list_holds l streams;
  th_heap : forall o st, heap !! o = Some st -> o <> 0 /\ stream_wf st;
  th_in : forall o, o ∈ streams -> is_Some (heap !! o);
  th_addresses : NoDup (stream_address heap <$> streams);
}.

Definition task_packet (task : stream_task) : list Z :=
  match task with TaskReceive packet => [packet] | _ => [] end.

Definition task_packets (tasks : list stream_task) : list Z := tasks ≫= task_packet.

(** The packets that were received and not handled yet. *)
Definition waiting (s : net_socket_s) (tasks : list stream_task) : list Z :=
  s_delivered s ++ task_packets tasks.

Record packets_hold (s : net_socket_s) (tasks : list stream_task) (held pending : list Z) : Prop := {
  ph_socket : socket_holds s (waiting s tasks ++ held) pending;
  ph_distinct : NoDup (references s (waiting s tasks ++ held) pending);
  ph_unread : forall o, o ∈ waiting s tasks -> exists k, s_packets s !! o = Some k /\ unread k;
  ph_receiver : has_receiver (s_receiver s) = true;
}.

Definition tasks_ok (tasks : list stream_task) (heap : gmap Z Stream) : Prop :=
  forall o, TaskTimeout o ∈ tasks -> is_Some (heap !! o).

Definition callbacks_set (cb : stream_callbacks) : Prop :=
  cb_update cb <> 0 /\ cb_receive cb <> 0 /\ cb_timeout cb <> 0 /\ cb_suspend cb <> 0.

Record config_holds (c : StreamConfiguration) (streams held pending : list Z) : Prop := {
  ch_packets : packets_hold (c_socket c) (c_streamDispatchQueue c) held pending;
  ch_table : table_holds (c_streams c) (c_heap c) streams;
  ch_tasks : tasks_ok (c_streamDispatchQueue c) (c_heap c);
  ch_active : c_active c = true -> streams <> [];
  ch_callbacks : callbacks_set (c_callbacks c);
}.

(** ** Reading and writing a stream *)

Lemma stream_at_done heap o st : o <> 0 -> heap !! o = Some st -> stream_at heap o = Done st.
Proof. intros Ho E. unfold stream_at. by rewrite (proj2 (Z.eqb_neq o 0)), E. Qed.

Lemma get_stream_done c o st : o <> 0 -> c_heap c !! o = Some st -> get_stream o c = Done (st, c).
Proof. intros Ho E. unfold get_stream. by rewrite (stream_at_done _ _ _ Ho E). Qed.

Lemma put_stream_done c o st st' : o <> 0 -> c_heap c !! o = Some st ->
  put_stream o st' c = Done (tt, set_streams_heap (<[o := st']> (c_heap c)) c).
Proof.
  intros Ho E. unfold put_stream. by rewrite (bind_done _ _ _ _ _ (get_stream_done c o st Ho E)).
Qed.

Lemma on_stream_done c o st f : o <> 0 -> c_heap c !! o = Some st ->
  on_stream o f c = Done (tt, set_streams_heap (<[o := f st]> (c_heap c)) c).
Proof.
  intros Ho E. unfold on_stream. rewrite (bind_done _ _ _ _ _ (get_stream_done c o st Ho E)).
  by apply (put_stream_done c o st).
Qed.

Lemma on_reliability_done {A} c o st (m : prog StreamReliability A) a r : o <> 0 ->
  c_heap c !! o = Some st -> m (st_reliability st) = Done (a, r) ->
  on_reliability o m c = Done (a, set_streams_heap (<[o := with_reliability r st]> (c_heap c)) c).
Proof.
  intros Ho E Em. unfold on_reliability. rewrite (bind_done _ _ _ _ _ (get_stream_done c o st Ho E)).
  unfold bind at 1, lift. rewrite Em.
  by rewrite (bind_done _ _ _ _ _ (put_stream_done c o st _ Ho E)).
Qed.

Lemma on_socket_done {A} (m : prog net_socket_s A) c a s : m (c_socket c) = Done (a, s) ->
  on_socket m c = Done (a, set_socket s c).
Proof. intros E. unfold on_socket. by rewrite E. Qed.

Lemma call_done cb e c : cb (c_callbacks c) <> 0 ->
  call cb e c = Done (tt, set_events (c_events c ++ [e]) c).
Proof. intros E. unfold call. by rewrite bind_get, (proj2 (Z.eqb_neq _ 0)). Qed.

(** Two writes to the same stream are the last one. *)
Lemma heap_twice c o st st' :
  set_streams_heap (<[o := st']> (c_heap (set_streams_heap (<[o := st]> (c_heap c)) c)))
    (set_streams_heap (<[o := st]> (c_heap c)) c) = set_streams_heap (<[o := st']> (c_heap c)) c.
Proof. unfold set_streams_heap. cbn. by rewrite insert_insert_eq. Qed.

(** ** The table of streams *)

Lemma table_update l heap streams o st st' : table_holds l heap streams ->
  heap !! o = Some st -> stream_wf st' -> st_address st' = st_address st ->
  table_holds l (<[o := st']> heap) streams.
Proof.
  intros [Hl Hh Hi Hn] E W Ea. split; [done| | |].
  - intros x stx Hx. apply lookup_insert_Some in Hx as [[<- <-]|[_ Hx]]; [|by apply Hh].
    split; [by apply (Hh o st)|done].
  - intros x Hx. destruct (decide (o = x)) as [->|Hne];
      [rewrite lookup_insert_eq; by eexists|rewrite lookup_insert_ne by done; by apply Hi].
  - assert (Q : stream_address (<[o := st']> heap) <$> streams = stream_address heap <$> streams); [|by rewrite Q].
    apply list_fmap_ext. intros _ x _. unfold stream_address. destruct (decide (o = x)) as [->|Hne].
    + rewrite lookup_insert_eq, E. cbn. by rewrite Ea.
    + by rewrite lookup_insert_ne.
Qed.

Lemma tasks_update tasks heap o st : tasks_ok tasks heap -> tasks_ok tasks (<[o := st]> heap).
Proof.
  intros H x Hx. destruct (decide (o = x)) as [->|Hne];
    [rewrite lookup_insert_eq; by eexists|rewrite lookup_insert_ne by done; by apply H].
Qed.

(** Is there a stream of this address? *)
Definition addressed (heap : gmap Z Stream) (streams : list Z) (address : net_addr_t) (o : Z) : Prop :=
  o ∈ streams /\ exists st, heap !! o = Some st /\ st_address st = address.

Lemma find_stream_holds c streams address : table_holds (c_streams c) (c_heap c) streams ->
  exists o, find_stream address c = Done (o, c) /\
    if o =? 0 then forall x, ~ addressed (c_heap c) streams address x
    else addressed (c_heap c) streams address o.
Proof.
  intros [Hl Hh Hi Hn].
  pose (test := fun o => match c_heap c !! o with Some st => net_addr_is_equal (st_address st) address | None => false end).
  assert (Hb : forall o, o ∈ streams -> has_address (c_heap c) address o = Done (test o)).
  { intros o Ho. destruct (Hi o Ho) as [st E]. destruct (Hh o st E) as [Ho0 _].
    unfold has_address. by rewrite (stream_at_done _ _ _ Ho0 E); unfold test; rewrite E. }
  unfold find_stream. rewrite (find_holds _ _ _ test Hl Hb). cbn [obind].
  eexists. split; [reflexivity|].
  destruct (filter (fun o => test o = true) streams) as [|o os] eqn:F.
  - cbn. intros x (Hx & st & E & Ha).
    assert (Hf : x ∈ filter (fun o => test o = true) streams).
    { apply list_elem_of_filter. split; [|done]. unfold test. rewrite E.
      apply net_addr_is_equal_spec, Ha. }
    rewrite F in Hf. by apply not_elem_of_nil in Hf.
  - assert (Hf : o ∈ filter (fun o => test o = true) streams) by (rewrite F; by left).
    apply list_elem_of_filter in Hf as [Ht Ho]. cbn. destruct (Hi o Ho) as [st E].
    destruct (Hh o st E) as [Ho0 _]. rewrite (proj2 (Z.eqb_neq o 0)) by done.
    unfold test in Ht. rewrite E in Ht. split; [done|]. exists st. split; [done|].
    by apply net_addr_is_equal_spec.
Qed.

Lemma addressed_unique l heap streams address o o' : table_holds l heap streams ->
  addressed heap streams address o -> addressed heap streams address o' -> o = o'.
Proof.
  intros [_ _ _ Hn] (Ho & st & E & Ea) (Ho' & st' & E' & Ea').
  apply list_elem_of_lookup in Ho as [i Hi], Ho' as [j Hj].
  assert (i = j); [|by simplify_eq].
  eapply NoDup_lookup; [exact Hn| |]; rewrite list_lookup_fmap.
  - rewrite Hi. cbn. unfold stream_address. rewrite E. reflexivity.
  - rewrite Hj. cbn. unfold stream_address. rewrite E'. cbn. by rewrite Ea', <- Ea.
Qed.

Lemma find_stream_found c streams address o : table_holds (c_streams c) (c_heap c) streams ->
  addressed (c_heap c) streams address o -> find_stream address c = Done (o, c).
Proof.
  intros H Ho. destruct (find_stream_holds c streams address H) as (x & E & A).
  destruct (Z.eqb_spec x 0) as [->|Hx]; [by destruct (A o)|].
  by rewrite (addressed_unique _ _ _ _ _ _ H Ho A).
Qed.

(** ** Tasks that do not touch the socket *)

Lemma reliability_blank : ring_wf (streamReliabilityClear blank_metadata).
Proof. by apply clear_wf. Qed.

Lemma flow_clear_wf : flow_wf streamFlowClear.
Proof. exact (flow_run_wf []). Qed.

(** A stream that was just created. *)
Definition new_stream (address : net_addr_t) : Stream :=
  mkStream StreamWaiting (streamReliabilityClear blank_metadata) streamFlowClear address f_zero f_zero.

Lemma new_stream_wf address : stream_wf (new_stream address).
Proof. split; [apply reliability_blank|apply flow_clear_wf|done|done|by left]. Qed.

Lemma table_add l heap streams o address : table_holds l heap streams ->
  o <> 0 -> heap !! o = None -> (forall x, ~ addressed heap streams address x) ->
  forall l', list_holds l' (streams ++ [o]) ->
  table_holds l' (<[o := new_stream address]> heap) (streams ++ [o]).
Proof.
  intros [Hl Hh Hi Hn] Ho En Hx l' Hl'.
  assert (Hne : forall x, x ∈ streams -> o <> x).
  { intros x Hin <-. destruct (Hi o Hin) as [? E]. congruence. }
  split; [done| | |].
  - intros x st E. apply lookup_insert_Some in E as [[<- <-]|[_ E]]; [split; [done|apply new_stream_wf]|by apply Hh].
  - intros x Hin. apply elem_of_app in Hin as [Hin|Hin].
    + rewrite lookup_insert_ne by (by apply Hne). by apply Hi.
    + apply list_elem_of_singleton in Hin as ->. rewrite lookup_insert_eq. by eexists.
  - rewrite fmap_app. assert (Q : stream_address (<[o := new_stream address]> heap) <$> streams =
                                  stream_address heap <$> streams).
    { apply list_fmap_ext. intros i x Hix. unfold stream_address. rewrite lookup_insert_ne; [done|].
      apply Hne. by eapply list_elem_of_lookup_2. }
    rewrite Q. apply NoDup_app. split; [done|]. split; [|apply NoDup_singleton].
    intros a Ha Ha'. apply list_elem_of_singleton in Ha' as ->.
    apply list_elem_of_fmap in Ha as (x & E & Hin). unfold stream_address in E at 1. cbn in E.
    rewrite lookup_insert_eq in E. cbn in E. unfold stream_address in E.
    destruct (heap !! x) as [st|] eqn:Ex; [|done]. cbn in E. injection E as E.
    apply (Hx x). split; [done|]. by exists st.
Qed.

Lemma remove_first_sublist o l : remove_first o l `sublist_of` l.
Proof.
  induction l as [|x l IH]; cbn; [constructor|]. destruct (x =? o); [by apply sublist_cons|].
  by apply sublist_skip.
Qed.

Lemma table_remove l heap streams o l' : table_holds l heap streams ->
  list_holds l' (remove_first o streams) -> table_holds l' heap (remove_first o streams).
Proof.
  intros [Hl Hh Hi Hn] Hl'. pose proof (remove_first_sublist o streams) as Hs. split; [done|done| |].
  - intros x Hx. apply Hi. by eapply elem_of_sublist.
  - eapply sublist_NoDup; [exact Hn|]. by apply fmap_sublist.
Qed.

(** What the tasks of the table leave alone. *)
Record same_socket (c c' : StreamConfiguration) : Prop := {
  ss_socket : c_socket c' = c_socket c;
  ss_tasks : c_streamDispatchQueue c' = c_streamDispatchQueue c;
  ss_callbacks : c_callbacks c' = c_callbacks c;
}.

Section Tasks.
Context (realloc : gmap Z list_node_s -> Z -> option (gmap Z list_node_s)).
Hypothesis realloc_ok : realloc_keeps realloc.
Hypothesis realloc_some : forall old n, realloc old n <> None.

(** Adding an address: a new stream, unless there is one already. *)
Lemma run_add_holds c streams held pending memory address : config_holds c streams held pending ->
  memory <> 0 -> c_heap c !! memory = None -> l_capacity (c_streams c) + kListDefaultCapacity < 2 ^ 31 ->
  exists c' streams', run_add realloc memory address c = Done (tt, c') /\
    config_holds c' streams' held pending /\ same_socket c c' /\ c_events c' = c_events c /\
    l_capacity (c_streams c') <= l_capacity (c_streams c) + kListDefaultCapacity /\
    ((streams' = streams /\ c' = c /\ exists o, addressed (c_heap c) streams address o) \/
     (streams' = streams ++ [memory] /\ (forall o, ~ addressed (c_heap c) streams address o) /\
      c_heap c' = <[memory := new_stream address]> (c_heap c) /\ c_active c' = true)).
Proof.
  intros [Hp Ht Hk Ha Hcb] Hm En Hcap. unfold run_add.
  destruct (find_stream_holds c streams address Ht) as (o & E & A). rewrite (bind_done _ _ _ _ _ E).
  destruct (Z.eqb_spec o 0) as [->|Ho].
  2:{ exists c, streams. split; [done|]. split; [by split|]. split; [by split|]. split; [done|].
      split; [unfold kListDefaultCapacity; lia|]. left. split; [done|]. split; [done|]. by exists o. }
  unfold streamCreate. rewrite (proj2 (Z.eqb_neq memory 0)) by done. cbn [negb].
  rewrite bind_assoc, bind_modify, bind_ret_l.
  change (net_addr_copy address) with address. fold (new_stream address).
  set (c1 := set_streams_heap _ c).
  destruct (list_add_holds realloc memory (c_streams c) streams realloc_ok realloc_some Hcap (th_list _ _ _ Ht))
    as (l' & El & Hl' & Hc').
  assert (E1 : on_streams (list_add realloc memory) c1 = Done (tt, set_streams l' c1)).
  { unfold on_streams. change (c_streams c1) with (c_streams c). by rewrite El. }
  rewrite (bind_done _ _ _ _ _ E1). set (c2 := set_streams l' c1).
  pose proof (table_add _ _ _ memory address Ht Hm En A l' Hl') as Ht2.
  assert (Em : c_heap c2 !! memory = Some (new_stream address)) by (cbn; apply lookup_insert_eq).
  rewrite (bind_done _ _ _ _ _ (get_stream_done c2 memory _ Hm Em)).
  assert (Er : streamResume c2 = Done (tt, set_active true c2)).
  { unfold streamResume. rewrite bind_get. change (c_streams c2) with l'.
    rewrite (is_empty_holds _ _ Hl').
    rewrite bool_decide_false by (by destruct streams).
    change (c_active c2) with (c_active c). destruct (c_active c) eqn:Hact; [|done].
    cbn. unfold ret. do 2 f_equal. unfold set_active, c2, c1. cbn. rewrite <- Hact. reflexivity. }
  rewrite Er. eexists _, (streams ++ [memory]). split; [reflexivity|].
  split; [split; [done|exact Ht2|by apply tasks_update|by destruct streams|done]|].
  split; [by split|]. split; [done|]. split; [done|]. by right.
Qed.

End Tasks.

Lemma suspend_done c : c_active c = true -> cb_suspend (c_callbacks c) <> 0 ->
  streamSuspend c = Done (tt, set_events (c_events c ++ [EventSuspend]) (set_active false c)).
Proof.
  intros Ha Hs. unfold streamSuspend. rewrite bind_get, Ha, bind_modify. by rewrite call_done.
Qed.

Lemma suspend_inactive c : c_active c = false -> streamSuspend c = Done (tt, c).
Proof. intros Ha. unfold streamSuspend. by rewrite bind_get, Ha. Qed.

(** Removing an address: the timer is suspended with the last stream. *)
Lemma run_remove_holds c streams held pending address : config_holds c streams held pending ->
  exists c' streams', run_remove address c = Done (tt, c') /\
    config_holds c' streams' held pending /\ same_socket c c' /\ c_heap c' = c_heap c /\
    l_capacity (c_streams c') = l_capacity (c_streams c) /\
    (forall o, ~ addressed (c_heap c) streams' address o) /\
    (forall o, o ∈ streams -> o ∉ streams' -> addressed (c_heap c) streams address o) /\
    (streams' `sublist_of` streams) /\
    c_active c' = c_active c && bool_decide (streams = [] \/ streams' <> []) /\
    c_events c' = c_events c ++ (if c_active c && negb (c_active c') then [EventSuspend] else []).
Proof.
  intros [Hp Ht Hk Ha Hcb]. unfold run_remove.
  destruct (find_stream_holds c streams address Ht) as (o & E & A). rewrite (bind_done _ _ _ _ _ E).
  destruct (Z.eqb_spec o 0) as [->|Ho]; cbn [negb].
  { exists c, streams. split; [done|]. split; [by split|]. split; [by split|]. do 2 (split; [done|]).
    split; [done|]. split; [done|]. split; [done|]. rewrite bool_decide_true.
    - rewrite andb_true_r, andb_negb_r, app_nil_r. done.
    - destruct streams; [by left|by right]. }
  pose proof A as (Hin & st & Est & Ea).
  destruct (list_remove_holds o (c_streams c) streams (th_list _ _ _ Ht) Hin) as (l' & El & Hl' & Hcap).
  assert (E1 : on_streams (list_remove o) c = Done (tt, set_streams l' c)) by (unfold on_streams; by rewrite El).
  rewrite (bind_done _ _ _ _ _ E1), bind_get. set (c1 := set_streams l' c).
  pose proof (table_remove _ _ _ o l' Ht Hl') as Ht1. change (c_streams c1) with l'.
  rewrite (is_empty_holds _ _ Hl').
  assert (Hnd : NoDup streams) by (eapply NoDup_fmap_1; apply (th_addresses _ _ _ Ht)).
  assert (Hrem : forall x, x ∈ remove_first o streams <-> x ∈ streams /\ x <> o).
  { clear -Hnd. induction streams as [|y l IH]; cbn; [set_solver|]. apply NoDup_cons in Hnd as [Hy Hnd].
    destruct (Z.eqb_spec y o) as [->|Hne]; rewrite ?elem_of_cons, ?IH by done; set_solver. }
  assert (Hgone : forall x, ~ addressed (c_heap c) (remove_first o streams) address x).
  { intros x (Hx & stx & Ex & Eax). apply Hrem in Hx as [Hx Hne]. apply Hne.
    eapply addressed_unique; [exact Ht| |exact A]. split; [done|]. by exists stx. }
  assert (Honly : forall x, x ∈ streams -> x ∉ remove_first o streams -> addressed (c_heap c) streams address x).
  { intros x Hx Hx'. destruct (decide (x = o)) as [->|Hne]; [done|]. exfalso. apply Hx', Hrem. done. }
  case_bool_decide as Hemp.
  - destruct (c_active c) eqn:Hact.
    + rewrite (suspend_done c1) by (done || apply Hcb). eexists _, _. split; [reflexivity|].
      split; [split; [done|exact Ht1|done|done|done]|]. split; [by split|].
      split; [done|]. split; [done|]. split; [done|]. split; [done|].
      split; [apply remove_first_sublist|].
      rewrite (bool_decide_false (_ \/ _)); [done|]. intros [->|?]; [by apply not_elem_of_nil in Hin|done].
    + rewrite (suspend_inactive c1) by done. eexists _, _. split; [reflexivity|].
      split; [split; [done|exact Ht1|done|cbn; by rewrite Hact|done]|]. split; [by split|].
      split; [done|]. split; [done|]. split; [done|]. split; [done|].
      split; [apply remove_first_sublist|]. cbn. by rewrite Hact, app_nil_r.
  - eexists c1, _. split; [reflexivity|]. split; [split; [done|exact Ht1|done|done|done]|].
    split; [by split|]. split; [done|]. split; [done|]. split; [done|]. split; [done|].
    split; [apply remove_first_sublist|]. rewrite bool_decide_true by (by right).
    rewrite andb_true_r. cbn. by rewrite andb_negb_r, app_nil_r.
Qed.

Lemma with_heap_holds c streams held pending o st st' : config_holds c streams held pending ->
  c_heap c !! o = Some st -> stream_wf st' -> st_address st' = st_address st ->
  config_holds (set_streams_heap (<[o := st']> (c_heap c)) c) streams held pending.
Proof.
  intros [Hp Ht Hk Ha Hcb] E W Ea. split; [done|by apply (table_update _ _ _ o st)|by apply tasks_update|done|done].
Qed.

Lemma run_timeout_holds c streams held pending o st : config_holds c streams held pending ->
  c_heap c !! o = Some st ->
  exists c', run_timeout o c = Done (tt, c') /\ config_holds c' streams held pending /\
    same_socket c c' /\ c_heap c' = <[o := with_state StreamTimeout st]> (c_heap c) /\
    c_streams c' = c_streams c /\ c_active c' = c_active c /\
    c_events c' = c_events c ++ [EventTimeout (st_address st)].
Proof.
  intros H E. destruct (th_heap _ _ _ (ch_table _ _ _ _ H) o st E) as [Ho W]. unfold run_timeout.
  rewrite (bind_done _ _ _ _ _ (on_stream_done c o st _ Ho E)). set (c1 := set_streams_heap _ c).
  assert (E1 : c_heap c1 !! o = Some (with_state StreamTimeout st)) by (cbn; apply lookup_insert_eq).
  rewrite (bind_done _ _ _ _ _ (get_stream_done c1 o _ Ho E1)). rewrite call_done by apply (ch_callbacks _ _ _ _ H).
  eexists. split; [reflexivity|].
  assert (H1 : config_holds c1 streams held pending).
  { apply (with_heap_holds c _ _ _ o st); [done|done| |done]. destruct W. split; [done..|by right]. }
  split; [destruct H1; by split|]. by split.
Qed.

(** ** The periodic update of one stream *)

(** What a tick makes of a stream, given its new reliability. *)
Definition tick (x : float) : float := f32_add x kStreamTimerUpdateInterval.

Definition ticked_flow (r : StreamReliability) (st : Stream) : StreamFlow :=
  streamFlowUpdate (rtt r) kStreamTimerUpdateInterval (st_flow st).

Definition due (flow : StreamFlow) (st : Stream) : bool :=
  f_ge (tick (st_updateAccumulator st)) (fl_updateInterval flow).

Definition late (st : Stream) : bool :=
  f_gt (f64_of_f32 (tick (st_timeoutAccumulator st))) kStreamTimeout.

Definition ticked (r : StreamReliability) (st : Stream) : Stream :=
  mkStream (st_state st) r (ticked_flow r st) (st_address st) (tick (st_timeoutAccumulator st))
    (if due (ticked_flow r st) st then f_zero else tick (st_updateAccumulator st)).

Lemma ticked_wf r st : ring_wf r -> update_ring (st_reliability st) r -> stream_wf st ->
  stream_wf (ticked r st).
Proof.
  intros Hr [_ _ _ Ua Ub _] [Hw Hf Ha Hb Hs].
  split; cbn; [done|by apply streamFlowUpdate_spec|by rewrite Ua|by rewrite Ub|done].
Qed.

Lemma streamUpdate_done c o st : o <> 0 -> c_heap c !! o = Some st -> stream_wf st ->
  exists r, streamReliabilityUpdate kStreamTimerUpdateInterval (st_reliability st) = Done (tt, r) /\
    ring_wf r /\ update_ring (st_reliability st) r /\
    streamUpdate o c = Done (due (ticked_flow r st) st,
      set_tasks (c_streamDispatchQueue c ++ (if late st then [TaskTimeout o] else []))
        (set_streams_heap (<[o := ticked r st]> (c_heap c)) c)).
Proof.
  intros Ho E W. destruct (update_spec kStreamTimerUpdateInterval _ (sw_ring _ W)) as (r & Er & Wr & U).
  exists r. split; [exact Er|]. split; [done|]. split; [done|]. unfold streamUpdate.
  rewrite (bind_done _ _ _ _ _ (on_reliability_done c o st _ tt r Ho E Er)).
  set (st1 := with_reliability r st). set (c1 := set_streams_heap _ c).
  assert (E1 : c_heap c1 !! o = Some st1) by (cbn; apply lookup_insert_eq).
  rewrite (bind_done _ _ _ _ _ (on_stream_done c1 o st1 _ Ho E1)). unfold c1 at 1 2. rewrite heap_twice.
  set (st2 := with_flow _ st1). set (c2 := set_streams_heap _ c).
  assert (E2 : c_heap c2 !! o = Some st2) by (cbn; apply lookup_insert_eq).
  rewrite (bind_done _ _ _ _ _ (on_stream_done c2 o st2 _ Ho E2)). unfold c2 at 1 2. rewrite heap_twice.
  set (st3 := with_timeoutAccumulator _ st2). set (c3 := set_streams_heap _ c).
  assert (E3 : c_heap c3 !! o = Some st3) by (cbn; apply lookup_insert_eq).
  rewrite (bind_done _ _ _ _ _ (get_stream_done c3 o st3 Ho E3)).
  set (c4 := set_tasks (c_streamDispatchQueue c ++ (if late st then [TaskTimeout o] else [])) c3).
  assert (Ed : forall k : unit -> prog StreamConfiguration bool,
    bind (if f_gt (f64_of_f32 (st_timeoutAccumulator st3)) kStreamTimeout then streamTimeout o else ret tt) k c3
    = k tt c4).
  { intros k. change (f_gt _ kStreamTimeout) with (late st). unfold c4. destruct (late st); [done|].
    rewrite app_nil_r. done. }
  rewrite Ed. clear Ed.
  assert (E4 : c_heap c4 !! o = Some st3) by (cbn; apply lookup_insert_eq).
  rewrite (bind_done _ _ _ _ _ (on_stream_done c4 o st3 _ Ho E4)).
  set (st5 := with_updateAccumulator _ st3).
  set (c5 := set_streams_heap _ c4).
  assert (E5 : c_heap c5 !! o = Some st5) by (cbn; apply lookup_insert_eq).
  rewrite (bind_done _ _ _ _ _ (get_stream_done c5 o st5 Ho E5)).
  change (f_ge _ _) with (due (ticked_flow r st) st). unfold ticked.
  destruct (due (ticked_flow r st) st).
  - rewrite (bind_done _ _ _ _ _ (on_stream_done c5 o st5 _ Ho E5)). unfold ret, c5, c4, c3, set_streams_heap, set_tasks.
    cbn. rewrite !insert_insert_eq. reflexivity.
  - unfold ret, c5, c4, c3, set_streams_heap, set_tasks. cbn. rewrite !insert_insert_eq. reflexivity.
Qed.

Lemma add_timeout_holds c streams held pending o : config_holds c streams held pending ->
  is_Some (c_heap c !! o) ->
  config_holds (set_tasks (c_streamDispatchQueue c ++ [TaskTimeout o]) c) streams held pending.
Proof.
  intros [[Hs Hd Hu Hr] Ht Hk Ha Hcb] E.
  assert (Q : waiting (c_socket c) (c_streamDispatchQueue c ++ [TaskTimeout o]) =
              waiting (c_socket c) (c_streamDispatchQueue c)).
  { unfold waiting, task_packets. by rewrite bind_app, app_nil_r. }
  split; [|done| |done|done].
  - split; cbn; rewrite ?Q; done.
  - intros x Hx. cbn in Hx. apply elem_of_app in Hx as [Hx|Hx]; [by apply Hk|].
    apply list_elem_of_singleton in Hx. by injection Hx as ->.
Qed.

Lemma streamUpdate_holds c streams held pending o st : config_holds c streams held pending ->
  c_heap c !! o = Some st ->
  exists b c', streamUpdate o c = Done (b, c') /\ config_holds c' streams held pending /\
    c_streams c' = c_streams c /\ c_active c' = c_active c.
Proof.
  intros H E. destruct (th_heap _ _ _ (ch_table _ _ _ _ H) o st E) as [Ho W].
  destruct (streamUpdate_done c o st Ho E W) as (r & _ & Wr & U & Eu). eexists _, _. split; [exact Eu|].
  pose proof (with_heap_holds c _ _ _ o st (ticked r st) H E (ticked_wf r st Wr U W) eq_refl) as H1.
  split; [|done]. destruct (late st); [|rewrite app_nil_r; exact (ltac:(destruct H1; by split))].
  apply (add_timeout_holds _ _ _ _ o) in H1; [exact H1|]. cbn. rewrite lookup_insert_eq. by eexists.
Qed.

(** Iterating keeps what each call of the block keeps ... *)
Lemma fold_rule {A} (P : A -> StreamConfiguration -> Prop) (block : A -> Z -> prog StreamConfiguration A) streams a c :
  P a c -> (forall a c o, o ∈ streams -> P a c -> exists a' c', block a o c = Done (a', c') /\ P a' c') ->
  exists a' c', fold_left (fun s stream => s <-! s ;; block (fst s) stream (snd s)) streams (Done (a, c)) = Done (a', c') /\
    P a' c'.
Proof.
  revert a c. induction streams as [|o os IH]; intros a c HP Hb; [by exists a, c|].
  cbn [fold_left obind fst snd]. destruct (Hb a c o) as (a' & c' & E & HP'); [by left|done|].
  rewrite E. apply IH; [done|]. intros. apply Hb; [by right|done].
Qed.

Lemma iterate_rule {A} (P : A -> StreamConfiguration -> Prop) block streams a c :
  list_holds (c_streams c) streams -> P a c ->
  (forall a c o, o ∈ streams -> P a c -> exists a' c', block a o c = Done (a', c') /\ P a' c') ->
  exists a' c', iterate_streams block a c = Done (a', c') /\ P a' c'.
Proof.
  intros Hl HP Hb. unfold iterate_streams. rewrite (iterate_holds _ _ _ _ Hl). cbn [obind]. by apply fold_rule.
Qed.

(** ... and what the call for one stream brings about stays. *)
Lemma iterate_once {A} (P Q : A -> StreamConfiguration -> Prop) block streams o a c :
  list_holds (c_streams c) streams -> NoDup streams -> o ∈ streams -> P a c ->
  (forall a c x, x ∈ streams -> x <> o -> P a c -> exists a' c', block a x c = Done (a', c') /\ P a' c') ->
  (forall a c, P a c -> exists a' c', block a o c = Done (a', c') /\ Q a' c') ->
  (forall a c x, x ∈ streams -> x <> o -> Q a c -> exists a' c', block a x c = Done (a', c') /\ Q a' c') ->
  exists a' c', iterate_streams block a c = Done (a', c') /\ Q a' c'.
Proof.
  intros Hl Hn Hin HP H1 H2 H3. unfold iterate_streams. rewrite (iterate_holds _ _ _ _ Hl). cbn [obind]. clear Hl.
  apply list_elem_of_split in Hin as (l1 & l2 & ->). rewrite NoDup_app, NoDup_cons in Hn. destruct Hn as (_ & Hn1 & Hn2 & _).
  rewrite fold_left_app.
  destruct (fold_rule P block l1 a c HP) as (a1 & c1 & E1 & HP1).
  { intros a' c' x Hx. apply H1; [set_solver|]. intros ->. apply (Hn1 o Hx). by left. }
  rewrite E1. cbn [fold_left obind fst snd]. destruct (H2 a1 c1 HP1) as (a2 & c2 & E2 & HQ2). rewrite E2.
  apply (fold_rule Q block l2 a2 c2 HQ2). intros a' c' x Hx. apply H3; [set_solver|]. by intros ->.
Qed.

(** ** The packets of the socket *)

(** As no packet is referenced twice, there are at most 64 references. *)
Lemma distinct_bound s owners pending : socket_holds s owners pending ->
  NoDup (references s owners pending) -> Z.of_nat (length (references s owners pending)) <= 64.
Proof.
  intros H Hn. pose proof (in_use_bound s owners pending H) as B.
  assert (E : size (counts_of (references s owners pending)) = length (references s owners pending)).
  { clear B H. induction (references s owners pending) as [|o l IH]; [done|].
    apply NoDup_cons in Hn as [Ho Hn]. rewrite counts_cons, map_size_insert_None, IH; [done|done|].
    by rewrite counts_lookup, decide_False. }
  rewrite E in B. exact B.
Qed.

Section Messages.
Context {order : Host}.

(** The bytes of a message on the wire. *)
Definition message (q a bits : Z) (object : StreamObject) : list Z :=
  enc_stream_header q a bits ++ enc_stream_data object.

Lemma zlen_message q a bits object : stream_object_ok object ->
  zlen (message q a bits object) = 25 + so_length object.
Proof. intros Ho. unfold message. rewrite zlen_app, zlen_enc_stream_header, zlen_enc_stream_data by done. lia. Qed.

Lemma message_fits q a bits object : stream_object_ok object ->
  25 <= zlen (message q a bits object) <= kNetPacketMaxLen.
Proof.
  intros Ho. rewrite zlen_message by done. destruct Ho as [_ _ Hl _].
  unfold kStreamObjectDataMaxLength, kProtocolMaxLength, kNetPacketMaxLen in *. lia.
Qed.

(** Packing a message into a fresh packet. *)
Definition pack_message (packet q a bits : Z) (object : StreamObject) (address : net_addr_t) :
    prog net_socket_s unit :=
  pack_packet packet (streamProtocolPackHeader q a bits) (streamProtocolPackData object) address.

Lemma pack_on_socket packet q a bits object address (k : prog StreamConfiguration unit) c :
  (on_socket (on_bitstream packet (streamProtocolPackHeader q a bits)) ;;
   on_socket (on_bitstream packet (streamProtocolPackData object)) ;;
   on_socket (on_packet packet (fun k => net_packet_addr k address)) ;; k) c =
  (on_socket (pack_message packet q a bits object address) ;; k) c.
Proof.
  unfold pack_message, pack_packet, bind, on_socket.
  destruct (on_bitstream packet _ (c_socket c)) as [[? s1]|]; [|done]. cbn [c_socket set_socket].
  destruct (on_bitstream packet _ s1) as [[? s2]|]; [|done]. cbn [c_socket set_socket].
  by destruct (on_packet packet _ s2) as [[? s3]|].
Qed.

Lemma set_socket_id c : set_socket (c_socket c) c = c.
Proof. by destruct c. Qed.

(** The packets after one of them was filled, dispatched and released. *)
Lemma packets_sent s s' tasks held pending p k : packets_hold s tasks held pending ->
  p ∉ references s (waiting s tasks ++ held) pending ->
  socket_holds s' (waiting s tasks ++ held) pending ->
  s_packets s' = <[p := k]> (s_packets s) -> s_blocks s' = s_blocks s ++ [p] ->
  s_delivered s' = s_delivered s -> s_receiver s' = s_receiver s ->
  packets_hold s' tasks held pending.
Proof.
  intros [Hs Hd Hu Hr] Hp H' Ep Eb Ed Er. unfold references in *.
  assert (Ew : waiting s' tasks = waiting s tasks) by (unfold waiting; by rewrite Ed).
  split; rewrite ?Ew, ?Er; [done| | |done].
  - unfold references. rewrite Eb.
    assert (P : (waiting s tasks ++ held) ++ (s_blocks s ++ [p]) ++ pending ≡ₚ
                p :: (waiting s tasks ++ held) ++ s_blocks s ++ pending) by solve_Permutation.
    rewrite P. by apply NoDup_cons.
  - intros o Ho. rewrite Ep, lookup_insert_ne; [by apply Hu|]. intros ->. apply Hp. set_solver.
Qed.

(** What sending a message over a stream does. *)
Record sends (c c' : StreamConfiguration) (o : Z) (st : Stream) (object : StreamObject) (p : Z) (k : net_packet_s) : Prop := {
  sn_packets : s_packets (c_socket c') = <[p := k]> (s_packets (c_socket c));
  sn_blocks : s_blocks (c_socket c') = s_blocks (c_socket c) ++ [p];
  sn_wire : s_wire (c_socket c') = s_wire (c_socket c);
  sn_delivered : s_delivered (c_socket c') = s_delivered (c_socket c);
  sn_carries : carries k (st_address st)
    (message (sequence (st_reliability st)) (ack (st_reliability st)) (ackBits (st_reliability st)) object);
  sn_heap : exists r, streamReliabilityPacketSent (25 + so_length object) (st_reliability st) = Done (tt, r) /\
    sent_ring (25 + so_length object) (st_reliability st) r /\ ring_wf r /\
    c_heap c' = <[o := with_reliability r st]> (c_heap c);
}.

(** What sending and receiving leave alone. *)
Record same_streams (c c' : StreamConfiguration) : Prop := {
  sm_streams : c_streams c' = c_streams c;
  sm_active : c_active c' = c_active c;
  sm_callbacks : c_callbacks c' = c_callbacks c;
}.

Definition no_packet (c : StreamConfiguration) (held pending : list Z) : bool :=
  exhausted (c_socket c) (waiting (c_socket c) (c_streamDispatchQueue c) ++ held) pending.

(** A new packet is filled, sent and given back. *)
Lemma message_posted s s1 owners pending p k0 q a bits object address : same_queues s s1 ->
  socket_holds s1 (p :: owners) pending -> (p ∉ references s owners pending) -> packet_wf k0 ->
  s_packets s1 = <[p := net_packet_init k0]> (s_packets s) -> stream_object_ok object ->
  Z.of_nat (length (references s owners pending)) <= 64 ->
  exists s2 s3 s4 k, pack_message p q a bits object address s1 = Done (tt, s2) /\
    net_socket_send p s2 = Done (tt, s3) /\ get_packet p s3 = Done (k, s3) /\
    net_packet_release p s3 = Done (tt, s4) /\ socket_holds s4 owners pending /\
    carries k address (message q a bits object) /\ posted s s4 p k.
Proof.
  intros [Q1 Q2 Q3 Q4 Q5 Q6] H Hn W P Hob L. pose proof (message_fits q a bits object Hob) as F.
  unfold references in *. rewrite !not_elem_of_app in Hn. destruct Hn as (_ & Hb & Hp).
  destruct (post_packet s1 (p :: owners) pending p k0 (streamProtocolPackHeader q a bits) (streamProtocolPackData object)
    (enc_stream_header q a bits) (enc_stream_data object) address H ltac:(by left) W)
    as (s2 & s3 & k & E2 & E3 & H3 & Hk & [p1 p2 p3 p4 p5 p6]).
  { rewrite P. apply lookup_insert_eq. }
  { rewrite Q2, not_elem_of_app. done. }
  { apply pack_stream_header_emits. }
  { by apply pack_stream_data_emits. }
  { unfold message in F. lia. }
  { unfold references. rewrite Q2. cbn [length app]. lia. }
  destruct (release_holds s3 p owners pending H3) as (s4 & E4 & [S1 S2 S3 S4 S5 S6] & P4 & H4).
  exists s2, s3, s4, k. split; [exact E2|]. split; [exact E3|]. split.
  { apply get_packet_done; [|rewrite p2; apply lookup_insert_eq]. apply (holds_object s3 (p :: owners) pending p H3). by left. }
  do 3 (split; [done|]). split; [done|by rewrite P4, p2, P, insert_insert_eq|congruence..].
Qed.

Lemma streamSend_holds c streams held pending o st object : config_holds c streams held pending ->
  c_heap c !! o = Some st -> stream_object_ok object ->
  exists c', streamSend o object c = Done (tt, c') /\ config_holds c' streams held pending /\
    same_streams c c' /\ c_events c' = c_events c /\ c_streamDispatchQueue c' = c_streamDispatchQueue c /\
    if decide (st_state st = StreamWaiting) then
      if no_packet c held pending then c' = c else exists p k, sends c c' o st object p k
    else c' = c.
Proof.
  intros H E Hob. destruct (th_heap _ _ _ (ch_table _ _ _ _ H) o st E) as [Ho W]. unfold streamSend.
  rewrite (bind_done _ _ _ _ _ (get_stream_done c o st Ho E)).
  destruct (decide (st_state st = StreamWaiting)) as [Hst|Hst].
  2:{ rewrite decide_False; [by exists c|]. destruct (sw_state _ W) as [|Et]; [done|]. rewrite Et. by intros [|]. }
  rewrite decide_True by (by right). pose proof H as [[Hs Hd Hu Hr] Ht Hk Hac Hcb].
  destruct (alloc_holds _ _ _ Hs) as (p & s1 & E1 & Q & A). unfold no_packet, exhausted.
  rewrite (bind_done _ _ _ _ _ (on_socket_done net_packet_alloc c p s1 E1)).
  destruct (_ =? kNetPacketPoolCapacity).
  { destruct A as [-> ->]. rewrite Z.eqb_refl, set_socket_id. exists c. split; [done|]. by split. }
  destruct A as (Hp0 & Hpn & H1 & k0 & Wk0 & P1). rewrite (proj2 (Z.eqb_neq p 0)) by done.
  set (r0 := st_reliability st) in *. set (c1 := set_socket s1 c). rewrite pack_on_socket.
  pose proof (zlen_message (sequence r0) (ack r0) (ackBits r0) object Hob) as Lm.
  destruct (message_posted _ s1 _ _ p k0 (sequence r0) (ack r0) (ackBits r0) object (st_address st)
    Q H1 Hpn Wk0 P1 Hob (distinct_bound _ _ _ Hs Hd)) as (s2 & s3 & s4 & k & E2 & E3 & Ek & E4 & H4 & T6 & [_ T1 T2 T3 T4 T5]).
  rewrite (bind_done _ _ _ _ _ (on_socket_done (pack_message _ _ _ _ _ _) c1 tt _ E2)). set (c2 := set_socket s2 c1).
  rewrite (bind_done _ _ _ _ _ (on_socket_done (net_socket_send p) c2 tt s3 E3)). set (c3 := set_socket s3 c2).
  rewrite (bind_done _ _ _ _ _ (on_socket_done (get_packet p) c3 k s3 Ek)). set (c4 := set_socket s3 c3).
  destruct (packet_sent_spec (pk_length k) r0 (sw_ring _ W)) as (r & Er & Wr & Sr & _).
  rewrite (bind_done _ _ _ _ _ (on_reliability_done c4 o st _ tt r Ho E Er)). set (c5 := set_streams_heap _ c4).
  rewrite (on_socket_done (net_packet_release p) c5 tt s4 E4). rewrite (cr_length _ _ _ T6), Lm in Er, Sr.
  eexists. split; [reflexivity|]. split.
  { split; [exact (packets_sent (c_socket c) s4 _ _ _ p k (ch_packets _ _ _ _ H) Hpn H4 T1 T2 T3 T5)
     | |apply tasks_update, Hk|exact Hac|exact Hcb].
    apply (table_update _ _ _ o st); [done|done| |done]. split; cbn;
      rewrite ?(st_ack _ _ _ Sr), ?(st_bits _ _ _ Sr); apply W || done. }
  split; [by split|]. split; [done|]. split; [done|]. exists p, k. split; [done..|]. exists r. by split.
Qed.

(** *** Receiving *)

(** What a packet that is not too old makes of its stream. *)
Record heard (st st' : Stream) (s a bits : Z) : Prop := {
  hd_wf : stream_wf st';
  hd_address : st_address st' = st_address st;
  hd_state : st_state st' = st_state st;
  hd_timeout : st_timeoutAccumulator st' = f_zero;
  hd_received : streamReliabilityPacketReceived s a bits (st_reliability st) = Done (tt, st_reliability st');
  hd_sequence : sequence (st_reliability st') = sequence (st_reliability st);
  hd_ack : ack (st_reliability st') =
    (if isSequenceMoreRecent s (ack (st_reliability st)) kStreamReliabilityMaxSequence then s
     else ack (st_reliability st));
}.

Lemma streamReceive_holds c streams held pending o st s a bits object :
  config_holds c streams held pending -> c_heap c !! o = Some st -> uint_ok 4 s -> 0 <= a ->
  exists c', streamReceive o s a bits object c = Done (tt, c') /\
    config_holds c' streams held pending /\ same_streams c c' /\ c_socket c' = c_socket c /\
    c_streamDispatchQueue c' = c_streamDispatchQueue c /\
    if a <=? sequence (st_reliability st) then
      c_events c' = c_events c ++ [EventReceive (st_address st) object] /\
      exists st', heard st st' s a bits /\ c_heap c' = <[o := st']> (c_heap c)
    else c' = c.
Proof.
  intros H E Hs Ha. destruct (th_heap _ _ _ (ch_table _ _ _ _ H) o st E) as [Ho W]. unfold streamReceive.
  rewrite (bind_done _ _ _ _ _ (get_stream_done c o st Ho E)).
  destruct (Z.leb_spec a (sequence (st_reliability st))) as [Hle|Hle].
  2:{ exists c. split; [done|]. by split. }
  rewrite (bind_done _ _ _ _ _ (on_stream_done c o st _ Ho E)).
  set (st1 := with_timeoutAccumulator f_zero st). set (c1 := set_streams_heap _ c).
  assert (E1 : c_heap c1 !! o = Some st1) by (cbn; apply lookup_insert_eq).
  pose proof (rw_sequence _ (sw_ring _ W)) as Hq. unfold kStreamReliabilityMaxSequence in Hq.
  pose proof (sw_ack _ W) as Hack. unfold uint_ok in Hs, Hack.
  destruct (packet_received_ack s a bits (st_reliability st) (sw_ring _ W)) as (r & Er & Wr & Qr & Br & Ar);
    [lia|exact Hs|exact Hack|].
  rewrite (bind_done _ _ _ _ _ (on_reliability_done c1 o st1 _ tt r Ho E1 Er)). unfold c1. rewrite heap_twice.
  set (st2 := with_reliability r st1). set (c2 := set_streams_heap _ c).
  assert (E2 : c_heap c2 !! o = Some st2) by (cbn; apply lookup_insert_eq).
  rewrite (bind_done _ _ _ _ _ (get_stream_done c2 o st2 Ho E2)).
  rewrite call_done by apply (ch_callbacks _ _ _ _ H).
  assert (W2 : stream_wf st2).
  { destruct W. split; cbn; [done|done| |done|done]. rewrite Ar. by destruct (isSequenceMoreRecent _ _ _). }
  pose proof (with_heap_holds c _ _ _ o st st2 H E W2 eq_refl) as H2.
  eexists. split; [reflexivity|]. split; [destruct H2; by split|]. split; [by split|].
  split; [done|]. split; [done|]. split; [done|]. exists st2. split; [by split|done].
Qed.

(** A task that is run holds its packet ... *)
Lemma packets_pop s p tasks held pending : packets_hold s (TaskReceive p :: tasks) held pending ->
  packets_hold s tasks (p :: held) pending /\ exists k, s_packets s !! p = Some k /\ unread k.
Proof.
  intros [Hs Hd Hu Hr].
  assert (P : waiting s (TaskReceive p :: tasks) ++ held ≡ₚ waiting s tasks ++ p :: held).
  { unfold waiting, task_packets. cbn [mbind list_bind task_packet]. cbn. solve_Permutation. }
  assert (Hin : forall o, o = p \/ o ∈ waiting s tasks -> o ∈ waiting s (TaskReceive p :: tasks)).
  { intros o. unfold waiting. rewrite !elem_of_app. cbn. rewrite elem_of_cons. tauto. }
  split; [split|apply Hu; auto]; [| |intros o Ho; apply Hu; auto|done].
  - apply (holds_move s s _ _ _ _ Hs eq_refl eq_refl); [by rewrite P|apply Hs|done].
  - unfold references in *. by rewrite P in Hd.
Qed.

(** ... may change it ... *)
Lemma packets_write s p tasks held pending k k' : packets_hold s tasks (p :: held) pending ->
  s_packets s !! p = Some k -> packet_wf k' ->
  packets_hold (set_packets (<[p := k']> (s_packets s)) s) tasks (p :: held) pending.
Proof.
  intros [Hs Hd Hu Hr] E W.
  assert (Hp : (p ∉ waiting s tasks) /\ (p ∉ s_blocks s ++ pending)).
  { unfold references in Hd. rewrite <- Permutation_middle in Hd. cbn in Hd.
    apply NoDup_cons in Hd as [Hp _]. rewrite !not_elem_of_app in *. tauto. }
  split; [|exact Hd| |exact Hr].
  - apply (holds_write s _ _ p k k' Hs E W). intros Hin. by destruct (proj2 Hp).
  - intros o Ho. cbn. rewrite lookup_insert_ne; [by apply Hu|]. intros <-. by destruct (proj1 Hp).
Qed.

(** ... and gives it back. *)
Lemma packets_release s p tasks held pending : packets_hold s tasks (p :: held) pending ->
  exists s', net_packet_release p s = Done (tt, s') /\ same_queues s s' /\
    s_packets s' = s_packets s /\ packets_hold s' tasks held pending.
Proof.
  intros [Hs Hd Hu Hr].
  assert (P : waiting s tasks ++ p :: held ≡ₚ p :: waiting s tasks ++ held) by solve_Permutation.
  assert (Hs' : socket_holds s (p :: waiting s tasks ++ held) pending).
  { apply (holds_move s s _ _ _ _ Hs eq_refl eq_refl); [by rewrite P|apply Hs|done]. }
  destruct (release_holds s p _ pending Hs') as (s' & E & Q & Pk & H'). exists s'.
  split; [done|]. split; [done|]. split; [done|]. destruct Q as [S1 S2 S3 S4 S5 S6].
  assert (Ew : waiting s' tasks = waiting s tasks) by (unfold waiting; by rewrite S3).
  split; rewrite ?Ew, ?S6; [exact H'| | |exact Hr].
  - unfold references in *. rewrite S2. rewrite P in Hd. by apply NoDup_cons in Hd as [_ Hd].
  - intros o Ho. rewrite Pk. by apply Hu.
Qed.

Lemma config_packets c s streams held held' pending : config_holds c streams held pending ->
  packets_hold s (c_streamDispatchQueue c) held' pending ->
  config_holds (set_socket s c) streams held' pending.
Proof. intros [Hp Ht Hk Ha Hcb] H'. by split. Qed.

Lemma add_task_holds c streams held pending address : config_holds c streams held pending ->
  config_holds (set_tasks (c_streamDispatchQueue c ++ [TaskAdd address]) c) streams held pending.
Proof.
  intros [[Hs Hd Hu Hr] Ht Hk Ha Hcb].
  assert (Q : waiting (c_socket c) (c_streamDispatchQueue c ++ [TaskAdd address]) =
              waiting (c_socket c) (c_streamDispatchQueue c)).
  { unfold waiting, task_packets. by rewrite bind_app, app_nil_r. }
  split; [|done| |done|done].
  - split; cbn; rewrite ?Q; done.
  - intros x Hx. cbn in Hx. apply elem_of_app in Hx as [Hx|Hx]; [by apply Hk|].
    by apply list_elem_of_singleton in Hx.
Qed.

(** The readers used on a packet. *)
Definition parsed (out : Z * Z * Z) (uninit : StreamObject) (k : net_packet_s)
    (hdr : Z * Z * Z) (object : StreamObject) : Prop :=
  exists b b', streamProtocolUnpackHeader out (pk_bitstream k) = Done ((UnpackValid, hdr), b) /\
    streamProtocolUnpackData (streamObjectSetup uninit) b = Done ((UnpackValid, object), b').

Definition object_buffer (o : StreamObject) : Prop :=
  zlen (so_data o) = kStreamObjectDataMaxLength /\ Forall byte (so_data o).

(** Every packet is either rejected by its header or read as an object. *)
Lemma unread_parses out uninit k : unread k -> object_buffer uninit ->
  exists result hdr m, streamProtocolUnpackHeader out (pk_bitstream k) =
      Done ((result, hdr), skip (pk_bitstream k) m) /\ 0 <= m <= 256 /\
    (result = UnpackValid -> uint_ok 4 hdr.1.1 /\ uint_ok 4 hdr.1.2 /\ uint_ok 4 hdr.2 /\
      exists object m', streamProtocolUnpackData (streamObjectSetup uninit) (skip (pk_bitstream k) m) =
        Done ((UnpackValid, object), skip (skip (pk_bitstream k) m) m') /\ 0 <= m' /\ m + m' <= 256).
Proof.
  intros [[Hd Hb] Ho Hbd] [Hud Hub]. unfold pk_data, kNetPacketMaxLen in *.
  assert (W : bs_wf (pk_bitstream k)) by (split; [lia|lia|lia|done]).
  assert (R : room (pk_bitstream k) = 256) by (unfold room; lia).
  destruct (unpack_stream_header_accepts out _ W ltac:(lia)) as (result & hdr & m & E & Hm & Hv).
  exists result, hdr, m. split; [done|]. split; [lia|]. intros Hr.
  destruct (Hv Hr) as (-> & H1 & H2 & H3). split; [done|]. split; [done|]. split; [done|].
  destruct (unpack_stream_data_needs (streamObjectSetup uninit) (skip (pk_bitstream k) 15)) as (object & m' & E' & Hm' & _).
  - apply skip_wf; [done|lia].
  - done.
  - done.
  - rewrite room_skip, R. unfold kStreamObjectDataMaxLength, kProtocolMaxLength, kNetPacketMaxLen. lia.
  - rewrite room_skip, R in Hm'. exists object, m'. split; [done|]. lia.
Qed.

(** What the task of a packet does, once its header was read. *)
Definition reception (c c' : StreamConfiguration) (streams : list Z) (address : net_addr_t)
    (hdr : Z * Z * Z) (object : StreamObject) : Prop :=
  (exists o st, addressed (c_heap c) streams address o /\ c_heap c !! o = Some st /\
     c_streamDispatchQueue c' = c_streamDispatchQueue c /\
     if hdr.1.2 <=? sequence (st_reliability st) then
       c_events c' = c_events c ++ [EventReceive address object] /\
       exists st', heard st st' hdr.1.1 hdr.1.2 hdr.2 /\ c_heap c' = <[o := st']> (c_heap c)
     else c_events c' = c_events c /\ c_heap c' = c_heap c) \/
  ((forall o, ~ addressed (c_heap c) streams address o) /\
   c_streamDispatchQueue c' = c_streamDispatchQueue c ++ [TaskAdd address] /\
   c_events c' = c_events c /\ c_heap c' = c_heap c).

(** The body of the task: what it does before the packet is given back. *)
Definition handle_packet (out : Z * Z * Z) (uninit : StreamObject) (packet : Z) :
    prog StreamConfiguration unit :=
  let* '(result, hdr) := on_socket (on_bitstream packet (streamProtocolUnpackHeader out)) in
  if decide (result = UnpackValid) then
     k <- on_socket (get_packet packet) ;;
     stream <- find_stream (pk_addr k) ;;
     (if stream =? 0 then streamAdd (pk_addr k) else ret tt) ;;
     if negb (stream =? 0) then
       let* '(_, receiveObject) :=
         on_socket (on_bitstream packet (streamProtocolUnpackData (streamObjectSetup uninit))) in
       streamReceive stream (fst (fst hdr)) (snd (fst hdr)) (snd hdr) receiveObject
     else ret tt
   else ret tt.

Lemma run_receive_handle out uninit packet c :
  run_receive out uninit packet c =
  (handle_packet out uninit packet ;; on_socket (net_packet_release packet)) c.
Proof.
  unfold run_receive, handle_packet, bind.
  destruct (on_socket _ c) as [[[r hdr] c']|]; reflexivity.
Qed.

Lemma handle_packet_holds c streams held pending p k out uninit :
  config_holds c streams (p :: held) pending -> p <> 0 ->
  s_packets (c_socket c) !! p = Some k -> unread k -> object_buffer uninit ->
  exists c' s', handle_packet out uninit p c = Done (tt, c') /\
    config_holds c' streams (p :: held) pending /\ same_streams c c' /\
    c_socket c' = s' /\ s_wire s' = s_wire (c_socket c) /\ s_blocks s' = s_blocks (c_socket c) /\
    s_delivered s' = s_delivered (c_socket c) /\
    ((exists hdr object, parsed out uninit k hdr object /\
        reception c c' streams (pk_addr k) hdr object) \/
     (exists result hdr b, streamProtocolUnpackHeader out (pk_bitstream k) = Done ((result, hdr), b) /\
        result <> UnpackValid /\
        c_events c' = c_events c /\ c_heap c' = c_heap c /\
        c_streamDispatchQueue c' = c_streamDispatchQueue c)).
Proof.
  intros H Hp0 Ek Uk Bu. unfold handle_packet.
  destruct (unread_parses out uninit k Uk Bu) as (result & hdr & m & Eh & Hm & Hv).
  set (b := skip (pk_bitstream k) m) in *. set (k1 := mkPacket (pk_addr k) (pk_length k) b).
  assert (W1 : packet_wf k1) by (destruct (ur_wf _ Uk); by split).
  set (s1 := set_packets (<[p := k1]> (s_packets (c_socket c))) (c_socket c)).
  assert (E1 : on_socket (on_bitstream p (streamProtocolUnpackHeader out)) c = Done ((result, hdr), set_socket s1 c)).
  { apply on_socket_done. by apply (on_bitstream_done _ _ k). }
  rewrite (bind_done _ _ _ _ _ E1). cbn beta iota. set (c1 := set_socket s1 c).
  assert (H1 : config_holds c1 streams (p :: held) pending).
  { apply (config_packets c s1 _ _ _ _ H). apply (packets_write _ _ _ _ _ k k1); [apply H|done|done]. }
  destruct (decide (result = UnpackValid)) as [->|Hr].
  2:{ exists c1, s1. split; [done|]. split; [done|]. split; [by split|]. do 4 (split; [done|]). right.
      by exists result, hdr, b. }
  destruct (Hv eq_refl) as (U1 & U2 & U3 & object & m' & Ed & Hm').
  assert (Ek1 : s_packets s1 !! p = Some k1) by (cbn; apply lookup_insert_eq).
  rewrite (bind_done _ _ _ _ _ (on_socket_done (get_packet p) c1 k1 s1 (get_packet_done s1 p k1 Hp0 Ek1))).
  set (c2 := set_socket s1 c1).
  assert (H2 : config_holds c2 streams (p :: held) pending) by exact H1.
  destruct (find_stream_holds c2 streams (pk_addr k1) (ch_table _ _ _ _ H2)) as (o & Ef & A).
  rewrite (bind_done _ _ _ _ _ Ef).
  assert (Hpar : parsed out uninit k hdr object) by (by eexists _, _).
  destruct (Z.eqb_spec o 0) as [Ho|Ho]; cbn [negb].
  { exists (set_tasks (c_streamDispatchQueue c2 ++ [TaskAdd (pk_addr k1)]) c2), s1. split; [done|].
    split; [by apply add_task_holds|]. split; [by split|]. do 4 (split; [done|]). left. exists hdr, object.
    split; [done|]. right. done. }
  rewrite bind_ret_l. set (b' := skip b m') in *.
  set (k2 := mkPacket (pk_addr k1) (pk_length k1) b').
  assert (W2 : packet_wf k2) by (destruct W1; by split).
  set (s3 := set_packets (<[p := k2]> (s_packets s1)) s1).
  assert (E3 : on_socket (on_bitstream p (streamProtocolUnpackData (streamObjectSetup uninit))) c2 =
               Done ((UnpackValid, object), set_socket s3 c2)).
  { apply on_socket_done. by apply (on_bitstream_done _ _ k1). }
  rewrite (bind_done _ _ _ _ _ E3). cbn beta iota. set (c3 := set_socket s3 c2).
  assert (H3 : config_holds c3 streams (p :: held) pending).
  { apply (config_packets c2 s3 _ _ _ _ H2). apply (packets_write _ _ _ _ _ k1 k2); [apply H2|done|done]. }
  pose proof A as (Hin & st & Est & Ea).
  destruct (streamReceive_holds c3 streams (p :: held) pending o st hdr.1.1 hdr.1.2 hdr.2 object H3 Est U1
    ltac:(unfold uint_ok in U2; lia)) as (c4 & E4 & H4 & S4 & Sk4 & T4 & R4).
  rewrite E4. exists c4, s3. split; [done|]. split; [done|]. split; [destruct S4; by split|].
  do 4 (split; [done|]). left. exists hdr, object. split; [done|]. left.
  exists o, st. split; [exact A|]. split; [exact Est|]. split; [exact T4|].
  destruct (hdr.1.2 <=? sequence (st_reliability st)); [|by rewrite R4].
  change (pk_addr k) with (pk_addr k1). rewrite <- Ea. exact R4.
Qed.

Lemma run_receive_holds c streams held pending p out uninit :
  config_holds c streams (p :: held) pending -> p <> 0 -> object_buffer uninit ->
  (exists k, s_packets (c_socket c) !! p = Some k /\ unread k) ->
  exists c', run_receive out uninit p c = Done (tt, c') /\ config_holds c' streams held pending /\
    same_streams c c'.
Proof.
  intros H Hp0 Bu (k & Ek & Uk). rewrite run_receive_handle.
  destruct (handle_packet_holds c streams held pending p k out uninit H Hp0 Ek Uk Bu) as
    (c1 & s1 & E1 & H1 & S1 & Es & _).
  rewrite (bind_done _ _ _ _ _ E1).
  destruct (packets_release _ _ _ _ _ (ch_packets _ _ _ _ H1)) as (s2 & E2 & Q & _ & H2).
  rewrite (on_socket_done _ c1 tt s2 E2). eexists. split; [reflexivity|].
  split; [by apply (config_packets c1 s2 _ (p :: held))|]. destruct S1. by split.
Qed.

(** *** The events of the socket *)

Lemma packets_datagram s tasks held pending addr bytes : packets_hold s tasks held pending ->
  Forall byte bytes ->
  exists s' held', read_event (Some (addr, bytes)) s = Done (tt, s') /\
    packets_hold s' tasks held' pending.
Proof.
  intros [Hs Hd Hu Hr] By.
  destruct (read_event_holds s _ pending (Some (addr, bytes)) Hs By) as (s' & E & Ep & Eb & _ & Er & A).
  rewrite Hr, andb_true_r in A. destruct (exhausted _ _ _); [exists s, held; subst s'; by split|].
  destruct A as (o & k & Ho & Hn & Pk & H' & Ed & Hh).
  assert (Hne : forall x, x ∈ waiting s tasks -> o <> x).
  { intros x Hx ->. apply Hn. unfold references. set_solver. }
  assert (Keep : forall x, x ∈ waiting s tasks -> exists kx, s_packets s' !! x = Some kx /\ unread kx).
  { intros x Hx. rewrite Pk, lookup_insert_ne by (by apply Hne). by apply Hu. }
  destruct (fits (Some (addr, bytes))) eqn:F; cbn [andb] in Ed.
  2:{ rewrite app_nil_r in Ed. assert (Ew : waiting s' tasks = waiting s tasks) by (unfold waiting; by rewrite Ed).
      exists s', held. split; [done|]. split; rewrite ?Ew; [done| |done|by rewrite Er].
      unfold references in *. by rewrite Eb. }
  destruct (empty (Some (addr, bytes))) eqn:Em; cbn [negb] in Ed.
  - rewrite app_nil_r in Ed. assert (Ew : waiting s' tasks = waiting s tasks) by (unfold waiting; by rewrite Ed).
    exists s', (o :: held). split; [done|].
    assert (P : waiting s tasks ++ o :: held ≡ₚ o :: waiting s tasks ++ held) by solve_Permutation.
    split; rewrite ?Ew; [|unfold references in *; rewrite Eb, P; by apply NoDup_cons|done|by rewrite Er].
    apply (holds_move s' s' _ _ _ _ H' eq_refl eq_refl); [by rewrite P|apply H'|done].
  - assert (P : waiting s' tasks ++ held ≡ₚ o :: waiting s tasks ++ held).
    { unfold waiting. rewrite Ed. solve_Permutation. }
    exists s', held. split; [done|]. split; [|unfold references in *; rewrite Eb, P; by apply NoDup_cons| |by rewrite Er].
    + apply (holds_move s' s' _ _ _ _ H' eq_refl eq_refl); [by rewrite P|apply H'|done].
    + intros x Hx. destruct (decide (x = o)) as [->|Hxo].
      * rewrite Pk, lookup_insert_eq. exists k. split; [done|]. apply Hh. done.
      * apply Keep. unfold waiting in *. rewrite Ed in Hx. set_solver.
Qed.

Lemma packets_deliver s tasks held pending i p : packets_hold s tasks held pending ->
  s_delivered s !! i = Some p ->
  packets_hold (set_delivered (delete i (s_delivered s)) s) (tasks ++ [TaskReceive p]) held pending.
Proof.
  intros [Hs Hd Hu Hr] Hi. set (s' := set_delivered _ s).
  assert (P : waiting s' (tasks ++ [TaskReceive p]) ≡ₚ waiting s tasks).
  { unfold waiting, task_packets. rewrite bind_app. cbn.
    assert (P : s_delivered s ≡ₚ p :: delete i (s_delivered s)) by (by apply delete_Permutation).
    rewrite P at 2. solve_Permutation. }
  split; [|unfold references in *; by rewrite P| |done].
  - apply (holds_move s s' _ _ _ _ Hs eq_refl eq_refl); [by rewrite P|apply Hs|done].
  - intros o Ho. apply Hu. by rewrite <- P.
Qed.

Lemma packets_quiet s s' tasks held pending pending' : packets_hold s tasks held pending ->
  socket_holds s' (waiting s tasks ++ held) pending' ->
  NoDup (s_blocks s' ++ pending') -> (forall o, o ∈ s_blocks s' ++ pending' -> o ∈ s_blocks s ++ pending) ->
  s_packets s' = s_packets s -> s_delivered s' = s_delivered s -> s_receiver s' = s_receiver s ->
  packets_hold s' tasks held pending'.
Proof.
  intros [Hs Hd Hu Hr] H' Hn Hi Ep Ed Er.
  assert (Ew : waiting s' tasks = waiting s tasks) by (unfold waiting; by rewrite Ed).
  split; rewrite ?Ew, ?Ep, ?Er; [done| |done|done].
  unfold references in *. apply NoDup_app in Hd as (Hd1 & Hd2 & _). apply NoDup_app.
  split; [done|]. split; [|done]. intros x Hx Hx'. by apply (Hd2 x Hx), Hi.
Qed.

Lemma packets_queues s tasks held pending : packets_hold s tasks held pending -> NoDup (s_blocks s ++ pending).
Proof. intros [_ Hd _ _]. unfold references in Hd. by apply NoDup_app in Hd as (_ & _ & Hd). Qed.

Section Malloc.
Context (malloc : gmap Z queue_node_s -> option (Z * queue_node_s)).
Hypothesis malloc_new : malloc_fresh malloc.
Hypothesis malloc_ok : forall h, malloc h <> None.

Lemma packets_block s tasks held pending : packets_hold s tasks held pending ->
  exists s' pending', run_send_block malloc s = Done (tt, s') /\ packets_hold s' tasks held pending'.
Proof.
  intros H. destruct (s_blocks s) as [|o blocks] eqn:Eb.
  { exists s, pending. unfold run_send_block. by rewrite bind_get, Eb. }
  destruct (block_holds malloc malloc_new malloc_ok s o blocks _ pending (ph_socket _ _ _ _ H) Eb) as
    (s' & E & H' & B & Pk & _ & D & R & _).
  exists s', (pending ++ [o]). split; [done|]. pose proof (packets_queues _ _ _ _ H) as Hn. rewrite Eb in Hn.
  assert (P : s_blocks s' ++ pending ++ [o] ≡ₚ o :: blocks ++ pending) by (rewrite B; solve_Permutation).
  apply (packets_quiet s s' _ _ pending); [done|exact H'|by rewrite P| |done|done|done].
  intros x Hx. rewrite P in Hx. by rewrite Eb.
Qed.

Lemma packets_writable s tasks held pending : packets_hold s tasks held pending ->
  exists s', write_event s = Done (tt, s') /\ packets_hold s' tasks held [].
Proof.
  intros H. destruct (write_event_holds s _ pending (ph_socket _ _ _ _ H)) as (s' & E & H' & [S1 S2 S3 S4] & _ & _).
  exists s'. split; [done|]. pose proof (packets_queues _ _ _ _ H) as Hn.
  apply (packets_quiet s s' _ _ pending); [done|exact H'| | |done|done|done].
  - rewrite S2, app_nil_r. by apply NoDup_app in Hn as (Hn & _ & _).
  - intros x Hx. rewrite S2, app_nil_r in Hx. apply elem_of_app. by left.
Qed.

End Malloc.
End Messages.

(** ** Concrete configurations *)

Definition demo_streams : list_s :=
  match list_create grow kStreamListCapacity with Done l => l | Fault _ => mkListS 0 0 0 ∅ 0 end.

Lemma demo_streams_holds : list_holds demo_streams [] /\ l_capacity demo_streams = 5.
Proof.
  destruct (list_create_holds grow kStreamListCapacity grow_keeps grow_some) as (l & E & H & C); [done|].
  unfold demo_streams. by rewrite E.
Qed.

Definition demo_config : StreamConfiguration :=
  mkConfig demo_socket (mkAddr AF_INET 5000 0) [] false (mkStreamCallbacks 1 1 1 1) demo_streams ∅ [].

Lemma fresh_config_holds s address callbacks l : socket_holds s [] [] -> s_delivered s = [] -> s_blocks s = [] ->
  has_receiver (s_receiver s) = true -> callbacks_set callbacks -> list_holds l [] ->
  config_holds (mkConfig s address [] false callbacks l ∅ []) [] [] [].
Proof.
  intros Hs Ed Eb Hr Hcb Hl.
  split; cbn; [|split; [done|done|by intros o Ho%elem_of_nil|apply NoDup_nil_2]|by intros o Ho%elem_of_nil|done|done].
  split; unfold waiting, references; cbn; rewrite ?Ed, ?Eb; [exact Hs|apply NoDup_nil_2| |exact Hr].
  by intros o Ho%elem_of_nil.
Qed.

Lemma demo_config_holds : config_holds demo_config [] [] [].
Proof.
  destruct demo_socket_quiet as [Ed Eb]. destruct demo_socket_holds as (Hs & _ & Hr).
  apply (fresh_config_holds demo_socket); [exact Hs|exact Ed|exact Eb|exact Hr| |apply demo_streams_holds].
  do 3 (split; [discriminate|]). discriminate.
Qed.

Definition demo_peer : net_addr_t := mkAddr AF_INET 7000 1.

(** The configuration once a peer was added. *)
Definition with_peer (c : StreamConfiguration) : StreamConfiguration :=
  match run_add grow 8 demo_peer c with Done (_, c') => c' | Fault _ => c end.

Lemma with_peer_holds c : config_holds c [] [] [] -> c_heap c = ∅ -> l_capacity (c_streams c) = 5 ->
  let c' := with_peer c in
  config_holds c' [8] [] [] /\ addressed (c_heap c') [8] demo_peer 8 /\
  c_heap c' !! 8 = Some (new_stream demo_peer) /\ c_active c' = true /\ same_socket c c' /\
  l_capacity (c_streams c') <= 15 /\ c_events c' = c_events c.
Proof.
  intros H Eh L.
  destruct (run_add_holds grow grow_keeps grow_some c [] [] [] 8 demo_peer H ltac:(lia))
    as (c1 & streams & E & H1 & S1 & Ev & L1 & A).
  { by rewrite Eh. }
  { rewrite L. unfold kListDefaultCapacity. lia. }
  unfold with_peer. rewrite E. cbv zeta. rewrite L in L1. unfold kListDefaultCapacity in L1.
  destruct A as [(_ & _ & (o & Ho & _))|(-> & _ & Eh1 & Ea)]; [by apply not_elem_of_nil in Ho|].
  assert (E8 : c_heap c1 !! 8 = Some (new_stream demo_peer)) by (rewrite Eh1; apply lookup_insert_eq).
  split; [exact H1|]. split; [split; [by left|by eexists]|]. split; [done|]. split; [done|]. split; [done|].
  split; [lia|done].
Qed.

Definition demo_known : StreamConfiguration := with_peer demo_config.

Lemma demo_known_holds : config_holds demo_known [8] [] [] /\
  addressed (c_heap demo_known) [8] demo_peer 8 /\ c_heap demo_known !! 8 = Some (new_stream demo_peer) /\
  c_active demo_known = true /\ same_socket demo_config demo_known /\
  l_capacity (c_streams demo_known) <= 15 /\ c_events demo_known = [].
Proof.
  apply (with_peer_holds demo_config); [exact demo_config_holds|reflexivity|].
  exact (proj2 demo_streams_holds).
Qed.

Lemma demo_room c : c_socket c = demo_socket -> c_streamDispatchQueue c = [] -> no_packet c [] [] = false.
Proof.
  intros Es Eq. unfold no_packet, waiting. rewrite Es, Eq. destruct demo_socket_quiet as [-> _].
  exact demo_socket_free.
Qed.

Definition demo_uninit : StreamObject := demo_dest.

Lemma demo_uninit_buffer : object_buffer demo_uninit.
Proof. split; [reflexivity|apply forallb_bytes; reflexivity]. Defined.
