(* ===== verification/StreamRun.v ===== *)
(** * Runs of a peer's streams

    What holds after any sequence of tasks, ticks, packets and calls of the
    application; when a silent stream times out; and a message on its way
    from one peer to another. *)
From S2P Require Import Prelude Bitstream Wire Fields Net Protocol LinkedList Queue Pool.
From S2P Require Import NetSocket NetSocketSpec Floats StreamFlow StreamReliability StreamReliabilitySpec.
From S2P Require Import Stream StreamSpec.

(** ** Steps *)

(** What may happen to a peer: the application calls it, its dispatch queue
    or its timer runs, its socket reads, writes or delivers. *)
Inductive stream_op :=
| AppAdd (address : net_addr_t)
| AppRemove (address : net_addr_t)
| AppSuspend
| AppResume
| RunTask (env : stream_env)
| Tick (uninit : StreamObject) (update : StreamObject -> StreamObject)
| Deliver (i : nat)
| Datagram (address : net_addr_t) (bytes : list Z)
| RunBlock
| Writable.

Section Runs.
Context {order : Host}.
Context (realloc : gmap Z list_node_s -> Z -> option (gmap Z list_node_s)).
Context (malloc : gmap Z Stream -> Z).
Context (malloc_node : gmap Z queue_node_s -> option (Z * queue_node_s)).

Definition stream_step (op : stream_op) : prog StreamConfiguration unit :=
  match op with
  | AppAdd address => streamAdd address
  | AppRemove address => streamRemove address
  | AppSuspend => streamSuspend
  | AppResume => streamResume
  | RunTask env => run_task realloc malloc env
  | Tick uninit update => timer_event uninit update
  | Deliver i => deliver i
  | Datagram address bytes => on_socket (read_event (Some (address, bytes)))
  | RunBlock => on_socket (run_send_block malloc_node)
  | Writable => on_socket write_event
  end.

Fixpoint stream_run (ops : list stream_op) : prog StreamConfiguration unit :=
  match ops with
  | [] => ret tt
  | op :: ops' => stream_step op ;; stream_run ops'
  end.

(** Buffers have their size, bytes are bytes, and the application sends
    objects that fit. *)
Definition stream_op_ok (op : stream_op) : Prop :=
  match op with
  | RunTask env => object_buffer (env_object env)
  | Tick uninit update => stream_object_ok (update (streamObjectSetup uninit))
  | Datagram _ bytes => Forall byte bytes
  | _ => True
  end.

(** The timer runs exactly while there is a stream. *)
Definition timer_follows (c : StreamConfiguration) (streams : list Z) : Prop :=
  c_active c = negb (bool_decide (streams = [])).

(** What a step keeps. *)
Record steps_to (c c' : StreamConfiguration) (streams streams' : list Z) : Prop := {
  sp_capacity : l_capacity (c_streams c') <= l_capacity (c_streams c) + kListDefaultCapacity;
  sp_timer : timer_follows c streams -> timer_follows c' streams';
}.

Lemma steps_same c c' streams : c_streams c' = c_streams c -> c_active c' = c_active c ->
  steps_to c c' streams streams.
Proof.
  intros E A. split; [rewrite E; unfold kListDefaultCapacity; lia|]. unfold timer_follows. by rewrite A.
Qed.

Hypothesis realloc_ok : realloc_keeps realloc.
Hypothesis realloc_some : forall old n, realloc old n <> None.
Hypothesis malloc_fresh_stream : fresh_address malloc.
Hypothesis malloc_node_fresh : malloc_fresh malloc_node.
Hypothesis malloc_node_some : forall h, malloc_node h <> None.

Lemma add_task_remove_holds c streams held pending address : config_holds c streams held pending ->
  config_holds (set_tasks (c_streamDispatchQueue c ++ [TaskRemove address]) c) streams held pending.
Proof.
  intros [[Hs Hd Hu Hr] Ht Hk Ha Hcb].
  assert (Q : waiting (c_socket c) (c_streamDispatchQueue c ++ [TaskRemove address]) =
              waiting (c_socket c) (c_streamDispatchQueue c)).
  { unfold waiting, task_packets. by rewrite bind_app, app_nil_r. }
  split; [|done| |done|done].
  - split; cbn; rewrite ?Q; done.
  - intros x Hx. cbn in Hx. apply elem_of_app in Hx as [Hx|Hx]; [by apply Hk|].
    by apply list_elem_of_singleton in Hx.
Qed.

(** The first task leaves the queue. *)
Lemma pop_task_holds c streams held pending task tasks : config_holds c streams held pending ->
  c_streamDispatchQueue c = task :: tasks ->
  config_holds (set_tasks tasks c) streams (task_packet task ++ held) pending.
Proof.
  intros [Hp Ht Hk Ha Hcb] E. rewrite E in *. split; [|done| |done|done].
  - destruct task; [exact (ltac:(destruct Hp; by split))..|]. by apply packets_pop in Hp as [Hp _].
  - intros x Hx. apply Hk. by right.
Qed.

Lemma run_task_holds env c streams held pending : config_holds c streams held pending ->
  object_buffer (env_object env) -> l_capacity (c_streams c) + kListDefaultCapacity < 2 ^ 31 ->
  exists c' streams', run_task realloc malloc env c = Done (tt, c') /\
    config_holds c' streams' held pending /\ steps_to c c' streams streams'.
Proof.
  intros H Bu Hcap. unfold run_task. rewrite bind_get. destruct (c_streamDispatchQueue c) as [|task tasks] eqn:E.
  { exists c, streams. split; [done|]. split; [done|]. by apply steps_same. }
  rewrite bind_modify. set (c1 := set_tasks tasks c).
  pose proof (pop_task_holds c streams held pending task tasks H E) as H1.
  destruct task as [address|address|o|p]; cbn [task_packet app] in H1.
  - change (c_heap c) with (c_heap c1). destruct (malloc_fresh_stream (c_heap c1)) as [Hm0 Hmn].
    destruct (run_add_holds realloc realloc_ok realloc_some c1 streams held pending _ address H1 Hm0 Hmn Hcap)
      as (c' & streams' & E' & H' & _ & _ & Hc & A).
    exists c', streams'. split; [done|]. split; [done|]. split; [exact Hc|].
    destruct A as [(-> & -> & _)|(-> & _ & _ & Ha)]; [done|]. intros _. unfold timer_follows.
    rewrite Ha, bool_decide_false; [done|]. by destruct streams.
  - destruct (run_remove_holds c1 streams held pending address H1) as
      (c' & streams' & E' & H' & _ & _ & Hc & _ & _ & Hsub & Ha & _).
    exists c', streams'. split; [done|]. split; [done|]. split; [rewrite Hc; unfold kListDefaultCapacity; cbn; lia|].
    unfold timer_follows. rewrite Ha. intros F. change (c_active c1) with (c_active c). rewrite F.
    destruct streams as [|x streams].
    + rewrite (bool_decide_true ([] = [])) by done. apply sublist_nil_r in Hsub as ->. done.
    + rewrite (bool_decide_false (x :: streams = [])) by done. cbn [negb andb].
      destruct streams' as [|y streams']; [by rewrite (bool_decide_false (_ \/ _)) by (by intros [|])|].
      rewrite bool_decide_true by (by right). done.
  - destruct (ch_tasks _ _ _ _ H o) as [st Est]; [rewrite E; by left|].
    destruct (run_timeout_holds c1 streams held pending o st H1 Est) as (c' & E' & H' & _ & _ & Es & Ea & _).
    exists c', streams. split; [done|]. split; [done|]. by apply steps_same.
  - destruct (packets_pop (c_socket c) p tasks held pending) as [Hp Hk].
    { pose proof (ch_packets _ _ _ _ H) as Hp. by rewrite E in Hp. }
    assert (Hp0 : p <> 0).
    { pose proof (sh_nonzero _ _ _ (ph_socket _ _ _ _ Hp)) as Hz. rewrite Forall_forall in Hz. apply Hz.
      apply elem_of_app. left. apply elem_of_app. right. by left. }
    destruct (run_receive_holds c1 streams held pending p (env_out env) (env_object env) H1 Hp0 Bu Hk)
      as (c' & E' & H' & [S1 S2 S3]).
    exists c', streams. split; [done|]. split; [done|]. by apply steps_same.
Qed.

Lemma timer_event_holds uninit update c streams held pending : config_holds c streams held pending ->
  stream_object_ok (update (streamObjectSetup uninit)) ->
  exists c', timer_event uninit update c = Done (tt, c') /\ config_holds c' streams held pending /\
    c_streams c' = c_streams c /\ c_active c' = c_active c.
Proof.
  intros H Hok. unfold timer_event, streamTimerCallback. rewrite bind_get.
  destruct (c_active c) eqn:Ha; [|by exists c]. rewrite bind_get.
  destruct (negb (list_is_empty (c_streams c))); [|by exists c].
  pose (P := fun c' => config_holds c' streams held pending /\ c_streams c' = c_streams c /\ c_active c' = true).
  assert (P0 : P c) by (by split).
  assert (Hin : forall c' o, P c' -> o ∈ streams -> exists st, c_heap c' !! o = Some st).
  { intros c' o [H' _] Ho. by apply (th_in _ _ _ (ch_table _ _ _ _ H')). }
  destruct (iterate_rule (fun (_ : bool) c' => P c')
    (fun sync stream => streamShouldUpdate <- streamUpdate stream ;; ret (sync && streamShouldUpdate))
    streams true c (th_list _ _ _ (ch_table _ _ _ _ H)) P0) as (sync & c1 & E1 & H1 & S1 & A1).
  { intros a c' o Ho HP. destruct (Hin c' o HP Ho) as [st Est]. destruct HP as (H' & S' & A').
    destruct (streamUpdate_holds c' streams held pending o st H' Est) as (b & c2 & E2 & H2 & S2 & A2).
    exists (a && b), c2. split; [by rewrite (bind_done _ _ _ _ _ E2)|]. split; [done|]. split; congruence. }
  rewrite (bind_done _ _ _ _ _ E1). destruct sync; [|by exists c1].
  rewrite (bind_done _ _ _ _ _ (call_done cb_update EventUpdate c1 (proj1 (ch_callbacks _ _ _ _ H1)))).
  set (c2 := set_events _ c1).
  assert (P2 : P c2) by (split; [destruct H1; by split|done]).
  destruct (iterate_rule (fun (_ : unit) c' => P c') (fun _ stream => streamSend stream (update (streamObjectSetup uninit)))
    streams tt c2) as ([] & c3 & E3 & H3).
  { change (c_streams c2) with (c_streams c1). rewrite S1. apply (th_list _ _ _ (ch_table _ _ _ _ H)). }
  { exact P2. }
  { intros a c' o Ho HP. destruct (Hin c' o HP Ho) as [st Est]. destruct HP as (H' & S' & A').
    destruct (streamSend_holds c' streams held pending o st _ H' Est Hok) as (c4 & E4 & H4 & [S4 A4 _] & _).
    exists tt, c4. split; [done|]. split; [done|]. split; congruence. }
  exists c3. split; [exact E3|exact H3].
Qed.

Lemma stream_step_holds op c streams held pending : config_holds c streams held pending -> stream_op_ok op ->
  l_capacity (c_streams c) + kListDefaultCapacity < 2 ^ 31 ->
  exists c' streams' held' pending', stream_step op c = Done (tt, c') /\
    config_holds c' streams' held' pending' /\
    l_capacity (c_streams c') <= l_capacity (c_streams c) + kListDefaultCapacity /\
    (op <> AppSuspend -> timer_follows c streams -> timer_follows c' streams').
Proof.
  intros H Hop Hcap.
  assert (Same : forall c' held' pending', stream_step op c = Done (tt, c') ->
    config_holds c' streams held' pending' -> c_streams c' = c_streams c -> c_active c' = c_active c ->
    exists c' streams' held' pending', stream_step op c = Done (tt, c') /\
    config_holds c' streams' held' pending' /\
    l_capacity (c_streams c') <= l_capacity (c_streams c) + kListDefaultCapacity /\
    (op <> AppSuspend -> timer_follows c streams -> timer_follows c' streams')).
  { intros c' held' pending' E H' S A. destruct (steps_same c c' streams S A) as [Hc Ht].
    exists c', streams, held', pending'. by split. }
  destruct op as [address|address| | |env|uninit update|i|address bytes| |].
  - eapply Same; [reflexivity|by apply add_task_holds|done|done].
  - eapply Same; [reflexivity|by apply add_task_remove_holds|done|done].
  - cbn [stream_step]. destruct (c_active c) eqn:Ha.
    + rewrite suspend_done by (done || apply (ch_callbacks _ _ _ _ H)). eexists _, streams, held, pending.
      split; [reflexivity|]. split; [destruct H; by split|]. split; [unfold kListDefaultCapacity; cbn; lia|done].
    + rewrite suspend_inactive by done. exists c, streams, held, pending. split; [done|]. split; [done|].
      split; [unfold kListDefaultCapacity; lia|done].
  - cbn [stream_step]. unfold streamResume. rewrite bind_get.
    rewrite (is_empty_holds _ _ (th_list _ _ _ (ch_table _ _ _ _ H))).
    destruct (c_active c) eqn:Ha; cbn [negb].
    { exists c, streams, held, pending. split; [done|]. split; [done|]. split; [unfold kListDefaultCapacity; lia|done]. }
    case_bool_decide as Hs; cbn [negb].
    { exists c, streams, held, pending. split; [done|]. split; [done|]. split; [unfold kListDefaultCapacity; lia|done]. }
    eexists _, streams, held, pending. split; [reflexivity|]. split; [destruct H; by split|].
    split; [unfold kListDefaultCapacity; cbn; lia|]. intros _ _. unfold timer_follows. by rewrite bool_decide_false.
  - destruct (run_task_holds env c streams held pending H Hop Hcap) as (c' & streams' & E & H' & [Hc Ht]).
    exists c', streams', held, pending. do 3 (split; [done|]). intros _. exact Ht.
  - destruct (timer_event_holds uninit update c streams held pending H) as (c' & E & H' & S & A); [done|].
    by apply (Same c' held pending).
  - destruct (s_delivered (c_socket c) !! i) as [p|] eqn:Ei;
      [|apply (Same c held pending); [unfold stream_step, deliver; by rewrite bind_get, Ei|done..]].
    pose proof (packets_deliver _ _ _ _ i p (ch_packets _ _ _ _ H) Ei) as Hp.
    eapply Same; [unfold stream_step, deliver; rewrite bind_get, Ei; reflexivity| |done|done].
    destruct H as [_ Ht Hk Ha Hcb]. split; [exact Hp|done| |done|done].
    intros x Hx. cbn in Hx. apply elem_of_app in Hx as [Hx|Hx]; [by apply Hk|]. by apply list_elem_of_singleton in Hx.
  - destruct (packets_datagram _ _ _ _ address bytes (ch_packets _ _ _ _ H) Hop) as (s' & held' & E & H').
    eapply Same; [cbn; by apply on_socket_done|by apply (config_packets c s' _ held)|done|done].
  - destruct (packets_block malloc_node malloc_node_fresh malloc_node_some _ _ _ _ (ch_packets _ _ _ _ H))
      as (s' & pending' & E & H').
    eapply Same; [cbn; by apply on_socket_done| |done|done]. destruct H as [_ Ht Hk Ha Hcb]. by split.
  - destruct (packets_writable _ _ _ _ (ch_packets _ _ _ _ H)) as (s' & E & H').
    eapply Same; [cbn; by apply on_socket_done| |done|done]. destruct H as [_ Ht Hk Ha Hcb]. by split.
Qed.

(** C2: whatever the application, the network, the timer and the dispatch
    queues do, in any order: no callback, packet or stream is used through a
    bad pointer, no assertion fails, every loop ends; no two streams have the
    same address, every reference to a packet has one owner, and every stream
    keeps a well-formed state that is never [StreamConnected]. *)
Theorem stream_safe ops c streams held pending :
  config_holds c streams held pending -> Forall stream_op_ok ops ->
  l_capacity (c_streams c) + kListDefaultCapacity * Z.of_nat (length ops) < 2 ^ 31 ->
  exists c' streams' held' pending', stream_run ops c = Done (tt, c') /\
    config_holds c' streams' held' pending'.
Proof.
  intros H Hops. revert c streams held pending H.
  induction Hops as [|op ops Hop Hops IH]; intros c streams held pending H Hcap; cbn [stream_run].
  - by exists c, streams, held, pending.
  - cbn [length] in Hcap. unfold kListDefaultCapacity in *.
    destruct (stream_step_holds op c streams held pending H Hop) as (c1 & st1 & h1 & p1 & E1 & H1 & Hc1 & _);
      unfold kListDefaultCapacity in *; [lia|].
    rewrite (bind_done _ _ _ _ _ E1). apply (IH c1 st1 h1 p1 H1). lia.
Qed.

(** C28: as long as the application does not suspend the streams itself, the
    timer runs exactly while there is a stream. *)
Theorem stream_timer ops c streams held pending :
  config_holds c streams held pending -> Forall stream_op_ok ops -> AppSuspend ∉ ops ->
  l_capacity (c_streams c) + kListDefaultCapacity * Z.of_nat (length ops) < 2 ^ 31 ->
  c_active c = negb (list_is_empty (c_streams c)) ->
  exists c', stream_run ops c = Done (tt, c') /\ c_active c' = negb (list_is_empty (c_streams c')).
Proof.
  intros H Hops. revert c streams held pending H.
  induction Hops as [|op ops Hop Hops IH]; intros c streams held pending H Hs Hcap Ha; cbn [stream_run].
  - by exists c.
  - cbn [length] in Hcap. unfold kListDefaultCapacity in *. apply not_elem_of_cons in Hs as [Hs0 Hs].
    destruct (stream_step_holds op c streams held pending H Hop) as (c1 & st1 & h1 & p1 & E1 & H1 & Hc1 & F);
      unfold kListDefaultCapacity in *; [lia|].
    rewrite (bind_done _ _ _ _ _ E1). apply (IH c1 st1 h1 p1 H1); [done|lia|].
    rewrite (is_empty_holds _ _ (th_list _ _ _ (ch_table _ _ _ _ H))) in Ha.
    rewrite (is_empty_holds _ _ (th_list _ _ _ (ch_table _ _ _ _ H1))). apply F; [by intros ->|done].
Qed.

(** ** A queue of time-outs *)

(** The queue runs its tasks; those of time-outs add no others. *)
Fixpoint run_tasks (n : nat) (env : stream_env) : prog StreamConfiguration unit :=
  match n with
  | O => ret tt
  | S n' => run_task realloc malloc env ;; run_tasks n' env
  end.

Definition drain (env : stream_env) : prog StreamConfiguration unit :=
  c <- get ;; run_tasks (length (c_streamDispatchQueue c)) env.

(** The streams of [l] are timed out. *)
Definition timed_out (l : list Z) (heap : gmap Z Stream) : gmap Z Stream :=
  fold_left (fun heap o => alter (with_state StreamTimeout) o heap) l heap.

Definition address_in (heap : gmap Z Stream) (o : Z) : net_addr_t := default zeroAddr (stream_address heap o).

Lemma timed_out_lookup l heap o :
  timed_out l heap !! o = (if decide (o ∈ l) then with_state StreamTimeout else id) <$> heap !! o.
Proof.
  unfold timed_out. revert heap. induction l as [|x l IH]; intros heap; cbn [fold_left].
  { rewrite decide_False by apply not_elem_of_nil. by destruct (heap !! o). }
  rewrite IH. destruct (decide (x = o)) as [->|Hne].
  - rewrite lookup_alter_eq, (decide_True (P := o ∈ o :: l)) by (by left).
    destruct (heap !! o), (decide (o ∈ l)); done.
  - rewrite lookup_alter_ne by done. by rewrite (decide_ext (o ∈ l) (o ∈ x :: l)) by (rewrite elem_of_cons; naive_solver).
Qed.

Lemma timed_out_address l heap o : address_in (timed_out l heap) o = address_in heap o.
Proof. unfold address_in, stream_address. rewrite timed_out_lookup. by destruct (heap !! o), (decide (o ∈ l)). Qed.

Lemma timeouts_drained l env c streams held pending : config_holds c streams held pending ->
  c_streamDispatchQueue c = TaskTimeout <$> l ->
  exists c', drain env c = Done (tt, c') /\ config_holds c' streams held pending /\ c_streamDispatchQueue c' = [] /\
    c_socket c' = c_socket c /\ c_streams c' = c_streams c /\ c_active c' = c_active c /\
    c_heap c' = timed_out l (c_heap c) /\
    c_events c' = c_events c ++ ((fun o => EventTimeout (address_in (c_heap c) o)) <$> l).
Proof.
  unfold drain. intros H Q. rewrite bind_get, Q, length_fmap. revert c H Q. induction l as [|o l IH]; intros c H Q.
  { exists c. cbn. by rewrite app_nil_r. }
  cbn [length run_tasks]. unfold run_task. rewrite bind_assoc, bind_get, Q. cbn [fmap list_fmap]. rewrite bind_assoc, bind_modify.
  destruct (ch_tasks _ _ _ _ H o) as [st E]; [rewrite Q; by left|].
  pose proof (pop_task_holds c streams held pending (TaskTimeout o) (fmap (M := list) TaskTimeout l) H Q) as H1. cbn [task_packet app] in H1.
  destruct (run_timeout_holds _ streams held pending o st H1 E) as (c1 & E1 & H2 & [S1 S2 S3] & Eh & Es & Ea & V).
  rewrite (bind_done _ _ _ _ _ E1). destruct (IH c1 H2 S2) as (c' & E' & H' & Q' & K' & L' & A' & T' & V').
  assert (Eh' : c_heap c1 = alter (with_state StreamTimeout) o (c_heap c)).
  { rewrite Eh. apply map_eq. intros x. destruct (decide (o = x)) as [->|Hne].
    - by rewrite lookup_insert_eq, lookup_alter_eq, E.
    - by rewrite lookup_insert_ne, lookup_alter_ne. }
  exists c'. split; [exact E'|]. split; [exact H'|]. split; [exact Q'|]. split; [by rewrite K'|].
  split; [by rewrite L', Es|]. split; [by rewrite A', Ea|]. split; [by rewrite T', Eh'|].
  rewrite V', V, <- app_assoc. cbn [fmap list_fmap app]. f_equal. f_equal.
  - f_equal. unfold address_in, stream_address. by rewrite E.
  - apply list_fmap_ext. intros _ x _. f_equal. rewrite Eh'. exact (timed_out_address [o] (c_heap c) x).
Qed.

(** ** A message from one peer to another *)

Lemma parsed_unique out uninit k hdr object hdr' object' :
  parsed out uninit k hdr object -> parsed out uninit k hdr' object' -> hdr' = hdr /\ object' = object.
Proof. intros (b & b1 & E1 & E2) (b' & b1' & E1' & E2'). rewrite E1 in E1'. simplify_eq. rewrite E2 in E2'. by simplify_eq. Qed.

Lemma message_parsed out uninit k q a bits object : unread k -> stream_object_ok object ->
  zlen (so_data uninit) = kStreamObjectDataMaxLength -> uint_ok 4 q -> uint_ok 4 a -> uint_ok 4 bits ->
  take (length (message q a bits object)) (pk_data k) = message q a bits object ->
  parsed out uninit k (q, a, bits) (received (streamObjectSetup uninit) object).
Proof.
  intros [[Hd Hb] Hof Hbd] Hob Hu Hq Ha Hbits E. unfold kNetPacketMaxLen in *.
  pose proof (message_fits q a bits object Hob) as F. unfold kNetPacketMaxLen in F.
  assert (W : bs_wf (pk_bitstream k)) by (unfold pk_data in *; split; [lia|lia|lia|done]).
  assert (R : room (pk_bitstream k) = 256) by (unfold room; lia).
  assert (A : ahead (pk_bitstream k) (message q a bits object)).
  { exists (drop (length (message q a bits object)) (pk_data k)). unfold cursor. rewrite Hof. cbn [Z.to_nat drop].
    rewrite <- E at 1. by rewrite take_drop. }
  unfold message in A, F. rewrite zlen_app in F. destruct (ahead_split _ _ _ W A) as [Ah Ad].
  pose proof (zlen_nonneg (enc_stream_data object)).
  eexists _, _. split.
  - apply (unpack_stream_header_parses out q a bits Hq Ha Hbits); [done|lia|done].
  - apply unpack_stream_data_parses; [done|done|apply skip_wf; [done|]|rewrite room_skip|done];
      pose proof (zlen_nonneg (enc_stream_header q a bits)); lia.
Qed.

(** What [object] arrives as. *)
Record same_object (object object' : StreamObject) : Prop := {
  so_same_length : so_length object' = so_length object;
  so_same_tag : so_tag object' = so_tag object;
  so_same_data : take (Z.to_nat (so_length object)) (so_data object') =
                 take (Z.to_nat (so_length object)) (so_data object);
}.

Lemma received_same uninit object : stream_object_ok object ->
  zlen (so_data uninit) = kStreamObjectDataMaxLength ->
  same_object object (received (streamObjectSetup uninit) object).
Proof.
  intros [Hd _ Hl _] Hu. split; [done|done|]. cbn. unfold zlen in *.
  set (bs := take (Z.to_nat (so_length object)) (so_data object)).
  assert (Hbs : length bs = Z.to_nat (so_length object)) by (unfold bs; rewrite length_take; lia).
  rewrite <- Hbs. apply splice_start. lia.
Qed.

(** Sending: the packet ends up on the wire. *)
Lemma send_and_flush c streams held pending o st object : config_holds c streams held pending ->
  c_heap c !! o = Some st -> st_state st = StreamWaiting -> stream_object_ok object ->
  no_packet c held pending = false ->
  exists c' earlier r, (streamSend o object ;; on_socket (flush malloc_node)) c = Done (tt, c') /\
    s_wire (c_socket c') = s_wire (c_socket c) ++ earlier ++
      [(st_address st, message (sequence (st_reliability st)) (ack (st_reliability st)) (ackBits (st_reliability st)) object)] /\
    c_heap c' !! o = Some (with_reliability r st) /\
    streamReliabilityPacketSent (25 + so_length object) (st_reliability st) = Done (tt, r) /\
    config_holds c' streams held [] /\ same_streams c c' /\ c_heap c' = <[o := with_reliability r st]> (c_heap c) /\
    c_events c' = c_events c /\ c_streamDispatchQueue c' = c_streamDispatchQueue c /\
    s_delivered (c_socket c') = s_delivered (c_socket c).
Proof.
  intros H E Hst Hob Hnp.
  destruct (streamSend_holds c streams held pending o st object H E Hob) as (c1 & E1 & H1 & M1 & V1 & T1 & A).
  rewrite decide_True, Hnp in A by done. destruct A as (p & k & [Sp Sb Sw Sd Sc (r & Er & Sr & Wr & Sh)]).
  rewrite (bind_done _ _ _ _ _ E1).
  destruct (flush_holds malloc_node malloc_node_fresh malloc_node_some _ _ _ (ph_socket _ _ _ _ (ch_packets _ _ _ _ H1)))
    as (s3 & Ef & H3 & B3 & _ & W3 & P3 & D3 & R3).
  rewrite (on_socket_done _ c1 tt s3 Ef). eexists _, _, r. split; [reflexivity|]. split; [|split; [|split; [exact Er|split]]].
  3:{ pose proof H1 as [Hp1 Ht1 Hk1 Ha1 Hcb1]. split; [|done..].
    apply (packets_quiet (c_socket c1) s3 _ _ pending); [done|done|by rewrite B3; apply NoDup_nil| |done..].
    rewrite B3. intros x Hx. by apply not_elem_of_nil in Hx. }
  3:{ split; [by destruct M1; split|]. split; [done|]. split; [done|]. split; [done|]. cbn. by rewrite D3. }
  - cbn. rewrite W3, Sw, Sb, app_assoc, bind_app. f_equal. f_equal. cbn. rewrite app_nil_r.
    apply (datagram_carries _ _ k); [|exact Sc]. by rewrite Sp, lookup_insert_eq.
  - cbn. by rewrite Sh, lookup_insert_eq.
Qed.

(** Nothing new is on the wire or on its way to it, nothing is delivered. *)
Record quiet_socket (c c' : StreamConfiguration) : Prop := {
  qt_blocks : s_blocks (c_socket c') = s_blocks (c_socket c);
  qt_wire : s_wire (c_socket c') = s_wire (c_socket c);
  qt_delivered : s_delivered (c_socket c') = [];
}.

(** Receiving: a datagram that holds a message, read, delivered and handled
    by a peer that has nothing else to do. *)
Lemma receive_reception c streams held pending addr q a bits object env : config_holds c streams held pending ->
  c_streamDispatchQueue c = [] -> s_delivered (c_socket c) = [] -> no_packet c held pending = false ->
  object_buffer (env_object env) -> stream_object_ok object ->
  uint_ok 4 q -> uint_ok 4 a -> uint_ok 4 bits -> Forall byte (message q a bits object) ->
  exists c', (on_socket (read_event (Some (addr, message q a bits object))) ;; deliver 0 ;;
              run_task realloc malloc env) c = Done (tt, c') /\
    config_holds c' streams held pending /\ same_streams c c' /\ quiet_socket c c' /\
    reception c c' streams addr (q, a, bits) (received (streamObjectSetup (env_object env)) object).
Proof.
  intros H Hq Hdel Hnp Hbuf Hob Uq Ua Ub By.
  pose proof (message_fits q a bits object Hob) as F. set (m := message q a bits object) in *.
  pose proof (ch_packets _ _ _ _ H) as [Hs Hd Hu Hr].
  destruct (read_event_holds _ _ _ (Some (addr, m)) Hs By) as (s1 & E1 & Q1 & Q2 & Q4 & Q3 & A).
  fold (no_packet c held pending) in A. rewrite Hnp in A. destruct A as (p & k & Hp0 & Hpn & Pk & H1 & Ed & Hh).
  assert (Ff : fits (Some (addr, m)) = true) by (unfold fits; apply Z.leb_le; lia).
  assert (Fe : empty (Some (addr, m)) = false) by (unfold empty; apply Z.eqb_neq; lia).
  rewrite Ff, Fe, Hr, Hdel in Ed. cbn in Ed. rewrite Ff in H1. destruct (Hh Ff) as (Ka & Kd & Ku & _).
  rewrite (bind_done _ _ _ _ _ (on_socket_done (read_event (Some (addr, m))) c tt s1 E1)).
  set (c1 := set_socket s1 c). unfold deliver at 1. unfold bind at 1. rewrite bind_get.
  change (s_delivered (c_socket c1)) with (s_delivered s1). rewrite Ed. cbn [lookup list_lookup].
  assert (Ew : waiting (c_socket c) (c_streamDispatchQueue c) = []) by (unfold waiting; by rewrite Hdel, Hq).
  rewrite Ew in *. cbn [app] in *.
  set (s2 := set_delivered [] s1).
  pose (c2 := set_tasks [TaskReceive p] (set_socket s2 c)).
  assert (Ec2 : (on_socket (modify (fun s => set_delivered (delete 0%nat (s_delivered s)) s)) ;;
                 streamSocketReceiveCallback p) c1 = Done (tt, c2)).
  { unfold c2, s2, streamSocketReceiveCallback, dispatch_async, modify, bind, on_socket. cbn. rewrite Ed, Hq. done. }
  rewrite Ec2. unfold run_task. rewrite bind_get. change (c_streamDispatchQueue c2) with [TaskReceive p].
  cbn [bind]. rewrite bind_modify. set (c3 := set_tasks [] c2).
  assert (H3 : config_holds c3 streams (p :: held) pending).
  { destruct H as [_ Ht Hk Ha Hcb]. split; [|done| |done|done].
    - split; cbn; [apply (holds_move s1 s2 _ _ _ _ H1 eq_refl eq_refl); [done|apply H1|done]| | |by rewrite Q3].
      + unfold references in *. cbn. rewrite Q2. by apply NoDup_cons.
      + intros x Hx. by apply not_elem_of_nil in Hx.
    - intros x Hx. by apply not_elem_of_nil in Hx. }
  assert (Ek3 : s_packets (c_socket c3) !! p = Some k) by (cbn; rewrite Pk; apply lookup_insert_eq).
  rewrite run_receive_handle.
  destruct (handle_packet_holds c3 streams held pending p k (env_out env) (env_object env) H3 Hp0 Ek3 Ku Hbuf)
    as (c4 & s4 & E4 & H4 & S4 & Es4 & W4 & B4 & D4 & R).
  rewrite (bind_done _ _ _ _ _ E4).
  destruct (packets_release _ _ _ _ _ (ch_packets _ _ _ _ H4)) as (s5 & E5 & [_ B5 D5 W5 _ _] & _ & H5).
  rewrite (on_socket_done _ c4 tt s5 E5). eexists. split; [reflexivity|].
  split; [by apply (config_packets c4 s5 _ (p :: held))|]. split; [destruct S4; by split|].
  split; [split; cbn; rewrite ?B5, ?D5, ?W5, Es4; [by rewrite B4|by rewrite W4|by rewrite D4]|].
  pose proof (message_parsed (env_out env) (env_object env) k q a bits object Ku Hob (proj1 Hbuf) Uq Ua Ub Kd) as Hpar.
  destruct R as [(hdr & obj & Hpar' & Rc)|(res & hdr & b & Eh & Hne & _)].
  2:{ exfalso. destruct Hpar as (b0 & b1 & Eh0 & _). rewrite Eh in Eh0. by simplify_eq. }
  destruct (parsed_unique _ _ _ _ _ _ _ Hpar Hpar') as [-> ->]. rewrite Ka in Rc.
  unfold reception in *. rewrite Hq. exact Rc.
Qed.

Lemma receive_message c streams held pending o st addr q a bits object env : config_holds c streams held pending ->
  addressed (c_heap c) streams addr o -> c_heap c !! o = Some st ->
  c_streamDispatchQueue c = [] -> s_delivered (c_socket c) = [] -> no_packet c held pending = false ->
  object_buffer (env_object env) -> stream_object_ok object ->
  uint_ok 4 q -> uint_ok 4 a -> uint_ok 4 bits -> Forall byte (message q a bits object) ->
  exists c', (on_socket (read_event (Some (addr, message q a bits object))) ;; deliver 0 ;;
              run_task realloc malloc env) c = Done (tt, c') /\ config_holds c' streams held pending /\
    (same_streams c c' /\ quiet_socket c c' /\ c_streamDispatchQueue c' = []) /\
    if a <=? sequence (st_reliability st) then
      c_events c' = c_events c ++ [EventReceive addr (received (streamObjectSetup (env_object env)) object)] /\
      exists st', c_heap c' !! o = Some st' /\ heard st st' q a bits
    else c_events c' = c_events c /\ c_heap c' = c_heap c.
Proof.
  intros H Ho Est Hq Hdel Hnp Hbuf Hob Uq Ua Ub By.
  destruct (receive_reception c streams held pending addr q a bits object env H Hq Hdel Hnp Hbuf Hob Uq Ua Ub By)
    as (c' & E & H' & Sm & Qs & Rc).
  exists c'. split; [done|]. split; [done|].
  destruct Rc as [(o' & st' & Ho' & Est' & Tq & Rc)|[No _]]; [|by destruct (No o)].
  split; [by rewrite Tq|].
  assert (o' = o) as -> by (eapply addressed_unique; [apply H|exact Ho'|exact Ho]).
  rewrite Est in Est'. injection Est' as <-. cbn [fst snd] in Rc.
  destruct (a <=? sequence (st_reliability st)); [|exact Rc].
  destruct Rc as [Re (st' & Hh' & Eh')]. split; [exact Re|]. exists st'. split; [|done]. rewrite Eh'. apply lookup_insert_eq.
Qed.

Lemma message_bytes q a bits object : stream_object_ok object -> Forall byte (message q a bits object).
Proof.
  intros Hob. unfold message. apply Forall_app. split; [apply pack_stream_header_emits|].
  by apply pack_stream_data_emits.
Qed.

(** C4: an object sent over a stream reaches the application of the other end
    unchanged.  The sender's stream is waiting and a packet is free; the
    receiver has a stream of the sender's address, whose sequence the sender's
    ack does not exceed, its dispatch queue is empty, nothing else was
    delivered, and it has a free packet.  Then [streamSend] and the write event
    put one datagram on the wire, after those that were queued before; read,
    delivered and handled by the receiver, it ends in exactly one call of the
    receive callback, with the sender's address and the same object, and the
    receiver's stream has taken in the sequence, the ack and the ack bits of
    the sender's stream, and its silence is over ([heard]).  ([unknown_sender]
    and [ack_wrap_drops] say what happens without the two premises on the
    receiver's stream.) *)
Theorem stream_delivery cA streamsA heldA pendingA oA stA object cB streamsB heldB pendingB oB stB addrA env :
  config_holds cA streamsA heldA pendingA -> c_heap cA !! oA = Some stA -> st_state stA = StreamWaiting ->
  stream_object_ok object -> no_packet cA heldA pendingA = false ->
  config_holds cB streamsB heldB pendingB -> addressed (c_heap cB) streamsB addrA oB ->
  c_heap cB !! oB = Some stB -> ack (st_reliability stA) <= sequence (st_reliability stB) ->
  c_streamDispatchQueue cB = [] -> s_delivered (c_socket cB) = [] -> no_packet cB heldB pendingB = false ->
  object_buffer (env_object env) ->
  exists cA' earlier bytes cB' object' stB',
    (streamSend oA object ;; on_socket (flush malloc_node)) cA = Done (tt, cA') /\
    s_wire (c_socket cA') = s_wire (c_socket cA) ++ earlier ++ [(st_address stA, bytes)] /\
    (on_socket (read_event (Some (addrA, bytes))) ;; deliver 0 ;; run_task realloc malloc env) cB = Done (tt, cB') /\
    c_events cB' = c_events cB ++ [EventReceive addrA object'] /\ same_object object object' /\
    c_heap cB' !! oB = Some stB' /\ heard stB stB' (sequence (st_reliability stA)) (ack (st_reliability stA)) (ackBits (st_reliability stA)).
Proof.
  intros HA EA SA Hob NA HB AB EB Hack Tq Td NB Hbuf.
  pose proof (th_heap _ _ _ (ch_table _ _ _ _ HA) oA stA EA) as [_ WA].
  destruct (send_and_flush cA streamsA heldA pendingA oA stA object HA EA SA Hob NA) as (cA' & earlier & r & E1 & W1 & _ & _).
  pose proof (rw_sequence _ (sw_ring _ WA)) as Q. unfold kStreamReliabilityMaxSequence in Q.
  destruct (receive_message cB streamsB heldB pendingB oB stB addrA (sequence (st_reliability stA))
    (ack (st_reliability stA)) (ackBits (st_reliability stA)) object env HB AB EB Tq Td NB Hbuf Hob)
    as (cB' & E2 & _ & _ & R); [unfold uint_ok; lia|apply WA|apply WA|by apply message_bytes|].
  rewrite (proj2 (Z.leb_le _ _) Hack) in R. destruct R as (Re & st' & Es & Hh).
  exists cA', earlier, (message (sequence (st_reliability stA)) (ack (st_reliability stA)) (ackBits (st_reliability stA)) object), cB',
    (received (streamObjectSetup (env_object env)) object), st'.
  split; [done|]. split; [done|]. split; [done|]. split; [done|]. split; [|by split].
  by apply received_same; [|apply Hbuf].
Qed.

(** acknowledgements are compared as numbers: a message whose ack is
    greater than the receiver's own sequence, as every ack is right after
    that sequence wrapped to zero, is handed to nobody, and the stream does
    not even notice that the peer is alive. *)
Theorem ack_wrap_drops c streams held pending o st addr q a bits object env :
  config_holds c streams held pending -> addressed (c_heap c) streams addr o -> c_heap c !! o = Some st ->
  sequence (st_reliability st) < a -> c_streamDispatchQueue c = [] -> s_delivered (c_socket c) = [] ->
  no_packet c held pending = false -> object_buffer (env_object env) -> stream_object_ok object ->
  uint_ok 4 q -> uint_ok 4 a -> uint_ok 4 bits ->
  exists c', (on_socket (read_event (Some (addr, message q a bits object))) ;; deliver 0 ;;
              run_task realloc malloc env) c = Done (tt, c') /\
    c_events c' = c_events c /\ c_heap c' = c_heap c.
Proof.
  intros H Ho E Hlt Tq Td N Hbuf Hob Uq Ua Ub.
  destruct (receive_message c streams held pending o st addr q a bits object env H Ho E Tq Td N Hbuf Hob Uq Ua Ub)
    as (c' & E' & _ & _ & R); [by apply message_bytes|].
  rewrite (proj2 (Z.leb_gt _ _) Hlt) in R. by exists c'.
Qed.

(** the first packet of a peer that is not known yet is not delivered: it
    only adds a stream for the peer, whose messages are handled from then on. *)
Theorem unknown_sender c streams held pending addr q a bits object env env' :
  config_holds c streams held pending -> (forall o, ~ addressed (c_heap c) streams addr o) ->
  c_streamDispatchQueue c = [] -> s_delivered (c_socket c) = [] -> no_packet c held pending = false ->
  l_capacity (c_streams c) + kListDefaultCapacity < 2 ^ 31 ->
  object_buffer (env_object env) -> stream_object_ok object ->
  uint_ok 4 q -> uint_ok 4 a -> uint_ok 4 bits ->
  exists c' o, (on_socket (read_event (Some (addr, message q a bits object))) ;; deliver 0 ;;
              run_task realloc malloc env ;; run_task realloc malloc env') c = Done (tt, c') /\
    c_events c' = c_events c /\ config_holds c' (streams ++ [o]) held pending /\
    c_heap c' !! o = Some (new_stream addr) /\ c_active c' = true /\ c_streamDispatchQueue c' = [].
Proof.
  intros H No Hq Hdel Hnp Hcap Hbuf Hob Uq Ua Ub.
  destruct (receive_reception c streams held pending addr q a bits object env H Hq Hdel Hnp Hbuf Hob Uq Ua Ub)
    as (c1 & E & H1 & [S1 S2 S3] & _ & Rc); [by apply message_bytes|].
  destruct Rc as [(o & st & Ho & _)|(_ & Tq & Ev & Hp)]; [by destruct (No o)|]. rewrite Hq in Tq. cbn in Tq.
  assert (A : forall k c0, (on_socket (read_event (Some (addr, message q a bits object))) ;; deliver 0 ;;
              run_task realloc malloc env) c = Done (tt, c0) ->
     (on_socket (read_event (Some (addr, message q a bits object))) ;; deliver 0 ;;
              run_task realloc malloc env ;; k) c = (k : prog StreamConfiguration unit) c0).
  { intros k c0. unfold bind. destruct (on_socket _ c) as [[? c2]|]; [|done].
    destruct (deliver 0 c2) as [[? c3]|]; [|done]. by intros ->. }
  rewrite (A _ c1 E). clear A E.
  unfold run_task. rewrite bind_get, Tq, bind_modify. set (c2 := set_tasks [] c1).
  pose proof (pop_task_holds c1 streams held pending _ _ H1 Tq) as H2. cbn [task_packet app] in H2. fold c2 in H2.
  change (c_heap c1) with (c_heap c2). destruct (malloc_fresh_stream (c_heap c2)) as [Hm0 Hmn].
  assert (Hcap2 : l_capacity (c_streams c2) + kListDefaultCapacity < 2 ^ 31) by (cbn; by rewrite S1).
  destruct (run_add_holds realloc realloc_ok realloc_some c2 streams held pending _ addr H2 Hm0 Hmn Hcap2)
    as (c' & streams' & E' & H' & [_ Ht _] & Ev' & _ & A).
  destruct A as [(_ & _ & (o & Ho))|(-> & _ & Eh & Ea)].
  { exfalso. apply (No o). change (c_heap c2) with (c_heap c1) in Ho. by rewrite Hp in Ho. }
  exists c', (malloc (c_heap c2)). split; [done|]. split; [by rewrite Ev'|]. split; [done|].
  split; [rewrite Eh; apply lookup_insert_eq|]. split; [done|]. by rewrite Ht.
Qed.

(** a stream that timed out never recovers: messages still arrive and reach
    the application, but nothing is sent to the peer any more. *)
Theorem timed_out_mute c streams held pending o st addr q a bits object reply env :
  config_holds c streams held pending -> addressed (c_heap c) streams addr o -> c_heap c !! o = Some st ->
  st_state st = StreamTimeout -> a <= sequence (st_reliability st) ->
  c_streamDispatchQueue c = [] -> s_delivered (c_socket c) = [] ->
  no_packet c held pending = false -> object_buffer (env_object env) -> stream_object_ok object ->
  stream_object_ok reply -> uint_ok 4 q -> uint_ok 4 a -> uint_ok 4 bits ->
  exists c' object', (on_socket (read_event (Some (addr, message q a bits object))) ;; deliver 0 ;;
              run_task realloc malloc env) c = Done (tt, c') /\
    c_events c' = c_events c ++ [EventReceive addr object'] /\ same_object object object' /\
    streamSend o reply c' = Done (tt, c').
Proof.
  intros H Ho E Hst Hle Tq Td N Hbuf Hob Hrep Uq Ua Ub.
  destruct (receive_message c streams held pending o st addr q a bits object env H Ho E Tq Td N Hbuf Hob Uq Ua Ub)
    as (c' & E' & H' & _ & R); [by apply message_bytes|].
  rewrite (proj2 (Z.leb_le _ _) Hle) in R. destruct R as (Re & st' & Es & Hh).
  exists c', (received (streamObjectSetup (env_object env)) object).
  split; [done|]. split; [done|]. split; [by apply received_same; [|apply Hbuf]|].
  destruct (streamSend_holds c' streams held pending o st' reply H' Es Hrep) as (c2 & E2 & _ & _ & _ & _ & A).
  rewrite decide_False in A; [by rewrite E2, A|]. rewrite (hd_state _ _ _ _ _ Hh), Hst. done.
Qed.

End Runs.

(** ** Concrete runs *)

Definition demo_env : stream_env := mkEnv (0, 0, 0) demo_uninit.

Definition demo_run : list stream_op :=
  [AppAdd demo_peer; RunTask demo_env; Tick demo_uninit (fun _ => demo_object); RunBlock; Writable;
   Datagram demo_peer [1; 2; 3]; Deliver 0; RunTask demo_env; AppRemove demo_peer; RunTask demo_env].

Lemma demo_run_ok : Forall stream_op_ok demo_run.
Proof.
  unfold demo_run. repeat apply Forall_cons_2; try exact I; try exact demo_uninit_buffer;
    try exact demo_object_ok; try apply Forall_nil_2; by split.
Qed.

Lemma stream_safe_witness :
  exists c' streams' held' pending',
    stream_run (order := LittleEndian) grow free_address next_free (demo_run ++ [AppResume; AppSuspend]) demo_config =
      Done (tt, c') /\ config_holds c' streams' held' pending'.
Proof.
  apply (stream_safe grow free_address next_free grow_keeps grow_some free_address_fresh
    next_free_fresh next_free_some (demo_run ++ [AppResume; AppSuspend]) demo_config [] [] []).
  - exact demo_config_holds.
  - apply Forall_app. split; [exact demo_run_ok|]. repeat apply Forall_cons_2; try exact I.
    apply Forall_nil_2.
  - change (c_streams demo_config) with demo_streams. rewrite (proj2 demo_streams_holds). reflexivity.
Defined.

Lemma stream_timer_witness :
  exists c', stream_run (order := LittleEndian) grow free_address next_free demo_run demo_config = Done (tt, c') /\
    c_active c' = negb (list_is_empty (c_streams c')).
Proof.
  apply (stream_timer grow free_address next_free grow_keeps grow_some free_address_fresh
    next_free_fresh next_free_some demo_run demo_config [] [] []).
  - exact demo_config_holds.
  - exact demo_run_ok.
  - intros Hin. repeat (apply elem_of_cons in Hin as [?|Hin]; [discriminate|]). by apply not_elem_of_nil in Hin.
  - change (c_streams demo_config) with demo_streams. rewrite (proj2 demo_streams_holds). reflexivity.
  - change (c_streams demo_config) with demo_streams.
    rewrite (is_empty_holds _ _ (proj1 demo_streams_holds)). reflexivity.
Defined.

Lemma demo_known_idle : c_streamDispatchQueue demo_known = [] /\ s_delivered (c_socket demo_known) = [] /\
  no_packet demo_known [] [] = false.
Proof.
  destruct demo_known_holds as (_ & _ & _ & _ & [Es Et _] & _). split; [exact Et|].
  split; [rewrite Es; exact (proj1 demo_socket_quiet)|]. by apply demo_room.
Qed.

(** A peer that is its own correspondent. *)
Lemma stream_delivery_witness :
  exists cA' earlier bytes cB' object' stB',
    (streamSend (H := LittleEndian) 8 demo_object ;; on_socket (flush next_free)) demo_known = Done (tt, cA') /\
    s_wire (c_socket cA') = s_wire (c_socket demo_known) ++ earlier ++ [(demo_peer, bytes)] /\
    (on_socket (read_event (Some (demo_peer, bytes))) ;; deliver 0 ;;
     run_task (H := LittleEndian) grow free_address demo_env) demo_known = Done (tt, cB') /\
    c_events cB' = c_events demo_known ++ [EventReceive demo_peer object'] /\ same_object demo_object object' /\
    c_heap cB' !! 8 = Some stB' /\ heard (new_stream demo_peer) stB' 0 0 0.
Proof.
  destruct demo_known_holds as (H & A & E & _). destruct demo_known_idle as (Tq & Td & N).
  apply (stream_delivery grow free_address next_free next_free_fresh next_free_some
    demo_known [8] [] [] 8 (new_stream demo_peer) demo_object demo_known [8] [] [] 8 (new_stream demo_peer) demo_peer demo_env);
    [exact H|exact E|reflexivity|exact demo_object_ok|exact N|exact H|exact A|exact E|discriminate|exact Tq|exact Td|exact N
    |exact demo_uninit_buffer].
Defined.

Lemma ack_wrap_drops_witness :
  exists c', (on_socket (read_event (Some (demo_peer, message (order := LittleEndian) 5 65534 0 demo_object))) ;; deliver 0 ;;
              run_task (H := LittleEndian) grow free_address demo_env) demo_known = Done (tt, c') /\
    c_events c' = c_events demo_known /\ c_heap c' = c_heap demo_known.
Proof.
  destruct demo_known_holds as (H & A & E & _). destruct demo_known_idle as (Tq & Td & N).
  apply (ack_wrap_drops grow free_address demo_known [8] [] [] 8 (new_stream demo_peer) demo_peer 5 65534 0 demo_object demo_env);
    [exact H|exact A|exact E|reflexivity|exact Tq|exact Td|exact N|exact demo_uninit_buffer|exact demo_object_ok|by split..].
Defined.

Lemma unknown_sender_witness :
  exists c' o, (on_socket (read_event (Some (demo_peer, message (order := LittleEndian) 1 0 0 demo_object))) ;; deliver 0 ;;
      run_task (H := LittleEndian) grow free_address demo_env ;; run_task (H := LittleEndian) grow free_address demo_env) demo_config = Done (tt, c') /\
    c_events c' = [] /\ config_holds c' [o] [] [] /\
    c_heap c' !! o = Some (new_stream demo_peer) /\ c_active c' = true /\ c_streamDispatchQueue c' = [].
Proof.
  apply (unknown_sender grow free_address grow_keeps grow_some free_address_fresh
    demo_config [] [] [] demo_peer 1 0 0 demo_object demo_env demo_env).
  - exact demo_config_holds.
  - intros o (Ho & _). by apply not_elem_of_nil in Ho.
  - reflexivity.
  - exact (proj1 demo_socket_quiet).
  - by apply demo_room.
  - change (c_streams demo_config) with demo_streams. rewrite (proj2 demo_streams_holds). reflexivity.
  - exact demo_uninit_buffer.
  - exact demo_object_ok.
  - by split.
  - by split.
  - by split.
Defined.

Lemma timed_out_mute_witness :
  exists c c' object', (on_socket (read_event (Some (demo_peer, message (order := LittleEndian) 1 0 0 demo_object))) ;;
      deliver 0 ;; run_task (H := LittleEndian) grow free_address demo_env) c = Done (tt, c') /\
    c_events c' = c_events c ++ [EventReceive demo_peer object'] /\ same_object demo_object object' /\
    streamSend (H := LittleEndian) 8 demo_object c' = Done (tt, c').
Proof.
  destruct demo_known_holds as (H & [Hin _] & E & _ & [Es _ _] & _).
  destruct (run_timeout_holds demo_known [8] [] [] 8 _ H E) as (c & _ & H' & [Es' Et' _] & Eh & _).
  assert (E' : c_heap c !! 8 = Some (with_state StreamTimeout (new_stream demo_peer))) by (rewrite Eh; apply lookup_insert_eq).
  assert (Ec : c_socket c = demo_socket) by (rewrite Es'; exact Es).
  destruct demo_known_idle as (Tq & _ & _). rewrite Tq in Et'. exists c.
  apply (timed_out_mute grow free_address c [8] [] [] 8 (with_state StreamTimeout (new_stream demo_peer)) demo_peer
    1 0 0 demo_object demo_object demo_env).
  - exact H'.
  - split; [exact Hin|]. eexists. split; [exact E'|reflexivity].
  - exact E'.
  - reflexivity.
  - discriminate.
  - exact Et'.
  - rewrite Ec. exact (proj1 demo_socket_quiet).
  - by apply demo_room.
  - exact demo_uninit_buffer.
  - exact demo_object_ok.
  - exact demo_object_ok.
  - by split.
  - by split.
  - by split.
Defined.
