(* ===== verification/StreamPeers.v ===== *)
(** * The streams of two peers and their exchange (src/stream.c)

    Two peers, each with one stream to the other, run on: the timer of an end
    ticks, its dispatch queue and its socket follow, or a datagram that the
    other end has put on its wire arrives, whenever it comes and as often as it
    comes.  The exchange of acknowledgements (StreamExchange) is what their
    streams do. *)
From S2P Require Import Prelude Bitstream Wire Fields Net Protocol LinkedList Queue Pool NetSocket NetSocketSpec.
From S2P Require Import Floats StreamFlow StreamReliability StreamReliabilitySpec StreamExchange Stream StreamSpec StreamRun.

(** What happens at one end. *)
Inductive end_op :=
| Ticks (uninit : StreamObject) (update : StreamObject -> StreamObject) (env : stream_env)
| Arrives (i : nat) (env : stream_env).   (* the datagram [i] of the other end's wire *)

(** The objects that the application was given. *)
Definition receipt (e : stream_event) : option (net_addr_t * StreamObject) :=
  match e with EventReceive address object => Some (address, object) | _ => None end.

Definition receipts (events : list stream_event) : list (net_addr_t * StreamObject) := omap receipt events.

Lemma receipts_app l k : receipts (l ++ k) = receipts l ++ receipts k.
Proof. apply omap_app. Qed.

Lemma receipts_timeouts heap l : receipts ((fun o => EventTimeout (address_in heap o)) <$> l) = [].
Proof. by induction l. Qed.

(** An object of the other end arrived, sent with the sequence [s]. *)
Definition arrived (address : net_addr_t) (theirs : list StreamObject) (s : Z) (r : net_addr_t * StreamObject) : Prop :=
  r.1 = address /\ exists object, theirs !! Z.to_nat s = Some object /\ same_object object r.2.

Definition room_left (held : list Z) : Prop := Z.of_nat (size (counts_of held)) < kNetPacketPoolCapacity.

Section Peers.
Context {order : Host}.
Context (realloc : gmap Z list_node_s -> Z -> option (gmap Z list_node_s)).
Context (malloc : gmap Z Stream -> Z).
Context (malloc_node : gmap Z queue_node_s -> option (Z * queue_node_s)).
Hypothesis malloc_node_fresh : malloc_fresh malloc_node.
Hypothesis malloc_node_some : forall h, malloc_node h <> None.

(** The bytes of a message that carries [object]. *)
Definition datagram_of (object : StreamObject) (m : ack_message) : list Z :=
  message (m_sequence m) (m_ack m) (m_bits m) object.

(** What the code of an end does: the timer fires, the dispatch queue and the
    blocks of the socket run, and the socket is written; or a datagram of the
    other end, whose wire is [wire] and whose address is [from], is read,
    delivered and handled. *)
Definition end_does (op : end_op) (from : net_addr_t) (wire : list (net_addr_t * list Z)) : prog StreamConfiguration unit :=
  match op with
  | Ticks uninit update env =>
      timer_event uninit update ;; drain realloc malloc env ;; on_socket (flush malloc_node)
  | Arrives i env =>
      match wire !! i with
      | Some (_, bytes) => on_socket (read_event (Some (from, bytes))) ;; deliver 0 ;; run_task realloc malloc env
      | None => ret tt
      end
  end.

(** A message is sent, or not, when the stream is not due or has timed out. *)
Definition may_send (object : StreamObject) (other : list ack_message) (p p' : peer)
    (objects objects' : list StreamObject) : Prop :=
  (p' = p /\ objects' = objects) \/
  (peer_step (Send (25 + so_length object)) other p = Done p' /\ objects' = objects ++ [object]).

(** What it is of the exchange, with the objects that the messages carry: a
    tick is an update, after which a message may be sent. *)
Definition peer_does (op : end_op) (other : list ack_message) (p p' : peer) (objects objects' : list StreamObject) : Prop :=
  match op with
  | Ticks uninit update _ =>
      exists p1, peer_step (Update kStreamTimerUpdateInterval) other p = Done p1 /\
        may_send (update (streamObjectSetup uninit)) other p1 p' objects objects'
  | Arrives i _ => peer_step (Receive i) other p = Done p' /\ objects' = objects
  end.

Definition op_timely (op : end_op) (other : list ack_message) (p : peer) : Prop :=
  match op with
  | Ticks _ _ _ => timely (Send 0) other p
  | Arrives i _ => timely (Receive i) other p
  end.

(** The application sends objects that fit, buffers have their size. *)
Definition end_op_ok (op : end_op) : Prop :=
  match op with
  | Ticks uninit update _ => stream_object_ok (update (streamObjectSetup uninit))
  | Arrives _ env => object_buffer (env_object env)
  end.

(** ** One end *)

Section End.
(** The stream, the packets that others hold, the address of the other end. *)
Context (o : Z) (held : list Z) (address : net_addr_t).

(** The end is the peer [p], which has sent [objects] and may receive [theirs];
    it has nothing else to do. *)
Record end_is (c : StreamConfiguration) (p : peer) (objects theirs : list StreamObject) : Prop := {
  ei_holds : config_holds c [o] held [];
  ei_active : c_active c = true;
  ei_queue : c_streamDispatchQueue c = [];
  ei_delivered : s_delivered (c_socket c) = [];
  ei_blocks : s_blocks (c_socket c) = [];
  ei_stream : exists st, c_heap c !! o = Some st /\ st_address st = address /\ st_reliability st = p_ring p;
  ei_objects : Forall stream_object_ok objects;
  ei_sent : length objects = length (p_sent p);
  ei_wire : s_wire (c_socket c) = zip_with (fun object m => (address, datagram_of object m)) objects (p_sent p);
  ei_receipts : Forall2 (arrived address theirs) (rev (p_heard p)) (receipts (c_events c));
  ei_room : room_left held;
}.

(** An end in the course of a tick: time-outs are queued, and a message may be
    on its way to the wire. *)
Record end_half (c : StreamConfiguration) (p : peer) (objects theirs : list StreamObject) : Prop := {
  eh_holds : config_holds c [o] held [];
  eh_active : c_active c = true;
  eh_queue : exists l, c_streamDispatchQueue c = TaskTimeout <$> l;
  eh_delivered : s_delivered (c_socket c) = [];
  eh_stream : exists st, c_heap c !! o = Some st /\ st_address st = address /\ st_reliability st = p_ring p;
  eh_objects : Forall stream_object_ok objects;
  eh_sent : length objects = length (p_sent p);
  eh_wire : s_wire (c_socket c) ++ (s_blocks (c_socket c) ≫= datagram (s_packets (c_socket c))) =
    zip_with (fun object m => (address, datagram_of object m)) objects (p_sent p);
  eh_receipts : Forall2 (arrived address theirs) (rev (p_heard p)) (receipts (c_events c));
  eh_room : room_left held;
}.

Lemma timeouts_no_packets l : task_packets (TaskTimeout <$> l) = [].
Proof. by induction l. Qed.

Lemma end_packet c l : c_streamDispatchQueue c = TaskTimeout <$> l -> s_delivered (c_socket c) = [] ->
  s_blocks (c_socket c) = [] -> room_left held -> no_packet c held [] = false.
Proof.
  intros Q D B R. unfold no_packet, exhausted, references, waiting. rewrite Q, D, B, timeouts_no_packets. cbn [app].
  rewrite app_nil_r. apply Z.eqb_neq. unfold room_left in R. lia.
Qed.

(** The stream is updated. *)
Lemma end_updated c p objects theirs other : end_is c p objects theirs ->
  exists b c' p', (streamShouldUpdate <- streamUpdate o ;; ret (true && streamShouldUpdate)) c = Done (b, c') /\
    peer_step (Update kStreamTimerUpdateInterval) other p = Done p' /\ p_sent p' = p_sent p /\
    end_half c' p' objects theirs /\ s_blocks (c_socket c') = [] /\ c_streams c' = c_streams c.
Proof.
  intros [H A Q D B (st & E & Ea & Er) Ob L W R Rm].
  destruct (th_heap _ _ _ (ch_table _ _ _ _ H) o st E) as [Ho Wst].
  destruct (streamUpdate_done c o st Ho E Wst) as (r & Eu & _ & _ & E1).
  destruct (streamUpdate_holds c [o] held [] o st H E) as (b & c' & E2 & H' & S' & A').
  rewrite E1 in E2. injection E2 as <- <-. rewrite (bind_done _ _ _ _ _ E1).
  eexists _, _, (mkPeer r (p_sent p) (p_heard p)). split; [reflexivity|].
  split; [cbn [peer_step]; rewrite <- Er, Eu; done|]. split; [done|]. split; [|done].
  split; [exact H'|by rewrite A'| |exact D| |exact Ob|exact L| |exact R|exact Rm].
  - exists (if late st then [o] else []). cbn. rewrite Q. by destruct (late st).
  - exists (ticked r st). split; [apply lookup_insert_eq|done].
  - cbn. by rewrite B, app_nil_r.
Qed.

(** The object is sent, unless the stream has timed out. *)
Lemma end_sends c p objects theirs other object : end_half c p objects theirs -> s_blocks (c_socket c) = [] ->
  stream_object_ok object -> exists c' p' objects', streamSend o object c = Done (tt, c') /\
    may_send object other p p' objects objects' /\ end_half c' p' objects' theirs.
Proof.
  intros [H A (l & Q) D (st & E & Ea & Er) Ob L W R Rm] B Hob.
  destruct (streamSend_holds c [o] held [] o st object H E Hob) as (c' & E' & H' & [S1 S2 S3] & V' & Q' & M).
  assert (Same : c' = c -> exists c'' p' objects', streamSend o object c = Done (tt, c'') /\
    may_send object other p p' objects objects' /\ end_half c'' p' objects' theirs).
  { intros ->. exists c, p, objects. split; [exact E'|]. split; [by left|]. split; [exact H|exact A|by exists l|exact D|by exists st|exact Ob|exact L|exact W|exact R|exact Rm]. }
  destruct (decide _); [|by apply Same]. rewrite (end_packet c l Q D B Rm) in M.
  destruct M as (k & kk & [Sp Sb Sw Sd Sc (r & Ek & _ & _ & Eh)]). clear Same.
  set (m := mkMessage (sequence (p_ring p)) (ack (p_ring p)) (ackBits (p_ring p)) (p_heard p)).
  exists c', (mkPeer r (p_sent p ++ [m]) (p_heard p)), (objects ++ [object]). split; [exact E'|].
  rewrite Er in Ek, Sc. split; [right; cbn [peer_step]; by rewrite Ek|]. split; cbn [p_ring p_sent p_heard].
  - exact H'.
  - by rewrite S2.
  - exists l. by rewrite Q'.
  - by rewrite Sd.
  - exists (with_reliability r st). rewrite Eh. split; [apply lookup_insert_eq|done].
  - apply Forall_app. by split; [|constructor].
  - rewrite !length_app. cbn. lia.
  - rewrite Sw, Sb, B, Sp. rewrite B in W. cbn in W. rewrite app_nil_r in W. rewrite W. cbn [app mbind list_bind].
    rewrite app_nil_r, (datagram_carries _ k kk (st_address st) _ (lookup_insert_eq _ _ _) Sc), Ea.
    by rewrite zip_with_app.
  - by rewrite V'.
  - exact Rm.
Qed.

(** The dispatch queue and the socket finish the tick. *)
Lemma end_finishes env c p objects theirs : end_half c p objects theirs ->
  exists c', (drain realloc malloc env ;; on_socket (flush malloc_node)) c = Done (tt, c') /\ end_is c' p objects theirs.
Proof.
  intros [H A (l & Q) D (st & E & Ea & Er) Ob L W R Rm].
  destruct (timeouts_drained realloc malloc l env c [o] held [] H Q) as (c1 & E1 & H1 & Q1 & K1 & S1 & A1 & T1 & V1).
  rewrite (bind_done _ _ _ _ _ E1).
  destruct (flush_holds malloc_node malloc_node_fresh malloc_node_some _ _ _ (ph_socket _ _ _ _ (ch_packets _ _ _ _ H1)))
    as (s2 & Ef & H2 & B2 & _ & W2 & P2 & D2 & R2).
  rewrite (on_socket_done _ c1 tt s2 Ef). eexists. split; [reflexivity|]. split; cbn.
  - destruct H1 as [Hp1 Ht1 Hk1 Ha1 Hcb1]. split; [|done..].
    apply (packets_quiet (c_socket c1) s2 _ _ []); [done|done|by rewrite B2; apply NoDup_nil| |done..].
    rewrite B2. intros x Hx. by apply not_elem_of_nil in Hx.
  - by rewrite A1.
  - done.
  - by rewrite D2, K1.
  - done.
  - rewrite T1, timed_out_lookup, E. cbn. destruct (decide (o ∈ l)); eexists; (split; [reflexivity|done]).
  - done.
  - done.
  - rewrite W2, K1. exact W.
  - by rewrite V1, receipts_app, receipts_timeouts, app_nil_r.
  - done.
Qed.

Lemma iterate_single {A} (block : A -> Z -> prog StreamConfiguration A) a c : list_holds (c_streams c) [o] ->
  iterate_streams block a c = block a o c.
Proof. intros Hl. unfold iterate_streams. by rewrite (iterate_holds _ _ _ _ Hl). Qed.

(** A tick is an update and perhaps a message. *)
Lemma end_ticks uninit update env c p objects theirs other wire : end_is c p objects theirs ->
  stream_object_ok (update (streamObjectSetup uninit)) ->
  exists c' p' objects', end_does (Ticks uninit update env) address wire c = Done (tt, c') /\
    peer_does (Ticks uninit update env) other p p' objects objects' /\ end_is c' p' objects' theirs.
Proof.
  intros I Hob. destruct (end_updated c p objects theirs other I) as (b & c1 & p1 & E1 & Ep1 & Sp1 & I1 & B1 & S1).
  pose proof I as [H A _ _ _ _ _ _ _ _ _]. pose proof (th_list _ _ _ (ch_table _ _ _ _ H)) as Hl.
  assert (T : exists c2 p2 objects', timer_event uninit update c = Done (tt, c2) /\
    may_send (update (streamObjectSetup uninit)) other p1 p2 objects objects' /\ end_half c2 p2 objects' theirs).
  { unfold timer_event, streamTimerCallback. rewrite bind_get, A, bind_get, (is_empty_holds _ _ Hl), bool_decide_false by done.
    cbn [negb]. rewrite (bind_done _ _ c b c1) by (rewrite iterate_single by done; exact E1).
    destruct b; [|exists c1, p1, objects; split; [done|]; split; [by left|done]].
    pose proof I1 as [H1 A1 Q1 D1 T1 Ob1 L1 W1 R1 Rm1].
    rewrite (bind_done _ _ _ _ _ (call_done cb_update EventUpdate c1 (proj1 (ch_callbacks _ _ _ _ H1)))).
    set (c2 := set_events _ c1). assert (I2 : end_half c2 p1 objects theirs).
    { split; [destruct H1; by split|done..| |done]. change (c_events c2) with (c_events c1 ++ [EventUpdate]).
      by rewrite receipts_app, app_nil_r. }
    destruct (end_sends c2 p1 objects theirs other _ I2 B1 Hob) as (c3 & p3 & objects' & E3 & P3 & I3).
    exists c3, p3, objects'. split; [|by split].
    rewrite iterate_single; [exact E3|]. change (c_streams c2) with (c_streams c1). by rewrite S1. }
  destruct T as (c2 & p2 & objects' & E2 & P2 & I2). destruct (end_finishes env c2 p2 objects' theirs I2) as (c3 & E3 & I3).
  exists c3, p2, objects'. split; [cbn [end_does]; by rewrite (bind_done _ _ _ _ _ E2)|].
  split; [by exists p1|done].
Qed.

(** A datagram of the other end is a message of the exchange. *)
Lemma end_hears i env c p q objects theirs : exchange p q -> end_is c p objects theirs -> object_buffer (env_object env) ->
  Forall stream_object_ok theirs -> length theirs = length (p_sent q) -> forall to,
  exists c' p', end_does (Arrives i env) address (zip_with (fun object m => (to, datagram_of object m)) theirs (p_sent q)) c =
      Done (tt, c') /\
    peer_does (Arrives i env) (p_sent q) p p' objects objects /\ end_is c' p' objects theirs.
Proof.
  intros X I Hbuf Hob Hl to. pose proof I as [H A Q D B (st & E & Ea & Er) Ob L W R Rm].
  pose proof (exchange_linked p q X) as K. cbn [end_does peer_does peer_step]. rewrite lookup_zip_with.
  destruct (theirs !! i) as [object|] eqn:Eo.
  2:{ cbn. exists c, p. split; [done|]. rewrite (lookup_ge_None_2 (p_sent q)) by (apply lookup_ge_None in Eo; lia). done. }
  assert (Hi : (i < length (p_sent q))%nat) by (rewrite <- Hl; by eapply lookup_lt_Some).
  destruct (lookup_lt_is_Some_2 (p_sent q) i Hi) as [m Em]. rewrite Em. cbn [mbind option_bind fmap option_fmap option_map].
  destruct (message_of q i m (lk_right _ _ K) Em) as [o1 o2 o3 _ _]. pose proof (po_sent _ (lk_right _ _ K)) as Hn.
  unfold zlen, kStreamReliabilityMaxSequence in Hn.
  assert (Hobj : stream_object_ok object) by (eapply Forall_lookup_1; [exact Hob|exact Eo]).
  assert (Ad : addressed (c_heap c) [o] address o) by (split; [by left|by exists st]).
  destruct (receive_message realloc malloc c [o] held [] o st address (m_sequence m) (m_ack m) (m_bits m) object env
    H Ad E Q D (end_packet c [] Q D B Rm) Hbuf Hobj) as (c' & E1 & H' & ([S1 S2 S3] & [B' W' D'] & Q') & M);
    [unfold uint_ok; lia..|by apply message_bytes|].
  rewrite Er in M. destruct (Z.leb_spec (m_ack m) (sequence (p_ring p))) as [G|G].
  - destruct M as (V & st' & E' & Hh). pose proof (hd_received _ _ _ _ _ Hh) as Hr. rewrite Er in Hr.
    exists c', (mkPeer (st_reliability st') (p_sent p) (m_sequence m :: p_heard p)). split; [exact E1|].
    rewrite Hr. split; [done|]. split; cbn [p_ring p_sent p_heard]; [done|by rewrite S2|done|done|by rewrite B'| |done|done|by rewrite W'| |done].
    + exists st'. split; [done|]. split; [by rewrite (hd_address _ _ _ _ _ Hh)|done].
    + rewrite V, receipts_app. cbn [rev]. apply Forall2_app; [exact R|]. constructor; [|constructor].
      split; [done|]. exists object. rewrite o1, Nat2Z.id. split; [done|]. by apply received_same; [|apply Hbuf].
  - destruct M as (V & Eh). exists c', p. split; [exact E1|]. split; [done|].
    split; [done|by rewrite S2|done|done|by rewrite B'|by exists st; rewrite Eh|done|done|by rewrite W'|by rewrite V|done].
Qed.

(** What the other end sends does not change what arrived. *)
Lemma end_more c p objects theirs more : end_is c p objects theirs -> end_is c p objects (theirs ++ more).
Proof.
  intros [H A Q D B T Ob L W R Rm]. split; try done. eapply Forall2_impl; [exact R|]. intros s r (Ha & object & El & Sm).
  split; [done|]. exists object. split; [|done]. by apply lookup_app_l_Some.
Qed.
End End.

(** ** Both ends *)

Record ends := mkEnds {
  e_left : StreamConfiguration;
  e_right : StreamConfiguration;
}.

(** Their two peers in the exchange, with the objects that they have sent. *)
Record both := mkBoth {
  b_left : peer;
  b_right : peer;
  b_from_left : list StreamObject;
  b_from_right : list StreamObject;
}.

Inductive side := OnLeft | OnRight.

(** The stream of an end, the packets that others hold there, and the address
    of the other end. *)
Record end_params := mkParams {
  ep_stream : Z;
  ep_held : list Z;
  ep_address : net_addr_t;
}.

Section Joint.
Context (L R : end_params).

Definition ends_step (x : side * end_op) : prog ends unit := fun a =>
  match x.1 with
  | OnLeft =>
      c <-! end_does x.2 (ep_address L) (s_wire (c_socket (e_right a))) (e_left a) ;; Done (tt, mkEnds (snd c) (e_right a))
  | OnRight =>
      c <-! end_does x.2 (ep_address R) (s_wire (c_socket (e_left a))) (e_right a) ;; Done (tt, mkEnds (e_left a) (snd c))
  end.

Fixpoint ends_run (xs : list (side * end_op)) : prog ends unit :=
  match xs with
  | [] => ret tt
  | x :: xs' => ends_step x ;; ends_run xs'
  end.

Definition peers_step (x : side * end_op) (b b' : both) : Prop :=
  match x.1 with
  | OnLeft => peer_does x.2 (p_sent (b_right b)) (b_left b) (b_left b') (b_from_left b) (b_from_left b') /\
      b_right b' = b_right b /\ b_from_right b' = b_from_right b
  | OnRight => peer_does x.2 (p_sent (b_left b)) (b_right b) (b_right b') (b_from_right b) (b_from_right b') /\
      b_left b' = b_left b /\ b_from_left b' = b_from_left b
  end.

Inductive peers_run : list (side * end_op) -> both -> both -> Prop :=
| peers_done b : peers_run [] b b
| peers_next x xs b b1 b' : peers_step x b b1 -> peers_run xs b1 b' -> peers_run (x :: xs) b b'.

Definition step_timely (x : side * end_op) (b : both) : Prop :=
  match x.1 with
  | OnLeft => op_timely x.2 (p_sent (b_right b)) (b_left b)
  | OnRight => op_timely x.2 (p_sent (b_left b)) (b_right b)
  end.

#[local] Instance step_timely_dec x b : Decision (step_timely x b).
Proof. unfold step_timely, op_timely. destruct x as [[] []]; apply _. Defined.

(** The two ends are the two peers of an exchange. *)
Record joint (a : ends) (b : both) : Prop := {
  jt_exchange : exchange (b_left b) (b_right b);
  jt_left : end_is (ep_stream L) (ep_held L) (ep_address L) (e_left a) (b_left b) (b_from_left b) (b_from_right b);
  jt_right : end_is (ep_stream R) (ep_held R) (ep_address R) (e_right a) (b_right b) (b_from_right b) (b_from_left b);
}.

Lemma peer_does_exchange op p q p' objects objects' : exchange p q -> op_timely op (p_sent q) p ->
  peer_does op (p_sent q) p p' objects objects' -> exchange p' q /\ exists more, objects' = objects ++ more.
Proof.
  intros X T D. destruct op as [uninit update env|i env]; cbn [op_timely peer_does] in *.
  - destruct D as (p1 & E1 & D). assert (X1 : exchange p1 q) by (by apply (exchange_step (Update kStreamTimerUpdateInterval) p)).
    destruct D as [[-> ->]|[E2 ->]]; [split; [done|]; exists []; by rewrite app_nil_r|].
    split; [|by eexists]. apply (exchange_step (Send (25 + so_length (update (streamObjectSetup uninit)))) p1 q p' X1); [|done].
    cbn [timely peer_step] in *. destruct (streamReliabilityUpdate _ _) as [x|f]; [|done]. cbn in E1. by injection E1 as <-.
  - destruct D as [E ->]. split; [by apply (exchange_step (Receive i) p)|]. exists []. by rewrite app_nil_r.
Qed.

(** A step of one end. *)
Lemma end_step op o held address c p q objects theirs to : exchange p q -> end_is o held address c p objects theirs ->
  end_op_ok op -> Forall stream_object_ok theirs -> length theirs = length (p_sent q) ->
  exists c' p' objects',
    end_does op address (zip_with (fun object m => (to, datagram_of object m)) theirs (p_sent q)) c = Done (tt, c') /\
    peer_does op (p_sent q) p p' objects objects' /\ end_is o held address c' p' objects' theirs.
Proof.
  intros X I Hop Hob Hl. destruct op as [uninit update env|i env].
  - destruct (end_ticks o held address uninit update env c p objects theirs (p_sent q)
      (zip_with (fun object m => (to, datagram_of object m)) theirs (p_sent q)) I Hop) as (c' & p' & objects' & E & P & I').
    by exists c', p', objects'.
  - destruct (end_hears o held address i env c p q objects theirs X I Hop Hob Hl to) as (c' & p' & E & P & I').
    by exists c', p', objects.
Qed.

Lemma joint_step x a b : joint a b -> end_op_ok x.2 -> step_timely x b ->
  exists a' b', ends_step x a = Done (tt, a') /\ peers_step x b b' /\ joint a' b'.
Proof.
  intros [X IL IR] Hop T. destruct x as [[] op]; unfold ends_step, step_timely, peers_step in *; cbn [fst snd] in *.
  - destruct (end_step op _ _ _ (e_left a) (b_left b) (b_right b) _ (b_from_right b) (ep_address R) X IL Hop) as (c' & p' & objects' & E & P & I');
      [apply IR..|]. rewrite <- (ei_wire _ _ _ _ _ _ _ IR) in E. rewrite E. cbn [obind snd].
    destruct (peer_does_exchange _ _ _ _ _ _ X T P) as [X' [more ->]].
    eexists _, (mkBoth p' (b_right b) (b_from_left b ++ more) (b_from_right b)). split; [reflexivity|]. split; [by cbn|].
    split; [exact X'|exact I'|]. by apply end_more.
  - destruct (end_step op _ _ _ (e_right a) (b_right b) (b_left b) _ (b_from_left b) (ep_address L) (exchange_swap _ _ X) IR Hop)
      as (c' & p' & objects' & E & P & I'); [apply IL..|]. rewrite <- (ei_wire _ _ _ _ _ _ _ IL) in E. rewrite E. cbn [obind snd].
    destruct (peer_does_exchange _ _ _ _ _ _ (exchange_swap _ _ X) T P) as [X' [more ->]].
    eexists _, (mkBoth (b_left b) p' (b_from_left b) (b_from_right b ++ more)). split; [reflexivity|]. split; [by cbn|].
    split; [by apply exchange_swap| |exact I']. by apply end_more.
Qed.

(** C14: two ends, each with one stream to the other, run on: ticks, after which
    the dispatch queue and the socket run, and datagrams of the other end's
    wire, which arrive in any order, again, or never.  As long as every step is
    timely, the run is one of the exchange of acknowledgements ([peers_run]),
    and after it the two ends still are the two peers of an exchange ([joint]):
    the reliability of each stream is that of its peer; the wire of an end
    holds exactly the messages its peer has sent, in their order, with the
    objects the application gave; the application has received, in the order in
    which its peer has heard them, exactly the objects that were sent with
    these sequences; and the end is ready for the next step, with every packet
    given back.  A run stops only at a step that is not timely. *)
Theorem streams_refine_exchange xs a b : joint a b -> Forall (fun x => end_op_ok x.2) xs ->
  exists ran rest a' b', xs = ran ++ rest /\ ends_run ran a = Done (tt, a') /\ peers_run ran b b' /\ joint a' b' /\
    (forall x rest', rest = x :: rest' -> ~ step_timely x b').
Proof.
  intros J Hxs. revert a b J. induction Hxs as [|x xs Hx Hxs IH]; intros a b J.
  { exists [], [], a, b. split; [done|]. split; [done|]. split; [constructor|]. split; [done|]. intros x rest' F. discriminate F. }
  destruct (decide (step_timely x b)) as [T|T].
  2:{ exists [], (x :: xs), a, b. split; [done|]. split; [done|]. split; [constructor|]. split; [done|]. intros y rest' [= -> ->]. exact T. }
  destruct (joint_step x a b J Hx T) as (a1 & b1 & E1 & P1 & J1). destruct (IH a1 b1 J1) as (ran & rest & a' & b' & -> & E & P & J' & S).
  exists (x :: ran), rest, a', b'. split; [done|]. split; [cbn [ends_run]; by rewrite (bind_done _ _ _ _ _ E1)|].
  split; [by apply (peers_next x ran b b1)|]. by split.
Qed.
End Joint.
End Peers.

(** *** Two peers that have just made their streams *)

Definition blank_peer : peer := new_peer blank_metadata.

Lemma blank_exchange : exchange blank_peer blank_peer.
Proof. by apply exchange_start. Qed.

Definition demo_side : end_params := mkParams 8 [] demo_peer.

Definition demo_ends : ends := mkEnds demo_known demo_known.
Definition demo_both : both := mkBoth blank_peer blank_peer [] [].

Lemma demo_end_is : end_is (order := LittleEndian) 8 [] demo_peer demo_known blank_peer [] [].
Proof.
  destruct demo_known_holds as (H & A & E & Ac & [Sk _ _] & _ & V). destruct demo_known_idle as (Tq & Td & N).
  destruct demo_socket_quiet as [_ Eb].
  split; [exact H|exact Ac|exact Tq|exact Td| | |done|done| | |done].
  - rewrite Sk. exact Eb.
  - exists (new_stream demo_peer). exact (conj E (conj eq_refl eq_refl)).
  - rewrite Sk. by vm_compute.
  - rewrite V. constructor.
Qed.

Lemma demo_joint : joint (order := LittleEndian) demo_side demo_side demo_ends demo_both.
Proof. split; [exact blank_exchange|exact demo_end_is|exact demo_end_is]. Qed.

(** The left end ticks until it sends, its message arrives twice; so does the
    right end, whose message arrives once. *)
Definition demo_tick : end_op := Ticks demo_uninit (fun _ => demo_object) demo_env.

Definition demo_steps : list (side * end_op) :=
  replicate 3 (OnLeft, demo_tick) ++ [(OnRight, Arrives 0 demo_env); (OnRight, Arrives 0 demo_env)] ++
  replicate 3 (OnRight, demo_tick) ++ [(OnLeft, Arrives 0 demo_env)].

(** What the code does in these steps. *)
Definition demo_received : option (nat * nat) :=
  match ends_run (order := LittleEndian) grow free_address next_free demo_side demo_side demo_steps demo_ends with
  | Done (_, a) => Some (length (receipts (c_events (e_left a))), length (receipts (c_events (e_right a))))
  | Fault _ => None
  end.

Lemma streams_refine_exchange_witness :
  demo_received = Some (1%nat, 2%nat) /\
  exists ran rest a' b', demo_steps = ran ++ rest /\
    ends_run (order := LittleEndian) grow free_address next_free demo_side demo_side ran demo_ends = Done (tt, a') /\
    peers_run ran demo_both b' /\ joint (order := LittleEndian) demo_side demo_side a' b' /\
    (forall x rest', rest = x :: rest' -> ~ step_timely x b').
Proof.
  split; [vm_compute; reflexivity|].
  apply (streams_refine_exchange grow free_address next_free next_free_fresh next_free_some demo_side demo_side demo_steps
    demo_ends demo_both demo_joint).
  unfold demo_steps. cbn [replicate app].
  repeat (apply Forall_cons; split; [first [exact demo_object_ok|exact demo_uninit_buffer]|]). apply Forall_nil_2.
Defined.
