(* ===== verification/StreamTime.v ===== *)
(** * Streams in time

    The ticks of the timer: when a silent stream times out, when streams keep
    each other from sending, and what goes wrong when the streams are set up
    without a callback or without memory. *)
From S2P Require Import Prelude Bitstream Wire Fields Net Protocol LinkedList Queue Pool.
From S2P Require Import NetSocket NetSocketSpec Floats StreamFlow StreamReliability StreamReliabilitySpec.
From S2P Require Import Stream StreamSpec StreamRun.

(** ** A silent stream *)

(** The accumulator after [n] ticks without a packet. *)
Definition silent (n : nat) : float := Nat.iter n tick f_zero.

Definition silent_late (n : nat) : bool := f_gt (f64_of_f32 (silent n)) kStreamTimeout.

(** Is the tick after the first [n], counted from the tick [i], late exactly
    from the 76th on? *)
Fixpoint late_from_76 (n : nat) (i : nat) (x : float) : bool :=
  match n with
  | O => true
  | S n' => let x' := tick x in
      Bool.eqb (f_gt (f64_of_f32 x') kStreamTimeout) (76 <=? Z.of_nat (S i)) && late_from_76 n' (S i) x'
  end.

Lemma late_from_76_holds : late_from_76 900 0 f_zero = true.
Proof. vm_compute. reflexivity. Qed.

Lemma late_from_76_nth n i x k : late_from_76 n i x = true -> (k < n)%nat ->
  f_gt (f64_of_f32 (tick (Nat.iter k tick x))) kStreamTimeout = (76 <=? Z.of_nat (S (i + k))).
Proof.
  revert i x k. induction n as [|n IH]; intros i x k E Hk; [lia|]. cbn [late_from_76] in E.
  apply andb_true_iff in E as [E1 E2]. apply Bool.eqb_prop in E1. destruct k as [|k].
  - change (Nat.iter 0 tick x) with x. rewrite E1. do 2 f_equal. lia.
  - rewrite Nat.iter_succ_r. rewrite (IH (S i) (tick x) k E2) by lia. do 3 f_equal. lia.
Qed.

Lemma silent_late_iff n : (n < 900)%nat -> silent_late (S n) = (76 <=? Z.of_nat (S n)).
Proof. intros Hn. apply (late_from_76_nth 900 0 f_zero n late_from_76_holds Hn). Qed.

(** How often the application was told that the stream of an address has
    timed out. *)
Definition is_timeout (address : net_addr_t) (e : stream_event) : bool :=
  match e with EventTimeout a => bool_decide (a = address) | _ => false end.

Definition timeouts (address : net_addr_t) (events : list stream_event) : nat :=
  length (filter (fun e => is_timeout address e = true) events).

Lemma timeouts_app address l k : timeouts address (l ++ k) = (timeouts address l + timeouts address k)%nat.
Proof. unfold timeouts. by rewrite filter_app, length_app. Qed.

Lemma timeouts_of heap streams o st l : (forall x y, x ∈ streams -> y ∈ streams -> address_in heap x = address_in heap y -> x = y) -> o ∈ streams -> heap !! o = Some st ->
  l ⊆ streams -> timeouts (st_address st) ((fun x => EventTimeout (address_in heap x)) <$> l) = occurrences o l.
Proof.
  intros Hn Ho E. induction l as [|x l IH]; intros Sub; [done|]. unfold timeouts in *. cbn [fmap list_fmap].
  rewrite occurrences_cons, filter_cons. rewrite <- IH by set_solver. cbn [is_timeout].
  assert (Q : address_in heap x = st_address st <-> x = o).
  { split; [|intros ->; unfold address_in, stream_address; by rewrite E].
    intros Ea. apply (Hn x o); [set_solver|done|]. rewrite Ea. unfold address_in, stream_address. by rewrite E. }
  destruct (decide (x = o)) as [Hx|Hx].
  - rewrite (bool_decide_eq_true_2 _ (proj2 Q Hx)). by rewrite decide_True.
  - rewrite (bool_decide_eq_false_2 (address_in heap x = _)) by (by rewrite Q). by rewrite decide_False.
Qed.

Section Silence.
Context {order : Host}.
Context (realloc : gmap Z list_node_s -> Z -> option (gmap Z list_node_s)).
Context (malloc : gmap Z Stream -> Z).
Context (uninit : StreamObject) (update : StreamObject -> StreamObject) (env : stream_env).
Hypothesis update_ok : stream_object_ok (update (streamObjectSetup uninit)).

(** Ticks of the timer; after each the dispatch queue runs until it is empty. *)
Fixpoint ticks_drained (n : nat) : prog StreamConfiguration unit :=
  match n with
  | O => ret tt
  | S n' => timer_event uninit update ;; drain realloc malloc env ;; ticks_drained n'
  end.

Section Tick.
Context (c0 : StreamConfiguration) (streams held pending : list Z) (o : Z) (st : Stream).
Hypothesis o_in : o ∈ streams.

(** In the course of a tick, before and after the stream [o] was updated. *)
Record ticking (updated : bool) (c : StreamConfiguration) : Prop := {
  tk_holds : config_holds c streams held pending;
  tk_streams : c_streams c = c_streams c0;
  tk_active : c_active c = true;
  tk_timeouts : timeouts (st_address st) (c_events c) = timeouts (st_address st) (c_events c0);
  tk_queue : exists l, c_streamDispatchQueue c = TaskTimeout <$> l /\ l ⊆ streams /\
    occurrences o l = (if updated && late st then 1 else 0)%nat;
  tk_stream : exists st', c_heap c !! o = Some st' /\ st_address st' = st_address st /\ st_state st' = st_state st /\
    st_timeoutAccumulator st' = (if updated then tick (st_timeoutAccumulator st) else st_timeoutAccumulator st);
}.

Lemma ticking_found updated c x : ticking updated c -> x ∈ streams -> exists stx, c_heap c !! x = Some stx.
Proof. intros [H _ _ _ _ _] Hx. by apply (th_in _ _ _ (ch_table _ _ _ _ H)). Qed.

(** [streamUpdate] on another stream, and on this one. *)
Lemma ticking_update updated c x : ticking updated c -> x ∈ streams -> (x = o -> updated = false) ->
  exists b c', streamUpdate x c = Done (b, c') /\ ticking (updated || bool_decide (x = o)) c'.
Proof.
  intros K Hx Hu. destruct (ticking_found updated c x K Hx) as [stx Ex].
  destruct K as [H S A V (l & Q & Sub & Oc) (st' & E & Ea & Es & Et)].
  destruct (th_heap _ _ _ (ch_table _ _ _ _ H) x stx Ex) as [Hx0 Wx].
  destruct (streamUpdate_done c x stx Hx0 Ex Wx) as (r & _ & _ & _ & Eu).
  destruct (streamUpdate_holds c streams held pending x stx H Ex) as (b & c' & E' & H' & S' & A').
  rewrite Eu in E'. injection E' as <- <-. eexists _, _. split; [exact Eu|].
  split; [exact H'|by rewrite S'|by rewrite A'|exact V| |].
  - exists (l ++ (if late stx then [x] else [])). split; [|split].
    + cbn. rewrite Q, fmap_app. by destruct (late stx).
    + destruct (late stx); [|by rewrite app_nil_r]. intros y [Hy|Hy]%elem_of_app; [by apply Sub|set_solver].
    + rewrite occurrences_app, Oc. case_bool_decide as D.
      * subst x. rewrite (Hu eq_refl) in *. cbn [andb orb]. rewrite E in Ex. injection Ex as <-.
        assert (late st' = late st) as -> by (unfold late; by rewrite Et).
        destruct (late st); [|done]. rewrite occurrences_cons, decide_True by done. done.
      * rewrite orb_false_r. destruct (late stx); [|by rewrite Nat.add_0_r].
        rewrite occurrences_cons, decide_False by done. apply Nat.add_0_r.
  - cbn [c_heap set_tasks set_streams_heap]. case_bool_decide as D.
    + subst x. rewrite (Hu eq_refl) in *. rewrite E in Ex. injection Ex as <-. exists (ticked r st').
      split; [apply lookup_insert_eq|]. split; [exact Ea|]. split; [exact Es|]. cbn. by rewrite Et.
    + rewrite orb_false_r, lookup_insert_ne by done. by exists st'.
Qed.

Lemma ticking_send updated c x object : ticking updated c -> x ∈ streams -> stream_object_ok object ->
  exists c', streamSend x object c = Done (tt, c') /\ ticking updated c'.
Proof.
  intros K Hx Hob. destruct (ticking_found updated c x K Hx) as [stx Ex].
  pose proof K as [H S A V (l & Q & Sub & Oc) (st' & E & Ea & Es & Et)].
  destruct (streamSend_holds c streams held pending x stx object H Ex Hob) as (c' & Eu & H' & [S1 S2 S3] & V' & Q' & M).
  exists c'. split; [exact Eu|]. split; [exact H'|by rewrite S1|by rewrite S2|by rewrite V'|by exists l; rewrite Q'|].
  assert (Same : c' = c \/ exists r, c_heap c' = <[x := with_reliability r stx]> (c_heap c)).
  { destruct (decide _); [|by left]. destruct (no_packet _ _ _); [by left|right].
    destruct M as (p & k & [_ _ _ _ _ (r & _ & _ & _ & Eh)]). by exists r. }
  destruct Same as [->|[r Eh]]; [by exists st'|]. rewrite Eh. destruct (decide (x = o)) as [->|Hne].
  - rewrite E in Ex. injection Ex as <-. exists (with_reliability r st'). by rewrite lookup_insert_eq.
  - rewrite lookup_insert_ne by done. by exists st'.
Qed.

(** The whole tick. *)
Lemma tick_updates : config_holds c0 streams held pending -> c_active c0 = true -> c_streamDispatchQueue c0 = [] ->
  c_heap c0 !! o = Some st -> exists c', timer_event uninit update c0 = Done (tt, c') /\ ticking true c'.
Proof.
  intros H Ha Hq E. unfold timer_event, streamTimerCallback. rewrite bind_get, Ha, bind_get.
  pose proof (ch_table _ _ _ _ H) as T. pose proof (th_list _ _ _ T) as Hl.
  rewrite (is_empty_holds _ _ Hl), bool_decide_false by (by intros ->; apply not_elem_of_nil in o_in). cbn [negb].
  assert (K0 : ticking false c0) by (split; [done..|exists []; split; [done|split; [by intros x Hx%elem_of_nil|done]]|by exists st]).
  assert (Hn : NoDup streams) by (eapply NoDup_fmap_1; apply (th_addresses _ _ _ T)).
  destruct (iterate_once (fun (_ : bool) => ticking false) (fun (_ : bool) => ticking true)
    (fun sync stream => streamShouldUpdate <- streamUpdate stream ;; ret (sync && streamShouldUpdate))
    streams o true c0 Hl Hn o_in K0) as (sync & c1 & E1 & K1).
  - intros a c x Hx Hne K. destruct (ticking_update false c x K Hx) as (b & c' & E' & K'); [done|].
    rewrite bool_decide_false in K' by done. eexists _, c'. split; [by rewrite (bind_done _ _ _ _ _ E')|exact K'].
  - intros a c K. destruct (ticking_update false c o K o_in) as (b & c' & E' & K'); [done|].
    rewrite bool_decide_true in K' by done. eexists _, c'. split; [by rewrite (bind_done _ _ _ _ _ E')|exact K'].
  - intros a c x Hx Hne K. destruct (ticking_update true c x K Hx) as (b & c' & E' & K'); [done|].
    eexists _, c'. split; [by rewrite (bind_done _ _ _ _ _ E')|exact K'].
  - rewrite (bind_done _ _ _ _ _ E1). destruct sync; [|by exists c1].
    pose proof K1 as [H1 S1 A1 V1 Q1 T1].
    rewrite (bind_done _ _ _ _ _ (call_done cb_update EventUpdate c1 (proj1 (ch_callbacks _ _ _ _ H1)))).
    set (c2 := set_events _ c1).
    assert (K2 : ticking true c2).
    { split; [destruct H1; by split|done|done| |done|done]. change (c_events c2) with (c_events c1 ++ [EventUpdate]). by rewrite timeouts_app, V1, Nat.add_0_r. }
    destruct (iterate_rule (fun (_ : unit) => ticking true) (fun _ stream => streamSend stream (update (streamObjectSetup uninit)))
      streams tt c2) as ([] & c3 & E3 & K3); [change (c_streams c2) with (c_streams c1); by rewrite S1|exact K2| |by exists c3].
    intros [] c x Hx K. destruct (ticking_send true c x _ K Hx update_ok) as (c' & E' & K'). by exists tt, c'.
Qed.
End Tick.

(** After [i] ticks without a packet. *)
Record silence (c0 : StreamConfiguration) (streams held pending : list Z) (o : Z) (st : Stream) (i : nat)
    (c : StreamConfiguration) : Prop := {
  si_holds : config_holds c streams held pending;
  si_streams : c_streams c = c_streams c0;
  si_active : c_active c = true;
  si_queue : c_streamDispatchQueue c = [];
  si_timeouts : timeouts (st_address st) (c_events c) = (timeouts (st_address st) (c_events c0) + (i - 75))%nat;
  si_stream : exists st', c_heap c !! o = Some st' /\ st_address st' = st_address st /\
    st_timeoutAccumulator st' = silent i /\ st_state st' = (if decide (i <= 75)%nat then st_state st else StreamTimeout);
}.

Lemma addresses_apart l heap streams x y : table_holds l heap streams -> x ∈ streams -> y ∈ streams ->
  address_in heap x = address_in heap y -> x = y.
Proof.
  intros T Hx Hy Ea. destruct (th_in _ _ _ T x Hx) as [stx Ex]. destruct (th_in _ _ _ T y Hy) as [sty Ey].
  unfold address_in, stream_address in Ea. rewrite Ex, Ey in Ea. cbn in Ea.
  apply (addressed_unique l heap streams (st_address stx)); [done|split; [done|by exists stx]|split; [done|by exists sty]].
Qed.

Lemma silence_tick c0 streams held pending o st i c : o ∈ streams -> (i < 900)%nat ->
  silence c0 streams held pending o st i c ->
  exists c', (timer_event uninit update ;; drain realloc malloc env) c = Done (tt, c') /\
    silence c0 streams held pending o st (S i) c'.
Proof.
  intros Ho Hi [H K A Q V (st1 & E & Ea & Et & Es)].
  destruct (tick_updates c streams held pending o st1 Ho H A Q E) as (c1 & E1 & [H1 S1 A1 V1 (l & Q1 & Sub & Oc) (st2 & E2 & Ea2 & Es2 & Et2)]).
  rewrite (bind_done _ _ _ _ _ E1).
  destruct (timeouts_drained realloc malloc l env c1 streams held pending H1 Q1) as (c' & E' & H' & Q' & _ & S' & A' & T' & V').
  exists c'. split; [exact E'|].
  assert (L : late st1 = (76 <=? Z.of_nat (S i))) by (unfold late; rewrite Et; by apply (silent_late_iff i)).
  split; [exact H'|by rewrite S', S1|by rewrite A'|exact Q'| |].
  - rewrite V', timeouts_app, <- Ea, V1, Ea, V.
    pose proof (timeouts_of (c_heap c1) streams o st2 l (fun x y => addresses_apart _ _ _ x y (ch_table _ _ _ _ H1)) Ho E2 Sub) as N.
    rewrite Ea2, Ea in N. rewrite N, Oc, L. cbn [andb]. destruct (Z.leb_spec 76 (Z.of_nat (S i))); lia.
  - rewrite T', timed_out_lookup, E2. cbn [fmap option_fmap option_map].
    pose proof (occurrences_in o l) as N. rewrite Oc, L in N. cbn [andb] in N.
    destruct (decide (o ∈ l)) as [Hin|Hin].
    + exists (with_state StreamTimeout st2). split; [done|]. split; [by rewrite <- Ea, <- Ea2|]. split; [cbn; rewrite Et2, Et; done|].
      rewrite decide_False; [done|]. apply N in Hin. destruct (Z.leb_spec 76 (Z.of_nat (S i))); lia.
    + exists st2. split; [done|]. split; [by rewrite Ea2|]. split; [by rewrite Et2, Et|].
      assert (Hl : (S i <= 75)%nat).
      { destruct (Z.leb_spec 76 (Z.of_nat (S i))); [|lia]. destruct Hin. apply N. lia. }
      rewrite decide_True by done. rewrite Es2, Es. by rewrite decide_True by lia.
Qed.

Lemma silence_ticks c0 streams held pending o st n i c : o ∈ streams -> (i + n <= 900)%nat ->
  silence c0 streams held pending o st i c ->
  exists c', ticks_drained n c = Done (tt, c') /\ silence c0 streams held pending o st (i + n) c'.
Proof.
  intros Ho. revert i c. induction n as [|n IH]; intros i c Hi H; cbn [ticks_drained].
  { exists c. by rewrite Nat.add_0_r. }
  destruct (silence_tick c0 streams held pending o st i c Ho ltac:(lia) H) as (c1 & E1 & H1).
  rewrite <- bind_assoc, (bind_done _ _ _ _ _ E1). destruct (IH (S i) c1 ltac:(lia) H1) as (c' & E' & H').
  exists c'. split; [exact E'|]. by rewrite Nat.add_succ_r.
Qed.

(** C29: the timer ticks and after each tick the dispatch queue runs, while the
    peer of one of the streams is silent.  The stream times out at the 76th
    tick, just after five seconds, and not before: the time-out callback is
    called with its address, and its state is [StreamTimeout].  Nothing stops
    it: it stays in the list, the timer goes on, and the callback is called
    again on every tick after that (900 ticks, the first minute, are covered).
    There may be other streams, in any state. *)
Theorem stream_times_out c streams held pending o st n :
  config_holds c streams held pending -> c_active c = true -> c_streamDispatchQueue c = [] -> o ∈ streams ->
  c_heap c !! o = Some st -> st_timeoutAccumulator st = f_zero -> (n <= 900)%nat ->
  exists c' st', ticks_drained n c = Done (tt, c') /\
    timeouts (st_address st) (c_events c') = (timeouts (st_address st) (c_events c) + (n - 75))%nat /\
    c_heap c' !! o = Some st' /\ st_state st' = (if decide (n <= 75)%nat then st_state st else StreamTimeout) /\
    config_holds c' streams held pending /\ c_active c' = true /\ c_streamDispatchQueue c' = [].
Proof.
  intros H A Q Ho E Et Hn.
  assert (S0 : silence c streams held pending o st 0 c).
  { split; [done..| |exists st; by rewrite decide_True by lia]. by rewrite Nat.add_0_r. }
  destruct (silence_ticks c streams held pending o st n 0 c Ho Hn S0) as (c' & E' & [H' _ A' Q' V' (st' & Es & _ & _ & Est)]).
  by exists c', st'.
Qed.
End Silence.

(** ** Streams out of step *)

(** The accumulator of a stream in bad mode goes through three values: it is
    reset on every third tick. *)
Definition phase (i : nat) : float := Nat.iter i tick f_zero.

Lemma phases : f_ge (phase 1) badInterval = false /\ f_ge (phase 2) badInterval = false /\
  f_ge (phase 3) badInterval = true.
Proof. by vm_compute. Qed.

Definition next_phase (i : nat) : nat := match i with O => 1 | S O => 2 | _ => 0 end.

(** A stream in bad mode, on a slow connection, in phase [i]. *)
Record slow (i : nat) (st : Stream) : Prop := {
  sl_phase : (i < 3)%nat;
  sl_accumulator : st_updateAccumulator st = phase i;
  sl_mode : fl_mode (st_flow st) = StreamFlowModeBad;
  sl_rtt : f_le (rtt (st_reliability st)) kStreamFlowRttThreshold = false;
}.

Lemma slow_tick i st r : slow i st -> stream_wf st -> update_ring (st_reliability st) r ->
  due (ticked_flow r st) st = (i =? 2)%nat /\ slow (next_phase i) (ticked r st).
Proof.
  intros [Hi Ha Hm Hr] W U. destruct (streamFlowUpdate_spec (rtt r) kStreamTimerUpdateInterval _ (sw_flow _ W)) as [Wf Em].
  fold (ticked_flow r st) in Wf, Em. rewrite Hm, (up_rtt _ _ U), Hr in Em. cbn [andb] in Em.
  pose proof (fw_interval _ Wf) as Ei. rewrite Em in Ei. destruct phases as (P1 & P2 & P3).
  assert (D : due (ticked_flow r st) st = (i =? 2)%nat).
  { unfold due. rewrite Ei, Ha. change (tick (phase i)) with (phase (S i)).
    destruct i as [|[|[|i]]]; [exact P1|exact P2|exact P3|lia]. }
  split; [exact D|]. split; cbn [ticked st_updateAccumulator st_flow st_reliability].
  - destruct i as [|[|[|i]]]; cbn; lia.
  - rewrite D, Ha. destruct i as [|[|[|i]]]; [done..|lia].
  - exact Em.
  - by rewrite (up_rtt _ _ U).
Qed.

Lemma next_phase_ne i j : (i < 3)%nat -> (j < 3)%nat -> i <> j -> next_phase i <> next_phase j.
Proof. intros. destruct i as [|[|[|i]]], j as [|[|[|j]]]; cbn; lia. Qed.

Section OutOfStep.
Context {order : Host}.

Fixpoint ticks (n : nat) (uninit : StreamObject) (update : StreamObject -> StreamObject) :
    prog StreamConfiguration unit :=
  match n with
  | O => ret tt
  | S n' => timer_event uninit update ;; ticks n' uninit update
  end.

Lemma out_of_step_tick c o1 o2 st1 st2 i1 i2 held pending uninit update :
  config_holds c [o1; o2] held pending -> c_active c = true -> o1 <> o2 ->
  c_heap c !! o1 = Some st1 -> c_heap c !! o2 = Some st2 ->
  slow i1 st1 -> slow i2 st2 -> i1 <> i2 ->
  exists c' st1' st2', timer_event uninit update c = Done (tt, c') /\
    config_holds c' [o1; o2] held pending /\ c_active c' = true /\
    c_heap c' !! o1 = Some st1' /\ c_heap c' !! o2 = Some st2' /\
    slow (next_phase i1) st1' /\ slow (next_phase i2) st2' /\
    c_events c' = c_events c /\ c_socket c' = c_socket c.
Proof.
  intros H Ha Hne E1 E2 S1 S2 Hi.
  destruct (th_heap _ _ _ (ch_table _ _ _ _ H) o1 st1 E1) as [Ho1 W1].
  destruct (th_heap _ _ _ (ch_table _ _ _ _ H) o2 st2 E2) as [Ho2 W2].
  destruct (streamUpdate_done c o1 st1 Ho1 E1 W1) as (r1 & _ & Wr1 & U1 & Eu1).
  destruct (slow_tick i1 st1 r1 S1 W1 U1) as [D1 T1]. rewrite D1 in Eu1.
  set (c1 := set_tasks _ (set_streams_heap (<[o1 := _]> _) c)) in Eu1.
  assert (H1 : config_holds c1 [o1; o2] held pending).
  { destruct (streamUpdate_holds c _ _ _ o1 st1 H E1) as (b & c' & E & H' & _). rewrite Eu1 in E. by simplify_eq. }
  assert (E2' : c_heap c1 !! o2 = Some st2) by (cbn; by rewrite lookup_insert_ne).
  destruct (streamUpdate_done c1 o2 st2 Ho2 E2' W2) as (r2 & _ & Wr2 & U2 & Eu2).
  destruct (slow_tick i2 st2 r2 S2 W2 U2) as [D2 T2]. rewrite D2 in Eu2.
  set (c2 := set_tasks _ (set_streams_heap (<[o2 := _]> _) c1)) in Eu2.
  assert (H2 : config_holds c2 [o1; o2] held pending).
  { destruct (streamUpdate_holds c1 _ _ _ o2 st2 H1 E2') as (b & c' & E & H' & _). rewrite Eu2 in E. by simplify_eq. }
  exists c2, (ticked r1 st1), (ticked r2 st2). split.
  { unfold timer_event, streamTimerCallback. rewrite bind_get, Ha, bind_get.
    rewrite (is_empty_holds _ _ (th_list _ _ _ (ch_table _ _ _ _ H))), bool_decide_false by done. cbn [negb].
    unfold bind at 1, iterate_streams. rewrite (iterate_holds _ _ _ _ (th_list _ _ _ (ch_table _ _ _ _ H))).
    cbn [obind fold_left fst snd]. rewrite (bind_done _ _ _ _ _ Eu1). unfold ret at 1. cbn [obind fst snd].
    rewrite (bind_done _ _ _ _ _ Eu2). unfold ret at 1. cbn [obind andb].
    assert (F : (i1 =? 2)%nat && (i2 =? 2)%nat = false).
    { destruct (Nat.eqb_spec i1 2), (Nat.eqb_spec i2 2); try done. lia. }
    rewrite F. done. }
  split; [done|]. split; [done|].
  split; [cbn; rewrite lookup_insert_ne by done; apply lookup_insert_eq|].
  split; [cbn; apply lookup_insert_eq|]. by split.
Qed.

(** two streams on connections slower than the threshold, added at
    different ticks modulo three, keep each other from ever sending: data is
    only sent on a tick at which every stream is due, and there is none. *)
Theorem streams_out_of_step n c o1 o2 st1 st2 i1 i2 held pending uninit update :
  config_holds c [o1; o2] held pending -> c_active c = true -> o1 <> o2 ->
  c_heap c !! o1 = Some st1 -> c_heap c !! o2 = Some st2 ->
  slow i1 st1 -> slow i2 st2 -> i1 <> i2 ->
  exists c', ticks n uninit update c = Done (tt, c') /\
    c_events c' = c_events c /\ c_socket c' = c_socket c.
Proof.
  revert c st1 st2 i1 i2. induction n as [|n IH]; intros c st1 st2 i1 i2 H Ha Hne E1 E2 S1 S2 Hi; cbn [ticks].
  { by exists c. }
  destruct (out_of_step_tick c o1 o2 st1 st2 i1 i2 held pending uninit update H Ha Hne E1 E2 S1 S2 Hi)
    as (c1 & st1' & st2' & Et & H1 & A1 & E1' & E2' & S1' & S2' & Ev & Es).
  rewrite (bind_done _ _ _ _ _ Et).
  destruct (IH c1 st1' st2' _ _ H1 A1 Hne E1' E2' S1' S2') as (c' & E' & Ev' & Es').
  { apply next_phase_ne; [apply S1|apply S2|done]. }
  exists c'. split; [done|]. split; congruence.
Qed.

End OutOfStep.

(** ** What goes wrong *)

(** [streamSetup] does not require a suspend callback, but removing the last
    stream calls it: without one the peer crashes. *)
Theorem suspend_without_callback c address o st :
  table_holds (c_streams c) (c_heap c) [o] -> c_heap c !! o = Some st -> st_address st = address ->
  c_active c = true -> cb_suspend (c_callbacks c) = 0 ->
  run_remove address c = Fault NullPointer.
Proof.
  intros Ht E Ea Ha Hs. unfold run_remove.
  assert (A : addressed (c_heap c) [o] address o) by (split; [by left|by exists st]).
  rewrite (bind_done _ _ _ _ _ (find_stream_found c [o] address o Ht A)).
  destruct (th_heap _ _ _ Ht o st E) as [Ho _]. rewrite (proj2 (Z.eqb_neq o 0)) by done. cbn [negb].
  destruct (list_remove_holds o (c_streams c) [o] (th_list _ _ _ Ht) ltac:(by left)) as (l & El & Hl & _).
  cbn [remove_first] in Hl. rewrite Z.eqb_refl in Hl.
  assert (E1 : on_streams (list_remove o) c = Done (tt, set_streams l c)) by (unfold on_streams; by rewrite El).
  rewrite (bind_done _ _ _ _ _ E1), bind_get. change (c_streams (set_streams l c)) with l.
  rewrite (is_empty_holds _ _ Hl), bool_decide_true by done.
  unfold streamSuspend. rewrite bind_get. change (c_active (set_streams l c)) with (c_active c). rewrite Ha.
  rewrite bind_modify. unfold call. rewrite bind_get. cbn. by rewrite Hs.
Qed.

(** what [streamSetup] makes of every failure: without memory for the socket
    it crashes, the error of any system call and a missing callback are
    reported, and otherwise the peer starts without streams, with its timer
    suspended, in the state the other properties start from. *)
Theorem stream_setup `{Host} realloc config context receive port callbacks os ifs memory :
  realloc_keeps realloc -> (forall old n, realloc old n <> None) ->
  0 < os_memblock os < 2 ^ 63 -> memory_ok (os_memblock os) memory -> receive <> 0 ->
  if negb (os_calloc os) then
    streamSetup realloc config context receive port callbacks os ifs memory = Fault NullPointer
  else exists e r, streamSetup realloc config context receive port callbacks os ifs memory = Done (e, r) /\
    match net_socket_create AF_INET port os memory with
    | Done (NetNoError, _) =>
        if (cb_update callbacks =? 0) || (cb_receive callbacks =? 0) || (cb_timeout callbacks =? 0)
        then e = NetInvalidError
        else e = NetNoError /\ exists c, r = Some c /\ c_active c = false /\ c_events c = [] /\
          c_streamDispatchQueue c = [] /\ c_callbacks c = callbacks /\
          (cb_suspend callbacks <> 0 -> config_holds c [] [] [])
    | Done (error, _) => e = error /\ r = None
    | Fault _ => False
    end.
Proof.
  intros Hk Hm Hb Hmem Hrec.
  destruct (socket_create_reports AF_INET port os memory ltac:(lia) Hmem) as (e & r & E & R1 & R2 & R3).
  unfold streamSetup. rewrite E. cbn [obind fst snd].
  destruct (os_calloc os); cbn [negb].
  2:{ destruct (R1 eq_refl) as [-> ->]. by rewrite decide_False by auto. }
  specialize (R2 eq_refl). destruct (decide (e <> NetNoError)) as [He|He].
  { exists e, None. split; [done|]. by destruct e. }
  assert (e = NetNoError) as -> by (by apply dec_stable).
  destruct r as [s|]; [|by destruct (proj1 R2 eq_refl)].
  specialize (R3 s eq_refl). rewrite (proj2 (Z.eqb_neq _ 0)) in R3 by lia. destruct R3 as (Hs & _ & Hd & Eb).
  unfold net_socket_set_receive_callback, modify. cbn [obind snd].
  destruct (_ || _) eqn:C; [by eexists _, _|].
  destruct (list_create_holds realloc kStreamListCapacity Hk Hm) as (l & El & Hl & _); [by unfold kStreamListCapacity|].
  rewrite El. cbn [obind]. eexists _, _. split; [reflexivity|]. split; [done|]. eexists. split; [reflexivity|].
  do 4 (split; [done|]). intros Hsus. rewrite !orb_false_iff, !Z.eqb_neq in C. destruct C as [[C1 C2] C3].
  apply fresh_config_holds; [destruct Hs; by split|done|done| |done|done].
  unfold has_receiver. cbn. rewrite (proj2 (Z.eqb_neq receive 0)) by done. by rewrite orb_true_r.
Qed.

(** ** Concrete instances *)

Lemma stream_times_out_witness :
  exists c' st', ticks_drained (order := LittleEndian) grow free_address demo_uninit (fun _ => demo_object) demo_env 80
      demo_known = Done (tt, c') /\
    timeouts demo_peer (c_events c') = (timeouts demo_peer (c_events demo_known) + 5)%nat /\
    c_heap c' !! 8 = Some st' /\ st_state st' = StreamTimeout /\
    config_holds c' [8] [] [] /\ c_active c' = true /\ c_streamDispatchQueue c' = [].
Proof.
  destruct demo_known_holds as (H & _ & E & A & _).
  apply (stream_times_out (order := LittleEndian) grow free_address demo_uninit (fun _ => demo_object) demo_env
    demo_object_ok demo_known [8] [] [] 8 (new_stream demo_peer) 80 H A eq_refl (list_elem_of_here 8 []) E eq_refl).
  lia.
Defined.

(** A stream in bad mode whose round trip took a second. *)
Definition slow_stream (i : nat) (address : net_addr_t) : Stream :=
  mkStream StreamWaiting (set_rtt (f32_of_Z 1) (streamReliabilityClear blank_metadata)) streamFlowClear
    address f_zero (phase i).

Lemma slow_stream_ok i address : (i < 3)%nat -> slow i (slow_stream i address) /\ stream_wf (slow_stream i address).
Proof.
  intros Hi. split.
  - split; [done|done|done|]. by vm_compute.
  - destruct (new_stream_wf address) as [W F A B S]. split; [|exact F|exact A|exact B|exact S].
    destruct W. by split.
Qed.

Lemma streams_out_of_step_witness :
  exists c c', ticks (order := LittleEndian) 1000 demo_uninit (fun o => o) c = Done (tt, c') /\
    c_events c' = c_events c /\ c_socket c' = c_socket c.
Proof.
  destruct demo_known_holds as (H & A & E & Ha & [Es Et Ecb] & L & Ev).
  destruct (run_add_holds grow grow_keeps grow_some demo_known [8] [] [] 9 (mkAddr AF_INET 7001 2) H ltac:(lia))
    as (c1 & streams & E1 & H1 & _ & _ & _ & A1).
  { destruct (c_heap demo_known !! 9) as [st|] eqn:E9; [|done]. exfalso. revert E9. clear. by vm_compute. }
  { unfold kListDefaultCapacity. lia. }
  destruct A1 as [(_ & _ & o & Ho & st & Eo & Ao)|(-> & _ & Eh & Ea)].
  { exfalso. apply list_elem_of_singleton in Ho as ->. rewrite E in Eo. injection Eo as <-. discriminate Ao. }
  pose proof (proj2 (slow_stream_ok 0 demo_peer ltac:(lia))) as W0.
  pose proof (proj2 (slow_stream_ok 1 (mkAddr AF_INET 7001 2) ltac:(lia))) as W1.
  assert (E8 : c_heap c1 !! 8 = Some (new_stream demo_peer)) by (rewrite Eh, lookup_insert_ne; [exact E|lia]).
  pose proof (with_heap_holds c1 _ _ _ 8 _ (slow_stream 0 demo_peer) H1 E8 W0 eq_refl) as H2.
  set (c2 := set_streams_heap _ c1) in H2.
  assert (E9 : c_heap c2 !! 9 = Some (new_stream (mkAddr AF_INET 7001 2))).
  { cbn. rewrite lookup_insert_ne by lia. rewrite Eh. apply lookup_insert_eq. }
  pose proof (with_heap_holds c2 _ _ _ 9 _ (slow_stream 1 (mkAddr AF_INET 7001 2)) H2 E9 W1 eq_refl) as H3.
  eexists. apply (streams_out_of_step 1000 _ 8 9 (slow_stream 0 demo_peer) (slow_stream 1 (mkAddr AF_INET 7001 2)) 0 1 [] []
    demo_uninit (fun o => o) H3).
  - exact Ea.
  - lia.
  - cbn. rewrite lookup_insert_ne by lia. apply lookup_insert_eq.
  - cbn. apply lookup_insert_eq.
  - apply slow_stream_ok. lia.
  - apply slow_stream_ok. lia.
  - lia.
Defined.

Lemma suspend_without_callback_witness :
  run_remove demo_peer (mkConfig (c_socket demo_known) (c_address demo_known) [] true
    (mkStreamCallbacks 1 1 1 0) (c_streams demo_known) (c_heap demo_known) []) = Fault NullPointer.
Proof.
  destruct demo_known_holds as (H & _ & E & _).
  apply (suspend_without_callback _ demo_peer 8 (new_stream demo_peer));
    [exact (ch_table _ _ _ _ H)|exact E|reflexivity|reflexivity|reflexivity].
Defined.

Lemma stream_setup_witness :
  exists e r, streamSetup (H := LittleEndian) grow demo_config 1 1 5000 (mkStreamCallbacks 1 1 1 1) demo_os (inl 0) demo_memory = Done (e, r) /\
    match net_socket_create (H := LittleEndian) AF_INET 5000 demo_os demo_memory with
    | Done (NetNoError, _) =>
        e = NetNoError /\ exists c, r = Some c /\ c_active c = false /\ c_events c = [] /\
          c_streamDispatchQueue c = [] /\ c_callbacks c = mkStreamCallbacks 1 1 1 1 /\
          (1 <> 0 -> config_holds c [] [] [])
    | Done (error, _) => e = error /\ r = None
    | Fault _ => False
    end.
Proof.
  pose proof demo_memory_ok as M. generalize dependent demo_memory. intros memory M.
  apply (stream_setup (H := LittleEndian) grow demo_config 1 1 5000 (mkStreamCallbacks 1 1 1 1) demo_os (inl 0) memory
    grow_keeps grow_some); [split; reflexivity|exact M|discriminate].
Defined.
