(* ===== verification/Timeout.v ===== *)
(** * Timeouts (src/timeout.[ch])

    A timer of Grand Central Dispatch that fires once.  The dispatch sources
    live in a store, with their reference counts: a source whose last
    reference is released is gone, and using it is a fault.  The handler of a
    timer is two steps, the block and what follows it, because the block only
    dispatches and other queues run meanwhile. *)
From S2P Require Import Prelude Machine.

Definition kNSEC_PER_MILLISEC : Z := 1000000.
Definition kLEEWAY : Z := u64 (10 * kNSEC_PER_MILLISEC).

Record timeout_t := mkTimeout {
  timerDispatchSource : Z;   (* zero is NULL *)
  valid : bool;
}.

(** What a source of type timer was given; it fires once. *)
Record source := mkSource {
  src_references : Z;
  src_armed : bool;          (* resumed, neither fired nor cancelled *)
  src_delay : Z;             (* nanoseconds *)
  src_leeway : Z;
  src_queue : Z;             (* zero is the global queue *)
  src_block : Z;             (* what the handler runs *)
}.

Record timeout_state := mkTimeoutState {
  ts_timeout : timeout_t;
  ts_sources : gmap Z source;
}.

Definition set_timeout (t : timeout_t) (s : timeout_state) : timeout_state :=
  mkTimeoutState t (ts_sources s).
Definition set_sources (m : gmap Z source) (s : timeout_state) : timeout_state :=
  mkTimeoutState (ts_timeout s) m.

(** ** The dispatch sources *)

Definition source_at (m : gmap Z source) (s : Z) : outcome source :=
  if s =? 0 then Fault NullPointer
  else match m !! s with Some x => Done x | None => Fault OutOfBounds end.

Definition dispatch_source_cancel (s : Z) (m : gmap Z source) : outcome (gmap Z source) :=
  x <-! source_at m s ;;
  Done (<[s := mkSource (src_references x) false (src_delay x) (src_leeway x) (src_queue x) (src_block x)]> m).

Definition dispatch_release (s : Z) (m : gmap Z source) : outcome (gmap Z source) :=
  x <-! source_at m s ;;
  if src_references x =? 1 then Done (delete s m)
  else Done (<[s := mkSource (src_references x - 1) (src_armed x) (src_delay x) (src_leeway x) (src_queue x) (src_block x)]> m).

Definition on_sources (f : gmap Z source -> outcome (gmap Z source)) : prog timeout_state unit := fun s =>
  m <-! f (ts_sources s) ;; Done (tt, set_sources m s).

(** ** Operations *)

Definition timeout_destroy : prog timeout_state unit :=
  s <- get ;;
  if valid (ts_timeout s) then
    modify (set_timeout (mkTimeout (timerDispatchSource (ts_timeout s)) false)) ;;
    on_sources (dispatch_source_cancel (timerDispatchSource (ts_timeout s))) ;;
    on_sources (dispatch_release (timerDispatchSource (ts_timeout s)))
  else ret tt.

Section Create.
(** The source [dispatch_source_create] makes, or NULL. *)
Context (source_create : gmap Z source -> Z).

Definition timeout_create_queue (queue milliseconds block : Z) : prog timeout_state unit :=
  s <- get ;;
  (if valid (ts_timeout s) then timeout_destroy else ret tt) ;;
  s <- get ;;
  let src := source_create (ts_sources s) in
  modify (set_timeout (mkTimeout src (valid (ts_timeout s)))) ;;
  if negb (src =? 0) then
    modify (set_sources (<[src := mkSource 1 true (u64 (milliseconds * kNSEC_PER_MILLISEC)) kLEEWAY queue block]>
                           (ts_sources s))) ;;
    modify (set_timeout (mkTimeout src true))
  else ret tt.

(** The other two make the same timer on the global queue; a callback with
    its context is a block as well. *)
Definition timeout_create_block (block milliseconds : Z) : prog timeout_state unit :=
  timeout_create_queue 0 milliseconds block.

Definition timeout_create (callback milliseconds : Z) : prog timeout_state unit :=
  timeout_create_queue 0 milliseconds callback.

End Create.

(** ** The handler *)

(** A timer that is armed fires: its block is run. *)
Definition timer_fires (src : Z) (m : gmap Z source) : outcome (option Z * gmap Z source) :=
  x <-! source_at m src ;;
  if src_armed x then
    Done (Some (src_block x),
          <[src := mkSource (src_references x) false (src_delay x) (src_leeway x) (src_queue x) (src_block x)]> m)
  else Done (None, m).

(** What the handler does after the block. *)
Definition timer_fired : prog timeout_state unit :=
  s <- get ;;
  modify (set_timeout (mkTimeout (timerDispatchSource (ts_timeout s)) false)) ;;
  on_sources (dispatch_release (timerDispatchSource (ts_timeout s))).

(** ** Properties *)

(** A timeout and its source: [Some (delay, queue, block)] while it is
    pending, among sources [others] that are not its own. *)
Definition timeout_holds (s : timeout_state) (others : gmap Z source) (p : option (Z * Z * Z)) : Prop :=
  match p with
  | Some (delay, queue, block) =>
      valid (ts_timeout s) = true /\ timerDispatchSource (ts_timeout s) <> 0 /\
      others !! timerDispatchSource (ts_timeout s) = None /\
      ts_sources s = <[timerDispatchSource (ts_timeout s) := mkSource 1 true delay kLEEWAY queue block]> others
  | None => valid (ts_timeout s) = false /\ ts_sources s = others
  end.

Lemma destroy_holds s others p : timeout_holds s others p ->
  timeout_destroy s =
    Done (tt, mkTimeoutState (mkTimeout (timerDispatchSource (ts_timeout s)) false) others).
Proof.
  unfold timeout_destroy. rewrite bind_get. destruct s as [[src v] m], p as [[[delay queue] block]|]; cbn.
  - intros (-> & Hs & Hn & ->). rewrite bind_modify. unfold on_sources, bind, dispatch_source_cancel, source_at. cbn.
    rewrite (proj2 (Z.eqb_neq src 0)) by done. rewrite lookup_insert_eq. cbn.
    unfold dispatch_release, source_at. rewrite (proj2 (Z.eqb_neq src 0)) by done.
    rewrite lookup_insert_eq. cbn. unfold set_sources. cbn.
    by rewrite insert_insert_eq, delete_insert_id.
  - intros [-> ->]. done.
Qed.

Lemma create_holds source_create queue ms block s others p : timeout_holds s others p ->
  others !! source_create others = None ->
  exists s', timeout_create_queue source_create queue ms block s = Done (tt, s') /\
    timerDispatchSource (ts_timeout s') = source_create others /\
    timeout_holds s' others
      (if source_create others =? 0 then None else Some (u64 (ms * kNSEC_PER_MILLISEC), queue, block)).
Proof.
  intros H Hf. pose proof (destroy_holds s others p H) as E. unfold timeout_create_queue. rewrite bind_get.
  assert (P : exists src, (if valid (ts_timeout s) then timeout_destroy else ret tt) s =
                Done (tt, mkTimeoutState (mkTimeout src false) others)).
  { destruct s as [[src v] m]. cbn. destruct v; [by exists src|]. exists src.
    destruct p as [[[delay queue'] block']|]; [by destruct H|]. destruct H as [_ Hm]. cbn in Hm. by subst m. }
  destruct P as [src Ep]. rewrite (bind_done _ _ _ _ _ Ep), bind_get. cbn [ts_sources ts_timeout valid].
  rewrite bind_modify. destruct (Z.eqb_spec (source_create others) 0) as [E0|E0]; cbn [negb].
  - eexists. split; [reflexivity|]. split; [done|]. by split.
  - rewrite bind_modify. eexists. split; [reflexivity|]. split; [done|]. by split.
Qed.

Lemma fired_holds s others p : timeout_holds s others (Some p) ->
  exists m, timer_fires (timerDispatchSource (ts_timeout s)) (ts_sources s) = Done (Some p.2, m) /\
    timer_fired (set_sources m s) =
      Done (tt, mkTimeoutState (mkTimeout (timerDispatchSource (ts_timeout s)) false) others).
Proof.
  destruct s as [[src v] m], p as [[delay queue] block]. cbn. intros (-> & Hs & Hn & ->).
  unfold timer_fires, source_at. rewrite (proj2 (Z.eqb_neq src 0)) by done. rewrite lookup_insert_eq. cbn.
  eexists. split; [reflexivity|]. unfold timer_fired, on_sources, dispatch_release, source_at, bind, get, modify. cbn.
  rewrite (proj2 (Z.eqb_neq src 0)) by done. rewrite insert_insert_eq, lookup_insert_eq. cbn. unfold set_sources. cbn.
  by rewrite delete_insert_id.
Qed.

(** What may happen to a timeout.  The handler of a timer is two events, which
    other operations may come between. *)
Inductive timeout_op :=
| TCreate (queue milliseconds block : Z)
| TDestroy
| TFire    (* the timer fires: the handler starts and runs its block *)
| TFired.  (* the handler goes on after the block, and ends *)

(** The operations, with the blocks that they run, ... *)
Definition timeout_step (source_create : gmap Z source -> Z) (op : timeout_op) : prog timeout_state (list Z) :=
  match op with
  | TCreate queue ms block => timeout_create_queue source_create queue ms block ;; ret []
  | TDestroy => timeout_destroy ;; ret []
  | TFire =>
      s <- get ;;
      let src := timerDispatchSource (ts_timeout s) in
      if bool_decide (is_Some (ts_sources s !! src)) then
        let* '(block, m) := lift (timer_fires src (ts_sources s)) in
        modify (set_sources m) ;;
        ret (option_list block)
      else ret []
  | TFired => timer_fired ;; ret []
  end.

(** ... and those of a slot for one timer: it is empty, or it holds a timer
    that will run a block, or the handler of its timer is running.  A handler
    ends once it runs, and meanwhile the slot is not to be used. *)
Inductive slot_state :=
| Empty
| Pending (block : Z)
| Running.

Definition slot (op : timeout_op) (a : slot_state) : option (list Z * slot_state) :=
  match op, a with
  | TCreate _ _ _, Running | TDestroy, Running => None
  | TCreate _ _ block, _ => Some ([], Pending block)
  | TDestroy, _ => Some ([], Empty)
  | TFire, Pending block => Some ([block], Running)
  | TFire, _ => Some ([], a)
  | TFired, Running => Some ([], Empty)
  | TFired, _ => None
  end.

(** The timeout is alone among the sources. *)
Definition slot_holds (s : timeout_state) (a : slot_state) : Prop :=
  match a with
  | Empty => timeout_holds s ∅ None
  | Pending block => exists delay queue, timeout_holds s ∅ (Some (delay, queue, block))
  | Running => exists delay queue block,
      valid (ts_timeout s) = true /\ timerDispatchSource (ts_timeout s) <> 0 /\
      ts_sources s = {[timerDispatchSource (ts_timeout s) := mkSource 1 false delay kLEEWAY queue block]}
  end.

(** Unless its handler runs, a slot can be destroyed and filled. *)
Lemma slot_idle s a : slot_holds s a -> a <> Running -> exists p, timeout_holds s ∅ p.
Proof. destruct a as [|block|]; [by exists None|intros (d & q & H) _; by eexists|done]. Qed.

Lemma slot_fires s delay queue block : timeout_holds s ∅ (Some (delay, queue, block)) ->
  let src := timerDispatchSource (ts_timeout s) in
  let m := {[src := mkSource 1 false delay kLEEWAY queue block]} in
  timer_fires src (ts_sources s) = Done (Some block, m) /\ slot_holds (set_sources m s) Running.
Proof.
  intros (Hv & Hs & _ & Hm) src m. unfold timer_fires, source_at, src. rewrite (proj2 (Z.eqb_neq _ 0)) by done.
  rewrite Hm, lookup_insert_eq. cbn. split; [by rewrite insert_insert_eq|]. by exists delay, queue, block.
Qed.

Lemma running_ends s : slot_holds s Running -> exists s', timer_fired s = Done (tt, s') /\ slot_holds s' Empty.
Proof.
  intros (d & q & b & Hv & Hs & Hm). unfold timer_fired, on_sources, dispatch_release, source_at, bind, get, modify. cbn.
  rewrite (proj2 (Z.eqb_neq _ 0)) by done. rewrite Hm, lookup_singleton_eq. cbn.
  eexists. split; [reflexivity|]. split; [done|]. cbn. apply delete_singleton_eq.
Qed.

Lemma timeout_implements source_create : fresh_address source_create ->
  Implements (timeout_step source_create) (functional slot) slot_holds.
Proof.
  intros Hc [queue ms block| | |] s a H [[out a'] E]; cbn [timeout_step].
  - assert (Hr : a <> Running) by (by intros ->). destruct (slot_idle s a H Hr) as [p Hp].
    destruct (create_holds source_create queue ms block s ∅ p Hp (proj2 (Hc ∅))) as (s1 & E1 & _ & H1).
    rewrite (proj2 (Z.eqb_neq _ 0)) in H1 by apply Hc. rewrite (bind_done _ _ _ _ _ E1).
    exists [], s1, (Pending block). split; [done|]. split; [by destruct a|by eexists _, _].
  - assert (Hr : a <> Running) by (by intros ->). destruct (slot_idle s a H Hr) as [p Hp].
    rewrite (bind_done _ _ _ _ _ (destroy_holds s ∅ p Hp)). eexists [], _, Empty. split; [done|]. split; [by destruct a|done].
  - rewrite bind_get. cbv zeta. destruct a as [|block|].
    + pose proof H as [_ Hs]. rewrite bool_decide_false by (rewrite Hs, lookup_empty; by intros [? ?]). by exists [], s, Empty.
    + destruct H as (d & q & H). destruct (slot_fires s d q block H) as [E1 H1]. destruct H as (_ & _ & _ & Hs).
      rewrite bool_decide_true by (rewrite Hs, lookup_insert_eq; by eexists).
      unfold bind at 1, lift. rewrite E1. cbn beta iota. rewrite bind_modify. by eexists [block], _, Running.
    + destruct H as (d & q & b & Hv & Hs & Hm). rewrite bool_decide_true by (rewrite Hm, lookup_singleton_eq; by eexists).
      unfold bind at 1, lift, timer_fires, source_at. rewrite (proj2 (Z.eqb_neq _ 0)) by done.
      rewrite Hm, lookup_singleton_eq. cbn. eexists [], _, Running. split; [reflexivity|]. split; [done|].
      exists d, q, b. by split.
  - destruct a; try discriminate. destruct (running_ends s H) as (s' & E1 & H1).
    rewrite (bind_done _ _ _ _ _ E1). by exists [], s', Empty.
Qed.

(** What happens when the slot is used while the handler runs. *)
Lemma running_destroyed s : slot_holds s Running ->
  valid (ts_timeout s) = true /\ timerDispatchSource (ts_timeout s) <> 0 /\
  timeout_destroy s = Done (tt, mkTimeoutState (mkTimeout (timerDispatchSource (ts_timeout s)) false) ∅).
Proof.
  intros (d & q & b & Hv & Hs & Hm). split; [done|]. split; [done|]. destruct s as [[src v] m]. cbn in *. subst v m.
  unfold timeout_destroy, on_sources, dispatch_source_cancel, dispatch_release, source_at, bind, get, modify.
  cbn. rewrite (proj2 (Z.eqb_neq src 0)), lookup_insert_eq by done. cbn.
  rewrite lookup_insert_eq. cbn. unfold set_sources. cbn.
  by rewrite insert_insert_eq, delete_insert_id.
Qed.

Lemma destroyed_while_running s : slot_holds s Running -> (timeout_destroy ;; timer_fired) s = Fault OutOfBounds.
Proof.
  intros H. destruct (running_destroyed s H) as (_ & Hs & E). rewrite (bind_done _ _ _ _ _ E).
  unfold timer_fired, on_sources, dispatch_release, source_at, bind, get, modify. cbn.
  by rewrite (proj2 (Z.eqb_neq _ 0)), lookup_empty.
Qed.

Lemma created_while_running source_create queue ms block s : fresh_address source_create -> slot_holds s Running ->
  exists s', (timeout_create_queue source_create queue ms block ;; timer_fired) s = Done (tt, s') /\ slot_holds s' Empty.
Proof.
  intros Hc H. destruct (running_destroyed s H) as (Hv & _ & E). destruct (Hc ∅) as [Hn _].
  unfold timeout_create_queue. rewrite bind_assoc, bind_get, Hv, bind_assoc, (bind_done _ _ _ _ _ E).
  unfold timer_fired, on_sources, dispatch_release, source_at, bind, get, modify. cbn.
  rewrite !(proj2 (Z.eqb_neq (source_create ∅) 0)) by done. cbn.
  rewrite (proj2 (Z.eqb_neq (source_create ∅) 0)), lookup_insert_eq by done. cbn.
  eexists. split; [reflexivity|]. split; [done|]. by apply delete_insert_id.
Qed.

#[export] Instance slot_state_eq_dec : EqDecision slot_state.
Proof. solve_decision. Defined.

(** C24: a timeout is a slot for one timer, as long as nobody creates or
    destroys it while the handler of its timer runs, between the block and the
    end of the handler: creating a timer replaces the pending one, destroying
    empties the slot, a timer fires once and runs the block it was created
    with; no source is leaked, released twice or used after its release.  When
    the slot is used while the handler runs the promise is broken: after a
    destruction the end of the handler uses a source that was released, and a
    timer that was created is released by the end of the old handler, so that
    it never fires. *)
Theorem timeout_refines_slot source_create ops s a blocks a' :
  fresh_address source_create -> slot_holds s a -> run_spec slot ops a = Some (blocks, a') ->
  exists s', run (timeout_step source_create) ops s = Done (blocks, s') /\
    (size (ts_sources s') <= 1)%nat /\ (ts_sources s' = ∅ <-> a' = Empty) /\
    valid (ts_timeout s') = negb (bool_decide (a' = Empty)) /\
    (a' = Running ->
       (timeout_destroy ;; timer_fired) s' = Fault OutOfBounds /\
       forall queue ms block, exists s'',
         (timeout_create_queue source_create queue ms block ;; timer_fired) s' = Done (tt, s'') /\
         ts_sources s'' = ∅ /\ valid (ts_timeout s'') = false).
Proof.
  intros Hc H E. destruct (run_script (I := timeout_implements source_create Hc) ops s a blocks a' H E) as (s' & R & H').
  exists s'. split; [exact R|]. destruct a' as [|block|].
  - destruct H' as [Hv ->]. rewrite map_size_empty. split; [lia|]. split; [done|]. split; [by rewrite Hv|done].
  - destruct H' as (d & q & Hv & _ & _ & ->). rewrite insert_empty, map_size_singleton.
    split; [lia|]. split; [split; [intros F; by apply map_non_empty_singleton in F|done]|by split].
  - pose proof H' as (d & q & b & Hv & _ & Hm). rewrite Hm, map_size_singleton.
    split; [lia|]. split; [split; [intros F; by apply map_non_empty_singleton in F|done]|]. split; [done|]. intros _. split.
    + by apply destroyed_while_running.
    + intros queue ms b'. destruct (created_while_running source_create queue ms b' s' Hc H') as (s'' & F & Hv' & Hs').
      by exists s''.
Qed.

(** A timer that is replaced, one that fires, one that is destroyed, one whose
    handler runs. *)
Definition demo_timers : list timeout_op :=
  [TCreate 0 1000 7; TCreate 0 2000 8; TFire; TFire; TFired; TFire; TCreate 0 1 9; TDestroy; TFire; TCreate 0 1 10; TFire].

Definition demo_blocks : list (list Z) := [[]; []; [8]; []; []; []; []; []; []; []; [10]].

Lemma timeout_refines_slot_witness :
  run_spec slot demo_timers Empty = Some (demo_blocks, Running) /\
  exists s', run (timeout_step free_address) demo_timers (mkTimeoutState (mkTimeout 0 false) ∅) = Done (demo_blocks, s') /\
    (size (ts_sources s') <= 1)%nat /\ (ts_sources s' = ∅ <-> Running = Empty) /\
    valid (ts_timeout s') = negb (bool_decide (Running = Empty)) /\
    (Running = Running ->
       (timeout_destroy ;; timer_fired) s' = Fault OutOfBounds /\
       forall queue ms block, exists s'',
         (timeout_create_queue free_address queue ms block ;; timer_fired) s' = Done (tt, s'') /\
         ts_sources s'' = ∅ /\ valid (ts_timeout s'') = false).
Proof.
  split; [reflexivity|].
  exact (timeout_refines_slot free_address demo_timers (mkTimeoutState (mkTimeout 0 false) ∅) Empty demo_blocks Running
    free_address_fresh (conj eq_refl eq_refl) eq_refl).
Defined.
