(* ===== verification/Transaction.v ===== *)
(** * Transactions (src/transaction.c, src/transaction.h, src/transaction_internal.h)

    Requests with acknowledgements over one socket: a table of the pending
    transactions, each with its packet, its retries and its timer.  A step is
    a call of the application, a callback of the socket, a block of the
    dispatch queue, or one half of the handler of a timer. *)
From S2P Require Import Prelude Bitstream Wire Fields Net Protocol TransactionProtocol.
From S2P Require Import Hashtable Queue Pool NetSocket Timeout.

Definition kTransactionInitialRto : Z := 1000.
Definition kTransactionRtoIncreaseFactor : Z := 2.
Definition kTransactionMaxRetries : Z := 2.
Definition kTransactionMaxId : Z := 0xFF.

Inductive TransactionState :=
| TransactionIdle
| TransactionWaiting
| TransactionProcessing
| TransactionAcknowledged
| TransactionError
| TransactionTimeout.

#[export] Instance TransactionState_eq_dec : EqDecision TransactionState.
Proof. solve_decision. Defined.

(** [timeoutBlock] captures the transaction: the block is its address. *)
Record Transaction := mkTransaction {
  tr_state : TransactionState;
  tr_id : Z;
  tr_packet : Z;
  tr_retries : Z;
  tr_timeout : timeout_t;
  tr_timeoutBlock : Z;
}.

Definition with_state (x : TransactionState) (t : Transaction) : Transaction :=
  mkTransaction x (tr_id t) (tr_packet t) (tr_retries t) (tr_timeout t) (tr_timeoutBlock t).
Definition with_retries (x : Z) (t : Transaction) : Transaction :=
  mkTransaction (tr_state t) (tr_id t) (tr_packet t) x (tr_timeout t) (tr_timeoutBlock t).
Definition with_timeout (x : timeout_t) (t : Transaction) : Transaction :=
  mkTransaction (tr_state t) (tr_id t) (tr_packet t) (tr_retries t) x (tr_timeoutBlock t).
Definition with_timeoutBlock (x : Z) (t : Transaction) : Transaction :=
  mkTransaction (tr_state t) (tr_id t) (tr_packet t) (tr_retries t) (tr_timeout t) x.

(** A block given to the dispatch queue of the transactions. *)
Inductive transaction_task :=
| TaskInsert (id transaction : Z)
| TaskResponse (packet id : Z)
| TaskRequest (packet id : Z)
| TaskRetry (id : Z)
| TaskEnable
| TaskDisable.

(** A call of one of the callbacks of the application. *)
Inductive transaction_event :=
| EventReceive (address : net_addr_t) (object : TransactionObject)
| EventError (address : net_addr_t).

Record TransactionConfiguration := mkTransactions {
  t_queue : list transaction_task;     (* [transactionsDispatchQueue] *)
  t_transactions : hashtable_s;
  t_cseq : Z;
  t_socket : net_socket_s;
  t_isEnabled : bool;
  t_receiveCallback : Z;               (* zero is NULL *)
  t_errorCallback : Z;
  t_heap : gmap Z Transaction;         (* the transactions that are allocated *)
  t_sources : gmap Z source;           (* the timers *)
  t_events : list transaction_event;   (* the callbacks called so far *)
}.

Definition set_queue (x : list transaction_task) (c : TransactionConfiguration) :=
  mkTransactions x (t_transactions c) (t_cseq c) (t_socket c) (t_isEnabled c) (t_receiveCallback c)
    (t_errorCallback c) (t_heap c) (t_sources c) (t_events c).
Definition set_table (x : hashtable_s) (c : TransactionConfiguration) :=
  mkTransactions (t_queue c) x (t_cseq c) (t_socket c) (t_isEnabled c) (t_receiveCallback c)
    (t_errorCallback c) (t_heap c) (t_sources c) (t_events c).
Definition set_cseq (x : Z) (c : TransactionConfiguration) :=
  mkTransactions (t_queue c) (t_transactions c) x (t_socket c) (t_isEnabled c) (t_receiveCallback c)
    (t_errorCallback c) (t_heap c) (t_sources c) (t_events c).
Definition set_socket (x : net_socket_s) (c : TransactionConfiguration) :=
  mkTransactions (t_queue c) (t_transactions c) (t_cseq c) x (t_isEnabled c) (t_receiveCallback c)
    (t_errorCallback c) (t_heap c) (t_sources c) (t_events c).
Definition set_isEnabled (x : bool) (c : TransactionConfiguration) :=
  mkTransactions (t_queue c) (t_transactions c) (t_cseq c) (t_socket c) x (t_receiveCallback c)
    (t_errorCallback c) (t_heap c) (t_sources c) (t_events c).
Definition set_heap (x : gmap Z Transaction) (c : TransactionConfiguration) :=
  mkTransactions (t_queue c) (t_transactions c) (t_cseq c) (t_socket c) (t_isEnabled c) (t_receiveCallback c)
    (t_errorCallback c) x (t_sources c) (t_events c).
Definition set_timers (x : gmap Z source) (c : TransactionConfiguration) :=
  mkTransactions (t_queue c) (t_transactions c) (t_cseq c) (t_socket c) (t_isEnabled c) (t_receiveCallback c)
    (t_errorCallback c) (t_heap c) x (t_events c).
Definition set_events (x : list transaction_event) (c : TransactionConfiguration) :=
  mkTransactions (t_queue c) (t_transactions c) (t_cseq c) (t_socket c) (t_isEnabled c) (t_receiveCallback c)
    (t_errorCallback c) (t_heap c) (t_sources c) x.

(** ** The parts of a configuration *)

Definition on_socket {A} (m : prog net_socket_s A) : prog TransactionConfiguration A := fun c =>
  match m (t_socket c) with Done (a, s) => Done (a, set_socket s c) | Fault f => Fault f end.

Definition on_table {A} (m : prog hashtable_s A) : prog TransactionConfiguration A := fun c =>
  match m (t_transactions c) with Done (a, h) => Done (a, set_table h c) | Fault f => Fault f end.

(** A transaction that was freed is an access outside every object. *)
Definition get_transaction (p : Z) : prog TransactionConfiguration Transaction := fun c =>
  if p =? 0 then Fault NullPointer
  else match t_heap c !! p with Some t => Done (t, c) | None => Fault OutOfBounds end.

Definition on_transaction (p : Z) (f : Transaction -> Transaction) : prog TransactionConfiguration unit :=
  t <- get_transaction p ;;
  modify (fun c => set_heap (<[p := f t]> (t_heap c)) c).

(** An operation of timeout.c on the timeout of a transaction. *)
Definition on_timeout {A} (p : Z) (m : prog timeout_state A) : prog TransactionConfiguration A :=
  t <- get_transaction p ;;
  fun c =>
    match m (mkTimeoutState (tr_timeout t) (t_sources c)) with
    | Fault f => Fault f
    | Done (a, s) =>
        Done (a, set_timers (ts_sources s)
                   (set_heap (<[p := with_timeout (ts_timeout s) t]> (t_heap c)) c))
    end.

Definition dispatch_async (task : transaction_task) : prog TransactionConfiguration unit :=
  modify (fun c => set_queue (t_queue c ++ [task]) c).

Definition notify (event : transaction_event) : prog TransactionConfiguration unit :=
  modify (fun c => set_events (t_events c ++ [event]) c).

(** ** Operations *)

Section Operations.
Context `{Host}.
(** What [calloc] returns, and [dispatch_source_create]; zero is NULL. *)
Context (calloc : gmap Z Transaction -> Z).
Context (source_create : gmap Z source -> Z).

(** The memory [calloc] gives is not checked. *)
Definition transactionAlloc : prog TransactionConfiguration Z :=
  transactionPacket <- on_socket net_packet_alloc ;;
  if negb (transactionPacket =? 0) then
    c <- get ;;
    let transaction := calloc (t_heap c) in
    if transaction =? 0 then fail NullPointer
    else
      modify (set_cseq (u8 (t_cseq c + 1))) ;;
      modify (fun c => set_cseq (t_cseq c mod kTransactionMaxId) c) ;;
      modify (set_heap (<[transaction := mkTransaction TransactionIdle (t_cseq c) transactionPacket 0
                            (mkTimeout 0 false) 0]> (t_heap c))) ;;
      ret transaction
  else ret 0.

Definition transactionFree (transaction : Z) : prog TransactionConfiguration unit :=
  if negb (transaction =? 0) then
    t <- get_transaction transaction ;;
    on_socket (net_packet_release (tr_packet t)) ;;
    modify (fun c => set_heap (delete transaction (t_heap c)) c)
  else ret tt.

Definition transactionDestroyTimeout (transaction : Z) : prog TransactionConfiguration unit :=
  on_timeout transaction timeout_destroy.

(** [hashtable_iterate] with the block of [transactionRemoveAll], which
    deletes the entry it visits. *)
Fixpoint remove_keys (n : nat) (transactionId : Z) : prog TransactionConfiguration unit :=
  c <- get ;;
  if negb (transactionId <=? ht_max_key (t_transactions c)) then ret tt
  else match n with
  | O => fail OutOfFuel
  | S n' =>
      transaction <- lift (load (ht_objects (t_transactions c)) transactionId) ;;
      (if negb (transaction =? 0) then
         on_table (hashtable_delete transactionId) ;;
         transactionDestroyTimeout transaction ;;
         transactionFree transaction
       else ret tt) ;;
      remove_keys n' (u32 (transactionId + 1))
  end.

Definition transactionRemoveAll : prog TransactionConfiguration unit :=
  c <- get ;;
  remove_keys (S (length (ht_objects (t_transactions c)))) 0.

Definition transactionEnable : prog TransactionConfiguration unit := dispatch_async TaskEnable.
Definition transactionDisable : prog TransactionConfiguration unit := dispatch_async TaskDisable.

(** The packet is not checked: its bit stream is that of NULL. *)
Definition transactionResponse (addr : net_addr_t) (transactionId transactionResponseType : Z) :
    prog TransactionConfiguration unit :=
  packet <- on_socket net_packet_alloc ;;
  on_socket (on_bitstream packet (transactionProtocolPackHeader transactionId TransactionTypeResponse)) ;;
  on_socket (on_bitstream packet (transactionProtocolPackResponse transactionResponseType)) ;;
  on_socket (on_packet packet (fun k => net_packet_addr k addr)) ;;
  on_socket (net_socket_send packet) ;;
  on_socket (net_packet_release packet).

Definition transactionRequest (addr : net_addr_t) (object : TransactionObject) :
    prog TransactionConfiguration unit :=
  transaction <- transactionAlloc ;;
  if negb (transaction =? 0) then
    t <- get_transaction transaction ;;
    on_socket (on_bitstream (tr_packet t) (transactionProtocolPackHeader (tr_id t) TransactionTypeRequest)) ;;
    on_socket (on_bitstream (tr_packet t) (transactionProtocolPackRequest object)) ;;
    dispatch_async (TaskInsert (tr_id t) transaction) ;;
    on_socket (on_packet (tr_packet t) (fun k => net_packet_addr k addr)) ;;
    on_transaction transaction (with_timeoutBlock transaction) ;;
    on_socket (net_socket_send (tr_packet t)) ;;
    on_transaction transaction (with_state TransactionWaiting) ;;
    t <- get_transaction transaction ;;
    on_timeout transaction (timeout_create_block source_create (tr_timeoutBlock t) kTransactionInitialRto)
  else ret tt.

(** ** Receiving *)

Definition transactionDidReceiveResponse (packet transactionId : Z) : prog TransactionConfiguration unit :=
  on_socket (net_packet_retain packet) ;;
  dispatch_async (TaskResponse packet transactionId).

Definition transactionDidReceiveRequest (packet transactionId : Z) : prog TransactionConfiguration unit :=
  on_socket (net_packet_retain packet) ;;
  dispatch_async (TaskRequest packet transactionId).

(** [out] is what [transactionId] and [transactionType] held. *)
Definition transactionSocketReceiveCallback (out : Z * Z) (packet : Z) : prog TransactionConfiguration unit :=
  c <- get ;;
  (if t_isEnabled c then
     let* '(result, hdr) := on_socket (on_bitstream packet (transactionProtocolUnpackHeader out)) in
     if decide (result = UnpackValid) then
       if snd hdr =? TransactionTypeResponse then transactionDidReceiveResponse packet (fst hdr)
       else if snd hdr =? TransactionTypeRequest then transactionDidReceiveRequest packet (fst hdr)
       else ret tt
     else ret tt
   else ret tt) ;;
  on_socket (net_packet_release packet).

Definition transactionSetComplete (transaction : Z) : prog TransactionConfiguration unit :=
  t <- get_transaction transaction ;;
  c <- get ;;
  (if bool_decide (tr_state t <> TransactionAcknowledged) && negb (t_errorCallback c =? 0) then
     k <- on_socket (get_packet (tr_packet t)) ;;
     notify (EventError (pk_addr k))
   else ret tt) ;;
  on_table (hashtable_delete (tr_id t)) ;;
  transactionFree transaction.

Definition find_transaction (transactionId : Z) : prog TransactionConfiguration Z := fun c =>
  transaction <-! hashtable_search (t_transactions c) transactionId ;; Done (transaction, c).

(** The block of [transactionDidReceiveResponse]. *)
Definition run_response (packet transactionId : Z) : prog TransactionConfiguration unit :=
  transaction <- find_transaction transactionId ;;
  if negb (transaction =? 0) then
    transactionDestroyTimeout transaction ;;
    let* '(_, transactionResponseType) :=
      on_socket (on_bitstream packet transactionProtocolUnpackResponse) in
    on_transaction transaction (with_state
      (if transactionResponseType =? TransactionResponseTypeSuccess then TransactionAcknowledged
       else TransactionError)) ;;
    transactionSetComplete transaction ;;
    on_socket (net_packet_release packet)
  else ret tt.

(** The block of [transactionDidReceiveRequest]. *)
Definition run_request (packet transactionId : Z) : prog TransactionConfiguration unit :=
  k <- on_socket (get_packet packet) ;;
  transactionResponse (pk_addr k) transactionId TransactionResponseTypeSuccess ;;
  let* '(unpackResult, transactionObject) :=
    on_socket (on_bitstream packet transactionProtocolUnpackRequest) in
  c <- get ;;
  (if negb (t_receiveCallback c =? 0) && bool_decide (unpackResult = UnpackValid) then
     notify (EventReceive (pk_addr k) transactionObject)
   else ret tt) ;;
  on_socket (net_packet_release packet).

(** ** Timing out *)

(** [kTransactionInitialRto * kTransactionRtoIncreaseFactor * retries] *)
Definition retry_rto (retries : Z) : Z :=
  u64 (kTransactionInitialRto * kTransactionRtoIncreaseFactor * retries).

(** The block of [transactionRetryOrFail]. *)
Definition run_retry (transactionId : Z) : prog TransactionConfiguration unit :=
  transaction <- find_transaction transactionId ;;
  if negb (transaction =? 0) then
    t <- get_transaction transaction ;;
    if decide (tr_state t = TransactionWaiting) then
      transactionDestroyTimeout transaction ;;
      t <- get_transaction transaction ;;
      if tr_retries t <? kTransactionMaxRetries then
        on_transaction transaction (with_retries (u32 (tr_retries t + 1))) ;;
        t <- get_transaction transaction ;;
        on_socket (net_socket_send (tr_packet t)) ;;
        on_timeout transaction (timeout_create_block source_create (tr_timeoutBlock t) (retry_rto (tr_retries t)))
      else
        on_transaction transaction (with_state TransactionTimeout) ;;
        transactionSetComplete transaction
    else ret tt
  else ret tt.

Definition transactionRetryOrFail (transactionId : Z) : prog TransactionConfiguration unit :=
  dispatch_async (TaskRetry transactionId).

(** The handler of a timer runs the block of its transaction ... *)
Definition timer_block (src : Z) : prog TransactionConfiguration (option Z) := fun c =>
  match timer_fires src (t_sources c) with
  | Fault f => Fault f
  | Done (None, m) => Done (None, c)
  | Done (Some transaction, m) =>
      (t <- get_transaction transaction ;;
       transactionRetryOrFail (tr_id t) ;;
       ret (Some transaction)) (set_timers m c)
  end.

(** ... and then marks its timeout. *)
Definition timer_rest (transaction : Z) : prog TransactionConfiguration unit :=
  on_timeout transaction timer_fired.

Definition timer_handler (src : Z) : prog TransactionConfiguration unit :=
  fired <- timer_block src ;;
  match fired with Some transaction => timer_rest transaction | None => ret tt end.

(** The serial queue runs its first block. *)
Definition run_task : prog TransactionConfiguration unit :=
  c <- get ;;
  match t_queue c with
  | [] => ret tt
  | task :: tasks =>
      modify (set_queue tasks) ;;
      match task with
      | TaskInsert id transaction => on_table (hashtable_insert id transaction)
      | TaskResponse packet id => run_response packet id
      | TaskRequest packet id => run_request packet id
      | TaskRetry id => run_retry id
      | TaskEnable => modify (fun c => if negb (t_isEnabled c) then set_isEnabled true c else c)
      | TaskDisable =>
          if t_isEnabled c then modify (set_isEnabled false) ;; transactionRemoveAll else ret tt
      end
  end.

(** The global queue is concurrent: it takes the packets in any order. *)
Definition deliver (out : Z * Z) (i : nat) : prog TransactionConfiguration unit :=
  c <- get ;;
  match s_delivered (t_socket c) !! i with
  | None => ret tt
  | Some packet =>
      on_socket (modify (fun s => set_delivered (delete i (s_delivered s)) s)) ;;
      transactionSocketReceiveCallback out packet
  end.

(** ** Setting up *)

(** [netError] is tested although [net_socket_create] may leave it as it
    was; it never does. *)
Definition transactionSetup (context receive port receiveCallback errorCallback : Z)
    (table_ok : bool) (os : os_answers) (memory : gmap Z net_packet_s) :
    outcome (NetError * option TransactionConfiguration) :=
  let transactions := hashtable_create table_ok kTransactionMaxId in
  created <-! net_socket_create AF_INET port os memory ;;
  if decide (created.1 <> NetNoError) then Done (created.1, None)
  else match created.2 with
  | None => Fault NullPointer
  | Some s =>
      receiving <-! net_socket_set_receive_callback context receive s ;;
      Done (NetNoError, Some (mkTransactions [] transactions 0 receiving.2 true receiveCallback errorCallback ∅ ∅ []))
  end.

End Operations.
