(* ===== verification/TransactionSpec.v ===== *)
(** * Properties of the transactions

    The invariant of a configuration: its packets, its table of pending
    transactions and its timers; and what each operation does to it. *)
From S2P Require Import Prelude Bitstream Wire Fields Net Protocol TransactionProtocol TransactionProtocolSpec.
From S2P Require Import Hashtable Queue Pool NetSocket NetSocketSpec Timeout Transaction.

(** ** The packets *)

(** The packets of the transactions that are allocated. *)
Definition sent (heap : gmap Z Transaction) : list Z := tr_packet <$> (map_to_list heap).*2.

Definition task_packet (task : transaction_task) : list Z :=
  match task with TaskResponse packet _ | TaskRequest packet _ => [packet] | _ => [] end.

Definition task_packets (tasks : list transaction_task) : list Z := tasks ≫= task_packet.

(** A packet whose header was read. *)
Record readable (k : net_packet_s) : Prop := {
  rd_wf : packet_wf k;
  rd_offset : 0 <= bs_offset (pk_bitstream k) <= 5;
  rd_bound : bs_bound (pk_bitstream k) = kNetPacketMaxLen;
}.

(** A packet that is ready to be sent. *)
Definition filled (k : net_packet_s) : Prop := 0 <= bs_offset (pk_bitstream k) <= kNetPacketMaxLen.

(** The references to packets: of the transactions, of the packets that were
    received and not handled yet, and the [held] ones. *)
Record mail_holds (s : net_socket_s) (out tasks held pending : list Z) : Prop := {
  ml_socket : socket_holds s (out ++ s_delivered s ++ tasks ++ held) pending;
  ml_distinct : NoDup (out ++ s_delivered s ++ tasks ++ held);
  ml_out : forall o, o ∈ out -> exists k, s_packets s !! o = Some k /\ filled k;
  ml_delivered : forall o, o ∈ s_delivered s -> exists k, s_packets s !! o = Some k /\ unread k;
  ml_tasks : forall o, o ∈ tasks -> exists k, s_packets s !! o = Some k /\ readable k;
  ml_receiver : has_receiver (s_receiver s) = true;
}.

Lemma sent_insert heap p t : heap !! p = None -> sent (<[p := t]> heap) ≡ₚ tr_packet t :: sent heap.
Proof. intros E. unfold sent. by rewrite map_to_list_insert. Qed.

Lemma sent_delete heap p t : heap !! p = Some t -> sent heap ≡ₚ tr_packet t :: sent (delete p heap).
Proof.
  intros E. rewrite <- (insert_delete_id heap p t E) at 1. apply sent_insert, lookup_delete_eq.
Qed.

Lemma sent_update heap p t t' : heap !! p = Some t -> tr_packet t' = tr_packet t ->
  sent (<[p := t']> heap) ≡ₚ sent heap.
Proof.
  intros E Et. rewrite (sent_delete heap p t E), <- Et, <- insert_delete_eq.
  apply sent_insert, lookup_delete_eq.
Qed.

Lemma sent_in heap p t : heap !! p = Some t -> tr_packet t ∈ sent heap.
Proof. intros E. rewrite (sent_delete heap p t E). by left. Qed.

#[export] Instance mail_proper s : Proper ((≡ₚ) ==> (≡ₚ) ==> (≡ₚ) ==> (=) ==> iff) (mail_holds s).
Proof.
  assert (H : forall a a' b b' c c' p, a ≡ₚ a' -> b ≡ₚ b' -> c ≡ₚ c' -> mail_holds s a b c p -> mail_holds s a' b' c' p).
  { intros a a' b b' c c' p Pa Pb Pc [Hs Hd Ho Hu Ht Hr]. split; [| |setoid_rewrite <- Pa|done|setoid_rewrite <- Pb|]; try done.
    - apply (holds_move s s _ p _ p Hs eq_refl eq_refl); [by rewrite Pa, Pb, Pc|apply Hs|done].
    - by rewrite <- Pa, <- Pb, <- Pc. }
  intros a a' Pa b b' Pb c c' Pc p ? <-. split; apply H; done || by symmetry.
Qed.

Lemma readable_unread k : unread k -> readable k.
Proof. intros [W O B]. split; [done|lia|done]. Qed.

(** A retained packet has one more reference. *)
Lemma retain_holds s o owners pending : socket_holds s owners pending -> o ∈ owners ->
  Z.of_nat (length (references s owners pending)) + 1 < 2 ^ 32 ->
  exists s', net_packet_retain o s = Done (tt, s') /\ same_queues s s' /\
    s_packets s' = s_packets s /\ socket_holds s' (o :: owners) pending.
Proof.
  intros H Hin Hlen. pose proof H as [(p & E & Hp & Hc & Hk) Hq Hz Hs].
  assert (Hin' : o ∈ owners ++ s_blocks s ++ pending) by (apply elem_of_app; by left).
  destruct (pool_retain_holds p _ o _ Hp (counts_of_in _ _ Hin')) as (p' & Er & Hb & Hp').
  { pose proof (occurrences_length o (owners ++ s_blocks s ++ pending)). unfold references in Hlen. lia. }
  exists (set_pool p' s). unfold net_packet_retain. rewrite (on_pool_done _ s p tt p' E Er).
  split; [done|]. split; [by split|]. split; [done|].
  destruct (holds_object s owners pending o H Hin') as [Ho0 _].
  apply (holds_pool s owners pending p p' (o :: owners) H E Hb).
  - rewrite <- app_comm_cons, counts_cons, (counts_of_in _ _ Hin'). exact Hp'.
  - apply Forall_app in Hz as [Hz _]. by constructor.
Qed.

(** The queues of a socket: what was sent and has not left. *)
Definition outgoing (s : net_socket_s) (pending : list Z) : nat := length (s_blocks s ++ pending).

(** The owners are packets of the pool of 64. *)
Lemma mail_bound s out tasks held pending : mail_holds s out tasks held pending ->
  (length (references s (out ++ s_delivered s ++ tasks ++ held) pending) <= 64 + outgoing s pending)%nat.
Proof.
  intros [Hs Hd _ _ _ _]. set (owners := out ++ _) in *.
  assert (L : (length owners <= 64)%nat).
  { pose proof (in_use_bound s owners pending Hs) as B. unfold kNetPacketPoolCapacity in B.
    assert (Sub : list_to_set owners ⊆ (dom (counts_of (references s owners pending)) : gset Z)).
    { intros o Ho. apply elem_of_list_to_set in Ho. apply elem_of_dom.
      rewrite counts_of_in by (unfold references; apply elem_of_app; by left). by eexists. }
    apply subseteq_size in Sub. rewrite size_list_to_set, size_dom in Sub by done. lia. }
  unfold references, outgoing. rewrite length_app. lia.
Qed.

(** *** Moving references *)

Section Moves.
Context (s : net_socket_s) (out tasks held pending : list Z) (o : Z).

Lemma mail_hold_out : mail_holds s (o :: out) tasks held pending ->
  mail_holds s out tasks (o :: held) pending.
Proof.
  intros [Hs Hd Ho Hu Ht Hr].
  assert (P : out ++ s_delivered s ++ tasks ++ o :: held ≡ₚ (o :: out) ++ s_delivered s ++ tasks ++ held)
    by solve_Permutation.
  split; [|by rewrite P| |done..].
  - apply (holds_move s s _ pending _ pending Hs eq_refl eq_refl); [by rewrite P|apply Hs|done].
  - intros x Hx. apply Ho. by right.
Qed.

Lemma mail_keep_out : mail_holds s out tasks (o :: held) pending ->
  (exists k, s_packets s !! o = Some k /\ filled k) -> mail_holds s (o :: out) tasks held pending.
Proof.
  intros [Hs Hd Ho Hu Ht Hr] Hk.
  assert (P : (o :: out) ++ s_delivered s ++ tasks ++ held ≡ₚ out ++ s_delivered s ++ tasks ++ o :: held)
    by solve_Permutation.
  split; [|by rewrite P| |done..].
  - apply (holds_move s s _ pending _ pending Hs eq_refl eq_refl); [by rewrite P|apply Hs|done].
  - intros x Hx. apply elem_of_cons in Hx as [->|Hx]; [done|by apply Ho].
Qed.

Lemma mail_hold_task : mail_holds s out (o :: tasks) held pending ->
  mail_holds s out tasks (o :: held) pending /\ exists k, s_packets s !! o = Some k /\ readable k.
Proof.
  intros [Hs Hd Ho Hu Ht Hr]. split; [|apply Ht; by left].
  assert (P : out ++ s_delivered s ++ tasks ++ o :: held ≡ₚ out ++ s_delivered s ++ (o :: tasks) ++ held)
    by solve_Permutation.
  split; [|by rewrite P|done|done| |done].
  - apply (holds_move s s _ pending _ pending Hs eq_refl eq_refl); [by rewrite P|apply Hs|done].
  - intros x Hx. apply Ht. by right.
Qed.

Lemma mail_keep_task : mail_holds s out tasks (o :: held) pending ->
  (exists k, s_packets s !! o = Some k /\ readable k) -> mail_holds s out (o :: tasks) held pending.
Proof.
  intros [Hs Hd Ho Hu Ht Hr] Hk.
  assert (P : out ++ s_delivered s ++ (o :: tasks) ++ held ≡ₚ out ++ s_delivered s ++ tasks ++ o :: held)
    by solve_Permutation.
  split; [|by rewrite P|done|done| |done].
  - apply (holds_move s s _ pending _ pending Hs eq_refl eq_refl); [by rewrite P|apply Hs|done].
  - intros x Hx. apply elem_of_cons in Hx as [->|Hx]; [done|by apply Ht].
Qed.

End Moves.

(** A packet that was delivered is taken by the callback. *)
Lemma mail_take s out tasks held pending i o : mail_holds s out tasks held pending ->
  s_delivered s !! i = Some o ->
  mail_holds (set_delivered (delete i (s_delivered s)) s) out tasks (o :: held) pending /\
  exists k, s_packets s !! o = Some k /\ unread k.
Proof.
  intros [Hs Hd Ho Hu Ht Hr] Hi. set (s' := set_delivered _ s).
  assert (P : out ++ s_delivered s' ++ tasks ++ o :: held ≡ₚ out ++ s_delivered s ++ tasks ++ held).
  { rewrite (delete_Permutation (s_delivered s) i o Hi). cbn. solve_Permutation. }
  split; [|apply Hu; by eapply list_elem_of_lookup_2].
  split; [|by rewrite P|done| |done|done].
  - apply (holds_move s s' _ pending _ pending Hs eq_refl eq_refl); [by rewrite P|apply Hs|done].
  - intros x Hx. apply Hu. rewrite (delete_Permutation (s_delivered s) i o Hi). by right.
Qed.

(** *** What the socket does *)

Lemma mail_owned s out tasks held pending o : mail_holds s out tasks held pending ->
  o ∈ out ++ s_delivered s ++ tasks ++ held ->
  o <> 0 /\ exists k, s_packets s !! o = Some k /\ packet_wf k.
Proof.
  intros [Hs _ _ _ _ _] Hin. apply (holds_object s _ pending o Hs). apply elem_of_app. by left.
Qed.

(** The packets whose contents matter are not [o]. *)
Lemma mail_apart s out tasks held pending o : mail_holds s out tasks (o :: held) pending ->
  (o ∉ out) /\ (o ∉ s_delivered s) /\ (o ∉ tasks) /\ (o ∉ held) /\ o <> 0 /\
  exists k, s_packets s !! o = Some k /\ packet_wf k.
Proof.
  intros [Hs Hd _ _ _ _].
  destruct (holds_object s _ pending o Hs) as (Ho0 & k & Hk); [apply elem_of_app; left; set_solver|].
  assert (P : out ++ s_delivered s ++ tasks ++ o :: held ≡ₚ o :: out ++ s_delivered s ++ tasks ++ held)
    by solve_Permutation.
  rewrite P in Hd. apply NoDup_cons in Hd as [Hn _]. rewrite !not_elem_of_app in Hn. naive_solver.
Qed.

(** Only the packet [o] has changed. *)
Lemma mail_changed s s' out tasks held pending pending' o k : mail_holds s out tasks (o :: held) pending ->
  s_packets s' = <[o := k]> (s_packets s) -> s_delivered s' = s_delivered s -> s_receiver s' = s_receiver s ->
  socket_holds s' (out ++ s_delivered s ++ tasks ++ o :: held) pending' ->
  mail_holds s' out tasks (o :: held) pending'.
Proof.
  intros H Pk Ed Er H'. destruct (mail_apart _ _ _ _ _ _ H) as (N1 & N2 & N3 & _). destruct H as [_ Hd Ho Hu Ht Hr].
  assert (K : forall (l : list Z) (P : net_packet_s -> Prop), o ∉ l ->
    (forall x, x ∈ l -> exists k, s_packets s !! x = Some k /\ P k) ->
    forall x, x ∈ l -> exists k, s_packets s' !! x = Some k /\ P k).
  { intros l P Hn Hl x Hx. rewrite Pk, lookup_insert_ne by (by intros ->). by apply Hl. }
  split; rewrite ?Ed, ?Er; [done|done|by apply K|by apply K|by apply K|done].
Qed.

Lemma mail_write s out tasks held pending o k k' : mail_holds s out tasks (o :: held) pending ->
  s_packets s !! o = Some k -> packet_wf k' -> pk_length k' = pk_length k ->
  mail_holds (set_packets (<[o := k']> (s_packets s)) s) out tasks (o :: held) pending.
Proof.
  intros H E W L. apply (mail_changed s _ _ _ _ pending pending o k' H); [done..|].
  apply (holds_write s _ _ o k k' (ml_socket _ _ _ _ _ H) E W). intros Hin.
  destruct (sh_queued _ _ _ (ml_socket _ _ _ _ _ H) o Hin) as (kk & Ek & [_ Sd]).
  rewrite E in Ek. injection Ek as <-. split; [done|]. by rewrite L.
Qed.

Lemma mail_release s out tasks held pending o : mail_holds s out tasks (o :: held) pending ->
  exists s', net_packet_release o s = Done (tt, s') /\ same_queues s s' /\
    s_packets s' = s_packets s /\ mail_holds s' out tasks held pending.
Proof.
  intros [Hs Hd Ho Hu Ht Hr].
  assert (P : out ++ s_delivered s ++ tasks ++ o :: held ≡ₚ o :: out ++ s_delivered s ++ tasks ++ held)
    by solve_Permutation.
  assert (Hs' : socket_holds s (o :: out ++ s_delivered s ++ tasks ++ held) pending)
    by (apply (holds_move s s _ _ _ _ Hs eq_refl eq_refl); [by rewrite P|apply Hs|done]).
  destruct (release_holds s o _ pending Hs') as (s' & E & Q & Pk & H'). exists s'.
  split; [done|]. split; [done|]. split; [done|]. destruct Q as [Q1 Q2 Q3 Q4 Q5 Q6].
  rewrite P in Hd. apply NoDup_cons in Hd as [_ Hd]. split; rewrite ?Q3, ?Q6, ?Pk; done.
Qed.

Lemma mail_retain_release s out tasks held pending o : mail_holds s out tasks (o :: held) pending ->
  Z.of_nat (outgoing s pending) + 65 < 2 ^ 32 ->
  exists s1 s2, net_packet_retain o s = Done (tt, s1) /\ net_packet_release o s1 = Done (tt, s2) /\
    same_queues s s2 /\ s_packets s1 = s_packets s /\ s_packets s2 = s_packets s /\
    mail_holds s2 out tasks (o :: held) pending.
Proof.
  intros H Hlen. pose proof (mail_bound _ _ _ _ _ H) as B. destruct H as [Hs Hd Ho Hu Ht Hr].
  destruct (retain_holds s o _ pending Hs) as (s1 & E1 & Q1 & P1 & H1); [set_solver|lia|].
  destruct (release_holds s1 o _ pending H1) as (s2 & E2 & Q2 & P2 & H2).
  exists s1, s2. split; [done|]. split; [done|]. assert (Q : same_queues s s2) by (by etrans).
  split; [done|]. split; [done|]. rewrite P2, P1. split; [done|].
  destruct Q as [q1 q2 q3 q4 q5 q6]. split; rewrite ?q3, ?q6, ?P2, ?P1; done.
Qed.

Lemma mail_alloc s out tasks held pending : mail_holds s out tasks held pending ->
  net_packet_alloc s = Done (0, s) \/
  exists o k s', net_packet_alloc s = Done (o, s') /\ o <> 0 /\ same_queues s s' /\ packet_wf k /\
    s_packets s' = <[o := net_packet_init k]> (s_packets s) /\ (o ∉ s_blocks s ++ pending) /\
    mail_holds s' out tasks (o :: held) pending.
Proof.
  intros [Hs Hd Ho Hu Ht Hr]. destruct (alloc_holds s _ pending Hs) as (o & s' & E & Q & A).
  destruct (_ =? _); [left; by destruct A as [-> ->]|right].
  destruct A as (Ho0 & Hn & H' & k & W & Pk). exists o, k, s'.
  unfold references in Hn. apply not_elem_of_app in Hn as [Hn Hn'].
  do 6 (split; [done|]). destruct Q as [q1 q2 q3 q4 q5 q6].
  assert (P : out ++ s_delivered s ++ tasks ++ o :: held ≡ₚ o :: out ++ s_delivered s ++ tasks ++ held)
    by solve_Permutation.
  assert (Hs' : socket_holds s' (out ++ s_delivered s' ++ tasks ++ o :: held) pending).
  { rewrite q3. apply (holds_move s' s' _ _ _ _ H' eq_refl eq_refl); [by rewrite P|apply H'|done]. }
  assert (K : forall (l : list Z) (P : net_packet_s -> Prop), (forall x, x ∈ l -> x <> o) ->
    (forall x, x ∈ l -> exists k, s_packets s !! x = Some k /\ P k) ->
    forall x, x ∈ l -> exists k, s_packets s' !! x = Some k /\ P k).
  { intros l Q Hne Hl x Hx. rewrite Pk, lookup_insert_ne by (by apply not_eq_sym, Hne). by apply Hl. }
  split; [done| | | | |by rewrite q6]; rewrite ?q3.
  - rewrite P. by apply NoDup_cons.
  - apply K; [|done]. intros x Hx ->. apply Hn. set_solver.
  - apply K; [|done]. intros x Hx ->. apply Hn. set_solver.
  - apply K; [|done]. intros x Hx ->. apply Hn. set_solver.
Qed.

Lemma mail_send s out tasks held pending o k : mail_holds s out tasks (o :: held) pending ->
  s_packets s !! o = Some k -> filled k -> Z.of_nat (outgoing s pending) + 65 < 2 ^ 32 ->
  let k' := mkPacket (pk_addr k) (bs_offset (pk_bitstream k)) (pk_bitstream k) in
  exists s', net_socket_send o s = Done (tt, s') /\ mail_holds s' out tasks (o :: held) pending /\
    s_packets s' = <[o := k']> (s_packets s) /\ s_delivered s' = s_delivered s /\ s_wire s' = s_wire s /\
    s_blocks s' = s_blocks s ++ (if 0 <? bs_offset (pk_bitstream k) then [o] else []).
Proof.
  intros H E F Hlen k'. pose proof (mail_bound _ _ _ _ _ H) as B.
  destruct (send_holds s o _ pending k (ml_socket _ _ _ _ _ H)) as (s' & E' & H' & Pk & _ & Bk & W & D & _ & R);
    [set_solver|done|done|lia|].
  exists s'. split; [done|]. split; [|done]. by apply (mail_changed s s' _ _ _ pending pending o k').
Qed.

(** A packet that was not referenced has changed: nothing else has. *)
Lemma mail_others s s' out tasks held pending o k : mail_holds s out tasks held pending ->
  o ∉ out ++ s_delivered s ++ tasks ++ held -> s_packets s' = <[o := k]> (s_packets s) ->
  (forall x, x ∈ out -> exists k, s_packets s' !! x = Some k /\ filled k) /\
  (forall x, x ∈ s_delivered s -> exists k, s_packets s' !! x = Some k /\ unread k) /\
  (forall x, x ∈ tasks -> exists k, s_packets s' !! x = Some k /\ readable k).
Proof.
  intros [_ _ Ho Hu Ht _] Hn Pk.
  assert (K : forall (l : list Z) (P : net_packet_s -> Prop), (forall x, x ∈ l -> x <> o) ->
    (forall x, x ∈ l -> exists k, s_packets s !! x = Some k /\ P k) ->
    forall x, x ∈ l -> exists k, s_packets s' !! x = Some k /\ P k).
  { intros l P Hne Hl x Hx. rewrite Pk, lookup_insert_ne by (by apply not_eq_sym, Hne). by apply Hl. }
  split; [|split]; (apply K; [intros x Hx ->; apply Hn; set_solver|done]).
Qed.

(** A datagram is delivered in a packet that was free. *)
Lemma mail_arrives s s' out tasks held pending o k : mail_holds s out tasks held pending ->
  o ∉ out ++ s_delivered s ++ tasks ++ held -> s_packets s' = <[o := k]> (s_packets s) -> unread k ->
  s_delivered s' = s_delivered s ++ [o] -> s_receiver s' = s_receiver s ->
  socket_holds s' (o :: out ++ s_delivered s ++ tasks ++ held) pending -> mail_holds s' out tasks held pending.
Proof.
  intros H Hn Pk U Ed Er H'. destruct (mail_others s s' _ _ _ _ o k H Hn Pk) as (K1 & K2 & K3).
  destruct H as [_ Hd _ _ _ Hr].
  assert (P : out ++ s_delivered s' ++ tasks ++ held ≡ₚ o :: out ++ s_delivered s ++ tasks ++ held)
    by (rewrite Ed; solve_Permutation).
  split; rewrite ?Er; try done; [|by rewrite P; apply NoDup_cons|].
  - apply (holds_move s' s' _ _ _ _ H' eq_refl eq_refl); [by rewrite P|apply H'|done].
  - intros x Hx. rewrite Ed in Hx. apply elem_of_app in Hx as [Hx|Hx]; [by apply K2|].
    apply list_elem_of_singleton in Hx as ->. rewrite Pk, lookup_insert_eq. by exists k.
Qed.

Lemma mail_datagram s out tasks held pending addr bytes : mail_holds s out tasks held pending ->
  Forall byte bytes ->
  exists s' held', read_event (Some (addr, bytes)) s = Done (tt, s') /\
    mail_holds s' out tasks held' pending /\ s_blocks s' = s_blocks s.
Proof.
  intros H By. pose proof H as [Hs Hd _ _ _ Hr].
  destruct (read_event_holds s _ pending (Some (addr, bytes)) Hs By) as (s' & E & Ep & Eb & _ & Er & A).
  rewrite Hr, andb_true_r in A. destruct (exhausted _ _ _); [exists s, held; subst s'; by split|].
  destruct A as (o & k & Ho0 & Hn & Pk & H' & Ed & Hh).
  unfold references in Hn. apply not_elem_of_app in Hn as [Hn _].
  destruct (mail_others s s' _ _ _ _ o k H Hn Pk) as (K1 & K2 & K3).
  destruct (fits (Some (addr, bytes))) eqn:F; cbn [andb] in Ed; [destruct (empty (Some (addr, bytes))); cbn [negb] in Ed|].
  - rewrite app_nil_r in Ed. exists s', (o :: held). split; [done|]. split; [|done].
    assert (P : out ++ s_delivered s ++ tasks ++ o :: held ≡ₚ o :: out ++ s_delivered s ++ tasks ++ held)
      by solve_Permutation.
    split; rewrite ?Ed, ?Er; try done; [|by rewrite P; apply NoDup_cons].
    apply (holds_move s' s' _ _ _ _ H' eq_refl eq_refl); [by rewrite P|apply H'|done].
  - exists s', held. split; [done|]. split; [|done]. by apply (mail_arrives s s' _ _ _ _ o k); [..|apply Hh|done|done|].
  - rewrite app_nil_r in Ed. exists s', held. split; [done|]. split; [|done].
    split; rewrite ?Ed, ?Er; done.
Qed.

Lemma mail_quiet s s' out tasks held pending pending' : mail_holds s out tasks held pending ->
  socket_holds s' (out ++ s_delivered s ++ tasks ++ held) pending' ->
  s_packets s' = s_packets s -> s_delivered s' = s_delivered s -> s_receiver s' = s_receiver s ->
  mail_holds s' out tasks held pending'.
Proof. intros [Hs Hd Ho Hu Ht Hr] H' Ep Ed Er. split; rewrite ?Ep, ?Ed, ?Er; done. Qed.

Section Malloc.
Context (malloc : gmap Z queue_node_s -> option (Z * queue_node_s)).
Hypothesis malloc_new : malloc_fresh malloc.
Hypothesis malloc_ok : forall h, malloc h <> None.

Lemma mail_block s out tasks held pending : mail_holds s out tasks held pending ->
  exists s' pending', run_send_block malloc s = Done (tt, s') /\ mail_holds s' out tasks held pending' /\
    outgoing s' pending' = outgoing s pending.
Proof.
  intros H. destruct (s_blocks s) as [|o blocks] eqn:Eb.
  { exists s, pending. unfold run_send_block. by rewrite bind_get, Eb. }
  destruct (block_holds malloc malloc_new malloc_ok s o blocks _ pending (ml_socket _ _ _ _ _ H) Eb) as
    (s' & E & H' & B & Pk & _ & D & R & _).
  exists s', (pending ++ [o]). split; [done|]. split; [by apply (mail_quiet s s' _ _ _ pending)|].
  unfold outgoing. rewrite B, Eb, !length_app. cbn. lia.
Qed.

Lemma mail_writable s out tasks held pending : mail_holds s out tasks held pending ->
  exists s', write_event s = Done (tt, s') /\ mail_holds s' out tasks held [] /\
    (outgoing s' [] <= outgoing s pending)%nat.
Proof.
  intros H. destruct (write_event_holds s _ pending (ml_socket _ _ _ _ _ H)) as (s' & E & H' & [S1 S2 S3 S4] & _ & _).
  exists s'. split; [done|]. split; [by apply (mail_quiet s s' _ _ _ pending)|].
  unfold outgoing. rewrite S2, !length_app. cbn. lia.
Qed.

Lemma mail_flush s out tasks held pending : mail_holds s out tasks held pending ->
  exists s', flush malloc s = Done (tt, s') /\ mail_holds s' out tasks held [] /\ s_blocks s' = [] /\
    s_packets s' = s_packets s /\ s_delivered s' = s_delivered s /\
    s_wire s' = s_wire s ++ ((pending ++ s_blocks s) ≫= datagram (s_packets s)).
Proof.
  intros H. destruct (flush_holds malloc malloc_new malloc_ok s _ pending (ml_socket _ _ _ _ _ H)) as
    (s' & E & H' & B & _ & W & Pk & D & R).
  exists s'. split; [done|]. split; [by apply (mail_quiet s s' _ _ _ pending)|done].
Qed.

End Malloc.

(** ** The timers *)

(** A timer and the transaction it belongs to. *)
Definition armed (p : Z) (d : Z) : source := mkSource 1 true d kLEEWAY 0 p.

(** [flight] tells the transactions whose timer has run its block and not yet
    ended its handler: such a timer does not fire any more, and is still
    there. *)
Definition timer_of (flight : Z -> bool) (p d : Z) : source := mkSource 1 (negb (flight p)) d kLEEWAY 0 p.

Definition no_flight : Z -> bool := fun _ => false.

Definition take_off (p : Z) (flight : Z -> bool) : Z -> bool := fun q => (q =? p) || flight q.
Definition land (p : Z) (flight : Z -> bool) : Z -> bool := fun q => negb (q =? p) && flight q.

(** No handler runs for a transaction, nor for any that a table holds. *)
Class Grounded (flight : Z -> bool) (p : Z) : Prop := grounded : flight p = false.
Class AllGrounded (flight : Z -> bool) (m : gmap Z Z) : Prop :=
  all_grounded : forall id p, m !! id = Some p -> flight p = false.

#[export] Hint Mode Grounded ! - : typeclass_instances.
#[export] Hint Mode AllGrounded ! - : typeclass_instances.

#[export] Instance no_flight_grounded p : Grounded no_flight p.
Proof. done. Qed.
#[export] Instance no_flight_all_grounded m : AllGrounded no_flight m.
Proof. done. Qed.
#[export] Instance delete_all_grounded flight id m : AllGrounded flight m -> AllGrounded flight (delete id m).
Proof. intros H k p E. apply lookup_delete_Some in E as [_ E]. by apply (H k). Qed.

(** Every timer belongs to one transaction, which knows it. *)
Record timers_hold (flight : Z -> bool) (heap : gmap Z Transaction) (sources : gmap Z source) : Prop := {
  tm_source : forall src x, sources !! src = Some x -> exists p t d, heap !! p = Some t /\
    tr_timeout t = mkTimeout src true /\ x = timer_of flight p d;
  tm_valid : forall p t, heap !! p = Some t -> valid (tr_timeout t) = true ->
    timerDispatchSource (tr_timeout t) <> 0 /\
    exists d, sources !! timerDispatchSource (tr_timeout t) = Some (timer_of flight p d);
  tm_flight : forall p, flight p = true -> exists t, heap !! p = Some t /\ valid (tr_timeout t) = true;
}.

(** The timeout of one transaction, and the other timers. *)
Definition others (t : Transaction) (sources : gmap Z source) : gmap Z source :=
  if valid (tr_timeout t) then delete (timerDispatchSource (tr_timeout t)) sources else sources.

Section Timers.
Context {flight : Z -> bool}.

(** Two transactions do not share a timer. *)
Lemma timers_apart heap sources p t p' t' : timers_hold flight heap sources ->
  heap !! p = Some t -> valid (tr_timeout t) = true -> heap !! p' = Some t' -> valid (tr_timeout t') = true ->
  p <> p' -> timerDispatchSource (tr_timeout t) <> timerDispatchSource (tr_timeout t').
Proof.
  intros [_ Hv _] E V E' V' Hne Eq. destruct (Hv p t E V) as (_ & d & Ed). destruct (Hv p' t' E' V') as (_ & d' & Ed').
  rewrite Eq, Ed' in Ed. by injection Ed as _ _ <-.
Qed.

(** A transaction that is not allocated has no timer. *)
Lemma timers_new heap sources p : timers_hold flight heap sources -> heap !! p = None -> Grounded flight p.
Proof.
  intros [_ _ Hf] E. unfold Grounded. destruct (flight p) eqn:F; [|done].
  destruct (Hf p F) as (t & Et & _). congruence.
Qed.

Lemma timers_one heap sources p t `{!Grounded flight p} : timers_hold flight heap sources -> heap !! p = Some t ->
  exists d, timeout_holds (mkTimeoutState (tr_timeout t) sources) (others t sources)
    (if valid (tr_timeout t) then Some (d, 0, p) else None).
Proof.
  intros [_ Hv _] E. unfold others, timeout_holds. destruct (valid (tr_timeout t)) eqn:V; [|by exists 0].
  destruct (Hv p t E V) as (H0 & d & Ed). exists d. cbn. split; [done|]. split; [done|].
  split; [apply lookup_delete_eq|]. rewrite insert_delete_eq, insert_id; [done|].
  rewrite Ed. unfold timer_of. by rewrite grounded.
Qed.

(** Without its timer. *)
Lemma timers_drop heap sources p t t' : timers_hold flight heap sources -> heap !! p = Some t ->
  valid (tr_timeout t') = false -> timers_hold (land p flight) (<[p := t']> heap) (others t sources).
Proof.
  intros H E V'. pose proof H as [Hs Hv Hf].
  assert (L : forall q d, q <> p -> timer_of (land p flight) q d = timer_of flight q d).
  { intros q d Hne. unfold timer_of, land. by rewrite (proj2 (Z.eqb_neq q p)). }
  split.
  - intros src x Ex. assert (Ex' : sources !! src = Some x /\
      (valid (tr_timeout t) = true -> timerDispatchSource (tr_timeout t) <> src)).
    { unfold others in Ex. destruct (valid (tr_timeout t)) eqn:V; [|done].
      apply lookup_delete_Some in Ex as [Hne Ex]. done. }
    destruct Ex' as [Ex' Hne]. destruct (Hs src x Ex') as (q & u & d & Eq & Eu & ->). exists q, u, d.
    assert (p <> q). { intros <-. rewrite E in Eq. injection Eq as <-. rewrite Eu in Hne. by apply Hne. }
    by rewrite lookup_insert_ne, L.
  - intros q u Eq V. apply lookup_insert_Some in Eq as [[<- <-]|[Hne Eq]]; [congruence|].
    destruct (Hv q u Eq V) as (H0 & d & Ed). split; [done|]. exists d. rewrite L by done. unfold others.
    destruct (valid (tr_timeout t)) eqn:Vt; [|done]. rewrite lookup_delete_ne; [done|].
    by apply (timers_apart heap sources p t q u).
  - intros q F. apply andb_true_iff in F as [Hne F]. apply negb_true_iff, Z.eqb_neq in Hne.
    destruct (Hf q F) as (u & Eu & Vu). exists u. by rewrite lookup_insert_ne.
Qed.

(** Only the value of [flight] matters. *)
Lemma timers_flight flight' heap sources : (forall p, flight' p = flight p) ->
  timers_hold flight heap sources -> timers_hold flight' heap sources.
Proof.
  intros E [Hs Hv Hf]. assert (L : forall p d, timer_of flight' p d = timer_of flight p d)
    by (intros p d; unfold timer_of; by rewrite E).
  split; [intros src x Ex|intros p t Et V|intros p F; rewrite E in F; by apply Hf].
  - destruct (Hs src x Ex) as (p & t & d & H1 & H2 & ->). exists p, t, d. by rewrite L.
  - destruct (Hv p t Et V) as (H0 & d & Ed). split; [done|]. exists d. by rewrite L.
Qed.

Lemma timers_stop heap sources p t t' `{!Grounded flight p} : timers_hold flight heap sources -> heap !! p = Some t ->
  valid (tr_timeout t') = false -> timers_hold flight (<[p := t']> heap) (others t sources).
Proof.
  intros H E V'. pose proof (timers_drop heap sources p t t' H E V') as [Hs Hv Hf].
  assert (L : forall q, land p flight q = flight q).
  { intros q. unfold land. destruct (Z.eqb_spec q p) as [->|]; [by rewrite grounded|done]. }
  assert (L' : forall q d, timer_of (land p flight) q d = timer_of flight q d) by (intros q d; unfold timer_of; by rewrite L).
  split; [intros src x Ex|intros q u Eq V|intros q F; rewrite <- L in F; by apply Hf].
  - destruct (Hs src x Ex) as (q & u & d & H1 & H2 & ->). exists q, u, d. by rewrite L'.
  - destruct (Hv q u Eq V) as (H0 & d & Ed). split; [done|]. exists d. by rewrite <- L'.
Qed.

(** With a new one. *)
Lemma timers_start heap sources p t t' src d `{!Grounded flight p} : timers_hold flight heap sources ->
  heap !! p = Some t -> valid (tr_timeout t) = false -> src <> 0 -> sources !! src = None ->
  tr_timeout t' = mkTimeout src true ->
  timers_hold flight (<[p := t']> heap) (<[src := armed p d]> sources).
Proof.
  intros [Hs Hv Hf] E V H0 En Et'.
  assert (A : armed p d = timer_of flight p d) by (unfold timer_of; by rewrite grounded). split.
  - intros s x Ex. apply lookup_insert_Some in Ex as [[<- <-]|[Hne Ex]].
    + exists p, t', d. by rewrite lookup_insert_eq.
    + destruct (Hs s x Ex) as (q & u & e & Eq & Eu & ->). exists q, u, e.
      rewrite lookup_insert_ne; [done|]. intros <-. rewrite E in Eq. injection Eq as <-. by rewrite Eu in V.
  - intros q u Eq Vu. apply lookup_insert_Some in Eq as [[<- <-]|[Hne Eq]].
    + rewrite Et'. cbn. split; [done|]. exists d. rewrite <- A. apply lookup_insert_eq.
    + destruct (Hv q u Eq Vu) as (Hu & e & Ee). split; [done|]. exists e. rewrite lookup_insert_ne; [done|].
      intros ->. congruence.
  - intros q F. destruct (Hf q F) as (u & Eu & Vu). exists u. rewrite lookup_insert_ne; [done|].
    intros <-. by rewrite grounded in F.
Qed.

(** The timer of a transaction fires: its handler runs. *)
Lemma timers_fire heap sources p t d : timers_hold flight heap sources -> heap !! p = Some t ->
  valid (tr_timeout t) = true -> timers_hold (take_off p flight) heap
    (<[timerDispatchSource (tr_timeout t) := mkSource 1 false d kLEEWAY 0 p]> sources).
Proof.
  intros H E V. pose proof H as [Hs Hv Hf].
  assert (L : forall q d, q <> p -> timer_of (take_off p flight) q d = timer_of flight q d).
  { intros q e Hne. unfold timer_of, take_off. by rewrite (proj2 (Z.eqb_neq q p)). }
  assert (Lp : timer_of (take_off p flight) p d = mkSource 1 false d kLEEWAY 0 p)
    by (unfold timer_of, take_off; by rewrite Z.eqb_refl).
  split.
  - intros src x Ex. apply lookup_insert_Some in Ex as [[<- <-]|[Hne Ex]].
    + exists p, t, d. split; [done|]. split; [destruct (tr_timeout t); cbn in *; by subst|done].
    + destruct (Hs src x Ex) as (q & u & e & Eq & Eu & ->). exists q, u, e. split; [done|]. split; [done|].
      rewrite L; [done|]. intros ->. rewrite E in Eq. injection Eq as <-. by rewrite Eu in Hne.
  - intros q u Eq Vu. destruct (decide (q = p)) as [->|Hne].
    + rewrite E in Eq. injection Eq as <-. split; [apply (Hv p t E V)|]. exists d. by rewrite Lp, lookup_insert_eq.
    + destruct (Hv q u Eq Vu) as (H0 & e & Ee). split; [done|]. exists e. rewrite L, lookup_insert_ne; [done| |done].
      apply (timers_apart heap sources p t q u H E V Eq Vu). by apply not_eq_sym.
  - intros q F. unfold take_off in F. destruct (decide (q = p)) as [->|Hne]; [by exists t|].
    rewrite (proj2 (Z.eqb_neq q p)) in F by done. by apply Hf.
Qed.

(** The same timers, when a transaction changes but not its timeout ... *)
Lemma timers_update heap sources p t t' : timers_hold flight heap sources -> heap !! p = Some t ->
  tr_timeout t' = tr_timeout t -> timers_hold flight (<[p := t']> heap) sources.
Proof.
  intros [Hs Hv Hf] E Et. split.
  - intros s x Ex. destruct (Hs s x Ex) as (q & u & d & Eq & Eu & ->). destruct (decide (p = q)) as [<-|Hne].
    + exists p, t', d. rewrite lookup_insert_eq. split; [done|]. split; [|done]. rewrite Et. congruence.
    + exists q, u, d. by rewrite lookup_insert_ne.
  - intros q u Eq V. apply lookup_insert_Some in Eq as [[<- <-]|[Hne Eq]]; [rewrite Et in *|]; by apply Hv.
  - intros q F. destruct (Hf q F) as (u & Eu & Vu). destruct (decide (p = q)) as [<-|Hne].
    + exists t'. rewrite lookup_insert_eq, Et. split; [done|]. congruence.
    + exists u. by rewrite lookup_insert_ne.
Qed.

(** ... when one is allocated, and when one without a timer is freed. *)
Lemma timers_alloc heap sources p t : timers_hold flight heap sources -> heap !! p = None ->
  valid (tr_timeout t) = false -> timers_hold flight (<[p := t]> heap) sources.
Proof.
  intros [Hs Hv Hf] E V. split.
  - intros s x Ex. destruct (Hs s x Ex) as (q & u & d & Eq & Eu & ->). exists q, u, d.
    rewrite lookup_insert_ne; [done|]. intros <-. congruence.
  - intros q u Eq Vu. apply lookup_insert_Some in Eq as [[<- <-]|[Hne Eq]]; [congruence|by apply Hv].
  - intros q F. destruct (Hf q F) as (u & Eu & Vu). exists u. rewrite lookup_insert_ne; [done|]. intros <-. congruence.
Qed.

Lemma timers_free heap sources p t : timers_hold flight heap sources -> heap !! p = Some t ->
  valid (tr_timeout t) = false -> timers_hold flight (delete p heap) sources.
Proof.
  intros [Hs Hv Hf] E V. split.
  - intros s x Ex. destruct (Hs s x Ex) as (q & u & d & Eq & Eu & ->). exists q, u, d.
    rewrite lookup_delete_ne; [done|]. intros <-. rewrite E in Eq. injection Eq as <-. by rewrite Eu in V.
  - intros q u Eq Vu. apply lookup_delete_Some in Eq as [_ Eq]. by apply Hv.
  - intros q F. destruct (Hf q F) as (u & Eu & Vu). exists u. rewrite lookup_delete_ne; [done|]. intros <-. congruence.
Qed.

End Timers.

(** ** The table of pending transactions *)

Definition task_insert (task : transaction_task) : list (Z * Z) :=
  match task with TaskInsert id transaction => [(id, transaction)] | _ => [] end.

(** The transactions that are not in the table yet. *)
Definition inserts (tasks : list transaction_task) : list (Z * Z) := tasks ≫= task_insert.

Definition task_id (task : transaction_task) : Z :=
  match task with
  | TaskInsert id _ | TaskResponse _ id | TaskRequest _ id | TaskRetry id => id
  | TaskEnable | TaskDisable => 0
  end.

(** A transaction at rest: it waits for its response. *)
Record transaction_wf (p : Z) (t : Transaction) : Prop := {
  tw_address : p <> 0;
  tw_state : tr_state t = TransactionWaiting;
  tw_id : 0 <= tr_id t < kTransactionMaxId;
  tw_retries : 0 <= tr_retries t <= kTransactionMaxRetries;
  tw_block : tr_timeoutBlock t = p;
}.

Record ledger_holds (table : hashtable_s) (heap : gmap Z Transaction) (tasks : list transaction_task)
    (m : gmap Z Z) : Prop := {
  lg_table : hashtable_holds table m;
  lg_max : ht_max_key table = kTransactionMaxId;
  lg_heap : forall p t, heap !! p = Some t -> transaction_wf p t;
  lg_entries : forall id p, m !! id = Some p -> exists t, heap !! p = Some t /\ tr_id t = id;
  lg_inserts : forall id p, (id, p) ∈ inserts tasks ->
    (exists t, heap !! p = Some t /\ tr_id t = id) /\ m !! id <> Some p;
  lg_once : NoDup (inserts tasks).*2;
  lg_ids : Forall (fun task => 0 <= task_id task) tasks;
}.

Lemma inserts_app l k : inserts (l ++ k) = inserts l ++ inserts k.
Proof. apply bind_app. Qed.

Lemma task_packets_app l k : task_packets (l ++ k) = task_packets l ++ task_packets k.
Proof. apply bind_app. Qed.

Section Ledger.
Context (table : hashtable_s) (heap : gmap Z Transaction) (tasks : list transaction_task) (m : gmap Z Z).

Lemma ledger_update p t t' : ledger_holds table heap tasks m -> heap !! p = Some t ->
  transaction_wf p t' -> tr_id t' = tr_id t -> ledger_holds table (<[p := t']> heap) tasks m.
Proof.
  intros [Hh Hm Ht He Hi Ho Hn] E W Ei. 
  assert (K : forall q id, (exists u, heap !! q = Some u /\ tr_id u = id) ->
    exists u, <[p := t']> heap !! q = Some u /\ tr_id u = id).
  { intros q id (u & Eu & Eid). destruct (decide (p = q)) as [<-|Hne].
    - exists t'. rewrite lookup_insert_eq. split; [done|]. rewrite E in Eu. injection Eu as <-. congruence.
    - exists u. by rewrite lookup_insert_ne. }
  split; try done.
  - intros q u Eq. apply lookup_insert_Some in Eq as [[<- <-]|[_ Eq]]; [done|by apply Ht].
  - intros id q Eq. by apply K, He.
  - intros id q Hq. destruct (Hi id q Hq) as [Hq1 Hq2]. split; [by apply K|done].
Qed.

(** A request: its transaction is allocated and its insertion dispatched. *)
Lemma ledger_request p t : ledger_holds table heap tasks m -> heap !! p = None -> transaction_wf p t ->
  ledger_holds table (<[p := t]> heap) (tasks ++ [TaskInsert (tr_id t) p]) m.
Proof.
  intros [Hh Hm Ht He Hi Ho Hn] E W.
  assert (K : forall q id, (exists u, heap !! q = Some u /\ tr_id u = id) ->
    exists u, <[p := t]> heap !! q = Some u /\ tr_id u = id).
  { intros q id (u & Eu & Eid). exists u. rewrite lookup_insert_ne; [done|]. intros <-. congruence. }
  split; try done.
  - intros q u Eq. apply lookup_insert_Some in Eq as [[<- <-]|[_ Eq]]; [done|by apply Ht].
  - intros id q Eq. by apply K, He.
  - intros id q Hq. rewrite inserts_app in Hq. apply elem_of_app in Hq as [Hq|Hq].
    + destruct (Hi id q Hq) as [Hq1 Hq2]. split; [by apply K|done].
    + cbn in Hq. apply list_elem_of_singleton in Hq as [= -> ->]. split; [exists t; by rewrite lookup_insert_eq|].
      intros Eq. destruct (He _ _ Eq) as (u & Eu & _). congruence.
  - rewrite inserts_app, fmap_app. cbn. apply NoDup_app. split; [done|]. split; [|apply NoDup_singleton].
    intros x Hq Hx. apply list_elem_of_singleton in Hx as ->.
    apply list_elem_of_fmap in Hq as ([id q] & -> & Hq). destruct (Hi id _ Hq) as [(u & Eu & _) _]. cbn in *. congruence.
  - apply Forall_app. split; [done|]. constructor; [|done]. apply (tw_id _ _ W).
Qed.

(** The first insertion is done. *)
Lemma ledger_insert id p : ledger_holds table heap (TaskInsert id p :: tasks) m ->
  exists table', hashtable_insert id p table = Done (tt, table') /\
    ledger_holds table' heap tasks (<[id := p]> m).
Proof.
  intros [Hh Hm Ht He Hi Ho Hn]. destruct (Hi id p ltac:(by left)) as [(t & Et & Eid) _].
  pose proof (Ht p t Et) as W. pose proof (tw_id _ _ W) as Hid. rewrite Eid in Hid.
  destruct (hashtable_insert_holds table m id p Hh) as (table' & E & Em & H'); [lia|].
  exists table'. split; [done|]. rewrite Hm in H'. rewrite (proj2 (Z.leb_le id kTransactionMaxId)) in H' by lia.
  unfold map_store in H'. rewrite decide_False in H' by apply (tw_address _ _ W).
  change (inserts (TaskInsert id p :: tasks)) with ((id, p) :: inserts tasks) in *.
  apply Forall_cons in Hn as [_ Hn]. cbn [fmap list_fmap] in Ho. apply NoDup_cons in Ho as [Hp Ho].
  split; [done|congruence|done| | |done|done].
  - intros k q Ek. apply lookup_insert_Some in Ek as [[<- <-]|[_ Ek]]; [by exists t|by apply He].
  - intros k q Hq. destruct (Hi k q) as [Hq1 Hq2]; [by right|]. split; [done|].
    intros Ek. apply lookup_insert_Some in Ek as [[<- <-]|[_ Ek]]; [|done].
    apply Hp, list_elem_of_fmap. by exists (id, p).
Qed.

(** Another first task leaves the queue; one is added. *)
Lemma ledger_pop task : ledger_holds table heap (task :: tasks) m -> task_insert task = [] ->
  ledger_holds table heap tasks m /\ 0 <= task_id task.
Proof.
  intros [Hh Hm Ht He Hi Ho Hn] E. unfold inserts in Hi, Ho. cbn [mbind list_bind] in Hi, Ho. rewrite E in Hi, Ho.
  apply Forall_cons in Hn as [Hid Hn]. by split.
Qed.

Lemma ledger_push task : ledger_holds table heap tasks m -> task_insert task = [] -> 0 <= task_id task ->
  ledger_holds table heap (tasks ++ [task]) m.
Proof.
  intros [Hh Hm Ht He Hi Ho Hn] E Hid.
  assert (Q : inserts (tasks ++ [task]) = inserts tasks).
  { rewrite inserts_app. unfold inserts at 2. cbn. by rewrite E, !app_nil_r. }
  split; rewrite ?Q; try done. apply Forall_app. split; [done|]. by constructor.
Qed.

(** A transaction of the table is deleted and freed. *)
Lemma ledger_delete id p : ledger_holds table heap tasks m -> m !! id = Some p ->
  exists table', hashtable_delete id table = Done (tt, table') /\
    ledger_holds table' (delete p heap) tasks (delete id m).
Proof.
  intros [Hh Hm Ht He Hi Ho Hn] E. destruct (He id p E) as (t & Et & Eid).
  pose proof (tw_id _ _ (Ht p t Et)) as Hid. rewrite Eid in Hid.
  destruct (hashtable_delete_holds table m id Hh) as (table' & Ed & Em & H'); [lia|].
  exists table'. split; [done|]. split; [done|congruence| | | |done|done].
  - intros q u Eq. apply lookup_delete_Some in Eq as [_ Eq]. by apply Ht.
  - intros k q Ek. apply lookup_delete_Some in Ek as [Hne Ek]. destruct (He k q Ek) as (u & Eu & Ei).
    exists u. rewrite lookup_delete_ne; [done|]. intros <-. congruence.
  - intros k q Hq. destruct (Hi k q Hq) as [(u & Eu & Ei) Hq2]. split.
    + exists u. rewrite lookup_delete_ne; [done|]. intros <-. congruence.
    + intros Ek. by apply lookup_delete_Some in Ek as [_ Ek].
Qed.

Lemma ledger_search id : ledger_holds table heap tasks m -> 0 <= id ->
  hashtable_search table id = Done (default 0 (m !! id)).
Proof. intros [Hh _ _ _ _ _ _]. by apply hashtable_search_holds. Qed.

End Ledger.
