(* ===== verification/TransactionStep.v ===== *)
(** * What the operations on transactions do

    The invariant of a whole configuration, and each operation, task and
    event as a step that keeps it. *)
From S2P Require Import Prelude Bitstream Wire Fields Net Protocol TransactionProtocol TransactionProtocolSpec.
From S2P Require Import Hashtable Queue Pool NetSocket NetSocketSpec Timeout Transaction TransactionSpec.

(** [m] is the table of pending transactions, [held] are packets that nobody
    will release, [pending] those in the queue of the socket; [flight] tells
    the transactions whose timer runs its handler. *)
Record flight_holds (flight : Z -> bool) (c : TransactionConfiguration) (m : gmap Z Z) (held pending : list Z) : Prop := {
  th_mail : mail_holds (t_socket c) (sent (t_heap c)) (task_packets (t_queue c)) held pending;
  th_ledger : ledger_holds (t_transactions c) (t_heap c) (t_queue c) m;
  th_timers : timers_hold flight (t_heap c) (t_sources c);
  th_cseq : 0 <= t_cseq c < kTransactionMaxId;
}.

Arguments th_mail {flight} c m held pending _.
Arguments th_ledger {flight} c m held pending _.
Arguments th_timers {flight} c m held pending _.
Arguments th_cseq {flight} c m held pending _.

(** No handler runs. *)
Abbreviation trans_holds := (flight_holds no_flight).

(** ** The parts of a configuration *)

Lemma trans_socket_done {A} (m : prog net_socket_s A) c a s : m (t_socket c) = Done (a, s) ->
  on_socket m c = Done (a, set_socket s c).
Proof. intros E. unfold on_socket. by rewrite E. Qed.

Lemma on_socket_fault {A} (m : prog net_socket_s A) c f : m (t_socket c) = Fault f ->
  on_socket m c = Fault f.
Proof. intros E. unfold on_socket. by rewrite E. Qed.

Lemma on_table_done {A} (m : prog hashtable_s A) c a h : m (t_transactions c) = Done (a, h) ->
  on_table m c = Done (a, set_table h c).
Proof. intros E. unfold on_table. by rewrite E. Qed.

Lemma get_transaction_done c p t : p <> 0 -> t_heap c !! p = Some t ->
  get_transaction p c = Done (t, c).
Proof. intros Hp E. unfold get_transaction. by rewrite (proj2 (Z.eqb_neq p 0)), E. Qed.

Lemma on_transaction_done c p t f : p <> 0 -> t_heap c !! p = Some t ->
  on_transaction p f c = Done (tt, set_heap (<[p := f t]> (t_heap c)) c).
Proof. intros Hp E. unfold on_transaction. by rewrite (bind_done _ _ _ _ _ (get_transaction_done c p t Hp E)). Qed.

Lemma on_timeout_done {A} c p t (m : prog timeout_state A) a s : p <> 0 -> t_heap c !! p = Some t ->
  m (mkTimeoutState (tr_timeout t) (t_sources c)) = Done (a, s) ->
  on_timeout p m c = Done (a, set_timers (ts_sources s)
    (set_heap (<[p := with_timeout (ts_timeout s) t]> (t_heap c)) c)).
Proof.
  intros Hp E Em. unfold on_timeout. rewrite (bind_done _ _ _ _ _ (get_transaction_done c p t Hp E)).
  by rewrite Em.
Qed.

(** ** Timers *)

Definition stopped (t : Transaction) : Transaction :=
  with_timeout (mkTimeout (timerDispatchSource (tr_timeout t)) false) t.

Lemma destroy_timeout_done {flight} c p t `{!Grounded flight p} : timers_hold flight (t_heap c) (t_sources c) -> p <> 0 ->
  t_heap c !! p = Some t ->
  transactionDestroyTimeout p c = Done (tt, set_timers (others t (t_sources c))
    (set_heap (<[p := stopped t]> (t_heap c)) c)).
Proof.
  intros H Hp E. destruct (timers_one _ _ p t H E) as (d & Ht).
  unfold transactionDestroyTimeout. by rewrite (on_timeout_done c p t timeout_destroy tt _ Hp E (destroy_holds _ _ _ Ht)).
Qed.

(** ** Freeing *)

Lemma free_done c p t tasks held pending : p <> 0 -> t_heap c !! p = Some t ->
  mail_holds (t_socket c) (sent (t_heap c)) tasks held pending ->
  exists s', transactionFree p c = Done (tt, set_heap (delete p (t_heap c)) (set_socket s' c)) /\
    mail_holds s' (sent (delete p (t_heap c))) tasks held pending /\
    same_queues (t_socket c) s' /\ s_packets s' = s_packets (t_socket c).
Proof.
  intros Hp E H. rewrite (sent_delete _ p t E) in H. apply mail_hold_out in H.
  destruct (mail_release _ _ _ _ _ _ H) as (s' & Er & Q & Pk & H'). exists s'.
  split; [|done]. unfold transactionFree. rewrite (proj2 (Z.eqb_neq p 0)) by done. cbn [negb].
  rewrite (bind_done _ _ _ _ _ (get_transaction_done c p t Hp E)).
  by rewrite (bind_done _ _ _ _ _ (trans_socket_done _ c tt s' Er)).
Qed.

(** The callback a transaction that ends makes. *)
Definition ending (state : TransactionState) (errorCallback : Z) (addr : net_addr_t) : list transaction_event :=
  if bool_decide (state <> TransactionAcknowledged) && negb (errorCallback =? 0) then [EventError addr] else [].

Lemma complete_done c p t k table' tasks held pending : p <> 0 -> t_heap c !! p = Some t ->
  mail_holds (t_socket c) (sent (t_heap c)) tasks held pending ->
  s_packets (t_socket c) !! tr_packet t = Some k ->
  hashtable_delete (tr_id t) (t_transactions c) = Done (tt, table') ->
  exists s', transactionSetComplete p c = Done (tt, set_heap (delete p (t_heap c)) (set_socket s'
      (set_table table' (set_events (t_events c ++ ending (tr_state t) (t_errorCallback c) (pk_addr k)) c)))) /\
    mail_holds s' (sent (delete p (t_heap c))) tasks held pending /\
    same_queues (t_socket c) s' /\ s_packets s' = s_packets (t_socket c).
Proof.
  intros Hp E H Ek Et. unfold transactionSetComplete.
  rewrite (bind_done _ _ _ _ _ (get_transaction_done c p t Hp E)), bind_get.
  set (evs := ending _ _ _). set (c1 := set_events (t_events c ++ evs) c).
  assert (E1 : (if bool_decide (tr_state t <> TransactionAcknowledged) && negb (t_errorCallback c =? 0) then
       k0 <- on_socket (get_packet (tr_packet t)) ;; notify (EventError (pk_addr k0))
     else ret tt) c = Done (tt, c1)).
  { unfold c1, evs, ending. destruct (_ && _); [|rewrite app_nil_r; by destruct c].
    assert (H0 : tr_packet t <> 0).
    { apply (mail_owned _ _ _ _ _ _ H), elem_of_app. left. by apply (sent_in _ p). }
    rewrite (bind_done _ _ _ _ _ (trans_socket_done _ c k _ (get_packet_done _ _ k H0 Ek))). by destruct c. }
  rewrite (bind_done _ _ _ _ _ E1).
  rewrite (bind_done _ _ _ _ _ (on_table_done _ c1 tt table' Et)). set (c2 := set_table table' c1).
  destruct (free_done c2 p t tasks held pending Hp E H) as (s' & Ef & H' & Q & Pk).
  exists s'. by rewrite Ef.
Qed.

(** A transaction of the table ends: it is deleted, freed and its packet is
    released, and no timer is left for it. *)
Record retires (c c' : TransactionConfiguration) (p : Z) (t : Transaction) (state : TransactionState)
    (k : net_packet_s) : Prop := {
  rt_heap : t_heap c' = delete p (t_heap c);
  rt_sources : t_sources c' = others t (t_sources c);
  rt_events : t_events c' = t_events c ++ ending state (t_errorCallback c) (pk_addr k);
  rt_queue : t_queue c' = t_queue c;
  rt_blocks : s_blocks (t_socket c') = s_blocks (t_socket c);
  rt_packets : s_packets (t_socket c') = s_packets (t_socket c);
  rt_wire : s_wire (t_socket c') = s_wire (t_socket c);
  rt_delivered : s_delivered (t_socket c') = s_delivered (t_socket c);
  rt_settings : t_isEnabled c' = t_isEnabled c /\ t_receiveCallback c' = t_receiveCallback c /\
    t_errorCallback c' = t_errorCallback c;
}.

Definition ended (c : TransactionConfiguration) (p : Z) (t : Transaction) (state : TransactionState) :
    TransactionConfiguration :=
  set_timers (others t (t_sources c)) (set_heap (<[p := with_state state (stopped t)]> (t_heap c)) c).

Lemma retire_holds {flight} c m held pending p t id state `{!Grounded flight p} : flight_holds flight c m held pending ->
  m !! id = Some p -> t_heap c !! p = Some t ->
  exists c' k, transactionSetComplete p (ended c p t state) = Done (tt, c') /\
    s_packets (t_socket c) !! tr_packet t = Some k /\
    flight_holds flight c' (delete id m) held pending /\ retires c c' p t state k.
Proof.
  intros [Hm Hl Ht Hc] E Et. pose proof (lg_heap _ _ _ _ Hl p t Et) as W.
  assert (Ei : tr_id t = id) by (destruct (lg_entries _ _ _ _ Hl id p E) as (u & Eu & Ei); congruence).
  destruct (ledger_delete _ _ _ _ id p Hl E) as (table' & Ed & Hl').
  destruct (ml_out _ _ _ _ _ Hm (tr_packet t) (sent_in _ p t Et)) as (k & Ek & _).
  set (c1 := ended c p t state). set (t1 := with_state state (stopped t)).
  assert (E1 : t_heap c1 !! p = Some t1) by (cbn; apply lookup_insert_eq).
  assert (H1 : mail_holds (t_socket c1) (sent (t_heap c1)) (task_packets (t_queue c)) held pending).
  { change (sent (t_heap c1)) with (sent (<[p := t1]> (t_heap c))). by rewrite (sent_update _ p t t1 Et). }
  destruct (complete_done c1 p t1 k table' _ held pending (tw_address _ _ W) E1 H1 Ek) as (s' & Es & H' & Q & Pk).
  { cbn. by rewrite Ei. }
  eexists _, k. split; [exact Es|]. split; [done|].
  assert (Eh : delete p (t_heap c1) = delete p (t_heap c)) by (cbn; apply delete_insert_eq).
  rewrite Eh in *. destruct Q as [q1 q2 q3 q4 q5 q6]. split; [split; cbn|].
  - exact H'.
  - exact Hl'.
  - pose proof (timers_stop _ _ p t t1 Ht Et eq_refl) as Hs.
    pose proof (timers_free _ _ p t1 Hs (lookup_insert_eq _ _ _) eq_refl) as Hf.
    by rewrite delete_insert_eq in Hf.
  - done.
  - split; cbn; done.
Qed.

(** ** The response to a transaction *)

Section Response.
Context {flight : Z -> bool}.
Context {order : Host}.

(** The type of the response that a packet holds. *)
Definition response_type (k : net_packet_s) : Z :=
  match transactionProtocolUnpackResponse (pk_bitstream k) with Done ((_, type), _) => type | Fault _ => 0 end.

Lemma readable_room k : readable k -> bs_wf (pk_bitstream k) /\ 251 <= room (pk_bitstream k) <= 256.
Proof.
  intros [[Hd By] Ho Hb]. unfold room, pk_data, kNetPacketMaxLen in *. split; [|lia].
  split; [lia|rewrite Hb, Hd; lia|rewrite Hb; lia|done].
Qed.

Lemma skip_packet_wf k n : packet_wf k -> packet_wf (mkPacket (pk_addr k) (pk_length k) (skip (pk_bitstream k) n)).
Proof. intros []. by split. Qed.

Lemma unpack_response_done k : readable k -> exists r,
  transactionProtocolUnpackResponse (pk_bitstream k) = Done ((r, response_type k), skip (pk_bitstream k) 1).
Proof.
  intros R. destruct (readable_room k R) as [W Hr].
  destruct (proj2 (u8_reads : reads 1 bitstream_read_uint8 (uint_ok 1)) _ W ltac:(lia)) as (v & E & _).
  unfold response_type, transactionProtocolUnpackResponse. rewrite (bind_done _ _ _ _ _ E). by eexists.
Qed.

Lemma find_transaction_done c m held pending id : flight_holds flight c m held pending -> 0 <= id ->
  find_transaction id c = Done (default 0 (m !! id), c).
Proof.
  intros [_ Hl _ _] Hid. unfold find_transaction. by rewrite (ledger_search _ _ _ _ id Hl Hid).
Qed.

Definition response_state (type : Z) : TransactionState :=
  if type =? TransactionResponseTypeSuccess then TransactionAcknowledged else TransactionError.

(** A response to a transaction that is not in the table: its packet is kept
    for ever. *)
Lemma run_response_unknown c m held pending packet id : flight_holds flight c m held pending -> 0 <= id ->
  m !! id = None -> run_response packet id c = Done (tt, c).
Proof.
  intros H Hid E. unfold run_response.
  by rewrite (bind_done _ _ _ _ _ (find_transaction_done c m held pending id H Hid)), E.
Qed.

Lemma entry_address c m held pending id p : flight_holds flight c m held pending -> m !! id = Some p ->
  exists t, t_heap c !! p = Some t /\ transaction_wf p t /\ tr_id t = id.
Proof.
  intros [_ Hl _ _] E. destruct (lg_entries _ _ _ _ Hl id p E) as (t & Et & Ei). exists t.
  split; [done|]. split; [by apply (lg_heap _ _ _ _ Hl)|done].
Qed.

Lemma run_response_known c m held pending packet k id p t `{!Grounded flight p} : flight_holds flight c m (packet :: held) pending ->
  0 <= id -> s_packets (t_socket c) !! packet = Some k -> readable k ->
  m !! id = Some p -> t_heap c !! p = Some t ->
  exists c' kt, run_response packet id c = Done (tt, c') /\
    s_packets (t_socket c) !! tr_packet t = Some kt /\
    flight_holds flight c' (delete id m) held pending /\
    t_heap c' = delete p (t_heap c) /\ t_sources c' = others t (t_sources c) /\
    t_events c' = t_events c ++ ending (response_state (response_type k)) (t_errorCallback c) (pk_addr kt) /\
    t_queue c' = t_queue c /\ s_blocks (t_socket c') = s_blocks (t_socket c) /\
    s_delivered (t_socket c') = s_delivered (t_socket c).
Proof.
  intros H Hid Ek R E Et. pose proof H as [Hm Hl Ht Hc].
  pose proof (lg_heap _ _ _ _ Hl p t Et) as W. pose proof (tw_address _ _ W) as Hp.
  unfold run_response. rewrite (bind_done _ _ _ _ _ (find_transaction_done c m _ pending id H Hid)), E.
  change (default 0 (Some p)) with p. rewrite (proj2 (Z.eqb_neq p 0)) by done. cbn [negb].
  rewrite (bind_done _ _ _ _ _ (destroy_timeout_done c p t Ht Hp Et)).
  set (c1 := set_timers _ _). destruct (mail_apart _ _ _ _ _ _ Hm) as (A1 & A2 & A3 & A4 & A5 & _).
  destruct (unpack_response_done k R) as (r & Eu).
  rewrite (bind_done _ _ _ _ _ (trans_socket_done _ c1 _ _ (on_bitstream_done (t_socket c1) packet k _ _ _ A5 Ek Eu))).
  set (k' := mkPacket _ _ _). set (s2 := set_packets _ _). cbn beta iota. set (c2 := set_socket s2 c1).
  fold (response_state (response_type k)).
  assert (E2 : t_heap c2 !! p = Some (stopped t)) by (cbn; apply lookup_insert_eq).
  rewrite (bind_done _ _ _ _ _ (on_transaction_done c2 p _ _ Hp E2)).
  set (c0 := set_socket s2 c).
  assert (H0 : flight_holds flight c0 m (packet :: held) pending).
  { split; [|done..]. apply (mail_write _ _ _ _ _ _ k); [done|done|apply skip_packet_wf, R|done]. }
  assert (E3 : set_heap (<[p := with_state (response_state (response_type k)) (stopped t)]> (t_heap c2)) c2 =
               ended c0 p t (response_state (response_type k))).
  { unfold ended, c2, c1, c0, set_heap, set_timers, set_socket. cbn. by rewrite insert_insert_eq. }
  rewrite E3. clear E3.
  destruct (retire_holds c0 m (packet :: held) pending p t id (response_state (response_type k)) H0 E Et) as
    (c3 & kt & Ec & Ekt & H3 & [h1 h2 h3 h4 h5 h6 h7 h8 _]).
  rewrite (bind_done _ _ _ _ _ Ec). destruct (mail_release _ _ _ _ _ _ (th_mail _ _ _ _ H3)) as (s4 & Er & Q & Pk & H4).
  rewrite (trans_socket_done _ c3 tt s4 Er). eexists _, kt. split; [reflexivity|].
  assert (Hne : tr_packet t <> packet) by (intros Eq; apply A1; rewrite <- Eq; by apply (sent_in _ p)).
  cbn in Ekt. rewrite lookup_insert_ne in Ekt by done. split; [done|].
  destruct Q as [q1 q2 q3 q4 q5 q6]. destruct H3 as [_ Hl3 Ht3 Hc3].
  split; [by split|]. cbn. rewrite q2, q3. done.
Qed.

End Response.

(** ** Starting a timer *)

Section Create.
Context {flight : Z -> bool}.
Context (source_create : gmap Z source -> Z).
Hypothesis source_fresh : forall m, m !! source_create m = None.

(** The timeout and the timers after one was created for [p]; without memory
    for a source there is none. *)
Definition started (sources : gmap Z source) : timeout_t :=
  mkTimeout (source_create sources) (negb (source_create sources =? 0)).

Definition with_timer (p ms : Z) (sources : gmap Z source) : gmap Z source :=
  if source_create sources =? 0 then sources
  else <[source_create sources := armed p (u64 (ms * kNSEC_PER_MILLISEC))]> sources.

Lemma create_timeout_done c p t ms `{!Grounded flight p} : timers_hold flight (t_heap c) (t_sources c) -> p <> 0 ->
  t_heap c !! p = Some t -> valid (tr_timeout t) = false ->
  let t' := with_timeout (started (t_sources c)) t in
  on_timeout p (timeout_create_block source_create p ms) c =
    Done (tt, set_timers (with_timer p ms (t_sources c)) (set_heap (<[p := t']> (t_heap c)) c)) /\
  timers_hold flight (<[p := t']> (t_heap c)) (with_timer p ms (t_sources c)).
Proof.
  intros H Hp E V t'. destruct (timers_one _ _ p t H E) as (d & Ht). unfold others in Ht. rewrite V in Ht.
  destruct (create_holds source_create 0 ms p _ _ _ Ht (source_fresh _)) as (s' & Es & Esrc & Hs').
  assert (Q : ts_timeout s' = started (t_sources c) /\ ts_sources s' = with_timer p ms (t_sources c)).
  { unfold started, with_timer. destruct s' as [[src v] m]. cbn in *. subst src.
    destruct (source_create (t_sources c) =? 0); cbn in *; [by destruct Hs' as [-> ->]|].
    by destruct Hs' as (-> & _ & _ & ->). }
  destruct Q as [Q1 Q2]. unfold timeout_create_block.
  rewrite (on_timeout_done c p t _ tt s' Hp E Es), Q1, Q2. split; [done|]. unfold with_timer, t', started.
  destruct (Z.eqb_spec (source_create (t_sources c)) 0) as [E0|E0]; cbn [negb].
  - pose proof (timers_stop _ _ p t (with_timeout (mkTimeout (source_create (t_sources c)) false) t) H E eq_refl) as Hs.
    unfold others in Hs. by rewrite V in Hs.
  - by apply (timers_start _ _ p t).
Qed.

End Create.

(** ** Packing on the socket of a configuration *)

Lemma trans_pack_done packet header body address (k : prog TransactionConfiguration unit) c :
  (on_socket (on_bitstream packet header) ;; on_socket (on_bitstream packet body) ;;
   on_socket (on_packet packet (fun k => net_packet_addr k address)) ;; k) c =
  (on_socket (pack_packet packet header body address) ;; k) c.
Proof.
  unfold pack_packet, bind, on_socket.
  destruct (on_bitstream packet _ (t_socket c)) as [[? s1]|]; [|done]. cbn [t_socket set_socket].
  destruct (on_bitstream packet _ s1) as [[? s2]|]; [|done]. cbn [t_socket set_socket].
  by destruct (on_packet packet _ s2) as [[? s3]|].
Qed.

(** The insertion that is dispatched in between does not matter. *)
Lemma pack_dispatch_on_socket packet header body address task (k : prog TransactionConfiguration unit) c :
  (on_socket (on_bitstream packet header) ;; on_socket (on_bitstream packet body) ;; dispatch_async task ;;
   on_socket (on_packet packet (fun k => net_packet_addr k address)) ;; k) c =
  (on_socket (pack_packet packet header body address) ;; dispatch_async task ;; k) c.
Proof.
  unfold pack_packet, bind, on_socket, dispatch_async, modify.
  destruct (on_bitstream packet _ (t_socket c)) as [[? s1]|]; [|done]. cbn [t_socket set_socket].
  destruct (on_bitstream packet _ s1) as [[? s2]|]; [|done]. cbn [t_socket set_socket set_queue].
  by destruct (on_packet packet _ s2) as [[? s3]|].
Qed.

Lemma trans_socket_id c : set_socket (t_socket c) c = c.
Proof. by destruct c. Qed.

Lemma post_done s out tasks held pending o k0 header body b1 b2 address :
  mail_holds s out tasks (o :: held) pending -> packet_wf k0 ->
  s_packets s !! o = Some (net_packet_init k0) -> o ∉ s_blocks s ++ pending ->
  emits header b1 tt -> emits body b2 tt -> 0 < zlen (b1 ++ b2) <= kNetPacketMaxLen ->
  Z.of_nat (outgoing s pending) + 65 < 2 ^ 32 ->
  exists s1 s2 k, pack_packet o header body address s = Done (tt, s1) /\
    net_socket_send o s1 = Done (tt, s2) /\ mail_holds s2 out tasks (o :: held) pending /\
    carries k address (b1 ++ b2) /\ posted s s2 o k.
Proof.
  intros H W E Hq H1 H2 F Hlen. pose proof (mail_bound _ _ _ _ _ H) as B.
  destruct (post_packet s _ pending o k0 header body b1 b2 address (ml_socket _ _ _ _ _ H)) as (s1 & s2 & k & Ep & Es & H3 & Hk & P);
    [set_solver|done..|lia|].
  exists s1, s2, k. split; [done|]. split; [done|]. split; [|done]. destruct P.
  by apply (mail_changed s s2 _ _ _ pending pending o k).
Qed.

(** ** Answering a request *)

Section Request.
Context {flight : Z -> bool}.
Context {order : Host}.

(** The bytes of a response and of a request. *)
Definition response_bytes (id type : Z) : list Z :=
  enc_transaction_header id TransactionTypeResponse ++ enc_int U8 type.

Definition request_bytes (id : Z) (object : TransactionObject) : list Z :=
  enc_transaction_header id TransactionTypeRequest ++ enc_request object.

Lemma zlen_transaction_header id type : zlen (enc_transaction_header id type) = 5.
Proof. unfold enc_transaction_header. rewrite !zlen_app, zlen_enc_header, !zlen_enc_int. done. Qed.

Lemma zlen_response_bytes id type : zlen (response_bytes id type) = 6.
Proof. unfold response_bytes. rewrite zlen_app, zlen_transaction_header, zlen_enc_int. done. Qed.

Lemma pack_response_emits type : emits (transactionProtocolPackResponse type) (enc_int U8 type) tt.
Proof. apply (int_codec_emits U8). Qed.

(** No packet is left: the null pointer is used. *)
Lemma response_exhausted c addr id type : net_packet_alloc (t_socket c) = Done (0, t_socket c) ->
  transactionResponse addr id type c = Fault NullPointer.
Proof.
  intros E. unfold transactionResponse.
  by rewrite (bind_done _ _ _ _ _ (trans_socket_done _ c 0 _ E)).
Qed.

Lemma response_done c out tasks held pending addr id type :
  mail_holds (t_socket c) out tasks held pending -> Z.of_nat (outgoing (t_socket c) pending) + 65 < 2 ^ 32 ->
  net_packet_alloc (t_socket c) = Done (0, t_socket c) \/
  exists s' o k, transactionResponse addr id type c = Done (tt, set_socket s' c) /\
    mail_holds s' out tasks held pending /\ carries k addr (response_bytes id type) /\
    posted (t_socket c) s' o k /\ (o ∉ out) /\ (o ∉ s_delivered s') /\ (o ∉ tasks) /\ (o ∉ held).
Proof.
  intros H Hlen. destruct (mail_alloc _ _ _ _ _ H) as [Ex|(o & k0 & s1 & E1 & Ho & Q & W & Pk & Hq & H1)]; [by left|right].
  unfold transactionResponse. rewrite (bind_done _ _ _ _ _ (trans_socket_done _ c o s1 E1)). set (c1 := set_socket s1 c).
  destruct Q as [q1 q2 q3 q4 q5 q6]. rewrite trans_pack_done.
  destruct (post_done s1 out tasks held pending o k0 (transactionProtocolPackHeader id TransactionTypeResponse)
    (transactionProtocolPackResponse type) (enc_transaction_header id TransactionTypeResponse) (enc_int U8 type) addr H1 W)
    as (s2 & s3 & k & E2 & E3 & H3 & Hk & [p1 p2 p3 p4 p5 p6]).
  { rewrite Pk. apply lookup_insert_eq. }
  { by rewrite q2. }
  { apply pack_transaction_header_emits. }
  { apply pack_response_emits. }
  { fold (response_bytes id type). rewrite zlen_response_bytes. unfold kNetPacketMaxLen. lia. }
  { unfold outgoing in *. by rewrite q2. }
  rewrite (bind_done _ _ _ _ _ (trans_socket_done (pack_packet _ _ _ _) c1 tt s2 E2)). set (c2 := set_socket s2 c1).
  rewrite (bind_done _ _ _ _ _ (trans_socket_done (net_socket_send o) c2 tt s3 E3)). set (c3 := set_socket s3 c2).
  destruct (mail_apart _ _ _ _ _ _ H3) as (A1 & A2 & A3 & A4 & _).
  destruct (mail_release _ _ _ _ _ _ H3) as (s4 & E4 & [r1 r2 r3 r4 r5 r6] & P4 & H4).
  rewrite (trans_socket_done _ c3 tt s4 E4). exists s4, o, k. split; [done|]. split; [done|]. split; [done|].
  split; [|rewrite r3; done]. split; [by rewrite q2 in p1|rewrite P4, p2, Pk; by rewrite insert_insert_eq|congruence..].
Qed.

(** What the receiver makes of a request. *)
Definition reception (receiveCallback : Z) (addr : net_addr_t) (r : UnpackResult) (object : TransactionObject) :
    list transaction_event :=
  if negb (receiveCallback =? 0) && bool_decide (r = UnpackValid) then [EventReceive addr object] else [].

Lemma run_request_exhausted c packet k id : packet <> 0 -> s_packets (t_socket c) !! packet = Some k ->
  net_packet_alloc (t_socket c) = Done (0, t_socket c) -> run_request packet id c = Fault NullPointer.
Proof.
  intros Hp Ek E. unfold run_request.
  rewrite (bind_done _ _ _ _ _ (trans_socket_done _ c k _ (get_packet_done _ packet k Hp Ek))), trans_socket_id.
  apply bind_fault. by apply response_exhausted.
Qed.

(** A packet whose request is read without a fault. *)
Definition understood (k : net_packet_s) (r : UnpackResult) (object : TransactionObject) : Prop :=
  exists n, transactionProtocolUnpackRequest (pk_bitstream k) = Done ((r, object), skip (pk_bitstream k) n).

Lemma limits_understood k : readable k -> request_limits (pk_bitstream k) = true ->
  exists r object, understood k r object.
Proof.
  intros R Hlim. destruct (readable_room k R) as [W Hr].
  destruct (unpack_request_needs (pk_bitstream k) W) as ([r object] & n & Eu & Hn); [lia|done|].
  by exists r, object, n.
Qed.

Lemma run_request_done c m held pending packet k id r object : flight_holds flight c m (packet :: held) pending ->
  s_packets (t_socket c) !! packet = Some k -> readable k -> understood k r object ->
  Z.of_nat (outgoing (t_socket c) pending) + 65 < 2 ^ 32 ->
  net_packet_alloc (t_socket c) = Done (0, t_socket c) \/
  exists c' s' o kr, run_request packet id c = Done (tt, c') /\ flight_holds flight c' m held pending /\
    c' = set_socket s' (set_events (t_events c ++ reception (t_receiveCallback c) (pk_addr k) r object) c) /\
    carries kr (pk_addr k) (response_bytes id TransactionResponseTypeSuccess) /\
    s_packets s' !! o = Some kr /\ s_blocks s' = s_blocks (t_socket c) ++ [o] /\
    s_delivered s' = s_delivered (t_socket c) /\ s_wire s' = s_wire (t_socket c) /\
    (forall x, x ∈ s_blocks (t_socket c) -> s_packets s' !! x = s_packets (t_socket c) !! x \/ x = packet).
Proof.
  intros [Hm Hl Ht Hc] Ek R (n & Eu) Hlen.
  destruct (mail_apart _ _ _ _ _ _ Hm) as (A1 & A2 & A3 & A4 & Hp & _).
  destruct (response_done c _ _ _ _ (pk_addr k) id TransactionResponseTypeSuccess Hm Hlen)
    as [Ex|(s1 & o & kr & E1 & H1 & Hkr & [p1 p2 p3 p4 p5 p6] & B1 & B2 & B3 & B4)]; [by left|right].
  unfold run_request.
  rewrite (bind_done _ _ _ _ _ (trans_socket_done _ c k _ (get_packet_done _ packet k Hp Ek))), trans_socket_id.
  rewrite (bind_done _ _ _ _ _ E1). set (c1 := set_socket s1 c).
  assert (Hne : o <> packet) by (intros ->; apply B4; by left).
  assert (Ek1 : s_packets s1 !! packet = Some k) by (rewrite p2, lookup_insert_ne by done; done).
  rewrite (bind_done _ _ _ _ _ (trans_socket_done _ c1 _ _ (on_bitstream_done s1 packet k _ _ _ Hp Ek1 Eu))).
  cbn beta iota. set (s2 := set_packets _ s1). set (c2 := set_socket s2 c1). rewrite bind_get.
  set (evs := reception (t_receiveCallback c) (pk_addr k) r object). set (c3 := set_events (t_events c ++ evs) c2).
  assert (E3 : (if negb (t_receiveCallback c2 =? 0) && bool_decide (r = UnpackValid) then
       notify (EventReceive (pk_addr k) object) else ret tt) c2 = Done (tt, c3)).
  { unfold c3, evs, reception. change (t_receiveCallback c2) with (t_receiveCallback c).
    destruct (_ && _); [done|]. rewrite app_nil_r. by destruct c. }
  rewrite (bind_done _ _ _ _ _ E3).
  assert (H2 : mail_holds s2 (sent (t_heap c)) (task_packets (t_queue c)) (packet :: held) pending).
  { apply (mail_write _ _ _ _ _ _ k); [done|done|apply skip_packet_wf, R|done]. }
  destruct (mail_release _ _ _ _ _ _ H2) as (s4 & E4 & [r1 r2 r3 r4 r5 r6] & P4 & H4).
  rewrite (trans_socket_done _ c3 tt s4 E4). eexists _, s4, o, kr. split; [reflexivity|].
  split; [by split|]. split; [done|]. split; [done|].
  split; [rewrite P4; cbn; rewrite lookup_insert_ne by done; rewrite p2; apply lookup_insert_eq|].
  split; [rewrite r2; exact p3|]. split; [rewrite r3; exact p4|]. split; [rewrite r4; exact p5|].
  intros x Hx. destruct (decide (x = packet)) as [->|Hxp]; [by right|left].
  rewrite P4. cbn. rewrite lookup_insert_ne by done. rewrite p2, lookup_insert_ne; [done|]. intros <-. done.
Qed.

End Request.

(** ** Making a request *)

Section Make.
Context {flight : Z -> bool}.
Context {order : Host}.
Context (calloc : gmap Z Transaction -> Z).
Context (source_create : gmap Z source -> Z).
Hypothesis calloc_fresh : fresh_address calloc.
Hypothesis source_fresh : forall m, m !! source_create m = None.

(** An object that fits in a packet. *)
Definition sendable_object (object : TransactionObject) : Prop :=
  object_ok object /\ zlen (enc_request object) <= kNetPacketMaxLen - 5.

(** The transaction of a request, with its packet. *)
Definition requested (c : TransactionConfiguration) (o : Z) : Transaction :=
  mkTransaction TransactionWaiting (t_cseq c) o 0 (started source_create (t_sources c)) (calloc (t_heap c)).

Record requests (c c' : TransactionConfiguration) (addr : net_addr_t) (object : TransactionObject) (o : Z)
    (k : net_packet_s) : Prop := {
  rq_heap : t_heap c' = <[calloc (t_heap c) := requested c o]> (t_heap c);
  rq_sources : t_sources c' =
    with_timer source_create (calloc (t_heap c)) kTransactionInitialRto (t_sources c);
  rq_queue : t_queue c' = t_queue c ++ [TaskInsert (t_cseq c) (calloc (t_heap c))];
  rq_carries : carries k addr (request_bytes (t_cseq c) object);
  rq_posted : posted (t_socket c) (t_socket c') o k;
  rq_table : t_transactions c' = t_transactions c;
  rq_cseq : t_cseq c' = (t_cseq c + 1) mod kTransactionMaxId;
  rq_events : t_events c' = t_events c;
  rq_settings : t_isEnabled c' = t_isEnabled c /\ t_receiveCallback c' = t_receiveCallback c /\
    t_errorCallback c' = t_errorCallback c;
}.

Lemma request_exhausted c addr object : net_packet_alloc (t_socket c) = Done (0, t_socket c) ->
  transactionRequest calloc source_create addr object c = Done (tt, c).
Proof.
  intros E. unfold transactionRequest, transactionAlloc. rewrite bind_assoc.
  by rewrite (bind_done _ _ _ _ _ (trans_socket_done _ c 0 _ E)), trans_socket_id.
Qed.

(** The transaction as [transactionAlloc] makes it. *)
Lemma alloc_done c o s' : net_packet_alloc (t_socket c) = Done (o, s') -> o <> 0 ->
  let p := calloc (t_heap c) in
  transactionAlloc calloc c = Done (p,
    set_heap (<[p := mkTransaction TransactionIdle (t_cseq c) o 0 (mkTimeout 0 false) 0]> (t_heap c))
      (set_cseq (u8 (t_cseq c + 1) mod kTransactionMaxId) (set_socket s' c))).
Proof.
  intros E Ho p. unfold transactionAlloc. rewrite (bind_done _ _ _ _ _ (trans_socket_done _ c o s' E)).
  rewrite (proj2 (Z.eqb_neq o 0)) by done. cbn [negb]. rewrite bind_get.
  change (t_heap (set_socket s' c)) with (t_heap c). fold p.
  rewrite (proj2 (Z.eqb_neq p 0)) by apply calloc_fresh. rewrite !bind_modify. done.
Qed.

(** A new transaction that waits, with its packet on its way and its task. *)
Lemma request_recorded c c' m held pending o k : flight_holds flight c m held pending ->
  mail_holds (t_socket c') (sent (t_heap c)) (task_packets (t_queue c)) (o :: held) pending ->
  s_packets (t_socket c') !! o = Some k -> filled k ->
  t_heap c' = <[calloc (t_heap c) := requested c o]> (t_heap c) ->
  t_queue c' = t_queue c ++ [TaskInsert (t_cseq c) (calloc (t_heap c))] -> t_transactions c' = t_transactions c ->
  timers_hold flight (t_heap c') (t_sources c') -> t_cseq c' = (t_cseq c + 1) mod kTransactionMaxId ->
  flight_holds flight c' m held pending.
Proof.
  intros [_ Hl _ Hc] Hm Ek F Eh Eq Et Hs Ec. destruct (calloc_fresh (t_heap c)) as [Hp Hn]. split.
  - rewrite Eh, Eq, (sent_insert _ _ (requested c o) Hn), task_packets_app. cbn. rewrite app_nil_r.
    apply mail_keep_out; [done|by exists k].
  - rewrite Eh, Eq, Et. apply (ledger_request _ _ _ _ _ (requested c o) Hl Hn).
    split; cbn; unfold kTransactionMaxRetries; done || lia.
  - exact Hs.
  - rewrite Ec. by apply Z.mod_pos_bound.
Qed.

Lemma request_holds c m held pending addr object : flight_holds flight c m held pending -> sendable_object object ->
  Z.of_nat (outgoing (t_socket c) pending) + 65 < 2 ^ 32 ->
  net_packet_alloc (t_socket c) = Done (0, t_socket c) \/
  exists c' o k, transactionRequest calloc source_create addr object c = Done (tt, c') /\
    flight_holds flight c' m held pending /\ requests c c' addr object o k.
Proof.
  intros [Hm Hl Ht Hc] [Hob Hfit] Hlen.
  destruct (mail_alloc _ _ _ _ _ Hm) as [Ex|(o & k0 & s1 & E1 & Ho & Q & W & Pk & Hq & H1)]; [by left|right].
  destruct Q as [q1 q2 q3 q4 q5 q6]. set (p := calloc (t_heap c)). destruct (calloc_fresh (t_heap c)) as [Hp Hn].
  fold p in Hp, Hn. pose proof (timers_new _ _ p Ht Hn) as G. unfold transactionRequest. rewrite (bind_done _ _ _ _ _ (alloc_done c o s1 E1 Ho)). fold p.
  set (t0 := mkTransaction _ _ _ _ _ _). set (c1 := set_heap _ _).
  rewrite (proj2 (Z.eqb_neq p 0)) by done. cbn [negb].
  assert (Et0 : t_heap c1 !! p = Some t0) by (cbn; apply lookup_insert_eq).
  rewrite (bind_done _ _ _ _ _ (get_transaction_done c1 p t0 Hp Et0)).
  change (tr_packet t0) with o. change (tr_id t0) with (t_cseq c).
  destruct (post_done s1 (sent (t_heap c)) (task_packets (t_queue c)) held pending o k0
    (transactionProtocolPackHeader (t_cseq c) TransactionTypeRequest) (transactionProtocolPackRequest object)
    (enc_transaction_header (t_cseq c) TransactionTypeRequest) (enc_request object) addr H1 W)
    as (s2 & s3 & k & E2 & E3 & H3 & Hk & [p1 p2 p3 p4 p5 p6]).
  { rewrite Pk. apply lookup_insert_eq. }
  { by rewrite q2. }
  { apply pack_transaction_header_emits. }
  { by apply pack_body_emits. }
  { rewrite zlen_app, zlen_transaction_header. pose proof (zlen_nonneg (enc_request object)). lia. }
  { unfold outgoing in *. by rewrite q2. }
  rewrite pack_dispatch_on_socket.
  rewrite (bind_done _ _ _ _ _ (trans_socket_done (pack_packet _ _ _ _) c1 tt s2 E2)). set (c2 := set_socket s2 c1).
  unfold dispatch_async. rewrite bind_modify. set (c3 := set_queue _ c2).
  assert (Et3 : t_heap c3 !! p = Some t0) by exact Et0.
  rewrite (bind_done _ _ _ _ _ (on_transaction_done c3 p t0 _ Hp Et3)). set (t1 := with_timeoutBlock p t0).
  set (c4 := set_heap _ c3).
  rewrite (bind_done _ _ _ _ _ (trans_socket_done (net_socket_send o) c4 tt s3 E3)). set (c5 := set_socket s3 c4).
  assert (Et5 : t_heap c5 !! p = Some t1) by (cbn; apply lookup_insert_eq).
  rewrite (bind_done _ _ _ _ _ (on_transaction_done c5 p t1 _ Hp Et5)). set (t2 := with_state TransactionWaiting t1).
  set (c6 := set_heap _ c5).
  assert (Et6 : t_heap c6 !! p = Some t2) by (cbn; apply lookup_insert_eq).
  rewrite (bind_done _ _ _ _ _ (get_transaction_done c6 p t2 Hp Et6)). change (tr_timeoutBlock t2) with p.
  assert (Eh : t_heap c6 = <[p := t2]> (t_heap c)) by (cbn; by rewrite !insert_insert_eq).
  assert (Ht6 : timers_hold flight (t_heap c6) (t_sources c6)) by (rewrite Eh; by apply timers_alloc).
  destruct (create_timeout_done source_create source_fresh c6 p t2 kTransactionInitialRto Ht6 Hp Et6 eq_refl) as [Ec Hs].
  rewrite Ec. set (t3 := with_timeout _ t2) in *. eexists _, o, k. split; [reflexivity|].
  assert (Et : t3 = requested c o) by done.
  assert (Eh' : <[p := t3]> (t_heap c6) = <[p := t3]> (t_heap c)) by (rewrite Eh; by rewrite insert_insert_eq).
  rewrite Eh' in *.
  assert (Ei : u8 (t_cseq c + 1) = t_cseq c + 1) by (apply u8_small; unfold kTransactionMaxId in Hc; lia). split.
  - apply (request_recorded c _ m held pending o k); cbn; rewrite ?Ei; try done.
    + rewrite p2. apply lookup_insert_eq.
    + unfold filled. rewrite (pd_offset _ _ _ (cr_packed _ _ _ Hk)), zlen_app, zlen_transaction_header.
      pose proof (zlen_nonneg (enc_request object)). lia.
  - split; cbn; rewrite ?Ei; try done.
    split; cbn; [by rewrite q2 in p1|by rewrite p2, Pk, insert_insert_eq|congruence..].
Qed.

End Make.

(** ** Retrying *)

Lemma mail_resend s heap tasks held pending p t k : mail_holds s (sent heap) tasks held pending ->
  heap !! p = Some t -> s_packets s !! tr_packet t = Some k -> Z.of_nat (outgoing s pending) + 65 < 2 ^ 32 ->
  exists s', net_socket_send (tr_packet t) s = Done (tt, s') /\ mail_holds s' (sent heap) tasks held pending /\
    s_packets s' = <[tr_packet t := mkPacket (pk_addr k) (bs_offset (pk_bitstream k)) (pk_bitstream k)]> (s_packets s) /\
    s_delivered s' = s_delivered s /\ s_wire s' = s_wire s /\
    s_blocks s' = s_blocks s ++ (if 0 <? bs_offset (pk_bitstream k) then [tr_packet t] else []).
Proof.
  intros H E Ek Hlen. pose proof (ml_out _ _ _ _ _ H _ (sent_in _ p t E)) as (k' & Ek' & F).
  rewrite Ek in Ek'. injection Ek' as <-.
  rewrite (sent_delete heap p t E) in H. apply mail_hold_out in H.
  destruct (mail_send _ _ _ _ _ _ k H Ek F Hlen) as (s' & E' & H' & Pk & D & W & B). exists s'.
  split; [done|]. split; [|done]. rewrite (sent_delete heap p t E). apply mail_keep_out; [done|].
  eexists. rewrite Pk, lookup_insert_eq. split; [reflexivity|]. exact F.
Qed.

Section Retry.
Context {flight : Z -> bool}.
Context (source_create : gmap Z source -> Z).
Hypothesis source_fresh : forall m, m !! source_create m = None.

(** The transaction after another attempt. *)
Definition retried (t : Transaction) (sources : gmap Z source) : Transaction :=
  mkTransaction TransactionWaiting (tr_id t) (tr_packet t) (tr_retries t + 1)
    (started source_create sources) (tr_timeoutBlock t).

Record retries (c c' : TransactionConfiguration) (p : Z) (t : Transaction) (k : net_packet_s) : Prop := {
  ry_heap : t_heap c' = <[p := retried t (others t (t_sources c))]> (t_heap c);
  ry_sources : t_sources c' =
    with_timer source_create p (retry_rto (tr_retries t + 1)) (others t (t_sources c));
  ry_queue : t_queue c' = t_queue c;
  ry_events : t_events c' = t_events c;
  ry_packets : s_packets (t_socket c') =
    <[tr_packet t := mkPacket (pk_addr k) (bs_offset (pk_bitstream k)) (pk_bitstream k)]> (s_packets (t_socket c));
  ry_blocks : s_blocks (t_socket c') =
    s_blocks (t_socket c) ++ (if 0 <? bs_offset (pk_bitstream k) then [tr_packet t] else []);
  ry_delivered : s_delivered (t_socket c') = s_delivered (t_socket c);
  ry_wire : s_wire (t_socket c') = s_wire (t_socket c);
  ry_settings : t_isEnabled c' = t_isEnabled c /\ t_receiveCallback c' = t_receiveCallback c /\
    t_errorCallback c' = t_errorCallback c;
}.

Lemma run_retry_unknown c m held pending id : flight_holds flight c m held pending -> 0 <= id -> m !! id = None ->
  run_retry source_create id c = Done (tt, c).
Proof.
  intros H Hid E. unfold run_retry.
  by rewrite (bind_done _ _ _ _ _ (find_transaction_done c m held pending id H Hid)), E.
Qed.

Lemma run_retry_again c m held pending id p t k `{!Grounded flight p} : flight_holds flight c m held pending -> m !! id = Some p ->
  t_heap c !! p = Some t -> s_packets (t_socket c) !! tr_packet t = Some k ->
  tr_retries t < kTransactionMaxRetries -> Z.of_nat (outgoing (t_socket c) pending) + 65 < 2 ^ 32 ->
  exists c', run_retry source_create id c = Done (tt, c') /\ flight_holds flight c' m held pending /\ retries c c' p t k.
Proof.
  intros H E Et Ek Hr Hlen. pose proof H as [Hm Hl Ht Hc].
  destruct (entry_address c m held pending id p H E) as (t' & Et' & [Hp Hst Hid Hrt Hb] & Ei).
  rewrite Et in Et'. injection Et' as <-. rewrite Ei in Hid. unfold run_retry.
  rewrite (bind_done _ _ _ _ _ (find_transaction_done c m held pending id H (proj1 Hid))), E.
  change (default 0 (Some p)) with p. rewrite (proj2 (Z.eqb_neq p 0)) by done. cbn [negb].
  rewrite (bind_done _ _ _ _ _ (get_transaction_done c p t Hp Et)). rewrite decide_True by done.
  rewrite (bind_done _ _ _ _ _ (destroy_timeout_done c p t Ht Hp Et)). set (c1 := set_timers _ _).
  assert (E1 : t_heap c1 !! p = Some (stopped t)) by (cbn; apply lookup_insert_eq).
  rewrite (bind_done _ _ _ _ _ (get_transaction_done c1 p _ Hp E1)).
  change (tr_retries (stopped t)) with (tr_retries t). rewrite (proj2 (Z.ltb_lt _ _)) by done.
  unfold kTransactionMaxRetries in *. rewrite u32_small by lia.
  rewrite (bind_done _ _ _ _ _ (on_transaction_done c1 p _ _ Hp E1)).
  set (t2 := with_retries _ (stopped t)). set (c2 := set_heap _ c1).
  assert (E2 : t_heap c2 !! p = Some t2) by (cbn; apply lookup_insert_eq).
  rewrite (bind_done _ _ _ _ _ (get_transaction_done c2 p t2 Hp E2)). change (tr_packet t2) with (tr_packet t).
  destruct (mail_resend _ _ _ _ _ p t k Hm Et Ek Hlen) as (s3 & E3 & H3 & P3 & D3 & W3 & B3).
  rewrite (bind_done _ _ _ _ _ (trans_socket_done (net_socket_send _) c2 tt s3 E3)). set (c3 := set_socket s3 c2).
  change (tr_timeoutBlock t2) with (tr_timeoutBlock t). rewrite Hb. change (tr_retries t2) with (tr_retries t + 1).
  assert (Eh : t_heap c3 = <[p := t2]> (t_heap c)) by (cbn; by rewrite insert_insert_eq).
  assert (Ht3 : timers_hold flight (t_heap c3) (t_sources c3)) by (rewrite Eh; by apply (timers_stop _ _ p t)).
  destruct (create_timeout_done source_create source_fresh c3 p t2 (retry_rto (tr_retries t + 1)) Ht3 Hp E2 eq_refl)
    as [Ec Hs].
  rewrite Ec. set (t4 := with_timeout _ t2) in *. eexists. split; [reflexivity|].
  assert (E4 : t4 = retried t (others t (t_sources c))) by (unfold t4, t2, retried; rewrite <- Hst; reflexivity).
  assert (Eh' : <[p := t4]> (t_heap c3) = <[p := t4]> (t_heap c)) by (rewrite Eh; by rewrite insert_insert_eq).
  rewrite Eh', E4 in *. split; [|by split].
  split; cbn; [by rewrite (sent_update _ p t _ Et)| |exact Hs|done].
  apply (ledger_update _ _ _ _ p t); [done|done| |done]. split; cbn; try done; [lia|unfold kTransactionMaxRetries; lia].
Qed.

Lemma run_retry_fail c m held pending id p t `{!Grounded flight p} : flight_holds flight c m held pending -> m !! id = Some p ->
  t_heap c !! p = Some t -> tr_retries t = kTransactionMaxRetries ->
  exists c' k, run_retry source_create id c = Done (tt, c') /\ s_packets (t_socket c) !! tr_packet t = Some k /\
    flight_holds flight c' (delete id m) held pending /\ retires c c' p t TransactionTimeout k.
Proof.
  intros H E Et Hr. pose proof H as [Hm Hl Ht Hc].
  destruct (entry_address c m held pending id p H E) as (t' & Et' & [Hp Hst Hid Hrt Hb] & Ei).
  rewrite Et in Et'. injection Et' as <-. rewrite Ei in Hid. unfold run_retry.
  rewrite (bind_done _ _ _ _ _ (find_transaction_done c m held pending id H (proj1 Hid))), E.
  change (default 0 (Some p)) with p. rewrite (proj2 (Z.eqb_neq p 0)) by done. cbn [negb].
  rewrite (bind_done _ _ _ _ _ (get_transaction_done c p t Hp Et)). rewrite decide_True by done.
  rewrite (bind_done _ _ _ _ _ (destroy_timeout_done c p t Ht Hp Et)). set (c1 := set_timers _ _).
  assert (E1 : t_heap c1 !! p = Some (stopped t)) by (cbn; apply lookup_insert_eq).
  rewrite (bind_done _ _ _ _ _ (get_transaction_done c1 p _ Hp E1)).
  change (tr_retries (stopped t)) with (tr_retries t). rewrite (proj2 (Z.ltb_ge _ _)) by (rewrite Hr; lia).
  rewrite (bind_done _ _ _ _ _ (on_transaction_done c1 p _ _ Hp E1)).
  assert (E2 : set_heap (<[p := with_state TransactionTimeout (stopped t)]> (t_heap c1)) c1 = ended c p t TransactionTimeout).
  { unfold ended, c1, set_heap, set_timers. cbn. by rewrite insert_insert_eq. }
  rewrite E2. destruct (retire_holds c m held pending p t id TransactionTimeout H E Et) as (c' & k & Ec & Ek & H' & R).
  by exists c', k.
Qed.

End Retry.

(** ** The handler of a timer *)

(** A timer that fires: its block dispatches a retry, and its handler goes on
    running. *)
Lemma timer_block_done {flight} c m held pending src x : flight_holds flight c m held pending ->
  t_sources c !! src = Some x -> src_armed x = true ->
  exists p t d, t_heap c !! p = Some t /\ tr_timeout t = mkTimeout src true /\ x = armed p d /\ flight p = false /\
    let c' := set_timers (<[src := mkSource 1 false d kLEEWAY 0 p]> (t_sources c))
                (set_queue (t_queue c ++ [TaskRetry (tr_id t)]) c) in
    timer_block src c = Done (Some p, c') /\ flight_holds (take_off p flight) c' m held pending.
Proof.
  intros [Hm Hl Ht Hc] Ex Ea. destruct (tm_source _ _ _ Ht src x Ex) as (p & t & d & Et & Etm & ->).
  assert (F : flight p = false) by (cbn in Ea; by apply negb_true_iff in Ea).
  exists p, t, d. do 2 (split; [done|]). split; [unfold timer_of; by rewrite F|]. split; [done|]. cbv zeta.
  pose proof (lg_heap _ _ _ _ Hl p t Et) as W. pose proof (tw_address _ _ W) as Hp.
  destruct (tm_valid _ _ _ Ht p t Et) as (Hs & _); [by rewrite Etm|]. rewrite Etm in Hs. cbn in Hs. split.
  - unfold timer_block, timer_fires, source_at. rewrite (proj2 (Z.eqb_neq src 0)), Ex by done. cbn -[bind get_transaction].
    rewrite F. cbn -[bind get_transaction].
    by rewrite (bind_done _ _ _ _ _ (get_transaction_done (set_timers _ c) p t Hp Et)).
  - split; cbn; [|by apply ledger_push; [..|apply W]| |done].
    + rewrite task_packets_app. cbn. by rewrite app_nil_r.
    + pose proof (timers_fire _ _ p t d Ht Et) as K. rewrite Etm in K. by apply K.
Qed.

(** The handler ends: its timer is released, and the transaction has none. *)
Lemma timer_rest_done {flight} c m held pending p : flight_holds flight c m held pending -> flight p = true ->
  exists t, t_heap c !! p = Some t /\ valid (tr_timeout t) = true /\
    let c' := set_timers (delete (timerDispatchSource (tr_timeout t)) (t_sources c))
                (set_heap (<[p := stopped t]> (t_heap c)) c) in
    timer_rest p c = Done (tt, c') /\ flight_holds (land p flight) c' m held pending.
Proof.
  intros [Hm Hl Ht Hc] F. destruct (tm_flight _ _ _ Ht p F) as (t & Et & V). exists t. do 2 (split; [done|]). cbv zeta.
  destruct (tm_valid _ _ _ Ht p t Et V) as (Hs & d & Ed).
  pose proof (lg_heap _ _ _ _ Hl p t Et) as W. pose proof (tw_address _ _ W) as Hp.
  assert (Es : others t (t_sources c) = delete (timerDispatchSource (tr_timeout t)) (t_sources c))
    by (unfold others; by rewrite V). split.
  - apply (on_timeout_done c p t timer_fired tt (mkTimeoutState (mkTimeout (timerDispatchSource (tr_timeout t)) false) _) Hp Et).
    unfold timer_fired, on_sources, dispatch_release, source_at, bind, get, modify. cbn.
    by rewrite (proj2 (Z.eqb_neq _ 0)), Ed.
  - split; cbn; [by rewrite (sent_update _ p t (stopped t) Et)| | |done].
    + apply (ledger_update _ _ _ _ p t _ Hl Et); [by destruct W|done].
    + rewrite <- Es. by apply timers_drop.
Qed.

(** The whole handler, when nothing comes between. *)
Lemma timer_handler_done c m held pending src x : trans_holds c m held pending -> t_sources c !! src = Some x ->
  exists p t d, t_heap c !! p = Some t /\ tr_timeout t = mkTimeout src true /\ x = armed p d /\
    timer_handler src c = Done (tt, set_timers (delete src (t_sources c))
      (set_heap (<[p := stopped t]> (t_heap c)) (set_queue (t_queue c ++ [TaskRetry (tr_id t)]) c))) /\
    trans_holds (set_timers (delete src (t_sources c))
      (set_heap (<[p := stopped t]> (t_heap c)) (set_queue (t_queue c ++ [TaskRetry (tr_id t)]) c))) m held pending.
Proof.
  intros H Ex.
  assert (Ea : src_armed x = true) by (by destruct (tm_source _ _ _ (th_timers _ _ _ _ H) src x Ex) as (p & t & d & _ & _ & ->)).
  destruct (timer_block_done c m held pending src x H Ex Ea) as (p & t & d & Et & Etm & -> & _ & E1 & H1).
  exists p, t, d. do 3 (split; [done|]). destruct (timer_rest_done _ _ _ _ p H1) as (t' & Et' & _ & E2 & H2).
  { unfold take_off. by rewrite Z.eqb_refl. }
  cbn in Et'. rewrite Et in Et'. injection Et' as <-. rewrite Etm in E2, H2. cbn in E2, H2. rewrite delete_insert_eq in E2, H2.
  split; [unfold timer_handler; by rewrite (bind_done _ _ _ _ _ E1)|].
  destruct H2 as [Hm Hl Ht Hc]. split; [done..| |done]. apply (timers_flight (flight := land p (take_off p no_flight))); [|done].
  intros q. unfold land, take_off, no_flight. by destruct (q =? p).
Qed.

(** ** Removing every transaction *)

(** What removing leaves alone. *)
Record quiet (c c' : TransactionConfiguration) : Prop := {
  qt_queue : t_queue c' = t_queue c;
  qt_events : t_events c' = t_events c;
  qt_blocks : s_blocks (t_socket c') = s_blocks (t_socket c);
  qt_delivered : s_delivered (t_socket c') = s_delivered (t_socket c);
  qt_heap : t_heap c' ⊆ t_heap c;
  qt_settings : t_isEnabled c' = t_isEnabled c /\ t_receiveCallback c' = t_receiveCallback c /\
    t_errorCallback c' = t_errorCallback c;
}.

#[export] Instance quiet_preorder : PreOrder quiet.
Proof.
  split; [intros c; split; done|]. intros x y z [a1 a2 a3 a4 a5 (a6 & a7 & a8)] [b1 b2 b3 b4 b5 (b6 & b7 & b8)].
  split; try congruence; [by etrans|]. repeat split; congruence.
Qed.

Lemma remove_entry {flight} c m held pending id p `{!Grounded flight p} : flight_holds flight c m held pending -> m !! id = Some p ->
  exists c', (on_table (hashtable_delete id) ;; transactionDestroyTimeout p ;; transactionFree p) c = Done (tt, c') /\
    flight_holds flight c' (delete id m) held pending /\ quiet c c' /\ t_heap c' = delete p (t_heap c) /\
    ht_max_key (t_transactions c') = ht_max_key (t_transactions c).
Proof.
  intros H E. pose proof H as [Hm Hl Ht Hc].
  destruct (entry_address c m held pending id p H E) as (t & Et & W & Ei). pose proof (tw_address _ _ W) as Hp.
  destruct (ledger_delete _ _ _ _ id p Hl E) as (table' & Ed & Hl').
  rewrite (bind_done _ _ _ _ _ (on_table_done _ c tt table' Ed)). set (c1 := set_table table' c).
  rewrite (bind_done _ _ _ _ _ (destroy_timeout_done c1 p t Ht Hp Et)). set (c2 := set_timers _ _).
  assert (E2 : t_heap c2 !! p = Some (stopped t)) by (cbn; apply lookup_insert_eq).
  assert (Eh : delete p (t_heap c2) = delete p (t_heap c)) by (cbn; apply delete_insert_eq).
  destruct (free_done c2 p (stopped t) (task_packets (t_queue c)) held pending Hp E2) as (s' & Ef & H' & Q & Pk).
  { change (sent (t_heap c2)) with (sent (<[p := stopped t]> (t_heap c))). by rewrite (sent_update _ p t (stopped t) Et). }
  rewrite Eh in *. rewrite Ef. eexists. split; [reflexivity|]. destruct Q as [q1 q2 q3 q4 q5 q6]. split; [|split; [|split; [done|]]].
  - split; cbn; [exact H'|exact Hl'| |done].
    pose proof (timers_stop _ _ p t (stopped t) Ht Et eq_refl) as Hs.
    pose proof (timers_free _ _ p (stopped t) Hs (lookup_insert_eq _ _ _) eq_refl) as Hf.
    by rewrite delete_insert_eq in Hf.
  - split; cbn; try done. apply delete_subseteq.
  - cbn. by rewrite (lg_max _ _ _ _ Hl'), (lg_max _ _ _ _ Hl).
Qed.

Lemma remove_keys_holds {flight} n k c m held pending `{G : !AllGrounded flight m} : flight_holds flight c m held pending ->
  0 <= k <= kTransactionMaxId + 1 -> kTransactionMaxId + 1 - k < Z.of_nat n ->
  (forall j, j < k -> m !! j = None) ->
  exists c', remove_keys n k c = Done (tt, c') /\ flight_holds flight c' ∅ held pending /\ quiet c c' /\
    forall id p, m !! id = Some p -> t_heap c' !! p = None.
Proof.
  revert G. revert k c m. induction n as [|n IH]; intros k c m G H Hk Hn Hz; [lia|]. cbn [remove_keys]. rewrite bind_get.
  pose proof (th_ledger _ _ _ _ H) as Hl. pose proof (lg_table _ _ _ _ Hl) as Hh. rewrite (lg_max _ _ _ _ Hl).
  destruct (Z.leb_spec k kTransactionMaxId) as [Hle|Hgt]; cbn [negb].
  - unfold bind at 1, lift. rewrite (hashtable_load _ m k Hh) by (rewrite (lg_max _ _ _ _ Hl); lia).
    unfold kTransactionMaxId in *. rewrite u32_small by lia.
    destruct (m !! k) as [p|] eqn:E.
    + destruct (hh_keys _ _ Hh k p E) as [_ Hp]. change (default 0 (Some p)) with p.
      rewrite (proj2 (Z.eqb_neq p 0)) by done. cbn [negb].
      pose proof (all_grounded k p E : Grounded flight p) as Gp.
      destruct (remove_entry c m held pending k p H E) as (c1 & E1 & H1 & Q1 & Eh & _).
      rewrite (bind_done _ _ _ _ _ E1). destruct (IH (k + 1) c1 (delete k m) _ H1) as (c' & E' & H' & Q' & Hf); [lia|lia| |].
      { intros j Hj. destruct (decide (j = k)) as [->|Hne]; [apply lookup_delete_eq|].
        rewrite lookup_delete_ne by done. apply Hz. lia. }
      exists c'. split; [done|]. split; [done|]. split; [by etrans|]. intros id q Eq.
      destruct (decide (id = k)) as [->|Hne]; [|apply (Hf id); by rewrite lookup_delete_ne].
      rewrite E in Eq. injection Eq as <-. pose proof (qt_heap _ _ Q') as Sub. rewrite Eh in Sub.
      destruct (t_heap c' !! p) as [t|] eqn:Ex; [|done].
      pose proof (lookup_weaken _ _ _ _ Ex Sub) as Ey. by rewrite lookup_delete_eq in Ey.
    + change (default 0 None) with 0. cbn [Z.eqb negb]. rewrite bind_ret_l.
      apply (IH (k + 1) c m G H); [lia|lia|]. intros j Hj. destruct (decide (j = k)) as [->|Hne]; [done|]. apply Hz. lia.
  - assert (Em : m = ∅).
    { apply map_eq. intros j. rewrite lookup_empty. destruct (m !! j) as [p|] eqn:E; [|done].
      destruct (hh_keys _ _ Hh j p E) as [Hj _]. rewrite (lg_max _ _ _ _ Hl) in Hj. rewrite Hz in E by lia. done. }
    subst m. exists c. split; [done|]. split; [done|]. split; [done|]. intros id p Eq. by rewrite lookup_empty in Eq.
Qed.

Lemma removeAll_holds {flight} c m held pending `{!AllGrounded flight m} : flight_holds flight c m held pending ->
  exists c', transactionRemoveAll c = Done (tt, c') /\ flight_holds flight c' ∅ held pending /\ quiet c c' /\
    forall id p, m !! id = Some p -> t_heap c' !! p = None.
Proof.
  intros H. unfold transactionRemoveAll. rewrite bind_get.
  pose proof (th_ledger _ _ _ _ H) as Hl. pose proof (lg_table _ _ _ _ Hl) as Hh.
  pose proof (hh_length _ _ Hh) as L. rewrite (lg_max _ _ _ _ Hl) in L. unfold zlen, kTransactionMaxId in L.
  apply (remove_keys_holds _ 0 c m held pending H); unfold kTransactionMaxId; [lia|lia|].
  intros j Hj. destruct (m !! j) as [p|] eqn:E; [|done]. destruct (hh_keys _ _ Hh j p E). lia.
Qed.

(** ** Receiving a packet *)

(** The task a packet with this header becomes. *)
Definition route (r : UnpackResult) (hdr : Z * Z) (packet : Z) : list transaction_task :=
  if decide (r = UnpackValid) then
    if snd hdr =? TransactionTypeResponse then [TaskResponse packet (fst hdr)]
    else if snd hdr =? TransactionTypeRequest then [TaskRequest packet (fst hdr)]
    else []
  else [].

(** Only the socket and the queue have changed. *)
Definition received (c c' : TransactionConfiguration) (tasks : list transaction_task) : Prop :=
  c' = set_queue (t_queue c ++ tasks) (set_socket (t_socket c') c) /\
  s_blocks (t_socket c') = s_blocks (t_socket c) /\ s_wire (t_socket c') = s_wire (t_socket c) /\
  s_delivered (t_socket c') = s_delivered (t_socket c).

(** A task that holds a packet. *)
Lemma did_receive {flight} c m held pending packet k task : flight_holds flight c m (packet :: held) pending ->
  s_packets (t_socket c) !! packet = Some k -> readable k -> Z.of_nat (outgoing (t_socket c) pending) + 65 < 2 ^ 32 ->
  task_packet task = [packet] -> task_insert task = [] -> 0 <= task_id task ->
  exists c', ((on_socket (net_packet_retain packet) ;; dispatch_async task) ;;
              on_socket (net_packet_release packet)) c = Done (tt, c') /\
    flight_holds flight c' m held pending /\ received c c' [task] /\ s_packets (t_socket c') = s_packets (t_socket c).
Proof.
  intros [Hm Hl Ht Hc] Ek R Hlen Ep Ei Hid.
  destruct (mail_retain_release _ _ _ _ _ _ Hm Hlen) as (s1 & s2 & E1 & E2 & [q1 q2 q3 q4 q5 q6] & P1 & P2 & H2).
  rewrite bind_assoc, (bind_done _ _ _ _ _ (trans_socket_done _ c tt s1 E1)).
  unfold dispatch_async. rewrite bind_modify. set (c1 := set_queue _ _).
  rewrite (trans_socket_done _ c1 tt s2 E2). eexists. split; [reflexivity|]. split; [|split; [by split|done]].
  split; cbn; [|by apply ledger_push|done|done].
  rewrite task_packets_app. unfold task_packets at 2. cbn. rewrite Ep, app_nil_r, Permutation_app_comm. cbn.
  apply mail_keep_task; [done|]. exists k. by rewrite P2.
Qed.

Lemma callback_holds {flight} c m held pending packet k out : flight_holds flight c m (packet :: held) pending ->
  s_packets (t_socket c) !! packet = Some k -> unread k -> Z.of_nat (outgoing (t_socket c) pending) + 65 < 2 ^ 32 ->
  exists c' tasks, transactionSocketReceiveCallback out packet c = Done (tt, c') /\
    flight_holds flight c' m held pending /\ received c c' tasks /\
    (forall x, x <> packet -> s_packets (t_socket c') !! x = s_packets (t_socket c) !! x) /\
    if t_isEnabled c then exists r hdr n,
      transactionProtocolUnpackHeader out (pk_bitstream k) = Done ((r, hdr), skip (pk_bitstream k) n) /\
      tasks = route r hdr packet /\
      s_packets (t_socket c') !! packet = Some (mkPacket (pk_addr k) (pk_length k) (skip (pk_bitstream k) n))
    else tasks = [].
Proof.
  intros H Ek U Hlen. unfold transactionSocketReceiveCallback. rewrite bind_get.
  assert (Rel : forall c1, flight_holds flight c1 m (packet :: held) pending -> 
    exists c', (ret tt ;; on_socket (net_packet_release packet)) c1 = Done (tt, c') /\
      flight_holds flight c' m held pending /\ received c1 c' [] /\ s_packets (t_socket c') = s_packets (t_socket c1)).
  { intros c1 [Hm1 Hl1 Ht1 Hc1]. rewrite bind_ret_l.
    destruct (mail_release _ _ _ _ _ _ Hm1) as (s' & E & [q1 q2 q3 q4 q5 q6] & P & H').
    rewrite (trans_socket_done _ c1 tt s' E). eexists. split; [reflexivity|]. split; [by split|]. split; [|done].
    split; [|done]. cbn. rewrite app_nil_r. by destruct c1. }
  destruct (t_isEnabled c) eqn:En.
  2:{ destruct (Rel c H) as (c' & E & H' & R & P). exists c', []. split; [done|]. split; [done|]. split; [done|].
      split; [|done]. intros x Hx. by rewrite P. }
  pose proof H as [Hm Hl Ht Hc]. destruct (mail_apart _ _ _ _ _ _ Hm) as (_ & _ & _ & _ & Hp & _).
  destruct (readable_room k (readable_unread k U)) as [W Hr].
  destruct (unpack_transaction_header_accepts (H := LittleEndian) out (pk_bitstream k) W ltac:(lia)) as (r & hdr & n & Eu & Hn & Hv).
  rewrite bind_assoc.
  rewrite (bind_done _ _ _ _ _ (trans_socket_done _ c _ _ (on_bitstream_done (t_socket c) packet k _ _ _ Hp Ek Eu))).
  cbn beta iota. set (k' := mkPacket _ _ _). set (s1 := set_packets _ _). set (c1 := set_socket s1 c).
  assert (Rk : readable k').
  { split; [apply skip_packet_wf, U| |exact (ur_bound _ U)]. cbn. rewrite (ur_offset _ U). lia. }
  assert (H1 : flight_holds flight c1 m (packet :: held) pending).
  { split; [|done..]. apply (mail_write _ _ _ _ _ _ k); [done|done|apply Rk|done]. }
  assert (Ek1 : s_packets (t_socket c1) !! packet = Some k') by (cbn; apply lookup_insert_eq).
  assert (Fin : forall c' tasks, received c1 c' tasks -> s_packets (t_socket c') = s_packets (t_socket c1) ->
    received c c' tasks /\
    (forall x, x <> packet -> s_packets (t_socket c') !! x = s_packets (t_socket c) !! x) /\
    s_packets (t_socket c') !! packet = Some k').
  { intros c' tasks (Ec & Rb & Rw & Rd) P. split; [split; [exact Ec|done]|]. rewrite P. split; [|done].
    intros x Hx. cbn. by rewrite lookup_insert_ne. }
  assert (Go : exists c', ((if decide (r = UnpackValid) then
       if snd hdr =? TransactionTypeResponse then transactionDidReceiveResponse packet (fst hdr)
       else if snd hdr =? TransactionTypeRequest then transactionDidReceiveRequest packet (fst hdr)
       else ret tt
     else ret tt) ;; on_socket (net_packet_release packet)) c1 = Done (tt, c') /\ flight_holds flight c' m held pending /\
     received c1 c' (route r hdr packet) /\ s_packets (t_socket c') = s_packets (t_socket c1)).
  { unfold route. destruct (decide (r = UnpackValid)) as [Hr1|]; [|by apply Rel].
    destruct (Hv Hr1) as (_ & [Hid _] & _).
    destruct (snd hdr =? TransactionTypeResponse); [|destruct (snd hdr =? TransactionTypeRequest); [|by apply Rel]].
    - by apply (did_receive c1 m held pending packet k' (TaskResponse packet (fst hdr)) H1).
    - by apply (did_receive c1 m held pending packet k' (TaskRequest packet (fst hdr)) H1). }
  destruct Go as (c' & E & H' & Rc & P). destruct (Fin c' _ Rc P) as (F1 & F2 & F3).
  exists c', (route r hdr packet). split; [exact E|]. do 3 (split; [done|]). by exists r, hdr, n.
Qed.

Lemma route_one r hdr packet : route r hdr packet = [] \/
  exists task, route r hdr packet = [task] /\ task_insert task = [].
Proof.
  unfold route. destruct (decide _); [|by left].
  destruct (_ =? _); [right; by eexists|]. destruct (_ =? _); [right; by eexists|by left].
Qed.

Lemma deliver_holds {flight} c m held pending i out : flight_holds flight c m held pending ->
  Z.of_nat (outgoing (t_socket c) pending) + 65 < 2 ^ 32 ->
  exists c' tasks, deliver out i c = Done (tt, c') /\ flight_holds flight c' m held pending /\
    outgoing (t_socket c') pending = outgoing (t_socket c) pending /\
    t_heap c' = t_heap c /\ t_queue c' = t_queue c ++ tasks /\
    (tasks = [] \/ exists task, tasks = [task] /\ task_insert task = []).
Proof.
  intros [Hm Hl Ht Hc] Hlen. unfold deliver. rewrite bind_get.
  destruct (s_delivered (t_socket c) !! i) as [packet|] eqn:Ei;
    [|exists c, []; rewrite app_nil_r; split; [done|]; split; [done|]; repeat split; by left].
  destruct (mail_take _ _ _ _ _ i packet Hm Ei) as (H1 & k & Ek & U).
  rewrite (bind_done _ _ _ _ _ (trans_socket_done (modify _) c tt _ eq_refl)). set (c1 := set_socket _ c).
  destruct (callback_holds (flight := flight) c1 m held pending packet k out) as (c' & tasks & E & H' & (Ec & Rb & _) & _ & R); [by split|done..|].
  exists c', tasks. split; [done|]. split; [done|]. split; [unfold outgoing; by rewrite Rb|].
  split; [by rewrite Ec|]. split; [by rewrite Ec|]. change (t_isEnabled c1) with (t_isEnabled c) in R.
  destruct (t_isEnabled c); [|by left]. destruct R as (r & hdr & n & _ & -> & _). apply route_one.
Qed.
