(* ===== verification/TransactionRun.v ===== *)
(** * A request that is not answered

    A request, its retries and its end, when nothing else happens to the
    agent; and the agents the examples start from. *)
From S2P Require Import Prelude Bitstream Wire Fields Net Protocol TransactionProtocol TransactionProtocolSpec.
From S2P Require Import Hashtable Queue Pool NetSocket NetSocketSpec Timeout Transaction TransactionSpec TransactionStep.

Section Runs.
Context {order : Host}.
Context (calloc : gmap Z Transaction -> Z).
Context (source_create : gmap Z source -> Z).
Context (malloc_node : gmap Z queue_node_s -> option (Z * queue_node_s)).


Hypothesis calloc_fresh : fresh_address calloc.
Hypothesis source_fresh : fresh_address source_create.
Hypothesis malloc_node_fresh : malloc_fresh malloc_node.
Hypothesis malloc_node_some : forall h, malloc_node h <> None.

Definition source_new : forall m, m !! source_create m = None := fun m => proj2 (source_fresh m).

Lemma started_valid sources : valid (started source_create sources) = true.
Proof. cbn. by rewrite (proj2 (Z.eqb_neq _ 0)) by apply source_fresh. Qed.

(** The first task, other than an insertion, leaves the queue with its
    packet. *)
Lemma pop_holds {flight} c m held pending task tasks : flight_holds flight c m held pending -> t_queue c = task :: tasks ->
  task_insert task = [] ->
  flight_holds flight (set_queue tasks c) m (task_packet task ++ held) pending /\ 0 <= task_id task /\
  forall packet, task_packet task = [packet] -> exists k, s_packets (t_socket c) !! packet = Some k /\ readable k.
Proof.
  intros [Hm Hl Ht Hc] E Ei. rewrite E in Hm, Hl. destruct (ledger_pop _ _ _ _ _ Hl Ei) as [Hl' Hid].
  assert (K : mail_holds (t_socket c) (sent (t_heap c)) (task_packets tasks) (task_packet task ++ held) pending /\
    forall packet, task_packet task = [packet] -> exists k, s_packets (t_socket c) !! packet = Some k /\ readable k).
  { unfold task_packets in Hm. cbn [mbind list_bind] in Hm. fold (task_packets tasks) in Hm.
    destruct task; cbn [task_packet app] in *; try (split; [done|by intros ? [=]]);
      destruct (mail_hold_task _ _ _ _ _ _ Hm) as [H1 H2]; (split; [done|]); by intros packet' [= <-]. }
  destruct K as [K1 K2]. split; [by split|done].
Qed.

(** ** Expiring *)

(** The timer of a transaction fires and the retry it dispatches is run; the
    result is the delay of the timer, in nanoseconds. *)
Definition expire (transaction : Z) : prog TransactionConfiguration Z :=
  t <- get_transaction transaction ;;
  c <- get ;;
  x <- lift (source_at (t_sources c) (timerDispatchSource (tr_timeout t))) ;;
  timer_handler (timerDispatchSource (tr_timeout t)) ;;
  run_task source_create ;;
  ret (src_delay x).

(** The delay, in milliseconds, after a number of retries. *)
Definition delay (n : Z) : Z := if n =? 0 then kTransactionInitialRto else retry_rto n.

(** The transaction [p] of the configuration [c0], whose packet [o] was queued
    [n + 1] times; what became of the packets is not said. *)
Record awaits (c0 : TransactionConfiguration) (id p o n : Z) (k : net_packet_s) (c : TransactionConfiguration) : Prop := {
  aw_heap : t_heap c =
    <[p := mkTransaction TransactionWaiting id o n (started source_create (t_sources c0)) p]> (t_heap c0);
  aw_sources : t_sources c = with_timer source_create p (delay n) (t_sources c0);
  aw_queue : t_queue c = [];
  aw_packet : s_packets (t_socket c) !! o = Some k;
  aw_events : t_events c = t_events c0;
  aw_error : t_errorCallback c = t_errorCallback c0;
  aw_enabled : t_isEnabled c = t_isEnabled c0;
  aw_delivered : s_delivered (t_socket c) = s_delivered (t_socket c0);
}.

Lemma carries_again k address bytes : carries k address bytes ->
  mkPacket (pk_addr k) (bs_offset (pk_bitstream k)) (pk_bitstream k) = k.
Proof. intros [[_ _ O _] L]. destruct k as [a l b]. cbn in *. congruence. Qed.

Lemma with_timer_lookup p ms sources :
  with_timer source_create p ms sources !! source_create sources = Some (armed p (u64 (ms * kNSEC_PER_MILLISEC))) /\
  delete (source_create sources) (with_timer source_create p ms sources) = sources.
Proof.
  unfold with_timer. destruct (source_fresh sources) as [H0 Hn]. rewrite (proj2 (Z.eqb_neq _ 0)) by done.
  split; [apply lookup_insert_eq|by apply delete_insert_id].
Qed.

(** What fires: the retry is the only task, and the timer is gone. *)
Lemma awaits_fires c0 id p o n k c m held pending : awaits c0 id p o n k c -> trans_holds c m held pending ->
  exists c1, expire p c = (run_retry source_create id ;; ret (u64 (delay n * kNSEC_PER_MILLISEC))) c1 /\
    trans_holds c1 m held pending /\ t_queue c1 = [] /\ t_sources c1 = t_sources c0 /\
    t_heap c1 !! p = Some (mkTransaction TransactionWaiting id o n (mkTimeout (source_create (t_sources c0)) false) p) /\
    (forall t, <[p := t]> (t_heap c1) = <[p := t]> (t_heap c0)) /\ delete p (t_heap c1) = delete p (t_heap c0) /\
    t_socket c1 = t_socket c /\ t_events c1 = t_events c0 /\ t_errorCallback c1 = t_errorCallback c0 /\
    t_isEnabled c1 = t_isEnabled c0.
Proof.
  intros [a1 a2 a3 a4 a5 a6 a7 a8] H. set (t := mkTransaction _ _ _ _ _ _) in a1.
  assert (Et : t_heap c !! p = Some t) by (rewrite a1; apply lookup_insert_eq).
  destruct (with_timer_lookup p (delay n) (t_sources c0)) as [L D]. rewrite <- a2 in L, D.
  pose proof (tw_address _ _ (lg_heap _ _ _ _ (th_ledger _ _ _ _ H) p t Et)) as Hp.
  destruct (timer_handler_done c m held pending _ _ H L) as (p' & t' & d & Et' & _ & Ea & Eh & H1).
  injection Ea as _ <-. rewrite Et in Et'. injection Et' as <-.
  unfold expire. rewrite (bind_done _ _ _ _ _ (get_transaction_done c p t Hp Et)), bind_get.
  change (timerDispatchSource (tr_timeout t)) with (source_create (t_sources c0)).
  unfold bind at 1, lift. unfold source_at. rewrite (proj2 (Z.eqb_neq _ 0)) by apply source_fresh. rewrite L.
  rewrite (bind_done _ _ _ _ _ Eh). clear Eh. rewrite a3, D in *. cbn [app] in *.
  set (c1 := set_timers _ _) in *.
  destruct (pop_holds c1 m held pending (TaskRetry (tr_id t)) [] H1 eq_refl eq_refl) as (H2 & _ & _).
  cbn [task_packet app] in H2. exists (set_queue [] c1). split.
  - unfold run_task. rewrite bind_assoc, bind_get. change (t_queue c1) with [TaskRetry (tr_id t)]. cbv beta iota.
    rewrite bind_assoc, bind_modify. done.
  - split; [done|]. split; [done|]. split; [done|]. split; [cbn; apply lookup_insert_eq|].
    split; [intros u; cbn; by rewrite a1, !insert_insert_eq|]. split; [cbn; by rewrite a1, !delete_insert_eq|]. done.
Qed.

Lemma awaits_again c0 id p o n k c m held pending address bytes : awaits c0 id p o n k c -> trans_holds c m held pending ->
  m !! id = Some p -> carries k address bytes -> 0 < zlen bytes -> 0 <= n < kTransactionMaxRetries ->
  Z.of_nat (outgoing (t_socket c) pending) + 65 < 2 ^ 32 ->
  exists c', expire p c = Done (u64 (delay n * kNSEC_PER_MILLISEC), c') /\ awaits c0 id p o (n + 1) k c' /\
    trans_holds c' m held pending /\ s_blocks (t_socket c') = s_blocks (t_socket c) ++ [o] /\
    s_wire (t_socket c') = s_wire (t_socket c).
Proof.
  intros A H Em Hk Hz Hn Hlen.
  destruct (awaits_fires c0 id p o n k c m held pending A H) as (c1 & E & H1 & Q & S1 & Et & Hi & Hd & Es & Ev & Er & En).
  destruct A as [a1 a2 a3 a4 a5 a6 a7 a8]. rewrite E. clear E. set (t := mkTransaction _ _ _ _ _ _) in Et.
  destruct (run_retry_again source_create source_new c1 m held pending id p t k H1 Em Et) as
    (c' & Er' & H' & [h1 h2 h3 h4 h5 h6 h7 h8 (h10 & _ & h9)]); [by rewrite Es|apply Hn|by rewrite Es|].
  rewrite (bind_done _ _ _ _ _ Er'). exists c'. split; [done|].
  rewrite (pd_offset _ _ _ (cr_packed _ _ _ Hk)), (proj2 (Z.ltb_lt 0 (zlen bytes))) in h6 by done.
  rewrite (carries_again k _ _ Hk) in h5. change (tr_packet t) with o in *.
  change (others t (t_sources c1)) with (t_sources c1) in *. rewrite S1, Es in *.
  split; [|split; [done|split; [exact h6|exact h8]]]. split.
  - rewrite h1, Hi. done.
  - rewrite h2. unfold delay. by rewrite (proj2 (Z.eqb_neq (n + 1) 0)) by lia.
  - congruence.
  - rewrite h5. apply lookup_insert_eq.
  - congruence.
  - congruence.
  - congruence.
  - congruence.
Qed.

Lemma awaits_fails c0 id p o k c m held pending : awaits c0 id p o kTransactionMaxRetries k c -> trans_holds c m held pending ->
  m !! id = Some p ->
  exists c', expire p c = Done (u64 (delay kTransactionMaxRetries * kNSEC_PER_MILLISEC), c') /\
    trans_holds c' (delete id m) held pending /\ t_heap c' = delete p (t_heap c0) /\ t_sources c' = t_sources c0 /\
    t_events c' = t_events c0 ++ ending TransactionTimeout (t_errorCallback c0) (pk_addr k) /\
    s_packets (t_socket c') = s_packets (t_socket c) /\ s_blocks (t_socket c') = s_blocks (t_socket c) /\
    s_wire (t_socket c') = s_wire (t_socket c) /\ t_queue c' = [] /\ s_delivered (t_socket c') = s_delivered (t_socket c).
Proof.
  intros A H Em.
  destruct (awaits_fires c0 id p o _ k c m held pending A H) as (c1 & E & H1 & Q & S1 & Et & Hi & Hd & Es & Ev & Er & En).
  destruct A as [a1 a2 a3 a4 a5 a6 a7 a8]. rewrite E. clear E. set (t := mkTransaction _ _ _ _ _ _) in Et.
  destruct (run_retry_fail source_create c1 m held pending id p t H1 Em Et eq_refl) as
    (c' & k' & Ec & Ek & H' & [h1 h2 h3 h4 h5 h6 h7 h8 h9]).
  rewrite (bind_done _ _ _ _ _ Ec). exists c'. split; [done|]. change (tr_packet t) with o in Ek.
  rewrite Es, a4 in Ek. injection Ek as <-. change (others t (t_sources c1)) with (t_sources c1) in h2.
  rewrite Q, S1, Es, Ev, Er, Hd in *. done.
Qed.

(** A request made by an agent that has nothing else to do, and inserted. *)
Lemma request_awaits c m held pending address object : trans_holds c m held pending -> t_queue c = [] ->
  sendable_object object -> net_packet_alloc (t_socket c) <> Done (0, t_socket c) ->
  Z.of_nat (outgoing (t_socket c) pending) + 65 < 2 ^ 32 ->
  let p := calloc (t_heap c) in
  exists c' o k, (transactionRequest calloc source_create address object ;; run_task source_create) c = Done (tt, c') /\
    awaits c (t_cseq c) p o 0 k c' /\ trans_holds c' (<[t_cseq c := p]> m) held pending /\
    carries k address (request_bytes (t_cseq c) object) /\ t_heap c !! p = None /\
    s_blocks (t_socket c') = s_blocks (t_socket c) ++ [o] /\ s_wire (t_socket c') = s_wire (t_socket c) /\
    t_cseq c' = (t_cseq c + 1) mod kTransactionMaxId.
Proof.
  intros H Q Hob Hne Hlen p.
  destruct (request_holds calloc source_create calloc_fresh source_new c m held pending address object H Hob Hlen)
    as [Ex|(c1 & o & k & E1 & H1 & [h1 h2 h3 h4 [g1 g2 g3 g4 g5] h6 h7 h8 (k1 & k2 & k3)])]; [done|].
  rewrite (bind_done _ _ _ _ _ E1). fold p in h1, h2, h3. rewrite Q in h3. cbn [app] in h3.
  pose proof H1 as [Hm Hl Ht Hc]. rewrite h3 in Hl, Hm.
  destruct (ledger_insert _ _ _ _ (t_cseq c) p Hl) as (table' & Ei & Hl').
  unfold run_task. rewrite bind_get, h3, bind_modify. cbv beta iota.
  rewrite (on_table_done _ (set_queue [] c1) tt table' Ei). eexists _, o, k. split; [reflexivity|].
  split; [|split; [|split; [done|split; [apply calloc_fresh|split; [exact g3|done]]]]].
  - split; cbn; try done. rewrite g2. apply lookup_insert_eq.
  - by split.
Qed.

Lemma bind_thrice {A} (f : Z -> list A) o x : f o = [x] -> [o; o; o] ≫= f = [x; x; x].
Proof. intros E. cbn. by rewrite E. Qed.

End Runs.

(** *** Concrete instances *)

Definition fresh_agent (s : net_socket_s) : TransactionConfiguration :=
  mkTransactions [] (hashtable_create true kTransactionMaxId) 0 s true 1 1 ∅ ∅ [].

Lemma fresh_agent_holds s : socket_holds s [] [] -> s_delivered s = [] -> has_receiver (s_receiver s) = true ->
  trans_holds (fresh_agent s) ∅ [] [].
Proof.
  intros Hs Ed Hr. split; cbn [fresh_agent t_socket t_heap t_queue t_transactions t_sources t_cseq].
  - change (sent ∅) with (@nil Z). change (task_packets []) with (@nil Z).
    split; rewrite ?Ed; cbn [app]; [exact Hs|apply NoDup_nil_2| | | |exact Hr]; by intros o Ho%not_elem_of_nil.
  - split; [by apply hashtable_create_holds|done| | | |apply NoDup_nil_2|apply Forall_nil_2].
    + intros p t E. by rewrite lookup_empty in E.
    + intros id p E. by rewrite lookup_empty in E.
    + intros id p Hin. by apply not_elem_of_nil in Hin.
  - split; [intros src x E|intros p t E|done]; by rewrite lookup_empty in E.
  - by split.
Qed.

Definition demo_agent : TransactionConfiguration := fresh_agent demo_socket.

Lemma demo_agent_holds : trans_holds demo_agent ∅ [] [].
Proof.
  destruct demo_socket_holds as (Hs & _ & Hr).
  apply (fresh_agent_holds demo_socket); [exact Hs|exact (proj1 demo_socket_quiet)|exact Hr].
Qed.

Lemma demo_agent_outgoing : outgoing (t_socket demo_agent) [] = 0%nat.
Proof. unfold outgoing. change (t_socket demo_agent) with demo_socket. by rewrite (proj2 demo_socket_quiet). Qed.

Lemma alloc_free s owners pending : socket_holds s owners pending -> exhausted s owners pending = false ->
  net_packet_alloc s <> Done (0, s).
Proof.
  intros Hs F E. destruct (alloc_holds s owners pending Hs) as (o & s' & Ea & _ & A).
  unfold exhausted in F. rewrite F in A. destruct A as (Ho & _). rewrite E in Ea. by injection Ea as <- _.
Qed.

Lemma demo_agent_alloc : net_packet_alloc demo_socket <> Done (0, demo_socket).
Proof. exact (alloc_free demo_socket [] [] (proj1 demo_socket_holds) demo_socket_free). Qed.

Definition demo_transaction_object : TransactionObject := ObjOffline (112 :: 49 :: zeros 30).

Lemma demo_transaction_object_ok {order : Host} : sendable_object demo_transaction_object.
Proof.
  split; [|by destruct order]. split; [|split; reflexivity].
  repeat constructor; discriminate || (cbn; lia).
Qed.

Definition demo_peer_address : net_addr_t := mkAddr AF_INET 7000 1.

