(* ===== verification/TransactionAnswer.v ===== *)
(** * Requests and their answers

    A request on its way from one agent to another and the response on its
    way back; what the other outcomes of a response are; and the faults of
    the component: late responses, an empty pool, reused ids, a timer that
    fires while its transaction ends. *)
From S2P Require Import Prelude Bitstream Wire Fields Net Protocol TransactionProtocol TransactionProtocolSpec.
From S2P Require Import Hashtable Queue Pool NetSocket NetSocketSpec Timeout Transaction TransactionSpec TransactionStep.
From S2P Require Import TransactionRun.

(** ** A datagram on its way to the queue *)

(** The packets of the pool that are in use. *)
Definition busy (c : TransactionConfiguration) (held pending : list Z) : Z :=
  Z.of_nat (size (counts_of (references (t_socket c)
    (sent (t_heap c) ++ s_delivered (t_socket c) ++ task_packets (t_queue c) ++ held) pending))).

Lemma busy_alloc c m held pending : trans_holds c m held pending -> busy c held pending < kNetPacketPoolCapacity ->
  net_packet_alloc (t_socket c) <> Done (0, t_socket c).
Proof.
  intros [Hm _ _ _] Hb E. destruct (alloc_holds _ _ _ (ml_socket _ _ _ _ _ Hm)) as (o & s' & Ea & _ & A).
  fold (busy c held pending) in A. rewrite (proj2 (Z.eqb_neq _ _)) in A by lia.
  destruct A as (Ho & _). rewrite E in Ea. by injection Ea as <- _.
Qed.

(** The task of a packet with this header. *)
Definition task_of (type packet id : Z) : transaction_task :=
  if type =? TransactionTypeResponse then TaskResponse packet id else TaskRequest packet id.

(** A datagram was read, delivered and queued in the packet [o]. *)
Record queued (c c' : TransactionConfiguration) (address : net_addr_t) (type id : Z) (body : list Z) (o : Z)
    (k : net_packet_s) : Prop := {
  qd_state : c' = set_queue [task_of type o id] (set_socket (t_socket c') c);
  qd_packet : s_packets (t_socket c') !! o = Some k;
  qd_readable : readable k;
  qd_addr : pk_addr k = address;
  qd_body : ahead (pk_bitstream k) body;
  qd_others : forall x, x <> o -> s_packets (t_socket c') !! x = s_packets (t_socket c) !! x;
  qd_blocks : s_blocks (t_socket c') = s_blocks (t_socket c);
  qd_wire : s_wire (t_socket c') = s_wire (t_socket c);
  qd_delivered : s_delivered (t_socket c') = [];
}.

(** What an agent that has nothing else to do needs to receive a packet. *)
Record idle (c : TransactionConfiguration) (held pending : list Z) : Prop := {
  id_enabled : t_isEnabled c = true;
  id_queue : t_queue c = [];
  id_delivered : s_delivered (t_socket c) = [];
  id_busy : busy c held pending < kNetPacketPoolCapacity;
  id_outgoing : Z.of_nat (outgoing (t_socket c) pending) + 65 < 2 ^ 32;
}.

(** What has happened to an agent meanwhile, when it is done, has taken no
    packet out of the pool. *)
Lemma busy_done c c' held pending : t_heap c' = t_heap c -> t_queue c' = [] -> s_delivered (t_socket c') = [] ->
  s_blocks (t_socket c') = [] -> busy c' held [] <= busy c held pending.
Proof.
  intros Eh Eq Ed Eb. unfold busy. apply inj_le, count_subset. rewrite Eh, Eq, Ed. unfold references. rewrite Eb.
  change (task_packets []) with (@nil Z). intros x. rewrite !elem_of_app. rewrite !elem_of_nil. tauto.
Qed.

Section Answer.
Context {order : Host}.

(** A datagram arrives while nothing else does and a packet is left. *)
Lemma datagram_arrives c m held pending address bytes : trans_holds c m held pending ->
  s_delivered (t_socket c) = [] -> busy c held pending < kNetPacketPoolCapacity ->
  Forall byte bytes -> 0 < zlen bytes <= kNetPacketMaxLen ->
  exists s1 o k, read_event (Some (address, bytes)) (t_socket c) = Done (tt, s1) /\
    mail_holds s1 (sent (t_heap c)) (task_packets (t_queue c)) held pending /\ s_delivered s1 = [o] /\
    s_packets s1 = <[o := k]> (s_packets (t_socket c)) /\ s_blocks s1 = s_blocks (t_socket c) /\
    s_wire s1 = s_wire (t_socket c) /\ pk_addr k = address /\ unread k /\ ahead (pk_bitstream k) bytes /\
    (o ∉ references (t_socket c) (sent (t_heap c) ++ s_delivered (t_socket c) ++ task_packets (t_queue c) ++ held) pending).
Proof.
  intros [Hm Hl Ht Hc] Hdel Hb By Hz.
  destruct (read_event_holds _ _ _ (Some (address, bytes)) (ml_socket _ _ _ _ _ Hm) By) as (s1 & E1 & _ & Eb & Ew & Er & A).
  unfold exhausted in A. fold (busy c held pending) in A. rewrite (proj2 (Z.eqb_neq (busy c held pending) _)) in A by lia.
  destruct A as (o & k & Ho0 & Hn & Pk & H1 & Ed & Hh).
  assert (Ff : fits (Some (address, bytes)) = true) by (unfold fits; apply Z.leb_le; lia).
  assert (Fe : empty (Some (address, bytes)) = false) by (unfold empty; apply Z.eqb_neq; lia).
  rewrite Ff, Fe, (ml_receiver _ _ _ _ _ Hm) in Ed. rewrite Ff in H1. cbn [andb negb] in Ed.
  destruct (Hh Ff) as (Ka & Kd & U & _). exists s1, o, k. split; [done|]. split.
  { apply (mail_arrives (t_socket c) s1 _ _ _ _ o k); try done. intros Hin. apply Hn. unfold references. apply elem_of_app. by left. }
  split; [by rewrite Ed, Hdel|]. do 5 (split; [done|]). split; [by apply unread_ahead|done].
Qed.

Lemma receive_queued c m held pending address type id body out : trans_holds c m held pending ->
  t_isEnabled c = true -> t_queue c = [] -> s_delivered (t_socket c) = [] ->
  busy c held pending < kNetPacketPoolCapacity -> Z.of_nat (outgoing (t_socket c) pending) + 65 < 2 ^ 32 ->
  type = TransactionTypeResponse \/ type = TransactionTypeRequest -> uint_ok 1 id ->
  Forall byte body -> zlen body <= kNetPacketMaxLen - 5 ->
  exists c' o k, (on_socket (read_event (Some (address, enc_transaction_header id type ++ body))) ;; deliver out 0) c =
      Done (tt, c') /\
    trans_holds c' m held pending /\ queued c c' address type id body o k /\
    (o ∉ references (t_socket c) (sent (t_heap c) ++ s_delivered (t_socket c) ++ task_packets (t_queue c) ++ held) pending) /\
    busy c' held pending = busy c held pending + 1.
Proof.
  intros H En Hq Hdel Hb Hlen Hty Hid Bb Hz. pose proof H as [Hm Hl Ht Hc].
  set (bytes := enc_transaction_header id type ++ body).
  assert (Lz : zlen bytes = 5 + zlen body) by (unfold bytes; by rewrite zlen_app, zlen_transaction_header).
  pose proof (zlen_nonneg body) as Hb0.
  assert (Ut : uint_ok 1 type) by (by destruct Hty as [-> | ->]).
  assert (By : Forall byte bytes).
  { apply Forall_app. split; [|done]. apply (pack_transaction_header_emits id type). }
  destruct (datagram_arrives c m held pending address bytes H Hdel Hb By) as (s1 & o & k & E1 & Hm1 & Ed & Pk & Eb & Ew & Ka & U & Ah & Hn);
    [lia|].
  rewrite (bind_done _ _ _ _ _ (trans_socket_done (read_event _) c tt s1 E1)). set (c1 := set_socket s1 c).
  assert (Ei : s_delivered (t_socket c1) !! 0%nat = Some o) by (cbn; by rewrite Ed).
  destruct (mail_take _ _ _ _ _ 0 o Hm1 Ei) as (Hm2 & k' & Ek' & _).
  unfold deliver. rewrite bind_get, Ei.
  rewrite (bind_done _ _ _ _ _ (trans_socket_done (modify _) c1 tt _ eq_refl)). set (c2 := set_socket _ c1).
  assert (Ek : s_packets (t_socket c2) !! o = Some k) by (cbn; rewrite Pk; apply lookup_insert_eq).
  destruct (callback_holds (flight := no_flight) c2 m held pending o k out) as (c' & tasks & E & H' & (Ec & Rb & Rw & Rd) & Ro & R); [by split|done|done| |].
  { unfold outgoing in *. cbn. by rewrite Eb. }
  change (t_isEnabled c2) with (t_isEnabled c) in R. rewrite En in R. destruct R as (r & hdr & n & Eu & -> & Ekp).
  destruct (readable_room k (readable_unread k U)) as [W Rm].
  destruct (ahead_split _ _ _ W Ah) as [Ah1 Ah2]. unfold kNetPacketMaxLen in Hz.
  pose proof (unpack_transaction_header_parses out id type Hid Ut _ W
    ltac:(rewrite zlen_transaction_header; lia) Ah1) as Ep'.
  rewrite zlen_transaction_header in *. rewrite Eu in Ep'. injection Ep' as -> -> En'.
  assert (n = 5) as -> by lia. clear En'.
  assert (Rt : route UnpackValid (id, type) o = [task_of type o id]).
  { unfold route, task_of. cbn. destruct Hty as [-> | ->]; done. }
  rewrite Rt in *. exists c', o. eexists. split; [exact E|]. split; [done|].
  assert (Ec' : c' = set_queue [task_of type o id] (set_socket (t_socket c') c)) by (rewrite Ec at 1; cbn; by rewrite Hq).
  assert (Ed' : s_delivered (t_socket c') = []) by (rewrite Rd; cbn; by rewrite Ed).
  split; [split; [exact Ec'|exact Ekp| |exact Ka| | | | |exact Ed']|split; [exact Hn|]].
  - split; [apply skip_packet_wf, U| |exact (ur_bound _ U)]. cbn. rewrite (ur_offset _ U). lia.
  - exact Ah2.
  - intros x Hx. rewrite Ro by done. cbn. by rewrite Pk, lookup_insert_ne.
  - rewrite Rb. exact Eb.
  - rewrite Rw. exact Ew.
  - assert (Eh : t_heap c' = t_heap c) by (by rewrite Ec').
    assert (Eq : t_queue c' = [task_of type o id]) by (by rewrite Ec').
    unfold busy. rewrite Eh, Eq, Ed', Hdel, Hq.
    assert (Q : task_packets [task_of type o id] = [o]) by (unfold task_of; by destruct (_ =? _)). rewrite Q.
    rewrite Hdel, Hq in Hn. unfold references in *. rewrite Rb. change (s_blocks (t_socket c2)) with (s_blocks s1). rewrite Eb.
    change (task_packets []) with (@nil Z) in *. cbn [app] in *.
    rewrite <- Permutation_middle. cbn [app]. rewrite count_new by done. lia.
Qed.

(** ** A request is answered *)

Context (source_create : gmap Z source -> Z).
Context (malloc_node : gmap Z queue_node_s -> option (Z * queue_node_s)).
Hypothesis malloc_node_fresh : malloc_fresh malloc_node.
Hypothesis malloc_node_some : forall h, malloc_node h <> None.

(** The receiver of a request: the object reaches the application, and the
    response goes out. *)
Lemma request_is_answered c m held pending address id object out : host = LittleEndian -> trans_holds c m held pending ->
  t_isEnabled c = true -> t_queue c = [] -> s_delivered (t_socket c) = [] -> t_receiveCallback c <> 0 ->
  busy c held pending + 1 < kNetPacketPoolCapacity -> Z.of_nat (outgoing (t_socket c) pending) + 65 < 2 ^ 32 ->
  uint_ok 1 id -> sendable_object object -> receivable object ->
  exists c' earlier, (on_socket (read_event (Some (address, request_bytes id object))) ;; deliver out 0 ;;
      run_task source_create ;; on_socket (flush malloc_node)) c = Done (tt, c') /\
    t_events c' = t_events c ++ [EventReceive address object] /\
    s_wire (t_socket c') = s_wire (t_socket c) ++ earlier ++
      [(address, response_bytes id TransactionResponseTypeSuccess)] /\
    trans_holds c' m held [] /\ t_heap c' = t_heap c /\ t_receiveCallback c' = t_receiveCallback c /\
    idle c' held [] /\ busy c' held [] <= busy c held pending.
Proof.
  intros HL H En Hq Hdel Hrc Hb Hlen Hid [Hob Hfit] Hrv.
  pose proof (proj1 (pack_body_emits object Hob)) as By.
  destruct (receive_queued c m held pending address TransactionTypeRequest id (enc_request object) out H En Hq Hdel)
    as (c1 & o & k & E1 & H1 & [q1 q2 q3 q4 q5 q6 q7 q8 q9] & Hn & Hb1); [lia|done|by right|done|done|done|].
  rewrite <- bind_assoc. fold (request_bytes id object) in E1. rewrite (bind_done _ _ _ _ _ E1).
  assert (Eq : t_queue c1 = [TaskRequest o id]) by (by rewrite q1).
  destruct (pop_holds c1 m held pending (TaskRequest o id) [] H1 Eq eq_refl) as (H2 & _ & _). cbn [task_packet app] in H2.
  set (c2 := set_queue [] c1) in *. destruct (readable_room k q3) as [W Rm].
  assert (Hu : understood k UnpackValid object).
  { eexists. apply (unpack_request_parses HL object Hob Hrv); [done| |done]. unfold kNetPacketMaxLen in Hfit. lia. }
  assert (Hb2 : busy c2 (o :: held) pending = busy c1 held pending).
  { unfold busy, c2. by rewrite Eq. }
  destruct (run_request_done c2 m held pending o k id UnpackValid object H2 q2 q3 Hu)
    as [Ex|(c3 & s3 & o' & kr & E3 & H3 & Ec3 & Hkr & Ekr & B3 & D3 & W3 & _)].
  { unfold outgoing in *. cbn. by rewrite q7. }
  { exfalso. apply (busy_alloc c2 m (o :: held) pending H2); [lia|done]. }
  assert (Et : run_task source_create c1 = Done (tt, c3)).
  { unfold run_task. rewrite bind_get, Eq, bind_modify. exact E3. }
  rewrite (bind_done _ _ _ _ _ Et).
  destruct (mail_flush malloc_node malloc_node_fresh malloc_node_some _ _ _ _ _ (th_mail _ _ _ _ H3))
    as (s4 & E4 & H4 & B4 & P4 & D4 & W4).
  rewrite (trans_socket_done _ c3 tt s4 E4). eexists _, _. split; [reflexivity|].
  assert (S1 : t_events c1 = t_events c /\ t_receiveCallback c1 = t_receiveCallback c /\ t_heap c1 = t_heap c)
    by (rewrite q1; done).
  destruct S1 as (Ev1 & Er1 & Eh1).
  assert (Ev : t_events c3 = t_events c ++ [EventReceive address object]).
  { rewrite Ec3, q4. unfold reception, c2. cbn [t_events t_receiveCallback set_events set_socket set_queue].
    by rewrite Ev1, Er1, (proj2 (Z.eqb_neq (t_receiveCallback c) 0)). }
  assert (Eh : t_heap c3 = t_heap c) by (by rewrite Ec3).
  split; [exact Ev|]. split; [|split; [destruct H3; by split|split; [exact Eh|split; [rewrite Ec3; exact Er1|]]]].
  2:{ set (c4 := set_socket s4 c3). assert (Ed : s_delivered s4 = []) by (rewrite D4, Ec3; cbn; by rewrite D3).
    assert (L : busy c4 held [] <= busy c held pending) by (apply busy_done; [exact Eh|cbn; by rewrite Ec3|done..]).
    split; [|done]. split; [cbn; rewrite Ec3; cbn; rewrite q1; exact En|cbn; by rewrite Ec3|done|lia|unfold outgoing; cbn; by rewrite B4]. }
  cbn [t_socket set_socket]. rewrite W4. assert (Es : t_socket c3 = s3) by (by rewrite Ec3). rewrite Es, B3, W3, app_assoc, bind_app.
  change (s_wire (t_socket c2)) with (s_wire (t_socket c1)). rewrite q8. f_equal. f_equal.
  rewrite q4 in Hkr. cbn. rewrite (datagram_carries _ _ kr _ _ Ekr Hkr). done.
Qed.

(** ** A response comes back *)

Lemma ahead_response_type k type : readable k -> uint_ok 1 type -> ahead (pk_bitstream k) (enc_int U8 type) ->
  response_type k = type.
Proof.
  intros R Hu Ha. destruct (readable_room k R) as [W Rm].
  unfold response_type, transactionProtocolUnpackResponse.
  assert (E : bitstream_read_uint8 (pk_bitstream k) = Done (type, skip (pk_bitstream k) 1)).
  { pose proof (read_int_parses U8 type Hu _ W) as P. rewrite zlen_enc_int in P. apply P; [cbn; lia|done]. }
  by rewrite (bind_done _ _ _ _ _ E).
Qed.

(** Handling a response: a datagram, its delivery and its task. *)
Definition respond (address : net_addr_t) (id type : Z) (out : Z * Z) : prog TransactionConfiguration unit :=
  on_socket (read_event (Some (address, response_bytes id type))) ;; deliver out 0 ;; run_task source_create.

Lemma respond_queued c m held pending address id type out : trans_holds c m held pending -> idle c held pending ->
  uint_ok 1 id -> uint_ok 1 type ->
  exists c2 o k, respond address id type out c = run_response o id c2 /\ trans_holds c2 m (o :: held) pending /\
    c2 = set_socket (t_socket c2) c /\ s_packets (t_socket c2) !! o = Some k /\ readable k /\ response_type k = type /\
    (forall x, x <> o -> s_packets (t_socket c2) !! x = s_packets (t_socket c) !! x) /\
    s_blocks (t_socket c2) = s_blocks (t_socket c) /\ s_wire (t_socket c2) = s_wire (t_socket c) /\
    s_delivered (t_socket c2) = [] /\ busy c2 (o :: held) pending = busy c held pending + 1.
Proof.
  intros H [i1 i2 i3 i4 i5] Hid Hty.
  destruct (receive_queued c m held pending address TransactionTypeResponse id (enc_int U8 type) out H i1 i2 i3)
    as (c1 & o & k & E1 & H1 & [q1 q2 q3 q4 q5 q6 q7 q8 q9] & Hn & Hb1);
    [done|done|by left|done|apply (int_codec_emits U8)|rewrite zlen_enc_int; unfold kNetPacketMaxLen; cbn; lia|].
  assert (Eq : t_queue c1 = [TaskResponse o id]) by (by rewrite q1).
  destruct (pop_holds c1 m held pending (TaskResponse o id) [] H1 Eq eq_refl) as (H2 & _ & _). cbn [task_packet app] in H2.
  exists (set_queue [] c1), o, k. split.
  - unfold respond. rewrite <- bind_assoc. fold (response_bytes id type) in E1. rewrite (bind_done _ _ _ _ _ E1).
    unfold run_task. by rewrite bind_get, Eq, bind_modify.
  - split; [done|]. split; [rewrite q1 at 1; destruct c; cbn in *; by subst|]. do 2 (split; [done|]).
    split; [by apply ahead_response_type|]. do 4 (split; [done|]). rewrite <- Hb1. unfold busy. by rewrite Eq.
Qed.

Lemma response_ends c m held pending id p t address type out :
  trans_holds c m held pending -> idle c held pending -> uint_ok 1 id -> uint_ok 1 type ->
  m !! id = Some p -> t_heap c !! p = Some t ->
  exists c' k, respond address id type out c = Done (tt, c') /\
    s_packets (t_socket c) !! tr_packet t = Some k /\ trans_holds c' (delete id m) held pending /\
    hashtable_search (t_transactions c') id = Done 0 /\ t_heap c' = delete p (t_heap c) /\
    t_sources c' = others t (t_sources c) /\ s_blocks (t_socket c') = s_blocks (t_socket c) /\
    t_events c' = t_events c ++
      (if (type =? TransactionResponseTypeSuccess) || (t_errorCallback c =? 0) then [] else [EventError (pk_addr k)]) /\
    t_queue c' = [] /\ s_delivered (t_socket c') = [].
Proof.
  intros H Hi Hid Hty Em Et.
  destruct (respond_queued c m held pending address id type out H Hi Hid Hty) as
    (c2 & o & k & E & H2 & S2 & Ek & R & Ht & Ho & B2 & _ & D2 & _).
  assert (S : t_heap c2 = t_heap c /\ t_events c2 = t_events c /\ t_errorCallback c2 = t_errorCallback c /\
    t_sources c2 = t_sources c /\ t_queue c2 = t_queue c) by (rewrite S2; done). destruct S as (Eh & Ev & Ee & Es & Eq2). rewrite E.
  destruct (run_response_known (order := order) c2 m held pending o k id p t H2 (proj1 Hid) Ek R Em) as
    (c3 & kt & E3 & Ekt & H3 & h1 & h2 & h3 & h4 & h5 & h6); [by rewrite Eh|].
  exists c3, kt. split; [done|]. assert (Hne : tr_packet t <> o).
  { destruct (mail_apart _ _ _ _ _ _ (th_mail _ _ _ _ H2)) as (A1 & _). intros Eq. apply A1. rewrite <- Eq.
    apply (sent_in _ p). by rewrite Eh. }
  rewrite Ho in Ekt by done. split; [done|]. split; [done|].
  split; [rewrite (ledger_search _ _ _ _ id (th_ledger _ _ _ _ H3)) by apply Hid; by rewrite lookup_delete_eq|].
  rewrite h1, h2, h3, h4, h5, h6, Eh, Ev, Ee, Es, Eq2, B2, D2, Ht. do 3 (split; [done|]).
  split; [f_equal|split; [apply Hi|done]].
  unfold ending, response_state. destruct (type =? TransactionResponseTypeSuccess), (t_errorCallback c =? 0); done.
Qed.

(** C30: a response, whatever its type, ends its transaction at once: the timer
    is cancelled, entry, transaction and packets are given back.  Only a
    success is silent: every other type, the provisional one included, is an
    error for the application. *)
Theorem response_completes c m held pending id p t address type out :
  trans_holds c m held pending -> idle c held pending -> uint_ok 1 id -> uint_ok 1 type ->
  m !! id = Some p -> t_heap c !! p = Some t ->
  exists c' k, respond address id type out c = Done (tt, c') /\
    s_packets (t_socket c) !! tr_packet t = Some k /\ trans_holds c' (delete id m) held pending /\
    hashtable_search (t_transactions c') id = Done 0 /\ t_heap c' = delete p (t_heap c) /\
    t_sources c' = others t (t_sources c) /\ s_blocks (t_socket c') = s_blocks (t_socket c) /\
    t_events c' = t_events c ++
      (if (type =? TransactionResponseTypeSuccess) || (t_errorCallback c =? 0) then [] else [EventError (pk_addr k)]).
Proof.
  intros H Hi Hid Hty Em Et.
  destruct (response_ends c m held pending id p t address type out H Hi Hid Hty Em Et)
    as (c' & k & E & Ek & H' & S' & h1 & h2 & h3 & h4 & _).
  by exists c', k.
Qed.

(** A response to a transaction that is not in the table keeps its packet. *)
Lemma response_lost c m held pending id address type out : trans_holds c m held pending -> idle c held pending ->
  uint_ok 1 id -> uint_ok 1 type -> m !! id = None ->
  exists c' o, respond address id type out c = Done (tt, c') /\ trans_holds c' m (o :: held) pending /\
    c' = set_socket (t_socket c') c /\ busy c' (o :: held) pending = busy c held pending + 1 /\
    s_delivered (t_socket c') = [] /\ s_blocks (t_socket c') = s_blocks (t_socket c).
Proof.
  intros H Hi Hid Hty Em.
  destruct (respond_queued c m held pending address id type out H Hi Hid Hty) as
    (c2 & o & k & E & H2 & S2 & Ek & R & Ht & Ho & B2 & W2 & D2 & Hb).
  exists c2, o. rewrite E. split; [by apply (run_response_unknown (flight := no_flight) c2 m (o :: held) pending); [|apply Hid|]|done].
Qed.

Lemma lost_idle c c' held o pending : idle c held pending -> c' = set_socket (t_socket c') c ->
  busy c' (o :: held) pending = busy c held pending + 1 -> s_delivered (t_socket c') = [] ->
  s_blocks (t_socket c') = s_blocks (t_socket c) -> busy c held pending + 1 < kNetPacketPoolCapacity ->
  idle c' (o :: held) pending.
Proof.
  intros [i1 i2 i3 i4 i5] Ec Hb D B Hlt.
  split; [by rewrite Ec|by rewrite Ec|done|lia|unfold outgoing in *; by rewrite B].
Qed.

(** The same response again and again, as a peer that did not hear of it
    would send it. *)
Fixpoint respond_again (n : nat) (address : net_addr_t) (id type : Z) (out : Z * Z) : prog TransactionConfiguration unit :=
  match n with
  | O => ret tt
  | S n' => respond address id type out ;; respond_again n' address id type out
  end.

Lemma respond_again_holds n c m held pending id address type out : trans_holds c m held pending -> idle c held pending ->
  uint_ok 1 id -> uint_ok 1 type -> m !! id = None -> busy c held pending + Z.of_nat n <= kNetPacketPoolCapacity ->
  exists c' held', respond_again n address id type out c = Done (tt, c') /\ trans_holds c' m held' pending /\
    c' = set_socket (t_socket c') c /\ busy c' held' pending = busy c held pending + Z.of_nat n /\
    s_delivered (t_socket c') = [] /\ s_blocks (t_socket c') = s_blocks (t_socket c).
Proof.
  revert c held. induction n as [|n IH]; intros c held H Hi Hid Hty Em Hb; cbn [respond_again].
  { exists c, held. split; [done|]. split; [done|]. split; [by destruct c|]. split; [lia|]. split; [apply Hi|done]. }
  destruct (response_lost c m held pending id address type out H Hi Hid Hty Em) as (c1 & o & E1 & H1 & S1 & B1 & D1 & K1).
  rewrite (bind_done _ _ _ _ _ E1). destruct n as [|n].
  - cbn [respond_again]. exists c1, (o :: held). split; [done|]. split; [done|]. split; [done|]. split; [lia|]. done.
  - destruct (IH c1 (o :: held) H1) as (c2 & held2 & E2 & H2 & S2 & B2 & D2 & K2); [|done|done|done|lia|].
    + apply (lost_idle c c1 held o pending Hi S1 B1 D1 K1). lia.
    + exists c2, held2. split; [done|]. split; [done|].
      split; [rewrite S2 at 1; rewrite S1; done|]. split; [lia|]. split; [done|]. by rewrite K2.
Qed.

Lemma alloc_exhausted c m held pending : trans_holds c m held pending -> busy c held pending = kNetPacketPoolCapacity ->
  net_packet_alloc (t_socket c) = Done (0, t_socket c).
Proof.
  intros [Hm _ _ _] Hb. destruct (alloc_holds _ _ _ (ml_socket _ _ _ _ _ Hm)) as (o & s' & Ea & _ & A).
  fold (busy c held pending) in A. rewrite (proj2 (Z.eqb_eq _ _) Hb) in A. destruct A as [-> ->]. done.
Qed.

(** C32: every response to a transaction that is not in the table, such as the
    second answer to a request that was sent twice, takes a packet out of the
    pool for ever; with the last one the agent sends and receives nothing any
    more, and does not notice. *)
Theorem late_responses_exhaust c m held pending id address type out :
  trans_holds c m held pending -> idle c held pending -> uint_ok 1 id -> uint_ok 1 type -> m !! id = None ->
  exists c', respond_again (Z.to_nat (kNetPacketPoolCapacity - busy c held pending)) address id type out c = Done (tt, c') /\
    t_heap c' = t_heap c /\ t_queue c' = [] /\ t_events c' = t_events c /\ s_delivered (t_socket c') = [] /\
    (forall calloc to object, transactionRequest calloc source_create to object c' = Done (tt, c')) /\
    (forall d, on_socket (read_event d) c' = Done (tt, c')).
Proof.
  intros H Hi Hid Hty Em. pose proof (id_busy _ _ _ Hi) as Hb.
  destruct (respond_again_holds (Z.to_nat (kNetPacketPoolCapacity - busy c held pending)) c m held pending id address type out
    H Hi Hid Hty Em) as (c' & held' & E & H' & S & B & D & K); [lia|].
  exists c'. split; [done|]. split; [by rewrite S|]. split; [rewrite S; apply Hi|]. split; [by rewrite S|]. split; [done|].
  pose proof (alloc_exhausted c' m held' pending H' ltac:(lia)) as Ea. split.
  - intros calloc to object. by apply request_exhausted.
  - intros d. assert (Er : read_event d (t_socket c') = Done (tt, t_socket c')).
    { unfold read_event. by rewrite (bind_done _ _ _ _ _ Ea). }
    by rewrite (trans_socket_done _ c' tt _ Er), trans_socket_id.
Qed.

(** a request that arrives when such responses have left one packet makes
    the agent use a null pointer: it takes the packet, and none is left for
    the response. *)
Theorem request_faults c m held pending id address type out id' body :
  trans_holds c m held pending -> idle c held pending -> uint_ok 1 id -> uint_ok 1 type -> m !! id = None ->
  uint_ok 1 id' -> Forall byte body -> zlen body <= kNetPacketMaxLen - 5 ->
  (respond_again (Z.to_nat (kNetPacketPoolCapacity - 1 - busy c held pending)) address id type out ;;
   on_socket (read_event (Some (address, enc_transaction_header id' TransactionTypeRequest ++ body))) ;;
   deliver out 0 ;; run_task source_create) c = Fault NullPointer.
Proof.
  intros H Hi Hid Hty Em Hid' By Hz. pose proof (id_busy _ _ _ Hi) as Hb.
  destruct (respond_again_holds (Z.to_nat (kNetPacketPoolCapacity - 1 - busy c held pending)) c m held pending id address type out
    H Hi Hid Hty Em) as (c1 & held1 & E1 & H1 & S1 & B1 & D1 & K1); [lia|].
  rewrite (bind_done _ _ _ _ _ E1). destruct Hi as [i1 i2 i3 i4 i5].
  destruct (receive_queued c1 m held1 pending address TransactionTypeRequest id' body out H1)
    as (c2 & o & k & E2 & H2 & [q1 q2 q3 q4 q5 q6 q7 q8 q9] & Hn & Hb2);
    [by rewrite S1|by rewrite S1|done|lia|unfold outgoing in *; by rewrite K1|by right|done..|].
  rewrite <- bind_assoc, (bind_done _ _ _ _ _ E2).
  assert (Eq : t_queue c2 = [TaskRequest o id']) by (by rewrite q1).
  destruct (pop_holds c2 m held1 pending (TaskRequest o id') [] H2 Eq eq_refl) as (H3 & _ & _). cbn [task_packet app] in H3.
  destruct (mail_apart _ _ _ _ _ _ (th_mail _ _ _ _ H3)) as (_ & _ & _ & _ & Ho & _).
  unfold run_task. rewrite bind_get, Eq, bind_modify. cbv beta iota.
  apply (run_request_exhausted (set_queue [] c2) o k id' Ho q2).
  apply (alloc_exhausted (set_queue [] c2) m (o :: held1) pending H3).
  replace (busy (set_queue [] c2) (o :: held1) pending) with (busy c2 held1 pending); [lia|].
  unfold busy. by rewrite Eq.
Qed.

(** ** From one agent to another and back *)

Context (calloc : gmap Z Transaction -> Z).
Hypothesis calloc_fresh : fresh_address calloc.
Hypothesis source_fresh : fresh_address source_create.

Abbreviation awaits := (awaits source_create).

(** An agent that waits for one answer, and has sent what it had to send. *)
Lemma awaits_idle c0 id p o n k c held pending : awaits c0 id p o n k c -> idle c0 held pending ->
  busy c0 held pending + 1 < kNetPacketPoolCapacity -> t_heap c0 !! p = None -> s_blocks (t_socket c) = [] ->
  idle c held [].
Proof.
  intros [a1 a2 a3 a4 a5 a6 a7 a8] [i1 i2 i3 i4 i5] Hb Hn B.
  split; [by rewrite a7|done|by rewrite a8| |unfold outgoing; by rewrite B].
  eapply Z.le_lt_trans; [|exact Hb]. unfold busy. rewrite a1, a3, a8, i2, i3. change (task_packets []) with (@nil Z).
  unfold references. rewrite B. cbn [app].
  set (out := sent (<[p := _]> (t_heap c0))).
  assert (Ps : out ≡ₚ o :: sent (t_heap c0)) by (by apply sent_insert).
  pose proof (count_cons_le o ((sent (t_heap c0) ++ held) ++ s_blocks (t_socket c0) ++ pending)) as L.
  pose proof (count_subset ((out ++ held) ++ []) (o :: (sent (t_heap c0) ++ held) ++ s_blocks (t_socket c0) ++ pending)) as L'.
  assert (Sub : (out ++ held) ++ [] ⊆ o :: (sent (t_heap c0) ++ held) ++ s_blocks (t_socket c0) ++ pending).
  { rewrite app_nil_r, Ps. intros x. rewrite elem_of_app, !elem_of_cons, !elem_of_app. tauto. }
  specialize (L' Sub). lia.
Qed.

(** Its packets leave; the last one is the one that was queued last. *)
Lemma awaits_flush c0 id p o n k c m held pending l address bytes : awaits c0 id p o n k c ->
  trans_holds c m held pending -> carries k address bytes -> s_blocks (t_socket c) = l ++ [o] ->
  exists c' earlier, on_socket (flush malloc_node) c = Done (tt, c') /\ awaits c0 id p o n k c' /\ trans_holds c' m held [] /\
    s_blocks (t_socket c') = [] /\ s_wire (t_socket c') = s_wire (t_socket c) ++ earlier ++ [(address, bytes)] /\
    t_cseq c' = t_cseq c.
Proof.
  intros [a1 a2 a3 a4 a5 a6 a7 a8] H Hk B.
  destruct (mail_flush malloc_node malloc_node_fresh malloc_node_some _ _ _ _ _ (th_mail _ _ _ _ H))
    as (s2 & E2 & H2 & B2 & P2 & D2 & W2).
  rewrite (trans_socket_done _ c tt s2 E2). eexists _, _. split; [reflexivity|]. cbn [t_socket set_socket].
  split; [by split; cbn; rewrite ?P2, ?D2|]. split; [destruct H; by split|]. split; [done|]. split; [|done].
  rewrite W2, B, app_assoc, bind_app. f_equal. f_equal. cbn. rewrite app_nil_r. by apply (datagram_carries _ _ k).
Qed.

(** A request that was made, inserted and sent; the agent waits. *)
Lemma request_sent c m held pending address object : trans_holds c m held pending -> idle c held pending ->
  sendable_object object -> busy c held pending + 1 < kNetPacketPoolCapacity ->
  let p := calloc (t_heap c) in
  exists c' o k earlier, (transactionRequest calloc source_create address object ;; run_task source_create ;;
      on_socket (flush malloc_node)) c = Done (tt, c') /\
    s_wire (t_socket c') = s_wire (t_socket c) ++ earlier ++ [(address, request_bytes (t_cseq c) object)] /\
    trans_holds c' (<[t_cseq c := p]> m) held [] /\ idle c' held [] /\ awaits c (t_cseq c) p o 0 k c' /\
    carries k address (request_bytes (t_cseq c) object) /\ t_heap c !! p = None /\
    t_cseq c' = (t_cseq c + 1) mod kTransactionMaxId /\ s_blocks (t_socket c') = [].
Proof.
  intros H Hi Hob Hb p.
  destruct (request_awaits calloc source_create calloc_fresh source_fresh c m held pending address object H (id_queue _ _ _ Hi) Hob
    (busy_alloc c m held pending H (id_busy _ _ _ Hi)) (id_outgoing _ _ _ Hi)) as
    (c1 & o & k & E1 & A1 & H1 & Hk & Hn & B1 & W1 & Ecs). fold p in E1, A1, H1, Hn.
  rewrite <- (bind_assoc (transactionRequest _ _ _ _)), (bind_done _ _ _ _ _ E1).
  destruct (awaits_flush _ _ _ _ _ _ _ _ _ _ _ _ _ A1 H1 Hk B1) as (c2 & earlier & E2 & A2 & H2 & B2 & W2 & C2).
  exists c2, o, k, earlier. rewrite W1 in W2. do 3 (split; [done|]).
  split; [by apply (awaits_idle c (t_cseq c) p o 0 k c2 held pending)|]. do 3 (split; [done|]). split; [congruence|done].
Qed.

(** a request whose object the receiver can hold reaches it and is
    answered: the application on the other side gets the same object, once,
    with the address it came from, and the sender's transaction ends without
    an error, its timer, its memory and its entry given back. *)
Theorem request_answered cA mA heldA pendingA cB mB heldB pendingB addressA addressB object outA outB :
  host = LittleEndian -> trans_holds cA mA heldA pendingA -> idle cA heldA pendingA ->
  busy cA heldA pendingA + 1 < kNetPacketPoolCapacity ->
  trans_holds cB mB heldB pendingB -> idle cB heldB pendingB -> busy cB heldB pendingB + 1 < kNetPacketPoolCapacity ->
  t_receiveCallback cB <> 0 -> sendable_object object -> receivable object ->
  exists cA1 earlierA request cB1 earlierB response cA2,
    (transactionRequest calloc source_create addressB object ;; run_task source_create ;;
     on_socket (flush malloc_node)) cA = Done (tt, cA1) /\
    s_wire (t_socket cA1) = s_wire (t_socket cA) ++ earlierA ++ [(addressB, request)] /\
    (on_socket (read_event (Some (addressA, request))) ;; deliver outB 0 ;; run_task source_create ;;
     on_socket (flush malloc_node)) cB = Done (tt, cB1) /\
    t_events cB1 = t_events cB ++ [EventReceive addressA object] /\
    s_wire (t_socket cB1) = s_wire (t_socket cB) ++ earlierB ++ [(addressA, response)] /\
    (on_socket (read_event (Some (addressB, response))) ;; deliver outA 0 ;; run_task source_create) cA1 = Done (tt, cA2) /\
    t_events cA2 = t_events cA /\ t_heap cA2 = t_heap cA /\ t_sources cA2 = t_sources cA /\
    hashtable_search (t_transactions cA2) (t_cseq cA) = Done 0.
Proof.
  intros HL HA IA BA HB IB BB Hrc Hob Hrv. pose proof (th_cseq _ _ _ _ HA) as Hc. unfold kTransactionMaxId in Hc.
  assert (Hid : uint_ok 1 (t_cseq cA)) by (unfold uint_ok; lia).
  destruct (request_sent cA mA heldA pendingA addressB object HA IA Hob BA) as
    (cA1 & o & k & eA & E1 & W1 & H1 & I1 & [Eh Es _ Ek Ev Ee _ _] & Hk & Hn & _).
  set (p := calloc (t_heap cA)) in *. set (t := mkTransaction _ _ _ _ _ _) in Eh.
  destruct IB as [b1 b2 b3 b4 b5].
  destruct (request_is_answered cB mB heldB pendingB addressA (t_cseq cA) object outB HL HB b1 b2 b3 Hrc BB b5 Hid Hob Hrv)
    as (cB1 & eB & E2 & V2 & W2 & _).
  destruct (response_ends cA1 _ heldA [] (t_cseq cA) p t addressB TransactionResponseTypeSuccess outA H1 I1 Hid)
    as (cA2 & k' & E3 & _ & _ & S3 & h1 & h2 & _ & h4 & _); [done|apply lookup_insert_eq|rewrite Eh; apply lookup_insert_eq|].
  exists cA1, eA, (request_bytes (t_cseq cA) object), cB1, eB, (response_bytes (t_cseq cA) TransactionResponseTypeSuccess), cA2.
  do 6 (split; [assumption|]).
  split; [by rewrite h4, app_nil_r|]. split; [by rewrite h1, Eh, delete_insert_id|]. split; [|done].
  rewrite h2, Es. destruct (with_timer_lookup source_create source_fresh p kTransactionInitialRto (t_sources cA)) as [_ D].
  unfold others, t. cbn [tr_timeout]. by rewrite (started_valid source_create source_fresh).
Qed.

(** ids are used again after 255 requests, pending or not.  The request
    that reuses one takes the place of the transaction that waits under it,
    which is still allocated but can no longer be found: its response ends
    the other one, and so does its timer retry the other one, after which it
    has neither a timer nor an entry, and no callback ever tells. *)
Theorem reused_id_orphans c m held pending address object q t src :
  trans_holds c m held pending -> t_queue c = [] -> sendable_object object ->
  busy c held pending < kNetPacketPoolCapacity -> Z.of_nat (outgoing (t_socket c) pending) + 66 < 2 ^ 32 ->
  m !! t_cseq c = Some q -> t_heap c !! q = Some t -> tr_timeout t = mkTimeout src true ->
  exists c' c'' t' d,
    (transactionRequest calloc source_create address object ;; run_task source_create) c = Done (tt, c') /\
    t_heap c' !! q = Some t /\ (forall id, 0 <= id -> hashtable_search (t_transactions c') id <> Done q) /\
    expire source_create q c' = Done (d, c'') /\
    t_heap c'' !! calloc (t_heap c) = Some t' /\ tr_retries t' = 1 /\
    t_heap c'' !! q = Some (stopped t) /\ t_events c'' = t_events c /\ t_queue c'' = [] /\
    (forall id, 0 <= id -> hashtable_search (t_transactions c'') id <> Done q).
Proof.
  intros H Hq Hob Hb Hlen Em Et Etm. pose proof (th_cseq _ _ _ _ H) as Hc.
  destruct (request_awaits calloc source_create calloc_fresh source_fresh c m held pending address object H Hq Hob
    (busy_alloc c m held pending H Hb)) as (c1 & o & k & E1 & [a1 a2 a3 a4 a5 a6 a7 a8] & H1 & Hk & Hn & B1 & _); [lia|].
  set (p := calloc (t_heap c)) in *. set (id := t_cseq c) in *. set (u := mkTransaction _ _ _ _ _ _) in a1.
  assert (Hpq : p <> q) by (intros Eq; rewrite Eq in Hn; congruence).
  assert (Eq1 : t_heap c1 !! q = Some t) by (by rewrite a1, lookup_insert_ne).
  assert (Eid : tr_id t = id) by (destruct (entry_address c m held pending id q H Em) as (t0 & Et0 & _ & Ei); congruence).
  assert (Lost : forall c' held' pending', trans_holds c' (<[id := p]> m) held' pending' ->
    forall id', 0 <= id' -> hashtable_search (t_transactions c') id' <> Done q).
  { intros c' held' pending' H' id' Hid' Es. rewrite (ledger_search _ _ _ _ id' (th_ledger _ _ _ _ H') Hid') in Es.
    destruct (decide (id = id')) as [<-|Hne]; [rewrite lookup_insert_eq in Es; by injection Es|].
    rewrite lookup_insert_ne in Es by done. pose proof (entry_address c m held pending id q H Em) as (t1 & _ & W & _).
    destruct (m !! id') as [q'|] eqn:Em'; injection Es as Es; cbn in Es; [|by apply (tw_address _ _ W)]. subst q'.
    destruct (entry_address c m held pending id' q H Em') as (t0 & Et0 & _ & Ei). congruence. }
  pose proof (lg_heap _ _ _ _ (th_ledger _ _ _ _ H1) q t Eq1) as Wq. pose proof (tw_address _ _ Wq) as Hq0.
  destruct (tm_valid _ _ _ (th_timers _ _ _ _ H1) q t Eq1) as (Hs0 & d & Ed); [by rewrite Etm|].
  destruct (timer_handler_done c1 _ held pending _ _ H1 Ed) as (q' & t' & d' & Eq' & Etm' & Ea & Eh & H2).
  injection Ea as <- <-. rewrite Eq1 in Eq'. injection Eq' as <-. rewrite a3, Eid in Eh, H2.
  cbn [app] in Eh, H2. set (c2 := set_timers _ _) in *.
  destruct (pop_holds c2 _ held pending (TaskRetry id) [] H2 eq_refl eq_refl) as (H3 & _ & _). cbn [task_packet app] in H3.
  set (c3 := set_queue [] c2) in *.
  assert (Eu : t_heap c3 !! p = Some u) by (cbn; rewrite lookup_insert_ne by done; rewrite a1; apply lookup_insert_eq).
  destruct (run_retry_again source_create (fun m => proj2 (source_fresh m)) c3 _ held pending id p u k H3 (lookup_insert_eq _ _ _) Eu)
    as (c4 & E4 & H4 & [h1 h2 h3 h4 h5 h6 h7 h8 h9]);
    [done|done|unfold outgoing in *; cbn; rewrite B1; rewrite !length_app in *; cbn; lia|].
  exists c1, c4. do 2 eexists. split; [exact E1|]. split; [done|]. split; [by apply (Lost c1 held pending)|].
  split; [|split; [rewrite h1; apply lookup_insert_eq|split; [done|split; [|split; [by rewrite h4|split; [done|by apply (Lost c4 held pending)]]]]]].
  - unfold expire. rewrite (bind_done _ _ _ _ _ (get_transaction_done c1 q t Hq0 Eq1)), bind_get.
    unfold bind at 1, lift. unfold source_at. rewrite (proj2 (Z.eqb_neq _ 0)), Ed by done.
    rewrite (bind_done _ _ _ _ _ Eh). unfold run_task. rewrite bind_assoc, bind_get. change (t_queue c2) with [TaskRetry id].
    cbv beta iota. rewrite bind_assoc, bind_modify. by rewrite (bind_done _ _ _ _ _ E4).
  - rewrite h1, lookup_insert_ne by done. cbn. apply lookup_insert_eq.
Qed.

(** ** A timer that fires while its transaction ends *)

Lemma bind_agree {S A B} (m : prog S A) (k : A -> prog S B) s s' : m s = m s' -> bind m k s = bind m k s'.
Proof. unfold bind. by intros ->. Qed.

(** The destruction of a timeout does not see that its timer has fired. *)
Lemma destroy_fired c m held pending p t src d : trans_holds c m held pending -> t_heap c !! p = Some t ->
  tr_timeout t = mkTimeout src true ->
  transactionDestroyTimeout p (set_timers (<[src := mkSource 1 false d kLEEWAY 0 p]> (t_sources c)) c) =
  transactionDestroyTimeout p c.
Proof.
  intros H E Etm. pose proof (lg_heap _ _ _ _ (th_ledger _ _ _ _ H) p t E) as W. pose proof (tw_address _ _ W) as Hp.
  rewrite (destroy_timeout_done c p t (th_timers _ _ _ _ H) Hp E).
  destruct (tm_valid _ _ _ (th_timers _ _ _ _ H) p t E) as (Hs & _); [by rewrite Etm|]. rewrite Etm in Hs. cbn in Hs.
  set (c1 := set_timers _ c). unfold transactionDestroyTimeout.
  assert (Ed : timeout_destroy (mkTimeoutState (tr_timeout t) (t_sources c1)) =
    Done (tt, mkTimeoutState (mkTimeout src false) (delete src (t_sources c)))).
  { unfold timeout_destroy. rewrite bind_get, Etm. cbn [ts_timeout valid timerDispatchSource]. rewrite bind_modify.
    unfold on_sources, bind, dispatch_source_cancel, dispatch_release, source_at. cbn.
    rewrite (proj2 (Z.eqb_neq src 0)), lookup_insert_eq by done. cbn.
    rewrite lookup_insert_eq. cbn. unfold set_sources. cbn.
    by rewrite !delete_insert_eq. }
  assert (Et1 : t_heap c1 !! p = Some t) by done.
  rewrite (on_timeout_done c1 p t timeout_destroy tt _ Hp Et1 Ed). unfold others, stopped. rewrite Etm. done.
Qed.

(** C33: the handler of a timer uses its transaction after the block it runs.
    When the dispatch queue handles the response in between, the transaction
    is freed and the handler writes to freed memory. *)
Theorem late_timer_faults c m held pending packet id tasks p t src :
  trans_holds c m held pending -> t_queue c = TaskResponse packet id :: tasks -> m !! id = Some p ->
  t_heap c !! p = Some t -> tr_timeout t = mkTimeout src true ->
  (fired <- timer_block src ;; run_task source_create ;;
   match fired with Some transaction => timer_rest transaction | None => ret tt end) c = Fault OutOfBounds.
Proof.
  intros H Hq Em Et Etm. pose proof (lg_heap _ _ _ _ (th_ledger _ _ _ _ H) p t Et) as W. pose proof (tw_address _ _ W) as Hp.
  destruct (tm_valid _ _ _ (th_timers _ _ _ _ H) p t Et) as (Hs & d & Ed); [by rewrite Etm|]. rewrite Etm in Hs, Ed. cbn in Hs, Ed.
  set (S := <[src := mkSource 1 false d kLEEWAY 0 p]> (t_sources c)).
  set (cq := set_queue (t_queue c ++ [TaskRetry (tr_id t)]) c).
  assert (Eb : timer_block src c = Done (Some p, set_timers S cq)).
  { unfold timer_block, timer_fires, source_at. rewrite (proj2 (Z.eqb_neq src 0)), Ed by done. cbn -[bind get_transaction].
    by rewrite (bind_done _ _ _ _ _ (get_transaction_done (set_timers S c) p t Hp Et)). }
  rewrite (bind_done _ _ _ _ _ Eb).
  set (c1 := set_queue (tasks ++ [TaskRetry (tr_id t)]) c).
  assert (H1 : trans_holds c1 m (packet :: held) pending /\ 0 <= id /\ exists k, s_packets (t_socket c) !! packet = Some k /\ readable k).
  { destruct (pop_holds c m held pending _ tasks H Hq eq_refl) as (H0 & Hid & Hk). cbn [task_packet app task_id] in H0, Hid.
    split; [|split; [done|by apply Hk]]. destruct H0 as [Hm Hl Ht Hc]. split; cbn; [|by apply ledger_push; [..|apply W]|done|done].
    rewrite task_packets_app. cbn. by rewrite app_nil_r. }
  destruct H1 as (H1 & Hid & k & Ek & R).
  destruct (run_response_known (order := order) c1 m held pending packet k id p t H1 Hid Ek R Em Et)
    as (c2 & kt & E2 & _ & _ & Eh & _).
  assert (Er : run_task source_create (set_timers S cq) = Done (tt, c2)).
  { rewrite <- E2. unfold run_task. rewrite bind_get. change (t_queue (set_timers S cq)) with (t_queue c ++ [TaskRetry (tr_id t)]).
    rewrite Hq. cbn [app]. rewrite bind_modify. cbv beta iota. change (set_queue _ (set_timers S cq)) with (set_timers S c1).
    unfold run_response. rewrite (bind_done _ _ _ _ _ (find_transaction_done c1 m _ pending id H1 Hid)), Em.
    assert (Ef : find_transaction id (set_timers S c1) = Done (p, set_timers S c1)).
    { unfold find_transaction. cbn. by rewrite (ledger_search _ _ _ _ id (th_ledger _ _ _ _ H) Hid), Em. }
    rewrite (bind_done _ _ _ _ _ Ef). change (default 0 (Some p)) with p. rewrite (proj2 (Z.eqb_neq p 0)) by done. cbn [negb].
    apply bind_agree. exact (destroy_fired c1 m (packet :: held) pending p t src d H1 Et Etm). }
  rewrite (bind_done _ _ _ _ _ Er). unfold timer_rest, on_timeout. apply bind_fault.
  unfold get_transaction. rewrite (proj2 (Z.eqb_neq p 0)) by done. rewrite Eh. by rewrite lookup_delete_eq.
Qed.

End Answer.

(** *** Concrete instances *)

Lemma fresh_agent_idle s : s_delivered s = [] -> s_blocks s = [] ->
  idle (fresh_agent s) [] [] /\ busy (fresh_agent s) [] [] = 0.
Proof.
  intros Ed Eb. assert (E : busy (fresh_agent s) [] [] = 0).
  { unfold busy, references. cbn [fresh_agent t_socket t_heap t_queue]. by rewrite Ed, Eb. }
  split; [|exact E]. split; [done|done|exact Ed|by rewrite E|].
  unfold outgoing. cbn [fresh_agent t_socket]. by rewrite Eb.
Qed.

Lemma demo_agent_idle : idle demo_agent [] [] /\ busy demo_agent [] [] = 0.
Proof. apply (fresh_agent_idle demo_socket); apply demo_socket_quiet. Qed.

(** An agent once it made a request. *)
Definition with_request (c : TransactionConfiguration) : TransactionConfiguration :=
  match (transactionRequest (H := LittleEndian) free_address free_address demo_peer_address demo_transaction_object ;;
         run_task (H := LittleEndian) free_address ;; on_socket (flush next_free)) c with
  | Done (_, c') => c'
  | Fault _ => c
  end.

Definition awaiting (c : TransactionConfiguration) (m : gmap Z Z) (id : Z) : Prop :=
  trans_holds c m [] [] /\ idle c [] [] /\ outgoing (t_socket c) [] = 0%nat /\ exists p t src, m !! id = Some p /\ t_heap c !! p = Some t /\
    tr_timeout t = mkTimeout src true.

Lemma with_request_awaiting c : trans_holds c ∅ [] [] -> idle c [] [] -> busy c [] [] = 0 -> t_heap c = ∅ ->
  awaiting (with_request c) {[t_cseq c := free_address (V := Transaction) ∅]} (t_cseq c).
Proof.
  intros H Hi Hb Eh.
  destruct (request_sent (order := LittleEndian) free_address next_free next_free_fresh next_free_some free_address free_address_fresh
    free_address_fresh c ∅ [] [] demo_peer_address demo_transaction_object H Hi demo_transaction_object_ok)
    as (c' & o & k & earlier & E & _ & H' & I' & [Eh' _ _ _ _ _ _ _] & _ & _ & _ & O); [by rewrite Hb|].
  unfold with_request. rewrite E. rewrite Eh in H', Eh'.
  split; [exact H'|]. split; [exact I'|]. split; [unfold outgoing; by rewrite O|]. eexists _, _, _. split; [apply lookup_insert_eq|].
  split; [rewrite Eh'; apply lookup_insert_eq|]. cbn [tr_timeout]. unfold started. f_equal.
  by rewrite (proj2 (Z.eqb_neq _ 0)) by apply free_address_fresh.
Qed.

Definition demo_awaiting : TransactionConfiguration := with_request demo_agent.

Lemma demo_awaiting_holds : awaiting demo_awaiting {[0 := free_address (V := Transaction) ∅]} 0.
Proof.
  apply (with_request_awaiting demo_agent); [exact demo_agent_holds|exact (proj1 demo_agent_idle)|exact (proj2 demo_agent_idle)|reflexivity].
Qed.

(** A provisional response. *)
Lemma response_completes_witness :
  exists p t c' k, respond (order := LittleEndian) free_address demo_peer_address 0 TransactionResponseTypeProvisional (0, 0) demo_awaiting = Done (tt, c') /\
    s_packets (t_socket demo_awaiting) !! tr_packet t = Some k /\ trans_holds c' (delete 0 {[0 := free_address (V := Transaction) ∅]}) [] [] /\
    hashtable_search (t_transactions c') 0 = Done 0 /\ t_heap c' = delete p (t_heap demo_awaiting) /\
    t_sources c' = others t (t_sources demo_awaiting) /\ s_blocks (t_socket c') = s_blocks (t_socket demo_awaiting) /\
    t_events c' = t_events demo_awaiting ++
      (if (TransactionResponseTypeProvisional =? TransactionResponseTypeSuccess) || (t_errorCallback demo_awaiting =? 0) then []
       else [EventError (pk_addr k)]).
Proof.
  destruct demo_awaiting_holds as (H & Hi & _ & p & t & src & Em & Et & _). exists p, t.
  apply (response_completes free_address demo_awaiting {[0 := free_address (V := Transaction) ∅]} [] [] 0 p t);
    [exact H|exact Hi|by split|by split|exact Em|exact Et].
Defined.

Lemma late_responses_exhaust_witness :
  exists c', respond_again (order := LittleEndian) free_address (Z.to_nat (kNetPacketPoolCapacity - busy demo_agent [] [])) demo_peer_address 7
      TransactionResponseTypeSuccess (0, 0) demo_agent = Done (tt, c') /\
    t_heap c' = t_heap demo_agent /\ t_queue c' = [] /\ t_events c' = t_events demo_agent /\ s_delivered (t_socket c') = [] /\
    (forall calloc to object, transactionRequest (H := LittleEndian) calloc free_address to object c' = Done (tt, c')) /\
    (forall d, on_socket (read_event d) c' = Done (tt, c')).
Proof.
  apply (late_responses_exhaust free_address demo_agent ∅ [] [] 7 demo_peer_address TransactionResponseTypeSuccess (0, 0));
    [exact demo_agent_holds|exact (proj1 demo_agent_idle)|by split|by split|reflexivity].
Defined.

Lemma request_faults_witness :
  (respond_again (order := LittleEndian) free_address (Z.to_nat (kNetPacketPoolCapacity - 1 - busy demo_agent [] [])) demo_peer_address 7
     TransactionResponseTypeSuccess (0, 0) ;;
   on_socket (read_event (Some (demo_peer_address, enc_transaction_header (H := LittleEndian) 9 TransactionTypeRequest ++ [1; 2]))) ;;
   deliver (0, 0) 0 ;; run_task (H := LittleEndian) free_address) demo_agent = Fault NullPointer.
Proof.
  apply (request_faults free_address demo_agent ∅ [] [] 7 demo_peer_address TransactionResponseTypeSuccess (0, 0) 9 [1; 2]);
    [exact demo_agent_holds|exact (proj1 demo_agent_idle)|by split|by split|reflexivity|by split|by repeat constructor|discriminate].
Defined.

Definition demo_other_address : net_addr_t := mkAddr AF_INET 7001 2.

(** Two agents that have just started. *)
Lemma request_answered_witness :
  exists cA1 earlierA request cB1 earlierB response cA2,
    (transactionRequest (H := LittleEndian) free_address free_address demo_other_address demo_transaction_object ;;
     run_task (H := LittleEndian) free_address ;; on_socket (flush next_free)) demo_agent = Done (tt, cA1) /\
    s_wire (t_socket cA1) = s_wire (t_socket demo_agent) ++ earlierA ++ [(demo_other_address, request)] /\
    (on_socket (read_event (Some (demo_peer_address, request))) ;; deliver (0, 0) 0 ;;
     run_task (H := LittleEndian) free_address ;; on_socket (flush next_free)) demo_agent = Done (tt, cB1) /\
    t_events cB1 = t_events demo_agent ++ [EventReceive demo_peer_address demo_transaction_object] /\
    s_wire (t_socket cB1) = s_wire (t_socket demo_agent) ++ earlierB ++ [(demo_peer_address, response)] /\
    (on_socket (read_event (Some (demo_other_address, response))) ;; deliver (0, 0) 0 ;;
     run_task (H := LittleEndian) free_address) cA1 = Done (tt, cA2) /\
    t_events cA2 = t_events demo_agent /\ t_heap cA2 = t_heap demo_agent /\ t_sources cA2 = t_sources demo_agent /\
    hashtable_search (t_transactions cA2) (t_cseq demo_agent) = Done 0.
Proof.
  destruct demo_agent_idle as [Hi Hb].
  apply (request_answered free_address next_free next_free_fresh next_free_some free_address free_address_fresh free_address_fresh
    demo_agent ∅ [] [] demo_agent ∅ [] [] demo_peer_address demo_other_address demo_transaction_object (0, 0) (0, 0)).
  all: try exact demo_agent_holds; try exact Hi; try (rewrite Hb; reflexivity).
  - reflexivity.
  - discriminate.
  - exact demo_transaction_object_ok.
  - exact Logic.I.
Defined.

(** The ids have come round while a transaction waits. *)
Lemma awaiting_again c m : awaiting c m 0 -> trans_holds (set_cseq 0 c) m [] [] /\ t_queue (set_cseq 0 c) = [] /\
  busy (set_cseq 0 c) [] [] < kNetPacketPoolCapacity /\ Z.of_nat (outgoing (t_socket (set_cseq 0 c)) []) + 66 < 2 ^ 32 /\
  exists q t src, m !! t_cseq (set_cseq 0 c) = Some q /\ t_heap (set_cseq 0 c) !! q = Some t /\ tr_timeout t = mkTimeout src true.
Proof.
  intros ([Hm Hl Ht Hc] & [i1 i2 i3 i4 i5] & O & p & t & src & F). split; [by split|]. split; [exact i2|].
  split; [exact i4|]. split; [|by exists p, t, src]. change (t_socket (set_cseq 0 c)) with (t_socket c). by rewrite O.
Qed.

Lemma reused_id_orphans_witness :
  exists q t c' c'' t' d,
    (transactionRequest (H := LittleEndian) free_address free_address demo_other_address demo_transaction_object ;;
     run_task (H := LittleEndian) free_address) (set_cseq 0 demo_awaiting) = Done (tt, c') /\
    t_heap c' !! q = Some t /\ (forall id, 0 <= id -> hashtable_search (t_transactions c') id <> Done q) /\
    expire (order := LittleEndian) free_address q c' = Done (d, c'') /\
    t_heap c'' !! free_address (t_heap (set_cseq 0 demo_awaiting)) = Some t' /\ tr_retries t' = 1 /\
    t_heap c'' !! q = Some (stopped t) /\ t_events c'' = t_events (set_cseq 0 demo_awaiting) /\ t_queue c'' = [] /\
    (forall id, 0 <= id -> hashtable_search (t_transactions c'') id <> Done q).
Proof.
  destruct (awaiting_again _ _ demo_awaiting_holds) as (H & Hq & Hb & Hl & q & t & src & Em & Et & Es). exists q, t.
  exact (reused_id_orphans free_address free_address free_address_fresh free_address_fresh
    (set_cseq 0 demo_awaiting) _ [] [] demo_other_address demo_transaction_object q t src H Hq
    demo_transaction_object_ok Hb Hl Em Et Es).
Defined.

(** A response that waits in the queue. *)
Lemma response_queued c m id : awaiting c m id -> uint_ok 1 id -> exists c' packet p t src,
  trans_holds c' m [] [] /\ t_queue c' = [TaskResponse packet id] /\ m !! id = Some p /\
  t_heap c' !! p = Some t /\ tr_timeout t = mkTimeout src true.
Proof.
  intros (H & [i1 i2 i3 i4 i5] & _ & p & t & src & Em & Et & Es) Hid.
  destruct (receive_queued (order := LittleEndian) c m [] [] demo_peer_address TransactionTypeResponse id [] (0, 0)
    H i1 i2 i3 i4 i5 (or_introl eq_refl) Hid (Forall_nil_2 _)) as (c' & o & k & _ & H' & [q1 _ _ _ _ _ _ _ _] & _); [done|].
  exists c', o, p, t, src. do 2 (split; [done || by rewrite q1|]). split; [done|]. split; [by rewrite q1|done].
Qed.

Lemma late_timer_faults_witness :
  exists c src,
    (fired <- timer_block src ;; run_task (H := LittleEndian) free_address ;;
     match fired with Some transaction => timer_rest transaction | None => ret tt end) c = Fault OutOfBounds.
Proof.
  destruct (response_queued demo_awaiting _ 0 demo_awaiting_holds ltac:(by split)) as (c & packet & p & t & src & H & Q & Em & Et & Es).
  exists c, src. exact (late_timer_faults free_address c _ [] [] packet 0 [] p t src H Q Em Et Es).
Defined.
