(* ===== verification/TransactionWatch.v ===== *)
(** * Agents that do everything at once

    What holds of an agent after any sequence of requests, tasks, packets and
    halves of the handlers of its timers; and what happens when a task
    overtakes the handler of a timer. *)
From S2P Require Import Prelude Bitstream Wire Fields Net Protocol TransactionProtocol TransactionProtocolSpec.
From S2P Require Import Hashtable Queue Pool NetSocket NetSocketSpec Timeout Transaction TransactionSpec TransactionStep.
From S2P Require Import TransactionRun TransactionAnswer.

(** ** Steps *)

(** What may happen to an agent: the application calls it, its dispatch
    queue runs a task, a timer fires and its handler runs its block, the
    handler of the timer of a transaction ends, its socket reads, writes or
    delivers. *)
Inductive transaction_op :=
| AppRequest (address : net_addr_t) (object : TransactionObject)
| AppEnable
| AppDisable
| RunTask
| TimerBlock (src : Z)
| TimerRest (transaction : Z)
| Deliver (out : Z * Z) (i : nat)
| Datagram (address : net_addr_t) (bytes : list Z)
| RunBlock
| Writable.

(** The handler of the timer of a transaction has run its block and is not at
    its end. *)
Definition handling (c : TransactionConfiguration) (transaction : Z) : bool :=
  match t_heap c !! transaction with
  | Some t =>
      valid (tr_timeout t) &&
      match t_sources c !! timerDispatchSource (tr_timeout t) with Some x => negb (src_armed x) | None => false end
  | None => false
  end.

Lemma handling_flight flight c m held pending p : flight_holds flight c m held pending -> handling c p = flight p.
Proof.
  intros [_ _ [Hs Hv Hf] _]. unfold handling. destruct (t_heap c !! p) as [t|] eqn:Et.
  - destruct (valid (tr_timeout t)) eqn:V.
    + destruct (Hv p t Et V) as (_ & d & ->). cbn. by rewrite negb_involutive.
    + destruct (flight p) eqn:F; [|done]. destruct (Hf p F) as (u & Eu & Vu). congruence.
  - destruct (flight p) eqn:F; [|done]. destruct (Hf p F) as (u & Eu & _). congruence.
Qed.

Lemma flight_handling flight c m held pending :
  flight_holds flight c m held pending -> flight_holds (handling c) c m held pending.
Proof.
  intros H. pose proof (fun p => handling_flight flight c m held pending p H) as E. destruct H as [Hm Hl Ht Hc].
  split; [done..| |done]. by apply (timers_flight (flight := flight)).
Qed.

(** ** Watched transactions *)

(** Every pending transaction has a timer that will fire, or a retry that was
    dispatched (behind its insertion, when that is still to come). *)
Record watched (flight : Z -> bool) (heap : gmap Z Transaction) (tasks : list transaction_task) (m : gmap Z Z) : Prop := {
  wt_table : forall id p t, m !! id = Some p -> heap !! p = Some t ->
    valid (tr_timeout t) = true /\ flight p = false \/ TaskRetry id ∈ tasks;
  wt_inserts : forall q1 q2 id p t, tasks = q1 ++ TaskInsert id p :: q2 -> heap !! p = Some t ->
    valid (tr_timeout t) = true /\ flight p = false \/ TaskRetry id ∈ q2;
}.

Lemma split_snoc {A} (l q1 q2 : list A) x y : l ++ [x] = q1 ++ y :: q2 ->
  (y = x /\ q2 = []) \/ exists q3, q2 = q3 ++ [x] /\ l = q1 ++ y :: q3.
Proof.
  destruct q2 as [|z q2 _] using rev_ind; intros E.
  - left. by apply app_inj_tail in E as [_ ->].
  - right. rewrite app_comm_cons, app_assoc in E. apply app_inj_tail in E as [-> ->]. by exists q2.
Qed.

Section Watched.
Context (flight : Z -> bool) (heap : gmap Z Transaction) (tasks : list transaction_task) (m : gmap Z Z).

Lemma watched_push task : watched flight heap tasks m ->
  (forall id p t, task = TaskInsert id p -> heap !! p = Some t -> valid (tr_timeout t) = true /\ flight p = false) ->
  watched flight heap (tasks ++ [task]) m.
Proof.
  intros [Ht Hi] Hn. split.
  - intros id p t E Et. destruct (Ht id p t E Et) as [V|V]; [by left|right]. apply elem_of_app. by left.
  - intros q1 q2 id p t E Et. apply split_snoc in E as [[E ->]|(q3 & -> & E)]; [left; by apply (Hn id p)|].
    destruct (Hi _ _ _ _ _ E Et) as [V|V]; [by left|right]. apply elem_of_app. by left.
Qed.

Lemma watched_pop task : watched flight heap (task :: tasks) m -> (forall id, task <> TaskRetry id) ->
  (forall id p, task <> TaskInsert id p) -> watched flight heap tasks m.
Proof.
  intros [Ht Hi] Hr _. split.
  - intros id p t E Et. destruct (Ht id p t E Et) as [V|V]; [by left|right].
    apply elem_of_cons in V as [V|V]; [by destruct (Hr id)|done].
  - intros q1 q2 id p t E Et. apply (Hi (task :: q1) q2 id p t); [by rewrite E|done].
Qed.

Lemma watched_insert id p : watched flight heap (TaskInsert id p :: tasks) m -> watched flight heap tasks (<[id := p]> m).
Proof.
  intros [Ht Hi]. split.
  - intros k q t E Et. apply lookup_insert_Some in E as [[<- <-]|[Hne E]]; [by apply (Hi [] tasks id p t)|].
    destruct (Ht k q t E Et) as [V|V]; [by left|right]. by apply elem_of_cons in V as [V|V].
  - intros q1 q2 k q t E Et. apply (Hi (TaskInsert id p :: q1) q2 k q t); [by rewrite E|done].
Qed.

Lemma watched_retry id : watched flight heap (TaskRetry id :: tasks) m -> watched flight heap tasks (delete id m).
Proof.
  intros [Ht Hi]. split.
  - intros k q t E Et. apply lookup_delete_Some in E as [Hne E].
    destruct (Ht k q t E Et) as [V|V]; [by left|right]. apply elem_of_cons in V as [V|V]; [congruence|done].
  - intros q1 q2 k q t E Et. apply (Hi (TaskRetry id :: q1) q2 k q t); [by rewrite E|done].
Qed.

Lemma watched_shrink heap' m' : watched flight heap tasks m -> heap' ⊆ heap -> m' ⊆ m -> watched flight heap' tasks m'.
Proof.
  intros [Ht Hi] Sh Sm. split.
  - intros id p t E Et. apply (Ht id p t); by eapply lookup_weaken.
  - intros q1 q2 id p t E Et. apply (Hi q1 q2 id p t E). by eapply lookup_weaken.
Qed.

(** A transaction that was given a timer. *)
Lemma watched_timed id p t' `{!Grounded flight p} : watched flight heap tasks (delete id m) -> valid (tr_timeout t') = true ->
  (m !! id = Some p \/ m !! id = None) -> watched flight (<[p := t']> heap) tasks m.
Proof.
  intros [Ht Hi] V Hm. split.
  - intros k q t E Et. apply lookup_insert_Some in Et as [[<- <-]|[Hne Et]]; [by left|].
    apply (Ht k q t); [|done]. rewrite lookup_delete_ne; [done|]. intros <-. destruct Hm; congruence.
  - intros q1 q2 k q t E Et. apply lookup_insert_Some in Et as [[<- <-]|[Hne Et]]; [by left|by apply (Hi q1 q2 k q)].
Qed.

(** The handler of a timer has run its block ... *)
Lemma watched_block table p t : watched flight heap tasks m -> ledger_holds table heap tasks m -> heap !! p = Some t ->
  watched (take_off p flight) heap (tasks ++ [TaskRetry (tr_id t)]) m.
Proof.
  intros [Ht Hi] Hl E. assert (F : forall q, q <> p -> take_off p flight q = flight q)
    by (intros q Hne; unfold take_off; by rewrite (proj2 (Z.eqb_neq q p))). split.
  - intros id q u Eq Eu. rewrite elem_of_app, list_elem_of_singleton. destruct (decide (q = p)) as [->|Hne].
    + destruct (lg_entries _ _ _ _ Hl id p Eq) as (t' & Et' & <-). rewrite E in Et'. injection Et' as <-. by right; right.
    + rewrite F by done. destruct (Ht id q u Eq Eu) as [V|V]; [by left|by right; left].
  - intros q1 q2 id q u Eq Eu. apply split_snoc in Eq as [[Eq _]|(q3 & -> & Eq)]; [done|].
    rewrite elem_of_app, list_elem_of_singleton. destruct (decide (q = p)) as [->|Hne].
    + assert (Hin : (id, p) ∈ inserts tasks) by (rewrite Eq, inserts_app; apply elem_of_app; right; by left).
      destruct (lg_inserts _ _ _ _ Hl id p Hin) as [(t' & Et' & <-) _]. rewrite E in Et'. injection Et' as <-. by right; right.
    + rewrite F by done. destruct (Hi _ _ _ _ _ Eq Eu) as [V|V]; [by left|by right; left].
Qed.

(** ... and ends. *)
Lemma watched_rest p t t' : watched flight heap tasks m -> flight p = true -> heap !! p = Some t ->
  watched (land p flight) (<[p := t']> heap) tasks m.
Proof.
  intros [Ht Hi] Fp E. assert (F : forall q, q <> p -> land p flight q = flight q)
    by (intros q Hne; unfold land; by rewrite (proj2 (Z.eqb_neq q p))). split.
  - intros id q u Eq Eu. destruct (decide (q = p)) as [->|Hne].
    + destruct (Ht id p t Eq E) as [[_ F']|V]; [congruence|by right].
    + rewrite lookup_insert_ne in Eu by done. rewrite F by done. by apply (Ht id q u).
  - intros q1 q2 id q u Eq Eu. destruct (decide (q = p)) as [->|Hne].
    + destruct (Hi q1 q2 id p t Eq E) as [[_ F']|V]; [congruence|by right].
    + rewrite lookup_insert_ne in Eu by done. rewrite F by done. by apply (Hi q1 q2 id q u).
Qed.

End Watched.

Lemma watched_flight flight flight' heap tasks m : (forall p, flight' p = flight p) ->
  watched flight heap tasks m -> watched flight' heap tasks m.
Proof. intros E [Ht Hi]. split; intros *; rewrite E; [apply Ht|apply Hi]. Qed.

Section Runs.
Context {order : Host}.
Context (calloc : gmap Z Transaction -> Z).
Context (source_create : gmap Z source -> Z).
Context (malloc_node : gmap Z queue_node_s -> option (Z * queue_node_s)).

Definition transaction_step (op : transaction_op) : prog TransactionConfiguration unit :=
  match op with
  | AppRequest address object => transactionRequest calloc source_create address object
  | AppEnable => transactionEnable
  | AppDisable => transactionDisable
  | RunTask => run_task source_create
  | TimerBlock src =>
      c <- get ;;
      if bool_decide (is_Some (t_sources c !! src)) then timer_block src ;; ret tt else ret tt
  | TimerRest transaction =>
      c <- get ;;
      if handling c transaction then timer_rest transaction else ret tt
  | Deliver out i => deliver out i
  | Datagram address bytes => on_socket (read_event (Some (address, bytes)))
  | RunBlock => on_socket (run_send_block malloc_node)
  | Writable => on_socket write_event
  end.

Fixpoint transaction_run (ops : list transaction_op) : prog TransactionConfiguration unit :=
  match ops with
  | [] => ret tt
  | op :: ops' => transaction_step op ;; transaction_run ops'
  end.

(** Objects fit in a packet, bytes are bytes. *)
Definition transaction_op_ok (op : transaction_op) : Prop :=
  match op with
  | AppRequest _ object => sendable_object object
  | Datagram _ bytes => Forall byte bytes
  | _ => True
  end.

(** The next task answers a request, and no packet is left for the answer or
    the request breaks the limits of its format. *)
Definition unserviceable (c : TransactionConfiguration) : Prop :=
  exists packet id tasks, t_queue c = TaskRequest packet id :: tasks /\
    (net_packet_alloc (t_socket c) = Done (0, t_socket c) \/
     exists k, s_packets (t_socket c) !! packet = Some k /\ request_limits (pk_bitstream k) = false).


(** The next task stops the timer of a transaction, or frees the transaction,
    while the handler of its timer runs. *)
Definition overtaken (c : TransactionConfiguration) : Prop :=
  exists task tasks, t_queue c = task :: tasks /\
  match task with
  | TaskResponse _ id | TaskRetry id =>
      exists p, hashtable_search (t_transactions c) id = Done p /\ handling c p = true
  | TaskDisable =>
      t_isEnabled c = true /\ exists id p, hashtable_search (t_transactions c) id = Done p /\ handling c p = true
  | _ => False
  end.

Hypothesis calloc_fresh : fresh_address calloc.
Hypothesis source_fresh : fresh_address source_create.
Hypothesis malloc_node_fresh : malloc_fresh malloc_node.
Hypothesis malloc_node_some : forall h, malloc_node h <> None.

(** The invariant of a run. *)
Record agent_holds (c : TransactionConfiguration) (m : gmap Z Z) (held pending : list Z) : Prop := {
  ah_trans : flight_holds (handling c) c m held pending;
  ah_watched : watched (handling c) (t_heap c) (t_queue c) m;
}.

Lemma agent_intro flight c m held pending : flight_holds flight c m held pending ->
  watched flight (t_heap c) (t_queue c) m -> agent_holds c m held pending.
Proof.
  intros H Hw. pose proof (fun p => handling_flight flight c m held pending p H) as E.
  split; [by apply (flight_handling flight)|by apply (watched_flight flight)].
Qed.

(** A step keeps it, and sends at most one packet. *)
Definition steps_to (c c' : TransactionConfiguration) (pending : list Z) : Prop :=
  exists m' held' pending', agent_holds c' m' held' pending' /\
    (outgoing (t_socket c') pending' <= S (outgoing (t_socket c) pending))%nat.

(** Only the queue has lost its first task, which is not an insertion. *)
Lemma pop_watched c m held pending task tasks : agent_holds c m held pending -> t_queue c = task :: tasks ->
  (forall id, task <> TaskRetry id) -> (forall id p, task <> TaskInsert id p) -> watched (handling c) (t_heap c) tasks m.
Proof. intros [_ Hw] E. rewrite E in Hw. by apply watched_pop. Qed.


Lemma insert_step c m held pending id p tasks : agent_holds c m held pending ->
  t_queue c = TaskInsert id p :: tasks ->
  exists c', on_table (hashtable_insert id p) (set_queue tasks c) = Done (tt, c') /\
    agent_holds c' (<[id := p]> m) held pending /\ c' = set_table (t_transactions c') (set_queue tasks c).
Proof.
  intros [[Hm Hl Ht Hc] Hw] E. rewrite E in Hm, Hl, Hw.
  destruct (ledger_insert _ _ _ _ id p Hl) as (table' & Ei & Hl').
  rewrite (on_table_done _ (set_queue tasks c) tt table' Ei). eexists. split; [reflexivity|]. split; [|done].
  apply (agent_intro (handling c)); [|by apply watched_insert]. split; [exact Hm|exact Hl'|done|done].
Qed.

(** The transaction of an id that a task looks for, when no handler is
    overtaken. *)
Lemma entry_grounded c m held pending id p : agent_holds c m held pending -> 0 <= id -> m !! id = Some p ->
  Grounded (handling c) p \/ hashtable_search (t_transactions c) id = Done p /\ handling c p = true.
Proof.
  intros [H _] Hid Em. unfold Grounded. destruct (handling c p) eqn:F; [right|by left]. split; [|done].
  by rewrite (ledger_search _ _ _ _ id (th_ledger _ _ _ _ H) Hid), Em.
Qed.

Lemma response_step c m held pending packet id tasks : agent_holds c m held pending ->
  t_queue c = TaskResponse packet id :: tasks ->
  overtaken c \/ exists c', run_response packet id (set_queue tasks c) = Done (tt, c') /\ steps_to c c' pending.
Proof.
  intros A E. pose proof A as [H _]. destruct (pop_holds _ _ _ _ _ _ H E eq_refl) as (H1 & Hid & Hk).
  cbn [task_packet app task_id] in H1, Hid.
  destruct (Hk packet eq_refl) as (k & Ek & R). pose proof (pop_watched _ _ _ _ _ _ A E) as Hw.
  specialize (Hw ltac:(done) ltac:(done)). set (c1 := set_queue tasks c) in *.
  destruct (m !! id) as [p|] eqn:Em.
  - destruct (entry_grounded c m held pending id p A Hid Em) as [G|G];
      [right|left; exists (TaskResponse packet id), tasks; split; [done|by exists p]].
    destruct (entry_address c1 m _ pending id p H1 Em) as (t & Et & _ & _).
    destruct (run_response_known (order := order) c1 m held pending packet k id p t H1 Hid Ek R Em Et)
      as (c' & kt & Er & _ & H' & Eh & _ & _ & Eq & Eb & _).
    exists c'. split; [done|]. exists (delete id m), held, pending. split; [apply (agent_intro (handling c)); [done|]|].
    + rewrite Eh, Eq. apply (watched_shrink _ (t_heap c) tasks m); [done|apply delete_subseteq..].
    + unfold outgoing. rewrite Eb. cbn. lia.
  - right. exists c1. split; [by apply (run_response_unknown (flight := handling c) c1 m (packet :: held) pending)|].
    exists m, (packet :: held), pending. split; [by apply (agent_intro (handling c))|]. cbn. lia.
Qed.

Lemma retry_step c m held pending id tasks : agent_holds c m held pending ->
  t_queue c = TaskRetry id :: tasks -> Z.of_nat (outgoing (t_socket c) pending) + 65 < 2 ^ 32 ->
  overtaken c \/ exists c', run_retry source_create id (set_queue tasks c) = Done (tt, c') /\ steps_to c c' pending.
Proof.
  intros A E Hlen. pose proof A as [H Hw]. destruct (pop_holds _ _ _ _ _ _ H E eq_refl) as (H1 & Hid & _).
  cbn [task_packet app task_id] in *.
  rewrite E in Hw. apply watched_retry in Hw. set (c1 := set_queue tasks c) in *.
  destruct (m !! id) as [p|] eqn:Em.
  - destruct (entry_grounded c m held pending id p A Hid Em) as [G|G];
      [right|left; exists (TaskRetry id), tasks; split; [done|by exists p]].
    destruct (entry_address c1 m _ pending id p H1 Em) as (t & Et & W & _). pose proof (tw_retries _ _ W) as Hr.
    destruct (decide (tr_retries t = kTransactionMaxRetries)) as [Er|Er].
    + destruct (run_retry_fail source_create c1 m held pending id p t H1 Em Et Er)
        as (c' & k & Ec & _ & H' & [h1 h2 h3 h4 h5 h6 h7 h8 h9]).
      exists c'. split; [done|]. exists (delete id m), held, pending. split; [apply (agent_intro (handling c)); [done|]|].
      * rewrite h1, h4. apply (watched_shrink _ (t_heap c) tasks (delete id m)); [done|apply delete_subseteq|done].
      * unfold outgoing. rewrite h5. cbn. lia.
    + destruct (ml_out _ _ _ _ _ (th_mail _ _ _ _ H1) _ (sent_in _ p t Et)) as (k & Ek & _).
      destruct (run_retry_again source_create (fun m => proj2 (source_fresh m)) c1 m held pending id p t k H1 Em Et Ek)
        as (c' & Ec & H' & [h1 h2 h3 h4 h5 h6 h7 h8 h9]); [lia|done|].
      exists c'. split; [done|]. exists m, held, pending. split; [apply (agent_intro (handling c)); [done|]|].
      * rewrite h1, h3. apply (watched_timed _ _ _ _ id); [done|done|by apply started_valid|by left].
      * unfold outgoing. rewrite h6. cbn [c1 t_socket set_queue]. destruct (0 <? _); rewrite !length_app; cbn; lia.
  - right. exists c1. split; [by apply (run_retry_unknown (flight := handling c) source_create c1 m held pending)|].
    exists m, held, pending. split; [|cbn; lia]. apply (agent_intro (handling c)); [done|]. by rewrite delete_id in Hw.
Qed.

Lemma request_step c m held pending packet id tasks : agent_holds c m held pending ->
  t_queue c = TaskRequest packet id :: tasks -> Z.of_nat (outgoing (t_socket c) pending) + 65 < 2 ^ 32 ->
  unserviceable c \/
  exists c', run_request packet id (set_queue tasks c) = Done (tt, c') /\ steps_to c c' pending.
Proof.
  intros A E Hlen. pose proof A as [H _]. destruct (pop_holds _ _ _ _ _ _ H E eq_refl) as (H1 & Hid & Hk). cbn [task_packet app] in H1.
  destruct (Hk packet eq_refl) as (k & Ek & R). pose proof (pop_watched _ _ _ _ _ _ A E) as Hw.
  specialize (Hw ltac:(done) ltac:(done)). set (c1 := set_queue tasks c) in *.
  destruct (request_limits (pk_bitstream k)) eqn:Hlim.
  2:{ left. exists packet, id, tasks. split; [done|]. right. by exists k. }
  destruct (limits_understood k R Hlim) as (r & object & Hu).
  destruct (run_request_done c1 m held pending packet k id r object H1 Ek R Hu Hlen)
    as [Ex|(c' & s' & o & kr & Er & H' & Ec & _ & _ & Eb & _)].
  { left. exists packet, id, tasks. split; [done|]. by left. }
  right. exists c'. split; [done|]. exists m, held, pending. split; [apply (agent_intro (handling c)); [done|by rewrite Ec]|].
  rewrite Ec. unfold outgoing. cbn. rewrite Eb, !length_app. cbn. lia.
Qed.

(** No handler runs for a transaction of the table, or one does. *)
Lemma table_grounded c m held pending : agent_holds c m held pending ->
  AllGrounded (handling c) m \/
  exists id p, hashtable_search (t_transactions c) id = Done p /\ handling c p = true.
Proof.
  intros [H _]. destruct (decide (map_Forall (fun _ p => handling c p = false) m)) as [G|G]; [by left|right].
  apply map_not_Forall in G; [|apply _]. destruct G as (id & p & Em & F). exists id, p.
  apply not_false_iff_true in F. split; [|done]. pose proof (th_ledger _ _ _ _ H) as Hl.
  pose proof (hh_keys _ _ (lg_table _ _ _ _ Hl) id p Em) as [Hid _].
  rewrite (ledger_search _ _ _ _ id Hl) by lia. by rewrite Em.
Qed.

Lemma disable_step c m held pending tasks : agent_holds c m held pending -> t_queue c = TaskDisable :: tasks ->
  overtaken c \/
  exists c', (if t_isEnabled (set_queue tasks c) then modify (set_isEnabled false) ;; transactionRemoveAll else ret tt)
    (set_queue tasks c) = Done (tt, c') /\ steps_to c c' pending.
Proof.
  intros A E. pose proof A as [H _]. destruct (pop_holds _ _ _ _ _ _ H E eq_refl) as (H1 & _ & _). cbn [task_packet app] in H1.
  pose proof (pop_watched _ _ _ _ _ _ A E) as Hw. specialize (Hw ltac:(done) ltac:(done)).
  set (c1 := set_queue tasks c) in *. destruct (t_isEnabled c1) eqn:En.
  - destruct (table_grounded c m held pending A) as [G|G]; [right|left; by exists TaskDisable, tasks].
    rewrite bind_modify. set (c2 := set_isEnabled false c1).
    assert (H2 : flight_holds (handling c) c2 m held pending) by (destruct H1; by split).
    destruct (removeAll_holds c2 m held pending H2) as (c' & Er & H' & [q1 q2 q3 q4 q5 _] & _).
    exists c'. split; [done|]. exists ∅, held, pending. split; [apply (agent_intro (handling c)); [done|]|].
    + rewrite q1. apply (watched_shrink _ (t_heap c) tasks m); [done|exact q5|apply map_empty_subseteq].
    + unfold outgoing. rewrite q3. cbn. lia.
  - right. exists c1. split; [done|]. exists m, held, pending. split; [by apply (agent_intro (handling c))|]. cbn. lia.
Qed.

Lemma trans_task_holds c m held pending : agent_holds c m held pending ->
  Z.of_nat (outgoing (t_socket c) pending) + 65 < 2 ^ 32 ->
  (unserviceable c \/ overtaken c) \/ exists c', run_task source_create c = Done (tt, c') /\ steps_to c c' pending.
Proof.
  intros H Hlen. unfold run_task. rewrite bind_get. destruct (t_queue c) as [|task tasks] eqn:E.
  { right. exists c. split; [done|]. exists m, held, pending. split; [done|lia]. }
  rewrite bind_modify. destruct task as [id p|packet id|packet id|id| |].
  - right. destruct (insert_step c m held pending id p tasks H E) as (c' & Ec & H' & Eq). exists c'. split; [done|].
    exists (<[id := p]> m), held, pending. split; [done|]. rewrite Eq. cbn. lia.
  - destruct (response_step c m held pending packet id tasks H E) as [O|Go]; [left; by right|by right].
  - destruct (request_step c m held pending packet id tasks H E Hlen) as [U|Go]; [left; by left|by right].
  - destruct (retry_step c m held pending id tasks H E Hlen) as [O|Go]; [left; by right|by right].
  - right. pose proof (pop_watched _ _ _ _ _ _ H E) as Hw. specialize (Hw ltac:(done) ltac:(done)).
    destruct (pop_holds _ _ _ _ _ _ (ah_trans _ _ _ _ H) E eq_refl) as (H1 & _ & _). cbn [task_packet app] in H1.
    eexists. split; [reflexivity|]. exists m, held, pending.
    destruct (negb _); (split; [apply (agent_intro (handling c)); [destruct H1; by split|done]|cbn; lia]).
  - destruct (disable_step c m held pending tasks H E) as [O|Go]; [left; by right|by right].
Qed.

Lemma push_holds c m held pending task : agent_holds c m held pending -> task_packet task = [] ->
  task_insert task = [] -> 0 <= task_id task ->
  agent_holds (set_queue (t_queue c ++ [task]) c) m held pending.
Proof.
  intros [[Hm Hl Ht Hc] Hw] Ep Ei Hid. apply (agent_intro (handling c)).
  - split; cbn; [|by apply ledger_push|done|done]. rewrite task_packets_app. unfold task_packets at 2. cbn.
    by rewrite Ep, !app_nil_r.
  - apply watched_push; [done|]. by intros id p t ->.
Qed.

Lemma make_step c m held pending addr object : agent_holds c m held pending -> sendable_object object ->
  Z.of_nat (outgoing (t_socket c) pending) + 65 < 2 ^ 32 ->
  exists c', transactionRequest calloc source_create addr object c = Done (tt, c') /\ steps_to c c' pending.
Proof.
  intros A Hob Hlen. pose proof A as [H Hw].
  destruct (request_holds calloc source_create calloc_fresh (fun m => proj2 (source_fresh m)) c m held pending addr object H Hob Hlen)
    as [Ex|(c' & o & k & Er & H' & [h1 h2 h3 h4 [h5 h6 h7 h8 h9] h10 h11 h12 h13])].
  { exists c. split; [by apply request_exhausted|]. exists m, held, pending. split; [done|lia]. }
  exists c'. split; [done|]. exists m, held, pending. split; [apply (agent_intro (handling c)); [done|]|].
  - rewrite h1, h3. destruct (calloc_fresh (t_heap c)) as [_ Hn].
    pose proof (timers_new _ _ _ (th_timers _ _ _ _ H) Hn) as G.
    assert (V : valid (tr_timeout (requested calloc source_create c o)) = true /\ handling c (calloc (t_heap c)) = false)
      by (split; [by apply started_valid|exact G]).
    apply watched_push.
    + destruct Hw as [Ht Hi]. split.
      * intros id p t Em Et. apply lookup_insert_Some in Et as [[<- <-]|[Hne Et]]; [by left|by apply (Ht id p)].
      * intros q1 q2 id p t Eq Et. apply lookup_insert_Some in Et as [[<- <-]|[Hne Et]]; [by left|by apply (Hi q1 q2 id p)].
    + intros id p t [= _ <-] Et. rewrite lookup_insert_eq in Et. by injection Et as <-.
  - unfold outgoing. rewrite h7, !length_app. cbn. lia.
Qed.

Lemma block_step c m held pending src : agent_holds c m held pending -> is_Some (t_sources c !! src) ->
  exists c', (timer_block src ;; ret tt) c = Done (tt, c') /\ steps_to c c' pending.
Proof.
  intros [H Hw] [x Ex]. destruct (src_armed x) eqn:Ea.
  - destruct (timer_block_done c m held pending src x H Ex Ea) as (p & t & d & Et & _ & _ & _ & Eb & H').
    rewrite (bind_done _ _ _ _ _ Eb). eexists. split; [reflexivity|]. exists m, held, pending.
    split; [apply (agent_intro (take_off p (handling c))); [done|]|cbn; lia]. cbn.
    by apply (watched_block _ _ _ _ (t_transactions c)); [|apply H|].
  - exists c. split; [|exists m, held, pending; split; [by split|lia]].
    destruct (tm_source _ _ _ (th_timers _ _ _ _ H) src x Ex) as (p & t & d & Et & Etm & _).
    destruct (tm_valid _ _ _ (th_timers _ _ _ _ H) p t Et) as (Hs & _); [by rewrite Etm|]. rewrite Etm in Hs. cbn in Hs.
    unfold timer_block, bind at 1, timer_fires, source_at. rewrite (proj2 (Z.eqb_neq src 0)), Ex by done. cbn.
    by rewrite Ea.
Qed.

Lemma rest_step c m held pending p : agent_holds c m held pending -> handling c p = true ->
  exists c', timer_rest p c = Done (tt, c') /\ steps_to c c' pending.
Proof.
  intros [H Hw] F. destruct (timer_rest_done c m held pending p H F) as (t & Et & _ & Er & H').
  eexists. split; [exact Er|]. exists m, held, pending. split; [apply (agent_intro (land p (handling c))); [done|]|cbn; lia].
  by apply (watched_rest _ _ _ _ p t).
Qed.

Lemma transaction_step_holds op c m held pending : agent_holds c m held pending -> transaction_op_ok op ->
  Z.of_nat (outgoing (t_socket c) pending) + 65 < 2 ^ 32 ->
  (op = RunTask /\ (unserviceable c \/ overtaken c)) \/
  exists c', transaction_step op c = Done (tt, c') /\ steps_to c c' pending.
Proof.
  intros H Hop Hlen.
  assert (Sock : forall s' held' pending', mail_holds s' (sent (t_heap c)) (task_packets (t_queue c)) held' pending' ->
    (outgoing s' pending' <= outgoing (t_socket c) pending)%nat -> steps_to c (set_socket s' c) pending).
  { intros s' held' pending' H' L. exists m, held', pending'. split; [|cbn; lia].
    destruct H as [[_ Hl Ht Hc] Hw]. by apply (agent_intro (handling c)). }
  assert (Idle : exists c', ret tt c = Done (tt, c') /\ steps_to c c' pending)
    by (exists c; split; [done|]; exists m, held, pending; split; [done|lia]).
  pose proof (th_mail _ _ _ _ (ah_trans _ _ _ _ H)) as Hm.
  destruct op as [addr object| | | |src|p|out i|addr bytes| |]; cbn [transaction_step].
  - right. by apply (make_step c m held pending).
  - right. eexists. split; [reflexivity|]. exists m, held, pending. split; [by apply push_holds|cbn; lia].
  - right. eexists. split; [reflexivity|]. exists m, held, pending. split; [by apply push_holds|cbn; lia].
  - destruct (trans_task_holds c m held pending H Hlen) as [U|Go]; [by left|by right].
  - right. rewrite bind_get. case_bool_decide as Hs; [by apply (block_step c m held pending)|done].
  - right. rewrite bind_get. destruct (handling c p) eqn:F; [by apply (rest_step c m held pending)|done].
  - right. destruct H as [H Hw].
    destruct (deliver_holds c m held pending i out H Hlen) as (c' & tasks & E & H' & L & Eh & Eq & T).
    exists c'. split; [done|]. exists m, held, pending. split; [apply (agent_intro (handling c)); [done|]|lia]. rewrite Eh, Eq.
    destruct T as [->|(task & -> & T)]; [by rewrite app_nil_r|]. apply watched_push; [done|]. by intros id p t ->.
  - right. destruct (mail_datagram _ _ _ _ _ addr bytes Hm Hop) as (s' & held' & E & H' & B).
    eexists. split; [by apply (trans_socket_done _ c tt s')|]. apply (Sock s' held' pending H'). unfold outgoing. by rewrite B.
  - right. destruct (mail_block malloc_node malloc_node_fresh malloc_node_some _ _ _ _ _ Hm) as (s' & pending' & E & H' & L).
    eexists. split; [by apply (trans_socket_done _ c tt s')|]. apply (Sock s' held pending' H'). lia.
  - right. destruct (mail_writable _ _ _ _ _ Hm) as (s' & E & H' & L).
    eexists. split; [by apply (trans_socket_done _ c tt s')|]. by apply (Sock s' held []).
Qed.

(** A run stops at a request that cannot be answered, and at a task that
    overtakes the handler of a timer; all is well until then. *)
Definition stops (ops : list transaction_op) (c : TransactionConfiguration) : Prop :=
  exists ops1 ops2 c1, ops = ops1 ++ RunTask :: ops2 /\ transaction_run ops1 c = Done (tt, c1) /\
    (unserviceable c1 \/ overtaken c1) /\
    exists m held pending, flight_holds (handling c1) c1 m held pending.

Lemma run_holds ops c m held pending :
  agent_holds c m held pending -> Forall transaction_op_ok ops ->
  Z.of_nat (outgoing (t_socket c) pending + length ops) + 65 < 2 ^ 32 ->
  (exists c' m' held' pending', transaction_run ops c = Done (tt, c') /\ agent_holds c' m' held' pending') \/
  stops ops c.
Proof.
  intros H Hops. revert c m held pending H.
  induction Hops as [|op ops Hop Hops IH]; intros c m held pending H Hlen; cbn [transaction_run].
  - left. by exists c, m, held, pending.
  - cbn [length] in Hlen.
    destruct (transaction_step_holds op c m held pending H Hop) as [[-> U]|(c1 & E1 & m1 & h1 & p1 & H1 & L)]; [lia| |].
    + right. exists [], ops, c. do 3 (split; [done|]). exists m, held, pending. apply H.
    + rewrite (bind_done _ _ _ _ _ E1). destruct (IH c1 m1 h1 p1 H1) as [Go|(ops1 & ops2 & c2 & -> & E2 & U)]; [lia|by left|].
      right. exists (op :: ops1), ops2, c2. split; [done|]. split; [|done]. cbn. by rewrite (bind_done _ _ _ _ _ E1).
Qed.

(** C1: an agent is safe.  Start from a sound agent, and let the application
    make requests of objects that fit in a packet, enable and disable; let the
    dispatch queue run its tasks; let timers fire, and their handlers run the
    block and end in two steps that anything may come between; let datagrams
    of bytes arrive, packets be delivered, the socket send and become
    writable; all in any order.  The run goes on without a fault, every
    reference to a packet has one owner, every source is the timer of one
    transaction, armed or running its handler, and every entry of the table is
    a transaction that waits for its response; up to the first task that
    answers a request without a packet for the answer, or a request that
    breaks the limits of its format, or that overtakes the handler of a timer:
    that handles a response for, retries or removes a transaction whose timer
    is between its block and its end. *)
Theorem transaction_safe ops c m held pending :
  agent_holds c m held pending -> Forall transaction_op_ok ops ->
  Z.of_nat (outgoing (t_socket c) pending + length ops) + 65 < 2 ^ 32 ->
  (exists c' m' held' pending', transaction_run ops c = Done (tt, c') /\
    flight_holds (handling c') c' m' held' pending') \/
  stops ops c.
Proof.
  intros H Hops Hlen. destruct (run_holds ops c m held pending H Hops Hlen) as [(c' & m' & h' & p' & E & [H' _])|S];
    [left|by right]. by exists c', m', h', p'.
Qed.

(** C26: what the table holds is watched.  After any such run of an agent, every
    transaction that the table holds waits for its response, was retried at
    most twice, and has a timer that is armed and will run its block, or a
    retry of its id in the dispatch queue, also while the handler of its timer
    is between its block and its end; the run stops where that of
    [transaction_safe] does. *)
Theorem transaction_watched ops c m held pending :
  agent_holds c m held pending -> Forall transaction_op_ok ops ->
  Z.of_nat (outgoing (t_socket c) pending + length ops) + 65 < 2 ^ 32 ->
  (exists c', transaction_run ops c = Done (tt, c') /\
    forall id p, 0 <= id -> hashtable_search (t_transactions c') id = Done p -> p <> 0 ->
    exists t, t_heap c' !! p = Some t /\ tr_id t = id /\ tr_state t = TransactionWaiting /\
      0 <= tr_retries t <= kTransactionMaxRetries /\
      ((exists d, t_sources c' !! timerDispatchSource (tr_timeout t) = Some (armed p d)) \/
       TaskRetry id ∈ t_queue c')) \/
  stops ops c.
Proof.
  intros H Hops Hlen. destruct (run_holds ops c m held pending H Hops Hlen) as [(c' & m' & h' & p' & E & [H' [Hw _]])|S];
    [left|by right]. exists c'. split; [done|]. intros id p Hid Es Hp.
  rewrite (ledger_search _ _ _ _ id (th_ledger _ _ _ _ H') Hid) in Es.
  destruct (m' !! id) as [q|] eqn:Em; injection Es as <-; [|done]. change (default 0 (Some q)) with q in *.
  destruct (entry_address c' m' _ _ id q H' Em) as (t & Et & [w1 w2 w3 w4 w5] & Ei).
  exists t. do 4 (split; [done|]). destruct (Hw id q t Em Et) as [[V F]|V]; [left|by right].
  destruct (tm_valid _ _ _ (th_timers _ _ _ _ H') q t Et V) as (_ & d & Ed). exists d.
  rewrite Ed. unfold timer_of. by rewrite F.
Qed.

(** What happens when a retry overtakes the handler that dispatched it: the
    end of the handler releases the timer that the retry created, and the
    transaction waits in the table without a timer, for a response or for
    ever. *)
Lemma overtaken_retry_forgets c m held pending id p t src : trans_holds c m held pending -> t_queue c = [] ->
  m !! id = Some p -> t_heap c !! p = Some t -> tr_timeout t = mkTimeout src true ->
  tr_retries t < kTransactionMaxRetries -> Z.of_nat (outgoing (t_socket c) pending) + 65 < 2 ^ 32 ->
  exists c' t', (fired <- timer_block src ;; run_task source_create ;;
      match fired with Some transaction => timer_rest transaction | None => ret tt end) c = Done (tt, c') /\
    hashtable_search (t_transactions c') id = Done p /\ t_heap c' !! p = Some t' /\
    tr_state t' = TransactionWaiting /\ valid (tr_timeout t') = false /\
    t_sources c' = delete src (t_sources c) /\ t_queue c' = [].
Proof.
  intros H Hq Em Et Etm Hr Hlen.
  destruct (tm_valid _ _ _ (th_timers _ _ _ _ H) p t Et) as (Hs & d & Ed); [by rewrite Etm|]. rewrite Etm in Hs, Ed. cbn in Hs, Ed.
  destruct (entry_address c m held pending id p H Em) as (t0 & Et0 & [Hp Hst Hid _ _] & Ei).
  rewrite Et in Et0. injection Et0 as <-. rewrite Ei in Hid.
  destruct (timer_block_done c m held pending src _ H Ed eq_refl) as (p' & t' & d' & Et' & _ & Ea & _ & Eb & _).
  injection Ea as <- <-. rewrite Et in Et'. injection Et' as <-. rewrite (bind_done _ _ _ _ _ Eb). clear Eb.
  rewrite Hq, Ei. cbn [app]. set (S := <[src := mkSource 1 false d kLEEWAY 0 p]> (t_sources c)).
  destruct (ml_out _ _ _ _ _ (th_mail _ _ _ _ H) _ (sent_in _ p t Et)) as (k & Ek & _).
  destruct (run_retry_again source_create (fun m => proj2 (source_fresh m)) c m held pending id p t k H Em Et Ek Hr Hlen)
    as (c2 & E2 & H2 & [h1 h2 h3 _ _ _ _ _ _]).
  assert (Eq : set_queue [] c = c) by (destruct c; cbn in *; by subst).
  assert (Er : run_task source_create (set_timers S (set_queue [TaskRetry id] c)) = Done (tt, c2)).
  { rewrite <- E2. unfold run_task. rewrite bind_get. change (t_queue (set_timers _ _)) with [TaskRetry id].
    cbv beta iota. rewrite bind_modify. cbv beta iota. change (set_queue _ (set_timers _ _)) with (set_timers S (set_queue [] c)). rewrite Eq.
    unfold run_retry. rewrite (bind_done _ _ _ _ _ (find_transaction_done c m _ pending id H (proj1 Hid))), Em.
    assert (Ef : find_transaction id (set_timers S c) = Done (p, set_timers S c)).
    { unfold find_transaction. cbn. by rewrite (ledger_search _ _ _ _ id (th_ledger _ _ _ _ H) (proj1 Hid)), Em. }
    rewrite (bind_done _ _ _ _ _ Ef). change (default 0 (Some p)) with p. rewrite (proj2 (Z.eqb_neq p 0)) by done. cbn [negb].
    rewrite (bind_done _ _ _ _ _ (get_transaction_done c p t Hp Et)).
    rewrite (bind_done _ _ _ _ _ (get_transaction_done (set_timers S c) p t Hp Et)).
    rewrite decide_True by done. apply bind_agree. exact (destroy_fired c m held pending p t src d H Et Etm). }
  assert (Eo : others t (t_sources c) = delete src (t_sources c)) by (unfold others; by rewrite Etm).
  rewrite Eo in h1, h2. rewrite (bind_done _ _ _ _ _ Er). set (u := retried source_create t _) in *.
  assert (Eu : t_heap c2 !! p = Some u) by (rewrite h1; apply lookup_insert_eq).
  destruct (source_fresh (delete src (t_sources c))) as [Hn Hf]. set (src' := source_create _) in *.
  assert (Es : t_sources c2 !! src' = Some (armed p (u64 (retry_rto (tr_retries t + 1) * kNSEC_PER_MILLISEC)))).
  { rewrite h2. unfold with_timer. fold src'. rewrite (proj2 (Z.eqb_neq src' 0)) by done. apply lookup_insert_eq. }
  assert (Ef : timer_fired (mkTimeoutState (tr_timeout u) (t_sources c2)) =
    Done (tt, mkTimeoutState (mkTimeout src' false) (delete src' (t_sources c2)))).
  { unfold timer_fired, on_sources, dispatch_release, source_at, bind, get, modify.
    change (timerDispatchSource (ts_timeout (mkTimeoutState (tr_timeout u) (t_sources c2)))) with src'. cbn.
    by rewrite (proj2 (Z.eqb_neq src' 0)), Es. }
  unfold timer_rest. rewrite (on_timeout_done c2 p u timer_fired tt _ Hp Eu Ef). eexists _, _. split; [reflexivity|].
  pose proof (ledger_search _ _ _ _ id (th_ledger _ _ _ _ H2) (proj1 Hid)) as L. rewrite Em in L.
  split; [exact L|]. split; [cbn; apply lookup_insert_eq|]. do 2 (split; [done|]). split; [|cbn; congruence]. cbn. rewrite h2.
  unfold with_timer. fold src'. rewrite (proj2 (Z.eqb_neq src' 0)) by done. by apply delete_insert_id.
Qed.

End Runs.

(** *** Concrete instances *)

Lemma demo_agent_watched : agent_holds demo_agent ∅ [] [].
Proof.
  apply (agent_intro no_flight); [exact demo_agent_holds|]. split.
  - intros id p t E. by rewrite lookup_empty in E.
  - intros q1 q2 id p t E. by destruct q1.
Qed.

(** A request whose timer fires twice; other events come between the halves of
    the first handler, and the second has not ended. *)
Definition demo_transaction_run : list transaction_op :=
  [AppRequest demo_peer_address demo_transaction_object; RunTask; RunBlock; TimerBlock 1; Datagram demo_peer_address [0];
   Deliver (0, 0) 0; TimerRest 1; RunTask; TimerBlock 1].

Lemma demo_transaction_run_ok {order : Host} : Forall transaction_op_ok demo_transaction_run.
Proof.
  apply Forall_cons_2; [exact demo_transaction_object_ok|]. by repeat constructor.
Qed.

Definition demo_watched : option (list transaction_task * outcome Z * bool) :=
  match transaction_run (order := LittleEndian) free_address free_address next_free demo_transaction_run demo_agent with
  | Done (_, c) => Some (t_queue c, hashtable_search (t_transactions c) 0, handling c 1)
  | Fault _ => None
  end.

(** The run reaches its end, with the transaction in the table, its handler
    running and a retry in the queue. *)
Lemma demo_watched_ends : demo_watched = Some ([TaskRetry 0], Done 1, true).
Proof. vm_compute. reflexivity. Qed.

Lemma transaction_safe_witness :
  demo_watched = Some ([TaskRetry 0], Done 1, true) /\
  ((exists c' m' held' pending',
    transaction_run (order := LittleEndian) free_address free_address next_free demo_transaction_run demo_agent = Done (tt, c') /\
    flight_holds (handling c') c' m' held' pending') \/
  stops (order := LittleEndian) free_address free_address next_free demo_transaction_run demo_agent).
Proof.
  split; [exact demo_watched_ends|].
  apply (transaction_safe free_address free_address next_free free_address_fresh free_address_fresh
    next_free_fresh next_free_some demo_transaction_run demo_agent ∅ [] []).
  - exact demo_agent_watched.
  - exact demo_transaction_run_ok.
  - rewrite demo_agent_outgoing. reflexivity.
Defined.

Lemma transaction_watched_witness :
  demo_watched = Some ([TaskRetry 0], Done 1, true) /\
  ((exists c', transaction_run (order := LittleEndian) free_address free_address next_free demo_transaction_run demo_agent = Done (tt, c') /\
    forall id p, 0 <= id -> hashtable_search (t_transactions c') id = Done p -> p <> 0 ->
    exists t, t_heap c' !! p = Some t /\ tr_id t = id /\ tr_state t = TransactionWaiting /\
      0 <= tr_retries t <= kTransactionMaxRetries /\
      ((exists d, t_sources c' !! timerDispatchSource (tr_timeout t) = Some (armed p d)) \/
       TaskRetry id ∈ t_queue c')) \/
  stops (order := LittleEndian) free_address free_address next_free demo_transaction_run demo_agent).
Proof.
  split; [exact demo_watched_ends|].
  apply (transaction_watched free_address free_address next_free free_address_fresh free_address_fresh
    next_free_fresh next_free_some demo_transaction_run demo_agent ∅ [] []).
  - exact demo_agent_watched.
  - exact demo_transaction_run_ok.
  - rewrite demo_agent_outgoing. reflexivity.
Defined.
