(* ===== verification/TransactionLoss.v ===== *)
(** * Requests over a network that loses datagrams (src/transaction.c)

    A client and a server, each an agent of its own.  The request or the
    response of an attempt is lost; then the timer of the client fires and the
    request is sent again.  What the server hears is what the client has put
    on its wire last, and the other way round. *)
From S2P Require Import Prelude Bitstream Wire Fields Net Protocol TransactionProtocol TransactionProtocolSpec.
From S2P Require Import Hashtable Queue Pool NetSocket NetSocketSpec Timeout Transaction TransactionSpec TransactionStep.
From S2P Require Import TransactionRun TransactionAnswer.

Record agents := mkAgents {
  ag_client : TransactionConfiguration;
  ag_server : TransactionConfiguration;
}.

Definition on_client {A} (m : prog TransactionConfiguration A) : prog agents A := fun a =>
  match m (ag_client a) with
  | Done (x, c) => Done (x, mkAgents c (ag_server a))
  | Fault f => Fault f
  end.

Definition on_server {A} (m : prog TransactionConfiguration A) : prog agents A := fun a =>
  match m (ag_server a) with
  | Done (x, c) => Done (x, mkAgents (ag_client a) c)
  | Fault f => Fault f
  end.

Lemma on_client_done {A} (m : prog TransactionConfiguration A) a x c : m (ag_client a) = Done (x, c) ->
  on_client m a = Done (x, mkAgents c (ag_server a)).
Proof. intros E. unfold on_client. by rewrite E. Qed.

Lemma on_server_done {A} (m : prog TransactionConfiguration A) a x c : m (ag_server a) = Done (x, c) ->
  on_server m a = Done (x, mkAgents (ag_client a) c).
Proof. intros E. unfold on_server. by rewrite E. Qed.

Inductive loss := RequestLost | ResponseLost.

#[export] Instance loss_eq_dec : EqDecision loss.
Proof. solve_decision. Defined.

Section Loss.
Context {order : Host}.
Context (source_create : gmap Z source -> Z).
Context (malloc_node : gmap Z queue_node_s -> option (Z * queue_node_s)).
Context (calloc : gmap Z Transaction -> Z).
(** The addresses of the agents, as the other one sees them. *)
Context (client_address server_address : net_addr_t).
(** What the local variables of the callbacks held. *)
Context (out : Z * Z).

Definition last_datagram (c : TransactionConfiguration) : list Z := default [] (snd <$> last (s_wire (t_socket c))).

(** A datagram is read, delivered and handled; the server answers. *)
Definition server_hears : prog agents unit :=
  a <- get ;;
  on_server (on_socket (read_event (Some (client_address, last_datagram (ag_client a)))) ;; deliver out 0 ;;
             run_task source_create ;; on_socket (flush malloc_node)).

Definition client_hears : prog agents unit :=
  a <- get ;;
  on_client (on_socket (read_event (Some (server_address, last_datagram (ag_server a)))) ;; deliver out 0 ;;
             run_task source_create).

(** One attempt that fails, until the request is sent again. *)
Definition attempt_lost (p : Z) (l : loss) : prog agents unit :=
  when (bool_decide (l = ResponseLost)) server_hears ;;
  on_client (expire source_create p ;; on_socket (flush malloc_node)).

Fixpoint attempts_lost (p : Z) (ls : list loss) : prog agents unit :=
  match ls with
  | [] => ret tt
  | l :: ls' => attempt_lost p l ;; attempts_lost p ls'
  end.

Definition make_request (object : TransactionObject) : prog agents unit :=
  on_client (transactionRequest calloc source_create server_address object ;; run_task source_create ;;
             on_socket (flush malloc_node)).

(** How often the server has heard the request. *)
Definition heard_times (ls : list loss) : nat := length (filter (fun l => l = ResponseLost) ls).

(** ** While the client waits *)

Hypothesis calloc_fresh : fresh_address calloc.
Hypothesis source_fresh : fresh_address source_create.
Hypothesis malloc_node_fresh : malloc_fresh malloc_node.
Hypothesis malloc_node_some : forall h, malloc_node h <> None.

(** The server, which started as [s0], after it has heard the request [times]
    times. *)
Record serving (s0 : TransactionConfiguration) (m : gmap Z Z) (held : list Z) (room : Z) (object : TransactionObject)
    (times : nat) (s : TransactionConfiguration) : Prop := {
  sv_holds : exists pending, trans_holds s m held pending /\ idle s held pending /\ busy s held pending <= room;
  sv_events : t_events s = t_events s0 ++ replicate times (EventReceive client_address object);
  sv_callback : t_receiveCallback s <> 0;
}.

Lemma serving_hears s0 m held room object times s id : host = LittleEndian -> room + 1 < kNetPacketPoolCapacity ->
  uint_ok 1 id -> sendable_object object -> receivable object -> serving s0 m held room object times s ->
  exists s', (on_socket (read_event (Some (client_address, request_bytes id object))) ;; deliver out 0 ;;
      run_task source_create ;; on_socket (flush malloc_node)) s = Done (tt, s') /\
    serving s0 m held room object (S times) s' /\ last_datagram s' = response_bytes id TransactionResponseTypeSuccess.
Proof.
  intros HL Hroom Hid Hob Hrv [(pending & H & [b1 b2 b3 b4 b5] & Hb) He Hc].
  destruct (request_is_answered source_create malloc_node malloc_node_fresh malloc_node_some s m held pending client_address id object out
    HL H b1 b2 b3 Hc) as (s' & earlier & E & V & W & H' & _ & C & I & B); [lia|done..|].
  exists s'. split; [exact E|]. split.
  - split; [exists []; split; [done|split; [done|lia]]| |by rewrite C].
    by rewrite V, He, <- app_assoc, <- replicate_S_end.
  - unfold last_datagram. by rewrite W, app_assoc, last_snoc.
Qed.

(** The client [c0] has made a request that was sent [n + 1] times; [s0] has
    heard it [times] times. *)
Record underway (c0 : TransactionConfiguration) (mC : gmap Z Z) (heldC : list Z) (s0 : TransactionConfiguration)
    (mS : gmap Z Z) (heldS : list Z) (room : Z) (object : TransactionObject) (n : Z) (times : nat) (a : agents) : Prop := {
  uw_client : exists o k, awaits source_create c0 (t_cseq c0) (calloc (t_heap c0)) o n k (ag_client a) /\
    carries k server_address (request_bytes (t_cseq c0) object);
  uw_holds : trans_holds (ag_client a) (<[t_cseq c0 := calloc (t_heap c0)]> mC) heldC [];
  uw_sent : s_blocks (t_socket (ag_client a)) = [];
  uw_wire : last_datagram (ag_client a) = request_bytes (t_cseq c0) object;
  uw_server : serving s0 mS heldS room object times (ag_server a);
}.

Section Run.
Context (c0 : TransactionConfiguration) (mC : gmap Z Z) (heldC pendingC : list Z).
Context (s0 : TransactionConfiguration) (mS : gmap Z Z) (heldS pendingS : list Z) (object : TransactionObject).
Hypothesis little : host = LittleEndian.
Hypothesis client_holds : trans_holds c0 mC heldC pendingC.
Hypothesis client_idle : idle c0 heldC pendingC.
Hypothesis client_room : busy c0 heldC pendingC + 1 < kNetPacketPoolCapacity.
Hypothesis server_holds : trans_holds s0 mS heldS pendingS.
Hypothesis server_idle : idle s0 heldS pendingS.
Hypothesis server_room : busy s0 heldS pendingS + 1 < kNetPacketPoolCapacity.
Hypothesis server_callback : t_receiveCallback s0 <> 0.
Hypothesis object_sendable : sendable_object object.
Hypothesis object_receivable : receivable object.

Abbreviation p := (calloc (t_heap c0)).
Abbreviation id := (t_cseq c0).
Abbreviation is_underway := (underway c0 mC heldC s0 mS heldS (busy s0 heldS pendingS) object).

Lemma id_ok : uint_ok 1 id.
Proof. pose proof (th_cseq _ _ _ _ client_holds) as H. unfold kTransactionMaxId in H. unfold uint_ok. lia. Qed.

Lemma request_long : 0 < zlen (request_bytes id object).
Proof. unfold request_bytes. rewrite zlen_app, zlen_transaction_header. pose proof (zlen_nonneg (enc_request object)). lia. Qed.

Lemma request_made : exists a, make_request object (mkAgents c0 s0) = Done (tt, a) /\ is_underway 0 0 a.
Proof.
  destruct (request_sent source_create malloc_node malloc_node_fresh malloc_node_some calloc calloc_fresh source_fresh
    c0 mC heldC pendingC server_address object client_holds client_idle object_sendable client_room) as
    (c' & o & k & earlier & E & W & H & _ & A & Hk & _ & _ & B).
  unfold make_request. rewrite (on_client_done _ (mkAgents c0 s0) tt c' E). eexists. split; [reflexivity|].
  split; cbn [ag_client ag_server]; [by exists o, k|done|done|by unfold last_datagram; rewrite W, app_assoc, last_snoc|].
  split; [by exists pendingS|cbn; by rewrite app_nil_r|done].
Qed.

Lemma server_hears_request n times a : is_underway n times a ->
  exists a', server_hears a = Done (tt, a') /\ is_underway n (S times) a' /\ ag_client a' = ag_client a /\
    last_datagram (ag_server a') = response_bytes id TransactionResponseTypeSuccess.
Proof.
  intros [h1 h2 h3 h4 h5]. unfold server_hears. rewrite bind_get, h4.
  destruct (serving_hears s0 mS heldS _ object times _ id little server_room id_ok object_sendable object_receivable h5)
    as (s' & E & S & L).
  rewrite (on_server_done _ a tt s' E). eexists. split; [reflexivity|]. by split.
Qed.

(** The timer fires and the request is sent again. *)
Lemma sent_again n times a : is_underway n times a -> 0 <= n < kTransactionMaxRetries ->
  exists a', on_client (expire source_create p ;; on_socket (flush malloc_node)) a = Done (tt, a') /\ is_underway (n + 1) times a'.
Proof.
  intros [(o & k & A & Hk) H B W S] Hn.
  destruct (awaits_again source_create source_fresh c0 id p o n k (ag_client a) _ heldC [] server_address _ A H (lookup_insert_eq _ _ _) Hk
    request_long Hn) as (c1 & E1 & A1 & H1 & B1 & W1); [unfold outgoing; by rewrite B|]. rewrite B in B1.
  destruct (awaits_flush source_create malloc_node malloc_node_fresh malloc_node_some c0 id p o (n + 1) k c1 _ heldC [] [] _ _ A1 H1 Hk B1)
    as (c2 & earlier & E2 & A2 & H2 & B2 & W2 & _).
  rewrite (on_client_done _ a tt c2) by (by rewrite (bind_done _ _ _ _ _ E1)). eexists. split; [reflexivity|].
  split; cbn [ag_client ag_server]; [by exists o, k|done|done|by unfold last_datagram; rewrite W2, app_assoc, last_snoc|done].
Qed.

Lemma heard_times_cons l ls : heard_times (l :: ls) = ((if decide (l = ResponseLost) then 1 else 0) + heard_times ls)%nat.
Proof. unfold heard_times. rewrite filter_cons. by destruct (decide (l = ResponseLost)). Qed.

(** Up to the moment the timer fires. *)
Lemma attempt_heard l n times a : is_underway n times a ->
  exists a', when (bool_decide (l = ResponseLost)) server_hears a = Done (tt, a') /\
    is_underway n ((if decide (l = ResponseLost) then 1 else 0) + times)%nat a'.
Proof.
  intros U. destruct l; cbn [when]; [by exists a|].
  destruct (server_hears_request n times a U) as (a' & E & U' & _). by exists a'.
Qed.

Lemma attempts_lost_done ls n times a : is_underway n times a -> 0 <= n -> n + zlen ls <= kTransactionMaxRetries ->
  exists a', attempts_lost p ls a = Done (tt, a') /\ is_underway (n + zlen ls) (heard_times ls + times) a'.
Proof.
  revert n times a. induction ls as [|l ls IH]; intros n times a U Hn Hls; cbn [attempts_lost].
  { exists a. split; [done|]. by rewrite zlen_nil, Z.add_0_r. }
  rewrite zlen_cons in *. pose proof (zlen_nonneg ls).
  destruct (attempt_heard l n times a U) as (a1 & E1 & U1). destruct (sent_again n _ a1 U1) as (a2 & E2 & U2); [lia|].
  unfold attempt_lost. rewrite bind_assoc, (bind_done _ _ _ _ _ E1), (bind_done _ _ _ _ _ E2).
  destruct (IH (n + 1) _ a2 U2) as (a3 & E3 & U3); [lia..|]. exists a3. split; [done|].
  replace (n + (zlen ls + 1)) with (n + 1 + zlen ls) by lia. rewrite heard_times_cons.
  by replace ((if decide (l = ResponseLost) then 1 else 0) + heard_times ls + times)%nat
    with (heard_times ls + ((if decide (l = ResponseLost) then 1 else 0) + times))%nat by lia.
Qed.

Lemma attempts_lost_last ls l a : attempts_lost p (ls ++ [l]) a = (attempts_lost p ls ;; attempt_lost p l) a.
Proof.
  revert a. induction ls as [|l' ls IH]; intros a; cbn [attempts_lost app].
  - rewrite bind_ret_l. unfold bind at 1. by destruct (attempt_lost p l a) as [[[] a']|f].
  - rewrite bind_assoc. unfold bind at 1 2. destruct (attempt_lost p l' a) as [[[] a']|f]; [apply IH|done].
Qed.

(** What is left at the client when its transaction is over: no transaction, no
    timer, no entry, nothing queued or dispatched; and as [trans_holds] gives
    every reference to a packet one owner, the transactions of before, the
    clients that hold [heldC] and nothing else own packets. *)
Record over (c : TransactionConfiguration) : Prop := {
  ov_heap : t_heap c = t_heap c0;
  ov_sources : t_sources c = t_sources c0;
  ov_entry : hashtable_search (t_transactions c) id = Done 0;
  ov_holds : trans_holds c (delete id mC) heldC [];
  ov_queue : t_queue c = [];
  ov_delivered : s_delivered (t_socket c) = [];
  ov_blocks : s_blocks (t_socket c) = [];
  ov_busy : busy c heldC [] <= busy c0 heldC pendingC;
}.

Lemma over_intro c : t_heap c = t_heap c0 -> t_sources c = t_sources c0 -> trans_holds c (delete id mC) heldC [] ->
  t_queue c = [] -> s_delivered (t_socket c) = [] -> s_blocks (t_socket c) = [] -> over c.
Proof.
  intros Eh Es H Eq Ed Eb. split; [done..| |done|done|done|done|by apply busy_done].
  rewrite (ledger_search _ _ _ _ id (th_ledger _ _ _ _ H)) by apply id_ok. by rewrite lookup_delete_eq.
Qed.

Lemma answer_ends n times a : is_underway n times a ->
  last_datagram (ag_server a) = response_bytes id TransactionResponseTypeSuccess ->
  exists a', client_hears a = Done (tt, a') /\ over (ag_client a') /\ t_events (ag_client a') = t_events c0 /\ ag_server a' = ag_server a.
Proof.
  intros [(o & k & A & Hk) H B W S] L. unfold client_hears. rewrite bind_get, L.
  pose proof (awaits_idle source_create c0 id p o n k (ag_client a) heldC pendingC A client_idle client_room (proj2 (calloc_fresh _)) B) as I.
  destruct A as [a1 a2 a3 a4 a5 a6 a7 a8]. set (t := mkTransaction _ _ _ _ _ _) in a1.
  destruct (response_ends source_create (ag_client a) _ heldC [] id p t server_address TransactionResponseTypeSuccess out H I id_ok)
    as (c & k' & E & _ & H' & _ & h1 & h2 & h3 & h4 & h5 & h6); [done|apply lookup_insert_eq|rewrite a1; apply lookup_insert_eq|].
  eexists. split; [exact (on_client_done _ a tt c E)|]. cbn [ag_client].
  split; [apply over_intro; [| | |done|done|by rewrite h3]|split; [|done]].
  - rewrite h1, a1. by apply delete_insert_id, calloc_fresh.
  - rewrite h2, a2. destruct (with_timer_lookup source_create source_fresh p (delay n) (t_sources c0)) as [_ D].
    unfold others, t. cbn [tr_timeout]. by rewrite (started_valid source_create source_fresh).
  - by rewrite delete_insert_eq in H'.
  - by rewrite h4, app_nil_r, a5.
Qed.

(** The last timer fires. *)
Lemma attempts_fail times a : is_underway kTransactionMaxRetries times a ->
  exists a', on_client (expire source_create p ;; on_socket (flush malloc_node)) a = Done (tt, a') /\ over (ag_client a') /\
    t_events (ag_client a') = t_events c0 ++ ending TransactionTimeout (t_errorCallback c0) server_address /\ ag_server a' = ag_server a.
Proof.
  intros [(o & k & A & Hk) H B W S].
  destruct (awaits_fails source_create source_fresh c0 id p o k (ag_client a) _ heldC [] A H (lookup_insert_eq _ _ _))
    as (c1 & E1 & H1 & h1 & h2 & h3 & _ & _ & _ & h4 & h5).
  destruct (mail_flush malloc_node malloc_node_fresh malloc_node_some _ _ _ _ _ (th_mail _ _ _ _ H1)) as (s2 & E2 & H2 & B2 & _ & D2 & _).
  rewrite delete_insert_eq in H1.
  rewrite (on_client_done _ a tt (set_socket s2 c1)) by (rewrite (bind_done _ _ _ _ _ E1); by apply trans_socket_done).
  eexists. split; [reflexivity|]. cbn [ag_client].
  split; [apply over_intro; [|exact h2| |exact h4| |exact B2]|split; [|done]].
  - cbn. rewrite h1. apply delete_id, calloc_fresh.
  - destruct H1 as [_ Hl Ht Hc]. by split.
  - cbn. by rewrite D2, h5, (aw_delivered _ _ _ _ _ _ _ _ A), (id_delivered _ _ _ client_idle).
  - cbn. by rewrite h3, (pd_addr _ _ _ (cr_packed _ _ _ Hk)).
Qed.

End Run.

(** C3: a request whose attempts are lost on their way there or on their way
    back, between two agents that are enabled and idle (nothing queued or
    delivered) and have a packet to spare, on little-endian hosts, with an
    object that the receiver's block can hold; a retry is run after the handler
    of the timer that dispatched it. After at most two losses it is
    answered: the client is told nothing, and the application of the server has
    got the request once for every attempt that reached it, which may be three
    times. After three the client is told that it failed, however often the
    server has got it. In both cases the transaction, its timer, its entry and
    every reference to a packet that the client took are given back ([over]),
    and the server uses no more packets than before ([given_back]). *)
Theorem request_despite_losses c0 mC heldC pendingC s0 mS heldS pendingS object losses :
  host = LittleEndian -> trans_holds c0 mC heldC pendingC -> idle c0 heldC pendingC ->
  busy c0 heldC pendingC + 1 < kNetPacketPoolCapacity ->
  trans_holds s0 mS heldS pendingS -> idle s0 heldS pendingS -> busy s0 heldS pendingS + 1 < kNetPacketPoolCapacity ->
  t_receiveCallback s0 <> 0 -> sendable_object object -> receivable object ->
  let p := calloc (t_heap c0) in
  let delivered n := replicate n (EventReceive client_address object) in
  let given_back s := exists pending, trans_holds s mS heldS pending /\ idle s heldS pending /\
    busy s heldS pending <= busy s0 heldS pendingS in
  (zlen losses <= 2 -> exists a,
     (make_request object ;; attempts_lost p losses ;; server_hears ;; client_hears) (mkAgents c0 s0) = Done (tt, a) /\
     over c0 mC heldC pendingC (ag_client a) /\ t_events (ag_client a) = t_events c0 /\
     t_events (ag_server a) = t_events s0 ++ delivered (S (heard_times losses)) /\ given_back (ag_server a)) /\
  (zlen losses = 3 -> exists a,
     (make_request object ;; attempts_lost p losses) (mkAgents c0 s0) = Done (tt, a) /\
     over c0 mC heldC pendingC (ag_client a) /\
     t_events (ag_client a) = t_events c0 ++ (if t_errorCallback c0 =? 0 then [] else [EventError server_address]) /\
     t_events (ag_server a) = t_events s0 ++ delivered (heard_times losses) /\ given_back (ag_server a)).
Proof.
  intros HL HC IC BC HS IS BS Hcb Hob Hrv p delivered given_back.
  destruct (request_made c0 mC heldC pendingC s0 mS heldS pendingS object HC IC BC HS IS Hcb Hob) as (a0 & E0 & U0).
  rewrite (bind_done _ _ _ _ _ E0), (bind_done _ _ _ _ _ E0). split; intros Hl.
  - destruct (attempts_lost_done c0 mC heldC pendingC s0 mS heldS pendingS object HL HC BS Hob Hrv losses 0 0 a0 U0)
      as (a1 & E1 & U1); [lia|unfold kTransactionMaxRetries; lia|].
    destruct (server_hears_request c0 mC heldC pendingC s0 mS heldS pendingS object HL HC BS Hob Hrv _ _ a1 U1) as (a2 & E2 & U2 & _ & L2).
    destruct (answer_ends c0 mC heldC pendingC s0 mS heldS pendingS object HC IC BC _ _ a2 U2 L2) as (a3 & E3 & O & V & S3).
    rewrite (bind_done _ _ _ _ _ E1), (bind_done _ _ _ _ _ E2). exists a3. do 3 (split; [done|]).
    rewrite S3. pose proof (uw_server _ _ _ _ _ _ _ _ _ _ _ U2) as Sv. split; [|apply Sv].
    by rewrite (sv_events _ _ _ _ _ _ _ Sv), Nat.add_0_r.
  - destruct losses as [|l ls _] using rev_ind; [discriminate Hl|]. rewrite zlen_app in Hl. change (zlen [l]) with 1 in Hl.
    destruct (attempts_lost_done c0 mC heldC pendingC s0 mS heldS pendingS object HL HC BS Hob Hrv ls 0 0 a0 U0)
      as (a1 & E1 & U1); [lia|unfold kTransactionMaxRetries; lia|].
    replace (0 + zlen ls) with kTransactionMaxRetries in U1 by (unfold kTransactionMaxRetries; lia).
    destruct (attempt_heard c0 mC heldC pendingC s0 mS heldS pendingS object HL HC BS Hob Hrv l _ _ a1 U1) as (a2 & E2 & U2).
    destruct (attempts_fail c0 mC heldC pendingC s0 mS heldS pendingS object HC IC _ a2 U2) as (a3 & E3 & O & V & S3).
    pose proof (uw_server _ _ _ _ _ _ _ _ _ _ _ U2) as Sv. exists a3. split; [|split; [done|split; [|split]]].
    + unfold p. rewrite attempts_lost_last, (bind_done _ _ _ _ _ E1). unfold attempt_lost. by rewrite (bind_done _ _ _ _ _ E2).
    + rewrite V. unfold ending. by destruct (t_errorCallback c0 =? 0).
    + rewrite S3, (sv_events _ _ _ _ _ _ _ Sv). unfold delivered. do 2 f_equal.
      unfold heard_times. rewrite filter_app, length_app, filter_cons. destruct (decide (l = ResponseLost)); cbn; lia.
    + rewrite S3. apply Sv.
Qed.
End Loss.

(** *** Two agents that have just started: the first request and the second
    response are lost. *)
Lemma request_despite_losses_witness :
  exists a, (make_request (order := LittleEndian) free_address next_free free_address demo_other_address demo_transaction_object ;;
      attempts_lost (order := LittleEndian) free_address next_free demo_peer_address (0, 0) (free_address (t_heap demo_agent))
        [RequestLost; ResponseLost] ;;
      server_hears (order := LittleEndian) free_address next_free demo_peer_address (0, 0) ;;
      client_hears (order := LittleEndian) free_address demo_other_address (0, 0)) (mkAgents demo_agent demo_agent) = Done (tt, a) /\
    over demo_agent ∅ [] [] (ag_client a) /\ t_events (ag_client a) = t_events demo_agent /\
    t_events (ag_server a) = t_events demo_agent ++
      [EventReceive demo_peer_address demo_transaction_object; EventReceive demo_peer_address demo_transaction_object] /\
    exists pending, trans_holds (ag_server a) ∅ [] pending /\ idle (ag_server a) [] pending /\
      busy (ag_server a) [] pending <= busy demo_agent [] [].
Proof.
  destruct demo_agent_idle as [Hi Hb].
  assert (Hr : busy demo_agent [] [] + 1 < kNetPacketPoolCapacity) by (rewrite Hb; reflexivity).
  assert (Hc : t_receiveCallback demo_agent <> 0) by discriminate.
  exact (proj1 (request_despite_losses free_address next_free free_address demo_peer_address demo_other_address (0, 0)
    free_address_fresh free_address_fresh next_free_fresh next_free_some
    demo_agent ∅ [] [] demo_agent ∅ [] [] demo_transaction_object [RequestLost; ResponseLost]
    eq_refl demo_agent_holds Hi Hr demo_agent_holds Hi Hr Hc demo_transaction_object_ok Logic.I) (Z.le_refl 2)).
Defined.
