(* ===== verification/Teardown.v ===== *)
(** * Tearing down (src/stream.c, src/transaction.c)

    [streamTeardown] and [transactionTeardown] end a component: the memory of
    its container, its timer and its socket are given back.  The timer of the
    streams is an event source that is suspended while they are not active. *)
From S2P Require Import Prelude Bitstream Wire Fields Net Protocol LinkedList Hashtable Queue Pool NetSocket NetSocketLife.
From S2P Require Import NetSocketSpec TransactionProtocol Timeout Stream StreamSpec Transaction TransactionSpec TransactionStep TransactionRun TransactionAnswer.

(** ** Streams *)

Record stream_peer := mkPeer {
  sp_config : StreamConfiguration;
  sp_timer : option event_source;      (* [streamDispatchTimer] *)
  sp_list : bool;                      (* is the memory of the list there? *)
  sp_life : socket_life;
}.

Definition on_config {A} (m : prog StreamConfiguration A) : prog stream_peer A := fun p =>
  match m (sp_config p) with
  | Done (a, c) => Done (a, mkPeer c (sp_timer p) (sp_list p) (sp_life p))
  | Fault f => Fault f
  end.

Definition on_life {A} (m : prog socket_life A) : prog stream_peer A := fun p =>
  match m (sp_life p) with
  | Done (a, l) => Done (a, mkPeer (sp_config p) (sp_timer p) (sp_list p) l)
  | Fault f => Fault f
  end.

Definition put_timer (x : option event_source) : prog stream_peer unit :=
  modify (fun p => mkPeer (sp_config p) x (sp_list p) (sp_life p)).

Definition on_timer (m : event_source -> outcome event_source) : prog stream_peer unit :=
  p <- get ;;
  match sp_timer p with
  | None => fail OutOfBounds
  | Some e => e <- lift (m e) ;; put_timer (Some e)
  end.

(** [streamSuspend] and [streamResume] with the calls that stop and start the
    timer. *)
Definition peer_suspend : prog stream_peer unit :=
  p <- get ;;
  if c_active (sp_config p) then on_timer suspend_source ;; on_config streamSuspend
  else ret tt.

Definition peer_resume : prog stream_peer unit :=
  p <- get ;;
  if negb (c_active (sp_config p)) then
    if negb (list_is_empty (c_streams (sp_config p))) then on_config streamResume ;; on_timer resume_source
    else ret tt
  else ret tt.

(** The dispatch queue is released; its tasks keep it until they have run. *)
Definition streamTeardown : prog stream_peer unit :=
  on_timer cancel_source ;;
  p <- get ;;
  (if negb (c_active (sp_config p)) then on_timer resume_source else ret tt) ;;
  p <- get ;;
  timer <- lift (release_source (sp_timer p)) ;;
  put_timer timer ;;
  modify (fun p => mkPeer (sp_config p) (sp_timer p) false (sp_life p)) ;;
  on_life net_socket_destroy.

(** The timer runs while the streams are active. *)
Definition timer_of (active : bool) : option event_source := Some (mkEventSource (if active then 0 else 1) false false).

Definition timer_matches (p : stream_peer) : Prop := sp_timer p = timer_of (c_active (sp_config p)).

(** What the application does to the timer: it suspends, or resumes. *)
Fixpoint peer_switches (l : list bool) : prog stream_peer unit :=
  match l with
  | [] => ret tt
  | on :: l' => (if on : bool then peer_resume else peer_suspend) ;; peer_switches l'
  end.

Fixpoint config_switches (l : list bool) : prog StreamConfiguration unit :=
  match l with
  | [] => ret tt
  | on :: l' => (if on : bool then streamResume else streamSuspend) ;; config_switches l'
  end.

Lemma suspended_config c c' : streamSuspend c = Done (tt, c') -> c_active c' = false /\ (c_active c = false -> c' = c).
Proof.
  unfold streamSuspend, call, bind, get, modify. destruct (c_active c) eqn:A; [|by intros [= <-]].
  cbn. destruct (_ =? 0); [done|]. by intros [= <-].
Qed.

Lemma switch_holds on p c' : timer_matches p -> (if on : bool then streamResume else streamSuspend) (sp_config p) = Done (tt, c') ->
  exists p', (if on then peer_resume else peer_suspend) p = Done (tt, p') /\ timer_matches p' /\ sp_config p' = c' /\
    sp_life p' = sp_life p /\ sp_list p' = sp_list p.
Proof.
  destruct p as [c timer list life]. unfold timer_matches. cbn [sp_timer sp_config sp_life sp_list]. intros -> E. destruct on.
  - unfold peer_resume. rewrite bind_get. cbn [sp_config]. unfold streamResume, bind, get, modify in E.
    destruct (c_active c) eqn:A; cbn [negb] in *; [injection E as <-; eexists; split; [reflexivity|]; cbn; by rewrite A|].
    destruct (list_is_empty (c_streams c)) eqn:Em; cbn [negb] in *; [injection E as <-; eexists; split; [reflexivity|]; cbn; by rewrite A|].
    injection E as <-. unfold on_config, bind at 1. cbn [sp_config]. unfold streamResume, bind at 1, get. rewrite A. cbn [negb].
    rewrite Em. cbn [negb]. by eexists.
  - destruct (suspended_config c c' E) as [A' Hc]. unfold peer_suspend. rewrite bind_get. cbn [sp_config].
    destruct (c_active c) eqn:A; [|rewrite (Hc eq_refl) in *; eexists; split; [reflexivity|]; cbn; by rewrite A].
    unfold on_timer, bind, get, put_timer, modify, lift, on_config. cbn -[streamSuspend]. rewrite E. eexists. split; [reflexivity|]. cbn. by rewrite A'.
Qed.

(** the timer of the streams is never resumed while it runs, and it is
    suspended once exactly when the streams are not active, whatever the
    application suspends and resumes; so that [streamTeardown], which resumes
    it when they are not, can release it. After it the timer and the list are
    gone and the socket is being closed, but every stream is still allocated,
    and nothing points to the streams any more. *)
Theorem stream_teardown p c' fd pool sending l : timer_matches p -> sp_life p = balanced fd pool sending ->
  config_switches l (sp_config p) = Done (tt, c') ->
  exists p', (peer_switches l ;; streamTeardown) p = Done (tt, p') /\ sp_timer p' = None /\ sp_list p' = false /\
    sp_life p' = closing fd pool 2 /\ c_heap (sp_config p') = c_heap c'.
Proof.
  revert p. induction l as [|on l IH]; intros p Ok El E.
  - injection E as <-. destruct p as [c timer list life]. unfold timer_matches in Ok. cbn [sp_timer sp_config sp_life] in Ok, El. subst timer life.
    cbn [peer_switches]. rewrite bind_ret_l. unfold streamTeardown.
    assert (E : on_life net_socket_destroy (mkPeer c None false (balanced fd pool sending)) =
      Done (tt, mkPeer c None false (closing fd pool 2))) by (unfold on_life; cbn [sp_life]; by rewrite destroy_result).
    generalize dependent (on_life net_socket_destroy). intros destroy E.
    exists (mkPeer c None false (closing fd pool 2)). split; [|done]. rewrite <- E.
    unfold on_timer, put_timer, bind, get, modify, lift. cbn. destruct (c_active c) eqn:A; reflexivity || (cbn; by rewrite A).
  - cbn [config_switches] in E. unfold bind in E at 1.
    destruct ((if on then streamResume else streamSuspend) (sp_config p)) as [[[] c1]|f] eqn:E1; [|done].
    destruct (switch_holds on p c1 Ok E1) as (p1 & P1 & Ok1 & <- & L1 & _). cbn [peer_switches].
    rewrite bind_assoc, (bind_done _ _ _ _ _ P1). apply IH; [done|congruence|done].
Qed.

(** ** Transactions *)

(** A configuration, whether the memory of its table is there, and the life
    of its socket. *)
Record transaction_agent := mkAgent {
  ta_config : TransactionConfiguration;
  ta_table : bool;
  ta_life : socket_life;
}.

Definition on_agent {A} (m : prog TransactionConfiguration A) : prog transaction_agent A := fun a =>
  match m (ta_config a) with
  | Done (x, c) => Done (x, mkAgent c (ta_table a) (ta_life a))
  | Fault f => Fault f
  end.

Definition on_agent_life {A} (m : prog socket_life A) : prog transaction_agent A := fun a =>
  match m (ta_life a) with
  | Done (x, l) => Done (x, mkAgent (ta_config a) (ta_table a) l)
  | Fault f => Fault f
  end.

(** The dispatch queue is released; its tasks keep it until they have run. *)
Definition transactionTeardown : prog transaction_agent unit :=
  on_agent transactionRemoveAll ;;
  modify (fun a => mkAgent (ta_config a) false (ta_life a)) ;;
  on_agent_life net_socket_destroy.

(** C27: [transactionTeardown] ends every transaction of the table: they are
    freed, their timers are cancelled and their packets are given back, the
    table is gone and the socket is being closed; nothing else changes: tasks
    that were dispatched are still there, to run without a table. *)
Theorem transaction_teardown a m held pending fd pool sending :
  trans_holds (ta_config a) m held pending -> ta_life a = balanced fd pool sending ->
  exists a', transactionTeardown a = Done (tt, a') /\ trans_holds (ta_config a') ∅ held pending /\
    (forall id p, m !! id = Some p -> t_heap (ta_config a') !! p = None) /\ t_heap (ta_config a') ⊆ t_heap (ta_config a) /\
    t_queue (ta_config a') = t_queue (ta_config a) /\ t_events (ta_config a') = t_events (ta_config a) /\
    ta_table a' = false /\ ta_life a' = closing fd pool 2.
Proof.
  intros H El. destruct a as [c table life]. cbn [ta_config ta_life] in *. subst life.
  destruct (removeAll_holds c m held pending H) as (c' & E & H' & [q1 q2 q3 q4 q5 q6] & Hf).
  exists (mkAgent c' false (closing fd pool 2)). split; [|by cbn].
  unfold transactionTeardown, on_agent, on_agent_life, bind, modify. cbn [ta_config]. rewrite E. cbn [ta_life ta_config].
  by rewrite destroy_result.
Qed.

(** ** Concrete instances *)

(** The configuration after a suspension. *)
Definition paused (c : StreamConfiguration) : StreamConfiguration :=
  Stream.set_events (c_events c ++ [EventSuspend]) (set_active false c).

Lemma switch_pauses c : c_active c = true -> cb_suspend (c_callbacks c) <> 0 -> config_switches [false] c = Done (tt, paused c).
Proof.
  intros A Hs. unfold config_switches, streamSuspend, call, bind, get, modify. rewrite A. cbn. by rewrite (proj2 (Z.eqb_neq _ 0)).
Qed.

Lemma known_callbacks : c_callbacks demo_known = mkStreamCallbacks 1 1 1 1.
Proof. by vm_compute. Qed.

Lemma stream_teardown_witness :
  exists p', (peer_switches [false] ;; streamTeardown) (mkPeer demo_known (timer_of true) true (balanced 3 true true)) = Done (tt, p') /\
    sp_timer p' = None /\ sp_list p' = false /\ sp_life p' = closing 3 true 2 /\ c_heap (sp_config p') = c_heap (paused demo_known).
Proof.
  apply (stream_teardown _ (paused demo_known) 3 true true [false]).
  - unfold timer_matches. cbn [sp_timer sp_config]. destruct demo_known_holds as (_ & _ & _ & A & _). rewrite A. reflexivity.
  - reflexivity.
  - apply switch_pauses; [apply demo_known_holds|rewrite known_callbacks; discriminate].
Defined.

Lemma transaction_teardown_witness :
  exists a', transactionTeardown (mkAgent demo_awaiting true (balanced 3 true false)) = Done (tt, a') /\ trans_holds (ta_config a') ∅ [] [] /\
    (forall id p, ({[0 := free_address (V := Transaction) ∅]} : gmap Z Z) !! id = Some p -> t_heap (ta_config a') !! p = None) /\
    t_heap (ta_config a') ⊆ t_heap demo_awaiting /\
    t_queue (ta_config a') = t_queue demo_awaiting /\ t_events (ta_config a') = t_events demo_awaiting /\
    ta_table a' = false /\ ta_life a' = closing 3 true 2.
Proof.
  destruct demo_awaiting_holds as (H & _). revert H. generalize demo_awaiting (free_address (V := Transaction) ∅). intros c p H.
  exact (transaction_teardown (mkAgent c true (balanced 3 true false)) {[0 := p]} [] [] 3 true false H eq_refl).
Defined.
