(* ===== verification/Stun.v ===== *)
(** * The STUN client (src/stun.[ch], src/stun_tests.[ch], src/stun_utils.[ch])

    Five tests, one after the other, on a serial dispatch queue: a binding
    request, two on the behaviour of the NAT and two on its filtering.  Each
    test takes over the receive block of the socket while it runs.  A step is
    one task of the queue, one packet delivered, or one half of the handler
    of a timer. *)
From S2P Require Import Prelude Bitstream Wire Fields Net Protocol StunProtocol.
From S2P Require Import Queue Pool NetSocket Timeout.

Definition kStunServerDefaultPort : Z := 3478.
Definition kStunDefaultRto : Z := 1000.
Definition kStunDefaultRetries : Z := 2.

(** ** Transaction ids *)

Definition EINTR : Z := 4.

(** The loop over [read]: each result is an [errno] or the bytes read, no
    more than what was asked for; after the last one [read] returns zero. *)
Fixpoint read_loop (reads : list (Z + list Z)) (count : Z) (bytes : list Z) : Z * list Z :=
  match reads with
  | [] => (0, bytes)
  | inl e :: reads' => if e =? EINTR then read_loop reads' count bytes else (-1, bytes)
  | inr read :: reads' =>
      let read := take (Z.to_nat (count - zlen bytes)) read in
      if 0 <? zlen read then read_loop reads' count (bytes ++ read) else (0, bytes)
  end.

(** [None] when [open] fails. *)
Definition SecRandomCopyBytes (urandom : option (list (Z + list Z))) (count : Z) : Z * list Z :=
  match urandom with None => (-1, []) | Some reads => read_loop reads count [] end.

(** The integer whose memory was zero before [bytes] were stored to it. *)
Definition stored_uint32 `{Host} (bytes : list Z) : Z :=
  let memory := splice [0; 0; 0; 0] 0 bytes in
  match host with LittleEndian => be_value (reverse memory) | BigEndian => be_value memory end.

(** [rand seed i] is the result of the call [i] of [rand] after [srand]. *)
Definition stunGenerateTransactionId `{Host} (rand : Z -> nat -> Z)
    (urandom : option (list (Z + list Z))) : list Z :=
  let entropy := stored_uint32 (SecRandomCopyBytes urandom 4).2 in
  (fun b => u8 (rand entropy b mod 256)) <$> seq 0 (Z.to_nat kStunTransactionIdLen).

Definition stunIsValidTransactionId (transactionId : list Z) : bool :=
  negb (bool_decide (transactionId = replicate (Z.to_nat kStunTransactionIdLen) 0)).

Definition stunIsEqualTransactionId (transactionIdA transactionIdB : list Z) : bool :=
  bool_decide (transactionIdA = transactionIdB).

(** ** Data *)

Inductive StunNatBehavior :=
| UnknownBehavior
| DirectMapping
| EndpointIndependentMapping
| AddressDependentMapping
| AddressAndPortDependentMapping.

Inductive StunNatFiltering :=
| UnknownFiltering
| DirectConnectionFiltering
| EndpointIndependentFiltering
| AddressDependentFiltering
| AddressAndPortDependentFiltering.

#[export] Instance StunNatFiltering_eq_dec : EqDecision StunNatFiltering.
Proof. solve_decision. Defined.

Record StunResults := mkResults {
  didBindingTestSuccess : bool;
  localAddr : net_addr_t;
  mappedAddr : net_addr_t;
  isMappingDirect : bool;
  hasOtherServerAddress : bool;
  otherServerPrimaryHostAddr : net_addr_t;   (* primary host, other port *)
  otherServerPrimaryPortAddr : net_addr_t;   (* other host, primary port *)
  otherServerAddr : net_addr_t;
  didBehaviorTestSuccess : bool;
  natBehavior : StunNatBehavior;
  mappedOtherServerPrimaryPortAddr : net_addr_t;
  mappedOtherServerAddr : net_addr_t;
  didFilteringTestSuccess : bool;
  natFiltering : StunNatFiltering;
}.

Definition with_didBindingTestSuccess (x : bool) (r : StunResults) : StunResults :=
  mkResults x (localAddr r) (mappedAddr r) (isMappingDirect r) (hasOtherServerAddress r)
    (otherServerPrimaryHostAddr r) (otherServerPrimaryPortAddr r) (otherServerAddr r) (didBehaviorTestSuccess r)
    (natBehavior r) (mappedOtherServerPrimaryPortAddr r) (mappedOtherServerAddr r) (didFilteringTestSuccess r)
    (natFiltering r).
Definition with_localAddr (x : net_addr_t) (r : StunResults) : StunResults :=
  mkResults (didBindingTestSuccess r) x (mappedAddr r) (isMappingDirect r) (hasOtherServerAddress r)
    (otherServerPrimaryHostAddr r) (otherServerPrimaryPortAddr r) (otherServerAddr r) (didBehaviorTestSuccess r)
    (natBehavior r) (mappedOtherServerPrimaryPortAddr r) (mappedOtherServerAddr r) (didFilteringTestSuccess r)
    (natFiltering r).
Definition with_mappedAddr (x : net_addr_t) (r : StunResults) : StunResults :=
  mkResults (didBindingTestSuccess r) (localAddr r) x (isMappingDirect r) (hasOtherServerAddress r)
    (otherServerPrimaryHostAddr r) (otherServerPrimaryPortAddr r) (otherServerAddr r) (didBehaviorTestSuccess r)
    (natBehavior r) (mappedOtherServerPrimaryPortAddr r) (mappedOtherServerAddr r) (didFilteringTestSuccess r)
    (natFiltering r).
Definition with_isMappingDirect (x : bool) (r : StunResults) : StunResults :=
  mkResults (didBindingTestSuccess r) (localAddr r) (mappedAddr r) x (hasOtherServerAddress r)
    (otherServerPrimaryHostAddr r) (otherServerPrimaryPortAddr r) (otherServerAddr r) (didBehaviorTestSuccess r)
    (natBehavior r) (mappedOtherServerPrimaryPortAddr r) (mappedOtherServerAddr r) (didFilteringTestSuccess r)
    (natFiltering r).
Definition with_hasOtherServerAddress (x : bool) (r : StunResults) : StunResults :=
  mkResults (didBindingTestSuccess r) (localAddr r) (mappedAddr r) (isMappingDirect r) x
    (otherServerPrimaryHostAddr r) (otherServerPrimaryPortAddr r) (otherServerAddr r) (didBehaviorTestSuccess r)
    (natBehavior r) (mappedOtherServerPrimaryPortAddr r) (mappedOtherServerAddr r) (didFilteringTestSuccess r)
    (natFiltering r).
Definition with_otherServerPrimaryHostAddr (x : net_addr_t) (r : StunResults) : StunResults :=
  mkResults (didBindingTestSuccess r) (localAddr r) (mappedAddr r) (isMappingDirect r) (hasOtherServerAddress r)
    x (otherServerPrimaryPortAddr r) (otherServerAddr r) (didBehaviorTestSuccess r) (natBehavior r)
    (mappedOtherServerPrimaryPortAddr r) (mappedOtherServerAddr r) (didFilteringTestSuccess r) (natFiltering r).
Definition with_otherServerPrimaryPortAddr (x : net_addr_t) (r : StunResults) : StunResults :=
  mkResults (didBindingTestSuccess r) (localAddr r) (mappedAddr r) (isMappingDirect r) (hasOtherServerAddress r)
    (otherServerPrimaryHostAddr r) x (otherServerAddr r) (didBehaviorTestSuccess r) (natBehavior r)
    (mappedOtherServerPrimaryPortAddr r) (mappedOtherServerAddr r) (didFilteringTestSuccess r) (natFiltering r).
Definition with_otherServerAddr (x : net_addr_t) (r : StunResults) : StunResults :=
  mkResults (didBindingTestSuccess r) (localAddr r) (mappedAddr r) (isMappingDirect r) (hasOtherServerAddress r)
    (otherServerPrimaryHostAddr r) (otherServerPrimaryPortAddr r) x (didBehaviorTestSuccess r) (natBehavior r)
    (mappedOtherServerPrimaryPortAddr r) (mappedOtherServerAddr r) (didFilteringTestSuccess r) (natFiltering r).
Definition with_didBehaviorTestSuccess (x : bool) (r : StunResults) : StunResults :=
  mkResults (didBindingTestSuccess r) (localAddr r) (mappedAddr r) (isMappingDirect r) (hasOtherServerAddress r)
    (otherServerPrimaryHostAddr r) (otherServerPrimaryPortAddr r) (otherServerAddr r) x (natBehavior r)
    (mappedOtherServerPrimaryPortAddr r) (mappedOtherServerAddr r) (didFilteringTestSuccess r) (natFiltering r).
Definition with_natBehavior (x : StunNatBehavior) (r : StunResults) : StunResults :=
  mkResults (didBindingTestSuccess r) (localAddr r) (mappedAddr r) (isMappingDirect r) (hasOtherServerAddress r)
    (otherServerPrimaryHostAddr r) (otherServerPrimaryPortAddr r) (otherServerAddr r) (didBehaviorTestSuccess r)
    x (mappedOtherServerPrimaryPortAddr r) (mappedOtherServerAddr r) (didFilteringTestSuccess r)
    (natFiltering r).
Definition with_mappedOtherServerPrimaryPortAddr (x : net_addr_t) (r : StunResults) : StunResults :=
  mkResults (didBindingTestSuccess r) (localAddr r) (mappedAddr r) (isMappingDirect r) (hasOtherServerAddress r)
    (otherServerPrimaryHostAddr r) (otherServerPrimaryPortAddr r) (otherServerAddr r) (didBehaviorTestSuccess r)
    (natBehavior r) x (mappedOtherServerAddr r) (didFilteringTestSuccess r) (natFiltering r).
Definition with_mappedOtherServerAddr (x : net_addr_t) (r : StunResults) : StunResults :=
  mkResults (didBindingTestSuccess r) (localAddr r) (mappedAddr r) (isMappingDirect r) (hasOtherServerAddress r)
    (otherServerPrimaryHostAddr r) (otherServerPrimaryPortAddr r) (otherServerAddr r) (didBehaviorTestSuccess r)
    (natBehavior r) (mappedOtherServerPrimaryPortAddr r) x (didFilteringTestSuccess r) (natFiltering r).
Definition with_didFilteringTestSuccess (x : bool) (r : StunResults) : StunResults :=
  mkResults (didBindingTestSuccess r) (localAddr r) (mappedAddr r) (isMappingDirect r) (hasOtherServerAddress r)
    (otherServerPrimaryHostAddr r) (otherServerPrimaryPortAddr r) (otherServerAddr r) (didBehaviorTestSuccess r)
    (natBehavior r) (mappedOtherServerPrimaryPortAddr r) (mappedOtherServerAddr r) x (natFiltering r).
Definition with_natFiltering (x : StunNatFiltering) (r : StunResults) : StunResults :=
  mkResults (didBindingTestSuccess r) (localAddr r) (mappedAddr r) (isMappingDirect r) (hasOtherServerAddress r)
    (otherServerPrimaryHostAddr r) (otherServerPrimaryPortAddr r) (otherServerAddr r) (didBehaviorTestSuccess r)
    (natBehavior r) (mappedOtherServerPrimaryPortAddr r) (mappedOtherServerAddr r) (didFilteringTestSuccess r) x.

(** [memset] to zero. *)
Definition emptyResults : StunResults :=
  mkResults false zeroAddr zeroAddr false false zeroAddr zeroAddr zeroAddr
    false UnknownBehavior zeroAddr zeroAddr false UnknownFiltering.

Record StunTest := mkTest {
  isCompleted : bool;
  test_transactionId : list Z;
  test_packet : Z;
  test_receiveBlock : Z;
  test_retries : Z;
  test_timeout : timeout_t;
  test_timeoutBlock : Z;
}.

Definition with_isCompleted (x : bool) (t : StunTest) : StunTest :=
  mkTest x (test_transactionId t) (test_packet t) (test_receiveBlock t) (test_retries t) (test_timeout t)
    (test_timeoutBlock t).
Definition with_transactionId (x : list Z) (t : StunTest) : StunTest :=
  mkTest (isCompleted t) x (test_packet t) (test_receiveBlock t) (test_retries t) (test_timeout t)
    (test_timeoutBlock t).
Definition with_packet (x : Z) (t : StunTest) : StunTest :=
  mkTest (isCompleted t) (test_transactionId t) x (test_receiveBlock t) (test_retries t) (test_timeout t)
    (test_timeoutBlock t).
Definition with_receiveBlock (x : Z) (t : StunTest) : StunTest :=
  mkTest (isCompleted t) (test_transactionId t) (test_packet t) x (test_retries t) (test_timeout t)
    (test_timeoutBlock t).
Definition with_retries (x : Z) (t : StunTest) : StunTest :=
  mkTest (isCompleted t) (test_transactionId t) (test_packet t) (test_receiveBlock t) x (test_timeout t)
    (test_timeoutBlock t).
Definition with_timeout (x : timeout_t) (t : StunTest) : StunTest :=
  mkTest (isCompleted t) (test_transactionId t) (test_packet t) (test_receiveBlock t) (test_retries t) x
    (test_timeoutBlock t).
Definition with_timeoutBlock (x : Z) (t : StunTest) : StunTest :=
  mkTest (isCompleted t) (test_transactionId t) (test_packet t) (test_receiveBlock t) (test_retries t)
    (test_timeout t) x.

(** [memset] to zero. *)
Definition blank_test : StunTest := mkTest false (replicate 12 0) 0 0 0 (mkTimeout 0 false) 0.

(** The five tests of a client, which the source compares by address. *)
Inductive StunTestId := BindingTest1 | BehaviorTest1 | BehaviorTest2 | FilteringTest1 | FilteringTest2.

#[export] Instance StunTestId_eq_dec : EqDecision StunTestId.
Proof. solve_decision. Defined.

Record StunTests := mkTests {
  bindingTest1 : StunTest;
  behaviorTest1 : StunTest;
  behaviorTest2 : StunTest;
  filteringTest1 : StunTest;
  filteringTest2 : StunTest;
}.

Definition test_of (i : StunTestId) (t : StunTests) : StunTest :=
  match i with
  | BindingTest1 => bindingTest1 t
  | BehaviorTest1 => behaviorTest1 t
  | BehaviorTest2 => behaviorTest2 t
  | FilteringTest1 => filteringTest1 t
  | FilteringTest2 => filteringTest2 t
  end.

Definition put_test (i : StunTestId) (x : StunTest) (t : StunTests) : StunTests :=
  match i with
  | BindingTest1 => mkTests x (behaviorTest1 t) (behaviorTest2 t) (filteringTest1 t) (filteringTest2 t)
  | BehaviorTest1 => mkTests (bindingTest1 t) x (behaviorTest2 t) (filteringTest1 t) (filteringTest2 t)
  | BehaviorTest2 => mkTests (bindingTest1 t) (behaviorTest1 t) x (filteringTest1 t) (filteringTest2 t)
  | FilteringTest1 => mkTests (bindingTest1 t) (behaviorTest1 t) (behaviorTest2 t) x (filteringTest2 t)
  | FilteringTest2 => mkTests (bindingTest1 t) (behaviorTest1 t) (behaviorTest2 t) (filteringTest1 t) x
  end.

Record StunConfig := mkStunConfig {
  config_rto : Z;
  config_maxRetries : Z;
  socket_info : net_socket_info;
  primaryServerHostname : list Z;   (* 64 characters *)
  primaryServerAddr : net_addr_t;
}.

Definition with_socket_info (x : net_socket_info) (c : StunConfig) : StunConfig :=
  mkStunConfig (config_rto c) (config_maxRetries c) x (primaryServerHostname c) (primaryServerAddr c).
Definition with_primaryServerAddr (x : net_addr_t) (c : StunConfig) : StunConfig :=
  mkStunConfig (config_rto c) (config_maxRetries c) (socket_info c) (primaryServerHostname c) x.

(** A block of the heap: the receive block or the timeout block of a test,
    or a receive block of the application. *)
Inductive stun_block :=
| ReceiveBlock (test : StunTestId)
| TimeoutBlock (test : StunTestId)
| ApplicationBlock.

(** A block given to the dispatch queue of the client. *)
Inductive stun_task :=
| TaskResolve
| TaskNext (previousTest : StunTestId)
| TaskResponse (test : StunTestId) (packet : Z)
| TaskRetry (test : StunTestId).

(** A call of one of the blocks of the application. *)
Inductive stun_event := EventDidResolve | EventDidFailResolve.

Record stun_client := mkStun {
  n_didResolve : bool;
  n_results : StunResults;
  n_config : StunConfig;
  n_tests : StunTests;
  n_socket : net_socket_s;
  n_kinds : list bool;   (* of the packets delivered: to a block? *)
  n_queue : list stun_task;   (* [stunDispatchQueue] *)
  n_blocks : gmap Z stun_block;   (* the blocks that were copied *)
  n_sources : gmap Z source;   (* the timers *)
  n_events : list stun_event;   (* the callbacks called so far *)
}.

Definition put_didResolve (x : bool) (c : stun_client) : stun_client :=
  mkStun x (n_results c) (n_config c) (n_tests c) (n_socket c) (n_kinds c) (n_queue c) (n_blocks c)
    (n_sources c) (n_events c).
Definition put_results (x : StunResults) (c : stun_client) : stun_client :=
  mkStun (n_didResolve c) x (n_config c) (n_tests c) (n_socket c) (n_kinds c) (n_queue c) (n_blocks c)
    (n_sources c) (n_events c).
Definition put_config (x : StunConfig) (c : stun_client) : stun_client :=
  mkStun (n_didResolve c) (n_results c) x (n_tests c) (n_socket c) (n_kinds c) (n_queue c) (n_blocks c)
    (n_sources c) (n_events c).
Definition put_tests (x : StunTests) (c : stun_client) : stun_client :=
  mkStun (n_didResolve c) (n_results c) (n_config c) x (n_socket c) (n_kinds c) (n_queue c) (n_blocks c)
    (n_sources c) (n_events c).
Definition put_socket (x : net_socket_s) (c : stun_client) : stun_client :=
  mkStun (n_didResolve c) (n_results c) (n_config c) (n_tests c) x (n_kinds c) (n_queue c) (n_blocks c)
    (n_sources c) (n_events c).
Definition put_kinds (x : list bool) (c : stun_client) : stun_client :=
  mkStun (n_didResolve c) (n_results c) (n_config c) (n_tests c) (n_socket c) x (n_queue c) (n_blocks c)
    (n_sources c) (n_events c).
Definition put_queue (x : list stun_task) (c : stun_client) : stun_client :=
  mkStun (n_didResolve c) (n_results c) (n_config c) (n_tests c) (n_socket c) (n_kinds c) x (n_blocks c)
    (n_sources c) (n_events c).
Definition put_blocks (x : gmap Z stun_block) (c : stun_client) : stun_client :=
  mkStun (n_didResolve c) (n_results c) (n_config c) (n_tests c) (n_socket c) (n_kinds c) (n_queue c) x
    (n_sources c) (n_events c).
Definition put_sources (x : gmap Z source) (c : stun_client) : stun_client :=
  mkStun (n_didResolve c) (n_results c) (n_config c) (n_tests c) (n_socket c) (n_kinds c) (n_queue c)
    (n_blocks c) x (n_events c).
Definition put_events (x : list stun_event) (c : stun_client) : stun_client :=
  mkStun (n_didResolve c) (n_results c) (n_config c) (n_tests c) (n_socket c) (n_kinds c) (n_queue c)
    (n_blocks c) (n_sources c) x.

(** What the environment gives to a task: the answer of [getaddrinfo] for a
    name, the interfaces, the random device, and what is left on the stack
    where the local variables of the response blocks are. *)
Record stun_env := mkEnv {
  env_gai : list Z -> Z + list addrinfo;
  env_ifs : Z + list ifaddr;
  env_urandom : option (list (Z + list Z));
  env_header : StunHeader;
  env_response : StunBindingResponse;
}.

(** ** The parts of a client *)

Definition on_socket {A} (m : prog net_socket_s A) : prog stun_client A := fun c =>
  match m (n_socket c) with Done (a, s) => Done (a, put_socket s c) | Fault f => Fault f end.

Definition get_test (i : StunTestId) : prog stun_client StunTest := gets (fun c => test_of i (n_tests c)).

Definition on_test (i : StunTestId) (f : StunTest -> StunTest) : prog stun_client unit :=
  modify (fun c => put_tests (put_test i (f (test_of i (n_tests c))) (n_tests c)) c).

Definition on_results (f : StunResults -> StunResults) : prog stun_client unit :=
  modify (fun c => put_results (f (n_results c)) c).

Definition on_config (f : StunConfig -> StunConfig) : prog stun_client unit :=
  modify (fun c => put_config (f (n_config c)) c).

(** An operation of timeout.c on the timeout of a test. *)
Definition on_timeout {A} (i : StunTestId) (m : prog timeout_state A) : prog stun_client A := fun c =>
  let t := test_of i (n_tests c) in
  match m (mkTimeoutState (test_timeout t) (n_sources c)) with
  | Fault f => Fault f
  | Done (a, s) =>
      Done (a, put_sources (ts_sources s)
                 (put_tests (put_test i (with_timeout (ts_timeout s) t) (n_tests c)) c))
  end.

Definition dispatch_async (task : stun_task) : prog stun_client unit :=
  modify (fun c => put_queue (n_queue c ++ [task]) c).

Definition notify (event : stun_event) : prog stun_client unit :=
  modify (fun c => put_events (n_events c ++ [event]) c).

(** The handler of a timer retains the block it was given; here it keeps the
    test that the block captures, zero when the block is NULL. *)
Definition block_code (i : StunTestId) (block : Z) : Z :=
  if block =? 0 then 0
  else match i with
  | BindingTest1 => 1 | BehaviorTest1 => 2 | BehaviorTest2 => 3 | FilteringTest1 => 4 | FilteringTest2 => 5
  end.

Definition coded_test (code : Z) : option StunTestId :=
  match code with
  | 1 => Some BindingTest1 | 2 => Some BehaviorTest1 | 3 => Some BehaviorTest2
  | 4 => Some FilteringTest1 | 5 => Some FilteringTest2 | _ => None
  end.

(** ** What a response changes *)

(** The part of each response block that follows the test of the id, up to
    [stunTestSetComplete]; a mapped address is overwritten by an xored one. *)
Definition mapped (reply : StunBindingResponse) (addr : net_addr_t) : net_addr_t :=
  let addr := if hasMappedAddress reply then net_addr_copy (mappedAddressAddr reply) else addr in
  if hasXorMappedAddress reply then net_addr_copy (xorMappedAddressAddr reply) else addr.

Definition binding_response `{Host} (config : StunConfig) (reply : StunBindingResponse) (r : StunResults) : StunResults :=
  let r := with_mappedAddr (mapped reply (mappedAddr r)) r in
  let r :=
    if hasAlternateServer reply then
      let r := with_hasOtherServerAddress true r in
      let r := with_otherServerAddr (net_addr_copy (alternateServerAddr reply)) r in
      let r := with_otherServerPrimaryHostAddr
                 (net_addr_set (s_addr (primaryServerAddr config)) (sin_port (otherServerAddr r)) false) r in
      with_otherServerPrimaryPortAddr
        (net_addr_set (s_addr (otherServerAddr r)) (sin_port (primaryServerAddr config)) false) r
    else r in
  let r := if net_addr_is_equal (mappedAddr r) (localAddr r) then with_isMappingDirect true r else r in
  with_didBindingTestSuccess true r.

Definition behavior1_response (reply : StunBindingResponse) (r : StunResults) : StunResults :=
  let r := with_mappedOtherServerPrimaryPortAddr (mapped reply (mappedOtherServerPrimaryPortAddr r)) r in
  if (hasMappedAddress reply || hasXorMappedAddress reply) &&
     net_addr_is_equal (mappedOtherServerPrimaryPortAddr r) (mappedAddr r)
  then with_natBehavior EndpointIndependentMapping (with_didBehaviorTestSuccess true r)
  else r.

Definition behavior2_response (reply : StunBindingResponse) (r : StunResults) : StunResults :=
  let r := with_mappedOtherServerAddr (mapped reply (mappedOtherServerAddr r)) r in
  if hasMappedAddress reply || hasXorMappedAddress reply then
    let r := with_natBehavior
               (if net_addr_is_equal (mappedOtherServerAddr r) (mappedAddr r) then AddressDependentMapping
                else AddressAndPortDependentMapping) r in
    with_didBehaviorTestSuccess true r
  else r.

Definition filtering1_response (from : net_addr_t) (r : StunResults) : StunResults :=
  if net_addr_is_equal (otherServerAddr r) from then
    with_natFiltering EndpointIndependentFiltering (with_didFilteringTestSuccess true r)
  else r.

Definition filtering2_response (from : net_addr_t) (r : StunResults) : StunResults :=
  if net_addr_is_equal (otherServerAddr r) from then
    with_natFiltering AddressDependentFiltering (with_didFilteringTestSuccess true r)
  else r.

Definition response_of `{Host} (i : StunTestId) (config : StunConfig) (from : net_addr_t)
    (reply : StunBindingResponse) : StunResults -> StunResults :=
  match i with
  | BindingTest1 => binding_response config reply
  | BehaviorTest1 => behavior1_response reply
  | BehaviorTest2 => behavior2_response reply
  | FilteringTest1 => filtering1_response from
  | FilteringTest2 => filtering2_response from
  end.

(** [*testSuccessCheck = false]: the flag each test gives to [stunTestSend]. *)
Definition failure_of (i : StunTestId) : StunResults -> StunResults :=
  match i with
  | BindingTest1 | BehaviorTest1 | BehaviorTest2 => with_didBindingTestSuccess false
  | FilteringTest1 | FilteringTest2 => with_didFilteringTestSuccess false
  end.

(** ** Operations *)

Section Operations.
Context `{Host}.
(** What [Block_copy] and [dispatch_source_create] return; zero is NULL. *)
Context (block_alloc : gmap Z stun_block -> Z).
Context (source_create : gmap Z source -> Z).
(** [rand] after [srand]. *)
Context (rand : Z -> nat -> Z).
(** The receive block and the receive callback of the application. *)
Context (application_block : Z -> Z -> prog net_socket_s unit).
Context (application_callback : Z -> Z -> Z -> prog net_socket_s unit).

Definition Block_copy (block : stun_block) : prog stun_client Z :=
  c <- get ;;
  let copy := block_alloc (n_blocks c) in
  (if copy =? 0 then ret tt else modify (put_blocks (<[copy := block]> (n_blocks c)))) ;;
  ret copy.

Definition Block_release (block : Z) : prog stun_client unit := fun c =>
  match n_blocks c !! block with
  | None => Fault OutOfBounds
  | Some _ => Done (tt, put_blocks (delete block (n_blocks c)) c)
  end.

(** [testDidComplete] is the block that calls it. *)
Definition stunRunNextTest (previousTest : StunTestId) : prog stun_client unit :=
  dispatch_async (TaskNext previousTest).

Definition stunTestDestroyTimeout (test : StunTestId) : prog stun_client unit :=
  on_timeout test timeout_destroy.

Definition stunTestRelease (test : StunTestId) : prog stun_client unit :=
  stunTestDestroyTimeout test ;;
  t <- get_test test ;;
  (if negb (test_receiveBlock t =? 0) then Block_release (test_receiveBlock t) else ret tt) ;;
  (if negb (test_timeoutBlock t =? 0) then Block_release (test_timeoutBlock t) else ret tt) ;;
  if negb (test_packet t =? 0) then on_socket (net_packet_release (test_packet t)) else ret tt.

Definition stunTestSetComplete (test : StunTestId) : prog stun_client unit :=
  stunTestRelease test ;;
  on_test test (with_isCompleted true) ;;
  stunRunNextTest test.

(** The packet is not checked. *)
Definition stunTestSetup (test : StunTestId) (destAddr : net_addr_t) (env : stun_env) : prog stun_client unit :=
  packet <- on_socket net_packet_alloc ;;
  on_test test (with_packet packet) ;;
  on_socket (on_packet packet (fun k => net_packet_addr k destAddr)) ;;
  on_test test (with_transactionId (stunGenerateTransactionId rand (env_urandom env))).

Definition stunTestSend (test : StunTestId) : prog stun_client unit :=
  timeoutBlock <- Block_copy (TimeoutBlock test) ;;
  on_test test (with_timeoutBlock timeoutBlock) ;;
  t <- get_test test ;;
  on_socket (net_socket_set_receive_block (test_receiveBlock t)) ;;
  c <- get ;;
  on_timeout test (timeout_create_block source_create (block_code test (test_timeoutBlock t)) (config_rto (n_config c))) ;;
  on_socket (net_socket_send (test_packet t)).

(** Setup, request, receive block and sending, as every test that runs. *)
Definition start_request (test : StunTestId) (destAddr : net_addr_t) (between : prog stun_client unit)
    (pack : list Z -> prog bitstream_t unit) (env : stun_env) : prog stun_client unit :=
  stunTestSetup test destAddr env ;;
  between ;;
  t <- get_test test ;;
  on_socket (on_bitstream (test_packet t) (pack (test_transactionId t))) ;;
  receiveBlock <- Block_copy (ReceiveBlock test) ;;
  on_test test (with_receiveBlock receiveBlock) ;;
  stunTestSend test.

Definition stunTestStartBasicBinding (env : stun_env) : prog stun_client unit :=
  on_test BindingTest1 (fun _ => blank_test) ;;
  c <- get ;;
  start_request BindingTest1 (primaryServerAddr (n_config c))
    (c <- get ;;
     on_results (fun r => with_localAddr (net_socket_local_addr (env_ifs env) (localAddr r) (n_socket c)) r))
    stunProtocolPackBindingRequest env.

Definition stunTestStartBehavior1 (env : stun_env) : prog stun_client unit :=
  on_test BehaviorTest1 (fun _ => blank_test) ;;
  c <- get ;;
  let r := n_results c in
  if didBindingTestSuccess r && isMappingDirect r then
    on_results (fun r => with_didBehaviorTestSuccess true (with_natBehavior DirectMapping r)) ;;
    stunTestSetComplete BehaviorTest1
  else if negb (hasOtherServerAddress r) then
    on_results (with_didBehaviorTestSuccess false) ;;
    stunTestSetComplete BehaviorTest1
  else
    start_request BehaviorTest1 (otherServerPrimaryPortAddr r) (ret tt) stunProtocolPackBindingRequest env.

Definition stunTestStartBehavior2 (env : stun_env) : prog stun_client unit :=
  on_test BehaviorTest2 (fun _ => blank_test) ;;
  c <- get ;;
  let r := n_results c in
  if didBehaviorTestSuccess r then stunTestSetComplete BehaviorTest2
  else if negb (net_addr_is_valid (mappedOtherServerPrimaryPortAddr r)) then
    on_results (with_didBehaviorTestSuccess false) ;;
    stunTestSetComplete BehaviorTest2
  else
    start_request BehaviorTest2 (otherServerAddr r) (ret tt) stunProtocolPackBindingRequest env.

Definition stunTestStartFiltering1 (env : stun_env) : prog stun_client unit :=
  on_test FilteringTest1 (fun _ => blank_test) ;;
  c <- get ;;
  let r := n_results c in
  if didBindingTestSuccess r && isMappingDirect r then
    on_results (fun r => with_didFilteringTestSuccess true (with_natFiltering EndpointIndependentFiltering r)) ;;
    stunTestSetComplete FilteringTest1
  else if negb (hasOtherServerAddress r) then
    on_results (with_didFilteringTestSuccess false) ;;
    stunTestSetComplete FilteringTest1
  else
    start_request FilteringTest1 (primaryServerAddr (n_config c)) (ret tt)
      (fun id => stunProtocolPackBindingChangeRequest id true true) env.

Definition stunTestStartFiltering2 (env : stun_env) : prog stun_client unit :=
  on_test FilteringTest2 (fun _ => blank_test) ;;
  c <- get ;;
  let r := n_results c in
  if didFilteringTestSuccess r then stunTestSetComplete FilteringTest2
  else if negb (hasOtherServerAddress r) then
    on_results (with_didFilteringTestSuccess false) ;;
    stunTestSetComplete FilteringTest2
  else
    start_request FilteringTest2 (primaryServerAddr (n_config c)) (ret tt)
      (fun id => stunProtocolPackBindingChangeRequest id false true) env.

(** [config->rto * (3ull * retries)] *)
Definition stun_retry_rto (rto retries : Z) : Z := u64 (rto * u64 (3 * retries)).

Definition stunTestRetryOrFail (test : StunTestId) : prog stun_client unit :=
  t <- get_test test ;;
  if negb (isCompleted t) then
    stunTestDestroyTimeout test ;;
    c <- get ;;
    if test_retries t <? config_maxRetries (n_config c) then
      on_test test (with_retries (u32 (test_retries t + 1))) ;;
      t <- get_test test ;;
      on_timeout test (timeout_create_block source_create (block_code test (test_timeoutBlock t))
                         (stun_retry_rto (config_rto (n_config c)) (test_retries t))) ;;
      on_socket (net_socket_send (test_packet t))
    else
      on_results (failure_of test) ;;
      stunTestSetComplete test
  else ret tt.

(** The application gets the packet it would have got without the client. *)
Definition stunTestForward (packet : Z) : prog stun_client unit :=
  on_socket (on_bitstream packet bitstream_reset) ;;
  c <- get ;;
  let info := socket_info (n_config c) in
  if negb (receiveBlock info =? 0) then on_socket (application_block (receiveBlock info) packet)
  else if negb (receiveCallback info =? 0) then
    on_socket (application_callback (receiveCallback info) (receiveCallbackContext info) packet)
  else ret tt.

(** ** Steps *)

(** The block that the receive block of a test dispatches. *)
Definition run_stun_response (test : StunTestId) (packet : Z) (env : stun_env) : prog stun_client unit :=
  t <- get_test test ;;
  (if negb (isCompleted t) then
     let* '(result, transactionId, reply) :=
       on_socket (on_bitstream packet (stunProtocolUnpackBindingResponse (env_header env) (env_response env))) in
     if result =? kStunValid then
       stunTestDestroyTimeout test ;;
       if stunIsEqualTransactionId (test_transactionId t) transactionId then
         k <- on_socket (get_packet packet) ;;
         c <- get ;;
         on_results (response_of test (n_config c) (pk_addr k) reply) ;;
         stunTestSetComplete test
       else ret tt
     else stunTestForward packet
   else ret tt) ;;
  on_socket (net_packet_release packet).

(** The block of [stunResolve]. *)
Definition run_resolve (env : stun_env) : prog stun_client unit :=
  c <- get ;;
  length <- lift (strlen (primaryServerHostname (n_config c))) ;;
  let name := take (Z.to_nat length) (primaryServerHostname (n_config c)) in
  let '(netError, addr) := net_addr_resolve (env_gai env name) (primaryServerAddr (n_config c)) kStunServerDefaultPort in
  on_config (with_primaryServerAddr addr) ;;
  if decide (netError = NetNoError) then
    info <- on_socket net_socket_copy_info ;;
    on_config (with_socket_info info) ;;
    stunTestStartBasicBinding env
  else notify EventDidFailResolve.

(** The block of [stunRunNextTest]. *)
Definition run_next (previousTest : StunTestId) (env : stun_env) : prog stun_client unit :=
  match previousTest with
  | BindingTest1 => stunTestStartBehavior1 env
  | BehaviorTest1 => stunTestStartBehavior2 env
  | BehaviorTest2 => stunTestStartFiltering1 env
  | FilteringTest1 => stunTestStartFiltering2 env
  | FilteringTest2 =>
      c <- get ;;
      if didBindingTestSuccess (n_results c) then
        on_socket (net_socket_set_info (socket_info (n_config c))) ;;
        modify (put_didResolve true) ;;
        notify EventDidResolve
      else notify EventDidFailResolve
  end.

Definition stunResolve : prog stun_client unit := dispatch_async TaskResolve.

Definition run_task (env : stun_env) : prog stun_client unit :=
  c <- get ;;
  match n_queue c with
  | [] => ret tt
  | task :: tasks =>
      modify (put_queue tasks) ;;
      match task with
      | TaskResolve => run_resolve env
      | TaskNext previousTest => run_next previousTest env
      | TaskResponse test packet => run_stun_response test packet env
      | TaskRetry test => stunTestRetryOrFail test
      end
  end.

(** The handler of a timer runs the timeout block of its test, which
    dispatches, and then marks the timeout. *)
Definition timer_block (src : Z) : prog stun_client (option StunTestId) := fun c =>
  match timer_fires src (n_sources c) with
  | Fault f => Fault f
  | Done (None, m) => Done (None, c)
  | Done (Some code, m) =>
      match coded_test code with
      | None => Fault NullPointer
      | Some test => (dispatch_async (TaskRetry test) ;; ret (Some test)) (put_sources m c)
      end
  end.

Definition timer_handler (src : Z) : prog stun_client unit :=
  fired <- timer_block src ;;
  match fired with Some test => on_timeout test timer_fired | None => ret tt end.

(** A datagram is read: the packet goes to the block of the socket if there
    is one, to its callback otherwise. *)
Definition datagram_event (datagram : option (net_addr_t * list Z)) : prog stun_client unit :=
  c <- get ;;
  on_socket (read_event datagram) ;;
  modify (fun c' =>
    if (length (s_delivered (n_socket c)) <? length (s_delivered (n_socket c')))%nat then
      put_kinds (n_kinds c ++ [negb (receiveBlock (s_receiver (n_socket c)) =? 0)]) c'
    else c').

(** What was dispatched to the global queue calls the block, or the callback,
    that the socket has by then. *)
Definition receive (block : bool) (packet : Z) : prog stun_client unit :=
  c <- get ;;
  let info := s_receiver (n_socket c) in
  if block then
    if receiveBlock info =? 0 then fail NullPointer
    else match n_blocks c !! receiveBlock info with
    | Some (ReceiveBlock test) => dispatch_async (TaskResponse test packet)
    | Some ApplicationBlock => on_socket (application_block (receiveBlock info) packet)
    | _ => fail OutOfBounds
    end
  else
    if receiveCallback info =? 0 then fail NullPointer
    else on_socket (application_callback (receiveCallback info) (receiveCallbackContext info) packet).

Definition deliver (i : nat) : prog stun_client unit :=
  c <- get ;;
  match s_delivered (n_socket c) !! i, n_kinds c !! i with
  | Some packet, Some block =>
      on_socket (modify (fun s => set_delivered (delete i (s_delivered s)) s)) ;;
      modify (fun c => put_kinds (delete i (n_kinds c)) c) ;;
      receive block packet
  | _, _ => ret tt
  end.

(** ** Life of a client *)

(** [memory] is what [malloc] left in the tests and in the rest of the
    configuration: only some of it is set. *)
Definition stunCreate (malloc_ok : bool) (socket : net_socket_s) (serverHostname : list Z)
    (memory : StunTests * net_socket_info * net_addr_t) (blocks : gmap Z stun_block) (sources : gmap Z source) :
    option stun_client :=
  if malloc_ok then
    let '(tests, info, addr) := memory in
    let name := take 64 serverHostname in
    Some (mkStun false emptyResults
            (mkStunConfig kStunDefaultRto kStunDefaultRetries info (name ++ replicate (64 - length name) 0) addr)
            tests socket [] [] blocks sources [])
  else None.

(** The tests that are not complete are released, and then the client. *)
Definition stunDestroy : prog stun_client unit :=
  let release test :=
    t <- get_test test ;; if negb (isCompleted t) then stunTestRelease test else ret tt in
  release BindingTest1 ;;
  release BehaviorTest1 ;;
  release BehaviorTest2 ;;
  release FilteringTest1 ;;
  release FilteringTest2.

End Operations.
