(* ===== verification/StunSpec.v ===== *)
(** * What the tests of the STUN client do

    The life of one test: it takes a packet, two blocks and a timer, sends
    its request, and gives everything back when it is answered or has failed;
    and the messages between the client and a server. *)
From S2P Require Import Prelude Bitstream Wire Fields BitstreamSpec Net Protocol StunProtocol StunProtocolSpec.
From S2P Require Import Queue Pool NetSocket NetSocketSpec Timeout Stun.

(** ** The requests *)

Section Requests.
Context {order : Host}.

Definition change_data (doChangeHost doChangePort : bool) : Z :=
  Z.lor (if doChangeHost then 4 else 0) (if doChangePort then 2 else 0).

Definition enc_binding_request (id : list Z) : list Z :=
  enc_stun_header StunMsgTypeBinding StunMsgClassRequest id 0.

Definition enc_change_request (id : list Z) (doChangeHost doChangePort : bool) : list Z :=
  enc_stun_header StunMsgTypeBinding StunMsgClassRequest id 8 ++
  enc_int U16 StunAttributeChangeRequest ++ enc_int U16 4 ++ enc_int U32 (change_data doChangeHost doChangePort).

Lemma pack_binding_request_emits id : id_ok id ->
  emits (stunProtocolPackBindingRequest id) (enc_binding_request id) tt.
Proof. apply pack_stun_header_emits. Qed.

Lemma pack_change_request_emits id h p : id_ok id ->
  emits (stunProtocolPackBindingChangeRequest id h p) (enc_change_request id h p) tt.
Proof.
  intros Hid. unfold stunProtocolPackBindingChangeRequest, enc_change_request.
  eapply emits_bind; [by apply pack_stun_header_emits|]. unfold stunProtocolPackAttributeChangeAddr. cbv zeta.
  rewrite <- (app_nil_r (enc_int U32 _)), !app_assoc, app_nil_r, <- app_assoc.
  do 2 (eapply emits_bind; [auto with wire|]). unfold change_data. destruct h, p; apply u32_emits.
Qed.

(** The request of each test. *)
Definition enc_request (i : StunTestId) (id : list Z) : list Z :=
  match i with
  | FilteringTest1 => enc_change_request id true true
  | FilteringTest2 => enc_change_request id false true
  | _ => enc_binding_request id
  end.

Definition pack_request (i : StunTestId) (id : list Z) : prog bitstream_t unit :=
  match i with
  | FilteringTest1 => stunProtocolPackBindingChangeRequest id true true
  | FilteringTest2 => stunProtocolPackBindingChangeRequest id false true
  | _ => stunProtocolPackBindingRequest id
  end.

Lemma pack_request_emits i id : id_ok id -> emits (pack_request i id) (enc_request i id) tt.
Proof. intros Hid. destruct i; by apply pack_binding_request_emits || apply pack_change_request_emits. Qed.

Lemma zlen_enc_request i id : id_ok id -> 0 < zlen (enc_request i id) <= 28.
Proof.
  intros Hid. assert (H : forall n, zlen (enc_stun_header StunMsgTypeBinding StunMsgClassRequest id n) = 20)
    by (intros n; by apply zlen_enc_stun_header).
  destruct i; cbn [enc_request]; unfold enc_binding_request, enc_change_request;
    rewrite ?zlen_app, ?zlen_enc_int, H; cbn; lia.
Qed.

(** Ids as [stunGenerateTransactionId] makes them. *)
Lemma generated_id rand urandom : id_ok (stunGenerateTransactionId rand urandom).
Proof.
  unfold stunGenerateTransactionId. split; [by unfold zlen; rewrite length_fmap, length_seq|].
  apply Forall_fmap, Forall_forall. intros b _. cbn. apply u8_byte.
Qed.

End Requests.

(** ** The tests of a client *)

Lemma test_put i x t : test_of i (put_test i x t) = x.
Proof. by destruct i. Qed.

Lemma test_put_other i j x t : i <> j -> test_of j (put_test i x t) = test_of j t.
Proof. by destruct i, j. Qed.

Lemma put_put_test i x y t : put_test i x (put_test i y t) = put_test i x t.
Proof. by destruct i. Qed.

Lemma put_same_test i t : put_test i (test_of i t) t = t.
Proof. by destruct i, t. Qed.

(** ** One test *)

(** A socket with nothing under way. *)
Record rests (s : net_socket_s) (owners : list Z) : Prop := {
  rs_socket : socket_holds s owners [];
  rs_blocks : s_blocks s = [];
  rs_delivered : s_delivered s = [];
}.

(** The first operation of a program is run. *)
Tactic Notation "step" uconstr(E) := rewrite ?bind_assoc, (bind_done _ _ _ _ _ E).

Section Test.
Context {order : Host}.
Context (block_alloc : gmap Z stun_block -> Z).
Context (source_create : gmap Z source -> Z).
Context (rand : Z -> nat -> Z).
Context (application_block : Z -> Z -> prog net_socket_s unit).
Context (application_callback : Z -> Z -> Z -> prog net_socket_s unit).
Context (malloc_node : gmap Z queue_node_s -> option (Z * queue_node_s)).
Hypothesis block_fresh : fresh_address block_alloc.
Hypothesis source_fresh : fresh_address source_create.
Hypothesis malloc_node_fresh : malloc_fresh malloc_node.
Hypothesis malloc_node_some : forall h, malloc_node h <> None.

(** The packets other than those of the tests, the other blocks, the other
    timers, and what a test leaves alone. *)
Context (held : list Z) (apps : gmap Z stun_block) (others : gmap Z source).
Context (did : bool) (config : StunConfig) (ev : list stun_event).

Definition client (r : StunResults) (ts : StunTests) (s : net_socket_s) (q : list stun_task)
    (bl : gmap Z stun_block) (src : gmap Z source) : stun_client :=
  mkStun did r config ts s [] q bl src ev.

(** The delay of the timer after [n] retries. *)
Definition patience (n : Z) : Z :=
  u64 ((if n =? 0 then config_rto config else stun_retry_rto (config_rto config) n) * kNSEC_PER_MILLISEC).

(** Test [i] runs: its request was sent [n + 1] times. *)
Record running (i : StunTestId) (dest : net_addr_t) (id : list Z) (n : Z) (r : StunResults)
    (ts : StunTests) (s : net_socket_s) (o rb tb src : Z) (c : stun_client) : Prop := {
  rn_state : c = client r ts s [] (<[tb := TimeoutBlock i]> (<[rb := ReceiveBlock i]> apps))
    (<[src := mkSource 1 true (patience n) kLEEWAY 0 (block_code i tb)]> others);
  rn_test : test_of i ts = mkTest false id o rb n (mkTimeout src true) tb;
  rn_nonzero : o <> 0 /\ rb <> 0 /\ tb <> 0 /\ src <> 0;
  rn_blocks : apps !! rb = None /\ apps !! tb = None /\ rb <> tb;
  rn_source : others !! src = None;
  rn_socket : rests s (o :: held);
  rn_packet : exists k, s_packets s !! o = Some k /\ carries k dest (enc_request i id);
  rn_receiver : receiveBlock (s_receiver s) = rb;
}.

Lemma on_socket_result {A} (m : prog net_socket_s A) r ts s q bl src a s' : m s = Done (a, s') ->
  on_socket m (client r ts s q bl src) = Done (a, client r ts s' q bl src).
Proof. intros E. unfold on_socket. cbn. by rewrite E. Qed.

Lemma on_timeout_result {A} i (m : prog timeout_state A) r ts s q bl src a t' src' :
  m (mkTimeoutState (test_timeout (test_of i ts)) src) = Done (a, mkTimeoutState t' src') ->
  on_timeout i m (client r ts s q bl src) =
    Done (a, client r (put_test i (with_timeout t' (test_of i ts)) ts) s q bl src').
Proof. intros E. unfold on_timeout. cbn. by rewrite E. Qed.

Lemma alloc_sockaddr s o s' : net_packet_alloc s = Done (o, s') -> s_sockaddr s' = s_sockaddr s.
Proof.
  unfold net_packet_alloc, on_pool, bind. destruct (s_pool s) as [p|]; [|done].
  destruct (pool_alloc p) as [[a p']|]; [|done]. destruct (a =? 0); [by intros [= <- <-]|].
  unfold on_packet, put_packet, get_packet, bind. destruct (a =? 0); [done|]. cbn [s_packets set_pool].
  destruct (s_packets s !! a); [|done]. unfold modify, ret. cbn. destruct (s_packets s !! a); [|done].
  by intros [= <- <-].
Qed.

Lemma on_test_result i f r ts s q bl src :
  on_test i f (client r ts s q bl src) = Done (tt, client r (put_test i (f (test_of i ts)) ts) s q bl src).
Proof. done. Qed.

Lemma get_test_result i r ts s q bl src :
  get_test i (client r ts s q bl src) = Done (test_of i ts, client r ts s q bl src).
Proof. done. Qed.

Lemma on_results_result f r ts s q bl src :
  on_results f (client r ts s q bl src) = Done (tt, client (f r) ts s q bl src).
Proof. done. Qed.

Lemma Block_copy_result b r ts s q bl src :
  Block_copy block_alloc b (client r ts s q bl src) =
    Done (block_alloc bl, client r ts s q (<[block_alloc bl := b]> bl) src).
Proof. unfold Block_copy. rewrite bind_get. cbn. by rewrite (proj2 (Z.eqb_neq _ 0)) by apply block_fresh. Qed.

(** The packet of a test once it is set up and its request packed. *)
Lemma request_packed s s1 o k dest i id : socket_holds s1 (o :: held) [] -> s_blocks s1 = [] -> o ∉ held -> o <> 0 ->
  packet_wf k -> s_packets s1 = <[o := net_packet_init k]> (s_packets s) -> id_ok id ->
  exists s2 s3 k', on_packet o (fun k => net_packet_addr k dest) s1 = Done (tt, s2) /\
    s_sockaddr s2 = s_sockaddr s1 /\
    on_bitstream o (pack_request i id) s2 = Done (tt, s3) /\ socket_holds s3 (o :: held) [] /\
    s_packets s3 = <[o := k']> (s_packets s1) /\ packed k' dest (enc_request i id) /\ same_queues s1 s3.
Proof.
  intros H B Hn Ho Hk P Hid. assert (E1 : s_packets s1 !! o = Some (net_packet_init k)) by (rewrite P; apply lookup_insert_eq).
  pose proof (pack_request_emits i id Hid) as [By Em]. pose proof (zlen_enc_request i id Hid) as Hz.
  set (k1 := net_packet_addr (net_packet_init k) dest). set (s2 := set_packets (<[o := k1]> (s_packets s1)) s1).
  assert (E2 : s_packets s2 !! o = Some k1) by apply lookup_insert_eq.
  assert (W0 : bs_wf (pk_bitstream k1)) by (by apply packet_init_wf).
  set (b := append (pk_bitstream k1) (enc_request i id)).
  assert (Ep : pack_request i id (pk_bitstream k1) = Done (tt, b)).
  { apply Em; [done|]. change (room (pk_bitstream k1)) with (room (pk_bitstream (net_packet_init k))).
    rewrite packet_init_room. lia. }
  set (k' := mkPacket (pk_addr k1) (pk_length k1) b).
  destruct (append_start k (enc_request i id) Hk) as (A1 & A2 & A3); [unfold kNetPacketMaxLen; lia|].
  assert (W : packet_wf k').
  { split; [exact A1|]. unfold k', b, pk_data, append. cbn. apply Forall_splice; [apply Hk|done]. }
  exists s2, (set_packets (<[o := k']> (s_packets s2)) s2), k'.
  split; [by apply (on_packet_done s1 o (net_packet_init k))|]. split; [done|].
  split; [by apply (on_bitstream_done s2 o k1)|]. unfold s2. rewrite packets_twice.
  split; [|split; [done|split; [by split|by split]]].
  apply (holds_write s1 _ _ o (net_packet_init k) k' H E1 W). rewrite B. intros Hin. by apply not_elem_of_nil in Hin.
Qed.

Lemma holds_info s owners pending info : socket_holds s owners pending -> socket_holds (set_info info s) owners pending.
Proof. intros [H1 H2 H3 H4]. by split. Qed.

(** [net_socket_send] and then the write event: the packet goes out at once. *)
Lemma send_flush s o k dest bytes : rests s (o :: held) -> s_packets s !! o = Some k -> packed k dest bytes ->
  0 < zlen bytes <= kNetPacketMaxLen -> Z.of_nat (length held) + 3 < 2 ^ 32 ->
  exists s1 s2, net_socket_send o s = Done (tt, s1) /\ flush malloc_node s1 = Done (tt, s2) /\ rests s2 (o :: held) /\
    (exists k', s_packets s2 !! o = Some k' /\ carries k' dest bytes) /\
    s_wire s2 = s_wire s ++ [(dest, bytes)] /\ s_receiver s2 = s_receiver s.
Proof.
  intros [Hs Hb Hd] Ek Pk Hz Hl. pose proof Pk as [_ _ Of _].
  destruct (send_holds s o (o :: held) [] k Hs ltac:(by left) Ek) as (s1 & E1 & H1 & P1 & _ & B1 & W1 & D1 & _ & R1).
  { rewrite Of. lia. }
  { unfold references. rewrite Hb, app_nil_r. cbn. lia. }
  rewrite Hb, Of, (proj2 (Z.ltb_lt _ _)) in B1 by lia. cbn [app] in B1.
  destruct (flush_holds malloc_node malloc_node_fresh malloc_node_some s1 (o :: held) [] H1)
    as (s2 & E2 & H2 & B2 & _ & W2 & P2 & D2 & R2).
  exists s1, s2. split; [done|]. split; [done|]. split; [split; [done|done|congruence]|].
  set (k' := mkPacket _ _ _) in P1. assert (Ek' : s_packets s1 !! o = Some k') by (rewrite P1; apply lookup_insert_eq).
  assert (Ck : carries k' dest bytes) by (by apply packed_carries).
  split; [exists k'; rewrite P2; done|]. split; [|congruence].
  rewrite W2, W1, B1. cbn [app mbind list_bind]. by rewrite (datagram_carries _ o k' dest bytes).
Qed.

(** The part of [stunTestSend] before the packet is sent. *)
Lemma create_timer i n r ts s q bl tb d : test_timeout (test_of i ts) = mkTimeout d false ->
  tb <> 0 -> let src := source_create others in
  on_timeout i (timeout_create_block source_create (block_code i tb)
      (if n =? 0 then config_rto config else stun_retry_rto (config_rto config) n)) (client r ts s q bl others) =
    Done (tt, client r (put_test i (with_timeout (mkTimeout src true) (test_of i ts)) ts) s q bl
      (<[src := mkSource 1 true (patience n) kLEEWAY 0 (block_code i tb)]> others)) /\ src <> 0 /\ others !! src = None.
Proof.
  intros Et Htb src. destruct (source_fresh others) as [F1 F2].
  destruct (create_holds source_create 0 (if n =? 0 then config_rto config else stun_retry_rto (config_rto config) n)
    (block_code i tb) (mkTimeoutState (mkTimeout d false) others) others None ltac:(done) F2) as (s' & E & Es & H).
  rewrite (proj2 (Z.eqb_neq _ 0)) in H by done. destruct s' as [[a b] m]. cbn in Es, H. destruct H as (-> & _ & _ & ->).
  subst a. split; [|done]. apply on_timeout_result. rewrite Et. exact E.
Qed.

Definition fresh_id (env : stun_env) : list Z := stunGenerateTransactionId rand (env_urandom env).

(** There is a packet for a request, and one for the response. *)
Definition spare : Prop := Z.of_nat (size (counts_of held)) + 1 < kNetPacketPoolCapacity /\ Z.of_nat (length held) + 3 < 2 ^ 32.

Lemma rests_alloc s : spare -> rests s held ->
  exists o s1 k, net_packet_alloc s = Done (o, s1) /\ s_sockaddr s1 = s_sockaddr s /\ same_queues s s1 /\
    o <> 0 /\ (o ∉ held) /\ socket_holds s1 (o :: held) [] /\ packet_wf k /\
    s_packets s1 = <[o := net_packet_init k]> (s_packets s).
Proof.
  intros [Sp _] [Hs Hb Hd]. destruct (alloc_holds s held [] Hs) as (o & s1 & E & Q & A).
  unfold references in A. rewrite Hb, app_nil_r, (proj2 (Z.eqb_neq _ _)) in A by lia.
  destruct A as (Ho & Hn & H1 & k & Hk & P). exists o, s1, k. split; [done|]. split; [by apply (alloc_sockaddr s o s1)|].
  rewrite ?app_nil_r in Hn. done.
Qed.

(** A test that starts: its request goes out, and it waits. *)
Lemma start_running i dest between env r r' ts s : spare -> rests s held -> test_of i ts = blank_test ->
  (forall ts s1, s_sockaddr s1 = s_sockaddr s ->
    between (client r ts s1 [] apps others) = Done (tt, client r' ts s1 [] apps others)) ->
  exists ts' s' o rb tb src c', (start_request block_alloc source_create rand i dest between (pack_request i) env ;;
      on_socket (flush malloc_node)) (client r ts s [] apps others) = Done (tt, c') /\
    running i dest (fresh_id env) 0 r' ts' s' o rb tb src c' /\ (forall j, j <> i -> test_of j ts' = test_of j ts) /\
    s_wire s' = s_wire s ++ [(dest, enc_request i (fresh_id env))] /\
    s_receiver s' = mkInfo (receiveCallback (s_receiver s)) (receiveCallbackContext (s_receiver s)) rb.
Proof.
  intros Sp R Bt Hbt. pose proof (generated_id rand (env_urandom env)) as Hid. fold (fresh_id env) in Hid.
  destruct (rests_alloc s Sp R) as (o & s1 & k & E1 & A1 & Q1 & Ho & Hn & H1 & Hk & P1). pose proof R as [_ Hb Hd].
  assert (B1 : s_blocks s1 = []) by (rewrite (sq_blocks _ _ Q1); done).
  destruct (request_packed s s1 o k dest i (fresh_id env) H1 B1 Hn Ho Hk P1 Hid)
    as (s2 & s3 & k' & E2 & A2 & E3 & H3 & P3 & K3 & Q3).
  unfold start_request, stunTestSetup.   step (on_socket_result _ r ts s [] apps others o s1 E1).
  step (on_test_result i _ _ _ _ _ _ _).
  step (on_socket_result _ r _ s1 [] apps others tt s2 E2).
  step (on_test_result i _ _ _ _ _ _ _). rewrite !test_put, put_put_test, Bt.
  fold (fresh_id env).
  step (Hbt _ s2 ltac:(congruence)).
  step (get_test_result i _ _ _ _ _ _). rewrite test_put.
  cbn [with_transactionId with_packet test_packet test_transactionId blank_test isCompleted test_receiveBlock test_retries test_timeout test_timeoutBlock].
  step (on_socket_result _ r' _ s2 [] apps others tt s3 E3).
  step (Block_copy_result _ _ _ _ _ _ _).
  step (on_test_result i _ _ _ _ _ _ _). rewrite test_put, put_put_test.
  set (rb := block_alloc apps). unfold stunTestSend.
  step (Block_copy_result _ _ _ _ _ _ _).
  step (on_test_result i _ _ _ _ _ _ _). rewrite test_put, put_put_test.
  set (bl1 := <[rb := _]> apps). set (tb := block_alloc bl1).
  step (get_test_result i _ _ _ _ _ _). rewrite test_put.
  set (t0 := with_timeoutBlock tb _).
  set (s4 := set_info (mkInfo (receiveCallback (s_receiver s3)) (receiveCallbackContext (s_receiver s3)) rb) s3).
  assert (E4 : net_socket_set_receive_block (test_receiveBlock t0) s3 = Done (tt, s4)) by done.
  step (on_socket_result _ r' _ s3 _ _ others tt s4 E4). rewrite ?bind_assoc, bind_get. cbn [client n_config].
  destruct (block_fresh apps) as [Hrb Frb]. destruct (block_fresh bl1) as [Htb Ftb]. fold rb in Hrb, Frb. fold tb in Htb, Ftb.
  apply lookup_insert_None in Ftb as [Ftb Hne].
  destruct (create_timer i 0 r' (put_test i t0 ts) s4 [] (<[tb := TimeoutBlock i]> bl1) tb 0) as (E5 & Hs & Fs); [by rewrite test_put|done|].
  cbn [Z.eqb] in E5. set (src := source_create others) in *.
  step E5. rewrite test_put, put_put_test.
  assert (R4 : rests s4 (o :: held)).
  { destruct Q3 as [_ B3 D3 _ _ _], Q1 as [_ _ D1 _ _ _]. split; [by apply holds_info|cbn; congruence|cbn; congruence]. }
  assert (E4' : s_packets s4 !! o = Some k') by (cbn; rewrite P3; apply lookup_insert_eq).
  pose proof (zlen_enc_request i (fresh_id env) Hid) as Hz.
  destruct (send_flush s4 o k' dest _ R4 E4' K3) as (s5 & s6 & E6 & E7 & R6 & K6 & W6 & I6);
    [unfold kNetPacketMaxLen; lia|apply Sp|].
  step (on_socket_result _ r' _ s4 _ _ _ tt s5 E6).
  rewrite (on_socket_result _ r' _ s5 _ _ _ tt s6 E7).
  eexists _, s6, o, rb, tb, src, _. split; [reflexivity|]. split; [|split; [|split]].
  - split; [reflexivity|by rewrite test_put|done|done|done|done|done|by rewrite I6].
  - intros j Hj. by apply test_put_other.
  - rewrite W6. cbn. by rewrite (sq_wire _ _ Q3), (sq_wire _ _ Q1).
  - rewrite I6. cbn. by rewrite (sq_receiver _ _ Q3), (sq_receiver _ _ Q1).
Qed.

(** The timer of a test that runs is cancelled. *)
Lemma destroy_timer i r ts s q bl d src delay code : test_timeout (test_of i ts) = mkTimeout src true -> src <> 0 ->
  d !! src = None ->
  stunTestDestroyTimeout i (client r ts s q bl (<[src := mkSource 1 true delay kLEEWAY 0 code]> d)) =
    Done (tt, client r (put_test i (with_timeout (mkTimeout src false) (test_of i ts)) ts) s q bl d).
Proof.
  intros Et Hs Hn. apply on_timeout_result. rewrite Et.
  refine (destroy_holds (mkTimeoutState (mkTimeout src true) _) d (Some (delay, 0, code)) _). cbn. do 3 (split; [assumption || reflexivity|]). reflexivity.
Qed.

Lemma destroy_no_timer i r ts s q bl d src : test_timeout (test_of i ts) = mkTimeout src false ->
  stunTestDestroyTimeout i (client r ts s q bl d) = Done (tt, client r ts s q bl d).
Proof.
  intros Et. unfold stunTestDestroyTimeout.
  rewrite (on_timeout_result i timeout_destroy r ts s q bl d tt (mkTimeout src false) d).
  - f_equal. f_equal. f_equal. rewrite <- (put_same_test i ts) at 3. f_equal.
    destruct (test_of i ts). cbn in Et. by subst.
  - rewrite Et. by refine (destroy_holds (mkTimeoutState (mkTimeout src false) d) d None _).
Qed.

(** A test that is complete gives back its blocks and its packet. *)
Lemma complete_result i id o rb n src tb r ts s q owners :
  test_of i ts = mkTest false id o rb n (mkTimeout src false) tb -> o <> 0 -> rb <> 0 -> tb <> 0 ->
  apps !! rb = None -> apps !! tb = None -> rb <> tb -> socket_holds s (o :: owners) [] ->
  exists ts' s', stunTestSetComplete i (client r ts s q (<[tb := TimeoutBlock i]> (<[rb := ReceiveBlock i]> apps)) others) =
      Done (tt, client r ts' s' (q ++ [TaskNext i]) apps others) /\
    isCompleted (test_of i ts') = true /\ (forall j, j <> i -> test_of j ts' = test_of j ts) /\
    net_packet_release o s = Done (tt, s') /\ same_queues s s' /\ s_packets s' = s_packets s /\ socket_holds s' owners [].
Proof.
  intros Et Ho Hrb Htb Frb Ftb Hne H. destruct (release_holds s o owners [] H) as (s' & E & Q & P & H').
  exists (put_test i (with_isCompleted true (test_of i ts)) ts), s'.
  split; [|split; [by rewrite test_put|split; [intros j Hj; by apply test_put_other|done]]].
  unfold stunTestSetComplete, stunTestRelease. rewrite ?bind_assoc.
  rewrite (bind_done _ _ _ _ _ (destroy_no_timer i _ _ _ _ _ _ src ltac:(by rewrite Et))).
  step (get_test_result i _ _ _ _ _ _). rewrite Et.
  cbn [test_receiveBlock test_timeoutBlock test_packet]. rewrite !(proj2 (Z.eqb_neq _ 0)) by done. cbn [negb].
  set (bl := <[tb := _]> _).
  assert (E1 : Block_release rb (client r ts s q bl others) = Done (tt, client r ts s q (delete rb bl) others)).
  { unfold Block_release. cbn. unfold bl. by rewrite lookup_insert_ne, lookup_insert_eq. }
  assert (E2 : Block_release tb (client r ts s q (delete rb bl) others) = Done (tt, client r ts s q apps others)).
  { unfold Block_release. cbn. unfold bl. rewrite lookup_delete_ne, lookup_insert_eq by done. unfold put_blocks. cbn.
    unfold client. repeat f_equal. rewrite delete_insert_ne by auto. rewrite (delete_insert_id apps) by done. by apply delete_insert_id. }
  step E1. step E2. step (on_socket_result _ r ts s q apps others tt s' E). step (on_test_result i _ _ _ _ _ _ _). by rewrite Et.
Qed.

Definition run_first := run_task block_alloc source_create rand application_block application_callback.
Definition deliver_packet := deliver application_block application_callback.

Definition perform (task : stun_task) (env : stun_env) : prog stun_client unit :=
  match task with
  | TaskResolve => run_resolve block_alloc source_create rand env
  | TaskNext previousTest => run_next block_alloc source_create rand previousTest env
  | TaskResponse test packet => run_stun_response application_block application_callback test packet env
  | TaskRetry test => stunTestRetryOrFail source_create test
  end.

Lemma run_task_result task tasks env r ts s bl src :
  run_first env (client r ts s (task :: tasks) bl src) = perform task env (client r ts s tasks bl src).
Proof. by destruct task. Qed.

(** A datagram on its way to the queue of the client: the packet [p]. *)
Lemma arrives i dest id n r ts s o rb tb src c from bytes : spare ->
  running i dest id n r ts s o rb tb src c -> Forall byte bytes -> 0 < zlen bytes <= kNetPacketMaxLen ->
  exists p k s', (datagram_event (Some (from, bytes)) ;; deliver_packet 0) c =
      Done (tt, client r ts s' [TaskResponse i p] (n_blocks c) (n_sources c)) /\
    p <> 0 /\ (p ∉ o :: held) /\ socket_holds s' (o :: p :: held) [] /\ s_blocks s' = [] /\ s_delivered s' = [] /\
    s_packets s' = <[p := k]> (s_packets s) /\ holding from bytes k /\ s_receiver s' = s_receiver s /\ s_wire s' = s_wire s.
Proof.
  intros [Sp _] [-> _ (Ho & Hrb & Htb & _) (Frb & Ftb & Hne) _ [Hs Hb Hd] _ Hr] By Hz.
  destruct (read_event_holds s (o :: held) [] (Some (from, bytes)) Hs By) as (s1 & E1 & _ & B1 & W1 & R1 & A).
  assert (Ex : exhausted s (o :: held) [] = false).
  { unfold exhausted, references. rewrite Hb, !app_nil_r. apply Z.eqb_neq. pose proof (count_cons_le o held). lia. }
  rewrite Ex in A. destruct A as (p & k & Hp & Hn & P1 & H1 & D1 & Hk).
  assert (F : fits (Some (from, bytes)) = true) by (cbn; apply Z.leb_le; lia).
  assert (Em : empty (Some (from, bytes)) = false) by (cbn; apply Z.eqb_neq; lia).
  assert (Hrec : has_receiver (s_receiver s) = true).
  { unfold has_receiver. rewrite Hr, (proj2 (Z.eqb_neq rb 0)) by done. done. }
  rewrite F, Em, Hrec, Hd in D1. cbn [negb andb app] in D1. rewrite F in H1.
  unfold references in Hn. rewrite Hb, !app_nil_r in Hn.
  exists p, k, (set_delivered [] s1). split.
  - unfold datagram_event. rewrite ?bind_assoc, bind_get.
    step (on_socket_result (read_event (Some (from, bytes))) r ts s [] _ _ tt s1 E1).
    rewrite ?bind_assoc, bind_modify. cbn [client n_socket n_kinds]. rewrite D1, Hd, Hr. cbn [length Nat.ltb Nat.leb].
    rewrite (proj2 (Z.eqb_neq rb 0)) by done. unfold deliver_packet, deliver. rewrite bind_get.
    cbn. rewrite D1. cbn. unfold receive, bind, on_socket, modify, put_kinds, get. cbn. rewrite D1. cbn. rewrite R1, Hr.
    rewrite (proj2 (Z.eqb_neq rb 0)) by done. rewrite lookup_insert_ne, lookup_insert_eq by done. done.
  - split; [done|]. split; [done|]. split.
    { apply (holds_move s1 _ (p :: o :: held) [] _ [] H1); [done|done|by solve_Permutation|apply H1|done]. }
    split; [cbn; congruence|]. split; [done|]. split; [done|]. split; [by apply Hk|]. split; [done|done].
Qed.

(** A packet whose stream is put back to its start. *)
Definition rewound (k : net_packet_s) : net_packet_s := mkPacket (pk_addr k) (pk_length k) (set_offset (pk_bitstream k) 0).

(** The packet of a task is unpacked, up to [b1]. *)
Lemma unpack_packet env (x : Z * list Z * StunBindingResponse) r ts s q bl src p k from b1 bytes owners : socket_holds s (p :: owners) [] -> s_blocks s = [] ->
  p <> 0 -> s_packets s !! p = Some k -> holding from bytes k -> zlen bytes <= kNetPacketMaxLen -> b1 `prefix_of` bytes ->
  parses (stunProtocolUnpackBindingResponse (env_header env) (env_response env)) b1 x ->
  exists s' k', on_socket (on_bitstream p (stunProtocolUnpackBindingResponse (env_header env) (env_response env)))
      (client r ts s q bl src) = Done (x, client r ts s' q bl src) /\
    s_packets s' = <[p := k']> (s_packets s) /\ holding from bytes (rewound k') /\ socket_holds s' (p :: owners) [] /\ same_queues s s'.
Proof.
  intros H Hb Hp Ek (Ka & Kd & Ku & Kz) Hz [b2 ->] Hx. pose proof Ku as [Kw Kof Kbd].
  assert (W : bs_wf (pk_bitstream k)).
  { destruct Kw as [L B]. unfold pk_data, kNetPacketMaxLen in *. split; rewrite ?Kof, ?Kbd; unfold kNetPacketMaxLen; [lia|lia|lia|done]. }
  assert (Rm : room (pk_bitstream k) = kNetPacketMaxLen) by (unfold room; rewrite Kof, Kbd; unfold kNetPacketMaxLen; lia).
  destruct (ahead_split _ _ _ W (unread_ahead k _ Ku Kd)) as [Ah _]. rewrite zlen_app in Hz. pose proof (zlen_nonneg b2).
  pose proof (Hx (pk_bitstream k) W ltac:(lia) Ah) as E.
  set (b := skip _ _) in E. set (k' := mkPacket (pk_addr k) (pk_length k) b).
  exists (set_packets (<[p := k']> (s_packets s)) s), k'.
  split; [apply on_socket_result; by apply (on_bitstream_done s p k)|]. split; [done|].
  split; [split; [done|]; split; [done|]; split; [split; [destruct Kw; by split|done|done]|done]|]. split; [|by split].
  apply (holds_write s _ _ p k k' H Ek); [destruct Kw; by split|]. rewrite Hb. intros Hin. by apply not_elem_of_nil in Hin.
Qed.

(** What is left of a test that is complete: the socket still has its receive
    block. *)
Record ended (i : StunTestId) (r : StunResults) (ts : StunTests) (s : net_socket_s) (ts0 : StunTests) (s0 : net_socket_s)
    (c : stun_client) : Prop := {
  en_state : c = client r ts s [TaskNext i] apps others;
  en_completed : isCompleted (test_of i ts) = true;
  en_tests : forall j, j <> i -> test_of j ts = test_of j ts0;
  en_socket : rests s held;
  en_wire : s_wire s = s_wire s0;
  en_receiver : s_receiver s = s_receiver s0;
}.

(** What the block of a test does with the packet [p] once it is unpacked. *)
Definition respond_to (i : StunTestId) (p : Z) (id : list Z) (x : Z * list Z * StunBindingResponse) : prog stun_client unit :=
  (let '(result, transactionId, reply) := x in
   if result =? kStunValid then
     stunTestDestroyTimeout i ;;
     if stunIsEqualTransactionId id transactionId then
       k <- on_socket (get_packet p) ;;
       c <- get ;;
       on_results (response_of i (n_config c) (pk_addr k) reply) ;;
       stunTestSetComplete i
     else ret tt
   else stunTestForward application_block application_callback p) ;;
  on_socket (net_packet_release p).

(** A datagram while a test runs, whose beginning [b1] decides. *)
Lemma handled_prefix i dest id n r ts s o rb tb src c from b1 bytes x env : spare ->
  running i dest id n r ts s o rb tb src c -> Forall byte bytes -> 0 < zlen bytes <= kNetPacketMaxLen -> b1 `prefix_of` bytes ->
  parses (stunProtocolUnpackBindingResponse (env_header env) (env_response env)) b1 x ->
  exists p k s', (datagram_event (Some (from, bytes)) ;; deliver_packet 0 ;; run_first env) c =
      respond_to i p id x (client r ts s' [] (n_blocks c) (n_sources c)) /\
    p <> 0 /\ s_packets s' !! p = Some k /\ holding from bytes (rewound k) /\ s_packets s' !! o = s_packets s !! o /\
    rests s' (p :: o :: held) /\ (p ∉ o :: held) /\ s_receiver s' = s_receiver s /\ s_wire s' = s_wire s.
Proof.
  intros Sp R By Hz Hpre Hx. destruct (arrives i dest id n r ts s o rb tb src c from bytes Sp R By Hz)
    as (p & k & s1 & E1 & Hp & Hn & H1 & B1 & D1 & P1 & Hk & R1 & W1).
  assert (Ek : s_packets s1 !! p = Some k) by (rewrite P1; apply lookup_insert_eq).
  assert (H1' : socket_holds s1 (p :: o :: held) []).
  { apply (holds_move s1 _ (o :: p :: held) [] _ [] H1); [done|done|by solve_Permutation|apply H1|done]. }
  destruct (unpack_packet env x r ts s1 [] (n_blocks c) (n_sources c) p k from b1 bytes (o :: held) H1' B1 Hp Ek Hk ltac:(lia) Hpre Hx)
    as (s2 & k2 & E2 & P2 & A2 & H2 & [_ Q2 Q3 Q4 _ Q6]).
  exists p, k2, s2. split.
  - rewrite <- bind_assoc, (bind_done _ _ _ _ _ E1), run_task_result. cbn [perform]. unfold run_stun_response.
    step (get_test_result i _ _ _ _ _ _). rewrite (rn_test _ _ _ _ _ _ _ _ _ _ _ _ R). cbn [isCompleted negb].
    step E2. destruct x as [[result transactionId] reply]. unfold respond_to. cbn [test_transactionId].
    by destruct (result =? kStunValid).
  - split; [done|]. split; [rewrite P2; apply lookup_insert_eq|]. split; [done|].
    assert (Hpo : p <> o) by (intros ->; apply Hn; by left).
    split; [by rewrite P2, P1, !lookup_insert_ne|].
    split; [split; [done|congruence|congruence]|]. split; [done|]. split; congruence.
Qed.

(** A datagram that is unpacked as a whole. *)
Lemma handled i dest id n r ts s o rb tb src c from bytes x env : spare ->
  running i dest id n r ts s o rb tb src c -> Forall byte bytes -> 0 < zlen bytes <= kNetPacketMaxLen ->
  parses (stunProtocolUnpackBindingResponse (env_header env) (env_response env)) bytes x ->
  exists p k s', (datagram_event (Some (from, bytes)) ;; deliver_packet 0 ;; run_first env) c =
      respond_to i p id x (client r ts s' [] (n_blocks c) (n_sources c)) /\
    p <> 0 /\ s_packets s' !! p = Some k /\ pk_addr k = from /\ s_packets s' !! o = s_packets s !! o /\
    rests s' (p :: o :: held) /\ (p ∉ o :: held) /\ s_receiver s' = s_receiver s /\ s_wire s' = s_wire s.
Proof.
  intros Sp R By Hz Hx. destruct (handled_prefix i dest id n r ts s o rb tb src c from bytes bytes x env Sp R By Hz ltac:(done) Hx)
    as (p & k & s' & E & Hp & Ek & (Ka & _) & H). by exists p, k, s'.
Qed.

(** An answer to the request. *)
Lemma answered i dest id n r ts s o rb tb src c from bytes reply env : spare ->
  running i dest id n r ts s o rb tb src c -> Forall byte bytes -> 0 < zlen bytes <= kNetPacketMaxLen ->
  parses (stunProtocolUnpackBindingResponse (env_header env) (env_response env)) bytes (kStunValid, id, reply) ->
  exists ts' s' c', (datagram_event (Some (from, bytes)) ;; deliver_packet 0 ;; run_first env) c = Done (tt, c') /\
    ended i (response_of i config from reply r) ts' s' ts s c'.
Proof.
  intros Sp R By Hz Hx. destruct (handled i dest id n r ts s o rb tb src c from bytes _ env Sp R By Hz Hx)
    as (p & k & s1 & E1 & Hp & Ek & Ka & _ & [H1 B1 D1] & _ & R1 & W1).
  destruct R as [Ec Et (Ho & Hrb & Htb & Hs) (Frb & Ftb & Hne) Fs _ _ _].
  rewrite E1, Ec. cbn [client n_blocks n_sources]. unfold respond_to. rewrite Z.eqb_refl.
  step (destroy_timer i r ts s1 [] _ others src _ _ ltac:(by rewrite Et) Hs Fs). rewrite Et.
  unfold stunIsEqualTransactionId. rewrite bool_decide_true by done.
  step (on_socket_result (get_packet p) r _ s1 [] _ others k s1 (get_packet_done s1 p k Hp Ek)).
  rewrite ?bind_assoc, bind_get. cbn [client n_config]. rewrite Ka.
  step (on_results_result _ r _ s1 [] _ others). set (ts1 := put_test i _ ts).
  assert (Et1 : test_of i ts1 = mkTest false id o rb n (mkTimeout src false) tb) by apply test_put.
  assert (H1' : socket_holds s1 (o :: p :: held) []).
  { apply (holds_move s1 _ (p :: o :: held) [] _ [] H1); [done|done|by solve_Permutation|apply H1|done]. }
  destruct (complete_result i id o rb n src tb (response_of i config from reply r) ts1 s1 [] (p :: held) Et1 Ho Hrb Htb Frb Ftb Hne H1')
    as (ts2 & s2 & E2 & C2 & T2 & _ & Q2 & _ & H2).
  step E2. destruct (release_holds s2 p held [] H2) as (s3 & E3 & Q3 & _ & H3).
  rewrite (on_socket_result _ _ _ s2 _ _ _ tt s3 E3).
  eexists _, s3, _. split; [reflexivity|].
  assert (Q : same_queues s1 s3) by (by transitivity s2). destruct Q as [_ Qb Qd Qw _ Qr].
  split; [done|done| |split; [done|congruence|congruence]|congruence|congruence].
  intros j Hj. rewrite T2 by done. unfold ts1. by apply test_put_other.
Qed.

(** A valid response with another transaction id: the timer of the test is
    cancelled, and nothing else changes. *)
Lemma stray i dest id n r ts s o rb tb src c from bytes id' reply env : spare ->
  running i dest id n r ts s o rb tb src c -> Forall byte bytes -> 0 < zlen bytes <= kNetPacketMaxLen ->
  parses (stunProtocolUnpackBindingResponse (env_header env) (env_response env)) bytes (kStunValid, id', reply) -> id' <> id ->
  exists ts' s', (datagram_event (Some (from, bytes)) ;; deliver_packet 0 ;; run_first env) c =
      Done (tt, client r ts' s' [] (n_blocks c) others) /\
    isCompleted (test_of i ts') = false /\ (forall j, j <> i -> test_of j ts' = test_of j ts) /\
    rests s' (o :: held) /\ s_wire s' = s_wire s.
Proof.
  intros Sp R By Hz Hx Hid. destruct (handled i dest id n r ts s o rb tb src c from bytes _ env Sp R By Hz Hx)
    as (p & k & s1 & E1 & Hp & _ & _ & _ & [H1 B1 D1] & _ & R1 & W1).
  destruct R as [Ec Et (Ho & Hrb & Htb & Hs) _ Fs _ _ _].
  rewrite E1, Ec. cbn [client n_blocks n_sources]. unfold respond_to. rewrite Z.eqb_refl.
  step (destroy_timer i r ts s1 [] _ others src _ _ ltac:(by rewrite Et) Hs Fs). rewrite Et.
  unfold stunIsEqualTransactionId. rewrite bool_decide_false by congruence. rewrite bind_ret_l.
  destruct (release_holds s1 p (o :: held) [] H1) as (s2 & E2 & [_ Qb Qd Qw _ _] & _ & H2).
  rewrite (on_socket_result _ _ _ s1 _ _ _ tt s2 E2). eexists _, s2. split; [reflexivity|].
  split; [by rewrite test_put|]. split; [intros j Hj; by apply test_put_other|].
  split; [split; [done|congruence|congruence]|congruence].
Qed.

(** ** A test that is not answered *)

Lemma block_coded i tb : tb <> 0 -> coded_test (block_code i tb) = Some i.
Proof. intros Htb. unfold block_code. rewrite (proj2 (Z.eqb_neq tb 0)) by done. by destruct i. Qed.

Definition silenced (src : Z) (t : StunTest) : StunTest := with_timeout (mkTimeout src false) t.

Lemma timer_result i dest id n r ts s o rb tb src c : running i dest id n r ts s o rb tb src c ->
  timer_handler src c =
    Done (tt, client r (put_test i (silenced src (test_of i ts)) ts) s [TaskRetry i] (n_blocks c) others).
Proof.
  intros [-> Et (Ho & Hrb & Htb & Hs) _ Fs _ _ _]. cbn [client n_blocks].
  set (state := mkTimeoutState (mkTimeout src true) (<[src := mkSource 1 true (patience n) kLEEWAY 0 (block_code i tb)]> others)).
  destruct (fired_holds state others (patience n, 0, block_code i tb)) as (m & E1 & E2).
  { cbn. do 3 (split; [assumption || reflexivity|]). reflexivity. }
  unfold timer_handler, timer_block. set (c := client _ _ _ _ _ _).
  assert (E3 : timer_block src c = Done (Some i, client r ts s [TaskRetry i]
      (<[tb := TimeoutBlock i]> (<[rb := ReceiveBlock i]> apps)) m)).
  { unfold timer_block. change (timer_fires src (n_sources c)) with
      (timer_fires (timerDispatchSource (ts_timeout state)) (ts_sources state)). rewrite E1. cbn [snd fst].
    by rewrite block_coded. }
  rewrite (bind_done _ _ _ _ _ E3). apply on_timeout_result. rewrite Et. exact E2.
Qed.

Definition expire (i : StunTestId) (env : stun_env) : prog stun_client unit :=
  t <- get_test i ;;
  timer_handler (timerDispatchSource (test_timeout t)) ;;
  run_first env ;;
  on_socket (flush malloc_node).

Lemma carries_packed k dest bytes : carries k dest bytes -> packed k dest bytes.
Proof. by intros []. Qed.

Lemma retried i dest id n r ts s o rb tb src c env : spare -> id_ok id ->
  running i dest id n r ts s o rb tb src c -> n < config_maxRetries config -> 0 <= n -> config_maxRetries config < 2 ^ 32 ->
  exists ts' s' src' c', expire i env c = Done (tt, c') /\
    running i dest id (n + 1) r ts' s' o rb tb src' c' /\ (forall j, j <> i -> test_of j ts' = test_of j ts) /\
    s_wire s' = s_wire s ++ [(dest, enc_request i id)] /\ s_receiver s' = s_receiver s.
Proof.
  intros Sp Hid R Hn H0 Hm. pose proof (timer_result i dest id n r ts s o rb tb src c R) as Et0.
  destruct R as [-> Et (Ho & Hrb & Htb & Hs) (Frb & Ftb & Hne) Fs Rs (k & Ek & Ck) Hr].
  unfold expire. rewrite (bind_done _ _ _ _ _ (get_test_result i _ _ _ _ _ _)), Et. cbn [test_timeout timerDispatchSource].
  step Et0. cbn [client n_blocks]. rewrite Et.
  set (bl := <[tb := _]> _). change (silenced src _) with (mkTest false id o rb n (mkTimeout src false) tb). set (t1 := mkTest _ _ _ _ _ _ _).
  assert (E1 : exists ts' s' s'' src' k', run_first env (client r (put_test i t1 ts) s [TaskRetry i] bl others) =
      Done (tt, client r ts' s' [] bl (<[src' := mkSource 1 true (patience (n + 1)) kLEEWAY 0 (block_code i tb)]> others)) /\
    test_of i ts' = mkTest false id o rb (n + 1) (mkTimeout src' true) tb /\ src' <> 0 /\ others !! src' = None /\
    (forall j, j <> i -> test_of j ts' = test_of j ts) /\ flush malloc_node s' = Done (tt, s'') /\ rests s'' (o :: held) /\
    s_packets s'' !! o = Some k' /\ carries k' dest (enc_request i id) /\
    s_wire s'' = s_wire s ++ [(dest, enc_request i id)] /\ s_receiver s'' = s_receiver s).
  { rewrite run_task_result. cbn [perform]. unfold stunTestRetryOrFail.
    step (get_test_result i _ _ _ _ _ _). rewrite test_put. cbn [isCompleted t1 negb].
    step (destroy_no_timer i r (put_test i t1 ts) s [] bl others src ltac:(by rewrite test_put)).
    rewrite ?bind_assoc, bind_get. cbn [client n_config test_retries t1]. fold t1. rewrite (proj2 (Z.ltb_lt _ _)) by done.
    fold (client r (put_test i t1 ts) s [] bl others).
    step (on_test_result i _ _ _ _ _ _ _). rewrite test_put, put_put_test, u32_small by lia.
    change (with_retries (n + 1) t1) with (mkTest false id o rb (n + 1) (mkTimeout src false) tb). set (t2 := mkTest _ _ _ _ (n + 1) _ _).
    step (get_test_result i _ _ _ _ _ _). rewrite test_put. cbn [t2 test_timeoutBlock test_retries test_packet]. fold t2.
    destruct (create_timer i (n + 1) r (put_test i t2 ts) s [] bl tb src) as (E & Hs' & Fs'); [by rewrite test_put|done|].
    rewrite (proj2 (Z.eqb_neq (n + 1) 0)) in E by lia. set (src' := source_create others) in *.
    step E. rewrite test_put, put_put_test.
    pose proof (zlen_enc_request i id Hid) as Hz.
    destruct (send_flush s o k dest _ Rs Ek (carries_packed _ _ _ Ck)) as (s1 & s2 & E6 & E7 & R6 & (k' & Ek' & Ck') & W6 & I6);
      [unfold kNetPacketMaxLen; lia|apply Sp|].
    rewrite (on_socket_result _ r _ s _ _ _ tt s1 E6).
    eexists _, s1, s2, src', k'. split; [reflexivity|]. split; [by rewrite test_put|]. do 2 (split; [done|]).
    split; [intros j Hj; by apply test_put_other|done]. }
  destruct E1 as (ts' & s' & s'' & src' & k' & E1 & T1 & Hs' & Fs' & Tj & E7 & R7 & Ek' & Ck' & W7 & I7).
  step E1. rewrite (on_socket_result _ r ts' s' _ _ _ tt s'' E7).
  exists ts', s'', src', (client r ts' s'' [] bl (<[src' := mkSource 1 true (patience (n + 1)) kLEEWAY 0 (block_code i tb)]> others)).
  split; [done|]. split; [|done].
  split; [done|done|done|done|done|done|by exists k'|by rewrite I7].
Qed.

Lemma flush_rests s owners : rests s owners ->
  exists s', flush malloc_node s = Done (tt, s') /\ rests s' owners /\ s_wire s' = s_wire s /\ s_receiver s' = s_receiver s.
Proof.
  intros [Hs Hb Hd]. destruct (flush_holds malloc_node malloc_node_fresh malloc_node_some s owners [] Hs)
    as (s' & E & H & B & _ & W & _ & D & R).
  exists s'. split; [done|]. rewrite Hb in W. cbn in W. rewrite app_nil_r in W. split; [split; [done|done|congruence]|done].
Qed.

(** The last timer of a test: it fails. *)
Lemma failed i dest id n r ts s o rb tb src c env : running i dest id n r ts s o rb tb src c -> config_maxRetries config <= n ->
  exists ts' s' c', expire i env c = Done (tt, c') /\ ended i (failure_of i r) ts' s' ts s c'.
Proof.
  intros R Hn. pose proof (timer_result i dest id n r ts s o rb tb src c R) as Et0.
  destruct R as [-> Et (Ho & Hrb & Htb & Hs) (Frb & Ftb & Hne) Fs [Rs Rb Rd] _ _].
  unfold expire. rewrite (bind_done _ _ _ _ _ (get_test_result i _ _ _ _ _ _)), Et. cbn [test_timeout timerDispatchSource].
  step Et0. cbn [client n_blocks]. rewrite Et.
  change (silenced src _) with (mkTest false id o rb n (mkTimeout src false) tb). set (t1 := mkTest _ _ _ _ _ _ _).
  assert (Et1 : test_of i (put_test i t1 ts) = t1) by apply test_put.
  destruct (complete_result i id o rb n src tb (failure_of i r) (put_test i t1 ts) s [] held Et1 Ho Hrb Htb Frb Ftb Hne Rs)
    as (ts2 & s2 & E2 & C2 & T2 & _ & [_ Qb Qd Qw _ Qr] & _ & H2).
  assert (R2 : rests s2 held) by (split; [done|congruence|congruence]).
  destruct (flush_rests s2 held R2) as (s3 & E3 & R3 & W3 & I3).
  set (bl := <[tb := _]> _) in *.
  assert (E1 : run_first env (client r (put_test i t1 ts) s [TaskRetry i] bl others) =
    Done (tt, client (failure_of i r) ts2 s2 [TaskNext i] apps others)).
  { rewrite run_task_result. cbn [perform]. unfold stunTestRetryOrFail.
    step (get_test_result i _ _ _ _ _ _). rewrite Et1. cbn [isCompleted t1 negb].
    step (destroy_no_timer i r (put_test i t1 ts) s [] bl others src ltac:(by rewrite test_put)).
    rewrite ?bind_assoc, bind_get. cbn [client n_config test_retries t1]. fold t1. rewrite (proj2 (Z.ltb_ge _ _)) by done.
    fold (client r (put_test i t1 ts) s [] bl others). step (on_results_result (failure_of i) r _ s [] bl others). exact E2. }
  step E1. rewrite (on_socket_result _ _ ts2 s2 _ _ _ tt s3 E3).
  eexists ts2, s3, _. split; [reflexivity|].
  split; [done|done| |done|congruence|congruence].
  intros j Hj. rewrite T2 by done. by apply test_put_other.
Qed.

End Test.
