(* ===== verification/StunRun.v ===== *)
(** * Resolving with a STUN server

    The whole sequence of the five tests against the replies of the network,
    the results it ends in, and what they say of a NAT. *)
From S2P Require Import Prelude Bitstream Wire Fields BitstreamSpec Net Protocol StunProtocol StunProtocolSpec.
From S2P Require Import Queue Pool NetSocket NetSocketSpec Timeout Stun StunSpec.

(** ** The results, from the replies alone *)

(** What comes back to the request of a test. *)
Inductive reply :=
| Replied (from : net_addr_t) (response : StunBindingResponse)
| NoReply.

(** A test is skipped with these results, or sends its request to this
    address. *)
Definition plan (i : StunTestId) (config : StunConfig) (r : StunResults) : StunResults + net_addr_t :=
  match i with
  | BindingTest1 => inr (primaryServerAddr config)
  | BehaviorTest1 =>
      if didBindingTestSuccess r && isMappingDirect r then
        inl (with_didBehaviorTestSuccess true (with_natBehavior DirectMapping r))
      else if negb (hasOtherServerAddress r) then inl (with_didBehaviorTestSuccess false r)
      else inr (otherServerPrimaryPortAddr r)
  | BehaviorTest2 =>
      if didBehaviorTestSuccess r then inl r
      else if negb (net_addr_is_valid (mappedOtherServerPrimaryPortAddr r)) then inl (with_didBehaviorTestSuccess false r)
      else inr (otherServerAddr r)
  | FilteringTest1 =>
      if didBindingTestSuccess r && isMappingDirect r then
        inl (with_didFilteringTestSuccess true (with_natFiltering EndpointIndependentFiltering r))
      else if negb (hasOtherServerAddress r) then inl (with_didFilteringTestSuccess false r)
      else inr (primaryServerAddr config)
  | FilteringTest2 =>
      if didFilteringTestSuccess r then inl r
      else if negb (hasOtherServerAddress r) then inl (with_didFilteringTestSuccess false r)
      else inr (primaryServerAddr config)
  end.

Section Results.
Context {order : Host}.

Definition next_results (config : StunConfig) (replies : StunTestId -> reply) (r : StunResults) (i : StunTestId) : StunResults :=
  match plan i config r with
  | inl r' => r'
  | inr _ =>
      match replies i with
      | Replied from x => response_of i config from x r
      | NoReply => failure_of i r
      end
  end.

Definition all_tests : list StunTestId := [BindingTest1; BehaviorTest1; BehaviorTest2; FilteringTest1; FilteringTest2].

Definition final_results (config : StunConfig) (replies : StunTestId -> reply) (r : StunResults) : StunResults :=
  fold_left (next_results config replies) all_tests r.

(** The requests of a test, each with its address. *)
Definition requests (config : StunConfig) (replies : StunTestId -> reply) (ids : StunTestId -> list Z) (r : StunResults)
    (i : StunTestId) : list (net_addr_t * list Z) :=
  match plan i config r with
  | inl _ => []
  | inr dest =>
      replicate (match replies i with Replied _ _ => 1 | NoReply => 3 end) (dest, enc_request i (ids i))
  end.

Fixpoint all_requests (config : StunConfig) (replies : StunTestId -> reply) (ids : StunTestId -> list Z) (r : StunResults)
    (tests : list StunTestId) : list (net_addr_t * list Z) :=
  match tests with
  | [] => []
  | i :: tests' => requests config replies ids r i ++ all_requests config replies ids (next_results config replies r i) tests'
  end.

End Results.

(** ** The run *)

(** The network: a datagram for each request, or nothing. *)
Inductive network :=
| Answered (from : net_addr_t) (bytes : list Z)
| Silent.

Section Run.
Context {order : Host}.
Context (block_alloc : gmap Z stun_block -> Z).
Context (source_create : gmap Z source -> Z).
Context (rand : Z -> nat -> Z).
Context (application_block : Z -> Z -> prog net_socket_s unit).
Context (application_callback : Z -> Z -> Z -> prog net_socket_s unit).
Context (malloc_node : gmap Z queue_node_s -> option (Z * queue_node_s)).
Hypothesis block_fresh : fresh_address block_alloc.
Hypothesis source_fresh : fresh_address source_create.
Hypothesis malloc_node_fresh : malloc_fresh malloc_node.
Hypothesis malloc_node_some : forall h, malloc_node h <> None.

(** What happens to a test that waits. *)
Definition attend (i : StunTestId) (net : network) (env : stun_env) : prog stun_client unit :=
  match net with
  | Answered from bytes =>
      datagram_event (Some (from, bytes)) ;;
      deliver application_block application_callback 0 ;;
      run_task block_alloc source_create rand application_block application_callback env
  | Silent =>
      let expire := expire block_alloc source_create rand application_block application_callback malloc_node i env in
      expire ;; expire ;; expire
  end.

(** A test, from the task that starts it. *)
Definition run_test (net : StunTestId -> network) (env : StunTestId -> stun_env) (i : StunTestId) : prog stun_client unit :=
  run_task block_alloc source_create rand application_block application_callback (env i) ;;
  on_socket (flush malloc_node) ;;
  t <- get_test i ;;
  if isCompleted t then ret tt else attend i (net i) (env i).

Fixpoint run_tests (net : StunTestId -> network) (env : StunTestId -> stun_env) (tests : list StunTestId) : prog stun_client unit :=
  match tests with
  | [] => ret tt
  | i :: tests' => run_test net env i ;; run_tests net env tests'
  end.

(** [stunResolve], and all that follows. *)
Definition resolve (net : StunTestId -> network) (env : StunTestId -> stun_env) (last : stun_env) : prog stun_client unit :=
  stunResolve ;;
  run_tests net env all_tests ;;
  run_task block_alloc source_create rand application_block application_callback last.

(** The datagram is a valid response to this request. *)
Definition understood (env : stun_env) (id : list Z) (net : network) (x : reply) : Prop :=
  match net, x with
  | Answered from bytes, Replied from' response =>
      from' = from /\ Forall byte bytes /\ 0 < zlen bytes <= kNetPacketMaxLen /\
      parses (stunProtocolUnpackBindingResponse (env_header env) (env_response env)) bytes (kStunValid, id, response)
  | Silent, NoReply => True
  | _, _ => False
  end.

Section One.
Context (held : list Z) (did : bool) (config : StunConfig) (ev : list stun_event) (apps : gmap Z stun_block) (others : gmap Z source).
Hypothesis retries : config_maxRetries config = 2.
Hypothesis room : spare held.

Abbreviation client := (client did config ev).
Abbreviation run_first := (run_task block_alloc source_create rand application_block application_callback).
Abbreviation running := (running held apps others did config ev).
Abbreviation ended := (ended held apps others did config ev).

(** A test that waits is answered, or fails after three timers. *)
Lemma attend_holds i dest id r ts s o rb tb src c net env x : id_ok id ->
  running i dest id 0 r ts s o rb tb src c -> understood env id net x ->
  exists ts' s' c', attend i net env c = Done (tt, c') /\
    c' = client (match x with Replied from y => response_of i config from y r | NoReply => failure_of i r end) ts' s'
      [TaskNext i] apps others /\ isCompleted (test_of i ts') = true /\
    (forall j, j <> i -> test_of j ts' = test_of j ts) /\ rests s' held /\ s_receiver s' = s_receiver s /\
    s_wire s' = s_wire s ++ (match x with Replied _ _ => [] | NoReply => replicate 2 (dest, enc_request i id) end).
Proof.
  intros Hid R U. destruct net as [from bytes|], x as [from' y|]; try done.
  - destruct U as (-> & By & Hz & Hx).
    destruct (answered block_alloc source_create rand application_block application_callback held apps others did config ev
      i dest id 0 r ts s o rb tb src c from bytes y env room R By Hz Hx) as (ts' & s' & c' & E & [Es Ed Et Er Ew Ei]).
    exists ts', s', c'. rewrite app_nil_r. split; [exact E|done].
  - unfold attend. cbv zeta.
    destruct (retried block_alloc source_create rand application_block application_callback malloc_node
      source_fresh malloc_node_fresh malloc_node_some held apps others did config ev
      i dest id 0 r ts s o rb tb src c env room Hid R) as (ts1 & s1 & src1 & c1 & E1 & R1 & T1 & W1 & I1); [lia..|].
    destruct (retried block_alloc source_create rand application_block application_callback malloc_node
      source_fresh malloc_node_fresh malloc_node_some held apps others did config ev
      i dest id 1 r ts1 s1 o rb tb src1 c1 env room Hid R1) as (ts2 & s2 & src2 & c2 & E2 & R2 & T2 & W2 & I2); [lia..|].
    destruct (failed block_alloc source_create rand application_block application_callback malloc_node
      malloc_node_fresh malloc_node_some held apps others did config ev
      i dest id 2 r ts2 s2 o rb tb src2 c2 env R2) as (ts' & s' & c' & E3 & [Es Ed Et Er Ew Ei]); [lia|].
    exists ts', s', c'. rewrite (bind_done _ _ _ _ _ E1), (bind_done _ _ _ _ _ E2). split; [done|]. split; [done|]. split; [done|].
    split; [intros j Hj; by rewrite Et, T2, T1|]. split; [done|]. split; [congruence|].
    rewrite Ew, W2, W1, <- app_assoc. done.
Qed.

(** A test that is skipped is complete at once. *)
Lemma skipped i r ts s q : test_of i ts = blank_test ->
  stunTestSetComplete i (client r ts s q apps others) =
    Done (tt, client r (put_test i (with_isCompleted true blank_test) ts) s (q ++ [TaskNext i]) apps others).
Proof.
  intros Et. unfold stunTestSetComplete, stunTestRelease.
  step (destroy_no_timer did config ev i r ts s q apps others 0 ltac:(by rewrite Et)).
  step (get_test_result did config ev i r ts s q apps others). rewrite Et. cbn [blank_test test_receiveBlock test_timeoutBlock test_packet Z.eqb negb].
  repeat (rewrite bind_assoc || rewrite bind_ret_l). step (on_test_result did config ev i (with_isCompleted true) r ts s q apps others). by rewrite Et.
Qed.

(** The task that starts a test. *)
Definition starting (i : StunTestId) : stun_task :=
  match i with
  | BindingTest1 => TaskResolve
  | BehaviorTest1 => TaskNext BindingTest1
  | BehaviorTest2 => TaskNext BehaviorTest1
  | FilteringTest1 => TaskNext BehaviorTest2
  | FilteringTest2 => TaskNext FilteringTest1
  end.

Lemma start_holds i env r ts s : i <> BindingTest1 ->
  run_first env (client r ts s [starting i] apps others) =
    match plan i config r with
    | inl r' => Done (tt, client r' (put_test i (with_isCompleted true blank_test) ts) s [TaskNext i] apps others)
    | inr dest =>
        start_request block_alloc source_create rand i dest (ret tt) (pack_request i) env
          (client r (put_test i blank_test ts) s [] apps others)
    end.
Proof.
  intros Hi. assert (Sk : forall r', stunTestSetComplete i (client r' (put_test i blank_test ts) s [] apps others) =
    Done (tt, client r' (put_test i (with_isCompleted true blank_test) ts) s [TaskNext i] apps others)).
  { intros r'. rewrite skipped by apply test_put. by rewrite put_put_test. }
  unfold starting. destruct i; try done; unfold run_task; rewrite bind_get; cbn [client n_queue];
    rewrite bind_modify; cbn beta iota; cbn [put_queue n_didResolve n_results n_config n_tests n_socket n_kinds n_queue n_blocks n_sources n_events run_next].
  - unfold stunTestStartBehavior1. step (on_test_result did config ev BehaviorTest1 _ r ts s [] apps others).
    rewrite bind_get. cbn [client n_results plan]. destruct (_ && _); [exact (Sk _)|]. destruct (negb _); [exact (Sk _)|done].
  - unfold stunTestStartBehavior2. step (on_test_result did config ev BehaviorTest2 _ r ts s [] apps others).
    rewrite bind_get. cbn [client n_results plan]. destruct (didBehaviorTestSuccess r); [exact (Sk _)|].
    destruct (negb _); [exact (Sk _)|done].
  - unfold stunTestStartFiltering1. step (on_test_result did config ev FilteringTest1 _ r ts s [] apps others).
    rewrite bind_get. cbn [client n_results n_config plan]. destruct (_ && _); [exact (Sk _)|]. destruct (negb _); [exact (Sk _)|done].
  - unfold stunTestStartFiltering2. step (on_test_result did config ev FilteringTest2 _ r ts s [] apps others).
    rewrite bind_get. cbn [client n_results n_config plan]. destruct (didFilteringTestSuccess r); [exact (Sk _)|].
    destruct (negb _); [exact (Sk _)|done].
Qed.

(** The request of a test that starts, and what becomes of it. *)
Lemma asked_holds i dest before env net x r r' ts s : rests s held -> test_of i ts = blank_test ->
  (forall ts s1, s_sockaddr s1 = s_sockaddr s ->
    before (client r ts s1 [] apps others) = Done (tt, client r' ts s1 [] apps others)) ->
  understood env (fresh_id rand env) net x ->
  exists ts' s' rb, (start_request block_alloc source_create rand i dest before (pack_request i) env ;;
      on_socket (flush malloc_node) ;; t <- get_test i ;; if isCompleted t then ret tt else attend i net env)
      (client r ts s [] apps others) =
    Done (tt, client (match x with Replied from y => response_of i config from y r' | NoReply => failure_of i r' end) ts' s'
      [TaskNext i] apps others) /\
    rests s' held /\ s_receiver s' = mkInfo (receiveCallback (s_receiver s)) (receiveCallbackContext (s_receiver s)) rb /\
    rb <> 0 /\ apps !! rb = None /\
    s_wire s' = s_wire s ++ replicate (match x with Replied _ _ => 1 | NoReply => 3 end) (dest, enc_request i (fresh_id rand env)).
Proof.
  intros R Bt Hb U. destruct (start_running block_alloc source_create rand application_block application_callback malloc_node block_fresh source_fresh
    malloc_node_fresh malloc_node_some held apps others did config ev i dest before env r r' ts s room R Bt Hb)
    as (ts1 & s1 & o & rb & tb & src & c1 & E1 & R1 & T1 & W1 & I1).
  destruct (attend_holds i dest (fresh_id rand env) r' ts1 s1 o rb tb src c1 net env x (generated_id _ _) R1 U)
    as (ts2 & s2 & c2 & E2 & -> & C2 & T2 & R2 & I2 & W2).
  rewrite <- bind_assoc, (bind_done _ _ _ _ _ E1). pose proof R1 as [Ec Et (_ & Hrb & _) (Frb & _) _ _ _ _].
  assert (Eg : get_test i c1 = Done (test_of i ts1, c1)) by (rewrite Ec; done).
  rewrite (bind_done _ _ _ _ _ Eg), Et. cbn [isCompleted].
  exists ts2, s2, rb. split; [exact E2|]. split; [done|]. split; [congruence|]. split; [done|]. split; [done|].
  rewrite W2, W1, <- app_assoc. by destruct x.
Qed.

(** A test other than the first. *)
Lemma test_holds i net env x r ts s : i <> BindingTest1 -> rests s held -> understood (env i) (fresh_id rand (env i)) (net i) (x i) ->
  exists ts' s', run_test net env i (client r ts s [starting i] apps others) =
      Done (tt, client (next_results config x r i) ts' s' [TaskNext i] apps others) /\ rests s' held /\
    receiveCallback (s_receiver s') = receiveCallback (s_receiver s) /\
    receiveCallbackContext (s_receiver s') = receiveCallbackContext (s_receiver s) /\
    (receiveBlock (s_receiver s') = receiveBlock (s_receiver s) \/
     receiveBlock (s_receiver s') <> 0 /\ apps !! receiveBlock (s_receiver s') = None) /\
    s_wire s' = s_wire s ++ requests config x (fun i => fresh_id rand (env i)) r i.
Proof.
  intros Hi R U. unfold run_test, next_results, requests. pose proof (start_holds i (env i) r ts s Hi) as E.
  destruct (plan i config r) as [r'|dest].
  - rewrite (bind_done _ _ _ _ _ E).
    destruct (flush_rests malloc_node malloc_node_fresh malloc_node_some s held R) as (s1 & E1 & R1 & W1 & I1).
    step (on_socket_result did config ev (flush malloc_node) r' (put_test i (with_isCompleted true blank_test) ts) s [TaskNext i] apps others tt s1 E1).
    step (get_test_result did config ev i r' (put_test i (with_isCompleted true blank_test) ts) s1 [TaskNext i] apps others). rewrite test_put. cbn [isCompleted with_isCompleted].
    eexists _, s1. split; [reflexivity|]. rewrite I1, app_nil_r. split; [done|]. split; [done|]. split; [done|]. split; [by left|done].
  - destruct (asked_holds i dest (ret tt) (env i) (net i) (x i) r r (put_test i blank_test ts) s R (test_put _ _ _)
      ltac:(done) U) as (ts' & s' & rb & E' & R' & I' & Hrb & Frb & W').
    exists ts', s'. split; [rewrite <- E'; unfold bind at 1 5; by rewrite E|]. rewrite I'. cbn. split; [done|]. split; [done|]. split; [done|].
    split; [by right|done].
Qed.

(** The receive block of a test that is gone. *)
Definition dangles (s : net_socket_s) : Prop :=
  receiveBlock (s_receiver s) <> 0 /\ apps !! receiveBlock (s_receiver s) = None.

Definition same_callback (s s' : net_socket_s) : Prop :=
  receiveCallback (s_receiver s') = receiveCallback (s_receiver s) /\
  receiveCallbackContext (s_receiver s') = receiveCallbackContext (s_receiver s).

(** Each test dispatches the task that starts the next one. *)
Fixpoint chained (q : stun_task) (tests : list StunTestId) : Prop :=
  match tests with
  | [] => True
  | i :: tests' => q = starting i /\ i <> BindingTest1 /\ chained (TaskNext i) tests'
  end.

Lemma tests_hold net env x tests : (forall i, understood (env i) (fresh_id rand (env i)) (net i) (x i)) ->
  forall q r ts s, chained q tests -> rests s held -> dangles s ->
  exists ts' s', run_tests net env tests (client r ts s [q] apps others) =
      Done (tt, client (fold_left (next_results config x) tests r) ts' s' [fold_left (fun _ i => TaskNext i) tests q] apps others) /\
    rests s' held /\ dangles s' /\ same_callback s s' /\
    s_wire s' = s_wire s ++ all_requests config x (fun i => fresh_id rand (env i)) r tests.
Proof.
  intros U. induction tests as [|i tests IH]; intros q r ts s Hq R D.
  { exists ts, s. cbn. by rewrite app_nil_r. }
  destruct Hq as (-> & Hi & Hq). cbn [run_tests fold_left all_requests].
  destruct (test_holds i net env x r ts s Hi R (U i)) as (ts1 & s1 & E1 & R1 & C1 & X1 & B1 & W1).
  assert (D1 : dangles s1) by (destruct B1 as [B1|B1]; [unfold dangles; by rewrite B1|done]).
  destruct (IH _ (next_results config x r i) ts1 s1 Hq R1 D1) as (ts2 & s2 & E2 & R2 & D2 & [C2 X2] & W2).
  rewrite (bind_done _ _ _ _ _ E1). exists ts2, s2. split; [exact E2|]. split; [done|]. split; [done|].
  split; [split; congruence|]. by rewrite W2, W1, <- app_assoc.
Qed.

End One.

(** The configuration once the name of the server is resolved. *)
Definition resolved_config (info : net_socket_info) (addr : net_addr_t) (config : StunConfig) : StunConfig :=
  with_socket_info info (with_primaryServerAddr addr config).

(** The name of the server is resolved to [addr]. *)
Definition server_found (config : StunConfig) (env : stun_env) (addr : net_addr_t) : Prop :=
  exists n, strlen (primaryServerHostname config) = Done n /\
    net_addr_resolve (env_gai env (take (Z.to_nat n) (primaryServerHostname config))) (primaryServerAddr config)
      kStunServerDefaultPort = (NetNoError, addr).

Lemma bind_equal {S A B} (m : prog S A) (k : A -> prog S B) s o : m s = o ->
  bind m k s = match o with Done (a, s') => k a s' | Fault f => Fault f end.
Proof. by intros <-. Qed.

Lemma binding_start held did config ev apps others env r ts s addr : server_found config env addr -> rests s held ->
  run_task block_alloc source_create rand application_block application_callback env (client did config ev r ts s [TaskResolve] apps others) =
  start_request block_alloc source_create rand BindingTest1 addr
    (c <- get ;; on_results (fun r => with_localAddr (net_socket_local_addr (env_ifs env) (localAddr r) (n_socket c)) r))
    (pack_request BindingTest1) env
    (client did (resolved_config (s_receiver s) addr config) ev r (put_test BindingTest1 blank_test ts) s [] apps others).
Proof.
  intros (n & En & Ea) _. unfold run_task. rewrite bind_get. cbn [client n_queue]. rewrite bind_modify. cbn beta iota.
  unfold run_resolve. rewrite bind_get. unfold bind at 1, lift. cbn [client put_queue n_config]. rewrite En. cbn [client n_config].
  rewrite Ea. unfold on_config at 1. rewrite bind_modify. rewrite decide_True by done.
  assert (Ei : forall c, on_socket net_socket_copy_info c = Done (s_receiver (n_socket c), c)) by (by intros []).
  rewrite (bind_done _ _ _ _ _ (Ei _)). unfold on_config. rewrite bind_modify. unfold stunTestStartBasicBinding.
  unfold on_test at 1. rewrite bind_modify, bind_get. done.
Qed.

Lemma binding_holds held did config ev apps others net env x r ts s addr : config_maxRetries config = 2 -> spare held ->
  rests s held -> server_found config (env BindingTest1) addr ->
  understood (env BindingTest1) (fresh_id rand (env BindingTest1)) (net BindingTest1) (x BindingTest1) ->
  let config' := resolved_config (s_receiver s) addr config in
  let r' := with_localAddr (net_socket_local_addr (env_ifs (env BindingTest1)) (localAddr r) s) r in
  exists ts' s', run_test net env BindingTest1 (client did config ev r ts s [TaskResolve] apps others) =
      Done (tt, client did config' ev (next_results config' x r' BindingTest1) ts' s' [TaskNext BindingTest1] apps others) /\
    rests s' held /\ dangles apps s' /\ same_callback s s' /\
    s_wire s' = s_wire s ++ requests config' x (fun i => fresh_id rand (env i)) r' BindingTest1.
Proof.
  intros Hm Sp R F U config' r'.
  set (before := (c <- get ;; on_results (fun r => with_localAddr (net_socket_local_addr (env_ifs (env BindingTest1)) (localAddr r) (n_socket c)) r))).
  assert (Hb : forall ts s1, s_sockaddr s1 = s_sockaddr s ->
    before (client did config' ev r ts s1 [] apps others) = Done (tt, client did config' ev r' ts s1 [] apps others)).
  { intros ts1 s1 Es. unfold before. rewrite bind_get. unfold on_results, modify. cbn. unfold r', net_socket_local_addr. by rewrite Es. }
  destruct (asked_holds held did config' ev apps others Hm Sp BindingTest1 addr before (env BindingTest1) (net BindingTest1)
    (x BindingTest1) r r' (put_test BindingTest1 blank_test ts) s R (test_put _ _ _) Hb U)
    as (ts1 & s1 & rb & E1 & R1 & I1 & Hrb & Frb & W1).
  exists ts1, s1. split.
  - unfold next_results. cbn [plan]. rewrite <- E1. unfold run_test. apply bind_equal.
    by apply (binding_start held).
  - unfold dangles, same_callback, requests. rewrite I1. cbn [plan receiveBlock receiveCallback receiveCallbackContext]. done.
Qed.

Lemma last_holds did config ev apps others env r ts s :
  run_task block_alloc source_create rand application_block application_callback env
    (client did config ev r ts s [TaskNext FilteringTest2] apps others) =
  Done (tt, if didBindingTestSuccess r
    then client true config (ev ++ [EventDidResolve]) r ts (set_info (socket_info config) s) [] apps others
    else client did config (ev ++ [EventDidFailResolve]) r ts s [] apps others).
Proof. unfold run_task, run_next, bind, get, modify. cbn. by destruct (didBindingTestSuccess r). Qed.

(** What a client needs to resolve. *)
Record resolves (c : stun_client) (held : list Z) (addr : net_addr_t) (env : stun_env) : Prop := {
  rv_socket : rests (n_socket c) held;
  rv_kinds : n_kinds c = [];
  rv_queue : n_queue c = [];
  rv_spare : spare held;
  rv_retries : config_maxRetries (n_config c) = kStunDefaultRetries;
  rv_server : server_found (n_config c) env addr;
}.

(** The local address, as the first test finds it. *)
Definition located (env : stun_env) (s : net_socket_s) (r : StunResults) : StunResults :=
  with_localAddr (net_socket_local_addr (env_ifs env) (localAddr r) s) r.

(** The client, from [stunResolve] to the first test, which waits. *)
Definition ask (env : stun_env) : prog stun_client unit :=
  stunResolve ;;
  run_task block_alloc source_create rand application_block application_callback env ;;
  on_socket (flush malloc_node).

Lemma binding_waits c held env addr : resolves c held addr env ->
  exists ts s o rb tb src c', ask env c = Done (tt, c') /\
    running held (n_blocks c) (n_sources c) (n_didResolve c) (resolved_config (s_receiver (n_socket c)) addr (n_config c)) (n_events c)
      BindingTest1 addr (fresh_id rand env) 0 (located env (n_socket c) (n_results c)) ts s o rb tb src c'.
Proof.
  intros [Rs Rk Rq Sp Rt Rf]. destruct c as [did results config0 ts s kinds q apps others ev].
  cbn [n_socket n_kinds n_queue n_config n_results n_events n_didResolve n_blocks n_sources] in *. subst kinds q.
  set (config := resolved_config (s_receiver s) addr config0). set (r' := located env s results).
  set (before := (c <- get ;; on_results (fun r => with_localAddr (net_socket_local_addr (env_ifs env) (localAddr r) (n_socket c)) r))).
  assert (Hb : forall ts s1, s_sockaddr s1 = s_sockaddr s ->
    before (client did config ev results ts s1 [] apps others) = Done (tt, client did config ev r' ts s1 [] apps others)).
  { intros ts1 s1 Es. unfold before. rewrite bind_get. unfold on_results, modify. cbn. unfold r', located, net_socket_local_addr. by rewrite Es. }
  destruct (start_running block_alloc source_create rand application_block application_callback malloc_node block_fresh source_fresh
    malloc_node_fresh malloc_node_some held apps others did config ev BindingTest1 addr before env results r'
    (put_test BindingTest1 blank_test ts) s Sp Rs (test_put _ _ _) Hb) as (ts1 & s1 & o & rb & tb & src & c1 & E1 & R1 & _).
  exists ts1, s1, o, rb, tb, src, c1. split; [|exact R1].
  unfold ask, stunResolve, dispatch_async. rewrite bind_modify. etransitivity; [|exact E1]. unfold bind at 1 2.
  change (put_queue _ _) with (client did config0 ev results ts s [TaskResolve] apps others).
  by rewrite (binding_start held did config0 ev apps others env results ts s addr Rf Rs).
Qed.

Lemma resolve_holds c held net env last x addr : resolves c held addr (env BindingTest1) ->
  (forall i, understood (env i) (fresh_id rand (env i)) (net i) (x i)) ->
  let config := resolved_config (s_receiver (n_socket c)) addr (n_config c) in
  let r0 := located (env BindingTest1) (n_socket c) (n_results c) in
  let r := final_results config x r0 in
  exists c', resolve net env last c = Done (tt, c') /\ n_results c' = r /\
    n_events c' = n_events c ++ [if didBindingTestSuccess r then EventDidResolve else EventDidFailResolve] /\
    n_didResolve c' = (if didBindingTestSuccess r then true else n_didResolve c) /\
    n_queue c' = [] /\ n_blocks c' = n_blocks c /\ n_sources c' = n_sources c /\ n_kinds c' = [] /\
    n_config c' = config /\ rests (n_socket c') held /\
    s_wire (n_socket c') = s_wire (n_socket c) ++
      all_requests config x (fun i => fresh_id rand (env i)) r0 all_tests /\
    (if didBindingTestSuccess r then s_receiver (n_socket c') = s_receiver (n_socket c)
     else dangles (n_blocks c) (n_socket c')) /\ same_callback (n_socket c) (n_socket c').
Proof.
  intros [Rs Rk Rq Sp Rt Rf] U config r0 r. destruct c as [did results config0 ts s kinds q apps others ev].
  cbn [n_socket n_kinds n_queue n_config n_results n_events n_didResolve n_blocks n_sources] in *. subst kinds q.
  destruct (binding_holds held did config0 ev apps others net env x results ts s addr Rt Sp Rs Rf (U BindingTest1))
    as (ts1 & s1 & E1 & R1 & D1 & [C1 X1] & W1). fold config in E1, W1. change (with_localAddr _ results) with r0 in E1, W1.
  destruct (tests_hold held did config ev apps others Rt Sp net env x [BehaviorTest1; BehaviorTest2; FilteringTest1; FilteringTest2] U
    (TaskNext BindingTest1) (next_results config x r0 BindingTest1) ts1 s1 ltac:(by repeat split) R1 D1) as (ts2 & s2 & E2 & R2 & D2 & [C2 X2] & W2).
  change (fold_left (next_results config x) _ _) with r in E2.
  assert (E : resolve net env last (client did config0 ev results ts s [] apps others) =
    run_task block_alloc source_create rand application_block application_callback last
      (client did config ev r ts2 s2 [TaskNext FilteringTest2] apps others)).
  { unfold resolve, stunResolve, dispatch_async. rewrite bind_modify.
    change (run_tests net env all_tests) with (run_test net env BindingTest1 ;;
      run_tests net env [BehaviorTest1; BehaviorTest2; FilteringTest1; FilteringTest2]).
    rewrite bind_assoc. etransitivity; [exact (bind_done _ _ _ _ _ E1)|]. by rewrite (bind_done _ _ _ _ _ E2). }
  rewrite last_holds in E. eexists. split; [exact E|].
  change (all_requests config x ?ids r0 all_tests) with (requests config x ids r0 BindingTest1 ++
    all_requests config x ids (next_results config x r0 BindingTest1) [BehaviorTest1; BehaviorTest2; FilteringTest1; FilteringTest2]).
  rewrite app_assoc, <- W1, <- W2. destruct R2 as [S2 B2 L2].
  destruct (didBindingTestSuccess r); cbn [client n_results n_events n_didResolve n_queue n_blocks n_sources n_kinds n_config n_socket];
    do 8 (split; [done|]); (split; [split; [by try apply holds_info|done|done]|]); split; try done.
  split; [done|]. split; congruence.
Qed.

End Run.
