(* ===== verification/StunReplies.v ===== *)
(** * The responses of a STUN server

    Binding responses as a server packs them, with any attributes in any
    order, and what the client makes of them. *)
From S2P Require Import Prelude Bitstream Wire Fields BitstreamSpec Net Protocol StunProtocol StunProtocolSpec.

(** The attributes the client knows, and one it does not. *)
Inductive stun_attribute :=
| AttrMapped (addr : net_addr_t)
| AttrXorMapped (addr : net_addr_t)
| AttrAlternateServer (addr : net_addr_t)
| AttrOtherAddress (addr : net_addr_t)
| AttrOrigin (addr : net_addr_t)
| AttrError (class number : Z)
| AttrUnknown (type : Z) (value : list Z).

Definition known_attribute (type : Z) : bool :=
  bool_decide (type ∈ [StunAttributeMappedAddress; StunAttributeXorMappedAddress; StunAttributeAlternateServer;
    StunAttributeOtherAddress; StunAttributeOriginServer; StunAttributeErrorCode]).

Definition attribute_ok (a : stun_attribute) : Prop :=
  match a with
  | AttrMapped addr | AttrXorMapped addr | AttrAlternateServer addr | AttrOtherAddress addr | AttrOrigin addr => addr_wf addr
  | AttrError class number => 0 <= class < 8 /\ 0 <= number < 256
  | AttrUnknown type value => uint_ok 2 type /\ known_attribute type = false /\ Forall byte value /\ zlen value < 2 ^ 16
  end.

(** What an attribute adds to the response; the error code is lost. *)
Definition attribute_effect (r : StunBindingResponse) (a : stun_attribute) : StunBindingResponse :=
  match a with
  | AttrMapped addr => set_mappedAddress true addr r
  | AttrXorMapped addr => set_xorMappedAddress true addr r
  | AttrAlternateServer addr | AttrOtherAddress addr => set_alternateServer true addr r
  | AttrOrigin addr => set_responseOrigin true addr r
  | AttrError _ _ => set_errorCode true 0 r
  | AttrUnknown _ _ => r
  end.

Section Replies.
Context {order : Host}.

Definition enc_address (addr : net_addr_t) : list Z :=
  enc_int U16 StunAddrFamilyIPv4 ++ enc_int U16 (net_addr_get_port addr) ++ enc_int U32 (net_addr_get_host addr).

Definition enc_xor_address (addr : net_addr_t) : list Z :=
  enc_int U16 StunAddrFamilyIPv4 ++ enc_int U16 (Z.lxor (net_addr_get_port addr) 0x2112) ++
  enc_int U32 (Z.lxor (net_addr_get_host addr) kStunProtocolMagicCookie).

Definition attribute_type (a : stun_attribute) : Z :=
  match a with
  | AttrMapped _ => StunAttributeMappedAddress
  | AttrXorMapped _ => StunAttributeXorMappedAddress
  | AttrAlternateServer _ => StunAttributeAlternateServer
  | AttrOtherAddress _ => StunAttributeOtherAddress
  | AttrOrigin _ => StunAttributeOriginServer
  | AttrError _ _ => StunAttributeErrorCode
  | AttrUnknown type _ => type
  end.

Definition enc_value (a : stun_attribute) : list Z :=
  match a with
  | AttrMapped addr | AttrAlternateServer addr | AttrOtherAddress addr | AttrOrigin addr => enc_address addr
  | AttrXorMapped addr => enc_xor_address addr
  | AttrError class number => enc_int U32 (class * 256 + number)
  | AttrUnknown _ value => value
  end.

Definition enc_attribute (a : stun_attribute) : list Z :=
  enc_int U16 (attribute_type a) ++ enc_int U16 (zlen (enc_value a)) ++ enc_value a.

(** A response of some class: success or error. *)
Definition enc_response (class : Z) (id : list Z) (attributes : list stun_attribute) : list Z :=
  enc_stun_header StunMsgTypeBinding class id (zlen (attributes ≫= enc_attribute)) ++ (attributes ≫= enc_attribute).

(** ** Addresses *)

Lemma addr_of_host addr : addr_wf addr -> net_addr_set (net_addr_get_host addr) (net_addr_get_port addr) true = addr.
Proof.
  intros [Hf Hp Hh]. unfold net_addr_set, net_addr_get_host, net_addr_get_port, ntohl, ntohs. destruct addr as [f p h].
  cbn in *. subst f. f_equal.
  - rewrite (u16_small (htons p)) by (pose proof (htons_range p) as R; unfold uint_ok in R; lia). by apply ntohs_htons.
  - rewrite (u32_small (htonl h)) by (pose proof (htonl_range h) as R; unfold uint_ok in R; lia). by apply ntohl_htonl.
Qed.

Lemma port_ok addr : uint_ok 2 (net_addr_get_port addr).
Proof. apply htons_range. Qed.

Lemma host_ok addr : uint_ok 4 (net_addr_get_host addr).
Proof. apply htonl_range. Qed.

Lemma address_parses addr a0 : addr_wf addr -> parses (stunProtocolUnpackAttributeAddr a0) (enc_address addr) (kStunValid, addr).
Proof.
  intros H. unfold stunProtocolUnpackAttributeAddr, enc_address.
  eapply parses_bind; [by apply u16_parses|]. rewrite Z.eqb_refl. cbn [negb].
  eapply parses_bind; [apply u16_parses, port_ok|]. rewrite <- (app_nil_r (enc_int U32 _)).
  eapply parses_bind; [apply u32_parses, host_ok|]. rewrite addr_of_host by done. apply parses_ret.
Qed.

Lemma xor_address_parses addr a0 : addr_wf addr ->
  parses (stunProtocolUnpackAttributeXorAddr a0) (enc_xor_address addr) (kStunValid, addr).
Proof.
  intros H. unfold stunProtocolUnpackAttributeXorAddr, enc_xor_address.
  eapply parses_bind; [by apply u16_parses|]. rewrite Z.eqb_refl. cbn [negb].
  eapply parses_bind; [apply u16_parses, lxor_ok; [lia|apply port_ok|by split]|]. rewrite <- (app_nil_r (enc_int U32 _)).
  eapply parses_bind; [apply u32_parses, lxor_ok; [lia|apply host_ok|by split]|].
  cbv zeta. change (Z.land (Z.shiftr kStunProtocolMagicCookie 16) 0xFFFF) with 0x2112.
  rewrite !Z.lxor_assoc, !Z.lxor_nilpotent, !Z.lxor_0_r.
  pose proof (port_ok addr) as Hp. pose proof (host_ok addr) as Hh. unfold uint_ok in Hp, Hh.
  rewrite (u16_small (net_addr_get_port addr)), (u32_small (net_addr_get_host addr)), addr_of_host by (lia || done). apply parses_ret.
Qed.

Lemma zlen_enc_address addr : zlen (enc_address addr) = 8 /\ zlen (enc_xor_address addr) = 8.
Proof. unfold enc_address, enc_xor_address. by rewrite !zlen_app, !zlen_enc_int. Qed.

(** ** Attributes *)

Lemma known_attribute_types type : known_attribute type = false ->
  Forall (fun t => type =? t = false) [StunAttributeMappedAddress; StunAttributeXorMappedAddress; StunAttributeAlternateServer;
    StunAttributeOtherAddress; StunAttributeOriginServer; StunAttributeErrorCode].
Proof.
  intros H%bool_decide_eq_false. apply Forall_forall. intros t Ht. apply Z.eqb_neq. by intros ->.
Qed.

Lemma skip_parses value : Forall byte value -> parses (bitstream_skip_bytes (zlen value)) value tt.
Proof.
  intros _ s W Hr _. rewrite skip_bytes_result by (done || apply zlen_nonneg). by rewrite (proj2 (Z.leb_le _ _)).
Qed.

Lemma attribute_parses a r : attribute_ok a ->
  parses (unpack_attribute (attribute_type a) (zlen (enc_value a)) r) (enc_value a) (inr (attribute_effect r a)).
Proof.
  intros Ok.
  assert (A : forall T (rd : io (Z * T)) v (f g : T -> StunBindingResponse) bs, parses rd bs (kStunValid, v) ->
    parses (let* '(c, x) := rd in if negb (c =? kStunValid) then ret (inl (f x)) else ret (inr (g x))) bs
      (inr (g v) : StunBindingResponse + StunBindingResponse)).
  { intros T rd v f g bs P. rewrite <- (app_nil_r bs). eapply parses_bind; [exact P|]. apply parses_ret. }
  destruct a as [addr|addr|addr|addr|addr|class number|type value]; cbn [attribute_type enc_value attribute_effect attribute_ok] in *.
  - apply (A _ _ _ (fun x => set_mappedAddress (hasMappedAddress r) x r) (fun x => set_mappedAddress true x r)). by apply address_parses.
  - apply (A _ _ _ (fun x => set_xorMappedAddress (hasXorMappedAddress r) x r) (fun x => set_xorMappedAddress true x r)). by apply xor_address_parses.
  - apply (A _ _ _ (fun x => set_alternateServer (hasAlternateServer r) x r) (fun x => set_alternateServer true x r)). by apply address_parses.
  - apply (A _ _ _ (fun x => set_alternateServer (hasAlternateServer r) x r) (fun x => set_alternateServer true x r)). by apply address_parses.
  - apply (A _ _ _ (fun x => set_responseOrigin (hasResponseOrigin r) x r) (fun x => set_responseOrigin true x r)). by apply address_parses.
  - apply (A _ _ _ (fun x => set_errorCode (hasErrorCode r) x r) (fun x => set_errorCode true x r)). destruct Ok. by apply stun_error_code_lost.
  - destruct Ok as (_ & Hk & By & _). pose proof (known_attribute_types type Hk) as F.
    repeat match goal with H : Forall _ (_ :: _) |- _ => apply Forall_cons_1 in H as [? H] end.
    unfold unpack_attribute. repeat match goal with H : (type =? _) = false |- _ => rewrite H; clear H end. cbn [orb].
    rewrite <- (app_nil_r value) at 2. eapply parses_bind; [by apply skip_parses|]. apply parses_ret.
Qed.

Lemma value_len a : attribute_ok a -> 0 <= zlen (enc_value a) < 2 ^ 16.
Proof.
  destruct a; cbn [enc_value attribute_ok]; intros Ok; try (rewrite (proj1 (zlen_enc_address _)) || rewrite (proj2 (zlen_enc_address _)); lia).
  - rewrite zlen_enc_int. cbn. lia.
  - destruct Ok as (_ & _ & _ & Ok). pose proof (zlen_nonneg value). lia.
Qed.

Lemma attribute_type_ok a : attribute_ok a -> uint_ok 2 (attribute_type a).
Proof. destruct a; cbn [attribute_type attribute_ok]; [by split..|]. by intros []. Qed.

Lemma zlen_enc_attribute a : zlen (enc_attribute a) = 4 + zlen (enc_value a).
Proof. unfold enc_attribute. rewrite !zlen_app, !zlen_enc_int. cbn. lia. Qed.

Lemma attributes_parse l : Forall attribute_ok l -> forall n r, zlen (l ≫= enc_attribute) < 2 ^ 16 ->
  zlen (l ≫= enc_attribute) <= 4 * Z.of_nat n ->
  parses (unpack_attributes n (zlen (l ≫= enc_attribute)) r) (l ≫= enc_attribute) (kStunValid, fold_left attribute_effect l r).
Proof.
  induction 1 as [|a l Ok Ol IH]; intros n r Hz Hn.
  { cbn. destruct n; apply parses_ret. }
  cbn [mbind list_bind] in *. fold (mbind enc_attribute l) in *. cbn [fold_left]. rewrite zlen_app, zlen_enc_attribute in *. pose proof (value_len a Ok) as Hv.
  pose proof (zlen_nonneg (l ≫= enc_attribute)) as Hl.
  destruct n as [|n]; [lia|]. cbn [unpack_attributes]. rewrite (proj2 (Z.ltb_lt _ _)) by lia. cbn [negb].
  unfold enc_attribute at 2. rewrite <- !app_assoc.
  eapply parses_bind; [apply u16_parses, attribute_type_ok, Ok|].
  eapply parses_bind; [apply u16_parses; exact Hv|].
  eapply parses_bind; [by apply attribute_parses|]. cbv beta iota.
  rewrite remaining_bytes by lia. replace (4 + zlen (enc_value a) + _ - _ - 4) with (zlen (l ≫= enc_attribute)) by lia.
  apply IH; lia.
Qed.

(** ** Responses *)

Lemma stun_response_holds out r0 class id l : class ∈ [StunMsgClassIndication; StunMsgClassSuccessResponse; StunMsgClassFailureResponse] ->
  id_ok id -> l <> [] -> Forall attribute_ok l -> zlen (l ≫= enc_attribute) < 2 ^ 16 ->
  zlen (sh_transactionId out) = kStunTransactionIdLen ->
  parses (stunProtocolUnpackBindingResponse out r0) (enc_response class id l)
    (kStunValid, id, fold_left attribute_effect l emptyResponse).
Proof.
  intros Hc Hid Hl Ok Hz Ho. assert (Hr : 0 <= class < 4 /\ class <> StunMsgClassRequest).
  { repeat (apply elem_of_cons in Hc as [->|Hc]; [by repeat split|]). by apply not_elem_of_nil in Hc. }
  assert (Hp : 0 < zlen (l ≫= enc_attribute)).
  { destruct l as [|a l']; [done|]. cbn [mbind list_bind]. fold (mbind enc_attribute l'). rewrite zlen_app, zlen_enc_attribute.
    pose proof (zlen_nonneg (l' ≫= enc_attribute)). pose proof (zlen_nonneg (enc_value a)). lia. }
  unfold stunProtocolUnpackBindingResponse, enc_response.
  eapply parses_bind; [apply unpack_stun_header_parses; [by split|lia|done|unfold uint_ok; lia|done]|]. cbn beta iota.
  cbn [sh_msgType sh_msgClass sh_transactionId sh_length].
  rewrite (proj2 (Z.eqb_neq kStunValid _)) by done. rewrite Z.eqb_refl. rewrite (proj2 (Z.eqb_neq class _)) by tauto. cbn [negb orb].
  rewrite (proj2 (Z.eqb_neq (zlen _) 0)) by lia. rewrite <- (app_nil_r (l ≫= enc_attribute)) at 2.
  eapply (parses_bind _ _ _ _ (kStunValid, fold_left attribute_effect l emptyResponse)); [|apply parses_ret].
  unfold stunProtocolUnpackBindingResponseBody. rewrite s32_small by lia.
  apply attributes_parse; [done|lia|lia].
Qed.

End Replies.
