(* ===== verification/StunNat.v ===== *)
(** * What the client finds out about a NAT

    The whole exchange with a server, packed and unpacked: what it ends in
    for every answer of the network, and what the client says of a NAT that
    maps and filters in a given way. *)
From S2P Require Import Prelude Bitstream Wire Fields BitstreamSpec Net Protocol StunProtocol StunProtocolSpec.
From S2P Require Import Queue Pool NetSocket NetSocketSpec Timeout Stun StunSpec StunRun StunReplies.

(** ** Answers *)

(** The answer to the request of a test, if there is one: the address it
    comes from, its class and its attributes. *)
Definition answer : Type := option (net_addr_t * Z * list stun_attribute).

(** The attributes of an RFC 5780 server. *)
Definition says (mappedTo other : net_addr_t) : list stun_attribute := [AttrXorMapped mappedTo; AttrOtherAddress other].

(** What it says. *)
Definition heard (a : answer) : reply :=
  match a with
  | Some (from, _, l) => Replied from (fold_left attribute_effect l emptyResponse)
  | None => NoReply
  end.

Section Answers.
Context {order : Host}.

Definition answer_ok (a : answer) : Prop :=
  match a with
  | Some (_, class, l) =>
      class ∈ [StunMsgClassIndication; StunMsgClassSuccessResponse; StunMsgClassFailureResponse] /\ l <> [] /\
      Forall attribute_ok l /\ 20 + zlen (l ≫= enc_attribute) <= kNetPacketMaxLen
  | None => True
  end.

(** Its datagram. *)
Definition sent_back (id : list Z) (a : answer) : network :=
  match a with
  | Some (from, class, l) => Answered from (enc_response class id l)
  | None => Silent
  end.

Lemma enc_int_bytes k x : Forall byte (enc_int k x).
Proof. exact (proj1 (int_codec_emits k x)). Qed.

Lemma bytes_enc_attribute a : attribute_ok a -> Forall byte (enc_attribute a).
Proof.
  intros Ok. unfold enc_attribute. apply Forall_app_2; [apply enc_int_bytes|]. apply Forall_app_2; [apply enc_int_bytes|].
  destruct a; cbn [enc_value]; unfold enc_address, enc_xor_address; repeat (apply Forall_app_2 || apply enc_int_bytes).
  apply Ok.
Qed.

Lemma bytes_enc_attributes l : Forall attribute_ok l -> Forall byte (l ≫= enc_attribute).
Proof.
  induction 1 as [|a l Ok _ IH]; [constructor|]. cbn [mbind list_bind]. fold (mbind enc_attribute l).
  apply Forall_app_2; [by apply bytes_enc_attribute|done].
Qed.

Lemma zlen_says mappedTo other : zlen (says mappedTo other ≫= enc_attribute) = 24.
Proof.
  unfold says. cbn [mbind list_bind]. rewrite !zlen_app, !zlen_enc_attribute. cbn [enc_value].
  by rewrite (proj1 (zlen_enc_address _)), (proj2 (zlen_enc_address _)).
Qed.

Lemma answer_understood env id a : id_ok id -> answer_ok a -> zlen (sh_transactionId (env_header env)) = kStunTransactionIdLen ->
  understood env id (sent_back id a) (heard a).
Proof.
  intros Hid Ok Ho. destruct a as [[[from class] l]|]; [|done]. destruct Ok as (Hc & Hl & Ok & Hz). unfold kNetPacketMaxLen in Hz.
  cbn [sent_back heard understood]. split; [done|].
  assert (By : Forall byte (enc_stun_header StunMsgTypeBinding class id (zlen (l ≫= enc_attribute))))
    by apply (pack_stun_header_emits _ _ _ _ Hid).
  split; [by apply Forall_app_2; [|apply bytes_enc_attributes]|]. split.
  - unfold enc_response. rewrite zlen_app, zlen_enc_stun_header by done. pose proof (zlen_nonneg (l ≫= enc_attribute)).
    unfold kNetPacketMaxLen. lia.
  - apply stun_response_holds; [done|done|done|done|lia|done].
Qed.

End Answers.

(** ** NATs *)

Section Kinds.
Context {order : Host}.

(** What a NAT does with the address of the client, by the destinations for
    which it takes different addresses, ... *)
Inductive nat_mapping := Unmapped | MapsAll | MapsHosts | MapsAddresses.

(** ... and what it lets in: everything, what comes from a host to which the
    mapped address has sent, or from an address to which it has sent. *)
Inductive nat_filter := AdmitsAll | AdmitsHosts | AdmitsAddresses.

Definition admits (f : nat_filter) (opened : list net_addr_t) (from : net_addr_t) : bool :=
  match f with
  | AdmitsAll => true
  | AdmitsHosts => existsb (fun d => s_addr d =? s_addr from) opened
  | AdmitsAddresses => bool_decide (from ∈ opened)
  end.

(** The client's address behind a NAT, for each destination. *)
Definition maps_as (k : nat_mapping) (local : net_addr_t) (servers : list net_addr_t) (maps : net_addr_t -> net_addr_t) : Prop :=
  match k with
  | Unmapped => forall d, d ∈ servers -> maps d = local
  | MapsAll => forall d e, d ∈ servers -> e ∈ servers -> maps d <> local /\ maps d = maps e
  | MapsHosts => forall d e, d ∈ servers -> e ∈ servers -> maps d <> local /\ (maps d = maps e <-> s_addr d = s_addr e)
  | MapsAddresses => forall d e, d ∈ servers -> e ∈ servers -> maps d <> local /\ (maps d = maps e <-> d = e)
  end.

(** The four addresses of a server: primary, other host, other port, other. *)
Definition with_host (host port : net_addr_t) : net_addr_t := net_addr_set (s_addr host) (sin_port port) false.

Definition four (primary other : net_addr_t) : list net_addr_t :=
  [primary; with_host other primary; with_host primary other; other].

Record server_wf (primary other : net_addr_t) : Prop := {
  sv_primary : addr_wf primary;
  sv_other : addr_wf other;
  sv_host : s_addr primary <> s_addr other;
  sv_port : sin_port primary <> sin_port other;
}.

Section Behind.
Context (maps : net_addr_t -> net_addr_t) (f : nat_filter) (primary other local : net_addr_t).

(** The addresses to which the client has sent before it tests the filter. *)
Definition contacted : list net_addr_t :=
  if decide (maps primary = local) then [primary]
  else [primary; with_host other primary] ++
    if decide (maps (with_host other primary) = maps primary) then [] else [other].

(** Those to which the address that the primary server sees has sent. *)
Definition opened : list net_addr_t := filter (fun d => maps d = maps primary) contacted.

Definition answer_from (from dest : net_addr_t) : answer := Some (from, StunMsgClassSuccessResponse, says (maps dest) other).

(** The server answers every request, from the address it is asked to; the
    NAT lets the answer in or not. *)
Definition nat_answers (i : StunTestId) : answer :=
  match i with
  | BindingTest1 => answer_from primary primary
  | BehaviorTest1 => answer_from (with_host other primary) (with_host other primary)
  | BehaviorTest2 => answer_from other other
  | FilteringTest1 => if admits f opened other then answer_from other primary else None
  | FilteringTest2 =>
      if admits f opened (with_host primary other) then answer_from (with_host primary other) primary else None
  end.

End Behind.

(** What the client reports. *)
Definition reported_mapping (k : nat_mapping) : StunNatBehavior :=
  match k with
  | Unmapped => DirectMapping
  | MapsAll => EndpointIndependentMapping
  | MapsHosts | MapsAddresses => AddressAndPortDependentMapping
  end.

Definition reported_filtering (k : nat_mapping) (f : nat_filter) : StunNatFiltering :=
  match k, f with
  | Unmapped, _ | _, AdmitsAll | MapsAll, AdmitsHosts => EndpointIndependentFiltering
  | _, _ => UnknownFiltering
  end.

Lemma addr_eta a : addr_wf a -> a = net_addr_set (s_addr a) (sin_port a) false.
Proof.
  intros [Hf Hp Hh]. destruct a as [x p h]. cbn in *. subst x. unfold net_addr_set, uint_ok in *. cbn. f_equal.
  - symmetry. apply u16_small. lia.
  - symmetry. apply u32_small. lia.
Qed.

Lemma with_host_fields a b : addr_wf a -> addr_wf b -> s_addr (with_host a b) = s_addr a /\ sin_port (with_host a b) = sin_port b.
Proof.
  intros [_ _ Ha] [_ Hb _]. unfold with_host, net_addr_set, uint_ok in *. cbn. split; [apply u32_small|apply u16_small]; lia.
Qed.

Lemma mappings k local primary other maps : server_wf primary other -> maps_as k local (four primary other) maps ->
  let H := with_host other primary in
  match k with
  | Unmapped => maps primary = local
  | MapsAll => maps primary <> local /\ maps H = maps primary /\ maps other = maps primary
  | _ => maps primary <> local /\ maps H <> maps primary /\ maps other <> maps primary
  end.
Proof.
  intros [Wp Wo Hh Hp] M H. destruct (with_host_fields other primary Wo Wp) as [Eh Eq]. fold H in Eh, Eq.
  assert (I : primary ∈ four primary other /\ H ∈ four primary other /\ other ∈ four primary other)
    by (unfold four; rewrite !elem_of_cons; fold H; tauto).
  destruct I as (I1 & I2 & I3). destruct k; cbn [maps_as] in M.
  - by apply M.
  - split; [by apply (M primary primary)|]. split; by apply M.
  - split; [by apply (M primary primary)|]. split; intros E; apply M in E; congruence.
  - split; [by apply (M primary primary)|].
    split; intros E; [destruct (M H primary) as [_ [K _]]|destruct (M other primary) as [_ [K _]]]; try done;
      apply K, (f_equal s_addr) in E; congruence.
Qed.

(** What the filter of the NAT lets in. *)
Lemma admitted k f local primary other maps : server_wf primary other -> maps_as k local (four primary other) maps ->
  k <> Unmapped ->
  let o := opened maps primary other local in
  admits f o other = match k, f with _, AdmitsAll | MapsAll, AdmitsHosts => true | _, _ => false end /\
  admits f o (with_host primary other) = match f with AdmitsAddresses => false | _ => true end.
Proof.
  intros W M Hk o. pose proof (mappings k local primary other maps W M) as E. destruct W as [Wp Wo Hh Hp].
  destruct (with_host_fields other primary Wo Wp) as [Eh Eq]. destruct (with_host_fields primary other Wp Wo) as [Qh Qp].
  assert (Eo : o = match k with MapsAll => [primary; with_host other primary] | _ => [primary] end).
  { unfold o, opened, contacted. destruct k; [done|..]; destruct E as (E1 & E2 & E3); rewrite decide_False by done.
    - rewrite decide_True by done. cbn [app filter list_filter]. by rewrite !decide_True.
    - rewrite decide_False by done. cbn [app filter list_filter]. by rewrite decide_True, !decide_False.
    - rewrite decide_False by done. cbn [app filter list_filter]. by rewrite decide_True, !decide_False. }
  assert (N1 : with_host primary other <> primary) by congruence.
  assert (N2 : with_host primary other <> with_host other primary) by congruence.
  assert (N3 : other <> primary) by congruence. assert (N4 : other <> with_host other primary) by congruence.
  rewrite Eo. destruct f; cbn [admits existsb]; [by destruct k| |].
  - destruct k; [done|..]; cbn [existsb]; rewrite Qh, ?Eh, !Z.eqb_refl, (proj2 (Z.eqb_neq _ _) Hh); done.
  - split; (rewrite bool_decide_false; [by destruct k|]); destruct k; cbn beta iota; rewrite !elem_of_cons, elem_of_nil; tauto.
Qed.

End Kinds.

(** ** The whole exchange *)

Section Nat.
Context {order : Host}.
Context (block_alloc : gmap Z stun_block -> Z).
Context (source_create : gmap Z source -> Z).
Context (rand : Z -> nat -> Z).
Context (application_block : Z -> Z -> prog net_socket_s unit).
Context (application_callback : Z -> Z -> Z -> prog net_socket_s unit).
Context (malloc_node : gmap Z queue_node_s -> option (Z * queue_node_s)).
Hypothesis block_fresh : fresh_address block_alloc.
Hypothesis source_fresh : fresh_address source_create.
Hypothesis malloc_node_fresh : malloc_fresh malloc_node.
Hypothesis malloc_node_some : forall h, malloc_node h <> None.

(** The client resolves while the network answers. *)
Definition resolve_with (answers : StunTestId -> answer) (env : StunTestId -> stun_env) (last : stun_env) : prog stun_client unit :=
  resolve block_alloc source_create rand application_block application_callback malloc_node
    (fun i => sent_back (fresh_id rand (env i)) (answers i)) env last.

(** The header that [stunProtocolUnpackHeader] writes to has room for an id. *)
Definition envs_ok (env : StunTestId -> stun_env) : Prop :=
  forall i, zlen (sh_transactionId (env_header (env i))) = kStunTransactionIdLen.

(** The configuration and the results when the first test starts. *)
Definition config_at (c : stun_client) (addr : net_addr_t) : StunConfig :=
  resolved_config (s_receiver (n_socket c)) addr (n_config c).
Definition results_at (c : stun_client) (env : StunTestId -> stun_env) : StunResults :=
  located (env BindingTest1) (n_socket c) (n_results c).

(** What the client ends with. *)
Record resolved (c c' : stun_client) (held : list Z) (r : StunResults) (sent : list (net_addr_t * list Z)) : Prop := {
  rd_results : n_results c' = r;
  rd_events : n_events c' = n_events c ++ [if didBindingTestSuccess r then EventDidResolve else EventDidFailResolve];
  rd_didResolve : n_didResolve c' = (if didBindingTestSuccess r then true else n_didResolve c);
  rd_queue : n_queue c' = [];
  rd_kinds : n_kinds c' = [];
  rd_blocks : n_blocks c' = n_blocks c;
  rd_sources : n_sources c' = n_sources c;
  rd_socket : rests (n_socket c') held;
  rd_wire : s_wire (n_socket c') = s_wire (n_socket c) ++ sent;
  rd_receiver : if didBindingTestSuccess r then s_receiver (n_socket c') = s_receiver (n_socket c)
    else dangles (n_blocks c) (n_socket c');
  rd_callback : same_callback (n_socket c) (n_socket c');
}.

Lemma resolve_with_holds c held answers env last addr : resolves c held addr (env BindingTest1) ->
  (forall i, answer_ok (answers i)) -> envs_ok env ->
  exists c', resolve_with answers env last c = Done (tt, c') /\
    resolved c c' held (final_results (config_at c addr) (fun i => heard (answers i)) (results_at c env))
      (all_requests (config_at c addr) (fun i => heard (answers i)) (fun i => fresh_id rand (env i)) (results_at c env) all_tests).
Proof.
  intros R Ok Ho.
  destruct (resolve_holds block_alloc source_create rand application_block application_callback malloc_node
    block_fresh source_fresh malloc_node_fresh malloc_node_some c held _ env last (fun i => heard (answers i)) addr R
    (fun i => answer_understood (env i) _ (answers i) (generated_id rand _) (Ok i) (Ho i)))
    as (c' & E & E1 & E2 & E3 & E4 & E5 & E6 & E7 & _ & E9 & E10 & E11 & E12).
  exists c'. split; [exact E|]. by split.
Qed.

(** C5: each of the five tests gets an answer as [answer_ok] describes it - a
    well-formed response that carries the test's transaction id, fits the
    packet and arrives before the first timeout - or none, through all the
    retries, each run after the handler of the timer that dispatched it.  Whichever tests are answered, and whatever the responses say,
    the client goes through its tests without a fault and ends in the results
    that the tests' rules give, from the bytes of the answers: every request
    is sent once, or three times when it is not answered; it reports success
    exactly when the binding test is successful at the end; the packets, the
    blocks and the timers it took are given back. *)
Theorem stun_resolves c held answers env last addr : resolves c held addr (env BindingTest1) ->
  (forall i, answer_ok (answers i)) -> envs_ok env ->
  let heard i := heard (answers i) in
  let r := final_results (config_at c addr) heard (results_at c env) in
  exists c', resolve_with answers env last c = Done (tt, c') /\ n_results c' = r /\
    n_events c' = n_events c ++ [if didBindingTestSuccess r then EventDidResolve else EventDidFailResolve] /\
    n_queue c' = [] /\ n_blocks c' = n_blocks c /\ n_sources c' = n_sources c /\ rests (n_socket c') held /\
    s_wire (n_socket c') = s_wire (n_socket c) ++
      all_requests (config_at c addr) heard (fun i => fresh_id rand (env i)) (results_at c env) all_tests /\
    (didBindingTestSuccess r = true -> s_receiver (n_socket c') = s_receiver (n_socket c)).
Proof.
  intros R Ok Ho heard0 r. destruct (resolve_with_holds c held answers env last addr R Ok Ho) as (c' & E & H).
  destruct H as [E1 E2 _ E4 _ E6 E7 E8 E9 E10 _]. exists c'. do 8 (split; [done|]).
  intros Et. unfold r, heard0 in Et. by rewrite Et in E10.
Qed.

(** ** What the tests say *)

(** The results that the filtering tests leave alone. *)
Definition mapping_of (r : StunResults) : bool * net_addr_t * bool * StunNatBehavior :=
  (didBindingTestSuccess r, mappedAddr r, didBehaviorTestSuccess r, natBehavior r).

Lemma filtering_keeps config x r i : i = FilteringTest1 \/ i = FilteringTest2 ->
  mapping_of (next_results config x r i) = mapping_of r.
Proof.
  unfold next_results. intros [-> | ->]; cbn [plan].
  - destruct (_ && _); [done|]. destruct (negb _); [done|]. destruct (x _); [|done].
    cbn [response_of]. unfold filtering1_response. by destruct (net_addr_is_equal _ _).
  - destruct (didFilteringTestSuccess r); [done|]. destruct (negb _); [done|]. destruct (x _); [|done].
    cbn [response_of]. unfold filtering2_response. by destruct (net_addr_is_equal _ _).
Qed.

(** After the mapping tests. *)
Definition mapping_results (config : StunConfig) (x : StunTestId -> reply) (r : StunResults) : StunResults :=
  fold_left (next_results config x) [BindingTest1; BehaviorTest1; BehaviorTest2] r.

Lemma mapping_final config x r r' : mapping_results config x r = r' ->
  let f := final_results config x r in
  didBindingTestSuccess f = didBindingTestSuccess r' /\ mappedAddr f = mappedAddr r' /\
  didBehaviorTestSuccess f = didBehaviorTestSuccess r' /\ natBehavior f = natBehavior r'.
Proof.
  intros <- f. assert (E : mapping_of f = mapping_of (mapping_results config x r)).
  { unfold f, final_results, mapping_results, all_tests. cbn [fold_left].
    rewrite (filtering_keeps config x _ FilteringTest2), (filtering_keeps config x _ FilteringTest1); [done|by left|by right]. }
  unfold mapping_of in E. by injection E as -> -> -> ->.
Qed.

Lemma addresses_equal a b : net_addr_is_equal a b = bool_decide (a = b).
Proof.
  destruct (net_addr_is_equal a b) eqn:E; symmetry.
  - by apply bool_decide_eq_true, net_addr_is_equal_spec.
  - apply bool_decide_eq_false. intros H. apply net_addr_is_equal_spec in H. congruence.
Qed.

(** The first test, with the results of a client that has not resolved yet. *)
Definition bound (config : StunConfig) (local mappedTo other : net_addr_t) (direct : bool) : StunResults :=
  mkResults true local mappedTo direct true
    (net_addr_set (s_addr (primaryServerAddr config)) (sin_port other) false)
    (net_addr_set (s_addr other) (sin_port (primaryServerAddr config)) false) other
    false UnknownBehavior zeroAddr zeroAddr false UnknownFiltering.

Lemma binding_results config x local from class mappedTo other :
  x BindingTest1 = heard (Some (from, class, says mappedTo other)) ->
  next_results config x (with_localAddr local emptyResults) BindingTest1 =
    bound config local mappedTo other (bool_decide (mappedTo = local)).
Proof.
  intros E. unfold next_results. cbn [plan]. rewrite E. cbn [heard fold_left says attribute_effect response_of].
  unfold binding_response. cbv zeta. cbn -[net_addr_set net_addr_is_equal]. rewrite addresses_equal. by destruct (bool_decide _).
Qed.

Lemma results_at_empty c env : n_results c = emptyResults ->
  results_at c env = with_localAddr (localAddr (results_at c env)) emptyResults.
Proof. intros E. unfold results_at, located. by rewrite E. Qed.

(** a behaviour test that is not answered makes the whole resolution fail,
    although the binding test was answered and the mapped address is known:
    its failure is written to the flag of the binding test. *)
Theorem silent_behavior_fails c held answers env last addr from class mappedTo other : resolves c held addr (env BindingTest1) ->
  (forall i, answer_ok (answers i)) -> envs_ok env -> n_results c = emptyResults ->
  answers BindingTest1 = Some (from, class, says mappedTo other) -> mappedTo <> localAddr (results_at c env) ->
  answers BehaviorTest1 = None ->
  exists c', resolve_with answers env last c = Done (tt, c') /\ n_events c' = n_events c ++ [EventDidFailResolve] /\
    n_didResolve c' = n_didResolve c /\ mappedAddr (n_results c') = mappedTo.
Proof.
  intros R Ok Ho Er Eb Hm Es. destruct (resolve_with_holds c held answers env last addr R Ok Ho) as (c' & E & H).
  destruct H as [E1 E2 E3 _ _ _ _ _ _ _ _]. exists c'. split; [done|]. rewrite E2, E3, E1. clear E E1 E2 E3.
  set (config := config_at c addr) in *. rewrite (results_at_empty c env Er). set (local := localAddr (results_at c env)) in *.
  set (x := fun i => heard (answers i)).
  assert (Em : mapping_results config x (with_localAddr local emptyResults) =
    with_didBehaviorTestSuccess false (with_didBindingTestSuccess false (bound config local mappedTo other false))).
  { unfold mapping_results. cbn [fold_left]. rewrite (binding_results config x local from class mappedTo other) by (unfold x; by rewrite Eb).
    rewrite bool_decide_false by done. unfold next_results at 2. cbn [plan bound didBindingTestSuccess isMappingDirect andb hasOtherServerAddress negb].
    unfold x at 2. rewrite Es. done. }
  destruct (mapping_final config x _ _ Em) as (-> & -> & _). done.
Qed.

(** the error a server answers with is not looked at: an error response
    with no address makes the resolution succeed, with an address that is all
    zeros. *)
Theorem error_response_resolves c held answers env last addr from class number : resolves c held addr (env BindingTest1) ->
  (forall i, answer_ok (answers i)) -> envs_ok env -> n_results c = emptyResults ->
  answers BindingTest1 = Some (from, StunMsgClassFailureResponse, [AttrError class number]) ->
  exists c', resolve_with answers env last c = Done (tt, c') /\ n_events c' = n_events c ++ [EventDidResolve] /\
    n_didResolve c' = true /\ mappedAddr (n_results c') = zeroAddr.
Proof.
  intros R Ok Ho Er Eb. destruct (resolve_with_holds c held answers env last addr R Ok Ho) as (c' & E & H).
  destruct H as [E1 E2 E3 _ _ _ _ _ _ _ _]. exists c'. split; [done|]. rewrite E2, E3, E1. clear E E1 E2 E3.
  set (config := config_at c addr) in *. rewrite (results_at_empty c env Er). set (local := localAddr (results_at c env)) in *.
  set (x := fun i => heard (answers i)).
  set (r1 := binding_response config (set_errorCode true 0 emptyResponse) (with_localAddr local emptyResults)).
  assert (E1 : next_results config x (with_localAddr local emptyResults) BindingTest1 = r1).
  { unfold next_results. cbn [plan]. unfold x. by rewrite Eb. }
  assert (K : didBindingTestSuccess r1 = true /\ mappedAddr r1 = zeroAddr /\ hasOtherServerAddress r1 = false /\
    mappedOtherServerPrimaryPortAddr r1 = zeroAddr).
  { unfold r1, binding_response. cbn -[net_addr_is_equal]. by destruct (net_addr_is_equal _ _). }
  clearbody r1. destruct K as (K1 & K2 & K3 & K4).
  assert (Em : exists r2, mapping_results config x (with_localAddr local emptyResults) = r2 /\
    didBindingTestSuccess r2 = true /\ mappedAddr r2 = zeroAddr).
  { eexists. split; [reflexivity|]. unfold mapping_results. cbn [fold_left]. rewrite E1. unfold next_results. cbn [plan].
    rewrite K1, K3. cbn [andb negb]. destruct (isMappingDirect r1); [done|].
    change (didBehaviorTestSuccess (with_didBehaviorTestSuccess false r1)) with false. cbv iota.
    change (mappedOtherServerPrimaryPortAddr (with_didBehaviorTestSuccess false r1)) with (mappedOtherServerPrimaryPortAddr r1).
    rewrite K4. done. }
  destruct Em as (r2 & Em & M1 & M2). destruct (mapping_final config x _ _ Em) as (-> & -> & _). by rewrite M1.
Qed.

(** The tests with the answers that come through a NAT. *)
Section Through.
Context (k : nat_mapping) (f : nat_filter) (local primary other : net_addr_t) (maps : net_addr_t -> net_addr_t) (config : StunConfig).
Hypothesis server : server_wf primary other.
Hypothesis mapped_as : maps_as k local (four primary other) maps.
Hypothesis mapped_wf : forall d, d ∈ four primary other -> addr_wf (maps d).
Hypothesis server_config : primaryServerAddr config = primary.

Let H := with_host other primary.
Let x i := heard (nat_answers maps f primary other local i).
Let start := bound config local (maps primary) other (bool_decide (maps primary = local)).

Lemma mapped_valid : net_addr_is_valid (maps H) = true.
Proof using mapped_wf.
  unfold net_addr_is_valid. rewrite addresses_equal. destruct (mapped_wf H) as [Hf _ _]; [unfold four; rewrite !elem_of_cons; tauto|].
  rewrite bool_decide_false; [done|]. intros E. by rewrite E in Hf.
Qed.

Lemma behavior1_result : maps primary <> local -> next_results config x start BehaviorTest1 =
  let r := with_mappedOtherServerPrimaryPortAddr (maps H) start in
  if bool_decide (maps H = maps primary) then with_natBehavior EndpointIndependentMapping (with_didBehaviorTestSuccess true r) else r.
Proof using.
  intros N. unfold start. rewrite (bool_decide_false _ N). unfold next_results.
  cbn [plan bound didBindingTestSuccess isMappingDirect andb hasOtherServerAddress negb x nat_answers answer_from heard fold_left says attribute_effect response_of].
  unfold behavior1_response. cbn -[net_addr_is_equal]. by rewrite addresses_equal.
Qed.

Lemma behavior2_result : maps other <> maps primary -> let r := with_mappedOtherServerPrimaryPortAddr (maps H) start in
  next_results config x r BehaviorTest2 = with_didBehaviorTestSuccess true
    (with_natBehavior AddressAndPortDependentMapping (with_mappedOtherServerAddr (maps other) r)).
Proof using mapped_wf.
  intros N r. unfold next_results. cbn [plan r start bound with_mappedOtherServerPrimaryPortAddr didBehaviorTestSuccess mappedOtherServerPrimaryPortAddr].
  rewrite mapped_valid. cbn [negb x nat_answers answer_from heard fold_left says attribute_effect response_of].
  unfold behavior2_response. cbn -[net_addr_is_equal]. by rewrite addresses_equal, bool_decide_false.
Qed.

(** The results of the behaviour tests, and where they send. *)
Lemma behavior_results ids : let r := next_results config x start BehaviorTest1 in
  next_results config x r BehaviorTest2 =
    match k with
    | Unmapped => with_didBehaviorTestSuccess true (with_natBehavior DirectMapping start)
    | MapsAll =>
        with_natBehavior EndpointIndependentMapping (with_didBehaviorTestSuccess true
          (with_mappedOtherServerPrimaryPortAddr (maps H) start))
    | _ =>
        with_didBehaviorTestSuccess true (with_natBehavior AddressAndPortDependentMapping
          (with_mappedOtherServerAddr (maps other) (with_mappedOtherServerPrimaryPortAddr (maps H) start)))
    end /\
  primary :: (requests config x ids start BehaviorTest1 ++ requests config x ids r BehaviorTest2).*1 = contacted maps primary other local.
Proof using server mapped_as mapped_wf server_config.
  pose proof (mappings k local primary other maps server mapped_as) as M. fold H in M. unfold contacted. fold H.
  destruct k; [split; [unfold start; by rewrite (bool_decide_true _ M)|]|..].
  - rewrite decide_True by done. unfold start. rewrite (bool_decide_true _ M). done.
  - destruct M as (M1 & M2 & M3). cbv zeta. rewrite behavior1_result, bool_decide_true, !decide_False, decide_True by done. split; [done|].
    unfold requests, start. rewrite (bool_decide_false _ M1). cbn. by rewrite server_config.
  - destruct M as (M1 & M2 & M3). cbv zeta. rewrite behavior1_result, bool_decide_false, !decide_False by done.
    split; [by apply behavior2_result|]. unfold requests, start. rewrite (bool_decide_false _ M1).
    cbn -[net_addr_is_valid net_addr_set]. rewrite mapped_valid. cbn -[net_addr_set]. by rewrite server_config.
  - destruct M as (M1 & M2 & M3). cbv zeta. rewrite behavior1_result, bool_decide_false, !decide_False by done.
    split; [by apply behavior2_result|]. unfold requests, start. rewrite (bool_decide_false _ M1).
    cbn -[net_addr_is_valid net_addr_set]. rewrite mapped_valid. cbn -[net_addr_set]. by rewrite server_config.
Qed.

(** The filtering tests look only at these results. *)
Lemma filtering_results r : didBindingTestSuccess r = true -> isMappingDirect r = bool_decide (maps primary = local) ->
  hasOtherServerAddress r = true -> otherServerAddr r = other -> didFilteringTestSuccess r = false -> natFiltering r = UnknownFiltering ->
  let r' := next_results config x (next_results config x r FilteringTest1) FilteringTest2 in
  natFiltering r' = reported_filtering k f /\
  didFilteringTestSuccess r' = bool_decide (reported_filtering k f <> UnknownFiltering).
Proof using server mapped_as.
  intros R1 R2 R3 R4 R5 R6. pose proof (mappings k local primary other maps server mapped_as) as M.
  assert (Hk : k = Unmapped \/ k <> Unmapped) by (destruct k; auto). destruct Hk as [->|Hk].
  { unfold next_results. cbn [plan]. rewrite R1, R2, bool_decide_true by done. done. }
  assert (N : maps primary <> local) by (destruct k; [done|..]; apply M).
  destruct (admitted k f local primary other maps server mapped_as Hk) as [A1 A2].
  assert (Qo : other <> with_host primary other).
  { intros E. destruct server as [Wp Wo Hh _]. apply (f_equal s_addr) in E. rewrite (proj1 (with_host_fields _ _ Wp Wo)) in E. congruence. }
  set (ok := match k, f with _, AdmitsAll | MapsAll, AdmitsHosts => true | _, _ => false end) in A1.
  assert (F1 : next_results config x r FilteringTest1 =
    if ok then with_natFiltering EndpointIndependentFiltering (with_didFilteringTestSuccess true r)
    else with_didFilteringTestSuccess false r).
  { unfold next_results. cbn [plan]. rewrite R1, R2, R3, bool_decide_false by done. cbn [andb negb]. unfold x. cbn [nat_answers]. rewrite A1.
    destruct ok; [|done]. cbn [answer_from heard response_of]. unfold filtering1_response. by rewrite R4, net_addr_is_equal_refl. }
  cbv zeta. rewrite F1. destruct ok eqn:Eok.
  - unfold next_results. cbn. unfold ok in Eok. destruct k, f; done || congruence.
  - unfold next_results. cbn [plan with_didFilteringTestSuccess didFilteringTestSuccess hasOtherServerAddress]. rewrite R3. cbn [negb]. unfold x. cbn [nat_answers].
    assert (E : reported_filtering k f = UnknownFiltering) by (unfold ok in Eok; destruct k, f; done || congruence). rewrite E.
    rewrite A2. destruct (match f with AdmitsAddresses => false | _ => true end); cbn [answer_from heard response_of];
      [|split; [exact R6|done]].
    unfold filtering2_response. cbn [otherServerAddr with_didFilteringTestSuccess]. rewrite R4, addresses_equal, bool_decide_false by done. split; [exact R6|done].
Qed.

End Through.

(** C6: what the client says of a NAT, for an RFC 5780 server that answers every
    request: without translation a direct mapping, with one address for all
    destinations an endpoint-independent one, with addresses that depend on
    the host or on the host and the port always an address-and-port-dependent
    one. Filtering is reported when it lets the answer of the other server in,
    which every filter by host does once the behaviour test has sent to that
    host; it is unknown otherwise, and never found to depend on the address. *)
Theorem stun_classifies_nat k f c held maps env last primary other : resolves c held primary (env BindingTest1) ->
  envs_ok env -> n_results c = emptyResults -> server_wf primary other ->
  let local := localAddr (results_at c env) in
  maps_as k local (four primary other) maps -> (forall d, d ∈ four primary other -> addr_wf (maps d)) ->
  exists c' sent, resolve_with (nat_answers maps f primary other local) env last c = Done (tt, c') /\
    natBehavior (n_results c') = reported_mapping k /\ natFiltering (n_results c') = reported_filtering k f /\
    didFilteringTestSuccess (n_results c') = bool_decide (reported_filtering k f <> UnknownFiltering) /\
    mappedAddr (n_results c') = maps primary /\ n_events c' = n_events c ++ [EventDidResolve] /\
    s_wire (n_socket c') = s_wire (n_socket c) ++ sent /\ contacted maps primary other local `prefix_of` sent.*1.
Proof.
  intros R Ho Er W local M Wm. set (answers := nat_answers maps f primary other local).
  assert (Ok : forall i, answer_ok (answers i)).
  { assert (Oa : forall from dest, dest ∈ four primary other -> answer_ok (answer_from maps other from dest)).
    { intros from dest Hd. cbn [answer_ok answer_from]. split; [by right; left|]. split; [done|]. split; [|by rewrite zlen_says].
      constructor; [by apply Wm|]. constructor; [|done]. apply W. }
    intros i. unfold answers, four in *. destruct i; cbn [nat_answers]; try destruct (admits _ _ _); try done; apply Oa;
      rewrite !elem_of_cons; tauto. }
  destruct (resolve_with_holds c held answers env last primary R Ok Ho) as (c' & E & [E1 E2 _ _ _ _ _ _ E9 _ _]).
  rewrite (results_at_empty c env Er) in E1, E2, E9. fold local in E1, E2, E9.
  set (config := config_at c primary) in *. set (x := fun i => heard (answers i)) in *.
  set (ids := fun i => fresh_id rand (env i)) in *.
  pose proof (binding_results config x local primary StunMsgClassSuccessResponse (maps primary) other eq_refl) as Eb.
  destruct (behavior_results k f local primary other maps config W M Wm eq_refl ids) as [Er2 Es].
  change (fun i => heard (nat_answers maps f primary other local i)) with x in Er2, Es.
  set (start := bound config local (maps primary) other _) in *. cbv zeta in Er2, Es.
  set (r3 := next_results config x _ BehaviorTest2) in *.
  assert (Em : mapping_results config x (with_localAddr local emptyResults) = r3) by (unfold mapping_results; cbn [fold_left]; by rewrite Eb).
  assert (K : didBindingTestSuccess r3 = true /\ mappedAddr r3 = maps primary /\ natBehavior r3 = reported_mapping k /\
    isMappingDirect r3 = bool_decide (maps primary = local) /\ hasOtherServerAddress r3 = true /\ otherServerAddr r3 = other /\
    didFilteringTestSuccess r3 = false /\ natFiltering r3 = UnknownFiltering) by (rewrite Er2; destruct k; repeat split).
  destruct K as (K1 & K2 & K3 & K4 & K5 & K6 & K7 & K8).
  destruct (mapping_final config x _ _ Em) as (F1 & F2 & _ & F4). rewrite K1 in F1. rewrite K2 in F2. rewrite K3 in F4.
  destruct (filtering_results k f local primary other maps config W M r3 K1 K4 K5 K6 K7 K8) as [G1 G2].
  assert (Ef : final_results config x (with_localAddr local emptyResults) =
    next_results config x (next_results config x r3 FilteringTest1) FilteringTest2).
  { unfold final_results, all_tests. cbn [fold_left]. by rewrite Eb. }
  exists c', (all_requests config x ids (with_localAddr local emptyResults) all_tests).
  split; [exact E|]. rewrite E2, E9, E1, F1, F2, F4. rewrite Ef. split; [done|]. split; [exact G1|]. split; [exact G2|]. do 3 (split; [done|]).
  rewrite <- Es. unfold all_tests. cbn [all_requests]. rewrite Eb. fold start.
  change (requests config x ids (with_localAddr local emptyResults) BindingTest1) with [(primary, enc_request BindingTest1 (ids BindingTest1))].
  eexists. rewrite !fmap_app, !app_comm_cons, <- !app_assoc. reflexivity.
Qed.

(** ** What goes wrong *)

(** A datagram that reaches a client whose receive block is gone. *)
Lemma released_block c held from bytes : rests (n_socket c) held -> spare held -> n_kinds c = [] -> dangles (n_blocks c) (n_socket c) ->
  Forall byte bytes -> 0 < zlen bytes <= kNetPacketMaxLen ->
  (datagram_event (Some (from, bytes)) ;; deliver application_block application_callback 0) c = Fault OutOfBounds.
Proof.
  intros [Hs Hb Hd] [Sp _] Hk [Hr Hn] By Hz. destruct c as [did r config ts s kinds q bl src ev].
  cbn [n_socket n_kinds n_blocks] in *. subst kinds.
  destruct (read_event_holds s held [] (Some (from, bytes)) Hs By) as (s1 & E1 & _ & _ & _ & R1 & A).
  assert (Ex : exhausted s held [] = false).
  { unfold exhausted, references. rewrite Hb, !app_nil_r. apply Z.eqb_neq. lia. }
  rewrite Ex in A. destruct A as (p & k & _ & _ & _ & _ & D1 & _).
  assert (F : fits (Some (from, bytes)) = true) by (cbn; apply Z.leb_le; lia).
  assert (Em : empty (Some (from, bytes)) = false) by (cbn; apply Z.eqb_neq; lia).
  assert (Hrec : has_receiver (s_receiver s) = true) by (unfold has_receiver; by rewrite (proj2 (Z.eqb_neq _ 0))).
  rewrite F, Em, Hrec, Hd in D1. cbn [negb andb app] in D1.
  unfold datagram_event. rewrite ?bind_assoc, bind_get.
  step (on_socket_result did config ev (read_event (Some (from, bytes))) r ts s q bl src tt s1 E1).
  rewrite ?bind_assoc, bind_modify. cbn [client n_socket n_kinds]. rewrite D1, Hd. cbn [length Nat.ltb Nat.leb].
  rewrite (proj2 (Z.eqb_neq _ 0)) by done. unfold deliver. rewrite bind_get. cbn. rewrite D1. cbn.
  unfold receive, bind, on_socket, modify, put_kinds, get. cbn. rewrite D1. cbn. rewrite R1, (proj2 (Z.eqb_neq _ 0)) by done.
  by rewrite Hn.
Qed.

(** C34: a resolution that fails leaves the socket with a receive block that was
    released: the next datagram, whatever it holds, calls it. *)
Theorem failed_resolution_dangles c held answers env last addr from bytes : resolves c held addr (env BindingTest1) ->
  (forall i, answer_ok (answers i)) -> envs_ok env ->
  didBindingTestSuccess (final_results (config_at c addr) (fun i => heard (answers i)) (results_at c env)) = false ->
  Forall byte bytes -> 0 < zlen bytes <= kNetPacketMaxLen ->
  (resolve_with answers env last ;; datagram_event (Some (from, bytes)) ;; deliver application_block application_callback 0) c =
    Fault OutOfBounds.
Proof.
  intros R Ok Ho Ef By Hz. destruct (resolve_with_holds c held answers env last addr R Ok Ho) as (c' & E & H).
  destruct H as [_ _ _ _ E5 E6 _ E8 _ E10 _]. rewrite Ef, <- E6 in E10. rewrite (bind_done _ _ _ _ _ E).
  by apply (released_block c' held); [|apply R|..].
Qed.

(** a response to another request, valid in itself, cancels the timer of the
    binding test: no task, no timer and no datagram is left, the test is not
    complete, the application is told nothing, and nothing is left that could end the
    test. *)
Theorem stray_response_stalls c held env addr from class l id : resolves c held addr env ->
  answer_ok (Some (from, class, l)) -> zlen (sh_transactionId (env_header env)) = kStunTransactionIdLen ->
  id_ok id -> id <> fresh_id rand env ->
  exists c', (ask block_alloc source_create rand application_block application_callback malloc_node env ;;
      datagram_event (Some (from, enc_response class id l)) ;;
      deliver application_block application_callback 0 ;;
      run_task block_alloc source_create rand application_block application_callback env) c = Done (tt, c') /\
    isCompleted (test_of BindingTest1 (n_tests c')) = false /\ n_queue c' = [] /\ n_sources c' = n_sources c /\
    s_delivered (n_socket c') = [] /\ s_blocks (n_socket c') = [] /\ n_events c' = n_events c.
Proof.
  intros Rv Ok Ho Hid Hne. destruct (answer_understood env id _ Hid Ok Ho) as (_ & By & Hz & Hx).
  destruct (binding_waits block_alloc source_create rand application_block application_callback malloc_node block_fresh source_fresh
    malloc_node_fresh malloc_node_some c held env addr Rv) as (ts & s & o & rb & tb & src & c1 & E1 & R1).
  destruct (stray block_alloc source_create rand application_block application_callback held _ _ _ _ _
    BindingTest1 addr _ 0 _ ts s o rb tb src c1 from _ id _ env (rv_spare _ _ _ _ Rv) R1 By Hz Hx Hne) as (ts2 & s2 & E2 & T2 & _ & [_ Qb Qd] & _).
  eexists. split; [rewrite (bind_done _ _ _ _ _ E1); exact E2|done].
Qed.

End Nat.

(** ** Concrete instances *)

(** The name "stun", the servers, a client on the interface 5, and an
    application that does nothing. *)
Definition demo_name : list Z := [115; 116; 117; 110].
Definition demo_primary : net_addr_t := mkAddr AF_INET (htons (H := LittleEndian) kStunServerDefaultPort) 1.
Definition demo_other : net_addr_t := mkAddr AF_INET 7 2.
Definition demo_rand (seed : Z) (b : nat) : Z := seed + Z.of_nat b.
Definition demo_ignore_block (block packet : Z) : prog net_socket_s unit := ret tt.
Definition demo_ignore_callback (callback context packet : Z) : prog net_socket_s unit := ret tt.

Definition demo_stun_env (i : StunTestId) : stun_env :=
  mkEnv (fun _ => inr [mkAddrinfo (mkAddr AF_INET 0 1) (inr true)]) (inr [mkIfaddr (Some (mkAddr AF_INET 0 5)) true false])
    (Some [inr [block_code i 1; 0; 0; 0]]) blank_header emptyResponse.

Definition stun_client_on (s : net_socket_s) : stun_client :=
  match stunCreate true s demo_name (mkTests blank_test blank_test blank_test blank_test blank_test, no_receiver, zeroAddr) ∅ ∅ with
  | Some c => c
  | None => mkStun false emptyResults (mkStunConfig 0 0 no_receiver [] zeroAddr)
      (mkTests blank_test blank_test blank_test blank_test blank_test) s [] [] ∅ ∅ []
  end.

Definition demo_client : stun_client := stun_client_on demo_socket.

Lemma demo_socket_rests : rests demo_socket [].
Proof. split; [exact (proj1 demo_socket_holds)|exact (proj2 demo_socket_quiet)|exact (proj1 demo_socket_quiet)]. Qed.

Lemma client_resolves s i : rests s [] -> resolves (order := LittleEndian) (stun_client_on s) [] demo_primary (demo_stun_env i).
Proof. intros R. split; [exact R|done|done|by split|done|]. exists 4. by split. Qed.

Lemma demo_resolves i : resolves (order := LittleEndian) demo_client [] demo_primary (demo_stun_env i).
Proof. apply client_resolves, demo_socket_rests. Qed.

Abbreviation demo_resolve := (resolve_with (order := LittleEndian) free_address free_address demo_rand demo_ignore_block demo_ignore_callback next_free).
Abbreviation demo_task := (run_task (H := LittleEndian) free_address free_address demo_rand demo_ignore_block demo_ignore_callback).

(** Only the binding test is answered. *)
Definition demo_answers (mappedTo : net_addr_t) (i : StunTestId) : answer :=
  match i with
  | BindingTest1 => Some (demo_primary, StunMsgClassSuccessResponse, says mappedTo demo_other)
  | _ => None
  end.

Definition demo_mapped : net_addr_t := mkAddr AF_INET 9 9.

Lemma demo_answers_ok mappedTo i : addr_wf mappedTo -> answer_ok (order := LittleEndian) (demo_answers mappedTo i).
Proof.
  intros W. destruct i; try done. cbn [demo_answers answer_ok]. split; [by right; left|]. split; [done|].
  split; [|by rewrite zlen_says]. constructor; [exact W|]. constructor; [by repeat split|done].
Qed.

Lemma demo_mapped_wf : addr_wf demo_mapped.
Proof. by repeat split. Qed.

(** The host of the local address is that of the interface. *)
Lemma demo_local_host env : (forall i, env_ifs (env i) = env_ifs (demo_stun_env i)) -> s_addr (localAddr (results_at (order := LittleEndian) demo_client env)) = 5.
Proof.
  intros E. unfold results_at, located. rewrite E. unfold demo_client. generalize demo_socket. intros s. done.
Qed.

Lemma stun_resolves_witness : exists c', demo_resolve (demo_answers demo_mapped) demo_stun_env (demo_stun_env BindingTest1) demo_client = Done (tt, c') /\
  n_queue c' = [] /\ n_sources c' = n_sources demo_client.
Proof.
  destruct (stun_resolves (order := LittleEndian) free_address free_address demo_rand demo_ignore_block demo_ignore_callback next_free
    free_address_fresh free_address_fresh next_free_fresh next_free_some demo_client [] (demo_answers demo_mapped) demo_stun_env
    (demo_stun_env BindingTest1) demo_primary (demo_resolves BindingTest1) (fun i => demo_answers_ok demo_mapped i demo_mapped_wf)
    (fun i => eq_refl)) as (c' & E & _ & _ & Eq & _ & Es & _).
  exists c'. split; [exact E|]. split; [exact Eq|exact Es].
Defined.

Lemma silent_behavior_fails_witness : exists c', demo_resolve (demo_answers demo_mapped) demo_stun_env (demo_stun_env BindingTest1) demo_client = Done (tt, c') /\
  n_events c' = n_events demo_client ++ [EventDidFailResolve] /\ n_didResolve c' = n_didResolve demo_client /\ mappedAddr (n_results c') = demo_mapped.
Proof.
  apply (silent_behavior_fails (order := LittleEndian) free_address free_address demo_rand demo_ignore_block demo_ignore_callback next_free
    free_address_fresh free_address_fresh next_free_fresh next_free_some demo_client [] (demo_answers demo_mapped) demo_stun_env
    (demo_stun_env BindingTest1) demo_primary demo_primary StunMsgClassSuccessResponse demo_mapped demo_other).
  - exact (demo_resolves BindingTest1).
  - exact (fun i => demo_answers_ok demo_mapped i demo_mapped_wf).
  - exact (fun i => eq_refl).
  - reflexivity.
  - reflexivity.
  - intros E. apply (f_equal s_addr) in E. rewrite demo_local_host in E by reflexivity. discriminate E.
  - reflexivity.
Defined.

Definition demo_refusal (i : StunTestId) : answer :=
  match i with BindingTest1 => Some (demo_primary, StunMsgClassFailureResponse, [AttrError 4 20]) | _ => None end.

Lemma demo_refusal_ok i : answer_ok (order := LittleEndian) (demo_refusal i).
Proof.
  destruct i; try done. cbn [demo_refusal answer_ok]. split; [by right; right; left|]. split; [done|]. split; [by repeat constructor|]. by vm_compute.
Qed.

Lemma error_response_resolves_witness : exists c', demo_resolve demo_refusal demo_stun_env (demo_stun_env BindingTest1) demo_client = Done (tt, c') /\
  n_events c' = n_events demo_client ++ [EventDidResolve] /\ n_didResolve c' = true /\ mappedAddr (n_results c') = zeroAddr.
Proof.
  apply (error_response_resolves (order := LittleEndian) free_address free_address demo_rand demo_ignore_block demo_ignore_callback next_free
    free_address_fresh free_address_fresh next_free_fresh next_free_some demo_client [] demo_refusal demo_stun_env
    (demo_stun_env BindingTest1) demo_primary demo_primary 4 20).
  - exact (demo_resolves BindingTest1).
  - exact demo_refusal_ok.
  - exact (fun i => eq_refl).
  - reflexivity.
  - reflexivity.
Defined.

(** A NAT that takes an address for each host, and lets in what comes from
    hosts to which it has sent. *)
Definition demo_maps (d : net_addr_t) : net_addr_t := mkAddr AF_INET (if s_addr d =? 1 then 1001 else 1002) 9.

Lemma demo_maps_hosts local d e : s_addr local = 5 -> d ∈ four (order := LittleEndian) demo_primary demo_other ->
  e ∈ four (order := LittleEndian) demo_primary demo_other -> demo_maps d <> local /\ (demo_maps d = demo_maps e <-> s_addr d = s_addr e).
Proof.
  intros El Hd He. split; [intros E; apply (f_equal s_addr) in E; rewrite El in E; discriminate E|].
  assert (F : forall a, a ∈ four (order := LittleEndian) demo_primary demo_other -> s_addr a = 1 \/ s_addr a = 2).
  { intros a Ha. unfold four in Ha. repeat (apply elem_of_cons in Ha as [->|Ha]; [by (left + right)|]). by apply not_elem_of_nil in Ha. }
  unfold demo_maps. destruct (F d Hd) as [-> | ->], (F e He) as [-> | ->]; by cbn.
Qed.

Lemma stun_classifies_nat_witness : exists c' sent,
  demo_resolve (nat_answers (order := LittleEndian) demo_maps AdmitsHosts demo_primary demo_other
    (localAddr (results_at (order := LittleEndian) demo_client demo_stun_env))) demo_stun_env (demo_stun_env BindingTest1) demo_client = Done (tt, c') /\
  natBehavior (n_results c') = AddressAndPortDependentMapping /\ natFiltering (n_results c') = UnknownFiltering /\
  didFilteringTestSuccess (n_results c') = false /\
  mappedAddr (n_results c') = mkAddr AF_INET 1001 9 /\ n_events c' = n_events demo_client ++ [EventDidResolve] /\
  s_wire (n_socket c') = s_wire (n_socket demo_client) ++ sent /\
  contacted (order := LittleEndian) demo_maps demo_primary demo_other (localAddr (results_at (order := LittleEndian) demo_client demo_stun_env)) `prefix_of` sent.*1.
Proof.
  apply (stun_classifies_nat (order := LittleEndian) free_address free_address demo_rand demo_ignore_block demo_ignore_callback next_free
    free_address_fresh free_address_fresh next_free_fresh next_free_some MapsHosts AdmitsHosts demo_client [] demo_maps demo_stun_env
    (demo_stun_env BindingTest1) demo_primary demo_other).
  - exact (demo_resolves BindingTest1).
  - exact (fun i => eq_refl).
  - reflexivity.
  - split; [by repeat split|by repeat split|discriminate|discriminate].
  - intros d e. apply demo_maps_hosts, demo_local_host. reflexivity.
  - intros d _. unfold demo_maps. split; [reflexivity| |by split]. cbn. by destruct (_ =? _).
Defined.

Lemma failed_resolution_dangles_witness :
  (demo_resolve (fun _ => None) demo_stun_env (demo_stun_env BindingTest1) ;; datagram_event (Some (demo_other, [1; 2; 3])) ;;
   deliver demo_ignore_block demo_ignore_callback 0) demo_client = Fault OutOfBounds.
Proof.
  apply (failed_resolution_dangles (order := LittleEndian) free_address free_address demo_rand demo_ignore_block demo_ignore_callback next_free
    free_address_fresh free_address_fresh next_free_fresh next_free_some demo_client [] (fun i => None) demo_stun_env
    (demo_stun_env BindingTest1) demo_primary).
  - exact (demo_resolves BindingTest1).
  - exact (fun i => I).
  - exact (fun i => eq_refl).
  - unfold demo_client. generalize demo_socket. intros s. reflexivity.
  - by repeat constructor.
  - by split.
Defined.

Lemma stray_response_stalls_witness : exists c', (ask (order := LittleEndian) free_address free_address demo_rand demo_ignore_block demo_ignore_callback next_free (demo_stun_env BindingTest1) ;;
    datagram_event (Some (demo_primary, enc_response (order := LittleEndian) StunMsgClassSuccessResponse (replicate 12 0) (says demo_mapped demo_other))) ;;
    deliver demo_ignore_block demo_ignore_callback 0 ;; demo_task (demo_stun_env BindingTest1)) demo_client = Done (tt, c') /\
  isCompleted (test_of BindingTest1 (n_tests c')) = false /\ n_queue c' = [] /\ n_sources c' = n_sources demo_client /\
  s_delivered (n_socket c') = [] /\ s_blocks (n_socket c') = [] /\ n_events c' = n_events demo_client.
Proof.
  apply (stray_response_stalls (order := LittleEndian) free_address free_address demo_rand demo_ignore_block demo_ignore_callback next_free
    free_address_fresh free_address_fresh next_free_fresh next_free_some demo_client [] (demo_stun_env BindingTest1) demo_primary
    demo_primary StunMsgClassSuccessResponse (says demo_mapped demo_other) (replicate 12 0)).
  - exact (demo_resolves BindingTest1).
  - exact (demo_answers_ok demo_mapped BindingTest1 demo_mapped_wf).
  - reflexivity.
  - split; [reflexivity|by repeat constructor].
  - discriminate.
Defined.
