(* ===== verification/StunForward.v ===== *)
(** * The STUN client in front of the transactions (src/stun_tests.c, src/transaction.c)

    While the client resolves, its receive block gets what arrives on the
    socket; what is not STUN is forwarded to the receive callback the socket
    had before, here the one of the transactions, on the same socket.  A
    request of a peer that arrives in that time goes through both. *)
From S2P Require Import Prelude Bitstream Wire Fields BitstreamSpec Net Protocol TransactionProtocol Queue Pool NetSocket NetSocketSpec.
From S2P Require Import Transaction TransactionSpec TransactionStep TransactionRun StunProtocol StunProtocolSpec Timeout Stun StunSpec StunRun StunNat.

Section Forward.
Context {order : Host}.
Context (block_alloc : gmap Z stun_block -> Z).
Context (source_create : gmap Z source -> Z).
Context (rand : Z -> nat -> Z).
Context (application_block : Z -> Z -> prog net_socket_s unit).

(** The transactions [t] as the application of the client: their receive
    callback runs on the socket of the client. [out] is what its local
    variables held. *)
Definition transactions_behind (t : TransactionConfiguration) (out : Z * Z) (callback context packet : Z) :
    prog net_socket_s unit := fun s =>
  match transactionSocketReceiveCallback out packet (Transaction.set_socket s t) with
  | Done (_, t') => Done (tt, t_socket t')
  | Fault f => Fault f
  end.

(** *** What is not STUN *)

Ltac bytes := repeat (apply Forall_cons_2; [first [done|by split]|]); apply Forall_nil_2.

Lemma header_bytes id type : uint_ok 1 id -> uint_ok 1 type ->
  enc_transaction_header id type = [0xa2; 0x01; ProtocolTypeTransaction; id; type].
Proof.
  intros Hi Ht. unfold enc_transaction_header, enc_header, enc_int, enc_uint, uint_ok in *. cbn in Hi, Ht.
  destruct host; cbn -[Z.modulo]; rewrite (Z.mod_small id), (Z.mod_small type) by lia; done.
Qed.

(** The fifth byte of a message of the transactions is where the magic cookie
    begins. *)
Lemma not_cookie type body x : type = TransactionTypeResponse \/ type = TransactionTypeRequest ->
  enc_int U32 x = type :: body -> mStunProtocolIsValidMagicCookie x = false.
Proof.
  intros Ht E. apply Z.eqb_neq. intros ->. unfold enc_int, enc_uint in E. destruct host; vm_compute in E; destruct Ht as [-> | ->]; discriminate E.
Qed.

Lemma header_refused out v1 v2 v3 : uint_ok 2 v1 -> uint_ok 2 v2 -> uint_ok 4 v3 -> mStunProtocolIsValidMagicCookie v3 = false ->
  exists b1 h, b1 `prefix_of` enc_int U16 v1 ++ enc_int U16 v2 ++ enc_int U32 v3 /\ parses (stunProtocolUnpackHeader out) b1 (kStunInvalid, h).
Proof.
  intros U1 U2 U3 Hc. destruct (stun_msg_class v1 =? StunMsgClassInvalidMessageClass) eqn:Ec.
  - exists (enc_int U16 v1 ++ []). eexists. split; [rewrite app_nil_r; by apply prefix_app_r|].
    unfold stunProtocolUnpackHeader. eapply parses_bind; [by apply u16_parses|]. cbv zeta. rewrite Ec. apply parses_ret.
  - exists (enc_int U16 v1 ++ enc_int U16 v2 ++ enc_int U32 v3 ++ []). eexists. split; [by rewrite app_nil_r|].
    unfold stunProtocolUnpackHeader. eapply parses_bind; [by apply u16_parses|]. cbv zeta. rewrite Ec.
    eapply parses_bind; [by apply u16_parses|]. eapply parses_bind; [by apply u32_parses|]. rewrite Hc. apply parses_ret.
Qed.

(** The first bytes are enough to see that it is not STUN. *)
Lemma transaction_not_stun out reply id type body : type = TransactionTypeResponse \/ type = TransactionTypeRequest ->
  uint_ok 1 id -> Forall byte body -> 3 <= zlen body ->
  exists b1 ident, b1 `prefix_of` enc_transaction_header id type ++ body /\
    parses (stunProtocolUnpackBindingResponse out reply) b1 (kStunInvalid, ident, reply).
Proof.
  intros Ht Hi Hb Hz. assert (Ut : uint_ok 1 type) by (by destruct Ht as [-> | ->]).
  rewrite header_bytes by done. destruct body as [|c0 [|c1 [|c2 body]]]; unfold zlen in Hz; cbn in Hz; try lia.
  do 3 (apply Forall_cons in Hb as [? Hb]).
  assert (Bi : byte id) by (by unfold uint_ok in Hi). assert (Bt : byte type) by (by unfold uint_ok in Ut).
  destruct (enc_int_onto U16 [0xa2; 0x01]) as (v1 & U1 & E1); [bytes|done|].
  destruct (enc_int_onto U16 [ProtocolTypeTransaction; id]) as (v2 & U2 & E2); [bytes|done|].
  destruct (enc_int_onto U32 [type; c0; c1; c2]) as (v3 & U3 & E3); [bytes|done|].
  destruct (header_refused out v1 v2 v3 U1 U2 U3 (not_cookie type _ v3 Ht E3)) as (b1 & h & P & R).
  exists b1, (sh_transactionId h). split.
  - etransitivity; [exact P|]. rewrite E1, E2, E3. by exists body.
  - unfold stunProtocolUnpackBindingResponse. rewrite <- (app_nil_r b1). eapply parses_bind; [exact R|]. apply parses_ret.
Qed.

(** *** What the transactions do with it *)

Lemma holding_room from bytes k : holding from bytes k -> bs_wf (pk_bitstream k) /\ room (pk_bitstream k) = kNetPacketMaxLen.
Proof.
  intros (_ & _ & [[L B] O Bd] & _). unfold room, pk_data, kNetPacketMaxLen in *. split; [|lia]. split; rewrite ?O, ?Bd; unfold kNetPacketMaxLen; lia || done.
Qed.

(** A request is dispatched; the task has the reference of the callback. *)
Lemma callback_dispatches t out s owners p k from tid body : t_isEnabled t = true ->
  socket_holds s (p :: owners) [] -> s_blocks s = [] -> Z.of_nat (length owners) + 2 < 2 ^ 32 ->
  s_packets s !! p = Some k -> uint_ok 1 tid -> zlen body <= kNetPacketMaxLen - 5 ->
  holding from (enc_transaction_header tid TransactionTypeRequest ++ body) k ->
  exists s', transactionSocketReceiveCallback out p (Transaction.set_socket s t) =
      Done (tt, set_queue (t_queue t ++ [TaskRequest p tid]) (Transaction.set_socket s' t)) /\
    socket_holds s' (p :: owners) [] /\ same_queues s s' /\ (forall o, o <> p -> s_packets s' !! o = s_packets s !! o).
Proof.
  intros En H Hb Hl Ek Hi Hz Hk. pose proof (holding_room _ _ _ Hk) as [W Rm]. destruct Hk as (_ & Kd & Ku & _).
  destruct (ahead_split _ _ _ W (unread_ahead k _ Ku Kd)) as [Ah _]. pose proof (zlen_transaction_header tid TransactionTypeRequest) as Zh.
  pose proof (unpack_transaction_header_parses out tid TransactionTypeRequest Hi ltac:(done) _ W ltac:(unfold kNetPacketMaxLen in *; lia) Ah) as E.
  destruct (holds_object s _ _ p H ltac:(by left)) as [Hp _].
  set (k' := mkPacket (pk_addr k) (pk_length k) (skip (pk_bitstream k) (zlen (enc_transaction_header tid TransactionTypeRequest)))).
  set (s1 := set_packets (<[p := k']> (s_packets s)) s).
  assert (H1 : socket_holds s1 (p :: owners) []).
  { apply (holds_write s _ _ p k k' H Ek); [apply skip_packet_wf, Ku|]. rewrite Hb. intros Hin. by apply not_elem_of_nil in Hin. }
  destruct (retain_holds s1 p (p :: owners) [] H1 ltac:(by left)) as (s2 & E2 & Q2 & P2 & H2).
  { unfold references. cbn. rewrite Hb, !app_nil_r. lia. }
  destruct (release_holds s2 p (p :: owners) [] H2) as (s3 & E3 & Q3 & P3 & H3).
  exists s3. split; [|split; [done|split; [|intros o Ho; rewrite P3, P2; by apply lookup_insert_ne]]].
  2:{ transitivity s1; [by split|]. by transitivity s2. }
  unfold transactionSocketReceiveCallback. rewrite bind_get. cbn [Transaction.set_socket t_isEnabled]. rewrite En.
  set (c := Transaction.set_socket s t).
  assert (E1 : Transaction.on_socket (on_bitstream p (transactionProtocolUnpackHeader out)) c =
    Done ((UnpackValid, (tid, TransactionTypeRequest)), Transaction.set_socket s1 t)).
  { etransitivity; [exact (trans_socket_done _ c _ _ (on_bitstream_done s p k _ _ _ Hp Ek E))|reflexivity]. }
  rewrite bind_assoc, (bind_done _ _ _ _ _ E1). cbn beta iota. rewrite decide_True by done. cbn [fst snd Z.eqb].
  change (TransactionTypeRequest =? TransactionTypeResponse) with false. rewrite Z.eqb_refl. cbv iota.
  unfold transactionDidReceiveRequest. rewrite bind_assoc.
  rewrite (bind_done _ _ _ _ _ (trans_socket_done (net_packet_retain p) (Transaction.set_socket s1 t) tt s2 E2)).
  unfold Transaction.dispatch_async. rewrite bind_modify.
  set (c2 := set_queue _ _). by rewrite (trans_socket_done (net_packet_release p) c2 tt s3 E3).
Qed.

(** *** Both *)

Section Both.
Context (held : list Z) (apps : gmap Z stun_block) (others : gmap Z source).
Context (did : bool) (config : StunConfig) (ev : list stun_event).

(** While any of the tests runs. *)
Lemma forwarded t out env i dest id n r ts s o rb tb src c from tid body from' bytes' :
  t_isEnabled t = true -> receiveBlock (socket_info config) = 0 -> receiveCallback (socket_info config) <> 0 ->
  spare held -> running held apps others did config ev i dest id n r ts s o rb tb src c ->
  uint_ok 1 tid -> Forall byte body -> 3 <= zlen body <= kNetPacketMaxLen - 5 ->
  Forall byte bytes' -> 0 < zlen bytes' <= kNetPacketMaxLen ->
  exists p c' s0 t' c'' k, (datagram_event (Some (from, enc_transaction_header tid TransactionTypeRequest ++ body)) ;;
      deliver application_block (transactions_behind t out) 0 ;;
      run_task block_alloc source_create rand application_block (transactions_behind t out) env) c = Done (tt, c') /\
    transactionSocketReceiveCallback out p (Transaction.set_socket s0 t) = Done (tt, t') /\
    t_queue t' = t_queue t ++ [TaskRequest p tid] /\ net_packet_release p (t_socket t') = Done (tt, n_socket c') /\
    running held apps others did config ev i dest id n r ts (n_socket c') o rb tb src c' /\
    datagram_event (Some (from', bytes')) c' = Done (tt, c'') /\
    s_packets (n_socket c'') !! p = Some k /\ holding from' bytes' k.
Proof.
  intros En Ib Ic Sp R Hi Hb Hz Hb' Hz'. set (bytes := enc_transaction_header tid TransactionTypeRequest ++ body).
  destruct (transaction_not_stun (env_header env) (env_response env) tid TransactionTypeRequest body ltac:(by right) Hi Hb ltac:(lia))
    as (b1 & ident & Pre & Hx).
  assert (By : Forall byte bytes).
  { apply Forall_app. split; [|done]. apply (pack_transaction_header_emits tid TransactionTypeRequest). }
  assert (Zb : 0 < zlen bytes <= kNetPacketMaxLen) by (unfold bytes; rewrite zlen_app, zlen_transaction_header; lia).
  destruct (handled_prefix block_alloc source_create rand application_block (transactions_behind t out) held apps others did config ev
    i dest id n r ts s o rb tb src c from b1 bytes _ env Sp R By Zb Pre Hx)
    as (p & k & s1 & E1 & Hp & Ek & Kk & Eo & [H1 B1 D1] & Hn & R1 & W1).
  pose proof Kk as (_ & _ & [Wk _ _] & _). set (s2 := set_packets (<[p := rewound k]> (s_packets s1)) s1).
  assert (H2 : socket_holds s2 (p :: o :: held) []).
  { apply (holds_write s1 _ _ p k (rewound k) H1 Ek Wk). rewrite B1. intros Hin. by apply not_elem_of_nil in Hin. }
  assert (E2 : on_bitstream p bitstream_reset s1 = Done (tt, s2)) by (by apply (on_bitstream_done s1 p k)).
  destruct (callback_dispatches t out s2 (o :: held) p (rewound k) from tid body En H2 B1 ltac:(cbn [length]; destruct Sp; lia)
    (lookup_insert_eq _ _ _) Hi ltac:(lia) Kk) as (s3 & E3 & H3 & Q3 & P3).
  assert (Q : same_queues s1 s3) by (transitivity s2; [by split|done]). destruct Q as [_ Qb Qd Qw Qa Qr].
  destruct (release_holds s3 p (o :: held) [] H3) as (s4 & E4 & [_ Q4b Q4d Q4w Q4a Q4r] & P4 & H4).
  destruct (release_reuse s3 p (o :: held) [] H3) as (s4' & s5 & E4' & E5).
  { unfold references. by rewrite Qb, B1, !app_nil_r. }
  rewrite E4 in E4'. injection E4' as <-.
  destruct (read_event_at s4 (o :: held) [] (Some (from', bytes')) H4 Hb') as (s6 & E6 & _ & _ & _ & _ & A).
  assert (Ex : exhausted s4 (o :: held) [] = false).
  { unfold exhausted, references. rewrite Q4b, Qb, B1, !app_nil_r. apply Z.eqb_neq. pose proof (count_cons_le o held). destruct Sp. lia. }
  rewrite Ex in A. destruct A as (p' & k' & (s0 & A0) & _ & _ & P6 & _ & _ & Hk'). rewrite E5 in A0. injection A0 as <- _.
  pose proof R as [Ec Et Hnz Hbl Hsrc Hrs (ko & Eko & Cko) Hrec].
  set (c' := client did config ev r ts s4 [] (n_blocks c) (n_sources c)).
  exists p, c', s2, (set_queue (t_queue t ++ [TaskRequest p tid]) (Transaction.set_socket s3 t)).
  eexists _, k'. split; [|split; [exact E3|split; [done|split; [exact E4|split; [|split]]]]].
  - etransitivity; [exact E1|]. unfold respond_to. change (kStunInvalid =? kStunValid) with false. cbv iota.
    unfold stunTestForward.
    step (on_socket_result did config ev (on_bitstream p bitstream_reset) r ts s1 [] (n_blocks c) (n_sources c) tt s2 E2).
    rewrite ?bind_assoc, bind_get. cbn [client n_config]. rewrite Ib, (proj2 (Z.eqb_neq (receiveCallback _) 0)) by done. cbn [Z.eqb negb].
    assert (E3' : transactions_behind t out (receiveCallback (socket_info config)) (receiveCallbackContext (socket_info config)) p s2 = Done (tt, s3))
      by (unfold transactions_behind; by rewrite E3).
    step (on_socket_result did config ev _ r ts s2 [] (n_blocks c) (n_sources c) tt s3 E3').
    exact (on_socket_result did config ev _ r ts s3 [] (n_blocks c) (n_sources c) tt s4 E4).
  - split; try done.
    + unfold c'. by rewrite Ec.
    + split; [done|cbn; congruence|cbn; congruence].
    + exists ko. split; [|done]. cbn. rewrite P4, P3.
      * cbn. rewrite lookup_insert_ne; [congruence|]. intros ->. apply Hn. by left.
      * intros ->. apply Hn. by left.
    + cbn. congruence.
  - unfold c', datagram_event. rewrite bind_get. rewrite (bind_done _ _ _ _ _ (on_socket_result did config ev _ r ts s4 [] _ _ tt s6 E6)). reflexivity.
  - split; [|apply Hk'; cbn; apply Z.leb_le; lia]. cbn. case_match; cbn; rewrite P6; apply lookup_insert_eq.
Qed.

End Both.

(** ** The theorem *)

Context (malloc_node : gmap Z queue_node_s -> option (Z * queue_node_s)).
Hypothesis block_fresh : fresh_address block_alloc.
Hypothesis source_fresh : fresh_address source_create.
Hypothesis malloc_node_fresh : malloc_fresh malloc_node.
Hypothesis malloc_node_some : forall h, malloc_node h <> None.

(** C7: a request of a peer that arrives while the client asks its server, on a
    socket whose callback is the one of the transactions, is forwarded to them,
    and they dispatch a task that keeps the packet; then the client releases
    the packet a second time: the task is left without a reference, and the
    next datagram, from anybody, is written into the packet before the task has
    read it. The test goes on and the client has told nothing. *)
Theorem forwarded_request_overwritten c held env addr t out from tid body from' bytes' :
  resolves c held addr env -> receiveBlock (s_receiver (n_socket c)) = 0 -> receiveCallback (s_receiver (n_socket c)) <> 0 ->
  t_isEnabled t = true -> uint_ok 1 tid -> Forall byte body -> 3 <= zlen body <= kNetPacketMaxLen - 5 ->
  Forall byte bytes' -> 0 < zlen bytes' <= kNetPacketMaxLen ->
  exists p c' s0 t' c'' k, (ask block_alloc source_create rand application_block (transactions_behind t out) malloc_node env ;;
      datagram_event (Some (from, enc_transaction_header tid TransactionTypeRequest ++ body)) ;;
      deliver application_block (transactions_behind t out) 0 ;;
      run_task block_alloc source_create rand application_block (transactions_behind t out) env) c = Done (tt, c') /\
    transactionSocketReceiveCallback out p (Transaction.set_socket s0 t) = Done (tt, t') /\
    t_queue t' = t_queue t ++ [TaskRequest p tid] /\ net_packet_release p (t_socket t') = Done (tt, n_socket c') /\
    isCompleted (test_of BindingTest1 (n_tests c')) = false /\ n_events c' = n_events c /\
    datagram_event (Some (from', bytes')) c' = Done (tt, c'') /\
    s_packets (n_socket c'') !! p = Some k /\ holding from' bytes' k.
Proof.
  intros Rv Ib Ic En Hi Hb Hz Hb' Hz'.
  destruct (binding_waits block_alloc source_create rand application_block (transactions_behind t out) malloc_node block_fresh source_fresh
    malloc_node_fresh malloc_node_some c held env addr Rv) as (ts & s & o & rb & tb & src & c1 & E1 & R1).
  destruct (forwarded held (n_blocks c) (n_sources c) (n_didResolve c) (resolved_config (s_receiver (n_socket c)) addr (n_config c)) (n_events c)
    t out env BindingTest1 addr _ 0 _ ts s o rb tb src c1 from tid body from' bytes' En Ib Ic
    (rv_spare _ _ _ _ Rv) R1 Hi Hb Hz Hb' Hz') as (p & c' & s0 & t' & c'' & k & E & E2 & Q & E3 & R & E4 & H).
  exists p, c', s0, t', c'', k. split; [rewrite (bind_done _ _ _ _ _ E1); exact E|]. do 3 (split; [done|]).
  destruct R as [Ec Et _ _ _ _ _ _]. split; [rewrite Ec; cbn [client n_tests]; by rewrite Et|]. split; [by rewrite Ec|done].
Qed.

End Forward.

(** ** Concrete instances *)

Lemma demo_client_receiver : s_receiver (n_socket demo_client) = mkInfo 1 0 0.
Proof. by vm_compute. Qed.

Lemma forwarded_request_overwritten_witness : exists p c' s0 t' c'' k,
  (ask (order := LittleEndian) free_address free_address demo_rand demo_ignore_block
     (transactions_behind demo_agent (0, 0)) next_free (demo_stun_env BindingTest1) ;;
   datagram_event (Some (demo_peer_address, enc_transaction_header (H := LittleEndian) 9 TransactionTypeRequest ++ [1; 2; 3])) ;;
   deliver demo_ignore_block (transactions_behind demo_agent (0, 0)) 0 ;;
   run_task (H := LittleEndian) free_address free_address demo_rand demo_ignore_block
     (transactions_behind demo_agent (0, 0)) (demo_stun_env BindingTest1)) demo_client = Done (tt, c') /\
  transactionSocketReceiveCallback (0, 0) p (Transaction.set_socket s0 demo_agent) = Done (tt, t') /\
  t_queue t' = t_queue demo_agent ++ [TaskRequest p 9] /\ net_packet_release p (t_socket t') = Done (tt, n_socket c') /\
  isCompleted (test_of BindingTest1 (n_tests c')) = false /\ n_events c' = n_events demo_client /\
  datagram_event (Some (demo_other, [7; 7])) c' = Done (tt, c'') /\
  s_packets (n_socket c'') !! p = Some k /\ holding demo_other [7; 7] k.
Proof.
  apply (forwarded_request_overwritten (order := LittleEndian) free_address free_address demo_rand demo_ignore_block next_free
    free_address_fresh free_address_fresh next_free_fresh next_free_some demo_client [] (demo_stun_env BindingTest1) demo_primary
    demo_agent (0, 0) demo_peer_address 9 [1; 2; 3] demo_other [7; 7]).
  - exact (demo_resolves BindingTest1).
  - rewrite demo_client_receiver. reflexivity.
  - rewrite demo_client_receiver. discriminate.
  - reflexivity.
  - by split.
  - by repeat constructor.
  - by split.
  - by repeat constructor.
  - by split.
Defined.
