(* ===== verification/Logs.v ===== *)
(** * What is logged (src/stun.c, src/stream.c, src/net_addr.c, src/net_error.c)

    The report of the STUN client, the statistics of a stream, and the
    addresses and errors in the log.  A log is the list of the texts that
    [printf] writes; a build that is neither for debugging nor for tests
    writes none. *)
From S2P Require Import Prelude Bitstream Floats Net StreamFlow StreamReliability NetSocket Stream Stun.
From stdpp Require Import strings pretty.
From Stdlib Require Import Ascii.

#[local] Open Scope Z_scope.
#[local] Open Scope string_scope.
#[local] Open Scope list_scope.

Definition newline : string := String (ascii_of_nat 10) EmptyString.

(** [DEBUG | TEST] of the build. *)
Definition mNetworkLog (debug : bool) (text : string) : list string :=
  if debug then ["Network: " +:+ text +:+ newline] else [].

(** ** Errors *)

(** The values of the enumeration. *)
Definition error_value (error : NetError) : Z :=
  match error with
  | NetNoError => 0 | NetUnreachableError => 1 | NetNotKnownError => 2 | NetCouldNotResolveError => 3
  | NetBindError => 4 | NetSockError => 5 | NetInvalidError => 6 | NetOtherError => 7
  end.

Definition netErrorLog (debug : bool) (error : NetError) : list string :=
  let value := pretty (error_value error) in
  match error with
  | NetNoError => mNetworkLog debug ("NetNoError (" +:+ value +:+ ")")
  | NetUnreachableError => mNetworkLog debug ("NetUnreachableError (" +:+ value +:+ ")")
  | NetNotKnownError => mNetworkLog debug ("NetNotKnownError (" +:+ value +:+ ")")
  | NetCouldNotResolveError => mNetworkLog debug ("NetCouldNotResolveError (" +:+ value +:+ ")")
  | NetBindError => mNetworkLog debug ("NetBindError (" +:+ value +:+ ")")
  | NetSockError => mNetworkLog debug ("NetSockError (" +:+ value +:+ ")")
  | NetInvalidError => mNetworkLog debug ("NetInvalidError (" +:+ value +:+ ")")
  | NetOtherError => mNetworkLog debug ("NetOtherError (" +:+ value +:+ ")")
  end.

(** ** Addresses and reports *)

Section Report.
Context `{Host}.
(** [inet_ntoa]: the text of the value of an [in_addr]. *)
Context (inet_ntoa : Z -> string).
Context (debug : bool).

Definition net_addr_log (addr : net_addr_t) : list string :=
  mNetworkLog debug ("addr " +:+ inet_ntoa (s_addr addr) +:+ ":" +:+ pretty (ntohs (sin_port addr))).

Definition log_binding (results : StunResults) : list string :=
  if didBindingTestSuccess results then
    mNetworkLog debug "BindingTest: Success" ++
    mNetworkLog debug "Local Address:" ++
    net_addr_log (localAddr results) ++
    mNetworkLog debug "Mapped Address:" ++
    net_addr_log (mappedAddr results) ++
    (if hasOtherServerAddress results then
       mNetworkLog debug "Server Another Address: True" ++
       mNetworkLog debug "Server Alternate Addresses:" ++
       net_addr_log (otherServerPrimaryHostAddr results) ++
       net_addr_log (otherServerPrimaryPortAddr results) ++
       net_addr_log (otherServerAddr results)
     else mNetworkLog debug "Server Another Address: False")
  else mNetworkLog debug "BindingTest: Fail".

Definition log_behavior (results : StunResults) : list string :=
  if didBehaviorTestSuccess results then
    mNetworkLog debug "BehaviorTest: Success" ++
    match natBehavior results with
    | DirectMapping => mNetworkLog debug "NAT Behavior: DirectMapping"
    | EndpointIndependentMapping => mNetworkLog debug "NAT Behavior: EndpointIndependentMapping"
    | AddressDependentMapping => mNetworkLog debug "NAT Behavior: AddressDependentMapping"
    | AddressAndPortDependentMapping => mNetworkLog debug "NAT Behavior: AddressAndPortDependentMapping"
    | UnknownBehavior => mNetworkLog debug "NAT Behavior: Unknown"
    end
  else mNetworkLog debug "BehaviorTest: Fail".

Definition log_filtering (results : StunResults) : list string :=
  if didFilteringTestSuccess results then
    mNetworkLog debug "FilteringTest: Success" ++
    match natFiltering results with
    | DirectConnectionFiltering => mNetworkLog debug "NAT Filtering: DirectConnectionFiltering"
    | EndpointIndependentFiltering => mNetworkLog debug "NAT Filtering: EndpointIndependentFiltering"
    | AddressDependentFiltering => mNetworkLog debug "NAT Filtering: AddressDependentFiltering"
    | AddressAndPortDependentFiltering => mNetworkLog debug "NAT Filtering: AddressAndPortDependentFiltering"
    | UnknownFiltering => mNetworkLog debug "NAT Filtering: Unknown"
    end
  else mNetworkLog debug "FilteringTest: Fail".

Definition stunLog (config : StunConfig) (results : StunResults) : list string :=
  mNetworkLog debug "STUN report" ++
  mNetworkLog debug "Server Address:" ++
  net_addr_log (primaryServerAddr config) ++
  log_binding results ++ log_behavior results ++ log_filtering results.

End Report.

(** ** The statistics of a stream *)

Section Statistics.
(** [%.1f] of [printf]. *)
Context (decimal : double -> string).
Context (debug : bool).

(** The promotion of a [float] that is passed to [printf]; [%d] takes an
    [unsigned int] as an [int]. *)
Definition shown_float (x : float) : string := decimal (f64_of_f32 x).
Definition shown_unsigned (x : Z) : string := pretty (s32 x).

(** In percent. *)
Definition lost_ratio (r : StreamReliability) : float :=
  if f_gt (f32_of_Z (totalSentPackets r)) f_zero then
    f32_mul (f32_div (f32_of_Z (totalLostPackets r)) (f32_of_Z (totalSentPackets r))) (f32_of_Z 100)
  else f_zero.

Definition streamLog (stream : Stream) : list string :=
  let r := st_reliability stream in
  mNetworkLog debug (newline +:+ "rtt " +:+ shown_float (f32_mul (rtt r) (f32_of_Z 1000)) +:+
    "ms, sent " +:+ shown_unsigned (totalSentPackets r) +:+
    ", acked " +:+ shown_unsigned (totalAckedPackets r) +:+
    ", lost " +:+ shown_unsigned (totalLostPackets r) +:+
    " (" +:+ shown_float (lost_ratio r) +:+
    "%), sent bandwidth = " +:+ shown_float (sentBandwidth r) +:+
    "kbps, acked bandwidth = " +:+ shown_float (ackedBandwidth r) +:+
    "kbps, flow = " +:+ (if decide (fl_mode (st_flow stream) = StreamFlowModeGood) then "good" else "bad") +:+ newline).

End Statistics.

(** ** What a report says *)

Definition addr_shown `{Host} (addr : net_addr_t) : Z * Z := (s_addr addr, ntohs (sin_port addr)).

(** What there is to see in the results of a client. *)
Definition binding_shown `{Host} (r : StunResults) : option ((Z * Z) * (Z * Z) * option ((Z * Z) * (Z * Z) * (Z * Z))) :=
  if didBindingTestSuccess r then
    Some (addr_shown (localAddr r), addr_shown (mappedAddr r),
      if hasOtherServerAddress r then
        Some (addr_shown (otherServerPrimaryHostAddr r), addr_shown (otherServerPrimaryPortAddr r), addr_shown (otherServerAddr r))
      else None)
  else None.

Definition behavior_shown (r : StunResults) : option StunNatBehavior :=
  if didBehaviorTestSuccess r then Some (natBehavior r) else None.

Definition filtering_shown (r : StunResults) : option StunNatFiltering :=
  if didFilteringTestSuccess r then Some (natFiltering r) else None.

Definition report_addrs (config : StunConfig) (r : StunResults) : list net_addr_t :=
  [primaryServerAddr config; localAddr r; mappedAddr r; otherServerPrimaryHostAddr r; otherServerPrimaryPortAddr r; otherServerAddr r].

(** *** Texts *)

Fixpoint avoids (c : ascii) (s : string) : Prop :=
  match s with EmptyString => True | String x s' => x <> c /\ avoids c s' end.

Lemma split_at c : forall a b p q, avoids c a -> avoids c b -> a +:+ String c p = b +:+ String c q -> a = b /\ p = q.
Proof.
  induction a as [|x a IH]; intros [|y b] p q Ha Hb E; cbn in *; simplify_eq; try tauto.
  destruct (IH b p q) as [-> ->]; [tauto|tauto|done|done].
Qed.

Lemma append_newline : forall a b, a +:+ newline = b +:+ newline -> a = b.
Proof.
  induction a as [|x a IH]; intros [|y b] E; cbn in E; simplify_eq; [done| | |].
  - by destruct b.
  - by destruct a.
  - f_equal. by apply IH.
Qed.

Lemma line_inj a b (k k' : list string) : mNetworkLog true a ++ k = mNetworkLog true b ++ k' -> a = b /\ k = k'.
Proof.
  intros E. unfold mNetworkLog in E. rewrite <- !app_comm_cons, !app_nil_l in E. injection E as E1 E2.
  split; [by apply append_newline|done].
Qed.

Section Faithful.
Context `{Host}.
Context (inet_ntoa : Z -> string).
(** Dotted decimal: one text for each address, without a colon. *)
Hypothesis ntoa_inj : forall a b, 0 <= a < 2 ^ 32 -> 0 <= b < 2 ^ 32 -> inet_ntoa a = inet_ntoa b -> a = b.
Hypothesis ntoa_avoids : forall a, 0 <= a < 2 ^ 32 -> avoids ":" (inet_ntoa a).

Abbreviation shown_in_range a := (0 <= s_addr a < 2 ^ 32).

(** The parts of a report, whatever follows them. *)
Lemma addr_inj a b k k' : shown_in_range a -> shown_in_range b ->
  net_addr_log inet_ntoa true a ++ k = net_addr_log inet_ntoa true b ++ k' -> addr_shown a = addr_shown b /\ k = k'.
Proof.
  intros Ha Hb E. apply line_inj in E as [E ->]. apply (inj (String.append "addr ")) in E. unfold addr_shown.
  apply (split_at ":") in E as [E1 E2]; [|by apply ntoa_avoids..]. cbn in E2.
  by rewrite (ntoa_inj _ _ Ha Hb E1), (inj pretty _ _ E2).
Qed.

Lemma addr_same a b : addr_shown a = addr_shown b -> net_addr_log inet_ntoa true a = net_addr_log inet_ntoa true b.
Proof. unfold addr_shown, net_addr_log. intros E. by injection E as -> ->. Qed.

(** Peel the lines that both reports start with. *)
Ltac same_lines := repeat match goal with
  | E : _ ++ _ = _ ++ _ |- _ => rewrite <- ?app_assoc in E; first
      [ apply addr_inj in E as [? E]; [|done..] | apply line_inj in E as [? E]; try done ]
  end.

Lemma binding_inj r r' k k' : Forall (fun a => shown_in_range a) [localAddr r; mappedAddr r; otherServerPrimaryHostAddr r; otherServerPrimaryPortAddr r; otherServerAddr r] ->
  Forall (fun a => shown_in_range a) [localAddr r'; mappedAddr r'; otherServerPrimaryHostAddr r'; otherServerPrimaryPortAddr r'; otherServerAddr r'] ->
  log_binding inet_ntoa true r ++ k = log_binding inet_ntoa true r' ++ k' -> binding_shown r = binding_shown r' /\ k = k'.
Proof.
  rewrite !Forall_cons. intros (? & ? & ? & ? & ? & _) (? & ? & ? & ? & ? & _) E. unfold log_binding, binding_shown in *.
  destruct (didBindingTestSuccess r), (didBindingTestSuccess r'); try (by same_lines).
  destruct (hasOtherServerAddress r), (hasOtherServerAddress r'); same_lines; try done; split; congruence.
Qed.

Lemma behavior_inj r r' k k' : log_behavior true r ++ k = log_behavior true r' ++ k' -> behavior_shown r = behavior_shown r' /\ k = k'.
Proof.
  unfold log_behavior, behavior_shown. intros E.
  destruct (didBehaviorTestSuccess r), (didBehaviorTestSuccess r'); try (by same_lines).
  destruct (natBehavior r), (natBehavior r'); by same_lines.
Qed.

Lemma filtering_inj r r' k k' : log_filtering true r ++ k = log_filtering true r' ++ k' -> filtering_shown r = filtering_shown r' /\ k = k'.
Proof.
  unfold log_filtering, filtering_shown. intros E.
  destruct (didFilteringTestSuccess r), (didFilteringTestSuccess r'); try (by same_lines).
  destruct (natFiltering r), (natFiltering r'); by same_lines.
Qed.

(** two reports of the STUN client are the same exactly when everything
    there is to see is: the server, the outcome of each test, and what the
    tests that succeeded found; what a test that failed has left in the
    results is never shown. *)
Theorem report_faithful config r config' r' :
  Forall (fun a => shown_in_range a) (report_addrs config r) -> Forall (fun a => shown_in_range a) (report_addrs config' r') ->
  stunLog inet_ntoa true config r = stunLog inet_ntoa true config' r' <->
  addr_shown (primaryServerAddr config) = addr_shown (primaryServerAddr config') /\
  binding_shown r = binding_shown r' /\ behavior_shown r = behavior_shown r' /\ filtering_shown r = filtering_shown r'.
Proof.
  unfold report_addrs. rewrite !(Forall_cons _ (primaryServerAddr _)). intros [Hp Ha] [Hp' Ha']. unfold stunLog. split.
  - intros E. same_lines. apply binding_inj in E as [Eb E]; [|done..]. apply behavior_inj in E as [Eh E].
    rewrite <- (app_nil_r (log_filtering true r)), <- (app_nil_r (log_filtering true r')) in E. apply filtering_inj in E as [Ef _]. done.
  - intros (Ep & Eb & Eh & Ef). rewrite (addr_same _ _ Ep). do 3 f_equal. f_equal; [|f_equal].
    + unfold binding_shown in Eb. unfold log_binding.
      destruct (didBindingTestSuccess r), (didBindingTestSuccess r'); try done.
      apply (inj Some), pair_equal_spec in Eb as [[El Em]%pair_equal_spec Eo]. rewrite (addr_same _ _ El), (addr_same _ _ Em).
      destruct (hasOtherServerAddress r), (hasOtherServerAddress r'); try done.
      apply (inj Some), pair_equal_spec in Eo as [[E1 E2]%pair_equal_spec E3]. by rewrite (addr_same _ _ E1), (addr_same _ _ E2), (addr_same _ _ E3).
    + unfold behavior_shown in Eh. unfold log_behavior.
      destruct (didBehaviorTestSuccess r), (didBehaviorTestSuccess r'); try done. by injection Eh as ->.
    + unfold filtering_shown in Ef. unfold log_filtering.
      destruct (didFilteringTestSuccess r), (didFilteringTestSuccess r'); try done. by injection Ef as ->.
Qed.
End Faithful.

(** *** Witness: dotted decimal, on a host with little-endian integers *)

Definition dotted (a : Z) : string :=
  pretty (a mod 256) +:+ String "." (pretty (a / 256 mod 256) +:+ String "." (pretty (a / 65536 mod 256) +:+
    String "." (pretty (a / 16777216)))).

(** The separators, which no number has. *)
Definition is_separator (c : ascii) : Prop := c = "."%char \/ c = ":"%char.

Lemma avoids_digits c x : is_separator c -> forall s, avoids c s -> avoids c (pretty_N_go x s).
Proof.
  intros Hc. induction (N.lt_wf_0 x) as [x _ IH]; intros s Hs.
  destruct (decide (0 < x)%N) as [Hx|Hx]; [|by replace x with 0%N by lia].
  rewrite pretty_N_go_step by done. apply IH; [by apply N.div_lt|]. split; [|done].
  unfold pretty_N_char. destruct Hc as [-> | ->]; by repeat case_match.
Qed.

Lemma avoids_pretty c x : is_separator c -> 0 <= x -> avoids c (pretty x).
Proof.
  intros Hc Hx. assert (avoids c "0") by (destruct Hc as [-> | ->]; by cbn).
  destruct x as [|x|x]; [done| |lia]. unfold pretty, pretty_Z, pretty, pretty_positive, pretty, pretty_N.
  by apply avoids_digits.
Qed.

Lemma avoids_app c a b : avoids c a -> avoids c b -> avoids c (a +:+ b).
Proof. induction a as [|x a IH]; cbn; [done|]. intros [? ?] ?. split; [done|]. by apply IH. Qed.

Lemma dotted_avoids a : 0 <= a < 2 ^ 32 -> avoids ":" (dotted a).
Proof.
  intros Ha. unfold dotted. repeat (apply avoids_app; [apply avoids_pretty; [by right|lia]|]; split; [done|]).
  apply avoids_pretty; [by right|lia].
Qed.

Lemma dotted_inj a b : 0 <= a < 2 ^ 32 -> 0 <= b < 2 ^ 32 -> dotted a = dotted b -> a = b.
Proof.
  intros Ha Hb E. unfold dotted in E.
  apply (split_at ".") in E as [E1%(inj pretty) E]; [|apply avoids_pretty; [by left|lia]..].
  apply (split_at ".") in E as [E2%(inj pretty) E]; [|apply avoids_pretty; [by left|lia]..].
  apply (split_at ".") in E as [E3%(inj pretty) E4%(inj pretty)]; [|apply avoids_pretty; [by left|lia]..]. lia.
Qed.

#[local] Instance report_host : Host := LittleEndian.

Definition report_config : StunConfig := mkStunConfig 1000 2 no_receiver [] (mkAddr AF_INET (htons 3478) 0x0100007f).

(** Behind a NAT with one mapping for all destinations; what the filtering
    tests left is [left_behind]. *)
Definition report_results (left_behind : StunNatFiltering) : StunResults :=
  with_natFiltering left_behind (with_didBehaviorTestSuccess true (with_natBehavior EndpointIndependentMapping
    (with_mappedAddr (mkAddr AF_INET (htons 4000) 0x04030201) (with_localAddr (mkAddr AF_INET (htons 5000) 0x0200000a)
      (with_didBindingTestSuccess true emptyResults))))).

Example report_lines : stunLog dotted true report_config (report_results UnknownFiltering) =
  (fun text => "Network: " +:+ text +:+ newline) <$>
  ["STUN report"; "Server Address:"; "addr 127.0.0.1:3478"; "BindingTest: Success"; "Local Address:"; "addr 10.0.0.2:5000";
   "Mapped Address:"; "addr 1.2.3.4:4000"; "Server Another Address: False"; "BehaviorTest: Success";
   "NAT Behavior: EndpointIndependentMapping"; "FilteringTest: Fail"].
Proof. vm_compute. reflexivity. Qed.

Lemma report_faithful_witness :
  stunLog dotted true report_config (report_results UnknownFiltering) =
  stunLog dotted true report_config (report_results DirectConnectionFiltering).
Proof.
  apply (proj2 (report_faithful dotted dotted_inj dotted_avoids report_config (report_results UnknownFiltering)
    report_config (report_results DirectConnectionFiltering)
    ltac:(repeat constructor; vm_compute; congruence) ltac:(repeat constructor; vm_compute; congruence))).
  repeat split; reflexivity.
Defined.

(** A stream that has lost one packet of four. *)
Definition report_stream : Stream :=
  let r := set_sent 4 4 400 (set_totals 2 3 1 (set_rtt (f32_lit 1 4) (streamReliabilityClear []))) in
  mkStream StreamWaiting r streamFlowClear zeroAddr f_zero f_zero.

(** Whole numbers, for the example. *)
Example stream_line : streamLog (fun x => pretty (f_trunc x)) true report_stream =
  ["Network: " +:+ newline +:+ "rtt 250ms, sent 4, acked 3, lost 1 (25%), sent bandwidth = 0kbps, acked bandwidth = 0kbps, flow = bad" +:+
   newline +:+ newline].
Proof. vm_compute. reflexivity. Qed.
